(* ===== verification/_CoqProject ===== *)
-Q . S2P
Prelude.v
CString.v
Vsprintf.v
Time.v
Dts.v
Keymap.v
Tty.v
Kbd.v
Paging.v
Heap.v
Abi.v
Vfs.v
Namei.v
Mount.v
Files.v
Task.v
Initrdfs.v
Mkinitrd.v
Devfs.v
Drivers.v
Ext2.v
Ports.v
Floppy.v
Acpi.v
Elf.v
Exec.v
Stack.v
Ktext.v
Nish.v
Traps.v
Urandom.v
Frames.v
Refs.v
Kernel.v
Setup.v
Boot.v
Tables.v
User.v
System.v
Kmain.v
Fair.v
