(* ===== verification/Prelude.v ===== *)
(** * A verification development for the Nupkux kernel

    Nupkux is a small monolithic kernel for the i386, with a few user programs
    and a tool that builds its initial ram disk.  This library models the
    kernel's own logic in Rocq, file by file, and proves what makes it
    correct; where the code does not do what it means to, a theorem says what
    it does instead.

    ** The program and the files that model it

    Paths are below [src/src/] unless they start with [src/].

    - Foundations.  [Prelude] has the machine integers, checked array access,
      the outcomes and the state monad.  [CString] is lib/string.c and
      lib/memory.c, [Vsprintf] lib/vsprintf.c.
    - The machine.  [Dts] is kernel/dts.c: descriptor tables and the dispatch of
      interrupts.  [Paging] is mm/paging.c: the frame bitmap, page tables and
      address spaces.  [Heap] is mm/mm.c: the allocator on byte memory.  The
      heap maps pages and paging allocates tables on the heap; the typeclass
      [Paging.KAlloc] with its laws [KAllocLaws] is what paging asks of the
      allocator, and [Heap.kalloc_heap] ties the two together with fuel.
      [Time] is kernel/time.c.
    - Processes.  [Abi] holds the constants of the interface and the system call
      dispatch (kernel/syscall.c, unistd.h); [Task] is kernel/task.c, sched.c
      and exit.c against the interface [TaskEnv] to files and memory; [Elf] is
      kernel/elf.c; [Exec] is fs/exec.c and usr/crt0.S: [sys_execve], which
      joins [Namei], [Files], [Elf] and the memory of the process; [Stack] is
      [move_stack] of kernel/task.c on the same memory.  [Traps] joins the table
      of handlers of [Dts] with [Task]: the timer interrupt (kernel/time.c), the
      page fault (mm/paging.c) and the end of a process as others see it.
    - Files.  [Vfs] is fs/vfs/vfs.c and vnode.c.  A file system is an instance of
      the typeclass [Vfs.FsOps] over its own private state; [Vfs.FsLaws] states
      what the vnode cache needs of it.  [Namei] is fs/namei.c, [Mount]
      fs/mount.c, [Files] fs/open.c, read_write.c and fcntl.c.  The file systems
      are [Initrdfs] (fs/initrdfs/), [Devfs] (fs/devfs/) and [Ext2] (fs/ext2/
      and fs/vfs/buffer.c); each works in any kernel state that has its own
      state inside ([Initrdfs.Sub], [SubLaws], [Drivers.SubDisj]).  What ext2
      needs of a disk is the class [Ext2.BlockDevice], and
      [Ext2.ramdisk_block_device] shows that the ram disk provides it.
    - Devices.  [Drivers] is drivers/drivers.c, ramdisk.c and pseudo.c; its
      [Module Lock] is the device lock as a step relation over all processes.
      [Urandom] is urandom.c, in the floating-point formats of the processor.
      [Keymap], [Kbd] and [Tty] are drivers/tty/.  [Ports] (ata.c, serial.c,
      pc_speaker.c, fdc/dma_lib.c), [Floppy] (fdc/fdc_lib.c) and [Acpi] (acpi.c)
      run against a scripted device: the values the driver reads are given, what
      it writes is logged.
    - The kernel's own console and shell.  [Ktext] is kernel/ktextio.c; [Nish] is
      kernel/nish.c, with processes and the clock behind the class
      [Nish.NishSys].
    - Starting and stopping.  [Setup] is the making of the devices
      ([setup_drivers] and what it calls, [nish]); [Boot] is
      [read_multiboot_info] of kernel/main.c and kernel/sys.c; [Kmain] is
      [_kmain] from [setup_tasking] on and [init], on the whole kernel.
    - The whole kernel.  [Tables] is what lies at the address of every operation
      table, as a tower: [kernel_tables n] serves [n] operations that call each
      other.  [Frames] and its class [FsQuiet] say what path lookup and the
      operations of a file system leave alone; [kernel_tables_quiet] shows it of
      all of them.  [Refs] counts the descriptors that name an open file through
      every call on files.  [Kernel] is the instance of [TaskEnv] that [Task]
      asks for: the open files of [Files] and the memory of [Paging] and [Heap].
      [System] is the step relation of the programs of [User] on that kernel:
      system calls, [execve], the timer, devices and exceptions.  [Fair] carries
      what the scheduler of [Traps] needs through every step.
    - User programs.  [User] is src/usr/: the library's system calls, stdio and
      [atoi], and every program (init, getty, login, sh) as an interaction tree
      over the system calls it makes.  Its handlers [keyboard] and [family] are
      the kernel as a program sees it: a [read] of the console takes the next
      key, as [Tty.tty_read] does, and [fork] answers in the parent or the child.
    - The host.  [Mkinitrd] is src/tools/mkinitrd/main.c, the program that writes
      the image [Initrdfs] mounts.

    ** How code is rendered

    A C integer is a [Z] wrapped at its width ([u8] ... [s32]).  A pointer into
    an array is the list of cells from it on, or an offset; a kernel object is
    an entry of a [gmap] at its address, and 0 is the null pointer.  A function
    that changes state is a function in the monad [M], whose outcomes are a
    normal return [Ok], an access through a bad pointer or outside an array
    [Fault], and [Fuel].  An operation table is a record of functions and is
    named by its address, as in the code; a chain of objects linked by [next]
    is the list of their addresses.

    Recursion that is not structural takes fuel.  Where the code ends, a theorem
    gives the fuel that is enough: the length of the format for [vsprintf]
    ([vsprintf_terminates]), one more than the number of vnodes for a chain of
    mounts, which visits each once ([resolve_mount_unbounded]), one more than the length of the script for the polling loops of
    [Ports] ([poll_run]), 64 rounds for the task table ([next_runnable_spec]).
    Where it does not, a theorem says that no fuel is enough
    ([heap_malloc_exhausted], [ramdisk_error_keeps_lock],
    [waitfdc_never_waits], [find_facp_runs_on], [sqrt_zero_never_returns],
    [crossed_output_never_returns]).  Three levels of [kernel_tables] are enough
    for the boot and a console ([boot_says_hi]); the theorems on the whole kernel
    hold for every number of levels.  That
    the root of every other state is found is shown for small states only
    ([rand_of_small_states]).

    ** What the theorems show

    - Memory: [malloc] and [free] keep the layout of the heap and the bytes of
      other blocks; an address space is cloned into one that shares the kernel
      and nothing else, and freeing it gives back exactly its own frames.
    - Files: the vnode cache has one vnode per inode; getting and putting a
      vnode, duplicating and closing a descriptor, registering a file system
      or a device and removing it again restore the state; the lowest free
      descriptor is used; what the file systems read are the bytes of the
      image or disk, with the conditions under which ext2 does; searches find
      the entry they should; the image built from a directory tree holds it.
    - Processes: under the timer every waiting task runs, and an interrupted one
      goes on where it was; a process that ends leaves its status to its parent;
      the boot stack is moved with the addresses on it; a fork makes a
      copy in a cloned address space, a segment is loaded where it belongs, a
      program that is executed gets the arguments it was given.
    - Devices: the input ring is a bounded queue, a write to the console stays
      in its memory, the device lock excludes, is fair and loses no wake-up,
      the ram disk returns what was written to it and is never left except
      when sector numbers wrap, the controllers are programmed with the
      address they should get.
    - The machine as a whole: from the boot on, whatever programs run and however
      they are interleaved, the count of an open file is the number of its
      descriptors in all processes and no descriptor dangles
      ([descriptors_never_dangle]), and every process that is ready runs within
      64 timer interrupts ([no_process_starves]); the drivers register exactly the devices that are
      there, in a tree that stays well formed; init starts a getty per console,
      getty opens its console, and every line typed at the shell that fits
      reaches the kernel's shell as it was edited; restarting talks to the
      keyboard controller as it has to.
    - Formatting and time: decimal output can be read back, the clock agrees
      with a reference calendar.
    - Errors and flaws: the theorems named after what happens
      ([namei_leaks_parent], [heap_free_dead_footer], [sys_umount_never_succeeds],
      [ext2_read_wrong_length], ...).

    ** Not modelled

    Assembly (boot/); the calls of [_kmain] before [setup_tasking], which set up
    components with states of their own; messages the kernel prints in passing;
    the processor's registers beyond those a switch or a system call names.
    Hardware appears as parameters, scripts and logs only.  In [System] a call
    runs to its end, as it does with interrupts off: a call that waits inside
    the kernel (a console without a key, a device lock) is answered when it can
    be; what a program does with memory behind its arrays, and after a failed
    [execve] has overwritten its stack, is unknown; the machine code of a
    program is the parameter [binary].  The kernel shell's device has its data in
    [Nish], outside that state.  src/usr/libc/string.c and vsprintf.c are the
    kernel's files but for their includes and are modelled there. *)
From Stdlib Require Export ZArith Lia String Ascii ZifyBool.
From stdpp Require Export base gmap list tactics.
(* stdpp's list lemmas take precedence over the Standard Library's *)
Export list_basics.list list_relations.list list_monad.list list_misc.list
  list_tactics.list list_numbers.list.
#[global] Open Scope Z_scope.

(** [lia] also knows about [/] and [mod]. *)
#[global] Arguments Z.of_nat : simpl never.
#[global] Arguments Z.eqb !_ !_ : simpl nomatch.
#[global] Arguments Z.ltb !_ !_ : simpl nomatch.
#[global] Arguments Z.leb !_ !_ : simpl nomatch.
#[global] Arguments Z.add !_ !_ : simpl nomatch.
#[global] Arguments Z.sub !_ !_ : simpl nomatch.
#[global] Arguments Z.mul !_ !_ : simpl nomatch.
Ltac Zify.zify_post_hook ::= Z.to_euclidean_division_equations.

(** ** Machine integers

    A C integer is a [Z]; arithmetic is done on [Z] and wrapped at the width
    of the C type where the code stores or converts the result.  [UCHAR] is
    [u8], [USHORT] is [u16], [UINT]/[ULONG]/pointers are [u32], [char] is
    [s8] (signed on i386), [int]/[long] are [s32]. *)
Definition u8 (z : Z) : Z := z mod 256.
Definition u16 (z : Z) : Z := z mod 65536.
Definition u32 (z : Z) : Z := z mod 4294967296.
Definition s8 (z : Z) : Z := (z + 128) mod 256 - 128.
Definition s32 (z : Z) : Z := (z + 2147483648) mod 4294967296 - 2147483648.

Definition UINT_MAX : Z := 4294967295.

Lemma u8_range z : 0 <= u8 z < 256.
Proof. unfold u8. lia. Qed.
Lemma u16_range z : 0 <= u16 z < 65536.
Proof. unfold u16. lia. Qed.
Lemma u32_range z : 0 <= u32 z < 4294967296.
Proof. unfold u32. lia. Qed.
Lemma s8_range z : -128 <= s8 z < 128.
Proof. unfold s8. lia. Qed.
Lemma s32_range z : -2147483648 <= s32 z < 2147483648.
Proof. unfold s32. lia. Qed.

Lemma u8_id z : 0 <= z < 256 -> u8 z = z.
Proof. unfold u8. lia. Qed.
Lemma u16_id z : 0 <= z < 65536 -> u16 z = z.
Proof. unfold u16. lia. Qed.
Lemma u32_id z : 0 <= z < 4294967296 -> u32 z = z.
Proof. unfold u32. lia. Qed.
Lemma s8_id z : -128 <= z < 128 -> s8 z = z.
Proof. unfold s8. lia. Qed.
Lemma s32_id z : -2147483648 <= z < 2147483648 -> s32 z = z.
Proof. unfold s32. lia. Qed.

Lemma u32_add_u32 a b : u32 (u32 a + b) = u32 (a + b).
Proof. unfold u32. lia. Qed.
Lemma s32_add_s32 a b : s32 (s32 a + b) = s32 (a + b).
Proof. unfold s32. lia. Qed.
Lemma s32_add_mult a k : s32 (a + k * 4294967296) = s32 a.
Proof.
  unfold s32. replace (a + k * 4294967296 + 2147483648)
    with (a + 2147483648 + k * 4294967296) by lia.
  by rewrite Z.mod_add by lia.
Qed.
Lemma u32_add_mult a k : u32 (a + k * 4294967296) = u32 a.
Proof. unfold u32. by rewrite Z.mod_add by lia. Qed.
Lemma s32_quot a : exists q, s32 a = a + q * 4294967296.
Proof. unfold s32. exists (- ((a + 2147483648) / 4294967296)). lia. Qed.
Lemma u32_quot a : exists q, u32 a = a + q * 4294967296.
Proof. unfold u32. exists (- (a / 4294967296)). lia. Qed.
Lemma s32_mul_s32 a b : s32 (s32 a * b) = s32 (a * b).
Proof.
  destruct (s32_quot a) as [q ->].
  replace ((a + q * 4294967296) * b) with (a * b + (q * b) * 4294967296) by lia.
  apply s32_add_mult.
Qed.
Lemma u32_mul_u32 a b : u32 (u32 a * b) = u32 (a * b).
Proof.
  destruct (u32_quot a) as [q ->].
  replace ((a + q * 4294967296) * b) with (a * b + (q * b) * 4294967296) by lia.
  apply u32_add_mult.
Qed.

(** Opens up the wrapping functions so that [lia] can reason about them. *)
Ltac unfold_width := unfold u8, u16, u32, s8, s32, UINT_MAX in *.
Ltac width := unfold_width; lia.

(** A word is bounded exactly when its high bits are clear. *)
Lemma bits_bound x n : 0 <= n -> (forall k, n <= k -> Z.testbit x k = false) -> 0 <= x < 2 ^ n.
Proof.
  intros Hn H. assert (x = x mod 2 ^ n) as ->; [|apply Z.mod_pos_bound, Z.pow_pos_nonneg; lia].
  rewrite <- Z.land_ones by done. apply Z.bits_inj'. intros k Hk. rewrite Z.land_spec.
  destruct (decide (k < n)); [rewrite Z.ones_spec_low by lia|rewrite H by lia; done].
  by rewrite andb_true_r.
Qed.

Lemma bits_high x n k : 0 <= x < 2 ^ n -> 0 <= n <= k -> Z.testbit x k = false.
Proof.
  intros Hx Hk. destruct (decide (x = 0)) as [->|]; [apply Z.bits_0|].
  apply Z.bits_above_log2; [lia|]. assert (Z.log2 x < n) by (apply Z.log2_lt_pow2; lia). lia.
Qed.

(** ** Characters and string literals

    A [char] is its signed value.  A pointer into a character array is the
    list of the cells from the pointer to the end of the array it points
    into; reading it when that list is empty is an access outside the
    array. *)
Definition chr (c : ascii) : Z := s8 (Z.of_N (N_of_ascii c)).
Definition chars (s : string) : list Z := chr <$> list_ascii_of_string s.
(** The literal as C stores it, with the closing NUL. *)
Definition lit (s : string) : list Z := chars s ++ [0].

(** ** Checked array access with a C index *)
Section arrays.
Context {A : Type}.

(** [a[i]]: [None] when [i] is outside the array. *)
Definition aget (l : list A) (i : Z) : option A :=
  if i <? 0 then None else l !! Z.to_nat i.

(** [a[i] = x]: [None] when [i] is outside the array. *)
Definition aset (l : list A) (i : Z) (x : A) : option (list A) :=
  if (0 <=? i) && (i <? Z.of_nat (length l))
  then Some (<[Z.to_nat i := x]> l) else None.

Lemma aget_Some (l : list A) i :
  0 <= i < Z.of_nat (length l) -> is_Some (aget l i).
Proof.
  intros H. unfold aget. destruct (i <? 0) eqn:E; [lia|].
  apply lookup_lt_is_Some_2. lia.
Qed.

Lemma aget_nat (l : list A) (n : nat) : aget l (Z.of_nat n) = l !! n.
Proof. unfold aget. replace (Z.of_nat n <? 0) with false by lia. by rewrite Nat2Z.id. Qed.

Lemma aget_app (l r : list A) x i : i = Z.of_nat (length l) -> aget (l ++ x :: r) i = Some x.
Proof. intros ->. rewrite aget_nat. by apply list_lookup_middle. Qed.

Lemma aget_inv (l : list A) i x :
  aget l i = Some x -> 0 <= i < Z.of_nat (length l) /\ l !! Z.to_nat i = Some x.
Proof.
  unfold aget. destruct (i <? 0) eqn:E; [done|]. intros H. split; [|done].
  apply lookup_lt_Some in H. lia.
Qed.

Lemma aset_Some (l : list A) i x :
  0 <= i < Z.of_nat (length l) -> aset l i x = Some (<[Z.to_nat i := x]> l).
Proof. intros H. unfold aset. by replace ((0 <=? i) && (i <? Z.of_nat (length l))) with true by lia. Qed.

Lemma aset_app (l r : list A) x y i : i = Z.of_nat (length l) -> aset (l ++ x :: r) i y = Some (l ++ y :: r).
Proof.
  intros ->. rewrite aset_Some by (rewrite length_app; simpl; lia).
  rewrite Nat2Z.id, insert_app_r_alt by done. by rewrite Nat.sub_diag.
Qed.

Lemma aset_inv (l l' : list A) i x :
  aset l i x = Some l' ->
  0 <= i < Z.of_nat (length l) /\ l' = <[Z.to_nat i := x]> l.
Proof. unfold aset. case_match eqn:E; [|done]. intros [= <-]. split; [lia|done]. Qed.

Lemma aset_length (l l' : list A) i x : aset l i x = Some l' -> length l' = length l.
Proof. intros [_ ->]%aset_inv. apply length_insert. Qed.

Lemma aset_None (l : list A) i x :
  aset l i x = None <-> i < 0 \/ Z.of_nat (length l) <= i.
Proof. unfold aset. case_match eqn:E; split; intros; try done; lia. Qed.

Lemma aget_aset_eq (l l' : list A) i x : aset l i x = Some l' -> aget l' i = Some x.
Proof.
  intros [Hi ->]%aset_inv. unfold aget. replace (i <? 0) with false by lia.
  apply list_lookup_insert_eq. lia.
Qed.

Lemma aget_aset_ne (l l' : list A) i j x :
  i <> j -> aset l i x = Some l' -> aget l' j = aget l j.
Proof.
  intros Hne [Hi ->]%aset_inv. unfold aget. destruct (j <? 0) eqn:E; [done|].
  apply list_lookup_insert_ne. lia.
Qed.
End arrays.

(** ** Outcomes

    [Ok] is a normal return, [Fault] an access through a null or dangling
    pointer or outside an array (what the C code does next is not defined by
    the source), [Fuel] says that the fuel given to a loop or a recursion that
    is not structural ran out: for such definitions the development either
    proves a fuel for which [Fuel] is impossible, or that no fuel is enough,
    which is how a non-terminating run shows. *)
Inductive res (A : Type) : Type :=
  | Ok (a : A)
  | Fault
  | Fuel.
Arguments Ok {A} a.
Arguments Fault {A}.
Arguments Fuel {A}.

(** ** A state monad with outcomes *)
Definition M (S A : Type) : Type := S -> res (A * S).

Section monad.
Context {S : Type}.
Definition ret {A} (a : A) : M S A := fun s => Ok (a, s).
Definition bind {A B} (m : M S A) (f : A -> M S B) : M S B :=
  fun s => match m s with
           | Ok (a, s') => f a s'
           | Fault => Fault
           | Fuel => Fuel
           end.
Definition fault {A} : M S A := fun _ => Fault.
Definition nofuel {A} : M S A := fun _ => Fuel.
Definition gets {A} (f : S -> A) : M S A := fun s => Ok (f s, s).
Definition modify (f : S -> S) : M S unit := fun s => Ok (tt, f s).
(** The value of a partial read; a missing value is a fault. *)
Definition get_or_fault {A} (f : S -> option A) : M S A :=
  fun s => match f s with Some a => Ok (a, s) | None => Fault end.
Definition upd_or_fault (f : S -> option S) : M S unit :=
  fun s => match f s with Some s' => Ok (tt, s') | None => Fault end.

Lemma bind_ret_l {A B} (a : A) (f : A -> M S B) s : bind (ret a) f s = f a s.
Proof. reflexivity. Qed.

Lemma bind_Ok {A B} (m : M S A) (f : A -> M S B) s b s'' :
  bind m f s = Ok (b, s'') <-> exists a s', m s = Ok (a, s') /\ f a s' = Ok (b, s'').
Proof.
  unfold bind. split.
  - destruct (m s) as [[a s']| |]; naive_solver.
  - intros (a & s' & -> & H). done.
Qed.

(** Preservation of a state predicate by a computation, on its normal
    returns, with a predicate on the returned value. *)
Definition preserves {A} (P : S -> Prop) (m : M S A) (Q : A -> S -> Prop) : Prop :=
  forall s a s', P s -> m s = Ok (a, s') -> P s' /\ Q a s'.
Lemma bind_step {A B} (m : M S A) (f : A -> M S B) b a b' : m b = Ok (a, b') -> bind m f b = f a b'.
Proof. unfold bind. by intros ->. Qed.
End monad.

Declare Scope nup_scope.
Delimit Scope nup_scope with nup.
Notation "'let!' x ':=' m 'in' k" := (bind m (fun x => k))
  (at level 10, x name, m at level 200, k at level 200, only parsing) : nup_scope.
Notation "'let!' ' p ':=' m 'in' k" := (bind m (fun x => match x with p => k end))
  (at level 10, p pattern, m at level 200, k at level 200, only parsing) : nup_scope.
Notation "'do!' m ; k" := (bind m (fun _ => k))
  (at level 10, m at level 200, k at level 200, only parsing) : nup_scope.

(** ** C truth values *)
Definition b2z (b : bool) : Z := if b then 1 else 0.
(** [x & mask] used as a condition. *)
Definition test (x mask : Z) : bool := negb (Z.land x mask =? 0).

(** ** Automation *)

(** Splits the outcome of a chain of monadic calls that returned. *)
Ltac inv_bind H :=
  lazymatch type of H with
  | bind _ _ _ = Ok (_, _) =>
      let a := fresh "a" in let s := fresh "st" in
      let H1 := fresh "Hm" in
      apply bind_Ok in H as (a & s & H1 & H); simpl in H
  end.

(** Case analysis on the boolean conditions of a definition. *)
Ltac case_cond :=
  match goal with
  | |- context [if ?b then _ else _] =>
      lazymatch b with context [if _ then _ else _] => fail | _ => destruct b eqn:? end
  end.
Ltac case_cond_in H :=
  match type of H with
  | context [if ?b then _ else _] =>
      lazymatch b with context [if _ then _ else _] => fail | _ => destruct b eqn:? end
  end.

(** Evaluates a condition that arithmetic decides. *)
Ltac zcond :=
  match goal with
  | |- context [if ?b then _ else _] =>
      first [ replace b with true by lia | replace b with false by lia ]
  end.

Create HintDb nup.
Create Rewrite HintDb nup.
#[export] Hint Resolve u8_range u16_range u32_range s8_range s32_range : nup.
#[export] Hint Rewrite u32_add_u32 s32_add_s32 s32_mul_s32 u32_mul_u32 : nup.

(** ** Generic list lemmas *)
Section lists.
Context {A : Type}.

Lemma take_insert_S (l : list A) (n : nat) x :
  (n < length l)%nat -> take (S n) (<[n := x]> l) = take n l ++ [x].
Proof.
  intros H. rewrite (take_S_r _ _ x).
  - by rewrite take_insert_ge.
  - by apply list_lookup_insert_eq.
Qed.

Lemma Forall_aset (P : A -> Prop) (l l' : list A) i x :
  Forall P l -> P x -> aset l i x = Some l' -> Forall P l'.
Proof. intros H1 H2 [_ ->]%aset_inv. by apply Forall_insert. Qed.

Lemma Forall_aget (P : A -> Prop) (l : list A) i x :
  Forall P l -> aget l i = Some x -> P x.
Proof. intros H [_ Hx]%aget_inv. eapply Forall_lookup_1; eauto. Qed.
End lists.

Lemma fmap_rev {A B} (f : A -> B) (l : list A) : f <$> rev l = rev (f <$> l).
Proof. apply List.map_rev. Qed.

(** ** Checking a finite range by computation *)
Definition forall_below (n : nat) (f : Z -> bool) : bool := forallb (fun k => f (Z.of_nat k)) (seq 0 n).

Lemma forall_below_spec n f z : forall_below n f = true -> 0 <= z < Z.of_nat n -> f z = true.
Proof.
  unfold forall_below. rewrite forallb_forall. intros H Hz.
  specialize (H (Z.to_nat z) ltac:(apply in_seq; lia)). by rewrite Z2Nat.id in H by lia.
Qed.
