(* ===== verification/CString.v ===== *)
(** * The kernel's string and memory routines

    [src/src/lib/string.c] and [src/src/lib/memory.c].  A [char] pointer is
    the list of cells from the pointer to the end of the array it points into
    (so [s++] is the tail and a read of [[]] is out of the array); a nullable
    pointer is an [option] of it.  A routine that writes returns the new
    cells of the destination array, [None] when it leaves the array. *)
From S2P Require Import Prelude.

(** ** Definitions *)

(** [strcmp]'s loop and its last comparison. *)
Fixpoint strcmp_loop (s1 s2 : list Z) : option Z :=
  match s1, s2 with
  | c1 :: r1, c2 :: r2 =>
      if negb (c1 =? 0) && negb (c2 =? 0) then
        if c1 <? c2 then Some (-1)
        else if c2 <? c1 then Some 1
        else strcmp_loop r1 r2
      else if negb (c1 =? c2) then Some (if c1 <? c2 then -1 else 1)
      else Some 0
  | _, _ => None
  end.

Definition strcmp (s1 s2 : option (list Z)) : option Z :=
  match s1, s2 with
  | Some s1, Some s2 => strcmp_loop s1 s2
  | _, _ => Some 0
  end.

(** [strncmp]: the post-decrement [n--] in the loop condition wraps when it
    finds [n = 0]. *)
Fixpoint strncmp_loop (s1 s2 : list Z) (n : Z) : option Z :=
  match s1, s2 with
  | c1 :: r1, c2 :: r2 =>
      if negb (c1 =? 0) && negb (c2 =? 0) then
        if negb (n =? 0) then
          if c1 <? c2 then Some (-1)
          else if c2 <? c1 then Some 1
          else strncmp_loop r1 r2 (u32 (n - 1))
        else
          let n := u32 (n - 1) in
          if negb (n =? 0) && negb (c1 =? c2) then Some (if c1 <? c2 then -1 else 1) else Some 0
      else if negb (n =? 0) && negb (c1 =? c2) then Some (if c1 <? c2 then -1 else 1)
      else Some 0
  | c1 :: _, [] => if (c1 =? 0) && (n =? 0) then Some 0 else None
  | [], _ => None
  end.

Definition strncmp (s1 s2 : option (list Z)) (n : Z) : option Z :=
  match s1, s2 with
  | Some s1, Some s2 => strncmp_loop s1 s2 n
  | _, _ => Some 0
  end.

Fixpoint strlen_loop (str : list Z) (res : Z) : option Z :=
  match str with
  | [] => None
  | c :: str => if negb (c =? 0) then strlen_loop str (u32 (res + 1)) else Some res
  end.
Definition strlen (str : list Z) : option Z := strlen_loop str 0.

(** The result is the nullable pointer [strchr] returns. *)
Fixpoint strchr (str : list Z) (c : Z) : option (option (list Z)) :=
  match str with
  | [] => None
  | x :: r =>
      if negb (x =? 0) && negb (x =? c) then strchr r c
      else if x =? 0 then Some None
      else Some (Some (x :: r))
  end.

Fixpoint strcpy (dest src : list Z) {struct src} : option (list Z) :=
  match src, dest with
  | c :: src, _ :: dest =>
      if negb (c =? 0) then cons c <$> strcpy dest src else Some (0 :: dest)
  | _, _ => None
  end.

(** [while (num--) *(tmp++) = value;] *)
Fixpoint fill (tmp : list Z) (value num : Z) : option (list Z) :=
  if num =? 0 then Some tmp
  else match tmp with
       | [] => None
       | _ :: tmp => cons value <$> fill tmp value (num - 1)
       end.

(** [strncpy]: when [*src] is not the end and [num] is 0 the test [num--]
    leaves [num] at [UINT_MAX], and the padding loop starts from there. *)
Fixpoint strncpy (dest src : list Z) (num : Z) {struct src} : option (list Z) :=
  match src with
  | [] => None
  | c :: src =>
      if negb (c =? 0) then
        if negb (num =? 0) then
          match dest with
          | [] => None
          | _ :: dest => cons c <$> strncpy dest src (u32 (num - 1))
          end
        else fill dest 0 (u32 (num - 1))
      else fill dest 0 num
  end.

(** [strtok_save]: one pass over the delimiters. The result is [skip] and the
    advanced [s]. *)
Fixpoint strtok_pass (del s : list Z) (skip : bool) : option (bool * list Z) :=
  match del with
  | [] => None
  | d :: del =>
      if negb (d =? 0) then
        match s with
        | [] => None
        | c :: r =>
            if negb (c =? 0) then
              if c =? d then strtok_pass del r false else strtok_pass del s skip
            else Some (skip, s)
        end
      else Some (skip, s)
  end.

Fixpoint strtok_skip (fuel : nat) (delim s : list Z) : res (list Z) :=
  match fuel with
  | O => Fuel
  | S fuel =>
      match strtok_pass delim s true with
      | None => Fault
      | Some (true, s) => Ok s
      | Some (false, s) => strtok_skip fuel delim s
      end
  end.

(** The position, from [s], of the nearest delimiter or of the end. *)
Fixpoint strtok_end (del s : list Z) (tmp : Z) : option Z :=
  match del with
  | [] => None
  | d :: del =>
      if negb (d =? 0) then
        occ ← strchr s d;
        match occ with
        | Some occ =>
            let pos := Z.of_nat (length s) - Z.of_nat (length occ) in
            strtok_end del s (if pos <? tmp then pos else tmp)
        | None => strtok_end del s tmp
        end
      else Some tmp
  end.

(** What a call leaves: the returned pointer with the cells that follow it,
    and the saved pointer. *)
Record strtok_result := { tok : option (list Z); saved : option (list Z) }.

Definition strtok_save (s delim ptr : option (list Z)) : res strtok_result :=
  match delim with
  | None => Ok {| tok := s; saved := ptr |}
  | Some [] => Fault
  | Some (d :: dl) =>
      if d =? 0 then Ok {| tok := s; saved := ptr |}
      else
        match match s with Some _ => s | None => ptr end with
        | None => Ok {| tok := None; saved := ptr |}
        | Some s =>
            match strtok_skip (S (length s)) (d :: dl) s with
            | Fault => Fault
            | Fuel => Fuel
            | Ok [] => Fault
            | Ok (c :: r as s) =>
                if c =? 0 then Ok {| tok := None; saved := ptr |}
                else
                  match strlen s with
                  | None => Fault
                  | Some n =>
                      match strtok_end (d :: dl) s n with
                      | None => Fault
                      | Some tmp =>
                          match aget s tmp with
                          | None => Fault
                          | Some e =>
                              if negb (e =? 0)
                              then Ok {| tok := Some (<[Z.to_nat tmp := 0]> s);
                                         saved := Some (drop (Z.to_nat (tmp + 1)) s) |}
                              else Ok {| tok := Some s; saved := None |}
                          end
                      end
                  end
            end
        end
  end.

(** [strtok] keeps the saved pointer in the static [strtok_save_ptr]. *)
Definition strtok (strtok_save_ptr : option (list Z)) (s delim : option (list Z)) : res strtok_result :=
  strtok_save s delim strtok_save_ptr.

(** *** [memory.c] *)

Fixpoint memcpy (target src : list Z) (count : nat) : option (list Z) :=
  match count with
  | O => Some target
  | S count =>
      match target, src with
      | _ :: target, c :: src => cons c <$> memcpy target src count
      | _, _ => None
      end
  end.

Definition memset (target : list Z) (value count : Z) : option (list Z) :=
  fill target (s8 value) count.

Definition memsetw (target : list Z) (value count : Z) : option (list Z) :=
  fill target (u16 value) count.

(** The cells are the [UCHAR] values the code compares. *)
Fixpoint memcmp (s1 s2 : list Z) (n : nat) : option Z :=
  match n with
  | O => Some 0
  | S n =>
      match s1, s2 with
      | c1 :: s1, c2 :: s2 => if negb (u8 c1 =? u8 c2) then Some (u8 c1 - u8 c2) else memcmp s1 s2 n
      | _, _ => None
      end
  end.

(** ** The string an array holds *)

(** The characters up to the first NUL; [None] when there is none. *)
Fixpoint cstr (p : list Z) : option (list Z) :=
  match p with
  | [] => None
  | c :: p => if c =? 0 then Some [] else cons c <$> cstr p
  end.

(** Lexicographic order on the character values, as the C library has it. *)
Fixpoint lex (a b : list Z) : Z :=
  match a, b with
  | [], [] => 0
  | [], y :: _ => if 0 <? y then -1 else 1
  | x :: _, [] => if x <? 0 then -1 else 1
  | x :: a, y :: b => if x <? y then -1 else if y <? x then 1 else lex a b
  end.

(** ** Lemmas on strings *)
Section cstr.
Lemma cstr_app s rest :
  Forall (fun c => c <> 0) s -> cstr (s ++ 0 :: rest) = Some s.
Proof.
  induction s as [|c s IH]; intros H; simpl; [done|].
  apply Forall_cons_1 in H as [Hc H]. rewrite IH by done.
  by destruct (Z.eqb_spec c 0).
Qed.

Lemma cstr_split p s :
  cstr p = Some s -> exists rest, p = s ++ 0 :: rest /\ Forall (fun c => c <> 0) s.
Proof.
  revert s. induction p as [|c p IH]; simpl; intros s H; [done|].
  destruct (Z.eqb_spec c 0) as [->|Hc].
  - injection H as <-. by exists p.
  - destruct (cstr p) as [t|] eqn:E; simplify_eq/=.
    destruct (IH t) as (rest & -> & Ht); [done|]. exists rest. split; [done|].
    by constructor.
Qed.

Lemma strlen_loop_spec p s n :
  cstr p = Some s -> 0 <= n -> n + Z.of_nat (length s) < 4294967296 ->
  strlen_loop p n = Some (n + Z.of_nat (length s)).
Proof.
  revert s n. induction p as [|c p IH]; simpl; intros s n H Hn Hb; [done|].
  destruct (Z.eqb_spec c 0) as [->|Hc]; simpl.
  - injection H as <-. simpl. f_equal. lia.
  - destruct (cstr p) as [t|] eqn:E; simplify_eq/=.
    rewrite u32_id by lia. rewrite (IH t) by (done || lia). f_equal. lia.
Qed.

Lemma strlen_spec p s :
  cstr p = Some s -> Z.of_nat (length s) < 4294967296 ->
  strlen p = Some (Z.of_nat (length s)).
Proof. intros H Hb. unfold strlen. by rewrite (strlen_loop_spec p s) by (done || lia). Qed.

Lemma lex_refl_iff a b : lex a b = 0 <-> a = b.
Proof.
  revert b. induction a as [|x a IH]; intros [|y b]; simpl; repeat case_cond;
    split; intros H; simplify_eq; try lia; try done.
  - apply IH in H. f_equal; [lia|done].
  - by apply IH.
Qed.

Lemma fill_spec tmp v n :
  (n <= length tmp)%nat -> fill tmp v (Z.of_nat n) = Some (replicate n v ++ drop n tmp).
Proof.
  revert n. induction tmp as [|c tmp IH]; intros [|n] H; simpl in H; cbn [fill];
    try done; try lia.
  zcond. replace (Z.of_nat (S n) - 1) with (Z.of_nat n) by lia.
  by rewrite IH by lia.
Qed.

Lemma fill_length tmp v n out : fill tmp v n = Some out -> length out = length tmp.
Proof.
  revert n out. induction tmp as [|c tmp IH]; simpl; intros n out H; case_cond_in H; simplify_eq; [done..|].
  destruct (fill tmp v (n - 1)) eqn:E; simplify_eq/=. f_equal. eauto.
Qed.

Lemma fill_overrun tmp v n : Z.of_nat (length tmp) < n -> fill tmp v n = None.
Proof.
  revert n. induction tmp as [|c tmp IH]; simpl; intros n H; zcond; [done|].
  by rewrite IH by lia.
Qed.

Lemma strchr_found s c rest :
  Forall (fun x => x <> 0 /\ x <> c) s -> c <> 0 ->
  strchr (s ++ c :: rest) c = Some (Some (c :: rest)).
Proof.
  intros H Hc. induction H as [|x s [Hx Hxc] H IH]; simpl.
  - rewrite Z.eqb_refl, (proj2 (Z.eqb_neq c 0)) by done. done.
  - by rewrite (proj2 (Z.eqb_neq x 0)), (proj2 (Z.eqb_neq x c)) by done.
Qed.

Lemma strchr_absent s c rest :
  Forall (fun x => x <> 0 /\ x <> c) s -> strchr (s ++ 0 :: rest) c = Some None.
Proof.
  intros H. induction H as [|x s [Hx Hxc] H IH]; simpl; [done|].
  by rewrite (proj2 (Z.eqb_neq x 0)), (proj2 (Z.eqb_neq x c)) by done.
Qed.

Lemma strcpy_spec dest src s : cstr src = Some s -> (length s < length dest)%nat ->
  strcpy dest src = Some (s ++ 0 :: drop (S (length s)) dest).
Proof.
  revert dest s. induction src as [|c src IH]; intros dest s H Hl; [done|]. destruct dest as [|d dest]; [cbn in Hl; lia|]. cbn [strcpy cstr] in *.
  destruct (Z.eqb_spec c 0) as [->|Hc]; cbn [negb].
  - by injection H as <-.
  - destruct (cstr src) as [t|]; [|done]. injection H as <-. cbn [length] in *. by rewrite (IH dest t) by (done || lia).
Qed.

Lemma memcpy_spec (target src : list Z) n :
  (n <= length target)%nat -> (n <= length src)%nat ->
  memcpy target src n = Some (take n src ++ drop n target).
Proof.
  revert target src. induction n as [|n IH]; intros [|t target] [|c src] H1 H2;
    simpl in *; try done; try lia.
  by rewrite IH by lia.
Qed.

Lemma memcpy_length (target src out : list Z) n :
  memcpy target src n = Some out -> length out = length target.
Proof.
  revert target src out. induction n as [|n IH]; intros [|t target] [|c src] out H;
    simplify_eq/=; try done.
  destruct (memcpy target src n) eqn:E; simplify_eq/=. f_equal. eauto.
Qed.
End cstr.

#[export] Hint Resolve strlen_spec cstr_app : nup.

(** ** Properties *)

Lemma strcmp_loop_correct a b x y :
  cstr a = Some x -> cstr b = Some y -> strcmp_loop a b = Some (lex x y).
Proof.
  revert b x y. induction a as [|c a IH]; intros [|d b] x y Ha Hb; simpl in *; try done.
  destruct (Z.eqb_spec c 0) as [->|Hc], (Z.eqb_spec d 0) as [->|Hd]; simpl in *.
  - by simplify_eq.
  - destruct (cstr b) eqn:E; simplify_eq/=.
    rewrite (proj2 (Z.eqb_neq 0 d)) by done. simpl. done.
  - destruct (cstr a) eqn:E; simplify_eq/=.
    rewrite (proj2 (Z.eqb_neq c 0)) by done. done.
  - destruct (cstr a) as [x'|] eqn:Ea, (cstr b) as [y'|] eqn:Eb; simplify_eq/=.
    repeat case_cond; try done. by apply IH.
Qed.

(** [strcmp] of two terminated arrays is the sign of the lexicographic
    comparison of the strings they hold, and 0 exactly on equal strings. *)
Theorem strcmp_correct a b x y :
  cstr a = Some x -> cstr b = Some y ->
  strcmp (Some a) (Some b) = Some (lex x y) /\ (lex x y = 0 <-> x = y).
Proof. intros Ha Hb. split; [by apply strcmp_loop_correct|apply lex_refl_iff]. Qed.

Lemma strcmp_correct_witness :
  strcmp (Some (lit "initrdfs")) (Some (lit "init")) = Some 1 /\
  strcmp (Some (lit "tty0")) (Some (lit "tty0")) = Some 0.
Proof.
  split.
  - apply (strcmp_correct _ _ (chars "initrdfs") (chars "init")); vm_compute; reflexivity.
  - apply (strcmp_correct _ _ (chars "tty0") (chars "tty0")); vm_compute; reflexivity.
Defined.

(** [strncmp(s1, s2, n)] also compares the character at index [n]: two
    strings that agree on their first [n] characters and differ in the next
    one do not compare equal. *)
Theorem strncmp_compares_one_too_many p c1 c2 r1 r2 :
  Forall (fun c => c <> 0) p -> c1 <> 0 -> c2 <> 0 -> c1 <> c2 ->
  Z.of_nat (length p) < 4294967296 ->
  strncmp (Some (p ++ c1 :: r1)) (Some (p ++ c2 :: r2)) (Z.of_nat (length p))
  = Some (if c1 <? c2 then -1 else 1).
Proof.
  intros Hp H1 H2 H12. simpl. induction Hp as [|c p Hc Hp IH]; intros Hb; simpl in *.
  - rewrite (proj2 (Z.eqb_neq c1 0)), (proj2 (Z.eqb_neq c2 0)), (proj2 (Z.eqb_neq c1 c2)) by done.
    done.
  - rewrite (proj2 (Z.eqb_neq c 0)) by done. simpl.
    rewrite Z.ltb_irrefl, u32_id by lia.
    replace (Z.of_nat (S (length p)) - 1) with (Z.of_nat (length p)) by lia.
    apply IH. lia.
Qed.

Lemma strncmp_compares_one_too_many_witness :
  strncmp (Some (lit "tty0")) (Some (lit "tty1")) 3 = Some (-1).
Proof.
  apply (strncmp_compares_one_too_many (chars "tty") 48 49 [0] [0]);
    [repeat constructor; done|done..|vm_compute; done].
Defined.

Lemma strncpy_loop_fits dest src s n :
  cstr src = Some s -> (length s <= n)%nat -> (n <= length dest)%nat ->
  Z.of_nat n < 4294967296 ->
  strncpy dest src (Z.of_nat n)
  = Some (s ++ replicate (n - length s) 0 ++ drop n dest).
Proof.
  revert dest s n. induction src as [|c src IH]; intros dest s n Hs Hl Hd Hn; simpl in *; [done|].
  destruct (Z.eqb_spec c 0) as [->|Hc]; simpl.
  - injection Hs as <-. rewrite fill_spec by done. simpl. by rewrite Nat.sub_0_r.
  - destruct (cstr src) as [t|] eqn:E; simplify_eq/=.
    destruct n as [|n]; [lia|]. zcond.
    destruct dest as [|d dest]; simpl in *; [lia|].
    replace (Z.of_nat (S n) - 1) with (Z.of_nat n) by lia.
    rewrite u32_id by lia. by rewrite (IH dest t n) by (done || lia).
Qed.

(** When the source string has at most [num] characters, [strncpy] writes
    exactly [num] cells: the string, then NULs; the rest of the destination is
    untouched. *)
Theorem strncpy_fits dest src s n :
  cstr src = Some s -> (length s <= n <= length dest)%nat -> Z.of_nat n < 4294967296 ->
  strncpy dest src (Z.of_nat n)
  = Some (s ++ replicate (n - length s) 0 ++ drop n dest).
Proof. intros. apply strncpy_loop_fits; lia || done. Qed.

Lemma strncpy_fits_witness :
  strncpy (replicate 6 7) (lit "tty0") 5 = Some (chars "tty0" ++ [0; 7]).
Proof.
  apply (strncpy_fits (replicate 6 7) (lit "tty0") (chars "tty0") 5); vm_compute; [done| |done].
  split; repeat constructor.
Defined.

(** When the source string is longer than [num], the loop leaves [num] at
    [UINT_MAX] and the padding loop runs from there: no destination array
    shorter than 4 GB is large enough, the call writes outside it. *)
Theorem strncpy_overruns dest src s n :
  cstr src = Some s -> 0 <= n <= UINT_MAX -> n < Z.of_nat (length s) ->
  Z.of_nat (length dest) < UINT_MAX ->
  strncpy dest src n = None.
Proof.
  revert dest s n. induction src as [|c src IH]; intros dest s n Hs Hn Hl Hd; simpl in *; [done|].
  destruct (Z.eqb_spec c 0) as [->|Hc]; simplify_eq/=; [lia|].
  destruct (cstr src) as [t|] eqn:E; simplify_eq/=.
  destruct (Z.eqb_spec n 0) as [->|Hn0]; simpl.
  - apply fill_overrun. width.
  - unfold UINT_MAX in *. destruct dest as [|d dest]; [done|]. simpl in Hd.
    rewrite u32_id by lia. by rewrite (IH dest t (n - 1)) by (done || lia).
Qed.

Lemma strncpy_overruns_witness :
  strncpy (replicate 17 0) (lit "a_name_of_seventeen") 16 = None.
Proof.
  apply (strncpy_overruns _ _ (chars "a_name_of_seventeen")); vm_compute; [done| |done..].
  split; done.
Defined.
