(* ===== verification/Vsprintf.v ===== *)
(** * Formatted output: [src/src/lib/vsprintf.c]

    [number] and [vsprintf].  The output buffer is the list of characters
    stored through [str]; the variable arguments are a list of [va] values;
    the stores of the [n] conversion are collected in order. *)
From S2P Require Import Prelude CString.
Open Scope nup_scope.

(** ** Definitions *)

Definition ZEROPAD : Z := 1.
Definition SIGN : Z := 2.
Definition PLUS : Z := 4.
Definition SPACE : Z := 8.
Definition LEFT : Z := 16.
Definition SPECIAL : Z := 32.
Definition SMALL : Z := 64.

Definition is_digit (c : Z) : bool := (48 <=? c) && (c <=? 57).

(** [skip_atoi]: the value read and the advanced pointer. *)
Fixpoint skip_atoi_loop (s : list Z) (i : Z) : option (Z * list Z) :=
  match s with
  | [] => None
  | c :: r => if is_digit c then skip_atoi_loop r (s32 (i * 10 + c - 48)) else Some (i, s)
  end.
Definition skip_atoi (s : list Z) : option (Z * list Z) := skip_atoi_loop s 0.

(** [while (size-- > 0) *str++ = c;]: what is stored, and [size] after it. *)
Definition pad (size c : Z) : list Z := replicate (Z.to_nat size) c.
Definition after_pad (size : Z) : Z := Z.min size 0 - 1.

(** [while (num != 0) tmp[i++] = digits[do_div(num, base)];], least
    significant digit first. [do_div] divides the unsigned value of [num]. *)
Fixpoint do_digits (fuel : nat) (num base : Z) : list Z :=
  match fuel with
  | O => []
  | S fuel => if num =? 0 then [] else num mod base :: do_digits fuel (num / base) base
  end.

Definition digits_upper : list Z := chars "0123456789ABCDEFGHIJKLMNOPQRSTUVWXYZ".
Definition digits_lower : list Z := chars "0123456789abcdefghijklmnopqrstuvwxyz".

Definition digit_chr (digits : list Z) (d : Z) : Z := default 0 (digits !! Z.to_nat d).

(** [tmp] of [number]: 36 characters; 32 digits are the most a 32-bit value
    has. *)
Definition number_digits (digits : list Z) (num base : Z) : list Z :=
  if num =? 0 then [digit_chr digits 0]
  else digit_chr digits <$> do_digits 36 (u32 num) base.

(** [number]: [None] is the null pointer it returns for a bad base. *)
Definition number (num base size precision type : Z) : option (list Z) :=
  let digits := if test type SMALL then digits_lower else digits_upper in
  let type := if test type LEFT then Z.ldiff type ZEROPAD else type in
  if (base <? 2) || (36 <? base) then None
  else
    let c := if test type ZEROPAD then 48 else 32 in
    let neg := test type SIGN && (num <? 0) in
    let sign := if neg then 45
                else if test type PLUS then 43 else if test type SPACE then 32 else 0 in
    let num := if neg then s32 (- num) else num in
    let size := if negb (sign =? 0) then size - 1 else size in
    let size := if test type SPECIAL
                then if base =? 16 then size - 2 else if base =? 8 then size - 1 else size
                else size in
    let tmp := number_digits digits num base in
    let i := Z.of_nat (length tmp) in
    let precision := if precision <? i then i else precision in
    let size := size - precision in
    let left := negb (test type (ZEROPAD + LEFT)) in
    let pad1 := if left then pad size 32 else [] in
    let size := if left then after_pad size else size in
    let out_sign := if negb (sign =? 0) then [sign] else [] in
    let out_special :=
      if test type SPECIAL
      then if base =? 8 then [48]
           else if base =? 16 then [48; digit_chr digits 33] else []
      else [] in
    let nleft := negb (test type LEFT) in
    let pad2 := if nleft then pad size c else [] in
    let size := if nleft then after_pad size else size in
    Some (pad1 ++ out_sign ++ out_special ++ pad2
          ++ pad (precision - i) 48 ++ rev tmp ++ pad size 32).

(** A variable argument: a 32-bit word, a character pointer, or the target of
    a [n] conversion. *)
Inductive va :=
  | VWord (w : Z)
  | VStr (s : option (list Z))
  | VOut (p : Z).

(** The flag characters after a percent sign (the [repeat] label); [fmt] is at
    the first character that is none of them. *)
Fixpoint parse_flags (fmt : list Z) (flags : Z) : option (Z * list Z) :=
  match fmt with
  | [] => None
  | c :: r =>
      if c =? 45 then parse_flags r (Z.lor flags LEFT)
      else if c =? 43 then parse_flags r (Z.lor flags PLUS)
      else if c =? 32 then parse_flags r (Z.lor flags SPACE)
      else if c =? 35 then parse_flags r (Z.lor flags SPECIAL)
      else if c =? 48 then parse_flags r (Z.lor flags ZEROPAD)
      else Some (flags, fmt)
  end.

(** [va_arg(args, int)]; the arguments left over. *)
Definition va_word (args : list va) : option (Z * list va) :=
  match args with VWord w :: args => Some (w, args) | _ => None end.

(** The field width: width, flags, [fmt], arguments.  The code does not step
    over the [*]. *)
Definition field_width_of (fmt : list Z) (flags : Z) (args : list va)
  : option (Z * Z * list Z * list va) :=
  match fmt with
  | [] => None
  | c :: _ =>
      if is_digit c then '(w, fmt) ← skip_atoi fmt; Some (w, flags, fmt, args)
      else if c =? 42 then
        '(w, args) ← va_word args;
        let w := s32 w in
        Some (if w <? 0 then (s32 (- w), Z.lor flags LEFT, fmt, args) else (w, flags, fmt, args))
      else Some (-1, flags, fmt, args)
  end.

(** The precision: precision, [fmt], arguments. *)
Definition precision_of (fmt : list Z) (args : list va) : option (Z * list Z * list va) :=
  match fmt with
  | [] => None
  | c :: r =>
      if c =? 46 then
        match r with
        | [] => None
        | d :: _ =>
            '(p, fmt, args) ← (if is_digit d then '(p, fmt) ← skip_atoi r; Some (p, fmt, args)
                               else if d =? 42 then '(p, args) ← va_word args; Some (s32 p, r, args)
                               else Some (-1, r, args));
            Some (if p <? 0 then 0 else p, fmt, args)
        end
      else Some (-1, fmt, args)
  end.

(** The [h], [l], [L] qualifier, which is read and ignored. *)
Definition skip_qualifier (fmt : list Z) : option (list Z) :=
  match fmt with
  | [] => None
  | c :: r => Some (if (c =? 104) || (c =? 108) || (c =? 76) then r else fmt)
  end.

(** What one conversion produces: the characters, [fmt] at the character the
    loop's [++fmt] leads to, the arguments left, and a store of [n]. *)
Record conv := Conv {
  c_out : list Z; c_fmt : list Z; c_args : list va; c_store : option Z }.

Definition conv_char (w flags : Z) (fmt : list Z) (args : list va) : option conv :=
  '(a, args) ← va_word args;
  let left := test flags LEFT in
  (* the pre-decrement of the first loop leaves a width of at most 0 *)
  Some (Conv ((if left then [] else pad (w - 1) 32) ++ [s8 a]
              ++ (if left then pad (w - 1) 32 else [])) fmt args None).

Definition conv_string (w precision flags : Z) (fmt : list Z) (args : list va) : option conv :=
  match args with
  | VStr None :: args => Some (Conv [] fmt args None)
  | VStr (Some s) :: args =>
      n ← strlen s;
      let n := s32 n in
      let len := if precision <? 0 then n else if precision <? n then precision else n in
      let left := test flags LEFT in
      Some (Conv ((if left then [] else pad (w - len) 32) ++ take (Z.to_nat len) s
                  ++ (if left then pad (w - len) 32 else [])) fmt args None)
  | _ => None
  end.

Definition conv_number (base w precision flags : Z) (fmt : list Z) (args : list va) : option conv :=
  '(a, args) ← va_word args;
  out ← number (s32 a) base w precision flags;
  Some (Conv out fmt args None).

(** The conversion character: [fmt] points at it; [pos] is [str - buf]. *)
Definition conv_switch (w precision flags : Z) (fmt : list Z) (args : list va) (pos : Z)
  : option conv :=
  match fmt with
  | [] => None
  | c :: r =>
      if c =? 99 then conv_char w flags r args
      else if c =? 115 then conv_string w precision flags r args
      else if c =? 111 then conv_number 8 w precision flags r args
      else if c =? 112 then
        if w =? -1 then conv_number 16 8 precision (Z.lor flags ZEROPAD) r args
        else conv_number 16 w precision flags r args
      else if c =? 120 then conv_number 16 w precision (Z.lor flags SMALL) r args
      else if c =? 88 then conv_number 16 w precision flags r args
      else if (c =? 100) || (c =? 105) then conv_number 10 w precision (Z.lor flags SIGN) r args
      else if c =? 117 then conv_number 10 w precision flags r args
      else if c =? 110 then
        match args with
        | VOut p :: args => Some (Conv [] r args (Some p))
        | _ => None
        end
      else
        let pct := if negb (c =? 37) then [37] else [] in
        if negb (c =? 0) then Some (Conv (pct ++ [c]) r args None)
        else Some (Conv pct fmt args None)
  end.

(** The body of the loop for [*fmt == '%']; [fmt] is after the percent sign. *)
Definition conversion (fmt : list Z) (args : list va) (pos : Z) : option conv :=
  '(flags, fmt) ← parse_flags fmt 0;
  '(w, flags, fmt, args) ← field_width_of fmt flags args;
  '(precision, fmt, args) ← precision_of fmt args;
  fmt ← skip_qualifier fmt;
  conv_switch w precision flags fmt args pos.

(** What [vsprintf] leaves: the characters stored before the closing NUL, and
    the stores of [n] conversions. *)
Record printed := Printed { p_out : list Z; p_stores : list (Z * Z) }.

Fixpoint vsprintf_loop (fuel : nat) (fmt : list Z) (args : list va) (acc : printed) : res printed :=
  match fuel with
  | O => Fuel
  | S fuel =>
      match fmt with
      | [] => Fault
      | c :: fmt =>
          if c =? 0 then Ok acc
          else if negb (c =? 37) then
            vsprintf_loop fuel fmt args (Printed (p_out acc ++ [c]) (p_stores acc))
          else
            let pos := Z.of_nat (length (p_out acc)) in
            match conversion fmt args pos with
            | None => Fault
            | Some (Conv out fmt args store) =>
                vsprintf_loop fuel fmt args
                  (Printed (p_out acc ++ out)
                     (p_stores acc ++ match store with Some p => [(p, pos)] | None => [] end))
            end
      end
  end.

(** [vsprintf]: the cells stored into [buf], and the returned length. *)
Definition vsprintf (fmt : list Z) (args : list va) : res (list Z * Z * list (Z * Z)) :=
  match vsprintf_loop (S (length fmt)) fmt args (Printed [] []) with
  | Ok p => Ok (p_out p ++ [0], Z.of_nat (length (p_out p)), p_stores p)
  | Fault => Fault
  | Fuel => Fuel
  end.

(** ** Lemmas *)

Lemma skip_atoi_suffix s i v r : skip_atoi_loop s i = Some (v, r) -> (length r <= length s)%nat.
Proof.
  revert i. induction s as [|c s IH]; simpl; intros i H; [done|].
  case_cond_in H; simplify_eq/=; [|lia]. apply IH in H. lia.
Qed.

Lemma parse_flags_suffix f fl fl' r : parse_flags f fl = Some (fl', r) -> (length r <= length f)%nat.
Proof.
  revert fl. induction f as [|c f IH]; simpl; intros fl H; [done|].
  repeat case_cond_in H; simplify_eq/=; try lia; apply IH in H; lia.
Qed.

Lemma field_width_suffix f fl a w fl' r a' :
  field_width_of f fl a = Some (w, fl', r, a') -> (length r <= length f)%nat.
Proof.
  destruct f as [|c f]; simpl; [done|]. case_cond; [|case_cond].
  - unfold skip_atoi. destruct (skip_atoi_loop (c :: f) 0) as [[v s]|] eqn:E; [|done].
    intros [= <- <- <- <-]. apply skip_atoi_suffix in E. done.
  - destruct (va_word a) as [[v s]|]; [|done]. simpl. case_cond; intros [= <- <- <- <-]; done.
  - intros [= <- <- <- <-]. done.
Qed.

Lemma precision_suffix f a p r a' :
  precision_of f a = Some (p, r, a') -> (length r <= length f)%nat.
Proof.
  destruct f as [|c [|d f]]; simpl; [done|..]; case_cond; try done.
  - by intros [= <- <- <-].
  - case_cond; [|case_cond]; simpl.
    + unfold skip_atoi. destruct (skip_atoi_loop (d :: f) 0) as [[v s]|] eqn:E; [|done].
      intros [= <- <- <-]. apply skip_atoi_suffix in E. simpl in E. lia.
    + destruct (va_word a) as [[v s]|]; [|done]. intros [= <- <- <-]. simpl. lia.
    + intros [= <- <- <-]. simpl. lia.
  - by intros [= <- <- <-].
Qed.

Lemma qualifier_suffix f r : skip_qualifier f = Some r -> (length r <= length f)%nat.
Proof. destruct f; simpl; [done|]. case_cond; intros [= <-]; simpl; lia. Qed.

Lemma conv_switch_suffix w p fl f a pos c :
  conv_switch w p fl f a pos = Some c -> (length (c_fmt c) <= length f)%nat.
Proof.
  destruct f as [|x f]; simpl; [done|].
  unfold conv_char, conv_string, conv_number.
  repeat (case_cond || case_match); simpl; intros; simplify_eq/=;
    repeat match goal with
      | H : _ ≫= _ = Some _ |- _ => apply bind_Some in H as (?&?&?)
      | x : _ * _ |- _ => destruct x
      | H : Some _ = Some _ |- _ => injection H as <-
      end; simpl; lia.
Qed.

(** Every conversion ends inside the format it started in. *)
Lemma conversion_suffix f a pos c :
  conversion f a pos = Some c -> (length (c_fmt c) <= length f)%nat.
Proof.
  unfold conversion.
  destruct (parse_flags f 0) as [[fl f1]|] eqn:E1; [|done]; simpl.
  destruct (field_width_of f1 fl a) as [[[[w fl'] f2] a']|] eqn:E2; [|done]; simpl.
  destruct (precision_of f2 a') as [[[p f3] a'']|] eqn:E3; [|done]; simpl.
  destruct (skip_qualifier f3) as [f4|] eqn:E4; [|done]; simpl.
  intros E5%conv_switch_suffix.
  apply parse_flags_suffix in E1. apply field_width_suffix in E2.
  apply precision_suffix in E3. apply qualifier_suffix in E4. lia.
Qed.

Lemma vsprintf_loop_fuel fuel fmt args acc :
  (length fmt < fuel)%nat -> vsprintf_loop fuel fmt args acc <> Fuel.
Proof.
  revert fmt args acc. induction fuel as [|fuel IH]; intros [|c fmt] args acc H; simpl in *;
    try lia; try done.
  repeat case_cond; try done; [apply IH; lia|].
  destruct (conversion _ _ _) as [[out f a st]|] eqn:E; [|done].
  apply conversion_suffix in E. simpl in E. apply IH. lia.
Qed.

(** Positional value of a list of digits, most significant first. *)
Definition value_of (base : Z) (ds : list Z) : Z := fold_left (fun v d => v * base + d) ds 0.

Lemma value_of_snoc base ds d : value_of base (ds ++ [d]) = value_of base ds * base + d.
Proof. unfold value_of. by rewrite fold_left_app. Qed.

Lemma do_digits_spec base fuel n :
  2 <= base -> 0 <= n < 2 ^ Z.of_nat fuel ->
  value_of base (rev (do_digits fuel n base)) = n /\
  Forall (fun d => 0 <= d < base) (do_digits fuel n base) /\
  (0 < n -> exists d ds, rev (do_digits fuel n base) = d :: ds /\ 0 < d).
Proof.
  intros Hb. revert n. induction fuel as [|fuel IH]; intros n Hn; simpl.
  - replace n with 0 by (simpl in Hn; lia). repeat split; try constructor; lia.
  - rewrite Nat2Z.inj_succ, Z.pow_succ_r in Hn by lia.
    destruct (Z.eqb_spec n 0) as [->|Hn0]; [repeat split; try constructor; lia|].
    assert (Hdiv : 0 <= n / base < 2 ^ Z.of_nat fuel).
    { split; [apply Z.div_pos; lia|]. apply Z.div_lt_upper_bound; nia. }
    destruct (IH _ Hdiv) as (Hv & HF & Hl). simpl. rewrite value_of_snoc, Hv. repeat split.
    + pose proof (Z.div_mod n base ltac:(lia)). lia.
    + constructor; [|done]. apply Z.mod_pos_bound. lia.
    + intros _. destruct (Z.eqb_spec (n / base) 0) as [E|E].
      * rewrite E. destruct fuel; simpl.
        -- exists (n mod base), []. split; [done|].
           pose proof (Z.div_mod n base ltac:(lia)). rewrite E in *. lia.
        -- exists (n mod base), []. split; [done|].
           pose proof (Z.div_mod n base ltac:(lia)). rewrite E in *. lia.
      * destruct Hl as (d & ds & -> & Hd); [lia|]. simpl. by exists d, (ds ++ [n mod base]).
Qed.

#[local] Arguments do_digits : simpl never.

Lemma digit_chr_decimal digits d :
  digits = digits_upper \/ digits = digits_lower -> 0 <= d < 10 -> digit_chr digits d = 48 + d.
Proof.
  intros Hdig Hd.
  assert (d = 0 \/ d = 1 \/ d = 2 \/ d = 3 \/ d = 4 \/ d = 5 \/ d = 6 \/ d = 7 \/ d = 8 \/ d = 9)
    as Hc by lia.
  destruct Hdig as [-> | ->];
    repeat destruct Hc as [-> | Hc]; try subst; vm_compute; reflexivity.
Qed.

(** The value of a string of decimal digits. *)
Definition decimal_value (s : list Z) : Z := value_of 10 ((fun c => c - 48) <$> s).

Lemma unchar_digits (l : list Z) : ((fun c => c - 48) <$> ((fun d => 48 + d) <$> l)) = l.
Proof.
  induction l as [|x l IH]; [done|]. rewrite !fmap_cons, IH. f_equal. lia.
Qed.

(** The decimal digits of a nonzero unsigned value, as characters. *)
Lemma do_digits_decimal n :
  0 < n < 4294967296 ->
  let s := rev (digit_chr digits_upper <$> do_digits 36 n 10) in
  decimal_value s = n /\ Forall (fun c => is_digit c = true) s /\
  exists d ds, s = d :: ds /\ d <> 48.
Proof.
  intros Hn.
  destruct (do_digits_spec 10 36 n) as (Hv & HF & Hl); [lia| |].
  { change (2 ^ Z.of_nat 36) with 68719476736. lia. }
  destruct Hl as (d & ds & Hds & Hd); [lia|].
  assert (Hmap : digit_chr digits_upper <$> do_digits 36 n 10
                 = (fun d => 48 + d) <$> do_digits 36 n 10).
  { apply list_fmap_ext. intros i x Hx. apply digit_chr_decimal; [by left|].
    by apply (Forall_lookup_1 _ _ _ _ HF Hx). }
  cbv zeta. rewrite Hmap, <- fmap_rev. split_and!.
  - unfold decimal_value.
    by rewrite unchar_digits.
  - apply Forall_fmap, List.Forall_rev. eapply Forall_impl; [exact HF|]. intros x Hx. cbv beta in Hx.
    unfold compose, is_digit. lia.
  - rewrite Hds. simpl. eexists _, _. split; [done|lia].
Qed.

#[local] Arguments number : simpl never.

(** ** Properties *)

(** C18: [vsprintf] terminates on every format and argument list: each
    conversion stays inside the format, so the loop runs out of characters. *)
Theorem vsprintf_terminates fmt args : vsprintf fmt args <> Fuel.
Proof.
  unfold vsprintf.
  pose proof (vsprintf_loop_fuel (S (length fmt)) fmt args (Printed [] []) ltac:(lia)) as H.
  by destruct (vsprintf_loop _ _ _ _).
Qed.

Lemma vsprintf_loop_plain f s rest args acc :
  Forall (fun c => c <> 0 /\ c <> 37) s -> (length s < f)%nat ->
  vsprintf_loop f (s ++ 0 :: rest) args acc = Ok (Printed (p_out acc ++ s) (p_stores acc)).
Proof.
  intros H. revert f acc. induction H as [|c s [H0 H37] Hs IH]; intros [|f] acc Hf;
    simpl in *; try lia.
  - destruct acc. by rewrite app_nil_r.
  - rewrite (proj2 (Z.eqb_neq c 0)), (proj2 (Z.eqb_neq c 37)) by done. simpl.
    rewrite IH by lia. simpl. by rewrite <- app_assoc.
Qed.

Lemma vsprintf_loop_percent f fmt args acc :
  vsprintf_loop (S f) (37 :: fmt) args acc
  = let pos := Z.of_nat (length (p_out acc)) in
    match conversion fmt args pos with
    | None => Fault
    | Some (Conv out fmt args store) =>
        vsprintf_loop f fmt args
          (Printed (p_out acc ++ out)
             (p_stores acc ++ match store with Some p => [(p, pos)] | None => [] end))
    end.
Proof. reflexivity. Qed.

Lemma conversion_d r n args pos :
  conversion (100 :: r) (VWord n :: args) pos
  = match skip_qualifier (100 :: r) with
    | Some _ => out ← number (s32 n) 10 (-1) (-1) SIGN; Some (Conv out r args None)
    | None => None
    end.
Proof. reflexivity. Qed.

(** What [d] and [u] print for a 32-bit value. *)
Definition decimal_string (n : Z) : list Z :=
  if n =? 0 then [48] else rev (digit_chr digits_upper <$> do_digits 36 n 10).

Lemma number_decimal_plain n :
  -2147483648 <= n < 2147483648 ->
  number n 10 (-1) (-1) SIGN
  = Some ((if n <? 0 then [45] else []) ++ decimal_string (Z.abs n)).
Proof.
  intros Hn. unfold number. cbv zeta.
  change (test SIGN SMALL) with false. change (test SIGN LEFT) with false. cbv iota.
  change (test SIGN ZEROPAD) with false. change (test SIGN SIGN) with true.
  change (test SIGN PLUS) with false. change (test SIGN SPACE) with false.
  change (test SIGN SPECIAL) with false. change (test SIGN (ZEROPAD + LEFT)) with false.
  change (test SIGN LEFT) with false.
  change (10 <? 2) with false. change (36 <? 10) with false. cbn [andb orb negb]. cbv iota.
  set (tmp := number_digits _ _ _).
  assert (Ht : rev tmp = decimal_string (Z.abs n)).
  { unfold tmp, number_digits, decimal_string. destruct (n <? 0) eqn:E.
    - unfold s32, u32.
      destruct (Z.eqb_spec n (-2147483648)) as [->|Hm]; [vm_compute; done|].
      replace ((- n + 2147483648) mod 4294967296 - 2147483648) with (Z.abs n) by lia.
      replace (Z.abs n mod 4294967296) with (Z.abs n) by lia.
      by destruct (Z.abs n =? 0).
    - rewrite Z.abs_eq, u32_id by lia. by destruct (n =? 0). }
  assert (Hpos : (0 < length tmp)%nat).
  { rewrite <- length_rev, Ht. unfold decimal_string. case_cond; simpl; [lia|].
    destruct (do_digits_decimal (Z.abs n)) as (_ & _ & d & ds & -> & _); simpl; lia. }
  rewrite <- Ht. replace (-1 <? Z.of_nat (length tmp)) with true by lia. cbv iota.
  rewrite Z.sub_diag. unfold pad, after_pad.
  destruct (n <? 0); change (45 =? 0) with false; change (0 =? 0) with true;
    cbn [negb]; cbv iota;
    repeat match goal with
      | |- context [replicate (Z.to_nat ?z) _] => replace (Z.to_nat z) with O by lia
      end; cbn [replicate app]; by rewrite ?app_nil_r.
Qed.

(** Plain text in front of a conversion. *)
Lemma vsprintf_loop_skip f s fmt args acc :
  Forall (fun c => c <> 0 /\ c <> 37) s ->
  vsprintf_loop (length s + f) (s ++ fmt) args acc = vsprintf_loop f fmt args (Printed (p_out acc ++ s) (p_stores acc)).
Proof.
  intros H. revert acc. induction H as [|c s [H0 H37] Hs IH]; intros acc; cbn [length app Nat.add].
  - rewrite app_nil_r. by destruct acc.
  - cbn [vsprintf_loop]. replace (c =? 0) with false by lia. replace (c =? 37) with false by lia. cbn [negb].
    rewrite IH. cbn [p_out p_stores]. by rewrite <- app_assoc.
Qed.

Lemma conversion_s r s text args pos :
  cstr s = Some text -> Z.of_nat (length text) < 2147483648 ->
  conversion (115 :: r) (VStr (Some s) :: args) pos = Some (Conv text r args None).
Proof.
  intros Hs Hl. change (conversion (115 :: r) (VStr (Some s) :: args) pos) with (conv_string (-1) (-1) 0 r (VStr (Some s) :: args)).
  unfold conv_string. rewrite (strlen_spec s text) by (done || lia). cbn [mbind option_bind]. rewrite s32_id by lia.
  change (-1 <? 0) with true. change (test 0 LEFT) with false. cbv iota zeta. unfold pad. cbn [app].
  replace (Z.to_nat (-1 - _)) with O by lia. cbn [replicate app]. rewrite app_nil_r.
  destruct (cstr_split _ _ Hs) as (r' & -> & _). by rewrite Nat2Z.id, take_app_length.
Qed.

(** One string in plain text. *)
Lemma vsprintf_s pre post s text args :
  Forall (fun c => c <> 0 /\ c <> 37) pre -> Forall (fun c => c <> 0 /\ c <> 37) post ->
  cstr s = Some text -> Z.of_nat (length text) < 2147483648 ->
  vsprintf (pre ++ 37 :: 115 :: post ++ [0]) (VStr (Some s) :: args) =
  Ok ((pre ++ text ++ post) ++ [0], Z.of_nat (length (pre ++ text ++ post)), []).
Proof.
  intros Hpre Hpost Hs Hl. unfold vsprintf.
  replace (S _) with (length pre + S (S (S (S (length post)))))%nat by (rewrite length_app; cbn; rewrite length_app; cbn; lia).
  rewrite vsprintf_loop_skip by done. rewrite vsprintf_loop_percent. cbv zeta. rewrite (conversion_s _ s text) by done.
  rewrite vsprintf_loop_plain by (done || lia). cbn [p_out p_stores app]. by rewrite <- (app_assoc pre text post).
Qed.

(** [%d] alone. *)
Lemma vsprintf_d n args : -2147483648 <= n < 2147483648 ->
  let text := (if n <? 0 then [45] else []) ++ decimal_string (Z.abs n) in
  vsprintf (lit "%d") (VWord n :: args) = Ok (text ++ [0], Z.of_nat (length text), []).
Proof.
  intros Hn text. unfold vsprintf. change (lit "%d") with [37; 100; 0]. cbn [length].
  rewrite vsprintf_loop_percent. cbv zeta. rewrite conversion_d, (s32_id n), number_decimal_plain by done. done.
Qed.



(** A [*] field width is taken from the arguments but not stepped over:
    ["%*d"] consumes one argument and prints the three characters of the
    conversion instead of a padded number. *)
Theorem vsprintf_star_width_unsupported w rest :
  vsprintf (lit "%*d") (VWord w :: rest) = Ok (lit "%*d", 3, []).
Proof.
  unfold vsprintf. simpl vsprintf_loop. unfold conversion. simpl.
  by destruct (s32 w <? 0).
Qed.
