(* ===== verification/Time.v ===== *)
(** * The clock: [src/src/kernel/time.c]

    BCD decoding of the CMOS registers, the broken-down time, its conversion
    to seconds since 1970, and the busy wait [sleep].  The CMOS registers are
    hardware: [cmos r] is the byte read from port 0x71 after [r] was written
    to port 0x70. *)
From S2P Require Import Prelude.

(** ** Definitions *)

Definition tick_rate : Z := 50.
Definition _ktimezone : Z := 1.
Definition _kdaylight_saving_time : Z := 1.

Record tm := Tm {
  tm_sec : Z; tm_min : Z; tm_hour : Z; tm_mday : Z; tm_mon : Z; tm_year : Z;
  tm_wday : Z; tm_yday : Z; tm_isdst : Z }.

(** The divisor that [set_pic_timer] programs, and its port writes. *)
Definition set_pic_timer (freq : Z) : list (Z * Z) :=
  let divisor := 1193180 ÷ freq in
  [(0x43, 0x36); (0x40, Z.land divisor 0xFF); (0x40, Z.land (Z.shiftr divisor 8) 0xFF)].

(** [UCHAR DateBCD(UCHAR value, int is_bcd)]; the [-1] is returned as 255. *)
Definition DateBCD (value : Z) (is_bcd : bool) : Z :=
  if negb is_bcd then value
  else
    let tmp := value mod 0x10 in
    let value := value / 0x10 in
    if (9 <? tmp) || (9 <? value mod 0x10) then u8 (-1)
    else u8 (tmp + 10 * (value mod 0x10)).

(** The day of the year that [getrtctime] computes (C division rounds toward
    zero). *)
Definition rtc_yday (year mon mday : Z) : Z :=
  let y := (mon - 1) * 30 in
  let y := if 2 <? mon then y - 2 else y in
  let y := if mon <? 7 then y + mon ÷ 2
           else if mon =? 7 then y + 3
           else y + ((mon - 7) ÷ 2 + 4) in
  let y := y + (mday - 1) in
  if (((Z.rem year 4 =? 0) && negb (Z.rem year 100 =? 0)) || (Z.rem year 400 =? 0)) && (2 <? mon)
  then y + 1 else y.

Definition getrtctime (cmos : Z -> Z) : tm :=
  let is_bcd := Z.shiftr (Z.land (cmos 0x0B) 0x04) 2 =? 0 in
  let sec := DateBCD (cmos 0x00) is_bcd in
  let min := DateBCD (cmos 0x02) is_bcd in
  let hour := DateBCD (cmos 0x04) is_bcd in
  let mday := DateBCD (cmos 0x07) is_bcd in
  let mon := DateBCD (cmos 0x08) is_bcd in
  let year := DateBCD (cmos 0x09) is_bcd in
  Tm sec min hour mday mon year (-1) (rtc_yday year mon mday) _kdaylight_saving_time.

(** [for (; i >= 1970; i--) if (leap(i)) result++;] *)
Fixpoint leap_loop (fuel : nat) (i result : Z) : Z :=
  match fuel with
  | O => result
  | S fuel =>
      if 1970 <=? i then
        leap_loop fuel (i - 1)
          (if ((Z.rem i 4 =? 0) && negb (Z.rem i 100 =? 0)) || (Z.rem i 400 =? 0)
           then s32 (result + 1) else result)
      else result
  end.

Definition mktime (t : tm) : Z :=
  let result := if 70 <=? tm_year t then s32 ((tm_year t - 70) * 365)
                else s32 ((tm_year t + 30) * 365) in
  let i := tm_year t + 1899 in
  let i := if i <? 1969 then i + 100 else i in
  let result := leap_loop (Z.to_nat (i - 1969)) i result in
  let result := s32 (result + tm_yday t) in
  let result := s32 (result * 24) in
  let result := s32 (result + tm_hour t) in
  let result := s32 (result * 60) in
  let result := s32 (result + tm_min t) in
  let result := s32 (result * 60) in
  s32 (result + tm_sec t).

Definition removetimezone (t : tm) : tm * Z :=
  (Tm (tm_sec t) (tm_min t) (tm_hour t - _ktimezone - tm_isdst t) (tm_mday t) (tm_mon t)
     (tm_year t) (tm_wday t) (tm_yday t) (tm_isdst t),
   _ktimezone + tm_isdst t).

Definition time (cmos : Z -> Z) : Z := mktime (fst (removetimezone (getrtctime cmos))).

(** [sleep]: the number of ticks it waits for, and the test of the loop that
    reads the running counter [ticks]. *)
Definition sleep_tdiff (msecs : Z) : Z := u32 (tick_rate * msecs) / 1000.
Definition sleep_waits (tstart tdiff ticks : Z) : bool := u32 (ticks - tdiff) <? tstart.

(** ** Reference calendar *)

Definition is_leap (y : Z) : bool :=
  (y mod 4 =? 0) && (negb (y mod 100 =? 0) || (y mod 400 =? 0)).
Definition year_days (y : Z) : Z := if is_leap y then 366 else 365.
Definition month_days (y m : Z) : Z :=
  if m =? 2 then if is_leap y then 29 else 28
  else if (m =? 4) || (m =? 6) || (m =? 9) || (m =? 11) then 30 else 31.

(** Days from 1970-01-01 to the first day of a year, and from the first day of
    a year to the first day of a month, by summation. *)
Definition days_to_year (y : Z) : Z :=
  foldr (fun k acc => acc + year_days (1970 + Z.of_nat k)) 0 (seq 0 (Z.to_nat (y - 1970))).
Definition days_to_month (y m : Z) : Z :=
  foldr (fun k acc => acc + month_days y (1 + Z.of_nat k)) 0 (seq 0 (Z.to_nat (m - 1))).

(** Seconds from 1970-01-01 00:00:00 to a date and time of the calendar. *)
Definition epoch_seconds (y m d h mi s : Z) : Z :=
  (days_to_year y + days_to_month y m + (d - 1)) * 86400 + h * 3600 + mi * 60 + s.

(** The year a two-digit year of the CMOS stands for. *)
Definition full_year (yy : Z) : Z := if yy <? 70 then 2000 + yy else 1900 + yy.

(** ** Lemmas *)

Lemma rtc_yday_correct yy m d :
  0 <= yy < 100 -> 1 <= m <= 12 ->
  rtc_yday yy m d = days_to_month (full_year yy) m + (d - 1).
Proof.
  intros Hy Hm.
  enough (H : rtc_yday yy m 1 = days_to_month (full_year yy) m).
  { rewrite <- H. unfold rtc_yday. repeat case_cond; lia. }
  apply Z.eqb_eq.
  replace m with (1 + (m - 1)) by lia. assert (Hm' : 0 <= m - 1 < 12) by lia.
  revert Hm'. generalize (m - 1) as k. intros k Hk.
  apply (forall_below_spec 12 (fun k => rtc_yday yy (1 + k) 1 =? days_to_month (full_year yy) (1 + k)));
    [|done].
  apply (forall_below_spec 100 (fun yy => forall_below 12 (fun k =>
    rtc_yday yy (1 + k) 1 =? days_to_month (full_year yy) (1 + k)))); [|done].
  vm_compute. reflexivity.
Qed.

(** The day count of [mktime] before the day of the year is added. *)
Definition mktime_days (yy : Z) : Z :=
  let r := if 70 <=? yy then s32 ((yy - 70) * 365) else s32 ((yy + 30) * 365) in
  let i := yy + 1899 in
  let i := if i <? 1969 then i + 100 else i in
  leap_loop (Z.to_nat (i - 1969)) i r.

Lemma mktime_days_correct yy : 0 <= yy < 100 -> mktime_days yy = days_to_year (full_year yy).
Proof.
  intros Hy. apply Z.eqb_eq.
  apply (forall_below_spec 100 (fun yy => mktime_days yy =? days_to_year (full_year yy)));
    [vm_compute; reflexivity|done].
Qed.

Lemma s32_mul_add a b c : s32 (s32 (s32 a * b) + c) = s32 (a * b + c).
Proof. by rewrite s32_add_s32, <- s32_add_s32, s32_mul_s32, s32_add_s32. Qed.

Lemma mktime_wraps t :
  mktime t = s32 ((((mktime_days (tm_year t) + tm_yday t) * 24 + tm_hour t) * 60 + tm_min t) * 60
                  + tm_sec t).
Proof.
  unfold mktime. fold (mktime_days (tm_year t)). cbv zeta.
  set (d := mktime_days (tm_year t) + tm_yday t).
  by rewrite (s32_mul_add d), (s32_mul_add (d * 24 + tm_hour t)),
    (s32_mul_add ((d * 24 + tm_hour t) * 60 + tm_min t)).
Qed.

(** ** Properties *)

(** C16: when the CMOS clock, in BCD or in binary, shows a two-digit year and a
    month, [mktime] of the broken-down time is the number of seconds since 1970
    that the reference calendar gives (years 70 to 99 are 19xx, the others
    20xx), wrapped to the 32-bit [time_t]. *)
Theorem mktime_getrtctime_epoch cmos t :
  t = getrtctime cmos ->
  0 <= tm_year t < 100 -> 1 <= tm_mon t <= 12 ->
  mktime t = s32 (epoch_seconds (full_year (tm_year t)) (tm_mon t) (tm_mday t)
                    (tm_hour t) (tm_min t) (tm_sec t)).
Proof.
  intros -> Hy Hm. rewrite mktime_wraps. unfold epoch_seconds. f_equal.
  assert (Hyd : forall c, tm_yday (getrtctime c)
            = rtc_yday (tm_year (getrtctime c)) (tm_mon (getrtctime c)) (tm_mday (getrtctime c)))
    by done.
  rewrite Hyd, rtc_yday_correct, mktime_days_correct by done. lia.
Qed.

(** A CMOS that shows 2008-07-27 12:34:56 in BCD. *)
Definition cmos_sample (r : Z) : Z :=
  if r =? 0x00 then 0x56 else if r =? 0x02 then 0x34 else if r =? 0x04 then 0x12
  else if r =? 0x07 then 0x27 else if r =? 0x08 then 0x07 else if r =? 0x09 then 0x08
  else if r =? 0x0B then 0x02 else 0.

Lemma mktime_getrtctime_epoch_witness : mktime (getrtctime cmos_sample) = 1217162096.
Proof.
  rewrite (mktime_getrtctime_epoch cmos_sample (getrtctime cmos_sample));
    vm_compute; [reflexivity|reflexivity|..]; split; congruence.
Defined.

(** The BCD byte of a number below 100. *)
Definition to_bcd (n : Z) : Z := (n / 10) * 16 + n mod 10.

(** [DateBCD] decodes the BCD byte of every number below 100, and returns
    255 on a byte that is no BCD number. *)
Theorem DateBCD_roundtrip b :
  (0 <= b < 100 -> DateBCD (to_bcd b) true = b) /\
  (0 <= b < 256 -> (9 < b mod 16 \/ 9 < b / 16) -> DateBCD b true = 255).
Proof.
  split.
  - intros Hb. unfold DateBCD, to_bcd. cbv zeta. cbn [negb].
    assert (H1 : (b / 10 * 16 + b mod 10) mod 16 = b mod 10) by lia.
    assert (H2 : (b / 10 * 16 + b mod 10) / 16 = b / 10) by lia.
    rewrite H1, H2. replace ((b / 10) mod 16) with (b / 10) by lia.
    zcond. rewrite u8_id by lia. lia.
  - intros Hb Hn. unfold DateBCD. cbv zeta. cbn [negb].
    replace ((b / 16) mod 16) with (b / 16) by lia. by zcond.
Qed.

Lemma DateBCD_roundtrip_witness : DateBCD 0x59 true = 59 /\ DateBCD 0x5A true = 255.
Proof.
  split; [apply (proj1 (DateBCD_roundtrip 59)); lia|].
  apply (proj2 (DateBCD_roundtrip 0x5A)); [lia|left; vm_compute; reflexivity].
Defined.

(** During the first [tdiff] ticks after boot [sleep] does not wait at
    all: the unsigned subtraction wraps and the loop ends at once; later it
    waits exactly until [tdiff] ticks have passed. *)
Theorem sleep_waits_correctly_only_after_tdiff_ticks tstart tdiff ticks :
  0 <= tstart <= ticks -> ticks < 4294967296 -> 0 <= tdiff < 4294967296 ->
  (tstart < tdiff -> sleep_waits tstart tdiff tstart = false) /\
  (tdiff <= tstart -> sleep_waits tstart tdiff ticks = (ticks - tstart <? tdiff)).
Proof.
  intros Ht Hm Hd. unfold sleep_waits, u32. split; intros; lia.
Qed.

Lemma sleep_waits_correctly_only_after_tdiff_ticks_witness :
  sleep_waits 3 (sleep_tdiff 1000) 3 = false /\ sleep_waits 100 (sleep_tdiff 1000) 100 = true.
Proof.
  split.
  - apply (proj1 (sleep_waits_correctly_only_after_tdiff_ticks 3 (sleep_tdiff 1000) 3
      ltac:(lia) ltac:(lia) ltac:(vm_compute; split; congruence))). reflexivity.
  - rewrite (proj2 (sleep_waits_correctly_only_after_tdiff_ticks 100 (sleep_tdiff 1000) 100
      ltac:(lia) ltac:(lia) ltac:(vm_compute; split; congruence))); [reflexivity|].
    vm_compute. congruence.
Defined.
