(* ===== verification/Dts.v ===== *)
(** * Descriptor tables and interrupt dispatch: [src/src/kernel/dts.c]

    The global and the interrupt descriptor table, the task state segment and
    the dispatch of interrupts to registered handlers.  The addresses that the
    linker or the assembly stubs provide ([gdt_entries], [tss_ent], the entry
    stub of each vector) are parameters of the definitions that use them. *)
From S2P Require Import Prelude.

(** ** Data *)

Record gdt_entry := GdtEntry {
  g_limit_low : Z; g_base_low : Z; g_base_middle : Z; g_access : Z; g_granularity : Z;
  g_base_high : Z }.

Record idt_entry := IdtEntry {
  i_base_lo : Z; i_sel : Z; i_always0 : Z; i_flags : Z; i_base_hi : Z }.

(** The limit and base that [lgdt] and [lidt] load. *)
Record dt_pointer := DtPointer { dt_limit : Z; dt_base : Z }.

(** The fields of the task state segment that the code sets; the others stay
    zero. *)
Record tss_entry := TssEntry {
  t_esp0 : Z; t_ss0 : Z; t_cs : Z; t_ss : Z; t_ds : Z; t_es : Z; t_fs : Z; t_gs : Z }.

Definition sizeof_gdt_entry : Z := 8.
Definition sizeof_idt_entry : Z := 8.
Definition sizeof_tss_entry : Z := 104.

Definition gdt_zero : gdt_entry := GdtEntry 0 0 0 0 0 0.
Definition idt_zero : idt_entry := IdtEntry 0 0 0 0 0.
Definition tss_zero : tss_entry := TssEntry 0 0 0 0 0 0 0 0.

(** ** Operations *)

Definition gdt_make (base limit access gran : Z) : gdt_entry :=
  {| g_base_low := Z.land base 0xFFFF;
     g_base_middle := Z.land (Z.shiftr base 16) 0xFF;
     g_base_high := Z.land (Z.shiftr base 24) 0xFF;
     g_limit_low := Z.land limit 0xFFFF;
     g_granularity := Z.lor (Z.land (Z.shiftr limit 16) 0x0F) (Z.land gran 0xF0);
     g_access := access |}.

Definition gdt_set_gate (gdt_entries : list gdt_entry) (num base limit access gran : Z)
  : option (list gdt_entry) :=
  aset gdt_entries num (gdt_make base limit access gran).

Definition idt_make (base sel flags : Z) : idt_entry :=
  {| i_base_lo := Z.land base 0xFFFF;
     i_base_hi := Z.land (Z.shiftr base 16) 0xFFFF;
     i_sel := sel;
     i_always0 := 0;
     i_flags := Z.lor flags 0x60 |}.

Definition idt_set_gate (idt_entries : list idt_entry) (num base sel flags : Z)
  : option (list idt_entry) :=
  aset idt_entries num (idt_make base sel flags).

(** [write_tss]: the limit it gives the descriptor is [base + sizeof]. *)
Definition write_tss (tss_base : Z) (gdt_entries : list gdt_entry) (num ss0 esp0 : Z)
  : option (list gdt_entry * tss_entry) :=
  let limit := u32 (tss_base + sizeof_tss_entry) in
  gdt_entries ← gdt_set_gate gdt_entries num tss_base limit 0xE9 0x00;
  Some (gdt_entries, TssEntry esp0 ss0 0x0B 0x13 0x13 0x13 0x13 0x13).

Definition set_kernel_stack (tss_ent : tss_entry) (stack : Z) : tss_entry :=
  TssEntry stack (t_ss0 tss_ent) (t_cs tss_ent) (t_ss tss_ent) (t_ds tss_ent) (t_es tss_ent)
    (t_fs tss_ent) (t_gs tss_ent).

(** [init_gdt]: the table pointer, the six entries and the task state. *)
Definition init_gdt (gdt_base tss_base : Z) : option (dt_pointer * list gdt_entry * tss_entry) :=
  let gdt_ptr := DtPointer (u16 (sizeof_gdt_entry * 6 - 1)) gdt_base in
  let g := replicate 6 gdt_zero in
  g ← gdt_set_gate g 0 0 0 0 0;
  g ← gdt_set_gate g 1 0 0xFFFFFFFF 0x9A 0xCF;
  g ← gdt_set_gate g 2 0 0xFFFFFFFF 0x92 0xCF;
  g ← gdt_set_gate g 3 0 0xFFFFFFFF 0xFA 0xCF;
  g ← gdt_set_gate g 4 0 0xFFFFFFFF 0xF2 0xCF;
  '(g, tss) ← write_tss tss_base g 5 0x10 0x00;
  Some (gdt_ptr, g, tss).

Definition IRQ0 : Z := 32.
Definition IRQ1 : Z := 33.
Definition IRQ6 : Z := 38.

(** The port writes of [init_idt] that move the interrupt controllers'
    vectors to 0x20 and 0x28. *)
Definition pic_remap : list (Z * Z) :=
  [(0x20, 0x11); (0xA0, 0x11); (0x21, 0x20); (0xA1, 0x28); (0x21, 0x04); (0xA1, 0x02);
   (0x21, 0x01); (0xA1, 0x01); (0x21, 0x0); (0xA1, 0x0)].

(** The vectors [init_idt] gives a gate, in its order: the [isr]s 0 to 31, the
    [irq]s 0 to 15 at [IRQ0] and above, and the system call [isr] 128. *)
Definition idt_vectors : list Z := Z.of_nat <$> seq 0 48 ++ [128]%nat.

(** [stub n] is the address of the entry stub of vector [n]. *)
Fixpoint idt_set_gates (stub : Z -> Z) (vs : list Z) (idt : list idt_entry)
  : option (list idt_entry) :=
  match vs with
  | [] => Some idt
  | v :: vs => idt ← idt_set_gate idt v (stub v) 0x08 0x8E; idt_set_gates stub vs idt
  end.

Definition init_idt (idt_base : Z) (stub : Z -> Z)
  : option (dt_pointer * list (Z * Z) * list idt_entry) :=
  let idt_ptr := DtPointer (u16 (sizeof_idt_entry * 256 - 1)) idt_base in
  idt ← idt_set_gates stub idt_vectors (replicate 256 idt_zero);
  Some (idt_ptr, pic_remap, idt).

Definition exception_messages : list string :=
  ["Division By Zero"; "Debug"; "Non Maskable Interrupt"; "Breakpoint";
   "Into Detected Overflow"; "Out of Bounds"; "Invalid Opcode"; "No Coprocessor";
   "Double Fault"; "Coprocessor Segment Overrun"; "Bad TSS"; "Segment Not Present";
   "Stack Fault"; "General Protection Fault"; "Page Fault"; "Unknown Interrupt";
   "Coprocessor Fault"; "Alignment Check"; "Machine Check"; "Reserved"; "Reserved";
   "Reserved"; "Reserved"; "Reserved"; "Reserved"; "Reserved"; "Reserved"; "Reserved";
   "Reserved"; "Reserved"; "Reserved"; "Reserved"]%string.

(** *** Dispatch

    A handler is known by a name of type [H]; [None] is the null pointer of an
    unregistered vector. *)
Section dispatch.
Context {H : Type}.

(** [register_interrupt_handler]: [n] is a [UCHAR]. *)
Definition register_interrupt_handler (interrupt_handlers : list (option H)) (n : Z)
  (handler : option H) : option (list (option H)) :=
  aset interrupt_handlers (u8 n) handler.

(** What [isr_handler] does: call a handler, or print and loop forever. *)
Inductive isr_action :=
  | IsrCall (handler : H)
  | IsrHang (message : option string).

Definition isr_handler (interrupt_handlers : list (option H)) (int_no : Z) : option isr_action :=
  let int_no := u8 (Z.land int_no 0xFF) in
  h ← aget interrupt_handlers int_no;
  Some (match h with
        | Some handler => IsrCall handler
        | None => IsrHang (if int_no <? 32 then aget exception_messages int_no else None)
        end).

(** [irq_handler]: the end-of-interrupt port writes and the handler called. *)
Definition irq_handler (interrupt_handlers : list (option H)) (int_no : Z)
  : option (list (Z * Z) * option H) :=
  let eoi := (if 40 <=? int_no then [(0xA0, 0x20)] else []) ++ [(0x20, 0x20)] in
  h ← aget interrupt_handlers int_no;
  Some (eoi, h).
End dispatch.
Arguments isr_action H : clear implicits.

(** [setup_dts]: both tables, and no handler registered. *)
Record dts := Dts {
  d_gdt : list gdt_entry; d_tss : tss_entry; d_idt : list idt_entry; d_out : list (Z * Z) }.

Definition setup_dts (gdt_base tss_base idt_base : Z) (stub : Z -> Z) : option dts :=
  '(_, g, tss) ← init_gdt gdt_base tss_base;
  '(_, out, i) ← init_idt idt_base stub;
  Some (Dts g tss i out).

Definition no_handlers (H : Type) : list (option H) := replicate 256 None.

(** ** What the processor reads back

    The layout of the two kinds of descriptors is the processor's. *)
Definition gdt_base_of (g : gdt_entry) : Z :=
  g_base_low g + Z.shiftl (g_base_middle g) 16 + Z.shiftl (g_base_high g) 24.
Definition gdt_limit_of (g : gdt_entry) : Z :=
  g_limit_low g + Z.shiftl (Z.land (g_granularity g) 0x0F) 16.
Definition gdt_flags_of (g : gdt_entry) : Z := Z.land (g_granularity g) 0xF0.
Definition idt_base_of (i : idt_entry) : Z := i_base_lo i + Z.shiftl (i_base_hi i) 16.
Definition idt_present (i : idt_entry) : bool := Z.testbit (i_flags i) 7.
Definition idt_dpl (i : idt_entry) : Z := Z.land (Z.shiftr (i_flags i) 5) 3.

(** ** Lemmas *)

Lemma land_ones_mod z k n : 0 <= n -> k = 2 ^ n - 1 -> Z.land z k = z mod 2 ^ n.
Proof. intros Hn ->. rewrite <- Z.land_ones by done. by rewrite Z.ones_equiv, Z.sub_1_r. Qed.

Lemma lor_land_disjoint a b :
  Z.land (Z.lor (Z.land a 0x0F) (Z.land b 0xF0)) 0x0F = Z.land a 0x0F /\
  Z.land (Z.lor (Z.land a 0x0F) (Z.land b 0xF0)) 0xF0 = Z.land b 0xF0.
Proof.
  split; rewrite Z.land_lor_distr_l, <- !Z.land_assoc.
  - change (Z.land 0x0F 0x0F) with 0x0F. change (Z.land 0xF0 0x0F) with 0.
    by rewrite Z.land_0_r, Z.lor_0_r.
  - change (Z.land 0x0F 0xF0) with 0. change (Z.land 0xF0 0xF0) with 0xF0.
    by rewrite Z.land_0_r.
Qed.

Lemma idt_set_gates_length stub vs idt idt' :
  idt_set_gates stub vs idt = Some idt' -> length idt' = length idt.
Proof.
  revert idt. induction vs as [|v vs IH]; simpl; intros idt H; [by simplify_eq|].
  apply bind_Some in H as (i & H1 & H2). rewrite (IH _ H2). by apply aset_length in H1.
Qed.

Lemma idt_set_gates_lookup stub vs idt idt' n :
  NoDup vs -> idt_set_gates stub vs idt = Some idt' ->
  aget idt' n = (if bool_decide (n ∈ vs) then Some (idt_make (stub n) 0x08 0x8E) else aget idt n).
Proof.
  revert idt. induction vs as [|v vs IH]; simpl; intros idt Hnd H.
  { by simplify_eq. }
  apply NoDup_cons in Hnd as [Hv Hnd]. apply bind_Some in H as (i & H1 & H2).
  rewrite (IH _ Hnd H2). unfold idt_set_gate in H1.
  destruct (decide (n = v)) as [->|Hne].
  - rewrite bool_decide_eq_false_2, bool_decide_eq_true_2 by set_solver.
    by rewrite (aget_aset_eq _ _ _ _ H1).
  - rewrite (aget_aset_ne _ _ _ _ _ (not_eq_sym Hne) H1).
    destruct (decide (n ∈ vs)).
    + by rewrite !bool_decide_eq_true_2 by set_solver.
    + by rewrite !bool_decide_eq_false_2 by set_solver.
Qed.

Lemma idt_set_gates_total stub vs : forall idt, Forall (fun v => 0 <= v < Z.of_nat (length idt)) vs ->
  exists idt', idt_set_gates stub vs idt = Some idt'.
Proof.
  induction vs as [|v vs IH]; simpl; intros idt H; [by eexists|]. apply Forall_cons in H as [Hv H].
  unfold idt_set_gate. destruct (aset idt v _) as [idt1|] eqn:E; [|rewrite aset_Some in E by done; done]. simpl.
  apply IH. by rewrite (aset_length _ _ _ _ E).
Qed.

Lemma elem_idt_vectors n : n ∈ idt_vectors <-> 0 <= n /\ ((n <? 48) || (n =? 128)) = true.
Proof.
  unfold idt_vectors. rewrite fmap_app, elem_of_app, list_elem_of_fmap. split.
  - intros [(k & -> & Hk)|Hk].
    + apply elem_of_seq in Hk. lia.
    + apply list_elem_of_singleton in Hk. lia.
  - intros [H0 Hc]. destruct (Z.eqb_spec n 128) as [->|]; [right; by apply list_elem_of_singleton|].
    left. exists (Z.to_nat n). split; [lia|]. apply elem_of_seq. lia.
Qed.

(** ** Properties *)

(** The processor reads back from a descriptor the base, the low 20 bits
    of the limit, the flag nibble and the access byte it was made from. *)
Theorem gdt_make_roundtrip base limit access gran :
  0 <= base < 4294967296 -> 0 <= limit < 4294967296 -> 0 <= gran < 256 ->
  let g := gdt_make base limit access gran in
  gdt_base_of g = base /\ gdt_limit_of g = limit mod 1048576 /\
  gdt_flags_of g = Z.land gran 0xF0 /\ g_access g = access.
Proof.
  intros Hb Hl Hg g. unfold g, gdt_base_of, gdt_limit_of, gdt_flags_of. simpl.
  destruct (lor_land_disjoint (Z.shiftr limit 16) gran) as [-> ->].
  rewrite !(land_ones_mod _ 0xFFFF 16), !(land_ones_mod _ 0xFF 8), (land_ones_mod _ 0x0F 4)
    by (reflexivity || lia).
  rewrite !Z.shiftr_div_pow2, !Z.shiftl_mul_pow2 by lia.
  split_and!; try done; simpl; lia.
Qed.

Lemma gdt_make_roundtrip_witness :
  gdt_base_of (gdt_make 0x12345678 0xFFFFFFFF 0x9A 0xCF) = 0x12345678 /\
  gdt_limit_of (gdt_make 0x12345678 0xFFFFFFFF 0x9A 0xCF) = 0xFFFFF.
Proof.
  destruct (gdt_make_roundtrip 0x12345678 0xFFFFFFFF 0x9A 0xCF) as (H1 & H2 & _ & _);
    [lia..|]. split; [exact H1|]. rewrite H2. reflexivity.
Defined.

(** C32: [init_idt] fills a table of 256 entries in which exactly the vectors 0
    to 47 and 128 have a present gate, at privilege level 3, leading to their
    entry stub; the other 207 entries are zero. *)
Theorem init_idt_gates idt_base stub : (forall v, 0 <= stub v < 4294967296) ->
  exists p out idt, init_idt idt_base stub = Some (p, out, idt) /\ dt_limit p = 2047 /\ length idt = 256%nat /\
  forall n, 0 <= n < 256 -> exists e, aget idt n = Some e /\
    (if (n <? 48) || (n =? 128)
     then idt_base_of e = stub n /\ idt_present e = true /\ idt_dpl e = 3 /\ i_sel e = 0x08
     else e = idt_zero).
Proof.
  intros Hs. destruct (idt_set_gates_total stub idt_vectors (replicate 256 idt_zero)) as [idt H].
  { apply Forall_forall. intros v Hv. apply elem_idt_vectors in Hv as []. rewrite length_replicate. lia. }
  unfold init_idt. rewrite H. do 3 eexists. split; [done|].
  split; [done|]. split; [by rewrite (idt_set_gates_length _ _ _ _ H)|]. intros n Hn.
  assert (Hnd : NoDup idt_vectors) by (apply (bool_decide_unpack _); vm_compute; exact I).
  rewrite (idt_set_gates_lookup _ _ _ _ n Hnd H).
  pose proof (elem_idt_vectors n) as Hin. destruct ((n <? 48) || (n =? 128)) eqn:E.
  - rewrite bool_decide_eq_true_2 by (apply Hin; split; [lia|done]). eexists. split; [done|].
    unfold idt_base_of. simpl. specialize (Hs n).
    rewrite !(land_ones_mod _ 0xFFFF 16) by (reflexivity || lia).
    rewrite !Z.shiftr_div_pow2, !Z.shiftl_mul_pow2 by lia.
    split_and!; try done. simpl. lia.
  - rewrite bool_decide_eq_false_2 by (rewrite Hin; intros []; congruence).
    exists idt_zero. split; [|done]. unfold aget. zcond. apply lookup_replicate_2. lia.
Qed.

Definition stub_sample (v : Z) : Z := 0x100000 + (v mod 256) * 16.

Lemma init_idt_gates_witness : exists p out idt, init_idt 0x1000 stub_sample = Some (p, out, idt) /\
  exists e, aget idt 128 = Some e /\ idt_base_of e = 0x100800 /\ idt_dpl e = 3.
Proof.
  destruct (init_idt_gates 0x1000 stub_sample) as (p & out & idt & E & _ & _ & H); [intros v; unfold stub_sample; lia|].
  exists p, out, idt. split; [exact E|]. destruct (H 128 ltac:(lia)) as (e & He & Hg). simpl in Hg. destruct Hg as (H1 & _ & H2 & _).
  exists e. split; [exact He|]. split; [|exact H2]. rewrite H1. reflexivity.
Defined.

(** A registered handler is the one an interrupt of its vector reaches,
    through [isr_handler] and through [irq_handler]; every other vector keeps
    its handler. *)
Theorem register_then_dispatch {H : Type} (hs hs' : list (option H)) n h m :
  length hs = 256%nat -> 0 <= n < 256 -> 0 <= m < 256 ->
  register_interrupt_handler hs n (Some h) = Some hs' ->
  isr_handler hs' n = Some (IsrCall h) /\ irq_handler hs' n ≫= (fun r => snd r) = Some h /\
  (m <> n -> isr_handler hs' m = isr_handler hs m /\ irq_handler hs' m = irq_handler hs m).
Proof.
  intros Hl Hn Hm Hr. unfold register_interrupt_handler in Hr. rewrite u8_id in Hr by done.
  assert (H8 : forall k, 0 <= k < 256 -> u8 (Z.land k 0xFF) = k).
  { intros k Hk. rewrite (land_ones_mod _ 0xFF 8) by (reflexivity || lia).
    change (2 ^ 8) with 256. width. }
  unfold isr_handler, irq_handler. rewrite (H8 n), (H8 m) by done.
  rewrite (aget_aset_eq _ _ _ _ Hr). simpl. split_and!; [done..|].
  intros Hne. by rewrite (aget_aset_ne _ _ _ _ _ (not_eq_sym Hne) Hr).
Qed.

Lemma register_then_dispatch_witness :
  exists hs', register_interrupt_handler (no_handlers nat) 0x80 (Some 7%nat) = Some hs' /\
              isr_handler hs' 0x80 = Some (IsrCall 7%nat).
Proof.
  eexists. split; [vm_compute; reflexivity|].
  eapply (register_then_dispatch (no_handlers nat) _ 0x80 7%nat 0);
    [reflexivity|lia|lia|vm_compute; reflexivity].
Defined.
