(* ===== verification/Keymap.v ===== *)
(** * Keyboard map: [src/src/drivers/tty/keymap.h], [german_keymap.c]

    The key codes and the table from a scan code and a modifier state to a key
    code.  A character constant of the table is written with its code. *)
From S2P Require Import Prelude.

(** ** Key codes *)

Definition SCAN_CODES : Z := 0x80.
Definition KEYMAP_STATES : Z := 6.
Definition EXT : Z := 0x0100.
Definition CTRL : Z := 0x0200.
Definition SHIFT : Z := 0x0400.
Definition ALT : Z := 0x0800.
Definition EXTKEY : Z := 0x1000.
Definition HASCAPS : Z := 0x0000.
Definition KEYUP : Z := 0x80.
Definition HOME : Z := Z.lor 0x01 EXT.
Definition KEND : Z := Z.lor 0x02 EXT.
Definition KUP : Z := Z.lor 0x03 EXT.
Definition KDOWN : Z := Z.lor 0x04 EXT.
Definition KLEFT : Z := Z.lor 0x05 EXT.
Definition KRIGHT : Z := Z.lor 0x06 EXT.
Definition PGUP : Z := Z.lor 0x07 EXT.
Definition PGDN : Z := Z.lor 0x08 EXT.
Definition KMID : Z := Z.lor 0x09 EXT.
Definition NMIN : Z := Z.lor 0x0A EXT.
Definition KPLUS : Z := Z.lor 0x0B EXT.
Definition INSRT : Z := Z.lor 0x0C EXT.
Definition AHOME : Z := Z.lor 0x01 ALT.
Definition AEND : Z := Z.lor 0x02 ALT.
Definition AUP : Z := Z.lor 0x03 ALT.
Definition ADOWN : Z := Z.lor 0x04 ALT.
Definition ALEFT : Z := Z.lor 0x05 ALT.
Definition ARIGHT : Z := Z.lor 0x06 ALT.
Definition APGUP : Z := Z.lor 0x07 ALT.
Definition APGDN : Z := Z.lor 0x08 ALT.
Definition AMID : Z := Z.lor 0x09 ALT.
Definition ANMIN : Z := Z.lor 0x0A ALT.
Definition APLUS : Z := Z.lor 0x0B ALT.
Definition AINSRT : Z := Z.lor 0x0C ALT.
Definition CHOME : Z := Z.lor 0x01 CTRL.
Definition CEND : Z := Z.lor 0x02 CTRL.
Definition CUP : Z := Z.lor 0x03 CTRL.
Definition CDOWN : Z := Z.lor 0x04 CTRL.
Definition CLEFT : Z := Z.lor 0x05 CTRL.
Definition CRIGHT : Z := Z.lor 0x06 CTRL.
Definition CPGUP : Z := Z.lor 0x07 CTRL.
Definition CPGDN : Z := Z.lor 0x08 CTRL.
Definition CMID : Z := Z.lor 0x09 CTRL.
Definition CNMIN : Z := Z.lor 0x0A CTRL.
Definition CPLUS : Z := Z.lor 0x0B CTRL.
Definition CINSRT : Z := Z.lor 0x0C CTRL.
Definition CALOCK : Z := Z.lor 0x0D EXT.
Definition NLOCK : Z := Z.lor 0x0E EXT.
Definition SLOCK : Z := Z.lor 0x0F EXT.
Definition F1 : Z := Z.lor 0x10 EXT.
Definition F2 : Z := Z.lor 0x11 EXT.
Definition F3 : Z := Z.lor 0x12 EXT.
Definition F4 : Z := Z.lor 0x13 EXT.
Definition F5 : Z := Z.lor 0x14 EXT.
Definition F6 : Z := Z.lor 0x15 EXT.
Definition F7 : Z := Z.lor 0x16 EXT.
Definition F8 : Z := Z.lor 0x17 EXT.
Definition F9 : Z := Z.lor 0x18 EXT.
Definition F10 : Z := Z.lor 0x19 EXT.
Definition F11 : Z := Z.lor 0x1A EXT.
Definition F12 : Z := Z.lor 0x1B EXT.
Definition AF1 : Z := Z.lor 0x10 ALT.
Definition AF2 : Z := Z.lor 0x11 ALT.
Definition AF3 : Z := Z.lor 0x12 ALT.
Definition AF4 : Z := Z.lor 0x13 ALT.
Definition AF5 : Z := Z.lor 0x14 ALT.
Definition AF6 : Z := Z.lor 0x15 ALT.
Definition AF7 : Z := Z.lor 0x16 ALT.
Definition AF8 : Z := Z.lor 0x17 ALT.
Definition AF9 : Z := Z.lor 0x18 ALT.
Definition AF10 : Z := Z.lor 0x19 ALT.
Definition AF11 : Z := Z.lor 0x1A ALT.
Definition AF12 : Z := Z.lor 0x1B ALT.
Definition CF1 : Z := Z.lor 0x10 CTRL.
Definition CF2 : Z := Z.lor 0x11 CTRL.
Definition CF3 : Z := Z.lor 0x12 CTRL.
Definition CF4 : Z := Z.lor 0x13 CTRL.
Definition CF5 : Z := Z.lor 0x14 CTRL.
Definition CF6 : Z := Z.lor 0x15 CTRL.
Definition CF7 : Z := Z.lor 0x16 CTRL.
Definition CF8 : Z := Z.lor 0x17 CTRL.
Definition CF9 : Z := Z.lor 0x18 CTRL.
Definition CF10 : Z := Z.lor 0x19 CTRL.
Definition CF11 : Z := Z.lor 0x1A CTRL.
Definition CF12 : Z := Z.lor 0x1B CTRL.
Definition SF1 : Z := Z.lor 0x10 SHIFT.
Definition SF2 : Z := Z.lor 0x11 SHIFT.
Definition SF3 : Z := Z.lor 0x12 SHIFT.
Definition SF4 : Z := Z.lor 0x13 SHIFT.
Definition SF5 : Z := Z.lor 0x14 SHIFT.
Definition SF6 : Z := Z.lor 0x15 SHIFT.
Definition SF7 : Z := Z.lor 0x16 SHIFT.
Definition SF8 : Z := Z.lor 0x17 SHIFT.
Definition SF9 : Z := Z.lor 0x18 SHIFT.
Definition SF10 : Z := Z.lor 0x19 SHIFT.
Definition SF11 : Z := Z.lor 0x1A SHIFT.
Definition SF12 : Z := Z.lor 0x1B SHIFT.
Definition ASF1 : Z := Z.lor (Z.lor 0x10 ALT) SHIFT.
Definition ASF2 : Z := Z.lor (Z.lor 0x11 ALT) SHIFT.
Definition ASF3 : Z := Z.lor (Z.lor 0x12 ALT) SHIFT.
Definition ASF4 : Z := Z.lor (Z.lor 0x13 ALT) SHIFT.
Definition ASF5 : Z := Z.lor (Z.lor 0x14 ALT) SHIFT.
Definition ASF6 : Z := Z.lor (Z.lor 0x15 ALT) SHIFT.
Definition ASF7 : Z := Z.lor (Z.lor 0x16 ALT) SHIFT.
Definition ASF8 : Z := Z.lor (Z.lor 0x17 ALT) SHIFT.
Definition ASF9 : Z := Z.lor (Z.lor 0x18 ALT) SHIFT.
Definition ASF10 : Z := Z.lor (Z.lor 0x19 ALT) SHIFT.
Definition ASF11 : Z := Z.lor (Z.lor 0x1A ALT) SHIFT.
Definition ASF12 : Z := Z.lor (Z.lor 0x1B ALT) SHIFT.

(** The character macros [C], [A], [CA] and [L]. *)
Definition kC (c : Z) : Z := Z.land c 0x1F.
Definition kA (c : Z) : Z := Z.lor c 0x80.
Definition kCA (c : Z) : Z := kA (kC c).
Definition kL (c : Z) : Z := Z.lor c HASCAPS.

(** ** The table, a row per scan code: plain, Shift, Alt, AltGr, Alt+Shift,
    Ctrl *)
Definition german_keymap_rows : list (list Z) :=
  [
   [0; 0; 0; 0; 0; 0];
   [kC 91; kC 91; kCA 91; kC 91; kC 91; kC 91];
   [49; 33; kA 49; 49; 33; kC 65];
   [50; 34; kA 50; 253; 64; kC 64];
   [51; 21; kA 51; 252; 35; kC 67];
   [52; 36; kA 52; 52; 36; kC 68];
   [53; 37; kA 53; 53; 37; kC 69];
   [54; 38; kA 54; 54; 94; kC 94];
   [55; 47; kA 55; 123; 38; kC 71];
   [56; 40; kA 56; 91; 42; kC 72];
   [57; 41; kA 57; 93; 40; kC 73];
   [48; 61; kA 48; 125; 41; kC 64];
   [225; 63; 225; 92; 95; kC 95];
   [39; 96; kA 39; 61; 43; kC 64];
   [kC 72; kC 72; kCA 72; kC 72; kC 72; 127];
   [kC 73; kC 73; kCA 73; kC 73; kC 73; kC 73];
   [kL 113; 81; kA 113; 64; 81; kC 81];
   [kL 119; 87; kA 119; 119; 87; kC 87];
   [kL 101; 69; kA 101; 101; 69; kC 69];
   [kL 114; 82; kA 114; 114; 82; kC 82];
   [kL 116; 84; kA 116; 116; 84; kC 84];
   [kL 122; 90; kA 122; 122; 90; kC 90];
   [kL 117; 85; kA 117; 117; 85; kC 85];
   [kL 105; 73; kA 105; 105; 73; kC 73];
   [kL 111; 79; kA 111; 111; 79; kC 79];
   [kL 112; 80; kA 112; 112; 80; kC 80];
   [kL 129; 154; 129; 91; 123; kC 91];
   [43; 42; kA 43; 126; 93; kC 93];
   [kC 74; kC 74; kCA 74; kC 74; kC 74; kC 77];
   [CTRL; CTRL; CTRL; CTRL; CTRL; CTRL];
   [kL 97; 65; kA 97; 97; 65; kC 65];
   [kL 115; 83; kA 115; 115; 83; kC 83];
   [kL 100; 68; kA 100; 100; 68; kC 68];
   [kL 102; 70; kA 102; 102; 70; kC 70];
   [kL 103; 71; kA 103; 103; 71; kC 71];
   [kL 104; 72; kA 104; 104; 72; kC 72];
   [kL 106; 74; kA 106; 106; 74; kC 74];
   [kL 107; 75; kA 107; 107; 75; kC 75];
   [kL 108; 76; kA 108; 108; 76; kC 76];
   [kL 148; 153; 148; 59; 58; kC 64];
   [kL 132; 142; 132; 39; 34; kC 64];
   [94; 248; kA 94; 96; 126; kC 94];
   [SHIFT; SHIFT; SHIFT; SHIFT; SHIFT; SHIFT];
   [35; 39; kA 35; 92; 124; kC 92];
   [kL 121; 89; kA 121; 121; 89; kC 89];
   [kL 120; 88; kA 120; 120; 88; kC 88];
   [kL 99; 67; kA 99; 99; 67; kC 67];
   [kL 118; 86; kA 118; 118; 86; kC 86];
   [kL 98; 66; kA 98; 98; 66; kC 66];
   [kL 110; 78; kA 110; 110; 78; kC 78];
   [kL 109; 77; kA 109; 230; 77; kC 77];
   [44; 59; kA 44; 44; 60; kC 64];
   [46; 58; kA 46; 46; 62; kC 64];
   [45; 95; kA 45; 47; 63; kC 95];
   [SHIFT; SHIFT; SHIFT; SHIFT; SHIFT; SHIFT];
   [42; 42; kA 42; 0xE7; 42; kC 64];
   [ALT; ALT; ALT; ALT; ALT; ALT];
   [32; 32; kA 32; 32; 32; kC 64];
   [CALOCK; CALOCK; CALOCK; CALOCK; CALOCK; CALOCK];
   [F1; SF1; AF1; AF1; ASF1; CF1];
   [F2; SF2; AF2; AF2; ASF2; CF2];
   [F3; SF3; AF3; AF3; ASF3; CF3];
   [F4; SF4; AF4; AF4; ASF4; CF4];
   [F5; SF5; AF5; AF5; ASF5; CF5];
   [F6; SF6; AF6; AF6; ASF6; CF6];
   [F7; SF7; AF7; AF7; ASF7; CF7];
   [F8; SF8; AF8; AF8; ASF8; CF8];
   [F9; SF9; AF9; AF9; ASF9; CF9];
   [F10; SF10; AF10; AF10; ASF10; CF10];
   [NLOCK; NLOCK; NLOCK; NLOCK; NLOCK; NLOCK];
   [SLOCK; SLOCK; SLOCK; SLOCK; SLOCK; SLOCK];
   [HOME; 55; AHOME; AHOME; 55; CHOME];
   [KUP; 56; AUP; AUP; 56; CUP];
   [PGUP; 57; APGUP; APGUP; 57; CPGUP];
   [NMIN; 45; ANMIN; ANMIN; 45; CNMIN];
   [KLEFT; 52; ALEFT; ALEFT; 52; CLEFT];
   [KMID; 53; AMID; AMID; 53; CMID];
   [KRIGHT; 54; ARIGHT; ARIGHT; 54; CRIGHT];
   [KPLUS; 43; APLUS; APLUS; 43; CPLUS];
   [KEND; 49; AEND; AEND; 49; CEND];
   [KDOWN; 50; ADOWN; ADOWN; 50; CDOWN];
   [PGDN; 51; APGDN; APGDN; 51; CPGDN];
   [INSRT; 48; AINSRT; AINSRT; 48; CINSRT];
   [127; 46; kA 127; 127; 46; 127];
   [kC 77; kC 77; kCA 77; kC 77; kC 77; kC 74];
   [0; 0; 0; 0; 0; 0];
   [60; 62; kA 60; 124; 62; kC 64];
   [F11; SF11; AF11; AF11; ASF11; CF11];
   [F12; SF12; AF12; AF12; ASF12; CF12];
   [0; 0; 0; 0; 0; 0];
   [0; 0; 0; 0; 0; 0];
   [0; 0; 0; 0; 0; 0];
   [0; 0; 0; 0; 0; 0];
   [0; 0; 0; 0; 0; 0];
   [0; 0; 0; 0; 0; 0];
   [0; 0; 0; 0; 0; 0];
   [EXTKEY; EXTKEY; EXTKEY; EXTKEY; EXTKEY; EXTKEY];
   [0; 0; 0; 0; 0; 0];
   [0; 0; 0; 0; 0; 0];
   [0; 0; 0; 0; 0; 0];
   [0; 0; 0; 0; 0; 0];
   [0; 0; 0; 0; 0; 0];
   [0; 0; 0; 0; 0; 0];
   [0; 0; 0; 0; 0; 0];
   [0; 0; 0; 0; 0; 0];
   [0; 0; 0; 0; 0; 0];
   [0; 0; 0; 0; 0; 0];
   [0; 0; 0; 0; 0; 0];
   [0; 0; 0; 0; 0; 0];
   [0; 0; 0; 0; 0; 0];
   [0; 0; 0; 0; 0; 0];
   [0; 0; 0; 0; 0; 0];
   [0; 0; 0; 0; 0; 0];
   [0; 0; 0; 0; 0; 0];
   [0; 0; 0; 0; 0; 0];
   [0; 0; 0; 0; 0; 0];
   [0; 0; 0; 0; 0; 0];
   [0; 0; 0; 0; 0; 0];
   [0; 0; 0; 0; 0; 0];
   [0; 0; 0; 0; 0; 0];
   [0; 0; 0; 0; 0; 0];
   [0; 0; 0; 0; 0; 0];
   [0; 0; 0; 0; 0; 0];
   [0; 0; 0; 0; 0; 0];
   [0; 0; 0; 0; 0; 0];
   [0; 0; 0; 0; 0; 0];
   [0; 0; 0; 0; 0; 0];
   [0; 0; 0; 0; 0; 0]].

Definition german_keymap : list Z := mjoin german_keymap_rows.

(** The table entry for a scan code and a modifier state. *)
Definition keymap_lookup (keymap : list Z) (scan_code key_state : Z) : option Z :=
  aget keymap (Z.land scan_code 0x7F * KEYMAP_STATES + key_state).

Lemma german_keymap_length : length german_keymap = 768%nat.
Proof. reflexivity. Qed.
