(* ===== verification/Tty.v ===== *)
(** * The console: [src/src/drivers/tty/tty.c] and [tty.h]

    One console is a record [tty]; its text memory is the list of its 16-bit
    cells.  Every store is checked against the array it goes to: an operation
    returns [None] when the code would write outside [mem] or [escape_seq]. *)
From S2P Require Import Prelude CString.

(** ** Data *)

Definition TTY_WIDTH : Z := 80.
Definition TTY_HEIGHT : Z := 25.
Definition TTY_LINES : Z := 75.
Definition TTY_ESCAPE_LEN : Z := 128.
Definition TTY_INBUF_LEN : Z := 16.
Definition TTY_COL_BLACK : Z := 0.
Definition TTY_COL_BLUE : Z := 1.
Definition TTY_COL_GREEN : Z := 2.
Definition TTY_COL_CYAN : Z := 3.
Definition TTY_COL_RED : Z := 4.
Definition TTY_COL_MAGENTA : Z := 5.
Definition TTY_COL_BROWN : Z := 6.
Definition TTY_COL_GRAY : Z := 7.
Definition TTY_COL_BRIGHT : Z := 8.
Definition TTY_COL_FG_DEF : Z := 7.
Definition TTY_COL_BG_DEF : Z := 0.
Definition NR_TTYS : Z := 4.

Record tty_cursor := Cursor { cx : Z; cy : Z }.

Record tty := Tty {
  is_esc : bool; show_cursor : bool; echo : bool; nr : Z;
  width : Z; height : Z; memlines : Z; viewln : Z; scrln : Z; esc_ind : Z; attr : Z;
  mem : list Z; in_s : Z; in_e : Z;
  cursor : tty_cursor; _cursor : tty_cursor;
  input_buffer : list Z; escape_seq : list Z }.

Definition ansi_col_map : list Z :=
  [TTY_COL_BLACK; TTY_COL_RED; TTY_COL_GREEN; TTY_COL_BROWN; TTY_COL_BLUE; TTY_COL_MAGENTA;
   TTY_COL_CYAN; TTY_COL_GRAY].

(** *** Field updates *)
Definition set_is_esc (b : bool) (t : tty) : tty :=
  Tty b (show_cursor t) (echo t) (nr t) (width t) (height t) (memlines t) (viewln t) (scrln t)
    (esc_ind t) (attr t) (mem t) (in_s t) (in_e t) (cursor t) (_cursor t) (input_buffer t) (escape_seq t).
Definition set_show_cursor (b : bool) (t : tty) : tty :=
  Tty (is_esc t) b (echo t) (nr t) (width t) (height t) (memlines t) (viewln t) (scrln t)
    (esc_ind t) (attr t) (mem t) (in_s t) (in_e t) (cursor t) (_cursor t) (input_buffer t) (escape_seq t).
Definition set_echo (b : bool) (t : tty) : tty :=
  Tty (is_esc t) (show_cursor t) b (nr t) (width t) (height t) (memlines t) (viewln t) (scrln t)
    (esc_ind t) (attr t) (mem t) (in_s t) (in_e t) (cursor t) (_cursor t) (input_buffer t) (escape_seq t).
Definition set_view (view scr : Z) (t : tty) : tty :=
  Tty (is_esc t) (show_cursor t) (echo t) (nr t) (width t) (height t) (memlines t) view scr
    (esc_ind t) (attr t) (mem t) (in_s t) (in_e t) (cursor t) (_cursor t) (input_buffer t) (escape_seq t).
Definition set_esc_ind (i : Z) (t : tty) : tty :=
  Tty (is_esc t) (show_cursor t) (echo t) (nr t) (width t) (height t) (memlines t) (viewln t) (scrln t)
    i (attr t) (mem t) (in_s t) (in_e t) (cursor t) (_cursor t) (input_buffer t) (escape_seq t).
Definition set_attr (a : Z) (t : tty) : tty :=
  Tty (is_esc t) (show_cursor t) (echo t) (nr t) (width t) (height t) (memlines t) (viewln t) (scrln t)
    (esc_ind t) a (mem t) (in_s t) (in_e t) (cursor t) (_cursor t) (input_buffer t) (escape_seq t).
Definition set_mem (m : list Z) (t : tty) : tty :=
  Tty (is_esc t) (show_cursor t) (echo t) (nr t) (width t) (height t) (memlines t) (viewln t) (scrln t)
    (esc_ind t) (attr t) m (in_s t) (in_e t) (cursor t) (_cursor t) (input_buffer t) (escape_seq t).
Definition set_in (s e : Z) (b : list Z) (t : tty) : tty :=
  Tty (is_esc t) (show_cursor t) (echo t) (nr t) (width t) (height t) (memlines t) (viewln t) (scrln t)
    (esc_ind t) (attr t) (mem t) s e (cursor t) (_cursor t) b (escape_seq t).
(** [char] coordinates. *)
Definition set_xy (x y : Z) (t : tty) : tty :=
  Tty (is_esc t) (show_cursor t) (echo t) (nr t) (width t) (height t) (memlines t) (viewln t) (scrln t)
    (esc_ind t) (attr t) (mem t) (in_s t) (in_e t) (Cursor (s8 x) (s8 y)) (_cursor t)
    (input_buffer t) (escape_seq t).
Definition set_saved (c : tty_cursor) (t : tty) : tty :=
  Tty (is_esc t) (show_cursor t) (echo t) (nr t) (width t) (height t) (memlines t) (viewln t) (scrln t)
    (esc_ind t) (attr t) (mem t) (in_s t) (in_e t) (cursor t) c (input_buffer t) (escape_seq t).
Definition set_escape_seq (e : list Z) (t : tty) : tty :=
  Tty (is_esc t) (show_cursor t) (echo t) (nr t) (width t) (height t) (memlines t) (viewln t) (scrln t)
    (esc_ind t) (attr t) (mem t) (in_s t) (in_e t) (cursor t) (_cursor t) (input_buffer t) e.

Definition x_of (t : tty) : Z := cx (cursor t).
Definition y_of (t : tty) : Z := cy (cursor t).
Definition set_x (x : Z) (t : tty) : tty := set_xy x (y_of t) t.
Definition set_y (y : Z) (t : tty) : tty := set_xy (x_of t) y t.

(** ** Definitions *)

(** [TTY_POS]: rows are stored in a ring that starts at [scrln]. *)
Definition TTY_POS (t : tty) (x y : Z) : Z :=
  width t * (scrln t + y - (if memlines t <=? scrln t + y then memlines t else 0)) + x.

Definition is_digit_c (c : Z) : bool := u32 (c - 48) <? 10.
Definition TTY_ESCAPE_END (c : Z) : bool := (0x40 <? c) && (c <? 0x7E).
Definition TTY_ESCAPE_CHR (c : Z) : bool :=
  TTY_ESCAPE_END c || (c =? 59) || (c =? 63) || is_digit_c c.

(** [atoi]: every digit counts, other characters are skipped. *)
Fixpoint atoi_loop (str : list Z) (res : Z) : option Z :=
  match str with
  | [] => None
  | c :: str =>
      if negb (c =? 0) then
        atoi_loop str (if is_digit_c c then s32 (10 * res + (c - 48)) else res)
      else Some res
  end.
Definition atoi (str : list Z) : option Z := atoi_loop str 0.

(** [memsetw(mem + pos, value, count)] *)
Definition mem_fill (t : tty) (pos value count : Z) : option tty :=
  if (0 <=? pos) && (pos <=? Z.of_nat (length (mem t))) then
    tail ← memsetw (drop (Z.to_nat pos) (mem t)) value (u32 count);
    Some (set_mem (take (Z.to_nat pos) (mem t) ++ tail) t)
  else None.

Definition mem_put (t : tty) (pos value : Z) : option tty :=
  m ← aset (mem t) pos value; Some (set_mem m t).

(** The position [tty_showcusor] programs into the video controller, and its
    port writes. *)
Definition tty_showcusor (t : tty) : list (Z * Z) :=
  let pos := u16 (if show_cursor t && (viewln t =? scrln t)
                  then y_of t * width t + x_of t else height t * width t) in
  [(0x3D4, 0x0F); (0x3D5, u8 (Z.land pos 0xFF)); (0x3D4, 0x0E); (0x3D5, u8 (Z.shiftr pos 8))].

(** [print_tty]: the cells copied to the video memory, in order. *)
Definition print_tty (t : tty) : list Z :=
  if memlines t - viewln t <? height t then
    take (Z.to_nat ((memlines t - viewln t) * width t)) (drop (Z.to_nat (viewln t * width t)) (mem t))
    ++ take (Z.to_nat ((height t - (memlines t - viewln t)) * width t)) (mem t)
  else take (Z.to_nat (height t * width t)) (drop (Z.to_nat (viewln t * width t)) (mem t)).

Definition col (n : Z) : Z := default 0 (ansi_col_map !! Z.to_nat n).

(** [tty_select_graphic_rendition]: [fg] and [bg] are [UCHAR]s. *)
Definition tty_select_graphic_rendition (t : tty) (n : Z) : tty :=
  let fg := u8 (Z.land (Z.shiftr (attr t) 8) 0xFF) in
  let bg := u8 (Z.land (Z.shiftr (attr t) 12) 0xFF) in
  let '(fg, bg) :=
    if n =? 0 then (TTY_COL_FG_DEF, TTY_COL_BG_DEF)
    else if (30 <=? n) && (n <=? 37) then (col (n - 30), bg)
    else if n =? 39 then (TTY_COL_FG_DEF, bg)
    else if (40 <=? n) && (n <=? 47) then (fg, col (n - 40))
    else if n =? 49 then (fg, TTY_COL_BG_DEF)
    else if (90 <=? n) && (n <=? 97) then (Z.lor (col (n - 90)) TTY_COL_BRIGHT, bg)
    else if n =? 99 then (Z.lor TTY_COL_FG_DEF TTY_COL_BRIGHT, bg)
    else if (100 <=? n) && (n <=? 107) then (fg, Z.lor (col (n - 100)) TTY_COL_BRIGHT)
    else if n =? 109 then (fg, Z.lor TTY_COL_BG_DEF TTY_COL_BRIGHT)
    else (fg, bg) in
  set_attr (u16 (Z.lor (Z.shiftl bg 12) (Z.shiftl fg 8))) t.

(** The loops that clear rows [from <= m < until]. *)
Fixpoint clear_rows (rows : nat) (t : tty) (m value : Z) : option tty :=
  match rows with
  | O => Some t
  | S rows => t ← mem_fill t (TTY_POS t 0 m) value (width t); clear_rows rows t (m + 1) value
  end.

(** [*sep = 0]; [sep] points into [escape_seq]. *)
Definition cut_at (sep : list Z) (t : tty) : tty :=
  set_escape_seq (<[(length (escape_seq t) - length sep)%nat := 0]> (escape_seq t)) t.

(** The [m] case: one rendition per parameter. *)
Fixpoint sgr_loop (fuel : nat) (t : tty) (params : list Z) : option tty :=
  match fuel with
  | O => None
  | S fuel =>
      sep ← strchr params 59;
      match sep with
      | Some sep =>
          let here := take (length params - length sep) params ++ [0] in
          n ← atoi here;
          sgr_loop fuel (tty_select_graphic_rendition (cut_at sep t) n) (drop 1 sep)
      | None => n ← atoi params; Some (tty_select_graphic_rendition t n)
      end
  end.

(** The [J] and [K] cases. *)
Definition tty_erase (t : tty) (n : Z) (is_J : bool) : option tty :=
  let tmp := Z.lor (attr t) 0x20 in
  if n =? 0 then
    t ← mem_fill t (TTY_POS t (x_of t) (y_of t)) tmp (width t - x_of t);
    if is_J then clear_rows (Z.to_nat (height t - (y_of t + 1))) t (y_of t + 1) tmp else Some t
  else if n =? 1 then
    t ← mem_fill t (TTY_POS t 0 (y_of t)) tmp (x_of t + 1);
    if is_J then clear_rows (Z.to_nat (y_of t)) t 0 tmp else Some t
  else if n =? 2 then
    if is_J then clear_rows (Z.to_nat (height t)) t 0 tmp
    else mem_fill t (TTY_POS t 0 (y_of t)) tmp (width t)
  else Some t.

(** The [H] and [f] cases: [n] is the first parameter, [m] the second. *)
Definition tty_goto (t : tty) (n m : Z) : tty :=
  let n := if n <? 1 then 1 else if width t <? n then width t else n in
  let m := if m <? 1 then 1 else if height t <? m then height t else m in
  set_xy (n - 1) (m - 1) t.

Definition first_param (params : list Z) (empty : Z) : option Z :=
  c ← head params; if c =? 0 then Some empty else atoi params.

(** The cases [A] to [G]: relative moves and the column. *)
Definition esc_move (t : tty) (cmd n : Z) : tty :=
  let x := x_of t in
  let y := y_of t in
  let down := if height t <=? s32 (y + n) then height t - 1 else y + n in
  let up := if y <=? n then 0 else y - n in
  if cmd =? 65 (* A *) then set_y up t
  else if cmd =? 66 (* B *) then set_y down t
  else if cmd =? 67 (* C *) then
    if width t <=? s32 (x + n) then set_x (width t - 1) t else set_x (x + n) t
  else if cmd =? 68 (* D *) then if x <=? n then set_x 0 t else set_x (x - n) t
  else if cmd =? 69 (* E *) then set_xy 0 down t
  else if cmd =? 70 (* F *) then set_xy 0 up t
  else (* G *)
    let n := if n =? 0 then 1 else if width t <? n then width t else n in
    set_x (n - 1) t.

(** The cases [H] and [f]: [n] was read from the whole parameter string. *)
Definition esc_goto (t : tty) (params : list Z) (n : Z) : option tty :=
  sep ← strchr params 59;
  match sep with
  | Some sep =>
      m ← first_param (drop 1 sep) 1;
      n ← first_param (take (length params - length sep) params ++ [0]) 1;
      Some (tty_goto (cut_at sep t) n m)
  | None => Some (tty_goto t n 1)
  end.

(** The cases [l] and [h]. *)
Definition esc_cursor_mode (t : tty) (params : list Z) (show : bool) : option tty :=
  r ← strcmp (Some params) (Some (lit "?25"));
  Some (if r =? 0 then set_show_cursor show t else t).

(** [tty_interpret_escape] *)
Definition tty_interpret_escape (t : tty) : option tty :=
  cmd ← aget (escape_seq t) (esc_ind t);
  seq ← aset (escape_seq t) (esc_ind t) 0;
  let t := set_escape_seq seq t in
  let params := drop 1 seq in
  n ← first_param params 1;
  if (65 <=? cmd) && (cmd <=? 71) (* A to G *) then Some (esc_move t cmd n)
  else if (cmd =? 72) || (cmd =? 102) (* H f *) then esc_goto t params n
  else if (cmd =? 74) || (cmd =? 75) (* J K *) then
    c ← head params; tty_erase t (if c =? 0 then 0 else n) (cmd =? 74)
  else if cmd =? 109 (* m *) then sgr_loop (S (length params)) t params
  else if cmd =? 115 (* s *) then Some (set_saved (cursor t) t)
  else if cmd =? 117 (* u *) then Some (set_xy (cx (_cursor t)) (cy (_cursor t)) t)
  else if cmd =? 108 (* l *) then esc_cursor_mode t params false
  else if cmd =? 104 (* h *) then esc_cursor_mode t params true
  else if cmd =? 101 (* e *) then Some (set_echo (negb (n =? 0)) t)
  else Some t.

(** The body of the loop for a character that belongs to an escape
    sequence. *)
Definition tty_escape_char (t : tty) (c : Z) : option tty :=
  t ← (if esc_ind t =? 0 then
         Some (if negb (c =? 91) then set_is_esc false t else t)
       else if (TTY_ESCAPE_LEN <=? esc_ind t) || negb (TTY_ESCAPE_CHR c) then
         Some (set_is_esc false t)
       else
         seq ← aset (escape_seq t) (esc_ind t) c;
         let t := set_escape_seq seq t in
         if TTY_ESCAPE_END c then tty_interpret_escape (set_is_esc false t) else Some t);
  Some (set_esc_ind (u16 (esc_ind t + 1)) t).

(** The [switch] for an ordinary character. *)
Definition tty_plain_char (t : tty) (c : Z) : option tty :=
  if c =? 0 then Some t
  else if c =? 8 (* backspace *) then
    let t := if negb (x_of t =? 0) then set_x (x_of t - 1) t else t in
    mem_put t (TTY_POS t (x_of t) (y_of t)) (Z.lor (attr t) 0x20)
  else if c =? 9 (* tab *) then
    let t := set_x (Z.land (x_of t + 8) 0xF8) t in
    Some (if width t <=? x_of t then set_x (width t - 1) t else t)
  else if c =? 10 (* newline *) then Some (set_xy 0 (y_of t + 1) t)
  else if (c =? 11) || (c =? 12) then Some (set_y (y_of t + 1) t)
  else if c =? 13 then Some (set_x 0 t)
  else if c =? 27 (* escape *) then
    seq ← memset (escape_seq t) 0 TTY_ESCAPE_LEN;
    seq ← aset seq 0 91;
    Some (set_escape_seq seq (set_esc_ind 0 (set_is_esc true t)))
  else
    let pos := TTY_POS t (x_of t) (y_of t) in
    mem_put (set_x (x_of t + 1) t) pos (u16 (Z.lor (attr t) (u8 c))).

(** The line wrap and the scrolling that follow. *)
Definition tty_wrap (t : tty) : tty :=
  if width t <=? x_of t then set_xy 0 (y_of t + 1) t else t.

Definition tty_scroll (t : tty) : option tty :=
  if y_of t =? height t then
    let t := set_y (y_of t - 1) t in
    let s := u16 (scrln t + 1) in
    let s := if s =? memlines t then 0 else s in
    let t := set_view s s t in
    mem_fill t (TTY_POS t 0 (height t - 1)) (Z.lor (attr t) 0x20) (width t)
  else Some t.

(** The loop body of [do_tty_write]. *)
Definition tty_char (t : tty) (c : Z) : option tty :=
  t ← (if is_esc t then tty_escape_char t c else tty_plain_char t c);
  tty_scroll (tty_wrap t).

Fixpoint tty_chars (t : tty) (buffer : list Z) : option tty :=
  match buffer with
  | [] => Some t
  | c :: buffer => t ← tty_char t c; tty_chars t buffer
  end.

(** [do_tty_write] on one console: the console afterwards and the returned
    size. *)
Definition do_tty_write (t : tty) (buffer : list Z) : option (tty * Z) :=
  t ← tty_chars (set_view (scrln t) (scrln t) t) buffer;
  Some (t, Z.of_nat (length buffer)).

(** [create_tty]; [malloc] does not clear the input buffer and the escape
    sequence, their contents are arguments. *)
Definition create_tty (n : Z) (inbuf esc : list Z) : tty :=
  Tty false false false (n mod 32) TTY_WIDTH TTY_HEIGHT TTY_LINES 0 0 0
    (u16 (Z.lor (Z.shiftl TTY_COL_BG_DEF 12) (Z.shiftl TTY_COL_FG_DEF 8)))
    (replicate (Z.to_nat (TTY_WIDTH * TTY_LINES)) 0) 0 0 (Cursor 0 0) (Cursor 0 0) inbuf esc.

(** *** The set of consoles

    [current_tty] is the number of the console whose device is the current
    one; [ttys] has [NR_TTYS] entries. *)
Record consoles := Consoles { ttys : list (option tty); current_tty : option Z }.

(** The console afterwards is shown when it is the current one: the second
    component is the new video memory. *)
Definition console_write (cs : consoles) (n : Z) (buffer : list Z)
  : option (consoles * option (list Z) * Z) :=
  ot ← aget (ttys cs) n;
  t ← ot;
  '(t, size) ← do_tty_write t buffer;
  ts ← aset (ttys cs) n (Some t);
  Some (Consoles ts (current_tty cs),
        (if bool_decide (current_tty cs = Some n) then Some (print_tty t) else None), size).

(** [set_current_tty]: [None] in the third place is the null pointer it
    returns. *)
Definition set_current_tty (cs : consoles) (n : Z) : consoles * option (list Z) * option Z :=
  if (n <? 0) || (NR_TTYS <=? n) then (cs, None, None)
  else match aget (ttys cs) n with
       | Some (Some t) => (Consoles (ttys cs) (Some n), Some (print_tty t), Some n)
       | _ => (cs, None, None)
       end.

(** [tty_ioctl] *)
Definition tty_ioctl (cmd arg : Z) : Z := -25.

(** ** The invariant

    Geometry, array lengths and the ranges of the indices; the cursor may
    stand one step outside the screen between the parts of one loop
    iteration, which the bounds [xm] and [ym] say. *)
Record tty_geo (t : tty) : Prop := {
  geo_width : width t = 80; geo_height : height t = 25; geo_lines : memlines t = 75;
  geo_mem : Z.of_nat (length (mem t)) = 6000;
  geo_scrln : 0 <= scrln t < 75; geo_viewln : 0 <= viewln t < 75;
  geo_saved : 0 <= cx (_cursor t) < 80 /\ 0 <= cy (_cursor t) < 25;
  geo_seq : length (escape_seq t) = 128%nat;
  geo_ind : 0 <= esc_ind t < 65536;
  geo_attr : 0 <= attr t < 65536 }.

Definition tty_box (xm ym : Z) (t : tty) : Prop :=
  tty_geo t /\ 0 <= x_of t <= xm /\ 0 <= y_of t <= ym.

Definition tty_ok (t : tty) : Prop := tty_box 79 24 t.

(** ** Lemmas *)

Ltac geo_tac :=
  match goal with
  | H : tty_geo ?t |- tty_geo _ =>
      destruct H; destruct t; simpl in *; constructor; simpl; try lia; try done
  end.

Lemma land_F8_range z : 0 <= z < 256 -> 0 <= Z.land z 0xF8 <= z.
Proof.
  intros Hz.
  pose proof (forall_below_spec 256 (fun z => (0 <=? Z.land z 0xF8) && (Z.land z 0xF8 <=? z)) z
                ltac:(reflexivity) ltac:(lia)) as H.
  cbv beta in H. lia.
Qed.

Lemma TTY_POS_bounds t x y :
  tty_geo t -> 0 <= y < 25 -> 0 <= TTY_POS t 0 y /\ TTY_POS t 0 y + 80 <= 6000 /\
  TTY_POS t x y = TTY_POS t 0 y + x.
Proof.
  intros [Hw Hh Hl _ Hs _ _ _ _ _] Hy. unfold TTY_POS. rewrite Hw, Hl.
  case_cond; lia.
Qed.

(** Two consoles that differ at most in their text memory. *)
Definition mem_only (t t' : tty) : Prop := exists m, length m = length (mem t) /\ t' = set_mem m t.

Lemma mem_only_refl t : mem_only t t.
Proof. exists (mem t). by destruct t. Qed.
Lemma mem_only_trans t1 t2 t3 : mem_only t1 t2 -> mem_only t2 t3 -> mem_only t1 t3.
Proof. intros (m1 & H1 & ->) (m2 & H2 & ->). exists m2. by rewrite <- H1. Qed.
Lemma mem_only_geom t t' :
  mem_only t t' -> height t' = height t /\ x_of t' = x_of t /\ y_of t' = y_of t.
Proof. intros (m & _ & ->). by destruct t. Qed.
Lemma mem_only_box xm ym t t' : mem_only t t' -> tty_box xm ym t -> tty_box xm ym t'.
Proof.
  intros (m & Hm & ->) (Hg & Hx & Hy). split; [|by destruct t].
  destruct Hg, t; simpl in *. constructor; simpl; try done. by rewrite Hm.
Qed.

Lemma mem_fill_ok t pos v n :
  tty_geo t -> 0 <= pos -> 0 <= n -> pos + n <= 6000 ->
  exists t', mem_fill t pos v n = Some t' /\ mem_only t t'.
Proof.
  intros Hg Hp Hn Hb. pose proof (geo_mem t Hg) as Hl. unfold mem_fill. rewrite Hl. zcond.
  rewrite u32_id by lia. unfold memsetw.
  rewrite <- (Z2Nat.id n) by lia. rewrite fill_spec by (rewrite length_drop; lia). simpl.
  eexists. split; [done|]. eexists. split; [|done].
  rewrite !length_app, length_replicate, length_drop, length_drop, length_take. lia.
Qed.

Lemma mem_put_ok t pos v :
  tty_geo t -> 0 <= pos < 6000 -> exists t', mem_put t pos v = Some t' /\ mem_only t t'.
Proof.
  intros Hg Hp. unfold mem_put. rewrite aset_Some by (rewrite (geo_mem t Hg); lia). simpl.
  eexists. split; [done|]. eexists. split; [|done]. by rewrite length_insert.
Qed.

Lemma clear_rows_ok rows t m v :
  tty_geo t -> 0 <= m -> m + Z.of_nat rows <= 25 ->
  exists t', clear_rows rows t m v = Some t' /\ mem_only t t'.
Proof.
  revert t m. induction rows as [|rows IH]; intros t m Hg Hm Hr; simpl.
  { exists t. split; [done|apply mem_only_refl]. }
  destruct (TTY_POS_bounds t 0 m Hg ltac:(lia)) as (H1 & H2 & _).
  pose proof (geo_width t Hg) as Hw.
  destruct (mem_fill_ok t (TTY_POS t 0 m) v (width t) Hg) as (t1 & -> & Ht1); [lia..|]. simpl.
  assert (Hg1 : tty_geo t1).
  { destruct Ht1 as (mm & Hmm & ->). destruct Hg, t; simpl in *; constructor; simpl; try done.
    by rewrite Hmm. }
  destruct (IH t1 (m + 1) Hg1) as (t2 & -> & Ht2); [lia..|].
  exists t2. split; [done|]. by eapply mem_only_trans.
Qed.

Lemma atoi_total l r : 0 ∈ l -> is_Some (atoi_loop l r).
Proof.
  revert r. induction l as [|c l IH]; intros r H; simpl; [by apply not_elem_of_nil in H|].
  destruct (Z.eqb_spec c 0) as [->|Hc]; simpl; [done|].
  apply IH. apply elem_of_cons in H as [H|H]; [done|exact H].
Qed.

Lemma strchr_total l c : 0 ∈ l -> exists o, strchr l c = Some o /\
  match o with
  | Some sep => 0 ∈ drop 1 sep /\ (length sep <= length l)%nat /\ (0 < length sep)%nat
  | None => True
  end.
Proof.
  induction l as [|x l IH]; intros H; simpl; [by apply not_elem_of_nil in H|].
  destruct (Z.eqb_spec x 0) as [->|Hx]; simpl; [by exists None|].
  apply elem_of_cons in H as [H|H]; [done|].
  destruct (Z.eqb_spec x c) as [->|Hc]; simpl.
  - exists (Some (c :: l)). simpl. repeat split; try lia. by rewrite drop_0.
  - destruct (IH H) as (o & -> & Ho). exists o. split; [done|].
    destruct o; [|done]. intuition lia.
Qed.

Lemma first_param_total l e : 0 ∈ l -> exists n, first_param l e = Some n.
Proof.
  intros H. unfold first_param. destruct l as [|c l]; [by apply not_elem_of_nil in H|]. simpl.
  case_cond; [eauto|]. apply (atoi_total _ 0) in H as [n Hn]. by exists n.
Qed.

Lemma strcmp_total a b : 0 ∈ a -> 0 ∈ b -> is_Some (strcmp_loop a b).
Proof.
  revert b. induction a as [|x a IH]; intros [|y b] Ha Hb;
    try (by apply not_elem_of_nil in Ha); try (by apply not_elem_of_nil in Hb). simpl.
  destruct (Z.eqb_spec x 0) as [->|Hx]; simpl; [case_cond; done|].
  destruct (Z.eqb_spec y 0) as [->|Hy]; simpl; [case_cond; done|].
  repeat case_cond; try done.
  apply IH; [apply elem_of_cons in Ha as [Ha|Ha]|apply elem_of_cons in Hb as [Hb|Hb]]; done.
Qed.

Lemma box_set_xy xm ym x y t :
  tty_geo t -> 0 <= x <= xm -> 0 <= y <= ym -> xm <= 120 -> ym <= 120 ->
  tty_box xm ym (set_xy x y t).
Proof.
  intros Hg Hx Hy H1 H2. split; [geo_tac|]. unfold x_of, y_of. simpl. rewrite !s8_id by lia. lia.
Qed.

Lemma box_same xm ym t t' :
  tty_box xm ym t -> tty_geo t' -> cursor t' = cursor t -> tty_box xm ym t'.
Proof. intros (Hg & Hx & Hy) Hg' Hc. unfold tty_box, x_of, y_of in *. by rewrite Hc. Qed.

Lemma sgr_box xm ym t n : tty_box xm ym t -> tty_box xm ym (tty_select_graphic_rendition t n).
Proof.
  intros Hb. apply (box_same xm ym t); [done| |].
  - unfold tty_select_graphic_rendition. destruct Hb as [Hg _].
    pose proof (fun a => u16_range a) as Hu. repeat case_cond; geo_tac.
  - unfold tty_select_graphic_rendition. repeat case_cond; done.
Qed.

Lemma cut_at_box xm ym sep t : tty_box xm ym t -> tty_box xm ym (cut_at sep t).
Proof.
  intros Hb. apply (box_same xm ym t); [done| |done]. destruct Hb as [Hg _].
  pose proof (geo_seq t Hg). unfold cut_at. geo_tac. by rewrite length_insert.
Qed.

Lemma elem_of_take_end (l : list Z) : 0 ∈ l ++ [0].
Proof. apply elem_of_app. right. by apply list_elem_of_singleton. Qed.

Lemma sgr_loop_ok fuel t params xm ym :
  tty_box xm ym t -> 0 ∈ params -> (length params < fuel)%nat ->
  exists t', sgr_loop fuel t params = Some t' /\ tty_box xm ym t' /\ esc_ind t' = esc_ind t.
Proof.
  revert t params. induction fuel as [|fuel IH]; intros t params Hb H0 Hf; [lia|]. simpl.
  destruct (strchr_total params 59 H0) as (o & -> & Ho). simpl. destruct o as [sep|].
  - destruct Ho as (Hsep & Hlen & Hpos). unfold atoi.
    destruct (atoi_total _ 0 (elem_of_take_end (take (length params - length sep) params)))
      as [n Hn]. rewrite Hn. simpl.
    destruct (IH (tty_select_graphic_rendition (cut_at sep t) n) (drop 1 sep))
      as (t' & -> & Hb' & He).
    + by apply sgr_box, cut_at_box.
    + done.
    + rewrite length_drop. lia.
    + eexists. split; [done|]. split; [done|]. rewrite He.
      unfold tty_select_graphic_rendition. repeat case_cond; done.
  - unfold atoi. destruct (atoi_total _ 0 H0) as [n Hn]. rewrite Hn. simpl.
    eexists. split; [done|]. split; [by apply sgr_box|].
    unfold tty_select_graphic_rendition. repeat case_cond; done.
Qed.

Lemma erase_ok t n b :
  tty_ok t -> exists t', tty_erase t n b = Some t' /\ mem_only t t'.
Proof.
  intros (Hg & Hx & Hy). unfold tty_erase. cbv zeta.
  destruct (TTY_POS_bounds t (x_of t) (y_of t) Hg ltac:(lia)) as (H1 & H2 & H3).
  pose proof (geo_width t Hg) as Hw. pose proof (geo_height t Hg) as Hh.
  assert (Hfull : forall t1 rows m v, mem_only t t1 -> 0 <= m -> m + Z.of_nat rows <= 25 ->
            exists t', clear_rows rows t1 m v = Some t' /\ mem_only t t').
  { intros t1 rows m v Hm H0 Hr.
    assert (Hg1 : tty_geo t1) by (eapply mem_only_box; [done|by split; [exact Hg|]]).
    destruct (clear_rows_ok rows t1 m v Hg1 H0 Hr) as (t2 & -> & H). eauto using mem_only_trans. }
  repeat case_cond; try (by eexists; split; [done|apply mem_only_refl]).
  - destruct (mem_fill_ok t (TTY_POS t (x_of t) (y_of t)) (Z.lor (attr t) 0x20) (width t - x_of t) Hg)
      as (t1 & -> & Ht1); [lia..|]. simpl.
    destruct (mem_only_geom t t1 Ht1) as (Hh1 & Hx1 & Hy1). apply Hfull; [done|lia|lia].
  - destruct (mem_fill_ok t (TTY_POS t (x_of t) (y_of t)) (Z.lor (attr t) 0x20) (width t - x_of t) Hg)
      as (t1 & -> & Ht1); [lia..|]. simpl. eauto.
  - destruct (mem_fill_ok t (TTY_POS t 0 (y_of t)) (Z.lor (attr t) 0x20) (x_of t + 1) Hg)
      as (t1 & -> & Ht1); [lia..|]. simpl.
    destruct (mem_only_geom t t1 Ht1) as (Hh1 & Hx1 & Hy1). apply Hfull; [done|lia|lia].
  - destruct (mem_fill_ok t (TTY_POS t 0 (y_of t)) (Z.lor (attr t) 0x20) (x_of t + 1) Hg)
      as (t1 & -> & Ht1); [lia..|]. simpl. eauto.
  - apply Hfull; [apply mem_only_refl|lia|lia].
  - apply mem_fill_ok; [done|lia..].
Qed.

(** The numeric parameter that [tty_interpret_escape] works with. *)
Definition esc_param (t : tty) : option Z :=
  seq ← aset (escape_seq t) (esc_ind t) 0; first_param (drop 1 seq) 1.

(** The parameter did not run over the range of [int] in [atoi] and leaves
    room to be added to a coordinate. *)
Definition param_small (t : tty) : Prop :=
  forall n, esc_param t = Some n -> 0 <= n < 2147483520.

Lemma esc_move_ok t cmd n :
  tty_ok t -> 0 <= n < 2147483520 -> tty_ok (esc_move t cmd n) /\ esc_ind (esc_move t cmd n) = esc_ind t.
Proof.
  intros (Hg & Hx & Hy) Hn. unfold esc_move, set_x, set_y. cbv zeta.
  rewrite (geo_width t Hg), (geo_height t Hg), !s32_id by lia.
  repeat case_cond; (split; [apply box_set_xy; (done || lia)|done]).
Qed.

Lemma tty_goto_ok t n m : tty_ok t -> tty_ok (tty_goto t n m) /\ esc_ind (tty_goto t n m) = esc_ind t.
Proof.
  intros (Hg & Hx & Hy). unfold tty_goto. rewrite (geo_width t Hg), (geo_height t Hg).
  repeat case_cond; (split; [apply box_set_xy; (done || lia)|done]).
Qed.

Lemma esc_goto_ok t params n :
  tty_ok t -> 0 ∈ params ->
  exists t', esc_goto t params n = Some t' /\ tty_ok t' /\ esc_ind t' = esc_ind t.
Proof.
  intros Hok H0. unfold esc_goto.
  destruct (strchr_total params 59 H0) as (o & -> & Ho). simpl. destruct o as [sep|].
  - destruct Ho as (Hsep & _).
    destruct (first_param_total _ 1 Hsep) as [m ->]. simpl.
    destruct (first_param_total _ 1 (elem_of_take_end (take (length params - length sep) params)))
      as [n' ->]. simpl.
    destruct (tty_goto_ok (cut_at sep t) n' m); [by apply cut_at_box|]. eauto.
  - destruct (tty_goto_ok t n 1); eauto.
Qed.

Lemma esc_cursor_mode_ok t params b :
  tty_ok t -> 0 ∈ params ->
  exists t', esc_cursor_mode t params b = Some t' /\ tty_ok t' /\ esc_ind t' = esc_ind t.
Proof.
  intros Hok H0. unfold esc_cursor_mode. simpl.
  destruct (strcmp_total params (lit "?25") H0) as [r ->]; [vm_compute; set_solver|]. simpl.
  case_cond; (eexists; split; [done|]); split; try done.
  apply (box_same 79 24 t); [done| |done]. destruct Hok as [Hg _]. geo_tac.
Qed.

Lemma interpret_escape_ok t :
  tty_ok t -> 1 <= esc_ind t < 128 -> param_small t ->
  exists t', tty_interpret_escape t = Some t' /\ tty_ok t' /\ esc_ind t' = esc_ind t.
Proof.
  intros Hok Hi Hsm. pose proof Hok as (Hg & Hx & Hy). pose proof (geo_seq t Hg) as Hseq.
  unfold tty_interpret_escape, param_small, esc_param in *.
  destruct (aget_Some (escape_seq t) (esc_ind t)) as [cmd ->]; [lia|].
  rewrite aset_Some in * by lia. cbn [mbind option_bind] in *. cbv zeta.
  set (seq := <[Z.to_nat (esc_ind t) := 0]> (escape_seq t)) in *.
  assert (H0 : 0 ∈ drop 1 seq).
  { apply list_elem_of_lookup. exists (Z.to_nat (esc_ind t) - 1)%nat.
    rewrite lookup_drop. replace (1 + (Z.to_nat (esc_ind t) - 1))%nat with (Z.to_nat (esc_ind t)) by lia.
    apply list_lookup_insert_eq. lia. }
  destruct (first_param_total (drop 1 seq) 1 H0) as (n & Hn). rewrite Hn. cbn [mbind option_bind].
  specialize (Hsm n Hn).
  assert (Hok1 : tty_ok (set_escape_seq seq t)).
  { apply (box_same 79 24 t); [done| |done]. unfold seq. geo_tac. by rewrite length_insert. }
  assert (He1 : esc_ind (set_escape_seq seq t) = esc_ind t) by done.
  revert Hok1 He1. generalize (set_escape_seq seq t) as t1. intros t1 Hok1 <-.
  pose proof Hok1 as (Hg1 & Hx1 & Hy1).
  repeat case_cond.
  - eexists. split; [done|]. by apply esc_move_ok.
  - by apply esc_goto_ok.
  - destruct (drop 1 seq) as [|c l]; [by apply not_elem_of_nil in H0|]. simpl.
    edestruct erase_ok as (t2 & -> & Ht2); [exact Hok1|]. exists t2. split; [done|].
    split; [by eapply mem_only_box|]. by destruct Ht2 as (m & _ & ->).
  - by apply sgr_loop_ok; [|done|lia].
  - eexists. split; [done|]. split; [|done].
    apply (box_same 79 24 t1); [done| |done]. unfold x_of, y_of in *. geo_tac.
  - eexists. split; [done|]. split; [|done]. pose proof (geo_saved t1 Hg1). apply box_set_xy; (done || lia).
  - by apply esc_cursor_mode_ok.
  - by apply esc_cursor_mode_ok.
  - eexists. split; [done|]. split; [|done]. apply (box_same 79 24 t1); [done| |done]. geo_tac.
  - eauto.
Qed.

Lemma escape_char_ok t c :
  tty_ok t -> (TTY_ESCAPE_END c = true -> param_small t) ->
  exists t', tty_escape_char t c = Some t' /\ tty_ok t'.
Proof.
  intros Hok Hsm. pose proof Hok as (Hg & Hx & Hy). pose proof (geo_seq t Hg) as Hseq.
  pose proof (geo_ind t Hg) as Hi. unfold tty_escape_char.
  assert (Hend : forall t1, tty_ok t1 -> tty_ok (set_esc_ind (u16 (esc_ind t1 + 1)) t1)).
  { intros t1 H1. apply (box_same 79 24 t1); [done| |done]. pose proof (u16_range (esc_ind t1 + 1)).
    destruct H1 as [Hg1 _]. geo_tac. }
  assert (Hstop : tty_ok (set_is_esc false t)).
  { apply (box_same 79 24 t); [done| |done]. geo_tac. }
  destruct (Z.eqb_spec (esc_ind t) 0) as [E0|E0]; simpl.
  { case_cond; (eexists; split; [done|]); [exact (Hend _ Hstop)|exact (Hend _ Hok)]. }
  destruct ((TTY_ESCAPE_LEN <=? esc_ind t) || negb (TTY_ESCAPE_CHR c)) eqn:E1; simpl.
  { eexists. split; [done|]. exact (Hend _ Hstop). }
  unfold TTY_ESCAPE_LEN in E1. rewrite aset_Some by lia. simpl.
  set (seq := <[Z.to_nat (esc_ind t) := c]> (escape_seq t)).
  assert (Hok0 : tty_ok (set_escape_seq seq t)).
  { apply (box_same 79 24 t); [done| |done]. unfold seq. geo_tac. by rewrite length_insert. }
  assert (Hok1 : forall b, tty_ok (set_is_esc b (set_escape_seq seq t))).
  { intros b. apply (box_same 79 24 t); [done| |done]. unfold seq. geo_tac. by rewrite length_insert. }
  destruct (TTY_ESCAPE_END c) eqn:Ec; simpl.
  - destruct (interpret_escape_ok _ (Hok1 false)) as (t2 & -> & H2 & _); [simpl; lia| |simpl; eauto].
    intros n Hn. apply (Hsm eq_refl n). unfold esc_param in *. simpl in Hn.
    rewrite aset_Some in Hn by (unfold seq; rewrite ?length_insert; lia).
    rewrite aset_Some by lia. unfold seq in Hn. by rewrite list_insert_insert_eq in Hn.
  - eexists. split; [done|]. exact (Hend _ Hok0).
Qed.

(** The cursor after an ordinary character, before the line wrap. *)
Definition tty_loose (t : tty) : Prop :=
  tty_geo t /\ 0 <= x_of t <= 80 /\ 0 <= y_of t <= 25 /\ (x_of t = 80 -> y_of t < 25).

Lemma loose_of_box t xm ym : xm <= 79 -> ym <= 25 -> tty_box xm ym t -> tty_loose t.
Proof. intros H1 H2 (Hg & Hx & Hy). split_and!; (done || lia). Qed.

Lemma mem_put_loose t pos v :
  0 <= pos < 6000 -> tty_loose t -> exists t', mem_put t pos v = Some t' /\ tty_loose t'.
Proof.
  intros Hp (Hg & Hx & Hy & Hxy). destruct (mem_put_ok t pos v Hg Hp) as (t' & -> & Ht').
  exists t'. split; [done|]. destruct (mem_only_geom _ _ Ht') as (_ & Hx' & Hy').
  assert (Hb : tty_box 80 25 t') by (eapply mem_only_box; [done|by split]).
  destruct Hb as (Hg' & _ & _). unfold tty_loose. rewrite Hx', Hy'. done.
Qed.

Lemma plain_char_ok t c :
  tty_ok t -> exists t', tty_plain_char t c = Some t' /\ tty_loose t'.
Proof.
  intros Hok. pose proof Hok as (Hg & Hx & Hy). unfold tty_plain_char, set_x, set_y.
  destruct (TTY_POS_bounds t (x_of t) (y_of t) Hg ltac:(lia)) as (P1 & P2 & P3).
  assert (Hgo : forall x y, 0 <= x <= 79 -> 0 <= y <= 25 -> tty_loose (set_xy x y t)).
  { intros x y Hxx Hyy. apply (loose_of_box _ 79 25); [lia..|]. apply box_set_xy; (done || lia). }
  assert (Hpos : forall x, 0 <= x < 80 -> 0 <= TTY_POS (set_xy x (y_of t) t) x (y_of t) < 6000).
  { intros x Hxx. change (TTY_POS (set_xy x (y_of t) t) x (y_of t)) with (TTY_POS t x (y_of t)).
    destruct (TTY_POS_bounds t x (y_of t) Hg ltac:(lia)) as (? & ? & ->). lia. }
  destruct (c =? 0); [eexists; split; [done|]; by apply (loose_of_box _ 79 24)|].
  destruct (c =? 8).
  { destruct (Z.eqb_spec (x_of t) 0) as [E|E]; simpl.
    - apply mem_put_loose; [lia|]. by apply (loose_of_box _ 79 24).
    - assert (Hxy : x_of (set_xy (x_of t - 1) (y_of t) t) = x_of t - 1 /\
                    y_of (set_xy (x_of t - 1) (y_of t) t) = y_of t)
        by (unfold x_of, y_of in *; simpl; rewrite !s8_id by lia; done).
      destruct Hxy as [-> ->]. apply mem_put_loose; [apply Hpos; lia|apply Hgo; lia]. }
  destruct (c =? 9).
  { pose proof (land_F8_range (x_of t + 8) ltac:(lia)) as HF.
    assert (Hxy : x_of (set_xy (Z.land (x_of t + 8) 248) (y_of t) t) = Z.land (x_of t + 8) 248 /\
                  y_of (set_xy (Z.land (x_of t + 8) 248) (y_of t) t) = y_of t)
      by (unfold x_of, y_of in *; simpl; rewrite !s8_id by lia; done).
    destruct Hxy as [-> ->]. simpl. rewrite (geo_width t Hg).
    case_cond; (eexists; split; [done|]); [|apply Hgo; lia].
    apply (loose_of_box _ 79 25); [lia..|].
    apply box_set_xy; try lia. geo_tac. }
  destruct (c =? 10); [eexists; split; [done|]; apply Hgo; lia|].
  destruct ((c =? 11) || (c =? 12)); [eexists; split; [done|]; apply Hgo; lia|].
  destruct (c =? 13); [eexists; split; [done|]; apply Hgo; lia|].
  destruct (c =? 27).
  { unfold memset, TTY_ESCAPE_LEN. pose proof (geo_seq t Hg) as Hseq.
    destruct (fill (escape_seq t) (s8 0) 128) as [seq|] eqn:E.
    2: { change 128 with (Z.of_nat 128) in E. by rewrite fill_spec in E by lia. }
    apply fill_length in E. cbn [mbind option_bind]. rewrite aset_Some by lia.
    eexists. split; [reflexivity|]. apply (loose_of_box _ 79 24); [lia..|].
    apply (box_same 79 24 t); [done| |done]. geo_tac. rewrite length_insert. lia. }
  apply mem_put_loose; [lia|]. split_and!.
  - geo_tac.
  - unfold x_of in *. simpl. rewrite s8_id; lia.
  - unfold x_of in *. simpl. rewrite s8_id; lia.
  - unfold y_of in *. simpl. rewrite s8_id; lia.
  - unfold y_of in *. simpl. rewrite s8_id; lia.
  - unfold y_of in *. simpl. rewrite s8_id; lia.
Qed.

Lemma wrap_scroll_ok t :
  tty_loose t -> exists t', tty_scroll (tty_wrap t) = Some t' /\ tty_ok t'.
Proof.
  intros (Hg & Hx & Hy & Hxy).
  assert (Hw : tty_box 79 25 (tty_wrap t)).
  { unfold tty_wrap. rewrite (geo_width t Hg). case_cond.
    - apply box_set_xy; (done || lia).
    - split; [done|]. lia. }
  revert Hw. generalize (tty_wrap t) as t1. clear. intros t1 (Hg & Hx & Hy).
  unfold tty_scroll. rewrite (geo_height t1 Hg).
  destruct (Z.eqb_spec (y_of t1) 25) as [E|E].
  - pose proof (geo_scrln t1 Hg) as Hs. simpl scrln. simpl memlines.
    rewrite (geo_lines t1 Hg), u16_id by lia.
    set (s := if scrln t1 + 1 =? 75 then 0 else scrln t1 + 1).
    assert (Hs' : 0 <= s < 75) by (unfold s; case_cond; lia).
    set (t2 := set_view s s (set_y (y_of t1 - 1) t1)).
    assert (H2 : tty_ok t2).
    { apply (box_same 79 24 (set_y (y_of t1 - 1) t1)); [|unfold t2, set_y; geo_tac|done].
      apply box_set_xy; (done || lia). }
    pose proof H2 as (Hg2 & Hx2 & Hy2). rewrite (geo_height t2 Hg2), (geo_width t2 Hg2).
    destruct (TTY_POS_bounds t2 0 (25 - 1) Hg2 ltac:(lia)) as (P1 & P2 & _).
    destruct (mem_fill_ok t2 (TTY_POS t2 0 (25 - 1)) (Z.lor (attr t2) 32) 80 Hg2)
      as (t3 & -> & H3); [lia..|].
    exists t3. split; [done|]. by eapply mem_only_box.
  - exists t1. split; [done|]. split; [done|]. lia.
Qed.

Lemma tty_char_ok t c :
  tty_ok t -> (is_esc t = true -> TTY_ESCAPE_END c = true -> param_small t) ->
  exists t', tty_char t c = Some t' /\ tty_ok t'.
Proof.
  intros Hok Hsm. unfold tty_char. destruct (is_esc t).
  - destruct (escape_char_ok t c Hok (Hsm eq_refl)) as (t1 & -> & H1). simpl.
    apply wrap_scroll_ok. by apply (loose_of_box _ 79 24).
  - destruct (plain_char_ok t c Hok) as (t1 & -> & H1). simpl. by apply wrap_scroll_ok.
Qed.

(** Along a write, no escape sequence carries a parameter outside the range
    that [param_small] asks for. *)
Definition param_small_b (t : tty) : bool :=
  match esc_param t with Some n => (0 <=? n) && (n <? 2147483520) | None => true end.

Fixpoint params_fit (t : tty) (buffer : list Z) : bool :=
  match buffer with
  | [] => true
  | c :: buffer =>
      (negb (is_esc t && TTY_ESCAPE_END c) || param_small_b t) &&
      match tty_char t c with Some t => params_fit t buffer | None => true end
  end.

Lemma tty_chars_ok t buffer :
  tty_ok t -> params_fit t buffer = true ->
  exists t', tty_chars t buffer = Some t' /\ tty_ok t'.
Proof.
  revert t. induction buffer as [|c buffer IH]; intros t Hok Hp; simpl in *; [eauto|].
  apply andb_prop in Hp as [Hs Hp].
  destruct (tty_char_ok t c Hok) as (t1 & E & H1).
  { intros He Hc n Hn. rewrite He, Hc in Hs. simpl in Hs. unfold param_small_b in Hs.
    rewrite Hn in Hs. lia. }
  rewrite E in *. simpl. by apply IH.
Qed.

Lemma view_ok t : tty_ok t -> tty_ok (set_view (scrln t) (scrln t) t).
Proof. intros H. apply (box_same 79 24 t); [done| |done]. destruct H as [H _]. geo_tac. Qed.

(** ** Properties *)


Definition tty_sample : tty := create_tty 0 (replicate 16 0) (replicate 128 7).

Lemma tty_sample_ok : tty_ok tty_sample.
Proof. split; [constructor; vm_compute; repeat split; congruence|vm_compute; repeat split; congruence]. Qed.

(** The sequence the kernel shell writes for [clear], then text and moves. *)
Definition write_sample : list Z :=
  27 :: chars "[2J" ++ 27 :: chars "[Hab" ++ 10 :: 27 :: chars "[12;5HX" ++ [27] ++ chars "[91mY".


(** A parameter that overflows [int] in [atoi] defeats the range checks of
    [tty_interpret_escape]: this write to a fresh console sets the column to a
    negative value and then stores outside the text memory. *)
Theorem do_tty_write_overflow_faults :
  do_tty_write tty_sample (27 :: chars "[4294967196G") <> None /\
  do_tty_write tty_sample (27 :: chars "[4294967196GX") = None.
Proof. split; vm_compute; congruence. Qed.

Lemma lookup_take_drop_cell {A} (l : list A) a n i :
  (i < n)%nat -> take n (drop a l) !! i = l !! (a + i)%nat.
Proof. intros H. by rewrite lookup_take_lt, lookup_drop. Qed.

(** What [print_tty] copies to the video memory is, cell by cell, the
    screen that [TTY_POS] addresses: column [x] of line [y] shows the text
    memory cell at [TTY_POS x y], wherever the ring of lines starts. *)
Theorem print_tty_cell t x y :
  tty_ok t -> viewln t = scrln t -> 0 <= x < 80 -> 0 <= y < 25 ->
  print_tty t !! Z.to_nat (y * 80 + x) = mem t !! Z.to_nat (TTY_POS t x y).
Proof.
  intros (Hg & _ & _) Hv Hx Hy. pose proof (geo_scrln t Hg) as Hs. pose proof (geo_mem t Hg) as Hm.
  unfold print_tty, TTY_POS. rewrite (geo_width t Hg), (geo_height t Hg), (geo_lines t Hg), Hv.
  destruct (75 - scrln t <? 25) eqn:E.
  - destruct (75 <=? scrln t + y) eqn:E2.
    + rewrite lookup_app_r by (rewrite length_take, length_drop; lia).
      rewrite length_take, length_drop.
      rewrite lookup_take_lt by lia. f_equal. lia.
    + rewrite lookup_app_l by (rewrite length_take, length_drop; lia).
      rewrite lookup_take_drop_cell by lia. f_equal. lia.
  - zcond. rewrite lookup_take_drop_cell by lia. f_equal. lia.
Qed.

Lemma print_tty_cell_witness :
  print_tty (set_view 60 60 (set_mem (<[0%nat := 0x741]> (mem tty_sample)) tty_sample))
    !! Z.to_nat (15 * 80 + 0) = Some 0x741.
Proof.
  rewrite print_tty_cell; [vm_compute; reflexivity| |reflexivity|lia|lia].
  split; [constructor; vm_compute; repeat split; congruence|vm_compute; repeat split; congruence].
Defined.

(** The background nibble of an attribute word. *)
Definition background (a : Z) : Z := Z.land (Z.shiftr a 12) 0xF.

(** The attribute arithmetic of two background selections. *)
Definition sgr_check (f a b : Z) : bool :=
  background (u16 (Z.lor (Z.shiftl (col b) 12) (Z.shiftl (u8 (Z.land
       (Z.shiftr (u16 (Z.lor (Z.shiftl (col a) 12) (Z.shiftl (u8 (Z.land f 255)) 8))) 8) 255)) 8)))
    =? Z.lor (col a) (col b).

Lemma sgr_bits f a b : 0 <= f < 16 -> 0 <= a < 8 -> 0 <= b < 8 -> sgr_check f a b = true.
Proof.
  intros Hf Ha Hb. apply (forall_below_spec 8 (fun b => sgr_check f a b)); [|done].
  apply (forall_below_spec 8 (fun a => forall_below 8 (fun b => sgr_check f a b))); [|done].
  apply (forall_below_spec 16
    (fun f => forall_below 8 (fun a => forall_below 8 (fun b => sgr_check f a b)))); [|done].
  vm_compute. reflexivity.
Qed.

(** Selecting a background colour does not replace the previous one: the
    foreground byte still carries the old background, so the two colours are
    or-ed together. *)
Theorem sgr_background_accumulates t a b :
  0 <= a < 8 -> 0 <= b < 8 -> background (attr t) = 0 -> 0 <= attr t < 65536 ->
  background (attr (tty_select_graphic_rendition
                      (tty_select_graphic_rendition t (40 + a)) (40 + b)))
  = Z.lor (col a) (col b).
Proof.
  intros Ha Hb H0 Ht.
  assert (Hal : exists f, 0 <= f < 16 /\ Z.shiftr (attr t) 8 = f).
  { exists (Z.shiftr (attr t) 8). split; [|done]. unfold background in H0.
    rewrite Z.shiftr_div_pow2 in * by lia. change 15 with (Z.ones 4) in H0.
    rewrite Z.land_ones in H0 by lia. simpl in *. lia. }
  destruct Hal as (f & Hf & E).
  unfold tty_select_graphic_rendition. cbv zeta.
  replace (40 + a =? 0) with false by lia. replace (40 + b =? 0) with false by lia.
  replace ((30 <=? 40 + a) && (40 + a <=? 37)) with false by lia.
  replace ((30 <=? 40 + b) && (40 + b <=? 37)) with false by lia.
  replace (40 + a =? 39) with false by lia. replace (40 + b =? 39) with false by lia.
  replace ((40 <=? 40 + a) && (40 + a <=? 47)) with true by lia.
  replace ((40 <=? 40 + b) && (40 + b <=? 47)) with true by lia.
  replace (40 + a - 40) with a by lia. replace (40 + b - 40) with b by lia.
  cbn [attr set_attr]. rewrite E.
  apply Z.eqb_eq. by apply sgr_bits.
Qed.

Lemma sgr_background_accumulates_witness :
  background (attr (tty_select_graphic_rendition
                      (tty_select_graphic_rendition tty_sample (40 + 4)) (40 + 2))) = 3.
Proof.
  rewrite (sgr_background_accumulates tty_sample 4 2); [reflexivity|lia|lia|reflexivity|].
  vm_compute. split; congruence.
Defined.
