(* ===== verification/Kbd.v ===== *)
(** * Keyboard input: [src/src/drivers/tty/kbd.c] and [tty_read] of [tty.c]

    The modifier state machine of the keyboard interrupt and the ring buffer
    between the interrupt handler and [tty_read]. *)
From S2P Require Import Prelude Keymap Tty.

(** ** Data *)

(** The static variables of [kbd.c]; [shift], [alt], [altgr], [ctrl] and
    [escape] are used as truth values. *)
Record kbd := Kbd {
  key_state : Z; shift : bool; alt : bool; altgr : bool; ctrl : bool; escape : bool }.

Definition kbd_init : kbd := Kbd 0 false false false false false.

(** ** Definitions *)

Definition create_key_state (k : kbd) : kbd :=
  let s := 0 in
  let s := if shift k then 1 else s in
  let s := if alt k then s + 2 else s in
  let s := if altgr k then 3 else s in
  let s := if ctrl k then 5 else s in
  Kbd s (shift k) (alt k) (altgr k) (ctrl k) (escape k).

(** The console switching keys. *)
Definition af_keys : list Z := [AF1; AF2; AF3; AF4; AF5; AF6; AF7; AF8; AF9; AF10; AF11; AF12].

(** [handle_key]: the keyboard state, the scan code and key it leaves, and the
    console it switches to. *)
Record key_result := KeyResult {
  kr_kbd : kbd; kr_scan : Z; kr_key : Z; kr_switch : option Z }.

Definition handle_key (keymap : list Z) (k : kbd) (scan_code : Z) (up : bool) : option key_result :=
  key ← keymap_lookup keymap scan_code (key_state k);
  let '(k, scan_code) :=
    if escape k
    then (Kbd (key_state k) (shift k) (alt k) (if key =? ALT then negb up else altgr k) (ctrl k) false,
          Z.lor scan_code KEYUP)
    else (k, scan_code) in
  let k := if scan_code =? 0xE0
           then Kbd (key_state k) (shift k) (alt k) (altgr k) (ctrl k) true else k in
  let '(k, scan_code, sw) :=
    if key =? SHIFT then
      (create_key_state (Kbd (key_state k) (negb up) (alt k) (altgr k) (ctrl k) (escape k)), scan_code, None)
    else if key =? CTRL then
      (create_key_state (Kbd (key_state k) (shift k) (alt k) (altgr k) (negb up) (escape k)), scan_code, None)
    else if key =? ALT then
      (create_key_state (Kbd (key_state k) (shift k) (negb up) (altgr k) (ctrl k) (escape k)), scan_code, None)
    else if key =? CALOCK then
      (create_key_state (Kbd (key_state k) (negb (shift k)) (alt k) (altgr k) (ctrl k) (escape k)), scan_code, None)
    else if key =? kC 67 then (k, scan_code, None)
    else if bool_decide (key ∈ af_keys) then
      (k, Z.lor scan_code KEYUP,
       if negb (test scan_code KEYUP) then Some (Z.ldiff key ALT - 0x10) else None)
    else (k, scan_code, None) in
  let scan_code := if test key 0xFF00 then Z.lor scan_code KEYUP else scan_code in
  Some (KeyResult k scan_code key sw).

(** Storing a key in the ring buffer: on overflow the oldest key is lost. *)
Definition input_put (t : tty) (input : Z) : option tty :=
  buf ← aset (input_buffer t) (in_e t) input;
  let e := u16 (in_e t + 1) in
  let e := if e =? TTY_INBUF_LEN then 0 else e in
  let s := if e =? in_s t then
             let s := u16 (in_s t + 1) in if s =? TTY_INBUF_LEN then 0 else s
           else in_s t in
  Some (set_in s e buf t).

(** One key out of the ring buffer, as [tty_read] takes it; [None] inside when
    there is none. *)
Definition input_get (t : tty) : option (option (Z * tty)) :=
  if in_e t =? in_s t then Some None
  else
    c ← aget (input_buffer t) (in_s t);
    let s := u16 (in_s t + 1) in
    let s := if s =? TTY_INBUF_LEN then 0 else s in
    Some (Some (s8 c, set_in s (in_e t) (input_buffer t) t)).

(** [irq_tty_keyboard] on the console of the current device: [scan_code] is
    the byte read from the keyboard port. *)
Definition irq_tty_keyboard (keymap : list Z) (k : kbd) (t : tty) (scan_code : Z)
  : option (kbd * tty * option Z) :=
  r ← handle_key keymap k scan_code (test scan_code KEYUP);
  if escape (kr_kbd r) then Some (kr_kbd r, t, kr_switch r)
  else if negb (test (kr_scan r) KEYUP) then
    t ← input_put t (kr_key r); Some (kr_kbd r, t, kr_switch r)
  else Some (kr_kbd r, t, kr_switch r).

(** [tty_read] until [size] characters are read or the buffer is empty (where
    the code waits for the next interrupt): the characters, how many are still
    wanted, and the console.  With [echo] set every character is written to
    the console as it is taken, before [in_s] is wrapped. *)
Fixpoint tty_read (size : nat) (t : tty) : option (list Z * nat * tty) :=
  match size with
  | O => Some ([], O, t)
  | S size' =>
      if in_e t =? in_s t then Some ([], size, t)
      else
        c ← aget (input_buffer t) (in_s t);
        let t := set_in (u16 (in_s t + 1)) (in_e t) (input_buffer t) t in
        t ← (if echo t then '(t, _) ← do_tty_write t [s8 c]; Some t else Some t);
        let t := if in_s t =? TTY_INBUF_LEN then set_in 0 (in_e t) (input_buffer t) t else t in
        '(cs, remaining, t) ← tty_read size' t;
        Some (s8 c :: cs, remaining, t)
  end.

(** ** The queue a ring buffer stands for *)

Definition ring_ok (t : tty) : Prop :=
  length (input_buffer t) = 16%nat /\ 0 <= in_s t < 16 /\ 0 <= in_e t < 16.

(** The keys waiting, oldest first. *)
Definition ring_count (t : tty) : nat := Z.to_nat ((in_e t - in_s t) mod 16).
Definition queue (t : tty) : list Z :=
  (fun k => default 0 (input_buffer t !! Z.to_nat ((in_s t + Z.of_nat k) mod 16))) <$> seq 0 (ring_count t).

(** ** Lemmas *)

Lemma queue_length t : length (queue t) = ring_count t.
Proof. unfold queue. by rewrite length_fmap, length_seq. Qed.

Lemma ring_count_bound t : (ring_count t < 16)%nat.
Proof. unfold ring_count. lia. Qed.

Lemma queue_lookup t k :
  (k < ring_count t)%nat ->
  queue t !! k = Some (default 0 (input_buffer t !! Z.to_nat ((in_s t + Z.of_nat k) mod 16))).
Proof. intros H. unfold queue. rewrite list_lookup_fmap, lookup_seq_lt by done. done. Qed.

(** Two queues are equal when their cells are. *)
Lemma queue_ext t l :
  length l = ring_count t ->
  (forall k, (k < ring_count t)%nat ->
     l !! k = Some (default 0 (input_buffer t !! Z.to_nat ((in_s t + Z.of_nat k) mod 16)))) ->
  queue t = l.
Proof.
  intros Hl H. apply list_eq. intros i.
  destruct (decide (i < ring_count t)%nat) as [Hi|Hi].
  - by rewrite queue_lookup, H by done.
  - rewrite !lookup_ge_None_2; [done|lia|rewrite queue_length; lia].
Qed.

(** The index arithmetic of [input_put]: [i] is [in_e], [o] is [in_s]. *)
Definition next16 (i : Z) : Z := if i + 1 =? 16 then 0 else i + 1.
Definition put_s (i o : Z) : Z := if next16 i =? o then next16 o else o.

Lemma next16_mod i : 0 <= i < 16 -> next16 i = (i + 1) mod 16.
Proof. unfold next16. case_cond; lia. Qed.

Definition put_check (i o k : Z) : bool :=
  let n := (i - o) mod 16 in
  let n' := (next16 i - put_s i o) mod 16 in
  Bool.eqb (next16 i =? o) (n =? 15) && (n' =? (if n =? 15 then 15 else n + 1)) &&
  ((put_s i o + (n' - 1)) mod 16 =? i) &&
  (if k + 1 <? n' then
     negb ((put_s i o + k) mod 16 =? i) &&
     ((put_s i o + k) mod 16 =? (o + (if n =? 15 then k + 1 else k)) mod 16)
   else true).

Lemma put_arith i o k : 0 <= i < 16 -> 0 <= o < 16 -> 0 <= k < 16 -> put_check i o k = true.
Proof.
  intros Hi Ho Hk. apply (forall_below_spec 16 (fun k => put_check i o k)); [|done].
  apply (forall_below_spec 16 (fun o => forall_below 16 (fun k => put_check i o k))); [|done].
  apply (forall_below_spec 16
    (fun i => forall_below 16 (fun o => forall_below 16 (fun k => put_check i o k)))); [|done].
  vm_compute. reflexivity.
Qed.

Lemma put_facts i o :
  0 <= i < 16 -> 0 <= o < 16 ->
  let n := (i - o) mod 16 in
  let n' := (next16 i - put_s i o) mod 16 in
  n' = (if n =? 15 then 15 else n + 1) /\
  (put_s i o + (n' - 1)) mod 16 = i /\
  (forall k, 0 <= k -> k + 1 < n' ->
     (put_s i o + k) mod 16 <> i /\
     (put_s i o + k) mod 16 = (o + (if n =? 15 then k + 1 else k)) mod 16).
Proof.
  intros Hi Ho n n'.
  pose proof (put_arith i o 0 Hi Ho ltac:(lia)) as H0. unfold put_check in H0.
  apply andb_prop in H0 as [[[_ H1]%andb_prop H2]%andb_prop _].
  apply Z.eqb_eq in H1. apply Z.eqb_eq in H2. split_and!; [done..|].
  intros k Hk Hkn. assert (Hn' : 0 <= n' < 16) by (apply Z.mod_pos_bound; lia).
  pose proof (put_arith i o k Hi Ho ltac:(lia)) as H. unfold put_check in H.
  apply andb_prop in H as [_ H]. fold n n' in H. replace (k + 1 <? n') with true in H by lia.
  apply andb_prop in H as [H3 H4]. split; [|by apply Z.eqb_eq].
  apply negb_true_iff, Z.eqb_neq in H3. done.
Qed.

Lemma input_put_queue t c :
  ring_ok t ->
  exists t', input_put t c = Some t' /\ ring_ok t' /\
    queue t' = (if (ring_count t =? 15)%nat then drop 1 (queue t) else queue t) ++ [c].
Proof.
  intros (Hl & Hs & He). unfold input_put, TTY_INBUF_LEN. rewrite aset_Some by lia.
  cbn [mbind option_bind]. rewrite !u16_id by lia. eexists. split; [done|].
  fold (next16 (in_e t)). fold (next16 (in_s t)). fold (put_s (in_e t) (in_s t)).
  assert (Hb : forall z, 0 <= z < 16 -> 0 <= next16 z < 16) by (unfold next16; intros; case_cond; lia).
  assert (Hps : 0 <= put_s (in_e t) (in_s t) < 16) by (unfold put_s; case_cond; auto).
  split; [unfold ring_ok; simpl; rewrite length_insert; auto|].
  destruct (put_facts (in_e t) (in_s t) He Hs) as (H1 & H2 & H3).
  set (n' := (next16 (in_e t) - put_s (in_e t) (in_s t)) mod 16) in *.
  assert (Hn : 0 <= (in_e t - in_s t) mod 16 < 16) by (apply Z.mod_pos_bound; lia).
  set (q := if (ring_count t =? 15)%nat then drop 1 (queue t) else queue t).
  assert (Hfull : (ring_count t =? 15)%nat = ((in_e t - in_s t) mod 16 =? 15)) by (unfold ring_count; lia).
  assert (Hq : Z.of_nat (length q) = n' - 1).
  { unfold q. rewrite Hfull, H1. destruct (_ =? 15) eqn:E;
      rewrite ?length_drop, queue_length; unfold ring_count; lia. }
  apply queue_ext.
  { rewrite length_app. unfold ring_count. simpl. fold n'. lia. }
  intros k Hk. unfold ring_count in Hk. simpl in Hk |- *. fold n' in Hk.
  destruct (decide (k < length q)%nat) as [Hlt|Hge].
  - destruct (H3 (Z.of_nat k)) as [H4 H5]; [lia..|].
    rewrite lookup_app_l by done. rewrite list_lookup_insert_ne by lia. rewrite H5. unfold q.
    rewrite Hfull in *. destruct (_ =? 15) eqn:E.
    + rewrite lookup_drop, queue_lookup by (unfold ring_count; lia). do 3 f_equal. lia.
    + rewrite queue_lookup by (unfold ring_count; lia). done.
  - assert (k = length q) as -> by lia. rewrite lookup_app_r, Nat.sub_diag by lia. simpl.
    rewrite Hq, H2. by rewrite list_lookup_insert_eq by lia.
Qed.

Lemma input_get_queue t k q :
  ring_ok t -> queue t = k :: q ->
  exists t', input_get t = Some (Some (s8 k, t')) /\ ring_ok t' /\ queue t' = q.
Proof.
  intros (Hl & Hs & He) Hq. pose proof (f_equal length Hq) as Hlen.
  rewrite queue_length in Hlen. simpl in Hlen.
  assert (Hk : queue t !! 0%nat = Some k) by (by rewrite Hq).
  rewrite queue_lookup in Hk by lia. unfold ring_count in Hlen.
  unfold input_get, TTY_INBUF_LEN. zcond.
  destruct (aget_Some (input_buffer t) (in_s t)) as [x Hx]; [lia|]. rewrite Hx.
  apply aget_inv in Hx as [_ Hx]. cbn [mbind option_bind].
  replace (Z.to_nat ((in_s t + Z.of_nat 0) mod 16)) with (Z.to_nat (in_s t)) in Hk by lia.
  rewrite Hx in Hk. simpl in Hk. injection Hk as ->. rewrite u16_id by lia.
  eexists. split; [done|]. fold (next16 (in_s t)). rewrite next16_mod by done.
  split; [unfold ring_ok; simpl; lia|].
  apply queue_ext; unfold ring_count; simpl; [lia|].
  intros i Hi. assert (Hn : queue t !! S i = q !! i) by (by rewrite Hq).
  rewrite <- Hn, queue_lookup by (unfold ring_count; lia). do 3 f_equal. lia.
Qed.

(** ** Properties *)

(** C13: the ring buffer is a queue of at most 15 keys: storing appends a key,
    after dropping the oldest one when 15 are waiting, and taking returns the
    oldest one. *)
Theorem input_ring_is_queue t c :
  ring_ok t ->
  (exists t', input_put t c = Some t' /\ ring_ok t' /\
     queue t' = (if (ring_count t =? 15)%nat then drop 1 (queue t) else queue t) ++ [c]) /\
  (queue t = [] -> input_get t = Some None) /\
  (forall k q, queue t = k :: q ->
     exists t', input_get t = Some (Some (s8 k, t')) /\ ring_ok t' /\ queue t' = q).
Proof.
  intros Hok. split_and!.
  - by apply input_put_queue.
  - intros Hq. unfold input_get. apply (f_equal length) in Hq. rewrite queue_length in Hq.
    destruct Hok as (_ & Hs & He). unfold ring_count in Hq. simpl in Hq. by zcond.
  - intros k q. by apply input_get_queue.
Qed.

Definition ring_sample : tty := set_in 14 1 (Z.of_nat <$> seq 100 16) tty_sample.

Lemma input_ring_is_queue_witness :
  queue ring_sample = [114; 115; 100] /\
  (exists t', input_put ring_sample 7 = Some t' /\ queue t' = [114; 115; 100; 7]).
Proof.
  split; [vm_compute; reflexivity|].
  destruct (input_ring_is_queue ring_sample 7) as ((t' & H1 & _ & H2) & _).
  - vm_compute. repeat split; congruence.
  - exists t'. split; [exact H1|]. rewrite H2. vm_compute. reflexivity.
Defined.

(** The modifier states the handler can be in. *)
Definition kbd_ok (k : kbd) : Prop := key_state k ∈ [0; 1; 2; 3; 5].

Lemma create_key_state_ok k : kbd_ok (create_key_state k).
Proof. destruct k as [s [] [] [] [] e]; unfold kbd_ok; simpl; set_solver. Qed.

(** A key event never leaves the keymap and keeps the modifier state among
    0, 1, 2, 3 and 5: the fourth column of the table ("Alt+Shift") is never
    used, Alt and Shift together select the AltGr column. *)
Theorem handle_key_states k scan up :
  kbd_ok k -> 0 <= scan < 256 ->
  (exists r, handle_key german_keymap k scan up = Some r /\ kbd_ok (kr_kbd r) /\
             key_state (kr_kbd r) <> 4) /\
  key_state (create_key_state (Kbd 0 true true false false false)) = 3.
Proof.
  intros Hk Hs. split; [|done].
  assert (Hst : 0 <= key_state k <= 5).
  { unfold kbd_ok in Hk. rewrite !elem_of_cons, elem_of_nil in Hk. lia. }
  assert (Hne : forall k, kbd_ok k -> key_state k <> 4).
  { unfold kbd_ok. intros k' H. rewrite !elem_of_cons, elem_of_nil in H. lia. }
  unfold handle_key, keymap_lookup.
  assert (Hland : 0 <= Z.land scan 0x7F < 128).
  { change 0x7F with (Z.ones 7). rewrite Z.land_ones by lia. simpl. lia. }
  destruct (aget_Some german_keymap (Z.land scan 0x7F * KEYMAP_STATES + key_state k)) as [key ->].
  { rewrite german_keymap_length. unfold KEYMAP_STATES. lia. }
  cbn [mbind option_bind].
  destruct (escape k); cbv zeta; repeat case_cond; (eexists; split; [done|]);
    cbn [kr_kbd]; (split; [|apply Hne]); first [apply create_key_state_ok | exact Hk].
Qed.

Lemma handle_key_states_witness :
  exists r, handle_key german_keymap kbd_init 30 false = Some r /\ kr_key r = 97.
Proof.
  destruct (handle_key_states kbd_init 30 false) as ((r & H & _) & _);
    [unfold kbd_ok; simpl; set_solver|lia|].
  exists r. split; [exact H|]. vm_compute in H. injection H as <-. reflexivity.
Defined.
