(* ===== verification/Paging.v ===== *)
(** * Page frames, page tables and address spaces: [src/src/mm/paging.c]

    The frame bitmap, the page tables and page directories the kernel builds,
    and the physical memory that [clone_page] copies.  A page table and a page
    directory are objects at a kernel address, so that a table shared by two
    directories is one object.  The allocator [_kmalloc_pa]/[free] that gives
    those objects their place is the interface [KAlloc]: the heap may grow, and
    map new frames, while it serves a request, so its operations act on the
    whole state, and [KAllocLaws] says what paging relies on. *)
From S2P Require Import Prelude.
Open Scope nup_scope.

Definition FRAME_SIZE : Z := 0x1000.
Definition PAGE_FLAG_PRESENT : Z := 0x01.
Definition PAGE_FLAG_WRITE : Z := 0x02.
Definition PAGE_FLAG_USERMODE : Z := 0x04.
Definition PAGE_FLAG_READONLY : Z := 0x00.
Definition KERNEL_FLAGS : Z := Z.lor PAGE_FLAG_READONLY PAGE_FLAG_PRESENT.
Definition IPC_MEMSIZE : Z := 0x400000.
Definition MM_KHEAP_START : Z := 0x40000.
Definition MM_KHEAP_SIZE : Z := 0x300000.

Definition CHECK_ALIGN (v : Z) : Z := Z.land v 0x00000FFF.
Definition ASSERT_ALIGN (v : Z) : Z :=
  if negb (CHECK_ALIGN v =? 0) then u32 (Z.land v 0xFFFFF000 + FRAME_SIZE) else v.
Definition ALIGN_DOWN (v : Z) : Z := Z.land v 0xFFFFF000.
Definition ALIGN_UP (v : Z) : Z := u32 (ALIGN_DOWN v + FRAME_SIZE).

(** ** Data *)

Record page := Page { flags : Z; frame : Z }.
Definition page_zero : page := Page 0 0.

Record page_directory := PageDirectory {
  physTabs : list Z; physPos : Z; tables : list Z }.
(** 1024 zeroed entries, and 1024 zeroed slots. *)
Definition empty_table : list page := replicate 1024 page_zero.
Definition empty_slots : list Z := replicate 1024 0.
#[global] Arguments empty_table : simpl never.
#[global] Arguments empty_slots : simpl never.
Definition sizeof_page_table : Z := 4096.
Definition sizeof_page_directory : Z := 8196.

Record pstate (A : Type) := PState {
  framecount : Z;
  framemap : list Z;
  ptabs : gmap Z (list page);
  pdirs : gmap Z page_directory;
  kernel_directory : Z;
  current_directory : Z;
  pmem : gmap Z (list Z);
  alloc_state : A }.
Arguments PState {A}.
Arguments framecount {A}.
Arguments framemap {A}.
Arguments ptabs {A}.
Arguments pdirs {A}.
Arguments kernel_directory {A}.
Arguments current_directory {A}.
Arguments pmem {A}.
Arguments alloc_state {A}.

(** What paging uses of the memory manager. *)
Class KAlloc (A : Type) := {
  _kmalloc : Z -> M (pstate A) Z;
  _kmalloc_pa : Z -> M (pstate A) (Z * Z);
  free : Z -> M (pstate A) unit }.

(** ** The frame bitmap *)

Definition frame_bit (number : Z) : Z := u32 (Z.shiftl 1 (number mod 32)).

(** The inner loop over the bits of a word. *)
Definition first_clear (w : Z) : option Z :=
  find (fun j => Z.land w (u32 (Z.shiftl 1 j)) =? 0) (seqZ 0 32).
#[global] Arguments first_clear : simpl never.

Fixpoint first_frame_loop (n : nat) (fm : list Z) (i : Z) : option Z :=
  match n with
  | O => Some 0xFFFFFFFF
  | S n =>
      w ← aget fm i;
      if negb (w =? 0xFFFFFFFF) then
        match first_clear w with
        | Some j => Some (i * 32 + j)
        | None => first_frame_loop n fm (i + 1)
        end
      else first_frame_loop n fm (i + 1)
  end.

Definition first_frame (count : Z) (fm : list Z) : option Z :=
  first_frame_loop (Z.to_nat (count / 32)) fm 0.

Definition fm_set (fm : list Z) (number : Z) : option (list Z) :=
  w ← aget fm (number / 32); aset fm (number / 32) (Z.lor w (frame_bit number)).

Definition fm_clear (fm : list Z) (number : Z) : option (list Z) :=
  w ← aget fm (number / 32);
  aset fm (number / 32) (Z.land w (Z.lnot (Z.shiftl 1 (number mod 32)))).

(** ** Pages and tables *)

Section paging.
Context {A : Type} `{KAlloc A}.
Local Abbreviation PM := (M (pstate A)).

Definition set_framemap (fm : list Z) (s : pstate A) : pstate A :=
  PState (framecount s) fm (ptabs s) (pdirs s) (kernel_directory s) (current_directory s) (pmem s)
    (alloc_state s).
Definition set_ptabs (t : gmap Z (list page)) (s : pstate A) : pstate A :=
  PState (framecount s) (framemap s) t (pdirs s) (kernel_directory s) (current_directory s) (pmem s)
    (alloc_state s).
Definition set_pdirs (d : gmap Z page_directory) (s : pstate A) : pstate A :=
  PState (framecount s) (framemap s) (ptabs s) d (kernel_directory s) (current_directory s) (pmem s)
    (alloc_state s).
Definition set_pmem (m : gmap Z (list Z)) (s : pstate A) : pstate A :=
  PState (framecount s) (framemap s) (ptabs s) (pdirs s) (kernel_directory s) (current_directory s) m
    (alloc_state s).
Definition set_kernel_directory (d : Z) (s : pstate A) : pstate A :=
  PState (framecount s) (framemap s) (ptabs s) (pdirs s) d (current_directory s) (pmem s)
    (alloc_state s).
Definition set_page_directory (d : Z) (s : pstate A) : pstate A :=
  PState (framecount s) (framemap s) (ptabs s) (pdirs s) (kernel_directory s) d (pmem s)
    (alloc_state s).

Definition get_entry (t i : Z) (s : pstate A) : option page := tab ← ptabs s !! t; aget tab i.
Definition put_entry (t i : Z) (p : page) (s : pstate A) : option (pstate A) :=
  tab ← ptabs s !! t; tab ← aset tab i p; Some (set_ptabs (<[t := tab]> (ptabs s)) s).

(** [alloc_frame(&table->entries[i], flags)] *)
Definition alloc_frame (t i : Z) (fl : Z) : PM unit :=
  let! number := get_or_fault (fun s => first_frame (framecount s) (framemap s)) in
  let! apage := get_or_fault (get_entry t i) in
  if negb (frame apage =? 0) then ret tt
  else
    do! upd_or_fault (put_entry t i (Page (fl mod 4096) (number mod 1048576)));
    upd_or_fault (fun s => fm ← fm_set (framemap s) number; Some (set_framemap fm s)).

Definition free_frame (t i : Z) : PM unit :=
  let! apage := get_or_fault (get_entry t i) in
  let number := frame apage in
  do! upd_or_fault (put_entry t i (Page (flags apage) 0));
  if negb (number =? 0) then
    upd_or_fault (fun s => fm ← fm_clear (framemap s) number; Some (set_framemap fm s))
  else ret tt.

Definition get_dir (d : Z) : PM page_directory := get_or_fault (fun s => pdirs s !! d).
Definition put_dir (d : Z) (dir : page_directory) : PM unit :=
  modify (fun s => set_pdirs (<[d := dir]> (pdirs s)) s).
(** Storing a table pointer and its physical address in slot [index]. *)
Definition put_slot (d index phys table : Z) : PM unit :=
  let! dir := get_dir d in
  let! pt := get_or_fault (fun _ => aset (physTabs dir) index phys) in
  let! tt' := get_or_fault (fun _ => aset (tables dir) index table) in
  put_dir d (PageDirectory pt (physPos dir) tt').
Definition new_table (v : Z) : PM unit :=
  modify (fun s => set_ptabs (<[v := empty_table]> (ptabs s)) s).

Definition make_table (index fl directory : Z) : PM Z :=
  let! ' (v, phys) := _kmalloc_pa sizeof_page_table in
  do! new_table v;
  do! put_slot directory index (Z.lor phys fl) v;
  ret v.

(** The entry a page operation returns a pointer to. *)
Definition entry_of (directory tab index : Z) : PM (Z * Z) :=
  let! dir := get_dir directory in
  let! t := get_or_fault (fun _ => aget (tables dir) tab) in
  ret (t, index mod 1024).

Definition make_page (address fl directory : Z) (alloc : bool) : PM (Z * Z) :=
  let index := address / FRAME_SIZE in
  let tab := index / 1024 in
  let! dir := get_dir directory in
  let! pt := get_or_fault (fun _ => aget (physTabs dir) tab) in
  do! (if pt =? 0 then do! make_table tab fl directory; ret tt else ret tt);
  let! ' (t, i) := entry_of directory tab index in
  do! (if alloc then alloc_frame t i fl else ret tt);
  ret (t, i).

Definition free_page (address directory : Z) : PM (option (Z * Z)) :=
  let index := address / FRAME_SIZE in
  let tab := index / 1024 in
  let! dir := get_dir directory in
  let! pt := get_or_fault (fun _ => aget (physTabs dir) tab) in
  if pt =? 0 then ret None
  else
    let! ' (t, i) := entry_of directory tab index in
    do! free_frame t i;
    ret (Some (t, i)).

Definition get_page (address : Z) (make : bool) (directory : Z) : PM (option (Z * Z)) :=
  let index := address / FRAME_SIZE in
  let tab := index / 1024 in
  let! dir := get_dir directory in
  let! pt := get_or_fault (fun _ => aget (physTabs dir) tab) in
  if negb (pt =? 0) then let! p := entry_of directory tab index in ret (Some p)
  else if make then
    let! p := make_page address (Z.lor PAGE_FLAG_PRESENT (Z.lor PAGE_FLAG_WRITE PAGE_FLAG_USERMODE))
                directory false in
    ret (Some p)
  else ret None.

(** ** Address spaces *)

Definition frame_data (s : pstate A) (f : Z) : list Z :=
  default (replicate 1024 0) (pmem s !! f).

(** [clone_page] of boot/process.S: the 1024 words of a frame. *)
Definition clone_page (src dest : Z) : PM unit :=
  modify (fun s => set_pmem (<[dest / FRAME_SIZE := frame_data s (src / FRAME_SIZE)]> (pmem s)) s).

(** [while (i--)] of [clone_table] *)
Fixpoint clone_entries (n : nat) (src table : Z) : PM unit :=
  match n with
  | O => ret tt
  | S i =>
      let! e := get_or_fault (get_entry src (Z.of_nat i)) in
      do! (if frame e =? 0 then ret tt
           else
             do! alloc_frame table (Z.of_nat i) (flags e);
             let! e' := get_or_fault (get_entry table (Z.of_nat i)) in
             clone_page (u32 (frame e * FRAME_SIZE)) (u32 (frame e' * FRAME_SIZE)));
      clone_entries i src table
  end.

Definition clone_table (src : Z) : PM (Z * Z) :=
  let! ' (table, phys) := _kmalloc_pa sizeof_page_table in
  do! new_table table;
  do! clone_entries 1024 src table;
  ret (table, phys).

Definition USER_TABLE_FLAGS : Z :=
  Z.lor PAGE_FLAG_PRESENT (Z.lor PAGE_FLAG_WRITE PAGE_FLAG_USERMODE).

(** [while (i--)] of [clone_directory] *)
Fixpoint clone_slots (n : nat) (src dir : Z) : PM unit :=
  match n with
  | O => ret tt
  | S i =>
      let i' := Z.of_nat i in
      let! sd := get_dir src in
      let! st := get_or_fault (fun _ => aget (tables sd) i') in
      do! (if st =? 0 then ret tt
           else
             let! k := gets kernel_directory in
             let! kd := get_dir k in
             let! kt := get_or_fault (fun _ => aget (tables kd) i') in
             if kt =? st then
               let! sp := get_or_fault (fun _ => aget (physTabs sd) i') in
               put_slot dir i' sp st
             else
               let! ' (t, phys) := clone_table st in
               put_slot dir i' (Z.lor phys USER_TABLE_FLAGS) t);
      clone_slots i src dir
  end.

Definition clone_directory (src : Z) : PM Z :=
  let! ' (dir, phys) := _kmalloc_pa sizeof_page_directory in
  do! put_dir dir (PageDirectory empty_slots phys empty_slots);
  do! clone_slots 1024 src dir;
  ret dir.

(** [while (i--)] of [free_table] *)
Fixpoint free_entries (n : nat) (table : Z) : PM unit :=
  match n with
  | O => ret tt
  | S i =>
      let! e := get_or_fault (get_entry table (Z.of_nat i)) in
      let number := frame e in
      do! (if negb (number =? 0) then
             upd_or_fault (fun s => fm ← fm_clear (framemap s) number; Some (set_framemap fm s))
           else ret tt);
      free_entries i table
  end.

Definition free_table (table : Z) : PM unit :=
  do! free_entries 1024 table;
  do! modify (fun s => set_ptabs (delete table (ptabs s)) s);
  free table.

(** [while (i--)] of [free_directory] *)
Fixpoint free_slots (n : nat) (dir : Z) : PM unit :=
  match n with
  | O => ret tt
  | S i =>
      let! d := get_dir dir in
      let! t := get_or_fault (fun _ => aget (tables d) (Z.of_nat i)) in
      do! (if t =? 0 then ret tt
           else
             let! k := gets kernel_directory in
             let! kd := get_dir k in
             let! kt := get_or_fault (fun _ => aget (tables kd) (Z.of_nat i)) in
             if negb (kt =? t) then free_table t else ret tt);
      free_slots i dir
  end.

Definition free_directory (dir : Z) : PM unit :=
  do! free_slots 1024 dir;
  do! modify (fun s => set_pdirs (delete dir (pdirs s)) s);
  free dir.

(** [MAP_MEMORY(start, end, flags)]: a macro, so that its end expression is
    evaluated again in every round, after the allocations of the round before. *)
Fixpoint map_memory (fuel : nat) (i : Z) (end_ : pstate A -> Z) (fl : Z) : PM unit :=
  match fuel with
  | O => nofuel
  | S fuel =>
      let! e := gets end_ in
      if i <=? e then
        let! k := gets kernel_directory in
        do! make_page i fl k true;
        map_memory fuel (u32 (i + FRAME_SIZE)) end_ fl
      else ret tt
  end.

(** The counter passes every page of the 32-bit space in 2^20 rounds. *)
Definition MAP_MEMORY (start : Z) (end_ : pstate A -> Z) (fl : Z) : PM unit :=
  map_memory (Z.to_nat 1048577) start end_ fl.

Definition set_frames (count : Z) (fm : list Z) (s : pstate A) : pstate A :=
  PState count fm (ptabs s) (pdirs s) (kernel_directory s) (current_directory s) (pmem s)
    (alloc_state s).

(** [setup_paging]: [memend] and [memstart] are [WORKING_MEMEND] and
    [WORKING_MEMSTART], [kmalloc_pos] reads the position of the boot allocator;
    the registration of the page fault handler and [create_heap], which belong
    to other components, are passed in. *)
Definition setup_mappings (memstart : Z) (kmalloc_pos : A -> Z) : PM unit :=
  let pos s := kmalloc_pos (alloc_state s) in
  do! MAP_MEMORY 0 (fun _ => memstart) KERNEL_FLAGS;
  do! MAP_MEMORY memstart (fun _ => u32 (memstart + IPC_MEMSIZE))
        (Z.lor PAGE_FLAG_WRITE (Z.lor PAGE_FLAG_USERMODE PAGE_FLAG_PRESENT));
  do! MAP_MEMORY (u32 (memstart + IPC_MEMSIZE)) (fun s => u32 (pos s + FRAME_SIZE)) KERNEL_FLAGS;
  let! i := gets (fun s => ASSERT_ALIGN (u32 (MM_KHEAP_START + pos s))) in
  MAP_MEMORY i (fun s => u32 (ALIGN_UP (pos s) + MM_KHEAP_START + MM_KHEAP_SIZE)) KERNEL_FLAGS.

Definition setup_paging (memend memstart : Z) (kmalloc_pos : A -> Z)
    (register_page_fault_handler : PM unit) (create_heap : Z -> Z -> Z -> Z -> PM unit) : PM unit :=
  let count := memend / FRAME_SIZE in
  do! _kmalloc (count / 8);
  do! modify (set_frames count (replicate (Z.to_nat (count / 8 / 4)) 0));
  let! ' (d, phys) := _kmalloc_pa sizeof_page_directory in
  do! modify (set_kernel_directory d);
  do! put_dir d (PageDirectory empty_slots d empty_slots);
  do! setup_mappings memstart kmalloc_pos;
  do! register_page_fault_handler;
  do! modify (set_page_directory d);
  let! pos := gets (fun s => kmalloc_pos (alloc_state s)) in
  do! create_heap (u32 (MM_KHEAP_START + pos)) (u32 (MM_KHEAP_START + MM_KHEAP_SIZE + pos)) memend
        KERNEL_FLAGS;
  let! c := clone_directory d in
  modify (set_page_directory c).

End paging.

(** ** Lemmas on the bitmap *)

Definition used (fm : list Z) (n : Z) : bool :=
  match aget fm (n / 32) with Some w => Z.testbit w (n mod 32) | None => false end.

Definition words (fm : list Z) : Prop := Forall (fun w => 0 <= w < 4294967296) fm.

Lemma frame_bit_pow n : frame_bit n = 2 ^ (n mod 32).
Proof.
  unfold frame_bit. rewrite Z.shiftl_1_l. apply u32_id.
  split; [apply Z.pow_nonneg; lia|]. change 4294967296 with (2 ^ 32). apply Z.pow_lt_mono_r; lia.
Qed.

Lemma land_bit w j : 0 <= j < 32 -> (Z.land w (u32 (Z.shiftl 1 j)) =? 0) = negb (Z.testbit w j).
Proof.
  intros Hj. rewrite Z.shiftl_1_l, u32_id.
  2:{ split; [apply Z.pow_nonneg; lia|]. change 4294967296 with (2 ^ 32). apply Z.pow_lt_mono_r; lia. }
  assert (E : Z.land w (2 ^ j) = Z.b2z (Z.testbit w j) * 2 ^ j).
  { apply Z.bits_inj'. intros k Hk. rewrite Z.land_spec, Z.pow2_bits_eqb by lia.
    destruct (Z.testbit w j) eqn:Ew; simpl; rewrite ?Z.mul_1_l.
    - rewrite Z.pow2_bits_eqb by lia. destruct (j =? k) eqn:E; [|by rewrite andb_false_r].
      apply Z.eqb_eq in E as <-. by rewrite Ew.
    - rewrite Z.bits_0. destruct (j =? k) eqn:E; [|by rewrite andb_false_r].
      apply Z.eqb_eq in E as <-. by rewrite Ew. }
  rewrite E. destruct (Z.testbit w j); simpl; [|done].
  pose proof (Z.pow_pos_nonneg 2 j ltac:(lia) ltac:(lia)). lia.
Qed.

Lemma word_full w : 0 <= w < 4294967296 ->
  (w =? 0xFFFFFFFF) = true <-> (forall j, 0 <= j < 32 -> Z.testbit w j = true).
Proof.
  intros Hw. rewrite Z.eqb_eq. split.
  - intros -> j Hj. change 0xFFFFFFFF with (Z.ones 32). apply Z.ones_spec_low. lia.
  - intros Hb. change 0xFFFFFFFF with (Z.ones 32). apply Z.bits_inj'. intros k Hk.
    destruct (decide (k < 32)).
    + rewrite Hb, Z.ones_spec_low by lia. done.
    + rewrite Z.ones_spec_high by lia. change 4294967296 with (2 ^ 32) in Hw.
      destruct (decide (w = 0)) as [->|]; [apply Z.bits_0|].
      apply Z.bits_above_log2; [lia|]. assert (Z.log2 w < 32) by (apply Z.log2_lt_pow2; lia). lia.
Qed.

Lemma used_word fm i j w : 0 <= j < 32 -> aget fm i = Some w -> used fm (i * 32 + j) = Z.testbit w j.
Proof.
  intros Hj Hi. unfold used. replace ((i * 32 + j) / 32) with i by lia. rewrite Hi.
  by replace ((i * 32 + j) mod 32) with j by lia.
Qed.

Lemma find_seqZ_first f lo n j : find f (seqZ lo n) = Some j ->
  lo <= j < lo + n /\ f j = true /\ (forall k, lo <= k < j -> f k = false).
Proof.
  revert lo n. assert (G : forall k lo n, Z.to_nat n = k -> find f (seqZ lo n) = Some j ->
    lo <= j < lo + n /\ f j = true /\ (forall k, lo <= k < j -> f k = false)).
  { induction k as [|k IH]; intros lo n Hk Hf.
    - rewrite seqZ_nil in Hf by lia. done.
    - rewrite seqZ_cons in Hf by lia. simpl in Hf. destruct (f lo) eqn:E.
      + injection Hf as <-. split; [lia|]. split; [done|]. intros; lia.
      + apply (IH (Z.succ lo) (Z.pred n)) in Hf as (H1 & H2 & H3); [|lia].
        split; [lia|]. split; [done|]. intros k' Hk'.
        destruct (decide (k' = lo)) as [->|]; [done|]. apply H3. lia. }
  intros lo n. by apply (G (Z.to_nat n)).
Qed.

Lemma find_seqZ_none f lo n : find f (seqZ lo n) = None -> forall k, lo <= k < lo + n -> f k = false.
Proof. intros Hf k Hk. apply (find_none _ _ Hf). apply list_elem_of_In, elem_of_seqZ. lia. Qed.

Lemma first_frame_loop_spec n fm i r :
  words fm -> 0 <= i -> first_frame_loop n fm i = Some r ->
  (forall m, 0 <= m < 32 * i -> used fm m = true) ->
  (r = 0xFFFFFFFF /\ forall m, 0 <= m < 32 * (i + Z.of_nat n) -> used fm m = true) \/
  (0 <= r < 32 * (i + Z.of_nat n) /\ used fm r = false /\ forall m, 0 <= m < r -> used fm m = true).
Proof.
  intros Hw. revert i. induction n as [|n IH]; intros i Hi; cbn [first_frame_loop].
  { intros [= <-] Hu. left. split; [done|]. intros m Hm. apply Hu. lia. }
  destruct (aget fm i) as [w|] eqn:Ei; [|done]. simpl. intros Hr Hu.
  assert (Hwi : 0 <= w < 4294967296) by exact (Forall_aget _ _ _ _ Hw Ei).
  assert (Hfull : (forall j, 0 <= j < 32 -> Z.testbit w j = true) ->
                  forall m, 0 <= m < 32 * (i + 1) -> used fm m = true).
  { intros Hb m Hm. destruct (decide (m < 32 * i)); [apply Hu; lia|].
    replace m with (i * 32 + (m - i * 32)) by lia. rewrite (used_word _ _ _ w) by (lia || done).
    apply Hb. lia. }
  replace (i + Z.of_nat (S n)) with (i + 1 + Z.of_nat n) by lia.
  destruct (w =? 0xFFFFFFFF) eqn:Ew; cbn [negb] in Hr.
  { apply IH in Hr; [done|lia|]. apply Hfull. by apply word_full. }
  destruct (first_clear w) as [j|] eqn:Ef; unfold first_clear in Ef.
  - injection Hr as <-. apply find_seqZ_first in Ef as (Hj & Hz & Hlt).
    rewrite land_bit in Hz by lia. right. split; [lia|]. rewrite (used_word _ _ _ w) by (lia || done).
    split; [by apply negb_true_iff in Hz|]. intros m Hm. destruct (decide (m < 32 * i)); [apply Hu; lia|].
    replace m with (i * 32 + (m - i * 32)) by lia. rewrite (used_word _ _ _ w) by (lia || done).
    specialize (Hlt (m - i * 32) ltac:(lia)). rewrite land_bit in Hlt by lia.
    by apply negb_false_iff in Hlt.
  - exfalso. enough ((w =? 0xFFFFFFFF) = true) by congruence. apply word_full; [done|]. intros j Hj.
    pose proof (find_seqZ_none _ _ _ Ef j ltac:(lia)) as Hz. cbv beta in Hz.
    rewrite land_bit in Hz by lia. by apply negb_false_iff in Hz.
Qed.

(** The bitmap covers [count / 32] words. *)
Definition fm_ok (count : Z) (fm : list Z) : Prop :=
  words fm /\ Z.of_nat (length fm) = count / 32 /\ 0 <= count <= 1048576.

Lemma first_frame_spec count fm : fm_ok count fm ->
  (first_frame count fm = Some 0xFFFFFFFF /\ forall m, 0 <= m < 32 * (count / 32) -> used fm m = true) \/
  (exists r, first_frame count fm = Some r /\ 0 <= r < 32 * (count / 32) /\ used fm r = false /\
             forall m, 0 <= m < r -> used fm m = true).
Proof.
  intros (Hw & Hl & Hc). unfold first_frame.
  assert (Hs : forall n i, 0 <= i -> i + Z.of_nat n <= Z.of_nat (length fm) ->
                           is_Some (first_frame_loop n fm i)).
  { induction n as [|n IH]; intros i Hi Hn; [by eexists|]. cbn [first_frame_loop].
    destruct (aget_Some fm i) as [w ->]; [lia|]. cbn [mbind option_bind]. repeat case_match; eauto; apply IH; lia. }
  destruct (Hs (Z.to_nat (count / 32)) 0) as [r Hr]; [lia..|]. rewrite Hr.
  apply first_frame_loop_spec in Hr; [|done|lia|lia].
  replace (0 + Z.of_nat (Z.to_nat (count / 32))) with (count / 32) in Hr by lia.
  destruct Hr as [[-> Hr]|Hr]; [by left|right]. by exists r.
Qed.

Lemma fm_set_spec count fm n : fm_ok count fm -> 0 <= n < 32 * (count / 32) ->
  exists fm', fm_set fm n = Some fm' /\ fm_ok count fm' /\
    forall m, 0 <= m -> used fm' m = (m =? n) || used fm m.
Proof.
  intros (Hw & Hl & Hc) Hn. unfold fm_set.
  destruct (aget_Some fm (n / 32)) as [w Hg]; [lia|]. rewrite Hg. simpl.
  assert (Hwi : 0 <= w < 2 ^ 32) by exact (Forall_aget _ _ _ _ Hw Hg).
  rewrite aset_Some by lia. eexists. split; [done|].
  assert (Hb : 0 <= Z.lor w (frame_bit n) < 4294967296).
  { change 4294967296 with (2 ^ 32). apply bits_bound; [done|]. intros k Hk.
    rewrite Z.lor_spec, frame_bit_pow, Z.pow2_bits_eqb, (bits_high w 32) by lia. simpl. lia. }
  split; [split; [by apply Forall_insert|split; [by rewrite length_insert|done]]|].
  intros m Hm. unfold used. destruct (decide (m / 32 = n / 32)) as [E|E].
  - rewrite E, (aget_aset_eq fm _ _ (Z.lor w (frame_bit n)));
      [|by rewrite aset_Some by lia]. rewrite Hg, Z.lor_spec, frame_bit_pow, Z.pow2_bits_eqb by lia.
    rewrite orb_comm. f_equal. lia.
  - rewrite (aget_aset_ne fm _ (n / 32) (m / 32) (Z.lor w (frame_bit n))); [|lia|by rewrite aset_Some by lia].
    by replace (m =? n) with false by lia.
Qed.

Lemma fm_clear_spec count fm n : fm_ok count fm -> 0 <= n < 32 * (count / 32) ->
  exists fm', fm_clear fm n = Some fm' /\ fm_ok count fm' /\
    forall m, 0 <= m -> used fm' m = negb (m =? n) && used fm m.
Proof.
  intros (Hw & Hl & Hc) Hn. unfold fm_clear.
  destruct (aget_Some fm (n / 32)) as [w Hg]; [lia|]. rewrite Hg. simpl.
  assert (Hwi : 0 <= w < 2 ^ 32) by exact (Forall_aget _ _ _ _ Hw Hg).
  rewrite aset_Some by lia. eexists. split; [done|]. rewrite Z.shiftl_1_l.
  set (w' := Z.land w (Z.lnot (2 ^ (n mod 32)))).
  assert (Hb : 0 <= w' < 4294967296).
  { change 4294967296 with (2 ^ 32). apply bits_bound; [done|]. intros k Hk. unfold w'.
    by rewrite Z.land_spec, (bits_high w 32) by lia. }
  split; [split; [by apply Forall_insert|split; [by rewrite length_insert|done]]|].
  intros m Hm. unfold used. destruct (decide (m / 32 = n / 32)) as [E|E].
  - rewrite E, (aget_aset_eq fm _ _ w'); [|by rewrite aset_Some by lia]. rewrite Hg. unfold w'.
    rewrite Z.land_spec, Z.lnot_spec, Z.pow2_bits_eqb by lia. rewrite andb_comm. f_equal. f_equal. lia.
  - rewrite (aget_aset_ne fm _ (n / 32) (m / 32) w'); [|lia|by rewrite aset_Some by lia].
    by replace (m =? n) with false by lia.
Qed.

(** ** The frame invariant *)

(** The frames the bitmap shows as free. *)
Definition free_set (count : Z) (fm : list Z) : gset Z :=
  list_to_set (filter (fun m => used fm m = false) (seqZ 0 (32 * (count / 32)))).

Lemma elem_free_set count fm m :
  m ∈ free_set count fm <-> 0 <= m < 32 * (count / 32) /\ used fm m = false.
Proof.
  unfold free_set. rewrite elem_of_list_to_set, list_elem_of_filter, elem_of_seqZ. naive_solver lia.
Qed.

Section paging_facts.
Context {A : Type}.
Implicit Types s : pstate A.

Definition free_frames s : gset Z := free_set (framecount s) (framemap s).
Definition is_used s (m : Z) : Prop := used (framemap s) m = true.

(** Frame 0 is taken, every other frame an entry names is taken and belongs
    to that entry alone. *)
Record frames_ok s : Prop := {
  fo_map : fm_ok (framecount s) (framemap s);
  fo_zero : is_used s 0;
  fo_len t tab : ptabs s !! t = Some tab -> length tab = 1024%nat;
  fo_flags t i e : get_entry t i s = Some e -> 0 <= flags e < 4096;
  fo_used t i e : get_entry t i s = Some e -> frame e <> 0 ->
    0 < frame e < 32 * (framecount s / 32) /\ is_used s (frame e);
  fo_excl t1 i1 e1 t2 i2 e2 : get_entry t1 i1 s = Some e1 -> get_entry t2 i2 s = Some e2 ->
    frame e1 = frame e2 -> frame e1 <> 0 -> t1 = t2 /\ i1 = i2 }.

(** [s'] only adds to [s], apart from the tables [tx] and the directories
    [dx]. *)
Record ext (tx dx : Z -> Prop) s s' : Prop := {
  ext_count : framecount s' = framecount s;
  ext_kdir : kernel_directory s' = kernel_directory s;
  ext_used m : 0 <= m -> is_used s m -> is_used s' m /\ frame_data s' m = frame_data s m;
  ext_tabs t : ~ tx t -> ptabs s' !! t = ptabs s !! t;
  ext_dirs d : ~ dx d -> pdirs s' !! d = pdirs s !! d }.

Lemma ext_refl tx dx s : ext tx dx s s.
Proof. by constructor. Qed.

Lemma ext_trans (tx1 dx1 tx2 dx2 tx dx : Z -> Prop) s1 s2 s3 :
  (forall t, ~ tx t -> ~ tx1 t /\ ~ tx2 t) -> (forall d, ~ dx d -> ~ dx1 d /\ ~ dx2 d) ->
  ext tx1 dx1 s1 s2 -> ext tx2 dx2 s2 s3 -> ext tx dx s1 s3.
Proof.
  intros Ht Hd [] []. split; [congruence..| | |].
  - intros m Hm H0. destruct (ext_used0 m Hm H0) as [H1 H2].
    destruct (ext_used1 m Hm H1) as [H3 H4]. split; congruence.
  - intros t H. destruct (Ht t H). rewrite ext_tabs1, ext_tabs0; done.
  - intros d H. destruct (Hd d H). rewrite ext_dirs1, ext_dirs0; done.
Qed.

Lemma get_entry_ext tx dx s s' t i : ext tx dx s s' -> ~ tx t -> get_entry t i s' = get_entry t i s.
Proof. intros [] H. unfold get_entry. by rewrite ext_tabs0. Qed.

Lemma get_entry_index t i s e : frames_ok s -> get_entry t i s = Some e -> 0 <= i < 1024.
Proof.
  intros Hok. unfold get_entry. destruct (ptabs s !! t) as [tab|] eqn:E; [|done]. simpl.
  intros [Hi _]%aget_inv. rewrite (fo_len _ Hok _ _ E) in Hi. lia.
Qed.

Lemma get_put_entry t i p s s' :
  put_entry t i p s = Some s' ->
  exists tab tab', ptabs s !! t = Some tab /\ aset tab i p = Some tab' /\
    s' = set_ptabs (<[t := tab']> (ptabs s)) s /\
    (forall t' i', get_entry t' i' s' =
       if decide (t' = t /\ i' = i) then Some p else get_entry t' i' s).
Proof.
  unfold put_entry. destruct (ptabs s !! t) as [tab|] eqn:E; [|done]. simpl.
  destruct (aset tab i p) as [tab'|] eqn:E'; [|done]. simpl. intros [= <-].
  exists tab, tab'. split_and!; [done..|]. intros t' i'. unfold get_entry. simpl.
  destruct (decide (t' = t)) as [->|Hne].
  - rewrite lookup_insert_eq, E. simpl. destruct (decide (i' = i)) as [->|Hi].
    + rewrite decide_True by done. by apply (aget_aset_eq tab).
    + rewrite decide_False by tauto. by apply (aget_aset_ne tab _ i _ p).
  - rewrite lookup_insert_ne by done. by rewrite decide_False by tauto.
Qed.

Lemma put_entry_Some t i p e s : get_entry t i s = Some e -> is_Some (put_entry t i p s).
Proof.
  unfold get_entry, put_entry. destruct (ptabs s !! t) as [tab|]; [|done]. simpl.
  intros [Hi _]%aget_inv. rewrite aset_Some by done. by eexists.
Qed.

Lemma free_frames_set s fm f :
  (forall m, 0 <= m -> used fm m = (m =? f) || used (framemap s) m) -> f ∈ free_frames s ->
  free_set (framecount s) fm = free_frames s ∖ {[f]} /\
  S (size (free_set (framecount s) fm)) = size (free_frames s).
Proof.
  intros Hu Hf.
  assert (E : free_set (framecount s) fm = free_frames s ∖ {[f]}).
  { apply set_eq. intros m. unfold free_frames.
    rewrite elem_of_difference, !elem_free_set, elem_of_singleton.
    destruct (decide (0 <= m)); [|lia]. rewrite Hu, orb_false_iff by done. naive_solver lia. }
  split; [done|]. rewrite E, size_difference, size_singleton by set_solver.
  assert (size (free_frames s) <> 0)%nat; [|lia].
  rewrite size_non_empty_iff. set_solver.
Qed.

(** [alloc_frame] on an unmapped entry while a frame is free. *)
Lemma alloc_frame_ok t i fl e s :
  frames_ok s -> get_entry t i s = Some e -> frame e = 0 -> (0 < size (free_frames s))%nat ->
  exists s' f, alloc_frame t i fl s = Ok (tt, s') /\
    frames_ok s' /\ f ∈ free_frames s /\ 0 < f < 1048576 /\ is_used s' f /\
    S (size (free_frames s')) = size (free_frames s) /\
    get_entry t i s' = Some (Page (fl mod 4096) f) /\
    (forall t' i', ~ (t' = t /\ i' = i) -> get_entry t' i' s' = get_entry t' i' s) /\
    pmem s' = pmem s /\ alloc_state s' = alloc_state s /\
    (forall m, m < f -> 0 <= m -> is_used s m) /\
    (forall m, 0 <= m -> used (framemap s') m = (m =? f) || used (framemap s) m) /\
    (forall x, is_Some (ptabs s' !! x) <-> is_Some (ptabs s !! x)) /\
    ext (eq t) (fun _ => False) s s'.
Proof.
  intros Hok He Hz Hsz. pose proof (fo_map _ Hok) as Hm.
  destruct (first_frame_spec _ _ Hm) as [[_ Hfull]|(f & Hff & Hfr & Hfu & Hlt)].
  { exfalso. apply size_pos_elem_of in Hsz as [m Hin]. unfold free_frames in Hin.
    apply elem_free_set in Hin as [H1 H2]. rewrite Hfull in H2 by lia. done. }
  assert (Hcnt : 0 <= framecount s <= 1048576) by apply Hm.
  assert (Hf0 : 0 < f).
  { destruct (decide (f = 0)) as [->|]; [|lia]. pose proof (fo_zero _ Hok). unfold is_used in *.
    congruence. }
  destruct (put_entry_Some t i (Page (fl mod 4096) (f mod 1048576)) e s He) as [s1 Hs1].
  apply get_put_entry in Hs1 as Hs1'. destruct Hs1' as (tab & tab' & Ht & Ha & -> & Hg).
  destruct (fm_set_spec _ _ f Hm ltac:(lia)) as (fm & Hfm & Hfmok & Hu).
  assert (Hfin : f ∈ free_frames s) by (apply elem_free_set; split; [lia|done]).
  destruct (free_frames_set s fm f Hu Hfin) as [Hfs Hsize].
  assert (Hmod : f mod 1048576 = f) by lia.
  eexists _, f. unfold alloc_frame, bind, get_or_fault, upd_or_fault, ret.
  rewrite Hff, He, Hz. cbn [Z.eqb negb]. rewrite Hs1. simpl. rewrite Hfm. simpl. split; [done|].
  rewrite Hmod in *. clear Hmod.
  set (s' := set_framemap fm _).
  assert (Hg' : forall t' i', get_entry t' i' s' =
            if decide (t' = t /\ i' = i) then Some (Page (fl mod 4096) f) else get_entry t' i' s)
    by exact Hg.
  assert (Hmono : forall m, 0 <= m -> is_used s m -> is_used s' m).
  { intros m Hm' H. unfold is_used in *. simpl. rewrite Hu, H by done. by rewrite orb_true_r. }
  split_and!; try done; try lia.
  - constructor; [done|apply Hmono; [lia|apply Hok]| | | |].
    + intros x tabx. simpl. destruct (decide (x = t)) as [->|]; [rewrite lookup_insert_eq|rewrite lookup_insert_ne by done].
      * intros [= <-]. rewrite (aset_length _ _ _ _ Ha). by apply (fo_len _ Hok t).
      * apply Hok.
    + intros x j ex. rewrite Hg'. case_decide; [|apply Hok]. intros [= <-]. simpl. lia.
    + intros x j ex. rewrite Hg'. case_decide as Hd.
      * intros [= <-] _. simpl. split; [lia|]. unfold is_used. simpl. rewrite Hu by lia. by rewrite Z.eqb_refl.
      * intros Hx Hnz. destruct (fo_used _ Hok _ _ _ Hx Hnz) as [H1 H2]. split; [done|]. apply Hmono; [lia|done].
    + intros t1 i1 e1 t2 i2 e2. rewrite !Hg'. intros H1 H2 Heq Hnz.
      assert (Hno : forall t i e, get_entry t i s = Some e -> frame e = f -> False).
      { intros t0 i0 e0 H0 Hff0. destruct (fo_used _ Hok _ _ _ H0) as [_ Hu0]; [lia|]. unfold is_used in Hu0.
        rewrite Hff0 in Hu0. congruence. }
      do 2 case_decide; simplify_eq; simpl in *.
      * naive_solver.
      * exfalso. by eapply Hno.
      * exfalso. by eapply Hno.
      * by eapply (fo_excl _ Hok).
  - unfold is_used. simpl. rewrite Hu by lia. by rewrite Z.eqb_refl.
  - rewrite Hg'. by rewrite decide_True.
  - intros t' i' Hne. rewrite Hg'. by rewrite decide_False.
  - intros m H1 H2. unfold is_used. apply Hlt. lia.
  - intros x. simpl. rewrite lookup_insert_is_Some'. split; [intros [Hx|Hx]; [|done]|by right].
    rewrite <- Hx. exists tab. exact Ht.
  - constructor; try done; simpl; [auto|]. intros x Hx. by rewrite lookup_insert_ne by done.
Qed.

(** *** Copying a table *)

(** The number of mapped entries below index [n]. *)
Fixpoint mapped_below s (t : Z) (n : nat) : nat :=
  match n with
  | O => O
  | S i => ((match get_entry t (Z.of_nat i) s with
             | Some e => if (frame e =? 0)%Z then 0 else 1
             | None => 0
             end) + mapped_below s t i)%nat
  end.

Lemma mapped_below_eq s s' t n :
  (forall i, get_entry t i s' = get_entry t i s) -> mapped_below s' t n = mapped_below s t n.
Proof. intros He. induction n as [|n IH]; [done|]. simpl. by rewrite He, IH. Qed.

(** [e'] is a copy of [e]: unmapped like it, or mapped with the same flags to a
    frame that was free in [s] and now holds the contents of [e]'s frame. *)
Definition cloned_entry s s' (e e' : page) : Prop :=
  (frame e = 0 /\ e' = page_zero) \/
  (frame e <> 0 /\ flags e' = flags e /\ frame e' <> 0 /\ used (framemap s) (frame e') = false /\
   is_used s' (frame e') /\ frame_data s' (frame e') = frame_data s (frame e)).

Lemma cloned_entry_mono tx dx tx' dx' s0 s s1 s2 e e' :
  ext tx dx s0 s -> ext tx' dx' s1 s2 -> (frame e <> 0 -> 0 <= frame e /\ is_used s0 (frame e)) ->
  0 <= frame e' ->
  cloned_entry s s1 e e' -> cloned_entry s0 s2 e e'.
Proof.
  intros H01 H12 Hu Hp [H|(H1 & H2 & H3 & H4 & H5 & H6)]; [by left|right].
  destruct (Hu H1) as [Hpe Hue].
  destruct (ext_used _ _ _ _ H12 _ Hp H5) as [H7 H8].
  destruct (ext_used _ _ _ _ H01 _ Hpe Hue) as [_ H9].
  split_and!; try done; [|congruence].
  destruct (used (framemap s0) (frame e')) eqn:E; [|done].
  destruct (ext_used _ _ _ _ H01 _ Hp E) as [H10 _]. unfold is_used in H10. congruence.
Qed.

(** [clone_page] between two frames. *)
Lemma clone_page_frames f g s : 0 <= f < 1048576 -> 0 <= g < 1048576 ->
  clone_page (u32 (f * FRAME_SIZE)) (u32 (g * FRAME_SIZE)) s
  = Ok (tt, set_pmem (<[g := frame_data s f]> (pmem s)) s).
Proof.
  intros Hf Hg. unfold clone_page, modify, FRAME_SIZE. rewrite !u32_id by lia.
  by rewrite !Z.div_mul by lia.
Qed.

(** One round of the loop of [clone_table] on a mapped entry. *)
Lemma clone_entry_ok t i fl e src_frame s :
  frames_ok s -> get_entry t i s = Some e -> frame e = 0 -> (0 < size (free_frames s))%nat ->
  0 < src_frame < 1048576 -> is_used s src_frame -> 0 <= fl < 4096 ->
  exists s' f, 
    (do! alloc_frame t i fl;
     let! e' := get_or_fault (get_entry t i) in
     clone_page (u32 (src_frame * FRAME_SIZE)) (u32 (frame e' * FRAME_SIZE))) s = Ok (tt, s') /\
    frames_ok s' /\ 0 < f /\ used (framemap s) f = false /\ is_used s' f /\
    S (size (free_frames s')) = size (free_frames s) /\
    get_entry t i s' = Some (Page fl f) /\ frame_data s' f = frame_data s src_frame /\
    (forall t' i', ~ (t' = t /\ i' = i) -> get_entry t' i' s' = get_entry t' i' s) /\
    alloc_state s' = alloc_state s /\
    (forall x, is_Some (ptabs s' !! x) <-> is_Some (ptabs s !! x)) /\
    ext (eq t) (fun _ => False) s s'.
Proof.
  intros Hok He Hz Hsz Hsf Husf Hfl.
  destruct (alloc_frame_ok t i fl e s Hok He Hz Hsz)
    as (s1 & f & Hal & Hok1 & Hfin & Hf & Huf & Hsize & Hge & Hother & Hpm & Hast & _ & Hused & Hdom & Hext).
  apply elem_free_set in Hfin as [_ Hfree].
  set (s2 := set_pmem (<[f := frame_data s1 src_frame]> (pmem s1)) s1).
  exists s2, f.
  assert (Hd : forall m, m <> f -> frame_data s2 m = frame_data s1 m).
  { intros m Hm. unfold frame_data. simpl. by rewrite lookup_insert_ne by done. }
  destruct (ext_used _ _ _ _ Hext src_frame ltac:(lia) Husf) as [_ Hsd].
  split.
  { unfold bind at 1. rewrite Hal. unfold bind, get_or_fault. rewrite Hge. simpl.
    rewrite (clone_page_frames src_frame f s1) by lia. done. }
  rewrite (Z.mod_small fl) in Hge by done.
  split_and!; try done; try lia.
  - destruct Hok1. by constructor.
  - unfold frame_data at 1. simpl. rewrite lookup_insert_eq. simpl. done.
  - destruct Hext as [H1 H2 H3 H4 H5]. constructor; try done. intros m Hm Hum.
    destruct (H3 m Hm Hum) as [H6 H7]. split; [done|]. rewrite Hd; [done|].
    intros ->. unfold is_used in Hum. congruence.
Qed.

Lemma clone_entries_ok n src table s :
  frames_ok s -> src <> table -> is_Some (ptabs s !! src) -> is_Some (ptabs s !! table) ->
  (n <= 1024)%nat -> (mapped_below s src n <= size (free_frames s))%nat ->
  (forall i, 0 <= i < Z.of_nat n -> get_entry table i s = Some page_zero) ->
  exists s', clone_entries n src table s = Ok (tt, s') /\ frames_ok s' /\
    (size (free_frames s') + mapped_below s src n = size (free_frames s))%nat /\
    alloc_state s' = alloc_state s /\
    (forall x, is_Some (ptabs s' !! x) <-> is_Some (ptabs s !! x)) /\
    ext (eq table) (fun _ => False) s s' /\
    (forall i, Z.of_nat n <= i -> get_entry table i s' = get_entry table i s) /\
    (forall i, 0 <= i < Z.of_nat n -> exists e e', get_entry src i s = Some e /\
       get_entry table i s' = Some e' /\ cloned_entry s s' e e').
Proof.
  intros Hok Hne [stab Hsrc] Htab. revert s Hok Hsrc Htab.
  induction n as [|n IH]; intros s Hok Hsrc Htab Hn Hsz Hz.
  { exists s. simpl in *. split_and!; try done; try apply ext_refl; intros; lia. }
  assert (He : exists e, get_entry src (Z.of_nat n) s = Some e).
  { unfold get_entry. rewrite Hsrc. simpl. apply aget_Some. rewrite (fo_len _ Hok _ _ Hsrc). lia. }
  destruct He as [e He]. simpl in Hsz |- *. rewrite He in Hsz |- *.
  pose proof (Hz (Z.of_nat n) ltac:(lia)) as Hzn.
  destruct (frame e =? 0) eqn:E.
  - destruct (IH s Hok Hsrc Htab) as (s' & Hr & Hok' & Hc & Ha & Hdm & Hx & Hk & Hcl); [lia|lia|intros; apply Hz; lia|].
    exists s'. split_and!; try done.
    + unfold bind at 1, get_or_fault at 1. rewrite He, E. by rewrite bind_ret_l.
    + intros i Hi. apply Hk. lia.
    + intros i Hi. destruct (decide (i = Z.of_nat n)) as [->|]; [|apply Hcl; lia].
      exists e, page_zero. split_and!; [done|by rewrite Hk by lia|]. left. split; [lia|done].
  - destruct (fo_used _ Hok _ _ _ He) as [Hfr Huse]; [lia|].
    assert (Hcnt : 0 <= framecount s <= 1048576) by apply Hok.
    destruct (clone_entry_ok table (Z.of_nat n) (flags e) page_zero (frame e) s Hok Hzn eq_refl)
      as (s1 & f & Hr1 & Hok1 & Hf & Hfree & Huf & Hsize & Hge & Hfd & Hother & Ha1 & Hdm1 & Hx1);
      [lia|lia|done|by apply (fo_flags _ Hok _ _ _ He)|].
    assert (Hse : forall i, get_entry src i s1 = get_entry src i s) by (intros; apply Hother; tauto).
    assert (Hsrc1 : ptabs s1 !! src = Some stab) by (rewrite (ext_tabs _ _ _ _ Hx1); [done|congruence]).
    destruct (IH s1 Hok1 Hsrc1 (proj2 (Hdm1 _) Htab)) as (s' & Hr & Hok' & Hc & Ha & Hdm & Hx & Hk & Hcl).
    + lia.
    + rewrite (mapped_below_eq s s1) by done. lia.
    + intros i Hi. rewrite Hother by lia. apply Hz. lia.
    + rewrite (mapped_below_eq s s1) in Hc by done. exists s'. split_and!; try done; try lia.
      * unfold bind at 1, get_or_fault at 1. rewrite He, E. unfold bind at 1. by rewrite Hr1.
      * congruence.
      * intros x. by rewrite Hdm, Hdm1.
      * eapply ext_trans; [| |exact Hx1|exact Hx]; tauto.
      * intros i Hi. rewrite Hk by lia. apply Hother. lia.
      * intros i Hi. destruct (decide (i = Z.of_nat n)) as [->|].
        { exists e, (Page (flags e) f). split_and!; [done|by rewrite Hk by lia|].
          destruct (ext_used _ _ _ _ Hx f ltac:(lia) Huf) as [Hu' Hd'].
          right. simpl. split_and!; try done; [lia..|]. by rewrite Hd'. }
        destruct (Hcl i) as (e0 & e0' & H1 & H2 & H3); [lia|]. rewrite Hse in H1.
        exists e0, e0'. split_and!; [done..|].
        eapply (cloned_entry_mono _ _ (eq table) (fun _ => False) s s1 s' s');
          [exact Hx1|apply ext_refl| | |done].
        { intros Hnz. destruct (fo_used _ Hok _ _ _ H1 Hnz). split; [lia|done]. }
        { destruct (decide (frame e0' = 0)); [lia|]. destruct (fo_used _ Hok' _ _ _ H2); [done|lia]. }
Qed.

End paging_facts.

(** ** Address spaces *)

Definition set_alloc {A} (a : A) (s : pstate A) : pstate A :=
  PState (framecount s) (framemap s) (ptabs s) (pdirs s) (kernel_directory s) (current_directory s)
    (pmem s) a.

(** What paging relies on of the memory manager: while there is [room] for
    [n] more page-aligned objects without growing, a request returns an
    address that holds no live object, and touches nothing else. *)
Class KAllocLaws (A : Type) `{KAlloc A} := {
  live : A -> Z -> Prop;
  room : A -> nat -> Prop;
  kmalloc_pa_ok s sz n : 0 < sz <= sizeof_page_directory -> room (alloc_state s) (S n) ->
    exists v ph a', _kmalloc_pa sz s = Ok ((v, ph), set_alloc a' s) /\ v <> 0 /\ room a' n /\
      ~ live (alloc_state s) v /\ live a' v /\ (forall x, live (alloc_state s) x -> live a' x);
  free_ok s v : live (alloc_state s) v ->
    exists a', free v s = Ok (tt, set_alloc a' s) /\
      forall x, x <> v -> live (alloc_state s) x -> live a' x }.

Section spaces.
Context {A : Type} `{KAllocLaws A}.
Implicit Types s : pstate A.

Definition dir_slot s (d i : Z) : option Z := dir ← pdirs s !! d; aget (tables dir) i.
Definition phys_slot s (d i : Z) : option Z := dir ← pdirs s !! d; aget (physTabs dir) i.

Record space_ok s : Prop := {
  so_frames : frames_ok s;
  so_ptab x : is_Some (ptabs s !! x) -> live (alloc_state s) x /\ x <> 0;
  so_pdir x : is_Some (pdirs s !! x) -> live (alloc_state s) x /\ x <> 0;
  so_dir d dir : pdirs s !! d = Some dir ->
    length (tables dir) = 1024%nat /\ length (physTabs dir) = 1024%nat;
  so_slot d i t : dir_slot s d i = Some t -> t <> 0 -> is_Some (ptabs s !! t);
  so_kdir : is_Some (pdirs s !! kernel_directory s) }.

(** Slot [i] of [src] holds a table of its own, not one it shares with the
    kernel. *)
Definition user_slot s (src i : Z) : option Z :=
  match dir_slot s src i, dir_slot s (kernel_directory s) i with
  | Some t, Some kt => if (t =? 0) || (kt =? t) then None else Some t
  | _, _ => None
  end.

Fixpoint user_tables s (src : Z) (n : nat) : nat :=
  match n with
  | O => O
  | S i => ((match user_slot s src (Z.of_nat i) with Some _ => 1 | None => 0 end)
            + user_tables s src i)%nat
  end.

Fixpoint user_pages s (src : Z) (n : nat) : nat :=
  match n with
  | O => O
  | S i => ((match user_slot s src (Z.of_nat i) with
             | Some t => mapped_below s t 1024
             | None => 0
             end) + user_pages s src i)%nat
  end.

Definition fresh_tab s (t : Z) : Prop := ptabs s !! t = None.

Lemma ext_slot tx dx s s' d i : ext tx dx s s' -> ~ dx d ->
  dir_slot s' d i = dir_slot s d i /\ phys_slot s' d i = phys_slot s d i.
Proof. intros [] Hd. unfold dir_slot, phys_slot. by rewrite ext_dirs0. Qed.

Lemma ext_user_slot dir s s' src i : ext (fresh_tab s) (eq dir) s s' -> dir <> src ->
  dir <> kernel_directory s -> user_slot s' src i = user_slot s src i.
Proof.
  intros He H1 H2. unfold user_slot. rewrite (ext_kdir _ _ _ _ He).
  by rewrite (proj1 (ext_slot _ _ _ _ src i He H1)), (proj1 (ext_slot _ _ _ _ _ i He H2)).
Qed.

Lemma user_slot_inv s src i t : user_slot s src i = Some t ->
  dir_slot s src i = Some t /\ t <> 0 /\ dir_slot s (kernel_directory s) i <> Some t.
Proof.
  unfold user_slot. repeat case_match; try done. intros [= <-]. split_and!; [done|lia|].
  intros [= ->]. lia.
Qed.

Lemma user_counts_ext dir s s' src n : space_ok s -> ext (fresh_tab s) (eq dir) s s' -> dir <> src ->
  dir <> kernel_directory s ->
  user_tables s' src n = user_tables s src n /\ user_pages s' src n = user_pages s src n.
Proof.
  intros Hok He H1 H2. induction n as [|n [IH1 IH2]]; [done|]. cbn [user_tables user_pages].
  rewrite (ext_user_slot dir s s') by done. rewrite IH1, IH2. split; [done|]. f_equal.
  destruct (user_slot s src (Z.of_nat n)) as [t|] eqn:E; [|done].
  apply user_slot_inv in E as (E & Ht & _). apply mapped_below_eq. intros j.
  apply (get_entry_ext _ _ _ _ _ _ He). unfold fresh_tab.
  destruct (so_slot _ Hok _ _ _ E Ht) as [x ->]. done.
Qed.

Lemma put_slot_ok d i ph t s dir : space_ok s -> pdirs s !! d = Some dir -> 0 <= i < 1024 ->
  exists s', put_slot d i ph t s = Ok (tt, s') /\
    dir_slot s' d i = Some t /\ phys_slot s' d i = Some ph /\
    (forall j, j <> i -> dir_slot s' d j = dir_slot s d j) /\
    (forall j, j <> i -> phys_slot s' d j = phys_slot s d j) /\
    (forall d', d' <> d -> pdirs s' !! d' = pdirs s !! d') /\
    (is_Some (ptabs s !! t) -> space_ok s') /\
    free_frames s' = free_frames s /\ alloc_state s' = alloc_state s /\ ptabs s' = ptabs s /\
    (forall f, frame_data s' f = frame_data s f) /\ framemap s' = framemap s /\
    ext (fun _ => False) (eq d) s s'.
Proof.
  intros Hok Hd Hi. destruct (so_dir _ Hok _ _ Hd) as [L1 L2].
  eexists. unfold put_slot, get_dir, bind, get_or_fault, put_dir, modify. rewrite Hd.
  rewrite !aset_Some by lia. split; [done|]. set (s' := set_pdirs _ s).
  assert (Hs : forall j, dir_slot s' d j = aget (<[Z.to_nat i := t]> (tables dir)) j).
  { intros j. unfold dir_slot, s'. simpl. by rewrite lookup_insert_eq. }
  assert (Hne : forall d', d' <> d -> pdirs s' !! d' = pdirs s !! d').
  { intros d' Hd'. simpl. by rewrite lookup_insert_ne by done. }
  assert (Hj : forall j, j <> i -> dir_slot s' d j = dir_slot s d j).
  { intros j Hij. rewrite Hs. unfold dir_slot. rewrite Hd. simpl.
    apply (aget_aset_ne _ _ i j t); [done|]. apply aset_Some. lia. }
  assert (Hii : dir_slot s' d i = Some t).
  { rewrite Hs. apply (aget_aset_eq (tables dir)). apply aset_Some. lia. }
  split_and!; try done.
  - unfold phys_slot, s'. simpl. rewrite lookup_insert_eq. simpl.
    apply (aget_aset_eq (physTabs dir)). apply aset_Some. lia.
  - intros j Hij. unfold phys_slot, s'. simpl. rewrite lookup_insert_eq, Hd. simpl.
    apply (aget_aset_ne _ _ i j ph); [done|]. apply aset_Some. lia.
  - intros Ht. destruct Hok as [[] ? ? ? ? ?]. constructor; try done.
    + intros x Hx. apply so_pdir0. destruct (decide (x = d)) as [->|]; [by rewrite Hd|by rewrite <- Hne].
    + intros x dx. destruct (decide (x = d)) as [->|]; [|rewrite Hne by done; apply so_dir0].
      simpl. rewrite lookup_insert_eq. intros [= <-]. simpl. by rewrite !length_insert.
    + intros x j tx. destruct (decide (x = d)) as [->|].
      * destruct (decide (j = i)) as [->|]; [rewrite Hii; by intros [= <-]|rewrite Hj by done; apply so_slot0].
      * unfold dir_slot. rewrite Hne by done. apply so_slot0.
    + simpl. apply lookup_insert_is_Some'. by right.
  - constructor; try done. intros x Hx. apply Hne. naive_solver.
Qed.

Lemma new_table_ok v s a' :
  space_ok s -> ~ live (alloc_state s) v -> v <> 0 -> live a' v ->
  (forall x, live (alloc_state s) x -> live a' x) ->
  exists s', new_table v (set_alloc a' s) = Ok (tt, s') /\ space_ok s' /\ fresh_tab s v /\
    alloc_state s' = a' /\ free_frames s' = free_frames s /\
    (forall i, 0 <= i < 1024 -> get_entry v i s' = Some page_zero) /\ is_Some (ptabs s' !! v) /\
    (forall t, t <> v -> ptabs s' !! t = ptabs s !! t) /\ pdirs s' = pdirs s /\
    ext (eq v) (fun _ => False) s s'.
Proof.
  intros Hok Hl Hv Hl' Hmono. eexists. split; [done|].
  assert (Hfr : ptabs s !! v = None).
  { destruct (ptabs s !! v) eqn:E; [|done]. destruct Hl. apply (so_ptab _ Hok). by rewrite E. }
  set (s' := set_ptabs _ _).
  assert (Hv' : forall i e, get_entry v i s' = Some e -> e = page_zero).
  { intros i e. unfold get_entry, s'. simpl. rewrite lookup_insert_eq. simpl.
    intros [_ Hx]%aget_inv. by apply lookup_replicate in Hx as [-> _]. }
  assert (Hne : forall t, t <> v -> ptabs s' !! t = ptabs s !! t).
  { intros t Ht. simpl. by rewrite lookup_insert_ne. }
  assert (Hge : forall t i, t <> v -> get_entry t i s' = get_entry t i s).
  { intros t i Ht. unfold get_entry. by rewrite Hne. }
  assert (Hdom : forall x, is_Some (ptabs s !! x) -> is_Some (ptabs s' !! x)).
  { intros x Hx. simpl. apply lookup_insert_is_Some'. by right. }
  destruct Hok as [Hf Hpt Hpd Hdir Hslot Hk].
  split_and!; try done.
  - constructor; try done.
    + constructor; try apply Hf.
      * intros t tab. destruct (decide (t = v)) as [->|]; [|rewrite Hne by done; apply Hf].
        simpl. rewrite lookup_insert_eq. by intros [= <-].
      * intros t i e. destruct (decide (t = v)) as [->|]; [intros ->%Hv'; simpl; lia|].
        rewrite Hge by done. apply Hf.
      * intros t i e. destruct (decide (t = v)) as [->|]; [by intros ->%Hv'|].
        rewrite Hge by done. apply Hf.
      * intros t1 i1 e1 t2 i2 e2. destruct (decide (t1 = v)) as [->|]; [by intros ->%Hv'|].
        destruct (decide (t2 = v)) as [->|]; [intros _ ->%Hv'; simpl; congruence|].
        rewrite !Hge by done. apply Hf.
    + intros x Hx. simpl in Hx. apply lookup_insert_is_Some' in Hx as [<-|Hx]; [done|].
      destruct (Hpt x Hx). auto.
    + intros x Hx. destruct (Hpd x Hx). auto.
    + intros d i t Hs Ht. apply Hdom. by eapply Hslot.
  - intros i Hi. unfold get_entry, s'. simpl. rewrite lookup_insert_eq. simpl.
    unfold aget. zcond. apply lookup_replicate_2. lia.
  - simpl. rewrite lookup_insert_eq. by eexists.
  - constructor; try done. intros t Ht. apply Hne. naive_solver.
Qed.

(** The table [t'] of [s'] is a copy of the table [t] of [s]. *)
Definition cloned_table s s' (t t' : Z) : Prop :=
  forall j, 0 <= j < 1024 -> exists e e', get_entry t j s = Some e /\ get_entry t' j s' = Some e' /\
    cloned_entry s s' e e'.

Lemma space_ok_frames s s' : space_ok s -> frames_ok s' -> alloc_state s' = alloc_state s ->
  (forall x, is_Some (ptabs s' !! x) <-> is_Some (ptabs s !! x)) -> pdirs s' = pdirs s ->
  kernel_directory s' = kernel_directory s -> space_ok s'.
Proof.
  intros [] Hf Ha Ht Hd Hk. constructor; rewrite ?Ha, ?Hd, ?Hk; try done.
  - intros x Hx. apply so_ptab0. by apply Ht.
  - intros d i t. unfold dir_slot. rewrite Hd. intros Hs Hnz. apply Ht. by eapply so_slot0.
Qed.

Lemma clone_table_ok src s n :
  space_ok s -> is_Some (ptabs s !! src) -> room (alloc_state s) (S n) ->
  (mapped_below s src 1024 <= size (free_frames s))%nat ->
  exists s' t ph, clone_table src s = Ok ((t, ph), s') /\ space_ok s' /\ fresh_tab s t /\
    is_Some (ptabs s' !! t) /\ room (alloc_state s') n /\
    (size (free_frames s') + mapped_below s src 1024 = size (free_frames s))%nat /\
    (forall x, live (alloc_state s) x -> live (alloc_state s') x) /\
    ext (fresh_tab s) (fun _ => False) s s' /\ cloned_table s s' src t.
Proof.
  intros Hok Hsrc Hroom Hsz.
  destruct (kmalloc_pa_ok s sizeof_page_table n) as (v & ph & a' & Hk & Hv & Hr & Hnl & Hl & Hmono);
    [done|done|].
  destruct (new_table_ok v s a' Hok Hnl Hv Hl Hmono)
    as (s1 & Hn & Hok1 & Hfr & Ha1 & Hff & Hz & Hex & Htab & Hdir & Hx1).
  assert (Hne : src <> v) by (intros ->; unfold fresh_tab in Hfr; rewrite Hfr in Hsrc; by destruct Hsrc).
  assert (Hse : forall i, get_entry src i s1 = get_entry src i s).
  { intros i. unfold get_entry. by rewrite Htab. }
  pose proof (mapped_below_eq s s1 src 1024 Hse) as Hmb.
  destruct (clone_entries_ok 1024 src v s1) as (s' & Hc & Hok' & Hcnt & Ha & Hdm & Hx & _ & Hcl);
    [apply Hok1|done|by rewrite Htab|done|lia|rewrite Hmb, Hff; lia|intros; apply Hz; lia|].
  exists s', v, ph.
  assert (Hext : ext (fresh_tab s) (fun _ => False) s s').
  { eapply ext_trans; [| |exact Hx1|exact Hx]; [|tauto]. intros t Ht. split; intros <-; tauto. }
  split_and!; try done.
  - unfold clone_table. unfold bind at 1. rewrite Hk. unfold bind at 1. rewrite Hn.
    unfold bind at 1. rewrite Hc. done.
  - apply (space_ok_frames s1); try done.
    + apply map_eq. intros d. apply (ext_dirs _ _ _ _ Hx). by intros [].
    + apply (ext_kdir _ _ _ _ Hx).
  - by apply Hdm.
  - by rewrite Ha, Ha1.
  - rewrite Hmb, Hff in Hcnt. done.
  - intros x. rewrite Ha, Ha1. auto.
  - intros j Hj. destruct (Hcl j) as (e & e' & H1 & H2 & H3); [lia|]. rewrite Hse in H1.
    exists e, e'. split_and!; [done..|].
    eapply (cloned_entry_mono _ _ (eq v) (fun _ => False) s s1 s' s'); [exact Hx1|apply ext_refl| | |done].
    + intros Hnz. destruct (fo_used _ (so_frames _ Hok) _ _ _ H1 Hnz). split; [lia|done].
    + destruct (decide (frame e' = 0)); [lia|]. destruct (fo_used _ Hok' _ _ _ H2); [done|lia].
Qed.

(** What slot [i] of the copy [dir] of [src] holds. *)
Definition slot_cloned s s' (src dir i : Z) : Prop :=
  exists t, dir_slot s src i = Some t /\
    ((t = 0 /\ dir_slot s' dir i = Some 0) \/
     (t <> 0 /\ dir_slot s (kernel_directory s) i = Some t /\ dir_slot s' dir i = Some t /\
      phys_slot s' dir i = phys_slot s src i) \/
     (t <> 0 /\ user_slot s src i = Some t /\
      exists t' ph, dir_slot s' dir i = Some t' /\ phys_slot s' dir i = Some (Z.lor ph USER_TABLE_FLAGS) /\
        fresh_tab s t' /\ cloned_table s s' t t')).

Lemma cloned_table_mono tx dx tx' dx' s0 s s1 s2 t t' :
  frames_ok s0 -> frames_ok s1 -> ext tx dx s0 s -> ext tx' dx' s1 s2 -> ~ tx t -> ~ tx' t' ->
  cloned_table s s1 t t' -> cloned_table s0 s2 t t'.
Proof.
  intros Ho0 Ho1 H01 H12 Ht Ht' Hc j Hj. destruct (Hc j Hj) as (e & e' & H1 & H2 & H3).
  rewrite (get_entry_ext _ _ _ _ _ _ H01 Ht) in H1. exists e, e'.
  rewrite (get_entry_ext _ _ _ _ _ _ H12 Ht'). split_and!; [done..|].
  eapply cloned_entry_mono; [exact H01|exact H12| | |done].
  - intros Hnz. destruct (fo_used _ Ho0 _ _ _ H1 Hnz). split; [lia|done].
  - destruct (decide (frame e' = 0)); [lia|]. destruct (fo_used _ Ho1 _ _ _ H2); [done|lia].
Qed.

(** One round of the loop of [clone_directory]. *)
Definition clone_slot (src dir i : Z) : M (pstate A) unit :=
  let! sd := get_dir src in
  let! st := get_or_fault (fun _ => aget (tables sd) i) in
  (if st =? 0 then ret tt
   else
     let! k := gets kernel_directory in
     let! kd := get_dir k in
     let! kt := get_or_fault (fun _ => aget (tables kd) i) in
     if kt =? st then
       let! sp := get_or_fault (fun _ => aget (physTabs sd) i) in
       put_slot dir i sp st
     else
       let! ' (t, phys) := clone_table st in
       put_slot dir i (Z.lor phys USER_TABLE_FLAGS) t).

Lemma clone_slots_S n src dir s :
  clone_slots (S n) src dir s = (do! clone_slot src dir (Z.of_nat n); clone_slots n src dir) s.
Proof.
  cbn [clone_slots]. unfold clone_slot, bind, get_dir, get_or_fault.
  by repeat case_match; simplify_eq.
Qed.

Lemma clone_slot_ok src dir i s n :
  space_ok s -> is_Some (pdirs s !! src) -> is_Some (pdirs s !! dir) -> 0 <= i < 1024 ->
  dir <> src -> dir <> kernel_directory s -> dir_slot s dir i = Some 0 ->
  let nt := match user_slot s src i with Some _ => 1%nat | None => 0%nat end in
  let np := match user_slot s src i with Some t => mapped_below s t 1024 | None => 0%nat end in
  room (alloc_state s) (nt + n) -> (np <= size (free_frames s))%nat ->
  exists s', clone_slot src dir i s = Ok (tt, s') /\ space_ok s' /\ room (alloc_state s') n /\
    (size (free_frames s') + np = size (free_frames s))%nat /\
    (forall x, live (alloc_state s) x -> live (alloc_state s') x) /\
    ext (fresh_tab s) (eq dir) s s' /\ slot_cloned s s' src dir i /\
    (forall j, j <> i -> dir_slot s' dir j = dir_slot s dir j /\ phys_slot s' dir j = phys_slot s dir j).
Proof.
  intros Hok [sd Hsd] [dd Hdd] Hi Hds Hdk Hd0 nt np Hroom Hsz.
  destruct (so_dir _ Hok _ _ Hsd) as [L1 L2].
  destruct (so_kdir _ Hok) as [kd Hkd]. destruct (so_dir _ Hok _ _ Hkd) as [L3 L4].
  destruct (aget_Some (tables sd) i) as [st Hst]; [lia|].
  destruct (aget_Some (physTabs sd) i) as [sp Hsp]; [lia|].
  destruct (aget_Some (tables kd) i) as [kt Hkt]; [lia|].
  assert (Hs1 : dir_slot s src i = Some st) by (unfold dir_slot; by rewrite Hsd).
  assert (Hs2 : phys_slot s src i = Some sp) by (unfold phys_slot; by rewrite Hsd).
  assert (Hs3 : dir_slot s (kernel_directory s) i = Some kt) by (unfold dir_slot; by rewrite Hkd).
  assert (Hus : user_slot s src i = if (st =? 0) || (kt =? st) then None else Some st)
    by (unfold user_slot; by rewrite Hs1, Hs3).
  unfold clone_slot. unfold bind at 1, get_dir at 1, get_or_fault at 1. rewrite Hsd.
  unfold bind at 1, get_or_fault at 1. rewrite Hst.
  destruct (st =? 0) eqn:E0.
  { subst nt np. rewrite Hus in Hroom, Hsz |- *. exists s. simpl in *.
    split_and!; try done; try lia; try apply ext_refl. exists st. split; [done|]. left. split; [lia|done]. }
  unfold bind at 1, gets, get_dir at 1. unfold bind at 1, get_or_fault at 1. rewrite Hkd.
  unfold bind at 1, get_or_fault at 1. rewrite Hkt.
  assert (Hst0 : st <> 0) by lia.
  pose proof (so_slot _ Hok _ _ _ Hs1 Hst0) as Hst_tab.
  destruct (kt =? st) eqn:E1.
  - unfold bind at 1, get_or_fault at 1. rewrite Hsp.
    destruct (put_slot_ok dir i sp st s dd Hok Hdd Hi)
      as (s' & Hp & Hp1 & Hp2 & Hp3 & Hp5 & Hp4 & Hp6 & Hp7 & Hp8 & Hp9 & Hp10 & Hp11 & Hpx).
    subst nt np. rewrite Hus in Hroom, Hsz |- *. exists s'. simpl in *. rewrite Hp8, Hp7.
    split_and!; try done; try lia; try by apply Hp6.
    + eapply (ext_trans _ _ (fun _ => False) (eq dir)); [| |exact Hpx|apply ext_refl]; tauto.
    + exists st. split; [done|]. right. left. split_and!; [done| |done|by rewrite Hp2, Hs2].
      rewrite Hs3. f_equal. lia.
    + intros j Hj. split; auto.
  - subst nt np. rewrite Hus in Hroom, Hsz |- *. cbn [orb] in *.
    destruct (clone_table_ok st s n Hok Hst_tab Hroom Hsz)
      as (s1 & t & ph & Hc & Hok1 & Hfr & Htab & Hr1 & Hcnt & Hl & Hx1 & Hcl).
    assert (Hdd1 : pdirs s1 !! dir = Some dd) by (rewrite (ext_dirs _ _ _ _ Hx1); [done|by intros []]).
    destruct (put_slot_ok dir i (Z.lor ph USER_TABLE_FLAGS) t s1 dd Hok1 Hdd1 Hi)
      as (s' & Hp & Hp1 & Hp2 & Hp3 & Hp5 & Hp4 & Hp6 & Hp7 & Hp8 & Hp9 & Hp10 & Hp11 & Hpx).
    exists s'. rewrite Hp8, Hp7.
    split_and!; try done.
    + unfold bind at 1. by rewrite Hc.
    + by apply Hp6.
    + eapply ext_trans; [| |exact Hx1|exact Hpx]; tauto.
    + exists st. split; [done|]. right. right. split_and!; [done..|]. exists t, (ph).
      split_and!; [done..|].
      eapply (cloned_table_mono (fun _ => False) (fun _ => False)); [apply Hok|apply Hok1|apply ext_refl|exact Hpx|tauto|tauto|done].
    + intros j Hj. rewrite Hp3, Hp5 by done. apply (ext_slot _ _ _ _ _ _ Hx1). by intros [].
Qed.

Lemma ext_fresh dx s s1 t : ext (fresh_tab s) dx s s1 -> fresh_tab s1 t -> fresh_tab s t.
Proof.
  intros He Hf. unfold fresh_tab in *. destruct (ptabs s !! t) eqn:E; [|done].
  rewrite (ext_tabs _ _ _ _ He) in Hf; [congruence|]. unfold fresh_tab. by rewrite E.
Qed.

Lemma is_Some_not_fresh s t : is_Some (ptabs s !! t) -> ~ fresh_tab s t.
Proof. unfold fresh_tab. intros [x ->]. done. Qed.

(** A slot copied by an earlier round keeps its copy. *)
Lemma slot_cloned_later s s1 s' src dir i :
  space_ok s -> space_ok s1 -> slot_cloned s s1 src dir i -> ext (fresh_tab s1) (eq dir) s1 s' ->
  dir_slot s' dir i = dir_slot s1 dir i -> phys_slot s' dir i = phys_slot s1 dir i ->
  slot_cloned s s' src dir i.
Proof.
  intros Hok Hok1 (t & Ht & Hc) Hx Hd Hp. exists t. split; [done|]. rewrite Hd, Hp.
  destruct Hc as [Hc|[Hc|(H1 & H2 & t' & ph & H3 & H4 & H5 & H6)]]; [by left|by right; left|].
  right. right. split_and!; [done..|]. exists t', ph. split_and!; [done..|].
  assert (Hx0 : ext (fun _ => False) (fun _ => False) s s) by apply ext_refl.
  assert (t' <> 0 \/ t' = 0) as [Hnz|Hz] by lia.
  - eapply (cloned_table_mono _ _ _ _ s s s1 s'); [apply Hok|apply Hok1|exact Hx0|exact Hx|by intros []| |done].
    apply is_Some_not_fresh. by eapply (so_slot _ Hok1).
  - destruct (H6 0 ltac:(lia)) as (e & e' & _ & He & _). unfold get_entry in He.
    eapply (cloned_table_mono _ _ _ _ s s s1 s'); [apply Hok|apply Hok1|exact Hx0|exact Hx|by intros []| |done].
    apply is_Some_not_fresh. destruct (ptabs s1 !! t'); [by eexists|done].
Qed.

(** A slot copied by a later round is a copy of the original. *)
Lemma slot_cloned_earlier s s1 s' src dir i :
  space_ok s -> space_ok s' -> slot_cloned s1 s' src dir i -> ext (fresh_tab s) (eq dir) s s1 ->
  dir <> src -> dir <> kernel_directory s -> slot_cloned s s' src dir i.
Proof.
  intros Hok Hok' (t & Ht & Hc) Hx Hds Hdk.
  destruct (ext_slot _ _ _ _ src i Hx Hds) as [E1 E2].
  destruct (ext_slot _ _ _ _ (kernel_directory s) i Hx Hdk) as [E3 _].
  rewrite E1 in Ht. exists t. split; [done|].
  rewrite (ext_kdir _ _ _ _ Hx), E2, E3, (ext_user_slot dir s s1) in Hc by done.
  destruct Hc as [Hc|[Hc|(H1 & H2 & t' & ph & H3 & H4 & H5 & H6)]]; [by left|by right; left|].
  right. right. split_and!; [done..|]. exists t', ph. split_and!; [done..|by eapply ext_fresh|].
  eapply (cloned_table_mono _ _ (fun _ => False) (fun _ => False)); [apply Hok|apply Hok'|exact Hx|apply ext_refl| |by intros []|done].
  apply is_Some_not_fresh. by eapply (so_slot _ Hok).
Qed.

Lemma ext_pdirs tx dir s s1 d : ext tx (eq dir) s s1 -> is_Some (pdirs s1 !! dir) ->
  is_Some (pdirs s !! d) -> is_Some (pdirs s1 !! d).
Proof.
  intros Hx Hd Hs. destruct (decide (dir = d)) as [<-|Hne]; [done|].
  by rewrite (ext_dirs _ _ _ _ Hx).
Qed.

Lemma dir_slot_pdir s d i t : dir_slot s d i = Some t -> is_Some (pdirs s !! d).
Proof. unfold dir_slot. destruct (pdirs s !! d); [by eexists|done]. Qed.

Lemma clone_slots_ok src dir r n s :
  space_ok s -> is_Some (pdirs s !! src) -> (0 < n)%nat \/ is_Some (pdirs s !! dir) -> (n <= 1024)%nat ->
  dir <> src -> dir <> kernel_directory s ->
  (forall j, 0 <= j < Z.of_nat n -> dir_slot s dir j = Some 0) ->
  room (alloc_state s) (user_tables s src n + r) -> (user_pages s src n <= size (free_frames s))%nat ->
  exists s', clone_slots n src dir s = Ok (tt, s') /\ space_ok s' /\ room (alloc_state s') r /\
    (size (free_frames s') + user_pages s src n = size (free_frames s))%nat /\
    (forall x, live (alloc_state s) x -> live (alloc_state s') x) /\
    ext (fresh_tab s) (eq dir) s s' /\
    (forall i, 0 <= i < Z.of_nat n -> slot_cloned s s' src dir i) /\
    (forall j, Z.of_nat n <= j ->
       dir_slot s' dir j = dir_slot s dir j /\ phys_slot s' dir j = phys_slot s dir j).
Proof.
  revert s. induction n as [|n IH]; intros s Hok Hsrc Hdir Hn Hds Hdk Hz Hroom Hsz.
  { exists s. cbn [user_pages user_tables] in *.
    split_and!; try done; try lia; try apply ext_refl; intros; lia. }
  clear Hdir. pose proof (Hz (Z.of_nat n) ltac:(lia)) as Hzn.
  pose proof (dir_slot_pdir _ _ _ _ Hzn) as Hdir.
  cbn [user_pages user_tables] in *. rewrite <- Nat.add_assoc in Hroom.
  destruct (clone_slot_ok src dir (Z.of_nat n) s (user_tables s src n + r) Hok Hsrc Hdir
              ltac:(lia) Hds Hdk Hzn) as (s1 & Hr1 & Hok1 & Hrm1 & Hc1 & Hl1 & Hx1 & Hcl & Hk1);
    [by destruct (user_slot s src (Z.of_nat n))|by destruct (user_slot s src (Z.of_nat n)); lia|].
  destruct (user_counts_ext dir s s1 src n Hok Hx1 Hds Hdk) as [Ht Hp].
  assert (Hdir1 : is_Some (pdirs s1 !! dir)).
  { destruct Hcl as (t & _ & [[_ H1]|[(_ & _ & H1 & _)|(_ & _ & t' & ph & H1 & _)]]);
      by eapply dir_slot_pdir. }
  destruct (IH s1) as (s' & Hr & Hok' & Hrm & Hc & Hl & Hx & Hcl' & Hk); try done.
  - by eapply ext_pdirs.
  - by right.
  - lia.
  - by rewrite (ext_kdir _ _ _ _ Hx1).
  - intros j Hj. rewrite (proj1 (Hk1 j ltac:(lia))). apply Hz. lia.
  - by rewrite Ht.
  - rewrite Hp. clear - Hc1 Hsz. lia.
  - exists s'. split_and!; try done.
    + rewrite clone_slots_S. unfold bind at 1. by rewrite Hr1.
    + rewrite Hp in Hc. clear - Hc Hc1. lia.
    + auto.
    + eapply ext_trans; [| |exact Hx1|exact Hx]; [|tauto]. intros t Hf. split; [done|].
      intros Hf1. by apply Hf, (ext_fresh (eq dir) s s1).
    + intros i Hi. destruct (decide (i = Z.of_nat n)) as [->|].
      * destruct (Hk (Z.of_nat n)) as [H1 H2]; [lia|]. by apply (slot_cloned_later s s1).
      * apply (slot_cloned_earlier s s1); try done. apply Hcl'. lia.
    + intros j Hj. destruct (Hk j ltac:(lia)) as [-> ->]. apply Hk1. lia.
Qed.

(** The state with the empty directory that [clone_directory] starts from. *)
Lemma new_dir_ok v ph s a' :
  space_ok s -> ~ live (alloc_state s) v -> v <> 0 -> live a' v ->
  (forall x, live (alloc_state s) x -> live a' x) ->
  exists s', put_dir v (PageDirectory empty_slots ph empty_slots) (set_alloc a' s) = Ok (tt, s') /\
    space_ok s' /\ pdirs s !! v = None /\ alloc_state s' = a' /\ free_frames s' = free_frames s /\
    (forall i, 0 <= i < 1024 -> dir_slot s' v i = Some 0) /\ is_Some (pdirs s' !! v) /\
    ext (fun _ => False) (eq v) s s'.
Proof.
  intros Hok Hl Hv Hl' Hmono. eexists. split; [done|].
  assert (Hfr : pdirs s !! v = None).
  { destruct (pdirs s !! v) eqn:E; [|done]. destruct Hl. apply (so_pdir _ Hok). by rewrite E. }
  set (s' := set_pdirs _ _).
  assert (Hne : forall d, d <> v -> pdirs s' !! d = pdirs s !! d).
  { intros d Hd. simpl. by rewrite lookup_insert_ne. }
  assert (Hz : forall i t, dir_slot s' v i = Some t -> t = 0).
  { intros i t. unfold dir_slot, s'. simpl. rewrite lookup_insert_eq. simpl.
    intros [_ Hx]%aget_inv. by apply lookup_replicate in Hx as [-> _]. }
  destruct Hok as [Hf Hpt Hpd Hdir Hslot Hk].
  split_and!; try done.
  - constructor.
    + destruct Hf. by constructor.
    + intros x Hx. destruct (Hpt x Hx). auto.
    + intros x Hx. simpl in Hx. apply lookup_insert_is_Some' in Hx as [<-|Hx]; [done|].
      destruct (Hpd x Hx). auto.
    + intros d dir. destruct (decide (d = v)) as [->|]; [|rewrite Hne by done; apply Hdir].
      simpl. rewrite lookup_insert_eq. by intros [= <-].
    + intros d i t. destruct (decide (d = v)) as [->|]; [by intros ->%Hz|].
      unfold dir_slot. rewrite Hne by done. apply Hslot.
    + simpl. apply lookup_insert_is_Some'. by right.
  - intros i Hi. unfold dir_slot, s'. simpl. rewrite lookup_insert_eq. simpl.
    unfold aget. zcond. apply lookup_replicate_2. lia.
  - simpl. rewrite lookup_insert_eq. by eexists.
  - constructor; try done. intros d Hd. apply Hne. naive_solver.
Qed.


(** *** Releasing an address space *)

(** [fm'] is [fm] without the frames [F]. *)
Definition released (F : Z -> Prop) (fm fm' : list Z) : Prop :=
  forall m, 0 <= m -> used fm' m = true <-> used fm m = true /\ ~ F m.

Definition table_frames s (t : Z) (n : nat) (m : Z) : Prop :=
  exists j e, 0 <= j < Z.of_nat n /\ get_entry t j s = Some e /\ frame e = m /\ m <> 0.

(** Frames in range: all that [free_table] needs to stay inside the bitmap. *)
Definition frames_in_range s : Prop :=
  fm_ok (framecount s) (framemap s) /\
  (forall t tab, ptabs s !! t = Some tab -> length tab = 1024%nat) /\
  (forall t i e, get_entry t i s = Some e -> 0 <= frame e < 32 * (framecount s / 32)).

Lemma table_frames_S s t n e m : get_entry t (Z.of_nat n) s = Some e ->
  table_frames s t (S n) m <-> (m = frame e /\ m <> 0) \/ table_frames s t n m.
Proof.
  intros Hge. split.
  - intros (j & e0 & Hj & Hg & Hf & Hz). destruct (decide (j = Z.of_nat n)) as [->|].
    + rewrite Hge in Hg. injection Hg as <-. by left.
    + right. exists j, e0. split_and!; [lia|lia|done..].
  - intros [[-> Hz]|(j & e0 & Hj & Hg & Hf & Hz)].
    + exists (Z.of_nat n), e. split_and!; [lia|lia|done..].
    + exists j, e0. split_and!; [lia|lia|done..].
Qed.

Lemma set_framemap_same s : set_framemap (framemap s) s = s.
Proof. by destruct s. Qed.

Lemma free_entries_ok n t s :
  frames_in_range s -> is_Some (ptabs s !! t) -> (n <= 1024)%nat ->
  exists fm, free_entries n t s = Ok (tt, set_framemap fm s) /\ fm_ok (framecount s) fm /\
    released (table_frames s t n) (framemap s) fm.
Proof.
  intros Hr [tab Htab]. revert s Hr Htab. induction n as [|n IH]; intros s Hr Htab Hn.
  { exists (framemap s). rewrite set_framemap_same. split_and!; [done|apply Hr|].
    intros m Hm. split; [|tauto]. intros H1. split; [done|]. intros (j & e & Hj & _). lia. }
  pose proof Hr as (Hfm & Hlen & Hfr).
  destruct (aget_Some tab (Z.of_nat n)) as [e He]; [rewrite (Hlen _ _ Htab); lia|].
  assert (Hge : get_entry t (Z.of_nat n) s = Some e) by (unfold get_entry; by rewrite Htab).
  cbn [free_entries]. unfold bind at 1, get_or_fault at 1. rewrite Hge.
  destruct (frame e =? 0) eqn:E; cbn [negb].
  - destruct (IH s Hr Htab ltac:(lia)) as (fm & H1 & H2 & H3). exists fm. split_and!; [done..|].
    intros m Hm. rewrite (H3 m Hm), (table_frames_S _ _ _ _ _ Hge). split; [|tauto].
    intros [H4 H5]. split; [done|]. intros [[-> Hz]|]; [lia|tauto].
  - destruct (fm_clear_spec _ _ (frame e) Hfm (Hfr _ _ _ Hge)) as (fm1 & Hc & Hok1 & Hu).
    unfold bind at 1, upd_or_fault. rewrite Hc. cbn [mbind option_bind].
    destruct (IH (set_framemap fm1 s)) as (fm & H1 & H2 & H3); [done..|lia|].
    exists fm. rewrite H1. split_and!; [done..|]. intros m Hm. rewrite (H3 m Hm).
    rewrite (table_frames_S _ _ _ _ _ Hge). cbn [framemap set_framemap].
    rewrite Hu, andb_true_iff, negb_true_iff by done.
    replace (table_frames (set_framemap fm1 s) t n m) with (table_frames s t n m) by done.
    split.
    + intros ((H4 & H5) & H6). split; [done|]. intros [[-> Hz]|]; [lia|tauto].
    + intros (H5 & H6). split; [split; [|done]|tauto].
      destruct (decide (m = frame e)) as [->|]; [|lia]. destruct H6. left. split; [done|lia].
Qed.

(** The own tables of a directory in its slots below [n]: distinct objects,
    apart from the directory itself. *)
Record own_tables s (dir : Z) (n : nat) : Prop := {
  ot_tab i t : 0 <= i < Z.of_nat n -> user_slot s dir i = Some t ->
    is_Some (ptabs s !! t) /\ live (alloc_state s) t;
  ot_inj i j t : 0 <= i < Z.of_nat n -> 0 <= j < Z.of_nat n ->
    user_slot s dir i = Some t -> user_slot s dir j = Some t -> i = j;
  ot_dir i : user_slot s dir i <> Some dir }.

(** The frames mapped by the own tables of [dir] in its slots below [n]. *)
Definition own_frames s (dir : Z) (n : nat) (m : Z) : Prop :=
  exists i t, 0 <= i < Z.of_nat n /\ user_slot s dir i = Some t /\ table_frames s t 1024 m.

Definition own_below s (dir : Z) (n : nat) (t : Z) : Prop :=
  exists i, 0 <= i < Z.of_nat n /\ user_slot s dir i = Some t.

Lemma free_table_ok t s :
  frames_in_range s -> is_Some (ptabs s !! t) -> live (alloc_state s) t ->
  exists s', free_table t s = Ok (tt, s') /\ frames_in_range s' /\
    released (table_frames s t 1024) (framemap s) (framemap s') /\
    ptabs s' = delete t (ptabs s) /\ pdirs s' = pdirs s /\ kernel_directory s' = kernel_directory s /\
    (forall x, x <> t -> live (alloc_state s) x -> live (alloc_state s') x).
Proof.
  intros Hr Ht Hl. destruct (free_entries_ok 1024 t s Hr Ht ltac:(done)) as (fm & H1 & H2 & H3).
  set (s1 := set_ptabs (delete t (ptabs s)) (set_framemap fm s)).
  destruct (free_ok s1 t Hl) as (a' & H4 & H5).
  exists (set_alloc a' s1). split.
  { unfold free_table. unfold bind at 1. rewrite H1. unfold bind, modify. exact H4. }
  destruct Hr as (_ & Hlen & Hfr). split_and!; try done. split_and!; [done| |].
  - intros x tab. simpl. intros Hx. apply lookup_delete_Some in Hx as [_ Hx]. by apply Hlen in Hx.
  - intros x i e. unfold get_entry. simpl. destruct (delete t (ptabs s) !! x) as [tab|] eqn:E; [|done].
    apply lookup_delete_Some in E as [_ E]. simpl. intros Hi. apply (Hfr x i). unfold get_entry. by rewrite E.
Qed.

(** One round of the loop of [free_directory]. *)
Lemma free_slots_S n dir s dd kd t kt : pdirs s !! dir = Some dd ->
  pdirs s !! kernel_directory s = Some kd -> aget (tables dd) (Z.of_nat n) = Some t ->
  aget (tables kd) (Z.of_nat n) = Some kt ->
  free_slots (S n) dir s =
  (do! (if (t =? 0) || (kt =? t) then ret tt else free_table t); free_slots n dir) s.
Proof.
  intros Hd Hk Ht Hkt. cbn [free_slots]. unfold bind at 1, get_dir at 1, get_or_fault at 1.
  rewrite Hd. unfold bind at 1, get_or_fault at 1. rewrite Ht. destruct (t =? 0); [done|].
  unfold bind at 1 2, gets. unfold bind at 1, get_dir, get_or_fault. rewrite Hk.
  unfold bind at 1. rewrite Hkt. by destruct (kt =? t).
Qed.

Lemma same_dirs_slot s s' d i : pdirs s' = pdirs s -> kernel_directory s' = kernel_directory s ->
  user_slot s' d i = user_slot s d i.
Proof. intros H1 H2. unfold user_slot, dir_slot. by rewrite H1, H2. Qed.

Lemma table_frames_same s s' t n m : ptabs s' !! t = ptabs s !! t ->
  table_frames s' t n m <-> table_frames s t n m.
Proof. intros Ht. unfold table_frames, get_entry. by rewrite Ht. Qed.

Lemma own_below_S s dir n x : own_below s dir (S n) x <->
  user_slot s dir (Z.of_nat n) = Some x \/ own_below s dir n x.
Proof.
  split.
  - intros (i & Hi & Hx). destruct (decide (i = Z.of_nat n)) as [->|]; [by left|].
    right. exists i. split; [lia|done].
  - intros [Hx|(i & Hi & Hx)]; [exists (Z.of_nat n)|exists i]; (split; [lia|done]).
Qed.

Lemma own_frames_S s dir n m : own_frames s dir (S n) m <->
  (exists t, user_slot s dir (Z.of_nat n) = Some t /\ table_frames s t 1024 m) \/ own_frames s dir n m.
Proof.
  split.
  - intros (i & t & Hi & Hx & Hf). destruct (decide (i = Z.of_nat n)) as [->|]; [left; by exists t|].
    right. exists i, t. split_and!; [lia|lia|done..].
  - intros [(t & Hx & Hf)|(i & t & Hi & Hx & Hf)]; [exists (Z.of_nat n), t|exists i, t];
      (split_and!; [lia|lia|done..]).
Qed.

Lemma own_frames_same s s' dir n m :
  (forall i, user_slot s' dir i = user_slot s dir i) ->
  (forall t, own_below s dir n t -> ptabs s' !! t = ptabs s !! t) ->
  own_frames s' dir n m <-> own_frames s dir n m.
Proof.
  intros Hu Ht. split; intros (i & t & Hi & Hs & Hf).
  - rewrite Hu in Hs. exists i, t. split_and!; [lia|lia|done|].
    apply (table_frames_same s s'); [|done]. apply Ht. by exists i.
  - exists i, t. rewrite Hu. split_and!; [lia|lia|done|].
    apply (table_frames_same s s'); [|done]. apply Ht. by exists i.
Qed.

Lemma free_slots_ok n dir dd kd s :
  frames_in_range s -> own_tables s dir n -> pdirs s !! dir = Some dd ->
  pdirs s !! kernel_directory s = Some kd -> length (tables dd) = 1024%nat ->
  length (tables kd) = 1024%nat -> (n <= 1024)%nat ->
  exists s', free_slots n dir s = Ok (tt, s') /\
    released (own_frames s dir n) (framemap s) (framemap s') /\
    (forall t, ~ own_below s dir n t -> ptabs s' !! t = ptabs s !! t) /\
    pdirs s' = pdirs s /\ kernel_directory s' = kernel_directory s /\
    (forall x, ~ own_below s dir n x -> live (alloc_state s) x -> live (alloc_state s') x).
Proof.
  intros Hr Hown Hdd Hkd L1 L2. revert s Hr Hown Hdd Hkd.
  induction n as [|n IH]; intros s Hr Hown Hdd Hkd Hn.
  { exists s. split_and!; try done. intros m Hm. split; [|tauto]. intros H1. split; [done|].
    intros (i & t & Hi & _). lia. }
  destruct (aget_Some (tables dd) (Z.of_nat n)) as [t Ht]; [lia|].
  destruct (aget_Some (tables kd) (Z.of_nat n)) as [kt Hkt]; [lia|].
  rewrite (free_slots_S n dir s dd kd t kt) by done.
  assert (Hus : user_slot s dir (Z.of_nat n) = if (t =? 0) || (kt =? t) then None else Some t).
  { unfold user_slot, dir_slot. rewrite Hdd, Hkd. simpl. by rewrite Ht, Hkt. }
  destruct ((t =? 0) || (kt =? t)) eqn:E.
  - destruct (IH s Hr) as (s' & H1 & H2 & H3 & H4 & H5 & H6); [|done..|lia|].
    { destruct Hown as [O1 O2 O3]. constructor; [|intros; eapply O2; eauto; lia|done].
      intros i x Hi. apply O1. lia. }
    exists s'. split_and!; try done.
    + intros m Hm. rewrite (H2 m Hm), own_frames_S, Hus. split; [|tauto].
      intros [H7 H8]. split; [done|]. intros [(? & ? & _)|]; done.
    + intros x Hx. apply H3. rewrite own_below_S in Hx. tauto.
    + intros x Hx. apply H6. rewrite own_below_S in Hx. tauto.
  - destruct (ot_tab _ _ _ Hown (Z.of_nat n) t ltac:(lia) Hus) as [Htab Hlive].
    destruct (free_table_ok t s Hr Htab Hlive) as (s1 & F1 & F2 & F3 & F4 & F5 & F6 & F7).
    assert (Hsame : forall i, user_slot s1 dir i = user_slot s dir i)
      by (intros; by apply same_dirs_slot).
    assert (Hnt : ~ own_below s dir n t).
    { intros (i & Hi & Hx). enough (i = Z.of_nat n) by lia.
      apply (ot_inj _ _ _ Hown _ _ t); done || lia. }
    assert (Hpt : forall x, own_below s dir n x -> ptabs s1 !! x = ptabs s !! x).
    { intros x Hx. rewrite F4. apply lookup_delete_ne. intros ->. done. }
    assert (Hob : forall x, own_below s1 dir n x <-> own_below s dir n x).
    { intros x. unfold own_below. by setoid_rewrite Hsame. }
    destruct (IH s1 F2) as (s' & H1 & H2 & H3 & H4 & H5 & H6); [|by rewrite F5|by rewrite F5, F6|lia|].
    { destruct Hown as [O1 O2 O3]. constructor.
      - intros i x Hi. rewrite Hsame. intros Hx. destruct (O1 i x ltac:(lia) Hx) as [O4 O5].
        assert (Hb : own_below s dir n x) by (exists i; split; [lia|done]).
        rewrite Hpt by done. split; [done|]. apply F7; [|done]. intros ->. done.
      - intros i j x Hi Hj. rewrite !Hsame. apply O2; lia.
      - intros i. rewrite Hsame. apply O3. }
    exists s'. rewrite H4, H5. split_and!; try done.
    + unfold bind at 1. by rewrite F1.
    + intros m Hm. rewrite (H2 m Hm), (F3 m Hm), own_frames_S, (own_frames_same s s1) by done.
      rewrite Hus. split.
      * intros ((H7 & H8) & H9). split; [done|]. intros [(x & [= <-] & Hx)|]; done.
      * intros (H7 & H8). split; [split; [done|]|tauto]. intros Hf. apply H8. left. by exists t.
    + intros x Hx. rewrite own_below_S, Hus in Hx. rewrite H3 by (rewrite Hob; tauto).
      rewrite F4. apply lookup_delete_ne. intros ->. tauto.
    + intros x Hx Hl. rewrite own_below_S, Hus in Hx. apply H6; [rewrite Hob; tauto|].
      apply F7; [|done]. intros ->. tauto.
Qed.

Lemma space_frames_in_range s : space_ok s -> frames_in_range s.
Proof.
  intros Hok. destruct (so_frames _ Hok) as [Hm _ Hl _ Hu _]. split_and!; try done; try apply Hm.
  intros t i e He. pose proof Hm as (_ & ? & ?).
  destruct (decide (frame e = 0)) as [->|Hz]; [|destruct (Hu _ _ _ He Hz); lia].
  pose proof (fo_zero _ (so_frames _ Hok)) as Hu0. unfold is_used, used in Hu0.
  destruct (aget (framemap s) (0 / 32)) as [w|] eqn:E; [|done]. apply aget_inv in E as [E _]. lia.
Qed.


End spaces.

(** ** The boot allocator

    Before the heap exists [_kmalloc_base] of mm.c hands out the memory above
    [kmalloc_pos], and [free] does nothing. *)
Definition kmalloc_boot (sz : Z) : M (pstate Z) (Z * Z) :=
  let! kmalloc_pos := gets alloc_state in
  let kmalloc_pos := ASSERT_ALIGN kmalloc_pos in
  do! modify (set_alloc (u32 (kmalloc_pos + sz)));
  ret (kmalloc_pos, kmalloc_pos).

#[export] Instance boot_alloc : KAlloc Z := {
  _kmalloc sz :=
    let! kmalloc_pos := gets alloc_state in
    do! modify (set_alloc (u32 (kmalloc_pos + sz)));
    ret kmalloc_pos;
  _kmalloc_pa := kmalloc_boot;
  free _ := ret tt }.

Lemma ASSERT_ALIGN_spec v : 0 <= v < 4294963200 ->
  v <= ASSERT_ALIGN v < v + FRAME_SIZE /\ ASSERT_ALIGN v mod FRAME_SIZE = 0.
Proof.
  intros Hv. unfold ASSERT_ALIGN, CHECK_ALIGN, FRAME_SIZE.
  change 0x00000FFF with (Z.ones 12). rewrite Z.land_ones by lia. change (2 ^ 12) with 4096.
  assert (E : Z.land v 0xFFFFF000 = v / 4096 * 4096).
  { replace (v / 4096 * 4096) with (Z.shiftl (Z.shiftr v 12) 12)
      by (rewrite Z.shiftl_mul_pow2, Z.shiftr_div_pow2 by lia; done).
    apply Z.bits_inj'. intros k Hk. rewrite Z.land_spec, Z.shiftl_spec by lia.
    destruct (decide (k < 12)).
    - rewrite (Z.testbit_neg_r _ (k - 12)) by lia.
      assert (Hlow : Z.testbit 0xFFFFF000 k = false); [|by rewrite Hlow, andb_false_r].
      change 0xFFFFF000 with (Z.shiftl 0xFFFFF 12). rewrite Z.shiftl_spec by lia.
      apply Z.testbit_neg_r. lia.
    - rewrite Z.shiftr_spec by lia. replace (k - 12 + 12) with k by lia.
      destruct (decide (k < 32)).
      + assert (Hmid : Z.testbit 0xFFFFF000 k = true); [|by rewrite Hmid, andb_true_r].
        change 0xFFFFF000 with (Z.shiftl (Z.ones 20) 12). rewrite Z.shiftl_spec by lia.
        apply Z.ones_spec_low. lia.
      + rewrite (bits_high v 32) by lia. done. }
  rewrite E. case_cond; [rewrite u32_id by lia|]; lia.
Qed.

#[export] Program Instance boot_alloc_laws : KAllocLaws Z := {
  live pos x := 0 <= x < pos;
  room pos n := 0 < pos /\ pos + Z.of_nat n * 12292 < 4294950000 }.
Next Obligation.
  intros s sz n Hsz [Hp Hr]. unfold sizeof_page_directory in Hsz.
  destruct (ASSERT_ALIGN_spec (alloc_state s)) as [Ha _]; [lia|]. unfold FRAME_SIZE in Ha.
  exists (ASSERT_ALIGN (alloc_state s)), (ASSERT_ALIGN (alloc_state s)),
    (u32 (ASSERT_ALIGN (alloc_state s) + sz)).
  rewrite u32_id by lia. split_and!; try lia.
  simpl. unfold kmalloc_boot, bind, gets, modify, ret. by rewrite u32_id by lia.
Qed.
Next Obligation.
  intros s v Hv. exists (alloc_state s). split; [by destruct s|done].
Qed.

(** ** Single pages *)

Section pages.
Context {A : Type} `{KAlloc A}.
Implicit Types s : pstate A.

(** The entry that [address] names in directory [d]. *)
Definition page_of s (d address : Z) : option (Z * Z) :=
  dir ← pdirs s !! d; t ← aget (tables dir) (address / FRAME_SIZE / 1024);
  Some (t, address / FRAME_SIZE mod 1024).

Definition has_table s (d address : Z) : Prop :=
  exists dir pt, pdirs s !! d = Some dir /\
    aget (physTabs dir) (address / FRAME_SIZE / 1024) = Some pt /\ pt <> 0.

(** Mapping an address that is already mapped changes neither its frame nor
    its flags: where two ranges of [setup_paging] meet, the page both name
    ([MAP_MEMORY] includes its end) keeps the flags of the first. *)
Theorem make_page_keeps_mapping address fl d s t i e :
  has_table s d address -> page_of s d address = Some (t, i) -> get_entry t i s = Some e ->
  frame e <> 0 -> is_Some (first_frame (framecount s) (framemap s)) ->
  make_page address fl d true s = Ok ((t, i), s).
Proof.
  intros (dir & pt & Hd & Hpt & Hnz) Hp He Hf [f Hff]. unfold page_of in Hp. rewrite Hd in Hp.
  simpl in Hp. destruct (aget (tables dir) _) as [t'|] eqn:Et; [|done]. injection Hp as -> <-.
  unfold make_page, bind, entry_of, get_dir, get_or_fault, alloc_frame, ret, bind, get_or_fault.
  rewrite Hd, Hpt. replace (pt =? 0) with false by lia. rewrite Hd, Et, Hff, He.
  by replace (frame e =? 0) with false by lia.
Qed.

(** [free_page] gives the frame back but leaves the entry's flags: a freed
    page that was present stays present and names frame 0. *)
Theorem free_page_stays_present address d s t i e :
  has_table s d address -> page_of s d address = Some (t, i) -> get_entry t i s = Some e ->
  frame e <> 0 -> frames_in_range s ->
  exists s', free_page address d s = Ok (Some (t, i), s') /\
    get_entry t i s' = Some (Page (flags e) 0) /\ used (framemap s') (frame e) = false.
Proof.
  intros (dir & pt & Hd & Hpt & Hnz) Hp He Hf (Hm & _ & Hr). unfold page_of in Hp. rewrite Hd in Hp.
  simpl in Hp. destruct (aget (tables dir) _) as [t'|] eqn:Et; [|done]. injection Hp as -> <-.
  destruct (put_entry_Some t _ (Page (flags e) 0) e s He) as [s1 Hs1].
  destruct (get_put_entry _ _ _ _ _ Hs1) as (tab & tab' & _ & _ & -> & Hg).
  pose proof (Hr _ _ _ He) as Hfr.
  destruct (fm_clear_spec _ _ (frame e) Hm Hfr) as (fm & Hfm & _ & Hu).
  eexists. unfold free_page, bind, entry_of, get_dir, get_or_fault, ret, bind.
  rewrite Hd, Hpt. replace (pt =? 0) with false by lia. rewrite Hd, Et.
  unfold free_frame, bind, get_or_fault, upd_or_fault. rewrite He, Hs1.
  replace (frame e =? 0) with false by lia. cbn [negb framemap set_ptabs]. rewrite Hfm.
  cbn [mbind option_bind]. split; [done|]. split.
  - etrans; [exact (Hg t _)|]. by rewrite decide_True.
  - cbn [framemap set_framemap]. rewrite Hu by lia. by rewrite Z.eqb_refl.
Qed.

(** With every frame taken [first_frame] answers 0xFFFFFFFF, which
    [alloc_frame] does not test: it then writes outside the bitmap. *)
Theorem alloc_frame_exhausted t i fl s e :
  fm_ok (framecount s) (framemap s) -> free_frames s = ∅ ->
  get_entry t i s = Some e -> frame e = 0 -> alloc_frame t i fl s = Fault.
Proof.
  intros Hm Hfree He Hz. unfold free_frames in Hfree.
  destruct (first_frame_spec _ _ Hm) as [[Hff _]|(f & _ & Hf & Hu & _)].
  - destruct (put_entry_Some t i (Page (fl mod 4096) (0xFFFFFFFF mod 1048576)) e s He) as [s1 Hs1].
    destruct (get_put_entry _ _ _ _ _ Hs1) as (tab & tab' & _ & _ & -> & _).
    unfold alloc_frame, bind, get_or_fault, upd_or_fault. rewrite Hff, He, Hz. simpl (negb _).
    cbv iota beta. rewrite Hs1. cbn [framemap set_ptabs]. unfold fm_set.
    destruct (aget (framemap s) (0xFFFFFFFF / 32)) eqn:E; [|done].
    apply aget_inv in E as [E _]. destruct Hm as (_ & Hl & Hc). lia.
  - exfalso. assert (f ∈ free_set (framecount s) (framemap s)) as Hin by (by apply elem_free_set).
    rewrite Hfree in Hin. set_solver.
Qed.
End pages.

(** ** A concrete machine: one process with one mapped page *)

Definition sample_tab : list page := <[0%nat := Page 7 5]> empty_table.
Definition sample_src : page_directory :=
  PageDirectory (<[1%nat := 0x2007]> empty_slots) 0x3000 (<[1%nat := 0x2000]> empty_slots).
Definition sample_kdir : page_directory := PageDirectory empty_slots 0x1000 empty_slots.
Definition sample : pstate Z :=
  PState 1024 (33 :: replicate 31 0) {[ 0x2000 := sample_tab ]}
    (<[0x1000 := sample_kdir]> {[ 0x3000 := sample_src ]}) 0x1000 0x3000
    {[ 5 := replicate 1024 42 ]} 0x8000.

Lemma sample_entry t i e : get_entry t i sample = Some e ->
  (t = 0x2000 /\ i = 0 /\ e = Page 7 5) \/ e = page_zero.
Proof.
  unfold get_entry. cbn [ptabs sample]. destruct (decide (t = 0x2000)) as [->|Hne].
  - rewrite lookup_singleton_eq. cbn [mbind option_bind]. intros [Hi Hx]%aget_inv.
    unfold sample_tab in Hx. destruct (decide (i = 0)) as [->|Hi0].
    + rewrite list_lookup_insert_eq in Hx by (vm_compute; lia). left. by injection Hx as <-.
    + rewrite list_lookup_insert_ne in Hx by lia. right.
      by apply lookup_replicate in Hx as [-> _].
  - by rewrite lookup_singleton_ne.
Qed.

Lemma sample_slot d i t : dir_slot sample d i = Some t ->
  t = 0 \/ (t = 0x2000 /\ d = 0x3000 /\ i = 1).
Proof.
  unfold dir_slot. cbn [pdirs sample].
  assert (Hz : forall i t, aget empty_slots i = Some t -> t = 0).
  { intros j x [_ Hx]%aget_inv. by apply lookup_replicate in Hx as [-> _]. }
  destruct (decide (d = 0x1000)) as [->|Hne].
  { rewrite lookup_insert_eq. cbn [mbind option_bind tables sample_kdir]. intros Hx. left. by eapply Hz. }
  rewrite lookup_insert_ne by done. destruct (decide (d = 0x3000)) as [->|Hne2].
  - rewrite lookup_singleton_eq. cbn [mbind option_bind tables sample_src]. intros [Hi Hx]%aget_inv.
    destruct (decide (i = 1)) as [->|Hi1].
    + rewrite list_lookup_insert_eq in Hx by (vm_compute; lia). injection Hx as <-. by right.
    + rewrite list_lookup_insert_ne in Hx by lia. left.
      by apply lookup_replicate in Hx as [-> _].
  - by rewrite lookup_singleton_ne.
Qed.

Lemma sample_ok : space_ok sample.
Proof.
  constructor.
  - constructor.
    + split_and!; [|done..]. unfold words, sample. cbn [framemap].
      constructor; [lia|]. apply Forall_replicate. lia.
    + vm_compute. done.
    + intros t tab. cbn [ptabs sample]. intros [_ <-]%lookup_singleton_Some. vm_compute. done.
    + intros t i e He. destruct (sample_entry t i e He) as [(_ & _ & ->)| ->]; simpl; lia.
    + intros t i e He. destruct (sample_entry t i e He) as [(_ & _ & ->)| ->]; [|done].
      intros _. split; [simpl; lia|vm_compute; done].
    + intros t1 i1 e1 t2 i2 e2 H1 H2 Heq Hnz.
      destruct (sample_entry _ _ _ H1) as [(-> & -> & ->)| ->]; [|done].
      destruct (sample_entry _ _ _ H2) as [(-> & -> & ->)| ->]; done.
  - intros x. cbn [ptabs sample]. rewrite lookup_singleton_is_Some. intros <-. simpl. lia.
  - intros x. cbn [pdirs sample]. rewrite lookup_insert_is_Some', lookup_singleton_is_Some.
    intros [<-|<-]; simpl; lia.
  - intros d dir. cbn [pdirs sample]. intros [[_ <-]|[_ [_ <-]%lookup_singleton_Some]]%lookup_insert_Some;
      vm_compute; done.
  - intros d i t Hs Ht. destruct (sample_slot d i t Hs) as [->|[-> _]]; [done|].
    cbn [ptabs sample]. rewrite lookup_singleton_eq. by eexists.
  - cbn [pdirs sample kernel_directory]. rewrite lookup_insert_eq. by eexists.
Qed.



Lemma make_page_keeps_mapping_witness :
  make_page 0x400000 2 0x3000 true sample = Ok ((0x2000, 0), sample).
Proof.
  apply (make_page_keeps_mapping 0x400000 2 0x3000 sample 0x2000 0 (Page 7 5)).
  - exists sample_src, 0x2007. vm_compute. split; [reflexivity|]. split; [reflexivity|discriminate].
  - vm_compute. reflexivity.
  - vm_compute. reflexivity.
  - discriminate.
  - vm_compute. eexists. reflexivity.
Defined.

Lemma free_page_stays_present_witness :
  exists s', free_page 0x400000 0x3000 sample = Ok (Some (0x2000, 0), s') /\
    get_entry 0x2000 0 s' = Some (Page 7 0).
Proof.
  destruct (free_page_stays_present 0x400000 0x3000 sample 0x2000 0 (Page 7 5)) as (s' & H1 & H2 & _).
  - exists sample_src, 0x2007. vm_compute. split; [reflexivity|]. split; [reflexivity|discriminate].
  - vm_compute. reflexivity.
  - vm_compute. reflexivity.
  - discriminate.
  - exact (space_frames_in_range _ sample_ok).
  - exists s'. split; [exact H1|exact H2].
Defined.

(** The same machine with every frame taken. *)
Definition sample_full : pstate Z := set_framemap (replicate 32 0xFFFFFFFF) sample.

Lemma alloc_frame_exhausted_witness : alloc_frame 0x2000 1 7 sample_full = Fault.
Proof.
  apply (alloc_frame_exhausted 0x2000 1 7 sample_full page_zero).
  - split; [|split; [reflexivity|simpl; lia]]. unfold words. apply Forall_replicate. lia.
  - vm_compute. reflexivity.
  - vm_compute. reflexivity.
  - reflexivity.
Defined.
