(* ===== verification/Heap.v ===== *)
(** * The kernel heap: [src/src/mm/mm.c]

    The allocator as the code has it: headers, footers and the sorted index of
    holes are words in the kernel's memory, a [gmap] of bytes in which an absent
    byte is not mapped.  Blocks have any size, so headers lie at any address.
    The heap grows through [make_page], which itself asks the allocator for
    page tables: the operations take [mkpage] and [rmpage] as arguments, and
    [kalloc_heap] ties the knot with fuel. *)
From S2P Require Import Prelude Paging.
Open Scope nup_scope.

Definition MM_MAGIC : Z := 0x68747552.
Definition MM_KHEAP_MIN : Z := 0x100000.
Definition MM_INDEX_COUNT : Z := 0x800.
Definition MM_FLAG_BLOCK : Z := 0.
Definition MM_FLAG_HOLE : Z := 1.
(** [-1], compared with a [UINT]. *)
Definition MM_NO_HOLE : Z := 0xFFFFFFFF.
Definition sizeof_mm_header : Z := 8.
Definition sizeof_mm_footer : Z := 8.
Definition sizeof_heap : Z := 28.

(** [aheap->entries] is the address of the index. *)
Record heap := Heap {
  entries : Z; entrycount : Z; maxentries : Z; start : Z; end_ : Z; memend : Z; pageflags : Z }.

Record heap_state := HeapState { hmem : gmap Z Z; kheap : option heap; kmalloc_pos : Z }.

(** ** Memory *)

Definition load32 (m : gmap Z Z) (p : Z) : option Z :=
  a ← m !! u32 p; b ← m !! u32 (p + 1); c ← m !! u32 (p + 2); d ← m !! u32 (p + 3);
  Some (a + b * 0x100 + c * 0x10000 + d * 0x1000000).

Definition put_byte (m : gmap Z Z) (p b : Z) : option (gmap Z Z) :=
  _ ← m !! u32 p; Some (<[u32 p := b]> m).

Definition store32 (m : gmap Z Z) (p v : Z) : option (gmap Z Z) :=
  m ← put_byte m p (v mod 0x100); m ← put_byte m (p + 1) (v / 0x100 mod 0x100);
  m ← put_byte m (p + 2) (v / 0x10000 mod 0x100); put_byte m (p + 3) (v / 0x1000000 mod 0x100).

Local Abbreviation HM := (M (pstate heap_state)).

Definition set_hmem (m : gmap Z Z) (s : pstate heap_state) : pstate heap_state :=
  set_alloc (HeapState m (kheap (alloc_state s)) (kmalloc_pos (alloc_state s))) s.
Definition set_kheap (h : heap) (s : pstate heap_state) : pstate heap_state :=
  set_alloc (HeapState (hmem (alloc_state s)) (Some h) (kmalloc_pos (alloc_state s))) s.
Definition set_kmalloc_pos (p : Z) (s : pstate heap_state) : pstate heap_state :=
  set_alloc (HeapState (hmem (alloc_state s)) (kheap (alloc_state s)) p) s.

Definition load (p : Z) : HM Z := get_or_fault (fun s => load32 (hmem (alloc_state s)) p).
Definition store (p v : Z) : HM unit :=
  upd_or_fault (fun s => m ← store32 (hmem (alloc_state s)) p v; Some (set_hmem m s)).

(** [mm_header] is the magic and a word with the 31 bits of the size below the
    flag; [mm_footer] is the magic and the header's address. *)
Definition get_magic (p : Z) : HM Z := load p.
Definition set_magic (p v : Z) : HM unit := store p v.
Definition get_size (p : Z) : HM Z := let! w := load (p + 4) in ret (w mod 0x80000000).
Definition get_flag (p : Z) : HM Z := let! w := load (p + 4) in ret (w / 0x80000000).
Definition set_size (p v : Z) : HM unit :=
  let! w := load (p + 4) in store (p + 4) (v mod 0x80000000 + w / 0x80000000 * 0x80000000).
Definition set_flag (p v : Z) : HM unit :=
  let! w := load (p + 4) in store (p + 4) (w mod 0x80000000 + v mod 2 * 0x80000000).
Definition get_header (p : Z) : HM Z := load (p + 4).
Definition set_header (p v : Z) : HM unit := store (p + 4) v.

(** The heap the operations are called with is always [kheap]. *)
Definition get_heap : HM heap := get_or_fault (fun s => kheap (alloc_state s)).
Definition set_entrycount (n : Z) : HM unit :=
  let! h := get_heap in
  modify (set_kheap (Heap (entries h) (u32 n) (maxentries h) (start h) (end_ h) (memend h) (pageflags h))).
Definition set_end (e : Z) : HM unit :=
  let! h := get_heap in
  modify (set_kheap (Heap (entries h) (entrycount h) (maxentries h) (start h) (u32 e) (memend h)
    (pageflags h))).

Definition get_entry_at (i : Z) : HM Z := let! h := get_heap in load (entries h + 4 * i).
Definition set_entry_at (i v : Z) : HM unit := let! h := get_heap in store (entries h + 4 * i) v.

(** A header and its footer, as the code writes them. *)
Definition set_footer (f header : Z) : HM unit := do! set_magic f MM_MAGIC; set_header f header.

Section heap_ops.
Context (mkpage : Z -> Z -> HM unit) (rmpage : Z -> HM unit).

(** ** Size of the heap *)

Fixpoint grow_pages (fuel : nat) (base i new_size fl : Z) : HM unit :=
  match fuel with
  | O => nofuel
  | S fuel =>
      if i <? new_size then do! mkpage (u32 (base + i)) fl; grow_pages fuel base (u32 (i + FRAME_SIZE)) new_size fl
      else ret tt
  end.

Fixpoint shrink_pages (fuel : nat) (base i new_size : Z) : HM unit :=
  match fuel with
  | O => nofuel
  | S fuel =>
      if new_size <? i then do! rmpage (u32 (base + i)); shrink_pages fuel base (u32 (i - FRAME_SIZE)) new_size
      else ret tt
  end.

(** One round for every page of the address space. *)
Definition page_fuel : nat := Z.to_nat 1048577.

Definition expand_heap (new_size : Z) : HM unit :=
  let! h := get_heap in
  if new_size <=? u32 (end_ h - start h) then ret tt
  else
    let new_size := ASSERT_ALIGN new_size in
    if memend h <? u32 (start h + new_size) then ret tt
    else
      do! grow_pages page_fuel (start h) (u32 (end_ h - start h)) new_size (pageflags h);
      set_end (start h + new_size).

Definition contract_heap (new_size : Z) : HM Z :=
  let! h := get_heap in
  if u32 (end_ h - start h) <=? new_size then ret (u32 (end_ h - start h))
  else
    let new_size := ASSERT_ALIGN new_size in
    let new_size := if new_size <? MM_KHEAP_MIN then MM_KHEAP_MIN else new_size in
    do! shrink_pages page_fuel (start h) (u32 (end_ h - start h - FRAME_SIZE)) new_size;
    do! set_end (start h + new_size);
    ret new_size.

(** ** The index of holes *)

(** The first position whose hole is not smaller. *)
Fixpoint entry_pos (n : nat) (i sz : Z) : HM Z :=
  match n with
  | O => ret i
  | S n =>
      let! e := get_entry_at i in
      let! z := get_size e in
      if z <? sz then entry_pos n (i + 1) sz else ret i
  end.

(** [while (i++ < entrycount)]: [tmp] goes to the next position. *)
Fixpoint shift_up (n : nat) (i tmp : Z) : HM unit :=
  match n with
  | O => ret tt
  | S n =>
      let! tmp2 := get_entry_at (i + 1) in
      do! set_entry_at (i + 1) tmp;
      shift_up n (i + 1) tmp2
  end.

Definition heap_add_entry (entry : Z) : HM unit :=
  let! h := get_heap in
  let! sz := get_size entry in
  let! i := entry_pos (Z.to_nat (entrycount h)) 0 sz in
  if i =? entrycount h then
    do! set_entry_at (entrycount h) entry;
    set_entrycount (entrycount h + 1)
  else
    let! tmp := get_entry_at i in
    do! set_entry_at i entry;
    do! shift_up (Z.to_nat (entrycount h - i)) i tmp;
    set_entrycount (entrycount h + 1).

Fixpoint shift_down (n : nat) (i : Z) : HM unit :=
  match n with
  | O => ret tt
  | S n =>
      let! e := get_entry_at (i + 1) in
      do! set_entry_at i e;
      shift_down n (i + 1)
  end.

Definition heap_del_entry (i : Z) : HM unit :=
  if i =? MM_NO_HOLE then ret tt
  else
    let! h := get_heap in
    do! shift_down (Z.to_nat (entrycount h - i)) i;
    set_entrycount (entrycount h - 1).

Fixpoint find_entry_loop (n : nat) (i entry : Z) : HM Z :=
  match n with
  | O => ret MM_NO_HOLE
  | S n => let! e := get_entry_at i in if e =? entry then ret i else find_entry_loop n (i + 1) entry
  end.
Definition heap_find_entry (entry : Z) : HM Z :=
  let! h := get_heap in find_entry_loop (Z.to_nat (entrycount h)) 0 entry.

(** Does the hole at [location] of size [esz] hold [size] bytes? *)
Definition hole_fits (page_align : bool) (location esz size : Z) : bool :=
  if page_align then
    let offset := if negb (CHECK_ALIGN (u32 (location + sizeof_mm_header)) =? 0)
                  then FRAME_SIZE - u32 (location + sizeof_mm_header) mod FRAME_SIZE else 0 in
    s32 size <=? esz - offset
  else size <=? esz.

Fixpoint find_hole_loop (n : nat) (i size : Z) (page_align : bool) : HM Z :=
  match n with
  | O => ret MM_NO_HOLE
  | S n =>
      let! e := get_entry_at i in
      let! esz := get_size e in
      if hole_fits page_align e esz size then ret i else find_hole_loop n (i + 1) size page_align
  end.
Definition find_smallest_hole (size : Z) (page_align : bool) : HM Z :=
  let! h := get_heap in find_hole_loop (Z.to_nat (entrycount h)) 0 size page_align.

(** The entry with the highest address. *)
Fixpoint highest_entry (n : nat) (i idx value : Z) : HM Z :=
  match n with
  | O => ret idx
  | S n =>
      let! tmp := get_entry_at i in
      if value <? tmp then highest_entry n (i + 1) i tmp else highest_entry n (i + 1) idx value
  end.

(** ** Allocation *)

(** No hole fits: grow the heap and enlarge the last hole. *)
Definition grow_heap (newsize : Z) : HM unit :=
  let! h := get_heap in
  let oldsize := u32 (end_ h - start h) in
  let oldend := end_ h in
  do! expand_heap (u32 (oldsize + newsize));
  let! h := get_heap in
  let newsize := u32 (end_ h - start h) in
  let! idx := highest_entry (Z.to_nat (entrycount h)) 0 MM_NO_HOLE 0 in
  if idx =? MM_NO_HOLE then
    let header := oldend in
    do! set_size header (newsize - oldsize);
    do! set_flag header MM_FLAG_HOLE;
    let! hsz := get_size header in
    let newfooter := u32 (oldend + hsz - sizeof_mm_footer) in
    do! set_magic newfooter MM_MAGIC;
    do! set_magic header MM_MAGIC;
    do! set_header newfooter header;
    heap_add_entry header
  else
    let! header := get_entry_at idx in
    let! hsz := get_size header in
    do! set_size header (hsz + (newsize - oldsize));
    let! hsz := get_size header in
    let newfooter := u32 (header + hsz - sizeof_mm_footer) in
    do! set_header newfooter header;
    set_magic newfooter MM_MAGIC.

(** The part of the hole in front of an aligned block becomes a hole of its
    own; gives the place and size of what is left. *)
Definition split_front (oldpos oldsize : Z) : HM (Z * Z) :=
  let newpos := u32 (oldpos + FRAME_SIZE - Z.land oldpos 0xFFF - sizeof_mm_header) in
  let newheader := oldpos in
  let newfooter := u32 (newpos - sizeof_mm_footer) in
  do! set_size newheader (u32 (newpos - oldpos));
  do! set_flag newheader MM_FLAG_HOLE;
  do! set_magic newfooter MM_MAGIC;
  do! set_magic newheader MM_MAGIC;
  do! set_header newfooter newheader;
  let! hsz := get_size newheader in
  ret (newpos, u32 (oldsize - hsz)).

(** The header and the footer of the block. *)
Definition write_block (header newfooter newsize : Z) : HM unit :=
  do! set_flag header MM_FLAG_BLOCK;
  do! set_size header newsize;
  do! set_magic newfooter MM_MAGIC;
  do! set_magic header MM_MAGIC;
  set_header newfooter header.

(** What is left of the hole behind the block. *)
Definition write_hole (newheader size : Z) : HM unit :=
  do! set_magic newheader MM_MAGIC;
  do! set_flag newheader MM_FLAG_HOLE;
  do! set_size newheader size;
  let! hsz := get_size newheader in
  let newfooter := u32 (newheader + hsz - sizeof_mm_footer) in
  let! h := get_heap in
  if newfooter <? end_ h then set_footer newfooter newheader else ret tt.

(** The block itself, and the hole behind it. *)
Definition place_block (oldpos oldsize size newsize : Z) : HM Z :=
  do! write_block oldpos (u32 (oldpos + sizeof_mm_header + size)) newsize;
  do! (if negb (u32 (oldsize - newsize) =? 0) then
         let newheader := u32 (oldpos + newsize) in
         do! write_hole newheader (u32 (oldsize - newsize));
         heap_add_entry newheader
       else ret tt);
  ret (u32 (oldpos + sizeof_mm_header)).

(** Allocation from the hole at position [hole_pos]. *)
Definition take_hole (hole_pos size newsize : Z) (page_align : bool) : HM Z :=
  let! header := get_entry_at hole_pos in
  let! hsz := get_size header in
  let small := u32 (hsz - sizeof_mm_header - sizeof_mm_footer) <? newsize in
  let size := if small then u32 (size + (hsz - newsize)) else size in
  let newsize := if small then hsz else newsize in
  let! ' (oldpos, oldsize) :=
    (if page_align && negb (Z.land header 0xFFFFF000 =? 0) then split_front header hsz
     else do! heap_del_entry hole_pos; ret (header, hsz)) in
  place_block oldpos oldsize size newsize.

(** The recursion after growing the heap is on fuel. *)
Fixpoint heap_malloc (fuel : nat) (size : Z) (page_align : bool) : HM Z :=
  match fuel with
  | O => nofuel
  | S fuel =>
      let newsize := u32 (size + sizeof_mm_header + sizeof_mm_footer) in
      let! hole_pos := find_smallest_hole newsize page_align in
      if size =? 0 then ret 0
      else if hole_pos =? MM_NO_HOLE then do! grow_heap newsize; heap_malloc fuel size page_align
      else take_hole hole_pos size newsize page_align
  end.

(** ** Freeing *)

(** Is there a hole that ends where [header] begins? *)
Definition hole_before (header : Z) : HM (option Z) :=
  let tmpfooter := u32 (header - sizeof_mm_footer) in
  let! m := get_magic tmpfooter in
  if m =? MM_MAGIC then
    let! th := get_header tmpfooter in
    let! m := get_magic th in
    if m =? MM_MAGIC then
      let! f := get_flag th in
      ret (if f =? MM_FLAG_HOLE then Some th else None)
    else ret None
  else ret None.

Definition is_hole (tmpheader : Z) : HM bool :=
  let! m := get_magic tmpheader in
  if m =? MM_MAGIC then let! f := get_flag tmpheader in ret (f =? MM_FLAG_HOLE) else ret false.

(** Joins the freed block to the hole in front of it. *)
Definition join_before (footer oldsize th : Z) : HM (Z * bool) :=
  do! set_header footer th;
  let! tsz := get_size th in
  do! set_size th (tsz + oldsize);
  ret (th, false).

(** Joins the hole behind [footer], if there is one; gives the new footer. *)
Definition join_after (header footer : Z) : HM Z :=
  let tmpheader := u32 (footer + sizeof_mm_footer) in
  let! hole := is_hole tmpheader in
  if hole then
    let! hsz := get_size header in
    let! tsz := get_size tmpheader in
    do! set_size header (hsz + tsz);
    let! tsz := get_size tmpheader in
    let footer := u32 (tmpheader + tsz - sizeof_mm_footer) in
    let! i := heap_find_entry tmpheader in
    do! heap_del_entry i;
    ret footer
  else ret footer.

(** Gives the pages of a hole at the end of the heap back. *)
Definition trim (header footer : Z) : HM unit :=
  let! h := get_heap in
  if u32 (footer + sizeof_mm_footer) =? end_ h then
    let oldsize := u32 (end_ h - start h) in
    let! newsize := contract_heap (u32 (header - start h)) in
    let! hsz := get_size header in
    if oldsize <? u32 (newsize + hsz) then
      do! set_size header (hsz - (oldsize - newsize));
      let! hsz := get_size header in
      let footer := u32 (header + hsz - sizeof_mm_footer) in
      set_footer footer header
    else
      let! i := heap_find_entry header in
      heap_del_entry i
  else ret tt.

Definition heap_free (ptr : Z) : HM unit :=
  let! kh := gets (fun s => kheap (alloc_state s)) in
  match kh with
  | None => ret tt
  | Some _ =>
      if ptr =? 0 then ret tt
      else
        let header := u32 (ptr - sizeof_mm_header) in
        let! hsz := get_size header in
        let footer := u32 (header + hsz - sizeof_mm_footer) in
        let! m1 := get_magic header in
        let! ok := (if m1 =? MM_MAGIC then let! m2 := get_magic footer in ret (m2 =? MM_MAGIC) else ret false) in
        if negb ok then ret tt
        else
          let! oldsize := get_size header in
          do! set_flag header MM_FLAG_HOLE;
          let! before := hole_before header in
          let! ' (header, opt) :=
            match before with
            | Some th => join_before footer oldsize th
            | None => ret (header, true)
            end in
          let! footer := join_after header footer in
          do! trim header footer;
          if opt then heap_add_entry header else ret tt
  end.

(** ** Resizing *)

(** [memcpy] *)
Fixpoint copy_bytes (n : nat) (dst src : Z) : HM unit :=
  match n with
  | O => ret tt
  | S n =>
      let! b := get_or_fault (fun s => hmem (alloc_state s) !! u32 src) in
      do! upd_or_fault (fun s => m ← put_byte (hmem (alloc_state s)) dst b; Some (set_hmem m s));
      copy_bytes n (dst + 1) (src + 1)
  end.

(** [memset] with 0. *)
Fixpoint clear_bytes (n : nat) (dst : Z) : HM unit :=
  match n with
  | O => ret tt
  | S n =>
      do! upd_or_fault (fun s => m ← put_byte (hmem (alloc_state s)) dst 0; Some (set_hmem m s));
      clear_bytes n (dst + 1)
  end.

(** The guard [header->size-size-2*(sizeof(mm_header)-sizeof(mm_footer)) < 0]
    of the code compares an unsigned value: it never holds. *)
Definition shrink_block (ptr header footer size : Z) : HM Z :=
  let tmpheader := u32 (ptr + size + sizeof_mm_footer) in
  let tmpfooter := u32 (ptr + size) in
  do! set_header footer tmpheader;
  do! set_header tmpfooter header;
  do! set_magic tmpfooter MM_MAGIC;
  do! set_magic tmpheader MM_MAGIC;
  do! set_flag tmpheader MM_FLAG_BLOCK;
  do! set_size tmpheader (u32 (footer - tmpheader + sizeof_mm_footer));
  do! set_size header (sizeof_mm_header + size + sizeof_mm_footer);
  do! heap_free (u32 (tmpheader + sizeof_mm_header));
  ret ptr.

Definition heap_realloc (fuel : nat) (ptr size : Z) : HM Z :=
  let! kh := gets (fun s => kheap (alloc_state s)) in
  match kh with
  | None => ret 0
  | Some _ =>
      if ptr =? 0 then ret 0
      else if size =? 0 then do! heap_free ptr; ret 0
      else
        let header := u32 (ptr - sizeof_mm_header) in
        let! hsz := get_size header in
        let footer := u32 (header + hsz - sizeof_mm_footer) in
        let! m1 := get_magic header in
        let! ok := (if m1 =? MM_MAGIC then let! m2 := get_magic footer in ret (m2 =? MM_MAGIC) else ret false) in
        if negb ok then ret 0
        else
          let room := u32 (hsz - sizeof_mm_header - sizeof_mm_footer) in
          if size =? room then ret ptr
          else if size <? room then shrink_block ptr header footer size
          else
            let! r := heap_malloc fuel size false in
            if r =? 0 then ret 0
            else do! copy_bytes (Z.to_nat size) r ptr; do! heap_free ptr; ret r
  end.

(** ** The interface of the rest of the kernel *)

Definition _kmalloc_base (fuel : nat) (get_page : Z -> HM page) (sz : Z) (phys align : bool) : HM (Z * Z) :=
  let! kh := gets (fun s => kheap (alloc_state s)) in
  match kh with
  | Some _ =>
      let! r := heap_malloc fuel sz align in
      if phys then
        let! apage := get_page r in
        ret (r, u32 (frame apage * FRAME_SIZE + Z.land r 0xFFF))
      else ret (r, 0)
  | None =>
      let! pos := gets (fun s => kmalloc_pos (alloc_state s)) in
      let pos := if align then ASSERT_ALIGN pos else pos in
      do! modify (set_kmalloc_pos (u32 (pos + sz)));
      ret (pos, if phys then pos else 0)
  end.

Definition malloc (fuel : nat) (size : Z) : HM Z :=
  let! kh := gets (fun s => kheap (alloc_state s)) in
  match kh with
  | None => let! ' (r, _) := _kmalloc_base fuel (fun _ => fault) size false false in ret r
  | Some _ => heap_malloc fuel size false
  end.

Definition calloc (fuel : nat) (num size : Z) : HM Z :=
  let! r := malloc fuel (u32 (num * size)) in
  if r =? 0 then ret 0
  else do! clear_bytes (Z.to_nat (u32 (num * size))) r; ret r.

Definition realloc (fuel : nat) (ptr size : Z) : HM Z := heap_realloc fuel ptr size.

(** [memend] of the new heap bounds its growth; the struct itself comes from
    [_kmalloc]. *)
Definition create_heap (fuel : nat) (start end_ memend pageflags : Z) : HM heap :=
  do! (let! ' (r, _) := _kmalloc_base fuel (fun _ => fault) sizeof_heap false false in ret r);
  let start := ASSERT_ALIGN start in
  let end_ := ASSERT_ALIGN end_ in
  let memend := ASSERT_ALIGN memend in
  let entries := start in
  let start := ASSERT_ALIGN (u32 (start + MM_INDEX_COUNT * 4)) in
  do! set_magic start MM_MAGIC;
  do! set_size start (u32 (end_ - start));
  do! set_flag start MM_FLAG_HOLE;
  do! store entries start;
  let initholeend := u32 (end_ - sizeof_mm_footer) in
  do! set_magic initholeend MM_MAGIC;
  do! set_header initholeend start;
  ret (Heap entries 1 MM_INDEX_COUNT start end_ memend pageflags).

End heap_ops.

(** ** The heap as the allocator of paging

    [make_page] may need a page table, which the allocator provides, which may
    grow the heap: each level of [kalloc_heap] takes one unit of fuel. *)

(** After [make_page] the bytes of the page are those of its frame; a page that
    was already mapped stays as it is. *)
Definition show_frame (address : Z) (bytes : list Z) (m : gmap Z Z) : gmap Z Z :=
  m ∪ list_to_map (zip (seqZ address FRAME_SIZE) bytes).

Section knot.
Context `{KAlloc heap_state}.

Definition map_heap_page (address fl : Z) : HM unit :=
  let! d := gets kernel_directory in
  let! ' (t, i) := make_page address fl d true in
  let! e := get_or_fault (get_entry t i) in
  let! bytes := get_or_fault (fun s => pmem s !! frame e) in
  modify (fun s => set_hmem (show_frame address bytes (hmem (alloc_state s))) s).

(** [free_page] leaves the entry present but without a frame: the page is no
    memory of the heap any more. *)
Definition unmap_heap_page (address : Z) : HM unit :=
  let! d := gets kernel_directory in
  do! free_page address d;
  modify (fun s => set_hmem (filter (fun kv => ~ (address <= kv.1 < address + FRAME_SIZE)) (hmem (alloc_state s))) s).

Definition kernel_page (address : Z) : HM page :=
  let! d := gets kernel_directory in
  let! e := get_page address false d in
  match e with Some (t, i) => get_or_fault (get_entry t i) | None => fault end.
End knot.

#[local] Instance no_alloc : KAlloc heap_state :=
  { _kmalloc _ := nofuel; _kmalloc_pa _ := nofuel; Paging.free _ := nofuel }.

Fixpoint kalloc_heap (fuel : nat) : KAlloc heap_state :=
  match fuel with
  | O => no_alloc
  | S fuel =>
      let K := kalloc_heap fuel in
      let mkpage := @map_heap_page K in
      {| _kmalloc sz := let! ' (r, _) := _kmalloc_base mkpage fuel kernel_page sz false false in ret r;
         _kmalloc_pa sz := _kmalloc_base mkpage fuel kernel_page sz true true;
         Paging.free ptr := heap_free unmap_heap_page ptr |}
  end.

(** ** Writing words *)

(** [store32] where the bytes are mapped. *)
Definition wr (m : gmap Z Z) (p v : Z) : gmap Z Z :=
  <[p + 3 := v / 0x1000000 mod 0x100]> (<[p + 2 := v / 0x10000 mod 0x100]>
    (<[p + 1 := v / 0x100 mod 0x100]> (<[p := v mod 0x100]> m))).

Definition mapped (m : gmap Z Z) (lo hi : Z) : Prop := forall a, lo <= a < hi -> is_Some (m !! a).

(** [m'] is [m] but for the bytes from [lo] to [hi], and as much is mapped. *)
Definition changed_in (lo hi : Z) (m m' : gmap Z Z) : Prop :=
  (forall a, is_Some (m !! a) <-> is_Some (m' !! a)) /\ (forall a, ~ (lo <= a < hi) -> m' !! a = m !! a).

Lemma wr_lookup_ne m p v a : ~ (p <= a < p + 4) -> wr m p v !! a = m !! a.
Proof. intros H. unfold wr. rewrite !lookup_insert_ne by lia. done. Qed.

Lemma wr_mapped m p v : mapped m p (p + 4) -> forall a, is_Some (m !! a) <-> is_Some (wr m p v !! a).
Proof.
  intros H a. destruct (decide (p <= a < p + 4)) as [Ha|Ha]; [|by rewrite wr_lookup_ne].
  split; intros _; [|by apply H].
  unfold wr. destruct (decide (a = p + 3)) as [->|]; [by rewrite lookup_insert_eq|].
  rewrite lookup_insert_ne by done. destruct (decide (a = p + 2)) as [->|]; [by rewrite lookup_insert_eq|].
  rewrite lookup_insert_ne by done. destruct (decide (a = p + 1)) as [->|]; [by rewrite lookup_insert_eq|].
  rewrite lookup_insert_ne by done. replace a with p by lia. by rewrite lookup_insert_eq.
Qed.

Lemma wr_changed m p v lo hi : lo <= p -> p + 4 <= hi -> mapped m p (p + 4) -> changed_in lo hi m (wr m p v).
Proof. intros Hl Hh Hm. split; [by apply wr_mapped|]. intros a Ha. apply wr_lookup_ne. lia. Qed.

Lemma changed_refl lo hi m : changed_in lo hi m m.
Proof. by split. Qed.
Lemma changed_trans lo hi m1 m2 m3 : changed_in lo hi m1 m2 -> changed_in lo hi m2 m3 -> changed_in lo hi m1 m3.
Proof.
  intros [A1 B1] [A2 B2]. split; [intros a; by rewrite A1|]. intros a Ha. by rewrite B2, B1.
Qed.
Lemma changed_weaken lo hi lo' hi' m m' :
  changed_in lo hi m m' -> lo' <= lo -> hi <= hi' -> changed_in lo' hi' m m'.
Proof. intros [A B] H1 H2. split; [done|]. intros a Ha. apply B. lia. Qed.
Lemma changed_mapped lo hi m m' a b : changed_in lo hi m m' -> mapped m a b -> mapped m' a b.
Proof. intros [A _] H x Hx. apply A. by apply H. Qed.

Lemma load32_changed lo hi m m' q :
  changed_in lo hi m m' -> 0 <= q -> q + 4 <= 4294967296 -> (q + 4 <= lo \/ hi <= q) -> load32 m' q = load32 m q.
Proof.
  intros [_ B] H1 H2 H3. unfold load32. rewrite !u32_id by lia. by rewrite !B by lia.
Qed.

Lemma load32_wr_eq m p v : 0 <= p -> p + 4 <= 4294967296 -> 0 <= v < 4294967296 -> load32 (wr m p v) p = Some v.
Proof.
  intros Hp Hp' Hv. unfold load32. rewrite !u32_id by lia.
  assert (wr m p v !! p = Some (v mod 0x100)) as ->.
  { unfold wr. do 3 rewrite lookup_insert_ne by lia. apply lookup_insert_eq. }
  assert (wr m p v !! (p + 1) = Some (v / 0x100 mod 0x100)) as ->.
  { unfold wr. do 2 rewrite lookup_insert_ne by lia. apply lookup_insert_eq. }
  assert (wr m p v !! (p + 2) = Some (v / 0x10000 mod 0x100)) as ->.
  { unfold wr. rewrite lookup_insert_ne by lia. apply lookup_insert_eq. }
  assert (wr m p v !! (p + 3) = Some (v / 0x1000000 mod 0x100)) as ->.
  { unfold wr. apply lookup_insert_eq. }
  cbn. f_equal. lia.
Qed.

Lemma load32_wr_u32 m p v : 0 <= p -> p + 4 <= 4294967296 -> load32 (wr m p v) p = Some (u32 v).
Proof.
  intros Hp Hp'. rewrite <- (load32_wr_eq m p (u32 v)) by (lia || apply u32_range). f_equal. unfold wr, u32.
  f_equal; [|f_equal; [|f_equal; [|f_equal]]]; lia.
Qed.

Lemma load32_wr_ne m p v q : 0 <= q -> q + 4 <= 4294967296 -> (q + 4 <= p \/ p + 4 <= q) ->
  load32 (wr m p v) q = load32 m q.
Proof. intros H1 H2 H3. unfold load32. rewrite !u32_id by lia. by rewrite !wr_lookup_ne by lia. Qed.

Lemma store32_wr m p v : 0 <= p -> p + 4 <= 4294967296 -> mapped m p (p + 4) -> store32 m p v = Some (wr m p v).
Proof.
  intros H1 H2 Hm. unfold store32, put_byte. rewrite !u32_id by lia.
  destruct (Hm p) as [x0 E0]; [lia|]. rewrite E0. cbn.
  destruct (Hm (p + 1)) as [x1 E1]; [lia|]. rewrite lookup_insert_ne by lia. rewrite E1. cbn.
  destruct (Hm (p + 2)) as [x2 E2]; [lia|]. rewrite !lookup_insert_ne by lia. rewrite E2. cbn.
  destruct (Hm (p + 3)) as [x3 E3]; [lia|]. rewrite !lookup_insert_ne by lia. rewrite E3. done.
Qed.

Lemma load32_mapped m p : 0 <= p -> p + 4 <= 4294967296 -> mapped m p (p + 4) -> is_Some (load32 m p).
Proof.
  intros H1 H2 Hm. unfold load32. rewrite !u32_id by lia.
  destruct (Hm p) as [? ->]; [lia|]. destruct (Hm (p + 1)) as [? ->]; [lia|].
  destruct (Hm (p + 2)) as [? ->]; [lia|]. destruct (Hm (p + 3)) as [? ->]; [lia|]. by eexists.
Qed.

(** ** Running the operations on a known memory and heap *)

Definition at_ (s : pstate heap_state) (m : gmap Z Z) (h : heap) : pstate heap_state :=
  set_alloc (HeapState m (Some h) (kmalloc_pos (alloc_state s))) s.

Section runs.
Implicit Types (s : pstate heap_state) (m : gmap Z Z) (h : heap).

Lemma get_heap_run s m h : get_heap (at_ s m h) = Ok (h, at_ s m h).
Proof. done. Qed.

Lemma load_run s m h p v : load32 m p = Some v -> load p (at_ s m h) = Ok (v, at_ s m h).
Proof. intros H. unfold load, get_or_fault. cbn. by rewrite H. Qed.

Lemma store_run s m h p v : 0 <= p -> p + 4 <= 4294967296 -> mapped m p (p + 4) ->
  store p v (at_ s m h) = Ok (tt, at_ s (wr m p v) h).
Proof. intros H1 H2 H3. unfold store, upd_or_fault. cbn. by rewrite store32_wr. Qed.

Lemma set_entrycount_run s m h n :
  set_entrycount n (at_ s m h) = Ok (tt, at_ s m
    (Heap (entries h) (u32 n) (maxentries h) (start h) (end_ h) (memend h) (pageflags h))).
Proof. done. Qed.

(** A header's second word. *)
Definition size_word (sz : Z) (hole : bool) : Z := sz + b2z hole * 0x80000000.

Lemma get_size_run s m h p sz hole : 0 <= sz < 0x80000000 -> load32 m (p + 4) = Some (size_word sz hole) ->
  get_size p (at_ s m h) = Ok (sz, at_ s m h).
Proof.
  intros Hsz H. unfold get_size, bind, ret. erewrite load_run by exact H. cbn. do 2 f_equal.
  unfold size_word. destruct hole; cbn; lia.
Qed.

Lemma get_flag_run s m h p sz hole : 0 <= sz < 0x80000000 -> load32 m (p + 4) = Some (size_word sz hole) ->
  get_flag p (at_ s m h) = Ok (b2z hole, at_ s m h).
Proof.
  intros Hsz H. unfold get_flag, bind, ret. erewrite load_run by exact H. cbn. do 2 f_equal.
  unfold size_word. destruct hole; cbn; lia.
Qed.

Lemma set_size_run s m h p v : 0 <= p -> p + 8 <= 4294967296 -> mapped m (p + 4) (p + 8) ->
  exists w, set_size p v (at_ s m h) = Ok (tt, at_ s (wr m (p + 4) w) h) /\
    forall x, load32 m (p + 4) = Some x -> w = v mod 0x80000000 + x / 0x80000000 * 0x80000000.
Proof.
  intros H1 H2 Hm. destruct (load32_mapped m (p + 4)) as [x Hx]; [lia..|replace (p + 4 + 4) with (p + 8) by lia; done|].
  exists (v mod 0x80000000 + x / 0x80000000 * 0x80000000). split; [|by intros ? [= <-]%(eq_trans (eq_sym Hx))].
  unfold set_size, bind. erewrite load_run by exact Hx. apply store_run; [lia..|].
  replace (p + 4 + 4) with (p + 8) by lia. done.
Qed.

Lemma set_flag_run s m h p v : 0 <= p -> p + 8 <= 4294967296 -> mapped m (p + 4) (p + 8) ->
  exists w, set_flag p v (at_ s m h) = Ok (tt, at_ s (wr m (p + 4) w) h) /\
    forall x, load32 m (p + 4) = Some x -> w = x mod 0x80000000 + v mod 2 * 0x80000000.
Proof.
  intros H1 H2 Hm. destruct (load32_mapped m (p + 4)) as [x Hx]; [lia..|replace (p + 4 + 4) with (p + 8) by lia; done|].
  exists (x mod 0x80000000 + v mod 2 * 0x80000000). split; [|by intros ? [= <-]%(eq_trans (eq_sym Hx))].
  unfold set_flag, bind. erewrite load_run by exact Hx. apply store_run; [lia..|].
  replace (p + 4 + 4) with (p + 8) by lia. done.
Qed.

(** *** The index as a list *)

(** The words of [l] from position [i] of the index at [base]. *)
Definition cells m (base i : Z) (l : list Z) : Prop :=
  forall k x, l !! k = Some x -> load32 m (base + 4 * (i + Z.of_nat k)) = Some x.

Lemma cells_nil m base i : cells m base i [].
Proof. intros k x. by rewrite lookup_nil. Qed.

Lemma cells_cons m base i x l :
  cells m base i (x :: l) <-> load32 m (base + 4 * i) = Some x /\ cells m base (i + 1) l.
Proof.
  split.
  - intros H. split; [specialize (H 0%nat x eq_refl); by replace (i + Z.of_nat 0) with i in H by lia|].
    intros k y Hk. specialize (H (S k) y Hk). by replace (i + 1 + Z.of_nat k) with (i + Z.of_nat (S k)) by lia.
  - intros [H1 H2] [|k] y Hk; cbn in Hk.
    + injection Hk as <-. by replace (i + Z.of_nat 0) with i by lia.
    + replace (i + Z.of_nat (S k)) with (i + 1 + Z.of_nat k) by lia. by apply H2.
Qed.

Lemma cells_app m base i l1 l2 :
  cells m base i (l1 ++ l2) <-> cells m base i l1 /\ cells m base (i + Z.of_nat (length l1)) l2.
Proof.
  revert i. induction l1 as [|x l1 IH]; intros i; cbn [app length].
  - replace (i + Z.of_nat 0) with i by lia. split; [intros H; split; [apply cells_nil|done]|by intros [_ H]].
  - rewrite !cells_cons, IH. replace (i + Z.of_nat (S (length l1))) with (i + 1 + Z.of_nat (length l1)) by lia.
    tauto.
Qed.

Lemma cells_changed m m' base i l lo hi : changed_in lo hi m m' -> 0 <= base -> 0 <= i ->
  base + 4 * (i + Z.of_nat (length l)) <= 4294967296 ->
  (base + 4 * (i + Z.of_nat (length l)) <= lo \/ hi <= base + 4 * i) -> cells m base i l -> cells m' base i l.
Proof.
  intros Hc Hb Hi Hl Hd H k x Hk. assert (k < length l)%nat by (by eapply lookup_lt_Some).
  rewrite (load32_changed lo hi m m') by (done || lia). by apply H.
Qed.

Definition is_word (x : Z) : Prop := 0 <= x < 4294967296.

Context (s : pstate heap_state) (h : heap).
Hypothesis entries_low : 0 < entries h.
Hypothesis entries_high : entries h + 4 * MM_INDEX_COUNT <= 0x80000000.

Lemma get_entry_run m i x : load32 m (entries h + 4 * i) = Some x ->
  get_entry_at i (at_ s m h) = Ok (x, at_ s m h).
Proof. intros H. unfold get_entry_at, bind. rewrite get_heap_run. by apply load_run. Qed.

Lemma set_entry_run m i v : 0 <= i < MM_INDEX_COUNT -> mapped m (entries h) (entries h + 4 * MM_INDEX_COUNT) ->
  set_entry_at i v (at_ s m h) = Ok (tt, at_ s (wr m (entries h + 4 * i) v) h).
Proof.
  intros Hi Hm. unfold set_entry_at, bind. rewrite get_heap_run.
  apply store_run; [lia..|]. intros a Ha. apply Hm. lia.
Qed.

(** One step of the two shifting loops: an entry is read and another written. *)
Lemma shift_up_run l : forall m i tmp, 0 <= i -> i + 1 + Z.of_nat (length l) < MM_INDEX_COUNT ->
  mapped m (entries h) (entries h + 4 * MM_INDEX_COUNT) -> cells m (entries h) (i + 1) l ->
  Forall is_word (tmp :: l) ->
  exists m', shift_up (S (length l)) i tmp (at_ s m h) = Ok (tt, at_ s m' h) /\
    cells m' (entries h) (i + 1) (tmp :: l) /\
    changed_in (entries h + 4 * (i + 1)) (entries h + 4 * MM_INDEX_COUNT) m m'.
Proof.
  unfold MM_INDEX_COUNT in *.
  induction l as [|x l IH]; intros m i tmp Hi Hlen Hm Hc Hw; cbn [length] in *; cbn [shift_up];
    apply Forall_cons in Hw as [Ht Hw]; unfold bind.
  - destruct (load32_mapped m (entries h + 4 * (i + 1))) as [g Hg]; [lia..|intros a Ha; apply Hm; lia|].
    erewrite get_entry_run by exact Hg. rewrite set_entry_run by (done || unfold MM_INDEX_COUNT; lia).
    eexists. split; [done|]. split.
    + apply cells_cons. split; [apply load32_wr_eq; [lia..|done]|apply cells_nil].
    + apply wr_changed; [lia..|intros a Ha; apply Hm; lia].
  - apply cells_cons in Hc as [Hx Hc]. erewrite get_entry_run by exact Hx.
    rewrite set_entry_run by (done || unfold MM_INDEX_COUNT; lia).
    set (m1 := wr m (entries h + 4 * (i + 1)) tmp).
    assert (H1 : changed_in (entries h + 4 * (i + 1)) (entries h + 4 * (i + 2)) m m1).
    { apply wr_changed; [lia..|intros a Ha; apply Hm; lia]. }
    destruct (IH m1 (i + 1) x) as (m' & Hrun & Hc' & Hch).
    + lia.
    + lia.
    + by eapply changed_mapped.
    + eapply cells_changed; [exact H1|lia..|done].
    + done.
    + exists m'. split; [exact Hrun|]. split.
      * apply cells_cons. split; [|done]. rewrite (load32_changed _ _ _ _ _ Hch) by lia.
        apply load32_wr_eq; [lia..|done].
      * eapply changed_trans; [eapply changed_weaken; [exact H1|lia..]|eapply changed_weaken; [exact Hch|lia..]].
Qed.

Lemma shift_down_run l : forall m i x, 0 <= i -> i + 1 + Z.of_nat (length l) < MM_INDEX_COUNT ->
  mapped m (entries h) (entries h + 4 * MM_INDEX_COUNT) -> cells m (entries h) i (x :: l) -> Forall is_word l ->
  exists m', shift_down (S (length l)) i (at_ s m h) = Ok (tt, at_ s m' h) /\
    cells m' (entries h) i l /\
    changed_in (entries h + 4 * i) (entries h + 4 * MM_INDEX_COUNT) m m'.
Proof.
  unfold MM_INDEX_COUNT in *.
  induction l as [|y l IH]; intros m i x Hi Hlen Hm Hc Hw; cbn [length] in *; cbn [shift_down]; unfold bind.
  - destruct (load32_mapped m (entries h + 4 * (i + 1))) as [g Hg]; [lia..|intros a Ha; apply Hm; lia|].
    erewrite get_entry_run by exact Hg. rewrite set_entry_run by (done || unfold MM_INDEX_COUNT; lia).
    eexists. split; [done|]. split; [apply cells_nil|].
    apply wr_changed; [lia..|intros a Ha; apply Hm; lia].
  - apply Forall_cons in Hw as [Hy Hw]. apply cells_cons in Hc as [Hx Hc].
    pose proof Hc as Hc0. apply cells_cons in Hc0 as [Hy' Hl].
    erewrite get_entry_run by exact Hy'. rewrite set_entry_run by (done || unfold MM_INDEX_COUNT; lia).
    set (m1 := wr m (entries h + 4 * i) y).
    assert (H1 : changed_in (entries h + 4 * i) (entries h + 4 * (i + 1)) m m1).
    { apply wr_changed; [lia..|intros a Ha; apply Hm; lia]. }
    destruct (IH m1 (i + 1) y) as (m' & Hrun & Hc' & Hch).
    + lia.
    + lia.
    + by eapply changed_mapped.
    + eapply cells_changed; [exact H1|cbn [length]; lia..|done].
    + done.
    + exists m'. split; [exact Hrun|]. split.
      * apply cells_cons. split; [|done]. rewrite (load32_changed _ _ _ _ _ Hch) by lia.
        apply load32_wr_eq; [lia..|done].
      * eapply changed_trans; [eapply changed_weaken; [exact H1|lia..]|eapply changed_weaken; [exact Hch|lia..]].
Qed.

(** *** The index operations *)

Definition with_count h (n : Z) : heap :=
  Heap (entries h) n (maxentries h) (start h) (end_ h) (memend h) (pageflags h).

Record index_ok m (g : heap) (hs : list Z) : Prop := {
  ix_count : entrycount g = Z.of_nat (length hs);
  ix_room : Z.of_nat (length hs) < MM_INDEX_COUNT;
  ix_cells : cells m (entries g) 0 hs;
  ix_words : Forall is_word hs }.

Definition has_size m (p z : Z) : Prop :=
  0 <= z < 0x80000000 /\ exists hole, load32 m (p + 4) = Some (size_word z hole).

Lemma has_size_run m (g : heap) p z : has_size m p z -> get_size p (at_ s m g) = Ok (z, at_ s m g).
Proof. intros (Hz & hole & H). by eapply get_size_run. Qed.

Lemma entry_pos_run m sz l : forall i, cells m (entries h) i l -> Forall (fun p => exists z, has_size m p z) l ->
  exists k : nat, (k <= length l)%nat /\
    entry_pos (length l) i sz (at_ s m h) = Ok (i + Z.of_nat k, at_ s m h).
Proof.
  induction l as [|x l IH]; intros i Hc Hs; cbn [length entry_pos].
  { exists 0%nat. split; [done|]. unfold ret. do 2 f_equal. lia. }
  apply cells_cons in Hc as [Hx Hc]. apply Forall_cons in Hs as [[z Hz] Hs].
  unfold bind. erewrite get_entry_run by exact Hx. erewrite has_size_run by exact Hz.
  destruct (z <? sz).
  - destruct (IH (i + 1) Hc Hs) as (k & Hk & ->). exists (S k). split; [lia|]. do 2 f_equal. lia.
  - exists 0%nat. split; [lia|]. unfold ret. do 2 f_equal. lia.
Qed.

Definition index_region (g : heap) m m' : Prop :=
  changed_in (entries g) (entries g + 4 * MM_INDEX_COUNT) m m'.

Lemma heap_add_entry_run m hs e z : index_ok m h hs -> Z.of_nat (length hs) + 1 < MM_INDEX_COUNT ->
  mapped m (entries h) (entries h + 4 * MM_INDEX_COUNT) -> has_size m e z -> is_word e ->
  Forall (fun p => exists z, has_size m p z) hs ->
  exists m' hs', heap_add_entry e (at_ s m h) = Ok (tt, at_ s m' (with_count h (entrycount h + 1))) /\
    hs' ≡ₚ e :: hs /\ index_ok m' (with_count h (entrycount h + 1)) hs' /\ index_region h m m'.
Proof.
  intros [Hcnt Hroom Hc Hw] Hr Hm Hz He Hs. unfold heap_add_entry, bind.
  rewrite get_heap_run. erewrite has_size_run by exact Hz. rewrite Hcnt, Nat2Z.id.
  destruct (entry_pos_run m z hs 0 Hc Hs) as (k & Hk & ->). rewrite (Z.add_0_l (Z.of_nat k)).
  rewrite <- (take_drop k hs) in Hc, Hw. apply cells_app in Hc as [Hc1 Hc2]. apply Forall_app in Hw as [Hw1 Hw2].
  rewrite length_take in Hc2. replace (0 + Z.of_nat (k `min` length hs)) with (Z.of_nat k) in Hc2 by lia.
  unfold MM_INDEX_COUNT in *.
  assert (Hcount : u32 (Z.of_nat (length hs) + 1) = Z.of_nat (length hs) + 1) by (apply u32_id; lia).
  destruct (Z.of_nat k =? Z.of_nat (length hs)) eqn:E.
  - rewrite set_entry_run by (done || unfold MM_INDEX_COUNT; lia). rewrite set_entrycount_run.
    rewrite Hcount. rewrite take_ge in Hc1, Hw1 by lia.
    exists (wr m (entries h + 4 * Z.of_nat (length hs)) e), (hs ++ [e]).
    assert (Hch : changed_in (entries h + 4 * Z.of_nat (length hs)) (entries h + 4 * 2048) m
      (wr m (entries h + 4 * Z.of_nat (length hs)) e)).
    { apply wr_changed; [lia..|intros a Ha; apply Hm; lia]. }
    split; [done|]. split; [by rewrite Permutation_app_comm|]. split.
    + split; cbn [entrycount entries with_count]; try (rewrite length_app; cbn [length]; unfold MM_INDEX_COUNT; lia).
      * apply cells_app. split; [by eapply cells_changed; [exact Hch|lia..|]|]. apply cells_cons.
        split; [|apply cells_nil]. replace (0 + Z.of_nat (length hs)) with (Z.of_nat (length hs)) by lia.
        apply load32_wr_eq; [lia..|done].
      * apply Forall_app. split; [done|]. by apply Forall_cons.
    + eapply changed_weaken; [exact Hch|unfold MM_INDEX_COUNT; lia..].
  - destruct (drop k hs) as [|y l] eqn:Ed.
    { apply (f_equal length) in Ed. rewrite length_drop in Ed. cbn in Ed. lia. }
    assert (Hl : length hs = (k + S (length l))%nat).
    { rewrite <- (take_drop k hs), Ed, length_app, length_take. cbn. lia. }
    pose proof Hc2 as Hc3. apply cells_cons in Hc3 as [Hy Hcl].
    erewrite get_entry_run by exact Hy. rewrite set_entry_run by (done || unfold MM_INDEX_COUNT; lia).
    set (m1 := wr m (entries h + 4 * Z.of_nat k) e).
    assert (H1 : changed_in (entries h + 4 * Z.of_nat k) (entries h + 4 * (Z.of_nat k + 1)) m m1).
    { apply wr_changed; [lia..|intros a Ha; apply Hm; lia]. }
    replace (Z.to_nat (Z.of_nat (length hs) - Z.of_nat k)) with (S (length l)) by lia.
    destruct (shift_up_run l m1 (Z.of_nat k) y) as (m' & -> & Hc' & Hch); unfold MM_INDEX_COUNT; [lia..| | |done|].
    { by eapply changed_mapped. }
    { eapply cells_changed; [exact H1|lia..|done]. }
    rewrite set_entrycount_run, Hcount. exists m', (take k hs ++ e :: y :: l).
    assert (Hreg : changed_in (entries h + 4 * Z.of_nat k) (entries h + 4 * 2048) m m').
    { eapply changed_trans; [eapply changed_weaken; [exact H1|lia..]|eapply changed_weaken; [exact Hch|unfold MM_INDEX_COUNT; lia..]]. }
    assert (Hp : take k hs ++ e :: y :: l ≡ₚ e :: hs).
    { rewrite <- Permutation_middle. apply Permutation_skip. rewrite <- Ed. by rewrite take_drop. }
    split; [done|]. split; [done|]. split.
    + split; cbn [entrycount entries with_count]; try (rewrite (Permutation_length Hp); cbn [length]; unfold MM_INDEX_COUNT; lia).
      * apply cells_app. rewrite length_take. replace (0 + Z.of_nat (k `min` length hs)) with (Z.of_nat k) by lia.
        split; [eapply cells_changed; [exact Hreg|rewrite ?length_take; lia..|done]|].
        apply cells_cons. split; [|exact Hc']. rewrite (load32_changed _ _ _ _ _ Hch) by lia.
        apply load32_wr_eq; [lia..|done].
      * apply Forall_app. split; [done|]. by apply Forall_cons.
    + eapply changed_weaken; [exact Hreg|unfold MM_INDEX_COUNT; lia..].
Qed.

Lemma heap_del_entry_run m hs1 p hs2 : index_ok m h (hs1 ++ p :: hs2) ->
  mapped m (entries h) (entries h + 4 * MM_INDEX_COUNT) ->
  exists m', heap_del_entry (Z.of_nat (length hs1)) (at_ s m h) =
      Ok (tt, at_ s m' (with_count h (entrycount h - 1))) /\
    index_ok m' (with_count h (entrycount h - 1)) (hs1 ++ hs2) /\ index_region h m m'.
Proof.
  intros [Hcnt Hroom Hc Hw] Hm. rewrite length_app in Hcnt, Hroom. cbn [length] in Hcnt, Hroom.
  unfold heap_del_entry, bind, MM_INDEX_COUNT, MM_NO_HOLE in *. replace (Z.of_nat (length hs1) =? 0xFFFFFFFF) with false by lia.
  rewrite get_heap_run, Hcnt.
  replace (Z.to_nat (Z.of_nat (length hs1 + S (length hs2)) - Z.of_nat (length hs1))) with (S (length hs2)) by lia.
  apply cells_app in Hc as [Hc1 Hc2]. apply Forall_app in Hw as [Hw1 Hw2]. apply Forall_cons in Hw2 as [Hp Hw2].
  destruct (shift_down_run hs2 m (Z.of_nat (length hs1)) p) as (m' & -> & Hc' & Hch);
    unfold MM_INDEX_COUNT; [lia..|done|done|done|].
  rewrite set_entrycount_run, u32_id by lia. exists m'. split; [done|]. split.
  - split; cbn [entrycount entries with_count]; rewrite ?length_app; unfold MM_INDEX_COUNT; try lia.
    + apply cells_app. split; [eapply cells_changed; [exact Hch|unfold MM_INDEX_COUNT; lia..|done]|done].
    + by apply Forall_app.
  - eapply changed_weaken; [exact Hch|unfold MM_INDEX_COUNT; lia..].
Qed.

Lemma find_entry_run m p l : forall i, cells m (entries h) i l -> p ∈ l ->
  exists l1 l2, l = l1 ++ p :: l2 /\
    find_entry_loop (length l) i p (at_ s m h) = Ok (i + Z.of_nat (length l1), at_ s m h).
Proof.
  induction l as [|x l IH]; intros i Hc Hin; [by apply elem_of_nil in Hin|].
  apply cells_cons in Hc as [Hx Hc]. cbn [length find_entry_loop]. unfold bind.
  erewrite get_entry_run by exact Hx. destruct (x =? p) eqn:E.
  - assert (x = p) as -> by lia. exists [], l. split; [done|]. cbn. unfold ret. do 2 f_equal. lia.
  - apply elem_of_cons in Hin as [->|Hin]; [lia|].
    destruct (IH (i + 1) Hc Hin) as (l1 & l2 & -> & ->). exists (x :: l1), l2. split; [done|].
    cbn [length]. do 2 f_equal. lia.
Qed.

Lemma find_hole_run m size l (sz : Z -> Z) : forall i, cells m (entries h) i l ->
  Forall (fun p => has_size m p (sz p)) l -> Exists (fun p => size <= sz p) l ->
  exists l1 p l2, l = l1 ++ p :: l2 /\ size <= sz p /\ Forall (fun q => sz q < size) l1 /\
    find_hole_loop (length l) i size false (at_ s m h) = Ok (i + Z.of_nat (length l1), at_ s m h).
Proof.
  induction l as [|x l IH]; intros i Hc Hs Hex; [by apply Exists_nil in Hex|].
  apply cells_cons in Hc as [Hx Hc]. apply Forall_cons in Hs as [Hz Hs].
  cbn [length find_hole_loop]. unfold bind. erewrite get_entry_run by exact Hx.
  erewrite has_size_run by exact Hz. cbn [hole_fits]. destruct (size <=? sz x) eqn:E.
  - exists [], x, l. split; [done|]. split; [lia|]. split; [constructor|]. cbn. unfold ret. do 2 f_equal. lia.
  - apply Exists_cons in Hex as [?|Hex]; [lia|].
    destruct (IH (i + 1) Hc Hs Hex) as (l1 & p & l2 & -> & Hp & Hl & ->). exists (x :: l1), p, l2.
    split_and!; [done..| |]; [constructor; [lia|done]|]. cbn [length]. do 2 f_equal. lia.
Qed.

End runs.

(** ** The layout of the heap

    The blocks and holes tile the heap without gaps, each between a header and
    a footer that agree, and the index lists the holes. *)

Record block := Block { b_at : Z; b_size : Z; b_hole : bool }.

Definition block_ok (m : gmap Z Z) (b : block) : Prop :=
  load32 m (b_at b) = Some MM_MAGIC /\
  load32 m (b_at b + 4) = Some (size_word (b_size b) (b_hole b)) /\
  load32 m (b_at b + b_size b - 8) = Some MM_MAGIC /\
  load32 m (b_at b + b_size b - 4) = Some (b_at b).

Fixpoint chain (a : Z) (bs : list block) (e : Z) : Prop :=
  match bs with
  | [] => a = e
  | b :: r => b_at b = a /\ 16 <= b_size b /\ chain (a + b_size b) r e
  end.

Definition holes (bs : list block) : list Z := b_at <$> filter (fun b => b_hole b = true) bs.

Record layout (m : gmap Z Z) (h : heap) (hs : list Z) (bs : list block) : Prop := {
  ly_entries : 0 < entries h;
  ly_start : entries h + 4 * MM_INDEX_COUNT <= start h;
  ly_end : end_ h < 0x80000000;
  ly_mapped : mapped m (entries h) (end_ h);
  ly_chain : chain (start h) bs (end_ h);
  ly_blocks : Forall (block_ok m) bs;
  ly_index : index_ok m h hs;
  ly_holes : hs ≡ₚ holes bs }.

Definition heap_ok (bs : list block) (s : pstate heap_state) : Prop :=
  exists h hs, kheap (alloc_state s) = Some h /\ layout (hmem (alloc_state s)) h hs bs.

Lemma at_eta s h : kheap (alloc_state s) = Some h -> s = at_ s (hmem (alloc_state s)) h.
Proof. destruct s as [? ? ? ? ? ? ? [m k p]]. cbn. by intros ->. Qed.

Lemma at_at s m h m' h' : at_ (at_ s m h) m' h' = at_ s m' h'.
Proof. done. Qed.

Lemma chain_app a l1 l2 e : chain a (l1 ++ l2) e <-> exists x, chain a l1 x /\ chain x l2 e.
Proof.
  revert a. induction l1 as [|b l1 IH]; intros a; cbn [app chain].
  - split; [intros H; by exists a|by intros (x & -> & H)].
  - rewrite IH. naive_solver.
Qed.

Lemma chain_le a bs e : chain a bs e -> a <= e.
Proof. revert a. induction bs as [|b bs IH]; intros a; cbn [chain]; [lia|]. intros (_ & H1 & H2%IH). lia. Qed.

Lemma chain_bounds a bs e b : chain a bs e -> b ∈ bs -> a <= b_at b /\ 16 <= b_size b /\ b_at b + b_size b <= e.
Proof.
  revert a. induction bs as [|c bs IH]; intros a; cbn [chain]; [by intros _ ?%elem_of_nil|].
  intros (Ha & Hs & Hc) [->|Hb]%elem_of_cons; [apply chain_le in Hc; lia|].
  apply (IH _ Hc) in Hb. lia.
Qed.

(** Where a block lies relative to the others. *)
Lemma chain_split a bs1 b bs2 e : chain a (bs1 ++ b :: bs2) e ->
  chain a bs1 (b_at b) /\ 16 <= b_size b /\ chain (b_at b + b_size b) bs2 e.
Proof. intros (x & H1 & <- & H2 & H3)%chain_app. done. Qed.

Lemma holes_app l1 l2 : holes (l1 ++ l2) = holes l1 ++ holes l2.
Proof. unfold holes. by rewrite filter_app, fmap_app. Qed.

Lemma holes_cons b bs : holes (b :: bs) = (if b_hole b then [b_at b] else []) ++ holes bs.
Proof.
  unfold holes. destruct (b_hole b) eqn:E; [by rewrite filter_cons_True|].
  rewrite filter_cons_False by congruence. done.
Qed.

Lemma elem_of_holes p bs : p ∈ holes bs <-> exists b, b ∈ bs /\ b_hole b = true /\ b_at b = p.
Proof.
  unfold holes. rewrite list_elem_of_fmap. split.
  - intros (b & -> & [Hh Hb]%list_elem_of_filter). by exists b.
  - intros (b & Hb & Hh & <-). exists b. split; [done|]. by apply list_elem_of_filter.
Qed.

Lemma block_ok_changed lo hi m m' b : changed_in lo hi m m' -> 0 <= b_at b -> 16 <= b_size b ->
  b_at b + b_size b <= 4294967296 -> (b_at b + b_size b <= lo \/ hi <= b_at b) -> block_ok m b -> block_ok m' b.
Proof.
  intros Hc H1 H2 H3 H4 (A & B & C & D). unfold block_ok.
  by rewrite !(load32_changed lo hi m m') by (done || lia).
Qed.

Lemma blocks_changed lo hi m m' a bs e : changed_in lo hi m m' -> chain a bs e -> 0 <= a -> e <= 0x80000000 ->
  (e <= lo \/ hi <= a) -> Forall (block_ok m) bs -> Forall (block_ok m') bs.
Proof.
  intros Hc Hch Ha He Hd H. apply Forall_forall. intros b Hb.
  destruct (chain_bounds _ _ _ _ Hch Hb) as (? & ? & ?).
  eapply block_ok_changed; [exact Hc|lia..|]. by eapply Forall_forall in H.
Qed.

Lemma block_has_size m b : block_ok m b -> 0 <= b_size b < 0x80000000 -> has_size m (b_at b) (b_size b).
Proof. intros (_ & H & _) Hs. split; [done|]. by exists (b_hole b). Qed.

(** Headers and footers that the allocator writes. *)
Lemma write_block_run s h m a n : 0 < a -> 16 <= n -> a + n <= 0x80000000 -> mapped m a (a + n) ->
  exists m', write_block a (a + n - 8) n (at_ s m h) = Ok (tt, at_ s m' h) /\
    block_ok m' (Block a n false) /\ changed_in a (a + n) m m'.
Proof.
  intros Ha Hn He Hm.
  assert (Hw : forall m0 p v, changed_in a (a + n) m m0 -> a <= p -> p + 4 <= a + n ->
    changed_in a (a + n) m (wr m0 p v) /\ mapped m0 p (p + 4)).
  { intros m0 p v Hc H1 H2. assert (Hmp : mapped m0 p (p + 4)).
    { intros x Hx. eapply changed_mapped; [exact Hc|exact Hm|lia]. }
    split; [|done]. eapply changed_trans; [exact Hc|]. by apply wr_changed. }
  unfold write_block, bind, set_magic, set_header, MM_FLAG_BLOCK.
  destruct (set_flag_run s m h a 0) as (w1 & -> & Hw1); [lia..|intros x Hx; apply Hm; lia|].
  destruct (Hw m (a + 4) w1) as [C1 _]; [apply changed_refl|lia..|]. set (m1 := wr m (a + 4) w1) in *.
  destruct (set_size_run s m1 h a n) as (w2 & -> & Hw2); [lia..|intros x Hx; eapply changed_mapped; [exact C1|exact Hm|lia]|].
  destruct (Hw m1 (a + 4) w2 C1) as [C2 _]; [lia..|]. set (m2 := wr m1 (a + 4) w2) in *.
  destruct (Hw m2 (a + n - 8) MM_MAGIC C2) as [C3 M2]; [lia..|]. rewrite store_run by (done || lia).
  set (m3 := wr m2 (a + n - 8) MM_MAGIC) in *.
  destruct (Hw m3 a MM_MAGIC C3) as [C4 M3]; [lia..|]. rewrite store_run by (done || lia).
  set (m4 := wr m3 a MM_MAGIC) in *.
  destruct (Hw m4 (a + n - 8 + 4) a C4) as [C5 M4]; [lia..|]. rewrite store_run by (done || lia).
  eexists. split; [done|]. split; [|exact C5].
  destruct (load32_mapped m (a + 4)) as [x Hx]; [lia..|intros y Hy; apply Hm; lia|].
  specialize (Hw1 x Hx).
  assert (E1 : load32 m1 (a + 4) = Some (x mod 0x80000000)).
  { subst m1 w1. rewrite load32_wr_eq by lia. f_equal. lia. }
  specialize (Hw2 _ E1). unfold block_ok, size_word. cbn [b_at b_size b_hole b2z].
  subst m4 m3 m2. split_and!.
  - rewrite load32_wr_ne, load32_wr_eq by (unfold MM_MAGIC; lia). done.
  - rewrite load32_wr_ne, load32_wr_ne, load32_wr_ne, load32_wr_eq by (unfold MM_MAGIC; lia). f_equal. lia.
  - rewrite load32_wr_ne, load32_wr_ne, load32_wr_eq by (unfold MM_MAGIC; lia). done.
  - replace (a + n - 4) with (a + n - 8 + 4) by lia. rewrite load32_wr_eq by (unfold MM_MAGIC; lia). done.
Qed.

Lemma write_hole_run s h m a n : 0 < a -> 16 <= n -> a + n <= end_ h -> end_ h <= 0x80000000 ->
  mapped m a (a + n) ->
  exists m', write_hole a n (at_ s m h) = Ok (tt, at_ s m' h) /\
    block_ok m' (Block a n true) /\ changed_in a (a + n) m m'.
Proof.
  intros Ha Hn He He' Hm.
  assert (Hw : forall m0 p v, changed_in a (a + n) m m0 -> a <= p -> p + 4 <= a + n ->
    changed_in a (a + n) m (wr m0 p v) /\ mapped m0 p (p + 4)).
  { intros m0 p v Hc H1 H2. assert (Hmp : mapped m0 p (p + 4)).
    { intros x Hx. eapply changed_mapped; [exact Hc|exact Hm|lia]. }
    split; [|done]. eapply changed_trans; [exact Hc|]. by apply wr_changed. }
  unfold write_hole, bind, set_magic, MM_FLAG_HOLE.
  destruct (Hw m a MM_MAGIC) as [C1 M1]; [apply changed_refl|lia..|]. rewrite store_run by (done || lia).
  set (m1 := wr m a MM_MAGIC) in *.
  destruct (set_flag_run s m1 h a 1) as (w1 & -> & Hw1); [lia..|intros x Hx; eapply changed_mapped; [exact C1|exact Hm|lia]|].
  destruct (Hw m1 (a + 4) w1 C1) as [C2 M2]; [lia..|]. set (m2 := wr m1 (a + 4) w1) in *.
  destruct (set_size_run s m2 h a n) as (w2 & -> & Hw2); [lia..|intros x Hx; eapply changed_mapped; [exact C2|exact Hm|lia]|].
  destruct (Hw m2 (a + 4) w2 C2) as [C3 M3]; [lia..|]. set (m3 := wr m2 (a + 4) w2) in *.
  destruct (load32_mapped m1 (a + 4)) as [x Hx]; [lia..|done|].
  specialize (Hw1 x Hx).
  assert (E1 : load32 m2 (a + 4) = Some (x mod 0x80000000 + 0x80000000)).
  { subst m2 w1. rewrite load32_wr_eq by lia. f_equal. }
  specialize (Hw2 _ E1).
  assert (E2 : load32 m3 (a + 4) = Some (size_word n true)).
  { subst m3 w2. unfold size_word. cbn [b2z]. rewrite load32_wr_eq by lia. f_equal. lia. }
  rewrite (get_size_run s m3 h a n true ltac:(lia) E2). rewrite get_heap_run. unfold sizeof_mm_footer.
  rewrite u32_id by lia. zcond. unfold set_footer, bind, set_magic, set_header.
  destruct (Hw m3 (a + n - 8) MM_MAGIC C3) as [C4 M4]; [lia..|]. rewrite store_run by (done || lia).
  set (m4 := wr m3 (a + n - 8) MM_MAGIC) in *.
  destruct (Hw m4 (a + n - 8 + 4) a C4) as [C5 M5]; [lia..|]. rewrite store_run by (done || lia).
  eexists. split; [done|]. split; [|exact C5].
  unfold block_ok. cbn [b_at b_size b_hole]. subst m4. split_and!.
  - subst m3 m2 m1. do 4 rewrite load32_wr_ne by lia. apply load32_wr_eq; unfold MM_MAGIC; lia.
  - by do 2 rewrite load32_wr_ne by lia.
  - rewrite load32_wr_ne by lia. apply load32_wr_eq; unfold MM_MAGIC; lia.
  - replace (a + n - 4) with (a + n - 8 + 4) by lia. apply load32_wr_eq; lia.
Qed.

(** What an allocation of [size] bytes makes of the hole it takes: what would
    be left is a hole of its own unless it is too small for that. *)
Definition split_hole (b : block) (size : Z) : list block :=
  if b_size b - 16 <? size + 16 then [Block (b_at b) (b_size b) false]
  else [Block (b_at b) (size + 16) false; Block (b_at b + (size + 16)) (b_size b - (size + 16)) true].

(** The layout while a hole is taken out of the index: [b] is no block yet. *)
Lemma layout_holes m h hs bs b : layout m h hs bs -> b ∈ bs ->
  0 < b_at b /\ start h <= b_at b /\ 16 <= b_size b /\ b_at b + b_size b <= end_ h /\
  block_ok m b /\ has_size m (b_at b) (b_size b).
Proof.
  intros L Hb. destruct (chain_bounds _ _ _ _ (ly_chain _ _ _ _ L) Hb) as (H1 & H2 & H3).
  pose proof (ly_entries _ _ _ _ L). pose proof (ly_start _ _ _ _ L). pose proof (ly_end _ _ _ _ L).
  unfold MM_INDEX_COUNT in *.
  assert (Hok : block_ok m b) by (by eapply Forall_forall in Hb; [|exact (ly_blocks _ _ _ _ L)]).
  split_and!; [lia..|done|]. apply block_has_size; [done|lia].
Qed.

Lemma holes_have_size m h hs bs : layout m h hs bs -> Forall (fun p => exists z, has_size m p z) hs.
Proof.
  intros L. apply Forall_forall. intros p Hp. rewrite (ly_holes _ _ _ _ L) in Hp.
  apply elem_of_holes in Hp as (b & Hb & _ & <-). exists (b_size b).
  by destruct (layout_holes _ _ _ _ b L Hb) as (_ & _ & _ & _ & _ & ?).
Qed.

Lemma index_ok_changed lo hi m m' h hs : changed_in lo hi m m' -> 0 < entries h ->
  entries h + 4 * MM_INDEX_COUNT <= lo -> entries h + 4 * MM_INDEX_COUNT <= 0x80000000 ->
  index_ok m h hs -> index_ok m' h hs.
Proof.
  intros Hc H1 H2 H3 [A B C D]. unfold MM_INDEX_COUNT in *. split; try done.
  eapply cells_changed; [exact Hc|lia..|done].
Qed.

(** The blocks beside one that is written over. *)
Lemma beside_changed lo hi m m' a bs1 b bs2 e : changed_in lo hi m m' -> chain a (bs1 ++ b :: bs2) e ->
  0 <= a -> e <= 0x80000000 -> (hi <= a \/ b_at b <= lo /\ hi <= b_at b + b_size b) ->
  Forall (block_ok m) (bs1 ++ bs2) -> Forall (block_ok m') (bs1 ++ bs2).
Proof.
  intros Hc (C1 & Hs & C2)%chain_split Ha He Hd [H1 H2]%Forall_app.
  pose proof (chain_le _ _ _ C1). pose proof (chain_le _ _ _ C2).
  apply Forall_app. split; (eapply blocks_changed; [exact Hc|eassumption|lia..|done]).
Qed.

(** The header at [p] is outside the bytes from [lo] to [hi]. *)
Definition header_outside (lo hi p : Z) : Prop := 0 <= p /\ p + 8 <= 4294967296 /\ (p + 8 <= lo \/ hi <= p).

Lemma beside_sizes m a bs1 b bs2 e l : chain a (bs1 ++ b :: bs2) e -> 0 <= a -> e < 0x80000000 ->
  Forall (block_ok m) (bs1 ++ bs2) -> l ≡ₚ holes (bs1 ++ bs2) ->
  Forall (fun p => (exists z, has_size m p z) /\ header_outside (b_at b - 8) (b_at b + b_size b) p) l.
Proof.
  intros Hch Ha He Hok Hl. apply Forall_forall. intros p Hp. rewrite Hl in Hp.
  apply elem_of_holes in Hp as (c & Hc & _ & <-).
  assert (Hcok : block_ok m c) by (by eapply Forall_forall in Hc).
  destruct (chain_split _ _ _ _ _ Hch) as (C1 & Hs & C2).
  pose proof (chain_le _ _ _ C1). pose proof (chain_le _ _ _ C2). unfold header_outside.
  apply elem_of_app in Hc as [Hc|Hc].
  - destruct (chain_bounds _ _ _ _ C1 Hc) as (? & ? & ?). split; [|lia].
    exists (b_size c). apply block_has_size; [done|lia].
  - destruct (chain_bounds _ _ _ _ C2 Hc) as (? & ? & ?). split; [|lia].
    exists (b_size c). apply block_has_size; [done|lia].
Qed.

Lemma header_outside_weaken lo lo' hi p : lo <= lo' -> header_outside lo hi p -> header_outside lo' hi p.
Proof. unfold header_outside. lia. Qed.

Lemma has_size_changed lo hi m m' p z : changed_in lo hi m m' -> header_outside lo hi p ->
  has_size m p z -> has_size m' p z.
Proof.
  intros Hc (H1 & H2 & H3) (Hz & hole & H). split; [done|]. exists hole.
  by rewrite (load32_changed lo hi m m') by (done || lia).
Qed.

(** The bytes of the blocks in a list. *)
Definition same_bytes (bs : list block) (m m' : gmap Z Z) : Prop :=
  forall c a, c ∈ bs -> b_at c <= a < b_at c + b_size c -> m' !! a = m !! a.

Lemma beside_bytes lo hi m m' a bs1 b bs2 e : changed_in lo hi m m' -> chain a (bs1 ++ b :: bs2) e ->
  (hi <= a \/ b_at b <= lo /\ hi <= b_at b + b_size b) -> same_bytes (bs1 ++ bs2) m m'.
Proof.
  intros [_ Hc] (C1 & Hs & C2)%chain_split Hd c x [Hin|Hin]%elem_of_app Hx; apply Hc;
    pose proof (chain_le _ _ _ C1).
  - destruct (chain_bounds _ _ _ _ C1 Hin) as (? & ? & ?). lia.
  - destruct (chain_bounds _ _ _ _ C2 Hin) as (? & ? & ?). lia.
Qed.

Lemma same_bytes_trans bs m1 m2 m3 : same_bytes bs m1 m2 -> same_bytes bs m2 m3 -> same_bytes bs m1 m3.
Proof. intros H1 H2 c a Hc Ha. by rewrite (H2 c a Hc Ha), (H1 c a Hc Ha). Qed.

Lemma chain_replace a bs1 b new bs2 e : chain a (bs1 ++ b :: bs2) e ->
  chain (b_at b) new (b_at b + b_size b) -> chain a (bs1 ++ new ++ bs2) e.
Proof.
  intros (C1 & Hs & C2)%chain_split Hn. apply chain_app. exists (b_at b). split; [done|].
  apply chain_app. by exists (b_at b + b_size b).
Qed.

(** Taking a hole out of the index. *)
Lemma layout_others m h hs1 hs2 bs1 b bs2 : layout m h (hs1 ++ b_at b :: hs2) (bs1 ++ b :: bs2) ->
  b_hole b = true -> hs1 ++ hs2 ≡ₚ holes (bs1 ++ bs2).
Proof.
  intros L Hh. pose proof (ly_holes _ _ _ _ L) as H. rewrite holes_app, holes_cons, Hh in H. cbn [app] in H.
  rewrite <- !Permutation_middle in H. apply Permutation_cons_inv in H. by rewrite holes_app.
Qed.

(** A block at [a] in a hole of [total] bytes, with a rest that is a hole. *)
Lemma place_block_split s m h hs a total size : 0 < entries h -> entries h + 4 * MM_INDEX_COUNT <= a ->
  mapped m (entries h) (a + total) -> a + total <= end_ h -> end_ h < 0x80000000 -> index_ok m h hs ->
  Z.of_nat (length hs) + 1 < MM_INDEX_COUNT -> 0 < size -> size + 32 <= total ->
  Forall (fun p => p = a \/ (exists z, has_size m p z) /\ header_outside a (a + total) p) hs ->
  exists m3 m4 hs', place_block a total size (size + 16) (at_ s m h) =
      Ok (a + 8, at_ s m4 (with_count h (entrycount h + 1))) /\
    hs' ≡ₚ a + (size + 16) :: hs /\ index_ok m4 (with_count h (entrycount h + 1)) hs' /\
    block_ok m4 (Block a (size + 16) false) /\ block_ok m4 (Block (a + (size + 16)) (total - (size + 16)) true) /\
    changed_in a (a + total) m m3 /\ index_region h m3 m4.
Proof.
  intros H1 H2 Hm H3 H4 I Hroom Hsz Hfit Hhs. assert (Hix : MM_INDEX_COUNT = 2048) by done.
  unfold place_block, bind, sizeof_mm_header.
  replace (u32 (a + 8 + size)) with (a + (size + 16) - 8) by (rewrite u32_id by lia; lia).
  destruct (write_block_run s h m a (size + 16)) as (m2 & Hwb & W2 & C2); [lia..|intros x Hx; apply Hm; lia|].
  rewrite Hwb, (u32_id (total - (size + 16))) by lia.
  replace (total - (size + 16) =? 0) with false by lia. cbn [negb].
  rewrite (u32_id (a + (size + 16))), (u32_id (a + 8)) by lia.
  destruct (write_hole_run s h m2 (a + (size + 16)) (total - (size + 16))) as (m3 & Hwh & W3 & C3);
    [lia..|intros x Hx; eapply changed_mapped; [exact C2|exact Hm|lia]|]. rewrite Hwh.
  assert (C : changed_in a (a + total) m m3).
  { eapply changed_trans; [eapply changed_weaken; [exact C2|lia..]|eapply changed_weaken; [exact C3|lia..]]. }
  assert (I3 : index_ok m3 h hs) by (eapply index_ok_changed; [exact C|lia..|done]).
  assert (W23 : block_ok m3 (Block a (size + 16) false)) by (eapply block_ok_changed; [exact C3|cbn; lia..|done]).
  destruct (heap_add_entry_run s h H1 ltac:(lia) m3 hs (a + (size + 16)) (total - (size + 16)) I3 ltac:(lia))
    as (m4 & hs' & Hadd & P4 & I4 & R4).
  { intros x Hx. eapply changed_mapped; [exact C|exact Hm|lia]. }
  { apply (block_has_size _ _ W3). cbn. lia. }
  { unfold is_word. lia. }
  { eapply Forall_impl; [exact Hhs|]. intros p [->|[[z Hz] Ho]].
    - exists (size + 16). apply (block_has_size _ _ W23). cbn. lia.
    - exists z. by eapply has_size_changed. }
  rewrite Hadd. exists m3, m4, hs'. unfold index_region in R4.
  split_and!; try done; (eapply block_ok_changed; [exact R4|cbn; lia..|done]).
Qed.

Lemma take_hole_run s m h hs1 hs2 bs1 b bs2 size :
  layout m h (hs1 ++ b_at b :: hs2) (bs1 ++ b :: bs2) -> b_hole b = true -> 0 < size -> size + 16 <= b_size b ->
  exists m' h' hs', take_hole (Z.of_nat (length hs1)) size (size + 16) false (at_ s m h) =
      Ok (b_at b + 8, at_ s m' h') /\
    layout m' h' hs' (bs1 ++ split_hole b size ++ bs2) /\ same_bytes (bs1 ++ bs2) m m'.
Proof.
  intros L Hh Hsz Hfit. pose proof L as [L1 L2 L3 L4 L5 L6 L7 L8].
  destruct (layout_holes _ _ _ _ b L) as (B1 & B2 & B3 & B4 & Bok & Bs).
  { apply elem_of_app. right. apply elem_of_cons. by left. }
  assert (Hst : 0 < start h) by (unfold MM_INDEX_COUNT in *; lia).
  assert (Hix : MM_INDEX_COUNT = 2048) by done.
  assert (Hent : entries h + 4 * MM_INDEX_COUNT <= 0x80000000) by lia.
  assert (Hmi : mapped m (entries h) (entries h + 4 * MM_INDEX_COUNT)) by (intros x Hx; apply L4; lia).
  assert (Hrest : Forall (block_ok m) (bs1 ++ bs2)).
  { apply Forall_app in L6 as [? [_ ?]%Forall_cons]. by apply Forall_app. }
  assert (Hhs : hs1 ++ hs2 ≡ₚ holes (bs1 ++ bs2)) by (by apply (layout_others m h _ _ _ b)).
  unfold take_hole, bind.
  pose proof (ix_cells _ _ _ L7) as Hcells. apply cells_app in Hcells as [_ Hcell]. apply cells_cons in Hcell as [Hcell _].
  rewrite Z.add_0_l in Hcell. erewrite get_entry_run by exact Hcell. rewrite (has_size_run _ _ _ _ _ Bs).
  cbn [andb]. unfold sizeof_mm_header, sizeof_mm_footer.
  destruct (heap_del_entry_run s h L1 Hent m hs1 (b_at b) hs2 L7 Hmi) as (m1 & Hdel & I1 & R1).
  rewrite Hdel. cbn [bind ret]. unfold ret. set (h1 := with_count h (entrycount h - 1)) in *.
  assert (Hlow : entries h + 4 * MM_INDEX_COUNT <= start h) by done.
  assert (M1 : mapped m1 (entries h) (end_ h)) by (by eapply changed_mapped).
  assert (K1 : Forall (block_ok m1) (bs1 ++ bs2)) by (eapply beside_changed; [exact R1|exact L5|lia..|done]).
  assert (S1 : same_bytes (bs1 ++ bs2) m m1) by (eapply beside_bytes; [exact R1|exact L5|lia]).
  replace (u32 (b_size b - 8 - 8) <? size + 16) with (b_size b - 16 <? size + 16) by (rewrite u32_id by lia; f_equal; lia).
  assert (Hnew : Forall (fun p => p = b_at b \/ (exists z, has_size m1 p z) /\
    header_outside (b_at b) (b_at b + b_size b) p) (hs1 ++ hs2)).
  { eapply Forall_impl; [eapply (beside_sizes m1); [exact L5|lia..|exact K1|exact Hhs]|].
    intros p [Hz Ho]. right. split; [exact Hz|]. eapply header_outside_weaken; [|exact Ho]. lia. }
  unfold split_hole. destruct (b_size b - 16 <? size + 16) eqn:Esplit.
  - unfold place_block, bind, sizeof_mm_header.
    rewrite (u32_id (size + (b_size b - (size + 16)))) by lia.
    replace (u32 (b_at b + 8 + (size + (b_size b - (size + 16))))) with (b_at b + b_size b - 8) by (rewrite u32_id by lia; lia).
    destruct (write_block_run s h1 m1 (b_at b) (b_size b)) as (m2 & Hwb & W2 & R2);
      [lia..|intros x Hx; apply M1; lia|]. rewrite Hwb.
    rewrite Z.sub_diag, (u32_id 0), (u32_id (b_at b + 8)) by lia. cbn [Z.eqb negb].
    exists m2, h1, (hs1 ++ hs2). split; [done|].
    split; [|by eapply same_bytes_trans; [exact S1|]; eapply beside_bytes; [exact R2|exact L5|lia]].
    split; try done.
    + by eapply changed_mapped.
    + eapply chain_replace; [exact L5|]. cbn. lia.
    + assert (K2 : Forall (block_ok m2) (bs1 ++ bs2)) by (eapply beside_changed; [exact R2|exact L5|lia..|done]).
      apply Forall_app in K2 as [? ?]. apply Forall_app. split; [done|]. by apply Forall_cons.
    + eapply index_ok_changed; [exact R2|cbn; lia..|done].
    + by rewrite !holes_app in *.
  - destruct (place_block_split s m1 h1 (hs1 ++ hs2) (b_at b) (b_size b) size)
      as (m3 & m4 & hs' & Hplace & P4 & I4 & W4 & W4' & R3 & R4);
      [done|cbn; lia|intros x Hx; apply M1; cbn in Hx; lia|cbn; lia|done|done| |lia|lia|done|].
    { pose proof (ix_room _ _ _ L7) as Hr. rewrite length_app in *. cbn [length] in Hr. lia. }
    unfold index_region in R4. cbn [entries with_count h1] in R4.
    exists m4, (with_count h1 (entrycount h1 + 1)), hs'. split; [exact Hplace|].
    assert (K3 : Forall (block_ok m3) (bs1 ++ bs2)) by (eapply beside_changed; [exact R3|exact L5|lia..|done]).
    split; [|eapply same_bytes_trans; [exact S1|]; eapply same_bytes_trans;
      [eapply beside_bytes; [exact R3|exact L5|lia]|eapply beside_bytes; [exact R4|exact L5|lia]]].
    split; try done.
    + cbn [entries end_ with_count]. eapply changed_mapped; [exact R4|]. by eapply changed_mapped.
    + eapply chain_replace; [exact L5|]. cbn. lia.
    + assert (K4 : Forall (block_ok m4) (bs1 ++ bs2)) by (eapply beside_changed; [exact R4|exact L5|lia..|done]).
      apply Forall_app in K4 as [? ?]. apply Forall_app. split; [done|]. cbn [app].
      apply Forall_cons. split; [done|]. by apply Forall_cons.
    + rewrite P4, Hhs, !holes_app, !holes_cons. cbn. by rewrite <- Permutation_middle.
Qed.

(** The size a header in memory holds. *)
Definition size_at (m : gmap Z Z) (p : Z) : Z := default 0 (load32 m (p + 4)) mod 0x80000000.

Lemma size_at_block m b : block_ok m b -> 0 <= b_size b < 0x80000000 -> size_at m (b_at b) = b_size b.
Proof.
  intros (_ & H & _) Hs. unfold size_at. rewrite H. cbn. unfold size_word. destruct (b_hole b); cbn; lia.
Qed.

Lemma holes_size_at m h hs bs : layout m h hs bs -> Forall (fun p => has_size m p (size_at m p)) hs.
Proof.
  intros L. apply Forall_forall. intros p Hp. rewrite (ly_holes _ _ _ _ L) in Hp.
  apply elem_of_holes in Hp as (b & Hb & _ & <-).
  destruct (layout_holes _ _ _ _ b L Hb) as (_ & _ & ? & _ & Hok & Hs).
  rewrite size_at_block; [done|done|]. by destruct Hs.
Qed.

(** The search for a hole, on a well-formed heap. *)
Lemma find_smallest_hole_run s m h hs bs size : layout m h hs bs ->
  (exists b, b ∈ bs /\ b_hole b = true /\ size <= b_size b) ->
  exists hs1 b hs2 bs1 bs2, hs = hs1 ++ b_at b :: hs2 /\ bs = bs1 ++ b :: bs2 /\ b_hole b = true /\
    size <= b_size b /\
    find_smallest_hole size false (at_ s m h) = Ok (Z.of_nat (length hs1), at_ s m h).
Proof.
  intros L (b0 & Hb0 & Hh0 & Hs0). pose proof (ly_index _ _ _ _ L) as [Hcnt Hroom Hc Hw].
  assert (Hex : Exists (fun p => size <= size_at m p) hs).
  { apply Exists_exists. exists (b_at b0). split.
    - rewrite (ly_holes _ _ _ _ L). apply elem_of_holes. by exists b0.
    - destruct (layout_holes _ _ _ _ b0 L Hb0) as (_ & _ & ? & _ & Hok & [? _]).
      by rewrite size_at_block. }
  destruct (find_hole_run s h m size hs (size_at m) 0 Hc (holes_size_at _ _ _ _ L) Hex)
    as (hs1 & p & hs2 & -> & Hp & _ & Hrun).
  assert (Hin : p ∈ holes bs) by (rewrite <- (ly_holes _ _ _ _ L); apply elem_of_app; right; left).
  apply elem_of_holes in Hin as (b & Hb & Hh & <-).
  destruct (layout_holes _ _ _ _ b L Hb) as (_ & _ & ? & _ & Hok & [? _]).
  rewrite size_at_block in Hp by done.
  apply list_elem_of_split in Hb as (bs1 & bs2 & ->).
  exists hs1, b, hs2, bs1, bs2. split_and!; try done.
  unfold find_smallest_hole, bind. rewrite get_heap_run, Hcnt, Nat2Z.id, Hrun. done.
Qed.

(** C3: [malloc] from a heap that has a hole large enough returns the payload of
    such a hole, cut to the request (what is left becomes a hole of its own, unless it is
    too small), keeps the heap well formed, and changes no byte of any other
    block or hole: no block is handed out twice. *)
Theorem heap_malloc_ok mkpage n size bs s :
  heap_ok bs s -> 0 < size -> (exists b, b ∈ bs /\ b_hole b = true /\ size + 16 <= b_size b) ->
  exists bs1 b bs2 s', bs = bs1 ++ b :: bs2 /\ b_hole b = true /\ size + 16 <= b_size b /\
    heap_malloc mkpage (S n) size false s = Ok (b_at b + 8, s') /\
    heap_ok (bs1 ++ split_hole b size ++ bs2) s' /\
    same_bytes (bs1 ++ bs2) (hmem (alloc_state s)) (hmem (alloc_state s')).
Proof.
  intros (h & hs & Hk & L) Hsz Hex. pose proof (at_eta s h Hk) as Hs. set (m := hmem (alloc_state s)) in *.
  destruct (find_smallest_hole_run s m h hs bs (size + 16) L Hex)
    as (hs1 & b & hs2 & bs1 & bs2 & -> & -> & Hh & Hfit & Hfind).
  destruct (take_hole_run s m h hs1 hs2 bs1 b bs2 size L Hh Hsz Hfit) as (m' & h' & hs' & Htake & L' & Hsame).
  exists bs1, b, bs2, (at_ s m' h'). split_and!; try done; [|by exists h', hs'].
  destruct (layout_holes _ _ _ _ b L) as (? & ? & ? & ? & _ & _); [apply elem_of_app; right; left|].
  pose proof (ly_end _ _ _ _ L). pose proof (ix_room _ _ _ (ly_index _ _ _ _ L)) as Hr.
  rewrite length_app in Hr. cbn [length] in Hr. unfold MM_INDEX_COUNT in Hr.
  cbn [heap_malloc]. unfold bind. unfold sizeof_mm_header, sizeof_mm_footer.
  replace (u32 (size + 8 + 8)) with (size + 16) by (rewrite u32_id by lia; lia).
  rewrite Hs, Hfind. replace (size =? 0) with false by lia. unfold MM_NO_HOLE.
  replace (Z.of_nat (length hs1) =? 0xFFFFFFFF) with false by lia. exact Htake.
Qed.

(** ** Freeing on a well-formed heap *)

Lemma block_flag_run s m h b : block_ok m b -> 0 <= b_size b < 0x80000000 ->
  get_flag (b_at b) (at_ s m h) = Ok (b2z (b_hole b), at_ s m h).
Proof. intros (_ & H & _) Hs. by eapply get_flag_run. Qed.

Lemma is_hole_run s m h b : block_ok m b -> 0 <= b_size b < 0x80000000 ->
  is_hole (b_at b) (at_ s m h) = Ok (b_hole b, at_ s m h).
Proof.
  intros Hok Hs. unfold is_hole, bind, get_magic. rewrite (load_run _ _ _ _ _ (proj1 Hok)), Z.eqb_refl.
  rewrite block_flag_run by done. unfold ret, MM_FLAG_HOLE. by destruct (b_hole b).
Qed.

Lemma hole_before_run s m h p : block_ok m p -> 0 <= b_size p < 0x80000000 -> 0 < b_at p -> 16 <= b_size p ->
  b_at p + b_size p < 0x80000000 ->
  hole_before (b_at p + b_size p) (at_ s m h) = Ok (if b_hole p then Some (b_at p) else None, at_ s m h).
Proof.
  intros Hok Hs Hp Hp' He. pose proof Hok as (M1 & _ & M2 & M3).
  unfold hole_before, bind, get_magic, get_header, sizeof_mm_footer. rewrite u32_id by lia.
  rewrite (load_run _ _ _ _ _ M2), Z.eqb_refl.
  replace (b_at p + b_size p - 8 + 4) with (b_at p + b_size p - 4) by lia.
  rewrite (load_run _ _ _ _ _ M3), (load_run _ _ _ _ _ M1), Z.eqb_refl.
  rewrite block_flag_run by done. unfold ret, MM_FLAG_HOLE. by destruct (b_hole p).
Qed.

(** Turning a block into a hole, in place. *)
Lemma set_hole_run s m h b : block_ok m b -> b_hole b = false -> 0 < b_at b -> 16 <= b_size b ->
  b_at b + b_size b < 0x80000000 -> mapped m (b_at b) (b_at b + b_size b) ->
  exists m', set_flag (b_at b) MM_FLAG_HOLE (at_ s m h) = Ok (tt, at_ s m' h) /\
    block_ok m' (Block (b_at b) (b_size b) true) /\ changed_in (b_at b) (b_at b + b_size b) m m'.
Proof.
  intros (A & B & C & D) Hh Hb Hs He Hm. unfold MM_FLAG_HOLE.
  destruct (set_flag_run s m h (b_at b) 1) as (w & -> & Hw); [lia..|intros x Hx; apply Hm; lia|].
  specialize (Hw _ B). rewrite Hh in Hw. unfold size_word in Hw. cbn [b2z] in Hw.
  eexists. split; [done|]. split; [|apply wr_changed; [lia..|intros x Hx; apply Hm; lia]].
  unfold block_ok. cbn [b_at b_size b_hole]. split_and!.
  - rewrite load32_wr_ne by lia. done.
  - rewrite load32_wr_eq by lia. unfold size_word. cbn [b2z]. f_equal. lia.
  - rewrite load32_wr_ne by lia. done.
  - rewrite load32_wr_ne by lia. done.
Qed.

Lemma join_before_run s m h p b : block_ok m p -> block_ok m (Block (b_at b) (b_size b) true) ->
  b_hole p = true -> b_at b = b_at p + b_size p ->
  0 < b_at p -> 16 <= b_size p -> 16 <= b_size b -> b_at b + b_size b < 0x80000000 ->
  mapped m (b_at p) (b_at b + b_size b) ->
  exists m', join_before (b_at b + b_size b - 8) (b_size b) (b_at p) (at_ s m h) =
      Ok ((b_at p, false), at_ s m' h) /\
    block_ok m' (Block (b_at p) (b_size p + b_size b) true) /\
    changed_in (b_at p) (b_at b + b_size b) m m'.
Proof.
  intros (A & B & C & D) (A' & B' & C' & D') Hh Hpb Hp Hps Hbs He Hm. cbn [b_at b_size b_hole] in *.
  unfold join_before, bind, set_header.
  rewrite store_run by (lia || (intros x Hx; apply Hm; lia)).
  set (m1 := wr m (b_at b + b_size b - 8 + 4) (b_at p)).
  assert (C1 : changed_in (b_at p) (b_at b + b_size b) m m1).
  { apply wr_changed; [lia..|intros x Hx; apply Hm; lia]. }
  assert (B1 : load32 m1 (b_at p + 4) = Some (size_word (b_size p) true)).
  { subst m1. rewrite load32_wr_ne by lia. by rewrite B, Hh. }
  rewrite (get_size_run s m1 h (b_at p) (b_size p) true ltac:(lia) B1).
  destruct (set_size_run s m1 h (b_at p) (b_size p + b_size b)) as (w & -> & Hw);
    [lia..|intros x Hx; eapply changed_mapped; [exact C1|exact Hm|lia]|].
  specialize (Hw _ B1). unfold size_word in Hw. cbn [b2z] in Hw.
  eexists. split; [done|]. split.
  - unfold block_ok. cbn [b_at b_size b_hole]. subst m1. split_and!.
    + do 2 rewrite load32_wr_ne by lia. done.
    + rewrite load32_wr_eq by lia. unfold size_word. cbn [b2z]. f_equal. lia.
    + do 2 rewrite load32_wr_ne by lia. rewrite <- C'. f_equal. lia.
    + rewrite load32_wr_ne by lia. replace (b_at p + (b_size p + b_size b) - 4) with (b_at b + b_size b - 8 + 4) by lia.
      by rewrite load32_wr_eq by lia.
  - eapply changed_trans; [exact C1|]. apply wr_changed; [lia..|].
    intros x Hx. eapply changed_mapped; [exact C1|exact Hm|lia].
Qed.

(** What freeing [b] behind [p] makes of the two. *)
Definition freed (p b : block) : list block :=
  if b_hole p then [Block (b_at p) (b_size p + b_size b) true] else [p; Block (b_at b) (b_size b) true].

(** Three neighbours in a chain. *)
Lemma chain_three a l p b c r e : chain a (l ++ p :: b :: c :: r) e ->
  chain a l (b_at p) /\ 16 <= b_size p /\ b_at b = b_at p + b_size p /\ 16 <= b_size b /\
  b_at c = b_at b + b_size b /\ 16 <= b_size c /\ chain (b_at c + b_size c) r e.
Proof.
  intros (x & H1 & H2)%chain_app. cbn [chain] in H2. destruct H2 as (<- & Hp & Hb & Hbs & Hc & Hcs & Hr).
  split_and!; try done; [lia|by rewrite Hc].
Qed.

(** No hole behind the freed block, and not the end of the heap: nothing to join, nothing to trim. *)
Lemma join_after_block s m h header footer c : block_ok m c -> b_hole c = false -> 0 <= b_size c < 0x80000000 ->
  0 <= footer -> b_at c = footer + 8 -> b_at c < 0x80000000 ->
  join_after header footer (at_ s m h) = Ok (footer, at_ s m h).
Proof.
  intros Hok Hh Hs Hf Hc He. unfold join_after, bind, sizeof_mm_footer. rewrite u32_id by lia.
  rewrite <- Hc, is_hole_run, Hh by done. done.
Qed.

Lemma trim_inside rm s m h header footer : 0 <= footer -> footer + 8 < end_ h -> end_ h < 0x80000000 ->
  trim rm header footer (at_ s m h) = Ok (tt, at_ s m h).
Proof.
  intros H1 H2 H3. unfold trim, bind, sizeof_mm_footer. rewrite get_heap_run, u32_id by lia.
  by replace (footer + 8 =? end_ h) with false by lia.
Qed.

Lemma chain_join a l p b r e : chain a (l ++ p :: b :: r) e -> chain a (l ++ freed p b ++ r) e.
Proof.
  intros (x & H1 & <- & Hp & Hb & Hbs & Hr)%chain_app. apply chain_app. exists (b_at p). split; [done|].
  unfold freed. destruct (b_hole p); cbn [app chain b_at b_size].
  - split_and!; [done|lia|]. by replace (b_at p + (b_size p + b_size b)) with (b_at p + b_size p + b_size b) by lia.
  - done.
Qed.

Lemma holes_freed l p b r : b_hole b = false ->
  holes (l ++ freed p b ++ r) ≡ₚ (if b_hole p then [] else [b_at b]) ++ holes (l ++ p :: b :: r).
Proof.
  intros Hb. unfold freed. destruct (b_hole p) eqn:Hp; rewrite !holes_app; cbn [app];
    rewrite !holes_cons, ?Hp, ?Hb; cbn [b_hole b_at app]; rewrite ?Hp; cbn [app]; [done|].
  by rewrite <- Permutation_middle.
Qed.

(** What stays as it is while [p] and [b] are joined: the blocks on both
    sides, and, until a hole is added or removed, the index. *)
Definition around (m : gmap Z Z) (h : heap) (hs : list Z) (l : list block) (c : block) (r : list block) : Prop :=
  mapped m (entries h) (end_ h) /\ Forall (block_ok m) (l ++ c :: r) /\ index_ok m h hs.

Lemma around_changed lo hi m m' h hs l p b c r : 0 < entries h -> entries h + 4 * MM_INDEX_COUNT <= start h ->
  end_ h < 0x80000000 -> chain (start h) (l ++ p :: b :: c :: r) (end_ h) ->
  changed_in lo hi m m' -> b_at p <= lo -> hi <= b_at c ->
  around m h hs l c r -> around m' h hs l c r /\ same_bytes (l ++ c :: r) m m'.
Proof.
  intros H1 H2 H3 Hch C Hlo Hhi (M & K & I). assert (Hix : MM_INDEX_COUNT = 2048) by done.
  destruct (chain_three _ _ _ _ _ _ _ Hch) as (Cl & Hp16 & Hpb & Hb16 & Hbc & Hc16 & Cr).
  pose proof (chain_le _ _ _ Cl). pose proof (chain_le _ _ _ Cr).
  set (q := Block (b_at p) (b_size p + b_size b) true).
  assert (Hq : chain (start h) (l ++ q :: c :: r) (end_ h)).
  { apply chain_app. exists (b_at p). split; [done|]. cbn. split_and!; try lia.
    replace (b_at p + (b_size p + b_size b) + b_size c) with (b_at c + b_size c) by lia. done. }
  split; [split_and!|].
  - by eapply changed_mapped.
  - eapply beside_changed; [exact C|exact Hq|cbn; lia..|done].
  - eapply index_ok_changed; [exact C|lia..|done].
  - eapply beside_bytes; [exact C|exact Hq|cbn; lia].
Qed.

(** The same for a change of the index. *)
Lemma around_index m m' h l p b c r : 0 < entries h -> entries h + 4 * MM_INDEX_COUNT <= start h ->
  end_ h < 0x80000000 -> chain (start h) (l ++ p :: b :: c :: r) (end_ h) -> index_region h m m' ->
  Forall (block_ok m) (l ++ c :: r) -> Forall (block_ok m') (l ++ c :: r) /\ same_bytes (l ++ c :: r) m m'.
Proof.
  intros H1 H2 H3 Hch C K. assert (Hix : MM_INDEX_COUNT = 2048) by done. unfold index_region in C.
  destruct (chain_three _ _ _ _ _ _ _ Hch) as (Cl & Hp16 & Hpb & Hb16 & Hbc & Hc16 & Cr).
  pose proof (chain_le _ _ _ Cl). pose proof (chain_le _ _ _ Cr).
  assert (Cc : chain (b_at c) (c :: r) (end_ h)) by done.
  apply Forall_app in K as [K1 K2]. split.
  - apply Forall_app. split; (eapply blocks_changed; [exact C|eassumption|lia..|done]).
  - destruct C as [_ C]. intros d x [Hd|Hd]%elem_of_app Hx; apply C.
    + destruct (chain_bounds _ _ _ _ Cl Hd) as (? & ? & ?). lia.
    + destruct (chain_bounds _ _ _ _ Cc Hd) as (? & ? & ?). lia.
Qed.

(** [heap_free] up to joining the hole in front. *)
Lemma heap_free_front rm s m h hs l p b c r : layout m h hs (l ++ p :: b :: c :: r) -> b_hole b = false ->
  exists m1, block_ok m1 (Block (b_at b) (b_size b) true) /\ changed_in (b_at b) (b_at b + b_size b) m m1 /\
    around m1 h hs l c r /\ same_bytes (l ++ c :: r) m m1 /\ block_ok m1 p /\
    heap_free rm (b_at b + 8) (at_ s m h) =
    (let! ' (header, opt) :=
       (if b_hole p then join_before (b_at b + b_size b - 8) (b_size b) (b_at p) else ret (b_at b, true)) in
     let! footer := join_after header (b_at b + b_size b - 8) in
     do! trim rm header footer;
     if opt then heap_add_entry header else ret tt) (at_ s m1 h).
Proof.
  intros L Hb. destruct (layout_holes _ _ _ _ p L) as (P1 & P2 & P3 & P4 & Pok & _);
    [apply elem_of_app; right; left|].
  destruct (layout_holes _ _ _ _ b L) as (B1 & B2 & B3 & B4 & Bok & Bs);
    [apply elem_of_app; right; right; left|].
  pose proof (ly_end _ _ _ _ L). destruct (chain_three _ _ _ _ _ _ _ (ly_chain _ _ _ _ L)) as (_ & _ & Hpb & _ & Hbc & _).
  pose proof (ly_entries _ _ _ _ L). pose proof (ly_start _ _ _ _ L). unfold MM_INDEX_COUNT in *.
  destruct (set_hole_run s m h b Bok Hb) as (m1 & Hset & W1 & C1);
    [lia..|intros x Hx; apply (ly_mapped _ _ _ _ L); lia|].
  assert (Pok1 : block_ok m1 p) by (eapply block_ok_changed; [exact C1|lia..|done]).
  assert (A0 : around m h hs l c r).
  { destruct L as [? ? ? ? ? K ? ?]. apply Forall_app in K as [? [_ [_ ?]%Forall_cons]%Forall_cons].
    split_and!; [done| |done]. by apply Forall_app. }
  destruct (around_changed _ _ _ _ _ _ _ _ _ _ _ (ly_entries _ _ _ _ L) (ly_start _ _ _ _ L) (ly_end _ _ _ _ L)
    (ly_chain _ _ _ _ L) C1 ltac:(lia) ltac:(lia) A0) as [A1 S1].
  exists m1. split_and!; [done..|].
  unfold heap_free. unfold bind at 1. cbn [gets at_ set_alloc alloc_state kheap].
  replace (b_at b + 8 =? 0) with false by lia. unfold sizeof_mm_header, sizeof_mm_footer.
  rewrite (u32_id (b_at b + 8 - 8)) by lia. replace (b_at b + 8 - 8) with (b_at b) by lia.
  pose proof Bok as (G1 & _ & G3 & _).
  unfold bind at 1. rewrite (has_size_run _ _ _ _ _ Bs). rewrite (u32_id (b_at b + b_size b - 8)) by lia.
  unfold bind at 1, get_magic at 1. rewrite (load_run _ _ _ _ _ G1), Z.eqb_refl.
  unfold bind at 1 2, get_magic at 1. rewrite (load_run _ _ _ _ _ G3), Z.eqb_refl. unfold ret at 1. cbn [negb].
  unfold bind at 1. rewrite (has_size_run _ _ _ _ _ Bs). unfold bind at 1. rewrite Hset.
  unfold bind at 1. rewrite Hpb, hole_before_run by (done || lia). rewrite <- Hpb. by destruct (b_hole p).
Qed.

(** Every hole there is can be read, when [p] and [b] are none. *)
Lemma around_sizes m l p b c r a e hs : chain a (l ++ p :: b :: c :: r) e -> 0 <= a -> e < 0x80000000 ->
  b_hole p = false -> b_hole b = false -> Forall (block_ok m) (l ++ c :: r) ->
  (forall x, x ∈ hs -> x ∈ holes (l ++ p :: b :: c :: r)) -> Forall (fun x => exists z, has_size m x z) hs.
Proof.
  intros Hch Ha He Hp Hb K Hin. apply Forall_forall. intros x Hx%Hin.
  apply elem_of_holes in Hx as (d & Hd & Hdh & <-). exists (b_size d).
  destruct (chain_bounds _ _ _ _ Hch Hd) as (? & ? & ?). apply block_has_size; [|lia].
  rewrite Forall_forall in K. apply K. apply elem_of_app.
  apply elem_of_app in Hd as [Hd|[->|[->|Hd]%elem_of_cons]%elem_of_cons]; [by left|congruence..|by right].
Qed.

(** A heap from its parts. *)
Lemma around_layout m h hs l c r mid : 0 < entries h -> entries h + 4 * MM_INDEX_COUNT <= start h ->
  end_ h < 0x80000000 -> around m h hs l c r -> chain (start h) (l ++ mid ++ c :: r) (end_ h) ->
  Forall (block_ok m) mid -> hs ≡ₚ holes (l ++ mid ++ c :: r) -> layout m h hs (l ++ mid ++ c :: r).
Proof.
  intros H1 H2 H3 (M & K & I) Hch Hmid Hhs. split; try done.
  apply Forall_app in K as [? ?]. apply Forall_app. split; [done|]. by apply Forall_app.
Qed.


(** Joining the hole [c] behind: only the header of the joined hole is written. *)
Lemma join_after_hole s m h hs b c : index_ok m h hs -> b_at c ∈ hs ->
  0 < entries h -> entries h + 4 * MM_INDEX_COUNT <= b_at b -> mapped m (entries h) (b_at c + b_size c) ->
  block_ok m b -> block_ok m c -> b_hole c = true -> 16 <= b_size b -> 16 <= b_size c ->
  b_at c = b_at b + b_size b -> b_at c + b_size c < 0x80000000 ->
  exists m1 m' hs', join_after (b_at b) (b_at c - 8) (at_ s m h) =
      Ok (b_at c + b_size c - 8, at_ s m' (with_count h (entrycount h - 1))) /\
    hs ≡ₚ b_at c :: hs' /\ index_ok m' (with_count h (entrycount h - 1)) hs' /\
    load32 m' (b_at b + 4) = Some (size_word (b_size b + b_size c) (b_hole b)) /\ block_ok m' c /\
    changed_in (b_at b) (b_at b + 8) m m1 /\ index_region h m1 m'.
Proof.
  intros I Hin H1 H2 Hm Bok Cok Hch Hb16 Hc16 Hc He.
  assert (Hix : MM_INDEX_COUNT = 2048) by done. pose proof Bok as (A & B & C & D).
  unfold join_after, bind, sizeof_mm_footer. rewrite (u32_id (b_at c - 8 + 8)) by lia.
  replace (b_at c - 8 + 8) with (b_at c) by lia. rewrite is_hole_run, Hch by (done || lia).
  assert (Bs : has_size m (b_at b) (b_size b)) by (apply block_has_size; [done|lia]).
  assert (Cs : has_size m (b_at c) (b_size c)) by (apply block_has_size; [done|lia]).
  rewrite (has_size_run _ _ _ _ _ Bs), (has_size_run _ _ _ _ _ Cs).
  destruct (set_size_run s m h (b_at b) (b_size b + b_size c)) as (w & -> & Hw);
    [lia..|intros x Hx; apply Hm; lia|].
  set (m1 := wr m (b_at b + 4) w).
  assert (C1 : changed_in (b_at b) (b_at b + 8) m m1).
  { apply wr_changed; [lia..|intros x Hx; apply Hm; lia]. }
  assert (Cok1 : block_ok m1 c) by (eapply block_ok_changed; [exact C1|lia..|done]).
  assert (Cs1 : has_size m1 (b_at c) (b_size c)) by (apply block_has_size; [done|lia]).
  rewrite (has_size_run _ _ _ _ _ Cs1). rewrite (u32_id (b_at c + b_size c - 8)) by lia.
  assert (I1 : index_ok m1 h hs) by (eapply index_ok_changed; [exact C1|lia..|done]).
  destruct (find_entry_run s h m1 (b_at c) hs 0 (ix_cells _ _ _ I1) Hin) as (l1 & l2 & -> & Hfind).
  unfold heap_find_entry, bind. rewrite get_heap_run, (ix_count _ _ _ I1), Nat2Z.id, Hfind, Z.add_0_l.
  destruct (heap_del_entry_run s h H1 ltac:(lia) m1 l1 (b_at c) l2 I1) as (m2 & Hdel & I2 & R2).
  { intros x Hx. eapply changed_mapped; [exact C1|exact Hm|lia]. }
  rewrite Hdel. rewrite <- (ix_count _ _ _ I1). exists m1, m2, (l1 ++ l2). unfold index_region in R2.
  split_and!; try done; [by rewrite Permutation_middle| |eapply block_ok_changed; [exact R2|lia..|done]].
  rewrite (load32_changed _ _ _ _ _ R2) by lia. subst m1. rewrite (Hw _ B).
  rewrite load32_wr_eq by (unfold size_word; destruct (b_hole b); cbn; lia).
  f_equal. unfold size_word. destruct (b_hole b); cbn; lia.
Qed.

(** Joining a freed block to the hole [c] behind it writes the size of the
    joined hole into its header, but leaves the footer at its end naming the
    header of [c], which is gone from the index: the next block that is freed
    behind the joined hole will be joined to that dead header. *)
Theorem heap_free_dead_footer rmpage s l p b c r :
  heap_ok (l ++ p :: b :: c :: r) s -> b_hole p = false -> b_hole b = false -> b_hole c = true -> r <> [] ->
  exists s', heap_free rmpage (b_at b + 8) s = Ok (tt, s') /\
    get_size (b_at b) s' = Ok (b_size b + b_size c, s') /\
    hole_before (b_at c + b_size c) s' = Ok (Some (b_at c), s') /\
    exists h hs', kheap (alloc_state s') = Some h /\ index_ok (hmem (alloc_state s')) h hs' /\
      hs' ≡ₚ b_at b :: holes (l ++ p :: b :: r).
Proof.
  intros (h & hs & Hk & L) Hp Hb Hch Hr. rewrite (at_eta s h Hk). set (m := hmem (alloc_state s)) in *.
  destruct (heap_free_front rmpage s m h hs l p b c r L Hb) as (m1 & W1 & C1 & (M1 & K1 & I1) & _ & _ & Hrun).
  pose proof L as [L1 L2 L3 L4 L5 L6 L7 L8]. rewrite Hrun, Hp. clear Hrun.
  destruct (chain_three _ _ _ _ _ _ _ L5) as (Cl & Hp16 & Hpb & Hb16 & Hbc & Hc16 & Cr).
  pose proof (chain_le _ _ _ Cl). pose proof (chain_le _ _ _ Cr). assert (Hix : MM_INDEX_COUNT = 2048) by done.
  assert (Hlast : b_at c + b_size c < end_ h).
  { destruct r as [|d r]; [done|]. destruct Cr as (? & ? & ?%chain_le). lia. }
  assert (Cok1 : block_ok m1 c) by (by apply Forall_app in K1 as [_ [? _]%Forall_cons]).
  assert (Hin : b_at c ∈ hs).
  { rewrite L8. apply elem_of_holes. exists c. split_and!; [|done..]. apply elem_of_app. right. right. right. left. }
  set (b' := Block (b_at b) (b_size b) true) in *.
  destruct (join_after_hole s m1 h hs b' c I1 Hin L1) as (m2 & m3 & hs' & Hjoin & P3 & I3 & W3 & Cok3 & C2 & R3);
    cbn [b_at b_size b_hole b']; try done; try lia; [intros x Hx; apply M1; lia|].
  cbn [b_at b_size b_hole b'] in *. set (h3 := with_count h (entrycount h - 1)) in *.
  destruct (around_changed _ _ m1 m2 h hs l p b c r L1 L2 L3 L5 C2 ltac:(lia) ltac:(lia)) as [(_ & K2 & _) _]; [done|].
  destruct (around_index _ _ _ _ _ _ _ _ L1 L2 L3 L5 R3 K2) as [K3 _]. unfold index_region in R3.
  assert (M3 : mapped m3 (entries h) (end_ h)) by (eapply changed_mapped; [exact R3|]; by eapply changed_mapped).
  destruct (heap_add_entry_run s h3 L1 ltac:(cbn; lia) m3 hs' (b_at b) (b_size b + b_size c) I3)
    as (m4 & hs4 & Hadd & P4 & I4 & R4);
    [pose proof (ix_room _ _ _ L7) as Hroom; rewrite P3 in Hroom; cbn [length] in Hroom; lia
    |intros x Hx; apply M3; cbn in Hx; lia|by split; [lia|exists true]|unfold is_word; lia| |].
  { eapply around_sizes; [exact L5|lia..|done|done|exact K3|]. intros x Hx. rewrite <- L8, P3. by right. }
  exists (at_ s m4 (with_count h3 (entrycount h3 + 1))). unfold index_region in R4. cbn [entries with_count h3] in R4.
  assert (Cok4 : block_ok m4 c) by (eapply block_ok_changed; [exact R4|lia..|done]).
  split_and!.
  - unfold bind, ret. replace (b_at b + b_size b - 8) with (b_at c - 8) by lia.
    rewrite Hjoin. rewrite trim_inside by (cbn; lia). exact Hadd.
  - rewrite (get_size_run s m4 _ (b_at b) (b_size b + b_size c) true); [done|lia|].
    by rewrite (load32_changed _ _ _ _ _ R4) by lia.
  - by rewrite hole_before_run, Hch by (done || lia).
  - eexists _, hs4. split; [done|]. split; [exact I4|]. rewrite P4. apply Permutation_skip.
    apply (Permutation_cons_inv (a := b_at c)). rewrite <- P3, L8, !holes_app, !holes_cons, Hch, Hb, Hp.
    cbn [app]. by rewrite <- Permutation_middle.
Qed.

(** ** A heap that cannot grow *)

Lemma highest_entry_run s m h l : forall i idx value, cells m (entries h) i l ->
  exists r, highest_entry (length l) i idx value (at_ s m h) = Ok (r, at_ s m h) /\
    (r = idx \/ exists k : nat, (k < length l)%nat /\ r = i + Z.of_nat k).
Proof.
  induction l as [|x l IH]; intros i idx value Hc; cbn [length highest_entry].
  { exists idx. split; [done|by left]. }
  apply cells_cons in Hc as [Hx Hc]. unfold bind. erewrite get_entry_run by exact Hx.
  case_cond.
  - destruct (IH (i + 1) i x Hc) as (r & -> & [->|(k & Hk & ->)]); eexists; (split; [done|]); right.
    + exists 0%nat. lia.
    + exists (S k). lia.
  - destruct (IH (i + 1) idx value Hc) as (r & -> & [->|(k & Hk & ->)]); eexists; (split; [done|]); [by left|right].
    exists (S k). lia.
Qed.

Lemma find_hole_none s m h size l : forall i, cells m (entries h) i l ->
  Forall (fun p => exists z, has_size m p z /\ z < size) l ->
  find_hole_loop (length l) i size false (at_ s m h) = Ok (MM_NO_HOLE, at_ s m h).
Proof.
  induction l as [|x l IH]; intros i Hc Hs; [done|].
  apply cells_cons in Hc as [Hx Hc]. apply Forall_cons in Hs as [(z & Hz & Hlt) Hs].
  cbn [length find_hole_loop]. unfold bind. erewrite get_entry_run by exact Hx.
  erewrite has_size_run by exact Hz. cbn [hole_fits]. replace (size <=? z) with false by lia. by apply IH.
Qed.

(** Can the heap not grow by a block of [newsize] bytes? *)
Definition full (h : heap) (newsize : Z) : Prop :=
  memend h < u32 (start h + ASSERT_ALIGN (end_ h - start h + newsize)).

(** Enlarging the last hole by nothing writes what is there. *)
Lemma grow_heap_full mkpage s m h hs bs newsize : layout m h hs bs -> holes bs <> [] -> 0 < newsize < 0x80000000 ->
  full h newsize -> exists m', grow_heap mkpage newsize (at_ s m h) = Ok (tt, at_ s m' h) /\ layout m' h hs bs.
Proof.
  intros L Hne Hn Hfull. pose proof L as [L1 L2 L3 L4 L5 L6 L7 L8]. assert (Hix : MM_INDEX_COUNT = 2048) by done.
  pose proof (chain_le _ _ _ L5). unfold grow_heap. unfold bind at 1. rewrite get_heap_run.
  rewrite (u32_id (end_ h - start h)), (u32_id (end_ h - start h + newsize)) by lia.
  assert (Hexp : expand_heap mkpage (end_ h - start h + newsize) (at_ s m h) = Ok (tt, at_ s m h)).
  { unfold expand_heap, bind. rewrite get_heap_run, (u32_id (end_ h - start h)) by lia.
    replace (end_ h - start h + newsize <=? end_ h - start h) with false by lia.
    unfold full in Hfull. by replace (memend h <? _) with true by lia. }
  unfold bind at 1. rewrite Hexp. unfold bind at 1. rewrite get_heap_run, (u32_id (end_ h - start h)), Z.sub_diag by lia.
  rewrite (ix_count _ _ _ L7), Nat2Z.id.
  destruct hs as [|x hs]; [by apply Permutation_nil in L8|].
  assert (Hr : exists k : nat, (k < length (x :: hs))%nat /\
    highest_entry (length (x :: hs)) 0 MM_NO_HOLE 0 (at_ s m h) = Ok (Z.of_nat k, at_ s m h)).
  { pose proof (ix_cells _ _ _ L7) as [Hx Hc]%cells_cons. cbn [length highest_entry]. unfold bind.
    erewrite get_entry_run by exact Hx. assert (Hin : x ∈ holes bs) by (rewrite <- L8; by left).
    apply elem_of_holes in Hin as (b & Hb & _ & <-). destruct (layout_holes _ _ _ _ b L Hb) as (? & _).
    replace (0 <? b_at b) with true by lia.
    destruct (highest_entry_run s m h hs (0 + 1) 0 (b_at b) Hc) as (r & -> & [->|(k & Hk & ->)]).
    - exists 0%nat. cbn. split; [lia|done].
    - exists (S k). split; [lia|]. do 2 f_equal. lia. }
  destruct Hr as (k & Hk & Hr). unfold bind at 1. rewrite Hr.
  pose proof (ix_room _ _ _ L7) as Hroom. unfold MM_NO_HOLE. replace (Z.of_nat k =? 0xFFFFFFFF) with false by lia.
  destruct (lookup_lt_is_Some_2 _ _ Hk) as [y Hy]. pose proof (ix_cells _ _ _ L7 k y Hy) as Hcell. rewrite Z.add_0_l in Hcell.
  unfold bind at 1. erewrite get_entry_run by exact Hcell.
  assert (Hin : y ∈ holes bs) by (rewrite <- L8; by eapply list_elem_of_lookup_2).
  apply elem_of_holes in Hin as (b & Hb & Hh & <-).
  destruct (layout_holes _ _ _ _ b L Hb) as (B1 & B2 & B3 & B4 & (A & B & C & D) & Bs).
  unfold bind at 1. rewrite (has_size_run _ _ _ _ _ Bs), Z.add_0_r.
  destruct (set_size_run s m h (b_at b) (b_size b)) as (w & Hset & Hw); [lia..|intros z Hz; apply L4; lia|].
  specialize (Hw _ B). assert (Ew : w = size_word (b_size b) (b_hole b)).
  { subst w. unfold size_word. destruct (b_hole b); cbn; lia. }
  unfold bind at 1. rewrite Hset. rewrite Ew. set (m1 := wr m (b_at b + 4) (size_word (b_size b) (b_hole b))).
  assert (E1 : load32 m1 (b_at b + 4) = Some (size_word (b_size b) (b_hole b))).
  { apply load32_wr_eq; [lia..|]. unfold size_word. destruct (b_hole b); cbn; lia. }
  unfold bind at 1. rewrite (get_size_run s m1 h (b_at b) (b_size b) (b_hole b) ltac:(lia) E1). unfold sizeof_mm_footer.
  rewrite (u32_id (b_at b + b_size b - 8)) by lia.
  assert (C1 : changed_in (b_at b) (b_at b + b_size b) m m1).
  { apply wr_changed; [lia..|intros z Hz; apply L4; lia]. }
  assert (M1 : mapped m1 (entries h) (end_ h)) by (by eapply changed_mapped).
  unfold bind, set_header, set_magic. rewrite store_run by (lia || (intros z Hz; apply M1; lia)).
  set (m2 := wr m1 (b_at b + b_size b - 8 + 4) (b_at b)).
  assert (C2 : changed_in (b_at b) (b_at b + b_size b) m1 m2).
  { apply wr_changed; [lia..|intros z Hz; apply M1; lia]. }
  assert (M2 : mapped m2 (entries h) (end_ h)) by (by eapply changed_mapped).
  rewrite store_run by (lia || (intros z Hz; apply M2; lia)).
  set (m3 := wr m2 (b_at b + b_size b - 8) MM_MAGIC).
  assert (C3 : changed_in (b_at b) (b_at b + b_size b) m m3).
  { eapply changed_trans; [exact C1|]. eapply changed_trans; [exact C2|].
    apply wr_changed; [lia..|intros z Hz; apply M2; lia]. }
  exists m3. split; [done|]. split; try done.
  - by eapply changed_mapped.
  - apply list_elem_of_split in Hb as (bs1 & bs2 & ->). apply Forall_app in L6 as [K1 [_ K2]%Forall_cons].
    destruct (chain_split _ _ _ _ _ L5) as (Ca & _ & Cb). pose proof (chain_le _ _ _ Ca). pose proof (chain_le _ _ _ Cb).
    apply Forall_app. rewrite Forall_cons.
    split; [eapply blocks_changed; [exact C3|exact Ca|lia..|done]|]. split; [|eapply blocks_changed; [exact C3|exact Cb|lia..|done]].
    unfold block_ok. subst m3 m2 m1. split_and!.
    + do 3 rewrite load32_wr_ne by lia. done.
    + do 2 rewrite load32_wr_ne by lia. done.
    + apply load32_wr_eq; unfold MM_MAGIC; lia.
    + rewrite load32_wr_ne by lia. replace (b_at b + b_size b - 4) with (b_at b + b_size b - 8 + 4) by lia.
      apply load32_wr_eq; lia.
  - eapply index_ok_changed; [exact C3|lia..|done].
Qed.

(** When no hole is large enough and the heap may not grow, [malloc] never
    returns: it finds no hole, enlarges the last hole by nothing and calls
    itself again, whatever the number of rounds. *)
Theorem heap_malloc_exhausted mkpage n size bs s h :
  heap_ok bs s -> kheap (alloc_state s) = Some h -> 0 < size -> size + 16 < 0x80000000 ->
  holes bs <> [] -> (forall b, b ∈ bs -> b_hole b = true -> b_size b < size + 16) -> full h (size + 16) ->
  heap_malloc mkpage n size false s = Fuel.
Proof.
  intros (h' & hs & Hk & L) Hk' Hsz Hmax Hne Hsmall Hfull. rewrite Hk in Hk'. injection Hk' as ->.
  pose proof (at_eta s h Hk) as Hs. set (m := hmem (alloc_state s)) in *. rewrite Hs. clearbody m. clear Hs Hk.
  revert m L. induction n as [|n IH]; intros m L; [done|].
  cbn [heap_malloc]. unfold sizeof_mm_header, sizeof_mm_footer.
  replace (u32 (size + 8 + 8)) with (size + 16) by (rewrite u32_id by lia; lia).
  destruct (ly_index _ _ _ _ L) as [Hcnt _ Hc _].
  assert (Hfind : find_smallest_hole (size + 16) false (at_ s m h) = Ok (MM_NO_HOLE, at_ s m h)).
  { unfold find_smallest_hole, bind. rewrite get_heap_run, Hcnt, Nat2Z.id. apply find_hole_none; [done|].
    apply Forall_forall. intros p Hp. rewrite (ly_holes _ _ _ _ L) in Hp.
    apply elem_of_holes in Hp as (b & Hb & Hh & <-). exists (b_size b).
    split; [by destruct (layout_holes _ _ _ _ b L Hb) as (_ & _ & _ & _ & _ & ?)|by apply Hsmall]. }
  unfold bind at 1. rewrite Hfind. replace (size =? 0) with false by lia. rewrite Z.eqb_refl.
  destruct (grow_heap_full mkpage s m h hs bs (size + 16) L Hne ltac:(lia) Hfull) as (m' & Hgrow & L').
  unfold bind. rewrite Hgrow. by apply IH.
Qed.

(** ** Page-aligned allocation *)

Lemma land_page_nonzero a : 0x1000 <= a < 0x100000000 -> Z.land a 0xFFFFF000 <> 0.
Proof.
  intros Ha H0. apply (f_equal (fun z => Z.shiftr z 12)) in H0. rewrite Z.shiftr_land in H0.
  change (Z.shiftr 0xFFFFF000 12) with (Z.ones 20) in H0. rewrite Z.land_ones, Z.shiftr_div_pow2 in H0 by lia.
  change (2 ^ 12) with 4096 in H0. change (2 ^ 20) with 1048576 in H0. change (Z.shiftr 0 12) with 0 in H0. lia.
Qed.

(** A hole whose payload is already aligned: the part in front is empty, and
    its header and footer are written all the same. *)
Lemma split_front_empty s m h a n : (a + 8) mod FRAME_SIZE = 0 -> 0x1000 < a -> 16 <= n -> a + n < 0x80000000 ->
  mapped m (a - 8) (a + n) ->
  exists m', split_front a n (at_ s m h) = Ok ((a, n), at_ s m' h) /\ changed_in (a - 8) (a + n) m m'.
Proof.
  unfold FRAME_SIZE. intros Ha Hlow Hn Hhi Hm.
  assert (Hw : forall m0 p v, changed_in (a - 8) (a + n) m m0 -> a - 8 <= p -> p + 4 <= a + n ->
    changed_in (a - 8) (a + n) m (wr m0 p v) /\ mapped m0 p (p + 4)).
  { intros m0 p v Hc H1 H2. assert (Hmp : mapped m0 p (p + 4)).
    { intros x Hx. eapply changed_mapped; [exact Hc|exact Hm|lia]. }
    split; [|done]. eapply changed_trans; [exact Hc|]. by apply wr_changed. }
  unfold split_front. change 0xFFF with (Z.ones 12). rewrite Z.land_ones by lia. change (2 ^ 12) with 4096.
  unfold FRAME_SIZE, sizeof_mm_header, sizeof_mm_footer.
  replace (u32 (a + 4096 - a mod 4096 - 8)) with a by (rewrite u32_id by lia; lia).
  rewrite (u32_id (a - 8)), Z.sub_diag, (u32_id 0) by lia. unfold bind, set_magic, set_header, MM_FLAG_HOLE.
  destruct (set_size_run s m h a 0) as (w1 & -> & Hw1); [lia..|intros x Hx; apply Hm; lia|].
  destruct (Hw m (a + 4) w1) as [C1 _]; [apply changed_refl|lia..|]. set (m1 := wr m (a + 4) w1) in *.
  destruct (set_flag_run s m1 h a 1) as (w2 & -> & Hw2); [lia..|intros x Hx; eapply changed_mapped; [exact C1|exact Hm|lia]|].
  destruct (Hw m1 (a + 4) w2 C1) as [C2 _]; [lia..|]. set (m2 := wr m1 (a + 4) w2) in *.
  destruct (Hw m2 (a - 8) MM_MAGIC C2) as [C3 M3]; [lia..|]. rewrite store_run by (done || lia).
  set (m3 := wr m2 (a - 8) MM_MAGIC) in *.
  destruct (Hw m3 a MM_MAGIC C3) as [C4 M4]; [lia..|]. rewrite store_run by (done || lia).
  set (m4 := wr m3 a MM_MAGIC) in *.
  destruct (Hw m4 (a - 8 + 4) a C4) as [C5 M5]; [lia..|]. rewrite store_run by (done || lia).
  destruct (load32_mapped m (a + 4)) as [x Hx]; [lia..|intros y Hy; apply Hm; lia|].
  specialize (Hw1 x Hx).
  assert (E1 : load32 m1 (a + 4) = Some (u32 w1)) by (apply load32_wr_u32; lia).
  specialize (Hw2 _ E1).
  assert (Ew : w2 = size_word 0 true) by (subst w2 w1; unfold size_word, u32; cbn [b2z]; lia).
  rewrite (get_size_run s _ h a 0 true); [|lia|].
  - unfold ret. rewrite Z.sub_0_r, u32_id by lia. by eexists.
  - rewrite load32_wr_ne by lia. subst m4. rewrite load32_wr_ne by lia. subst m3. rewrite load32_wr_ne by lia.
    subst m2. rewrite Ew. apply load32_wr_eq; unfold size_word; cbn; lia.
Qed.

(** An aligned request served from a hole whose payload is already aligned
    returns that payload but leaves its header in the index of holes, now as an
    allocated block: a later request can be given the same memory. *)
Theorem heap_malloc_aligned_listed mkpage n size s h hs1 hs2 bs1 b bs2 :
  kheap (alloc_state s) = Some h -> layout (hmem (alloc_state s)) h (hs1 ++ b_at b :: hs2) (bs1 ++ b :: bs2) ->
  b_hole b = true -> start h < b_at b -> (b_at b + 8) mod FRAME_SIZE = 0 -> 0 < size -> size + 32 <= b_size b ->
  Z.of_nat (length (hs1 ++ b_at b :: hs2)) + 1 < MM_INDEX_COUNT ->
  find_smallest_hole (size + 16) true s = Ok (Z.of_nat (length hs1), s) ->
  exists s' h' hs', heap_malloc mkpage (S n) size true s = Ok (b_at b + 8, s') /\
    kheap (alloc_state s') = Some h' /\ index_ok (hmem (alloc_state s')) h' hs' /\ b_at b ∈ hs' /\
    block_ok (hmem (alloc_state s')) (Block (b_at b) (size + 16) false).
Proof.
  intros Hk L Hh Hst Hal Hsz Hfit Hroom Hfind. pose proof (at_eta s h Hk) as Hs. set (m := hmem (alloc_state s)) in *.
  pose proof L as [L1 L2 L3 L4 L5 L6 L7 L8]. assert (Hix : MM_INDEX_COUNT = 2048) by done.
  destruct (layout_holes _ _ _ _ b L) as (B1 & B2 & B3 & B4 & Bok & Bs); [apply elem_of_app; right; left|].
  assert (Hlow : start h + 16 <= b_at b).
  { destruct (chain_split _ _ _ _ _ L5) as (Ca & _ & _). destruct bs1 as [|p bs1]; [cbn in Ca; lia|].
    destruct Ca as (? & ? & ?%chain_le). lia. }
  cbn [heap_malloc]. unfold sizeof_mm_header, sizeof_mm_footer.
  replace (u32 (size + 8 + 8)) with (size + 16) by (rewrite u32_id by lia; lia).
  unfold bind at 1. rewrite Hfind. replace (size =? 0) with false by lia. unfold MM_NO_HOLE.
  rewrite length_app in Hroom. cbn [length] in Hroom.
  replace (Z.of_nat (length hs1) =? 0xFFFFFFFF) with false by lia.
  unfold take_hole. pose proof (ix_cells _ _ _ L7) as Hcells. apply cells_app in Hcells as [_ [Hcell _]%cells_cons].
  rewrite Z.add_0_l in Hcell. rewrite Hs. unfold bind at 1. erewrite get_entry_run by exact Hcell.
  unfold bind at 1. rewrite (has_size_run _ _ _ _ _ Bs). unfold sizeof_mm_header, sizeof_mm_footer.
  replace (u32 (b_size b - 8 - 8) <? size + 16) with false by (rewrite u32_id by lia; lia).
  pose proof (land_page_nonzero (b_at b) ltac:(lia)) as Hpage.
  replace (Z.land (b_at b) 0xFFFFF000 =? 0) with false by lia. cbn [andb negb].
  destruct (split_front_empty s m h (b_at b) (b_size b) Hal) as (m1 & Hsplit & C1);
    [lia..|intros x Hx; apply L4; lia|].
  unfold bind at 1. rewrite Hsplit.
  assert (M1 : mapped m1 (entries h) (end_ h)) by (by eapply changed_mapped).
  assert (I1 : index_ok m1 h (hs1 ++ b_at b :: hs2)) by (eapply index_ok_changed; [exact C1|lia..|done]).
  assert (Hside : Forall (fun p => (exists z, has_size m p z) /\
    header_outside (b_at b - 8) (b_at b + b_size b) p) (hs1 ++ hs2)).
  { apply (beside_sizes m _ _ _ _ _ _ L5); [lia..| |].
    - apply Forall_app in L6 as [? [_ ?]%Forall_cons]. by apply Forall_app.
    - by apply (layout_others m h _ _ _ b). }
  destruct (place_block_split s m1 h (hs1 ++ b_at b :: hs2) (b_at b) (b_size b) size)
    as (m3 & m4 & hs' & Hplace & P4 & I4 & W4 & _ & _ & _);
    [done|lia|intros x Hx; apply M1; lia|lia|done|done|rewrite length_app; cbn [length]; lia|lia|lia| |].
  { apply Forall_app. rewrite Forall_cons. apply Forall_app in Hside as [? ?]. split_and!; [|by left|];
      (eapply Forall_impl; [eassumption|]); intros p [[z Hz] Ho]; right;
      (split; [exists z; by eapply has_size_changed|eapply header_outside_weaken; [|exact Ho]; lia]). }
  eexists _, _, hs'. split; [exact Hplace|]. split; [done|]. split; [exact I4|]. split; [|exact W4].
  rewrite P4. right. apply elem_of_app. right. left.
Qed.

(** ** Every list of blocks is a heap

    A memory with the headers, the footers and the index of any list of blocks
    that fits: the layout asks for nothing impossible. *)

Definition blank (lo n : Z) : gmap Z Z := gset_to_gmap 0 (list_to_set (seqZ lo n)).

Definition put_block (b : block) (m : gmap Z Z) : gmap Z Z :=
  wr (wr (wr (wr m (b_at b) MM_MAGIC) (b_at b + 4) (size_word (b_size b) (b_hole b)))
    (b_at b + b_size b - 8) MM_MAGIC) (b_at b + b_size b - 4) (b_at b).

Fixpoint put_cells (base : Z) (l : list Z) (m : gmap Z Z) : gmap Z Z :=
  match l with
  | [] => m
  | x :: l => wr (put_cells (base + 4) l m) base x
  end.

Definition put_heap (base : Z) (bs : list block) (m : gmap Z Z) : gmap Z Z :=
  put_cells base (holes bs) (foldr put_block m bs).

Lemma blank_mapped lo n : mapped (blank lo n) lo (lo + n).
Proof.
  intros a Ha. exists 0. apply lookup_gset_to_gmap_Some. split; [|done].
  apply elem_of_list_to_set, elem_of_seqZ. lia.
Qed.

Lemma put_block_ok m b : 0 < b_at b -> 16 <= b_size b -> b_at b + b_size b < 0x80000000 ->
  mapped m (b_at b) (b_at b + b_size b) ->
  block_ok (put_block b m) b /\ changed_in (b_at b) (b_at b + b_size b) m (put_block b m).
Proof.
  intros H1 H2 H3 Hm. unfold put_block, block_ok. split.
  - split_and!.
    + do 3 rewrite load32_wr_ne by lia. apply load32_wr_eq; unfold MM_MAGIC; lia.
    + do 2 rewrite load32_wr_ne by lia. apply load32_wr_eq; [lia..|]. unfold size_word. destruct (b_hole b); cbn; lia.
    + rewrite load32_wr_ne by lia. apply load32_wr_eq; unfold MM_MAGIC; lia.
    + apply load32_wr_eq; lia.
  - assert (Hw : forall m0 p v, changed_in (b_at b) (b_at b + b_size b) m m0 -> b_at b <= p ->
      p + 4 <= b_at b + b_size b -> changed_in (b_at b) (b_at b + b_size b) m (wr m0 p v)).
    { intros m0 p v Hc Hp Hp'. eapply changed_trans; [exact Hc|]. apply wr_changed; [done..|].
      intros x Hx. eapply changed_mapped; [exact Hc|exact Hm|lia]. }
    apply Hw; [apply Hw; [apply Hw; [apply Hw; [apply changed_refl|..]|..]|..]|..]; lia.
Qed.

Lemma put_blocks_ok m bs : forall a e, chain a bs e -> 0 < a -> e < 0x80000000 -> mapped m a e ->
  Forall (block_ok (foldr put_block m bs)) bs /\ changed_in a e m (foldr put_block m bs).
Proof.
  induction bs as [|b bs IH]; intros a e Hch Ha He Hm; cbn [foldr]; [split; [done|apply changed_refl]|].
  destruct Hch as (<- & Hs & Hch). pose proof (chain_le _ _ _ Hch).
  destruct (IH _ _ Hch) as [H1 H2]; [lia..|intros x Hx; apply Hm; lia|].
  destruct (put_block_ok (foldr put_block m bs) b) as [H3 H4]; [lia..|intros x Hx; eapply changed_mapped; [exact H2|exact Hm|lia]|].
  split.
  - apply Forall_cons. split; [done|]. eapply blocks_changed; [exact H4|exact Hch|lia..|done].
  - eapply changed_trans; [eapply changed_weaken; [exact H2|lia..]|eapply changed_weaken; [exact H4|lia..]].
Qed.

Lemma put_cells_ok m l : forall base, Forall is_word l -> 0 <= base -> base + 4 * Z.of_nat (length l) < 0x80000000 ->
  mapped m base (base + 4 * Z.of_nat (length l)) ->
  cells (put_cells base l m) base 0 l /\ changed_in base (base + 4 * Z.of_nat (length l)) m (put_cells base l m).
Proof.
  induction l as [|x l IH]; intros base Hw Hb He Hm; cbn [put_cells length] in *.
  { split; [apply cells_nil|apply changed_refl]. }
  apply Forall_cons in Hw as [Hx Hw]. unfold is_word in Hx.
  destruct (IH (base + 4) Hw) as [H1 H2]; [lia..|intros y Hy; apply Hm; lia|].
  assert (H3 : changed_in base (base + 4) (put_cells (base + 4) l m) (wr (put_cells (base + 4) l m) base x)).
  { apply wr_changed; [lia..|intros y Hy; eapply changed_mapped; [exact H2|exact Hm|lia]]. }
  split.
  - apply cells_cons. split; [replace (base + 4 * 0) with base by lia; apply load32_wr_eq; lia|].
    intros k y Hk. rewrite (load32_changed _ _ _ _ _ H3) by (apply lookup_lt_Some in Hk; lia).
    specialize (H1 k y Hk). by replace (base + 4 * (0 + 1 + Z.of_nat k)) with (base + 4 + 4 * (0 + Z.of_nat k)) by lia.
  - eapply changed_trans; [eapply changed_weaken; [exact H2|lia..]|eapply changed_weaken; [exact H3|lia..]].
Qed.

Lemma put_heap_layout base a bs e memend fl : chain a bs e -> 0 < base -> base + 4 * MM_INDEX_COUNT <= a ->
  e < 0x80000000 -> Z.of_nat (length (holes bs)) < MM_INDEX_COUNT ->
  layout (put_heap base bs (blank base (e - base)))
    (Heap base (Z.of_nat (length (holes bs))) MM_INDEX_COUNT a e memend fl) (holes bs) bs.
Proof.
  intros Hch Hb Ha He Hn. assert (Hix : MM_INDEX_COUNT = 2048) by done. pose proof (chain_le _ _ _ Hch).
  pose proof (blank_mapped base (e - base)) as Hm. replace (base + (e - base)) with e in Hm by lia.
  destruct (put_blocks_ok (blank base (e - base)) bs a e Hch) as [H1 H2]; [lia..|intros x Hx; apply Hm; lia|].
  set (m1 := foldr put_block _ bs) in *.
  assert (M1 : mapped m1 base e) by (by eapply changed_mapped).
  assert (Hw : Forall is_word (holes bs)).
  { apply Forall_forall. intros p Hp. apply elem_of_holes in Hp as (b & Hbb & _ & <-).
    destruct (chain_bounds _ _ _ _ Hch Hbb) as (? & ? & ?). unfold is_word. lia. }
  destruct (put_cells_ok m1 (holes bs) base Hw) as [H3 H4]; [lia..|intros x Hx; apply M1; lia|].
  unfold put_heap. fold m1. split; cbn [entries start end_ entrycount]; try done.
  - by eapply changed_mapped.
  - eapply blocks_changed; [exact H4|exact Hch|lia..|done].
Qed.

(** A kernel state with these blocks from 0x3000 on, the index at 0x1000. *)
Definition heap_sample (bs : list block) (e : Z) : pstate heap_state :=
  PState 0 [] ∅ ∅ 0 0 ∅ (HeapState (put_heap 0x1000 bs (blank 0x1000 (e - 0x1000)))
    (Some (Heap 0x1000 (Z.of_nat (length (holes bs))) MM_INDEX_COUNT 0x3000 e e 1)) 0).

Lemma heap_sample_layout bs e : chain 0x3000 bs e -> e < 0x80000000 -> Z.of_nat (length (holes bs)) < MM_INDEX_COUNT ->
  layout (hmem (alloc_state (heap_sample bs e)))
    (Heap 0x1000 (Z.of_nat (length (holes bs))) MM_INDEX_COUNT 0x3000 e e 1) (holes bs) bs.
Proof. intros Hc He Hn. by apply put_heap_layout. Qed.

Lemma heap_sample_ok bs e : chain 0x3000 bs e -> e < 0x80000000 -> Z.of_nat (length (holes bs)) < MM_INDEX_COUNT ->
  heap_ok bs (heap_sample bs e).
Proof. intros Hc He Hn. eexists _, _. split; [done|by apply heap_sample_layout]. Qed.

Lemma find_first s h x hs size z align : kheap (alloc_state s) = Some h ->
  index_ok (hmem (alloc_state s)) h (x :: hs) -> has_size (hmem (alloc_state s)) x z ->
  hole_fits align x z size = true -> find_smallest_hole size align s = Ok (Z.of_nat (@length Z []), s).
Proof.
  intros Hk [Hcnt _ Hc _] Hz Hf. rewrite (at_eta s h Hk). apply cells_cons in Hc as [Hx _].
  unfold find_smallest_hole, bind. rewrite get_heap_run, Hcnt, Nat2Z.id. cbn [length find_hole_loop]. unfold bind.
  erewrite get_entry_run by exact Hx. rewrite (has_size_run _ _ _ _ _ Hz), Hf. done.
Qed.

Lemma heap_malloc_ok_witness : exists s',
  heap_malloc (fun _ _ => fault) 1 100 false
    (heap_sample [Block 0x3000 0x100 false; Block 0x3100 0x200 true; Block 0x3300 0x100 false] 0x3400) = Ok (0x3108, s') /\
  heap_ok [Block 0x3000 0x100 false; Block 0x3100 116 false; Block 0x3174 396 true; Block 0x3300 0x100 false] s'.
Proof.
  destruct (heap_malloc_ok (fun _ _ => fault) 0 100 [Block 0x3000 0x100 false; Block 0x3100 0x200 true; Block 0x3300 0x100 false]
    (heap_sample [Block 0x3000 0x100 false; Block 0x3100 0x200 true; Block 0x3300 0x100 false] 0x3400))
    as (bs1 & b & bs2 & s' & E & Hh & _ & Hrun & Hok & _).
  - apply heap_sample_ok; [cbn; lia|lia|reflexivity].
  - lia.
  - exists (Block 0x3100 0x200 true). split; [right; left|]. split; [reflexivity|]. cbn. lia.
  - destruct bs1 as [|x [|y [|z bs1]]]; injection E.
    + intros _ <-. discriminate Hh.
    + intros <- <- <-. exists s'. split; [exact Hrun|exact Hok].
    + intros <- <- _ _. discriminate Hh.
    + destruct bs1; discriminate 1.
Defined.


Lemma heap_free_dead_footer_witness : exists s',
  heap_free (fun _ => fault) 0x3108
    (heap_sample [Block 0x3000 0x100 false; Block 0x3100 0x200 false; Block 0x3300 0x100 true; Block 0x3400 0x100 false]
      0x3500) = Ok (tt, s') /\
  get_size 0x3100 s' = Ok (0x300, s') /\ hole_before 0x3400 s' = Ok (Some 0x3300, s').
Proof.
  destruct (heap_free_dead_footer (fun _ => fault)
    (heap_sample [Block 0x3000 0x100 false; Block 0x3100 0x200 false; Block 0x3300 0x100 true; Block 0x3400 0x100 false]
      0x3500)
    [] (Block 0x3000 0x100 false) (Block 0x3100 0x200 false) (Block 0x3300 0x100 true) [Block 0x3400 0x100 false])
    as (s' & H1 & H2 & H3 & _).
  - apply heap_sample_ok; [cbn; lia|lia|reflexivity].
  - reflexivity.
  - reflexivity.
  - reflexivity.
  - discriminate.
  - exists s'. split; [exact H1|]. split; [exact H2|exact H3].
Defined.

Lemma heap_malloc_exhausted_witness :
  heap_malloc (fun _ _ => fault) 1000 100 false
    (heap_sample [Block 0x3000 0x40 true; Block 0x3040 0xFC0 false] 0x4000) = Fuel.
Proof.
  apply (heap_malloc_exhausted _ 1000 100 [Block 0x3000 0x40 true; Block 0x3040 0xFC0 false]
    (heap_sample [Block 0x3000 0x40 true; Block 0x3040 0xFC0 false] 0x4000)
    (Heap 0x1000 1 MM_INDEX_COUNT 0x3000 0x4000 0x4000 1)).
  - apply heap_sample_ok; [cbn; lia|lia|reflexivity].
  - reflexivity.
  - lia.
  - lia.
  - discriminate.
  - intros b [->|[->|[]%elem_of_nil]%elem_of_cons]%elem_of_cons; cbn; [lia|discriminate].
  - unfold full. reflexivity.
Defined.

Lemma heap_malloc_aligned_listed_witness : exists s' h' hs',
  heap_malloc (fun _ _ => fault) 1 100 true
    (heap_sample [Block 0x3000 0xFF8 false; Block 0x3FF8 0x208 true] 0x4200) = Ok (0x4000, s') /\
  kheap (alloc_state s') = Some h' /\ index_ok (hmem (alloc_state s')) h' hs' /\ 0x3FF8 ∈ hs'.
Proof.
  destruct (heap_sample_layout [Block 0x3000 0xFF8 false; Block 0x3FF8 0x208 true] 0x4200) as [A1 A2 A3 A4 A5 A6 A7 A8];
    [cbn; lia|lia|reflexivity|].
  destruct (heap_malloc_aligned_listed (fun _ _ => fault) 0 100
    (heap_sample [Block 0x3000 0xFF8 false; Block 0x3FF8 0x208 true] 0x4200)
    (Heap 0x1000 1 MM_INDEX_COUNT 0x3000 0x4200 0x4200 1) [] [] [Block 0x3000 0xFF8 false] (Block 0x3FF8 0x208 true) [])
    as (s' & h' & hs' & H1 & H2 & H3 & H4 & _).
  - reflexivity.
  - apply (heap_sample_layout [Block 0x3000 0xFF8 false; Block 0x3FF8 0x208 true]); [cbn; lia|lia|reflexivity].
  - reflexivity.
  - reflexivity.
  - reflexivity.
  - lia.
  - cbn. lia.
  - reflexivity.
  - eapply (find_first _ _ 0x3FF8 [] _ 0x208); [reflexivity|exact A7| |reflexivity].
    apply Forall_cons in A6 as [_ [A6 _]%Forall_cons]. apply (block_has_size _ _ A6). cbn. lia.
  - exists s', h', hs'. split; [exact H1|]. split; [exact H2|]. split; [exact H3|exact H4].
Defined.
