(* ===== verification/Abi.v ===== *)
(** * The kernel's interface to user programs

    The constants of the kernel headers, the system call table and the
    dispatch of [int 0x80] ([src/src/kernel/syscall.c]), and what the [_syscall]
    macros of [unistd.h] make of the value the kernel returns. *)
From S2P Require Import Prelude.
Open Scope nup_scope.

(** ** Error numbers: [src/src/include/errno.h] *)
Definition EGENERIC : Z := 99.
Definition EPERM : Z := 1.
Definition ENOENT : Z := 2.
Definition ESRCH : Z := 3.
Definition EINTR : Z := 4.
Definition EIO : Z := 5.
Definition ENXIO : Z := 6.
Definition E2BIG : Z := 7.
Definition ENOEXEC : Z := 8.
Definition EBADF : Z := 9.
Definition ECHILD : Z := 10.
Definition EAGAIN : Z := 11.
Definition ENOMEM : Z := 12.
Definition EACCES : Z := 13.
Definition EFAULT : Z := 14.
Definition ENOTBLK : Z := 15.
Definition EBUSY : Z := 16.
Definition EEXIST : Z := 17.
Definition EXDEV : Z := 18.
Definition ENODEV : Z := 19.
Definition ENOTDIR : Z := 20.
Definition EISDIR : Z := 21.
Definition EINVAL : Z := 22.
Definition ENFILE : Z := 23.
Definition EMFILE : Z := 24.
Definition ENOTTY : Z := 25.
Definition ETXTBSY : Z := 26.
Definition EFBIG : Z := 27.
Definition ENOSPC : Z := 28.
Definition ESPIPE : Z := 29.
Definition EROFS : Z := 30.
Definition EMLINK : Z := 31.
Definition EPIPE : Z := 32.
Definition EDOM : Z := 33.
Definition ERANGE : Z := 34.
Definition EDEADLK : Z := 35.
Definition ENAMETOOLONG : Z := 36.
Definition ENOLCK : Z := 37.
Definition ENOSYS : Z := 38.
Definition ENOTEMPTY : Z := 39.

(** ** File flags: [src/src/include/fcntl.h] *)
Definition O_ACCMODE : Z := 3.
Definition O_RDONLY : Z := 0.
Definition O_WRONLY : Z := 1.
Definition O_RDWR : Z := 2.
Definition O_CREAT : Z := 64.
Definition O_EXCL : Z := 128.
Definition O_NOCTTY : Z := 256.
Definition O_TRUNC : Z := 512.
Definition O_APPEND : Z := 1024.
Definition O_NONBLOCK : Z := 2048.
Definition O_NDELAY : Z := O_NONBLOCK.
Definition F_DUPFD : Z := 0.
Definition F_GETFD : Z := 1.
Definition F_SETFD : Z := 2.
Definition F_GETFL : Z := 3.
Definition F_SETFL : Z := 4.
Definition F_GETLK : Z := 5.
Definition F_SETLK : Z := 6.
Definition F_SETLKW : Z := 7.
Definition FD_CLOEXEC : Z := 1.
Definition F_RDLCK : Z := 0.
Definition F_WRLCK : Z := 1.
Definition F_UNLCK : Z := 2.

(** ** Access modes and system call numbers: [src/src/include/unistd.h] *)
Definition STDIN_FILENO : Z := 0.
Definition STDOUT_FILENO : Z := 1.
Definition STDERR_FILENO : Z := 2.
Definition F_OK : Z := 0.
Definition X_OK : Z := 1.
Definition W_OK : Z := 2.
Definition R_OK : Z := 4.
Definition SEEK_SET : Z := 0.
Definition SEEK_CUR : Z := 1.
Definition SEEK_END : Z := 2.
Definition NR_putchar : Z := 0.
Definition NR_exit : Z := 1.
Definition NR_fork : Z := 2.
Definition NR_read : Z := 3.
Definition NR_write : Z := 4.
Definition NR_open : Z := 5.
Definition NR_close : Z := 6.
Definition NR_waitpid : Z := 7.
Definition NR_creat : Z := 8.
Definition NR_link : Z := 9.
Definition NR_unlink : Z := 10.
Definition NR_execve : Z := 11.
Definition NR_chdir : Z := 12.
Definition NR_time : Z := 13.
Definition NR_mknod : Z := 14.
Definition NR_chmod : Z := 15.
Definition NR_chown : Z := 16.
Definition NR_break : Z := 17.
Definition NR_stat : Z := 18.
Definition NR_lseek : Z := 19.
Definition NR_getpid : Z := 20.
Definition NR_mount : Z := 21.
Definition NR_umount : Z := 22.
Definition NR_fstat : Z := 28.
Definition NR_pause : Z := 29.
Definition NR_kill : Z := 37.
Definition NR_dup : Z := 41.
Definition NR_times : Z := 43.
Definition NR_brk : Z := 45.
Definition NR_ioctl : Z := 54.
Definition NR_fcntl : Z := 55.
Definition NR_uname : Z := 59.
Definition NR_chroot : Z := 61.
Definition NR_dup2 : Z := 63.
Definition NR_getppid : Z := 64.
Definition NR_reboot : Z := 88.

(** ** Signals: [src/src/include/signal.h] *)
Definition SIGHUP : Z := 1.
Definition SIGINT : Z := 2.
Definition SIGQUIT : Z := 3.
Definition SIGILL : Z := 4.
Definition SIGTRAP : Z := 5.
Definition SIGABRT : Z := 6.
Definition SIGIOT : Z := 6.
Definition SIGUNUSED : Z := 7.
Definition SIGFPE : Z := 8.
Definition SIGKILL : Z := 9.
Definition SIGUSR1 : Z := 10.
Definition SIGSEGV : Z := 11.
Definition SIGUSR2 : Z := 12.
Definition SIGPIPE : Z := 13.
Definition SIGALRM : Z := 14.
Definition SIGTERM : Z := 15.
Definition SIGSTKFLT : Z := 16.
Definition SIGCHLD : Z := 17.
Definition SIGCONT : Z := 18.
Definition SIGSTOP : Z := 19.
Definition SIGTSTP : Z := 20.
Definition SIGTTIN : Z := 21.
Definition SIGTTOU : Z := 22.
Definition SIGSYS : Z := 31.

(** ** Tasks: [src/src/include/task.h] *)
Definition TASK_RUNNING : Z := 0.
Definition TASK_WAITING : Z := 1.
Definition TASK_UNINTERRUPTIBLE : Z := 2.
Definition TASK_BLOCKED : Z := 4.
Definition TASK_ZOMBIE : Z := 5.
Definition ROOT_UID : Z := 0.
Definition NR_TASKS : Z := 64.
Definition KERNEL_STACK_SIZE : Z := 2048.
Definition NO_TASK : Z := -1.

(** ** Files: [src/src/include/fs/vfs.h] *)
Definition MNT_FLAG_REQDEV : Z := 0x01.
Definition FS_FILE : Z := 0x01.
Definition FS_DIRECTORY : Z := 0x02.
Definition FS_CHARDEVICE : Z := 0x03.
Definition FS_BLOCKDEVICE : Z := 0x04.
Definition FS_PIPE : Z := 0x05.
Definition FS_SYMLINK : Z := 0x06.
Definition VFS_NAME_LEN : Z := 255.
Definition FS_UID_ROOT : Z := 0.
Definition FS_GID_ROOT : Z := 0.
Definition NR_OPEN : Z := 32.
Definition FMODE_READ : Z := 1.
Definition FMODE_WRITE : Z := 2.
Definition MOUNT_MAX : Z := 16.
Definition LINK_MAX : Z := 16.

(** ** The system call table *)

Definition NR_SYSCALLS : Z := 128.

(** The functions the table points to. *)
Inductive sysfn :=
  | Sys_putchar | Sys_exit | Sys_fork | Sys_read | Sys_write | Sys_open | Sys_close
  | Sys_waitpid | Sys_execve | Sys_chdir | Sys_mknod | Sys_getpid | Sys_pause | Sys_dup
  | Sys_kill | Sys_ioctl | Sys_chroot | Sys_getppid | Sys_dup2 | Sys_reboot.

#[export] Instance sysfn_eq_dec : EqDecision sysfn.
Proof. solve_decision. Defined.

(** The stores of [setup_syscalls], in its order. *)
Definition sys_call_stores : list (Z * sysfn) :=
  [(NR_putchar, Sys_putchar); (NR_exit, Sys_exit); (NR_fork, Sys_fork); (NR_read, Sys_read);
   (NR_write, Sys_write); (NR_open, Sys_open); (NR_close, Sys_close); (NR_waitpid, Sys_waitpid);
   (NR_execve, Sys_execve); (NR_chdir, Sys_chdir); (NR_mknod, Sys_mknod);
   (NR_getpid, Sys_getpid); (NR_pause, Sys_pause); (NR_dup, Sys_dup); (NR_kill, Sys_kill);
   (NR_ioctl, Sys_ioctl); (NR_chroot, Sys_chroot); (NR_getppid, Sys_getppid);
   (NR_dup2, Sys_dup2); (NR_reboot, Sys_reboot)].

Definition sys_call_table : Type := list (option sysfn).

Fixpoint store_syscalls (l : list (Z * sysfn)) (t : sys_call_table) : option sys_call_table :=
  match l with
  | [] => Some t
  | (nr, f) :: l => t ← aset t nr (Some f); store_syscalls l t
  end.

Definition setup_syscalls : option sys_call_table :=
  store_syscalls sys_call_stores (replicate (Z.to_nat NR_SYSCALLS) None).

(** ** Dispatch *)

Record sys_regs := SysRegs { r_eax : Z; r_ebx : Z; r_ecx : Z; r_edx : Z; r_esi : Z; r_edi : Z }.

Definition sys_mknod (name mode addr : Z) : Z := - ENOSYS.

Section handler.
Context {S : Type}.
(** The called function with its arguments, and [sys_kill(current_task->pid, sign)]. *)
Variable run : sysfn -> Z -> Z -> Z -> Z -> Z -> M S Z.
Variable kill_self : Z -> M S Z.

(** [eax] is unsigned, so that the test [regs->eax < 0] never holds. *)
Definition SysCallHandler (t : sys_call_table) (regs : sys_regs) : M S sys_regs :=
  let with_eax v := SysRegs (u32 v) (r_ebx regs) (r_ecx regs) (r_edx regs) (r_esi regs) (r_edi regs) in
  if (r_eax regs <? 0) || (NR_SYSCALLS <=? r_eax regs) then
    do! kill_self SIGSYS;
    ret (with_eax (- ENOSYS))
  else
    let! sys_call := get_or_fault (fun _ => aget t (r_eax regs)) in
    match sys_call with
    | None => ret (with_eax (- ENOSYS))
    | Some f =>
        let! r := run f (r_ebx regs) (r_ecx regs) (r_edx regs) (r_esi regs) (r_edi regs) in
        ret (with_eax r)
    end.
End handler.

(** [__res >= 0 ? __res : (errno = -__res, -1)] on the [int] in [eax]: the
    value of the call and of [errno] after it. *)
Definition _syscall (eax errno : Z) : Z * Z :=
  let __res := s32 eax in
  if 0 <=? __res then (__res, errno) else (-1, s32 (- __res)).

Definition _syscall0 {S} (trap : sys_regs -> M S sys_regs) (nr errno : Z) : M S (Z * Z) :=
  let! r := trap (SysRegs nr 0 0 0 0 0) in ret (_syscall (r_eax r) errno).
Definition _syscall1 {S} (trap : sys_regs -> M S sys_regs) (nr a errno : Z) : M S (Z * Z) :=
  let! r := trap (SysRegs nr a 0 0 0 0) in ret (_syscall (r_eax r) errno).
Definition _syscall2 {S} (trap : sys_regs -> M S sys_regs) (nr a b errno : Z) : M S (Z * Z) :=
  let! r := trap (SysRegs nr a b 0 0 0) in ret (_syscall (r_eax r) errno).
Definition _syscall3 {S} (trap : sys_regs -> M S sys_regs) (nr a b c errno : Z) : M S (Z * Z) :=
  let! r := trap (SysRegs nr a b c 0 0) in ret (_syscall (r_eax r) errno).

(** ** Properties *)

(** The table that [setup_syscalls] leaves. *)
Definition the_table : sys_call_table := default [] setup_syscalls.

Definition expected_entry (nr : Z) : option sysfn :=
  match find (fun p => fst p =? nr) sys_call_stores with Some p => Some (snd p) | None => None end.

Lemma the_table_entries nr : 0 <= nr < NR_SYSCALLS -> aget the_table nr = Some (expected_entry nr).
Proof.
  intros H.
  assert (E : forall_below 128 (fun nr => bool_decide (aget the_table nr = Some (expected_entry nr))) = true)
    by (vm_compute; reflexivity).
  apply (forall_below_spec _ _ nr) in E; [|done]. by apply bool_decide_eq_true in E.
Qed.

Lemma syscall_u32 r errno : - 2147483648 < r < 2147483648 ->
  _syscall (u32 r) errno = if 0 <=? r then (r, errno) else (-1, - r).
Proof.
  intros H. unfold _syscall. assert (s32 (u32 r) = r) as -> by width.
  case_cond; [done|]. f_equal. width.
Qed.

Section wrappers.
Context {S : Type} (run : sysfn -> Z -> Z -> Z -> Z -> Z -> M S Z) (kill_self : Z -> M S Z).
Let trap := SysCallHandler run kill_self the_table.

(** A user program's three-argument system call runs the function the
    headers number gives it, with the arguments in order, and sees its result
    when that is not negative, and -1 with the error number in [errno] when the
    kernel returned the negated error; a number without a function gives
    [ENOSYS] and runs nothing. *)
Theorem syscall3_result nr f a b c errno s s' r :
  In (nr, f) sys_call_stores -> run f a b c 0 0 s = Ok (r, s') -> - 2147483648 < r < 2147483648 ->
  _syscall3 trap nr a b c errno s = Ok (if 0 <=? r then (r, errno) else (-1, - r), s').
Proof.
  intros Hin Hrun Hr. unfold _syscall3, trap, SysCallHandler, bind, ret. cbn [r_eax r_ebx r_ecx r_edx r_esi r_edi].
  assert (Hb : 0 <= nr < NR_SYSCALLS /\ expected_entry nr = Some f).
  { assert (E : forallb (fun p => (0 <=? fst p) && (fst p <? NR_SYSCALLS) &&
        bool_decide (expected_entry (fst p) = Some (snd p))) sys_call_stores = true) by (vm_compute; reflexivity).
    rewrite forallb_forall in E. specialize (E _ Hin). simpl in E.
    rewrite !andb_true_iff, bool_decide_eq_true in E. split; [lia|tauto]. }
  destruct Hb as [Hb He]. unfold get_or_fault.
  replace ((nr <? 0) || (NR_SYSCALLS <=? nr)) with false by lia.
  rewrite the_table_entries, He, Hrun by done. cbn [r_eax]. by rewrite syscall_u32.
Qed.

(** A system call number without a function gives -1 and [ENOSYS] and runs
    no function; a number of [NR_SYSCALLS] or more also sends the caller
    SIGSYS. *)
Theorem syscall_unknown nr errno s :
  0 <= nr < 4294967296 -> expected_entry nr = None ->
  (nr < NR_SYSCALLS -> _syscall0 trap nr errno s = Ok ((-1, ENOSYS), s)) /\
  (NR_SYSCALLS <= nr -> forall x s', kill_self SIGSYS s = Ok (x, s') ->
     _syscall0 trap nr errno s = Ok ((-1, ENOSYS), s')).
Proof.
  intros Hnr He. unfold _syscall0, trap, SysCallHandler, bind, ret, get_or_fault. cbn [r_eax].
  split; intros Hc.
  - replace ((nr <? 0) || (NR_SYSCALLS <=? nr)) with false by lia.
    rewrite the_table_entries, He by lia. done.
  - intros x s' Hk. replace ((nr <? 0) || (NR_SYSCALLS <=? nr)) with true by lia. by rewrite Hk.
Qed.
End wrappers.

Definition echo_run (f : sysfn) (a b c d e : Z) : M Z Z := fun s => Ok (a - b, s + 1).
Definition echo_kill (sign : Z) : M Z Z := fun s => Ok (0, s + sign).

Lemma syscall3_result_witness :
  _syscall3 (SysCallHandler echo_run echo_kill the_table) NR_read 0 9 7 0 5 = Ok ((-1, EBADF), 6).
Proof.
  apply (syscall3_result echo_run echo_kill NR_read Sys_read 0 9 7 0 5 6 (-9)).
  - vm_compute. tauto.
  - reflexivity.
  - lia.
Defined.

Lemma syscall_unknown_witness :
  _syscall0 (SysCallHandler echo_run echo_kill the_table) NR_mount 0 5 = Ok ((-1, ENOSYS), 5) /\
  _syscall0 (SysCallHandler echo_run echo_kill the_table) 128 0 5 = Ok ((-1, ENOSYS), 36).
Proof.
  split.
  - apply (syscall_unknown echo_run echo_kill NR_mount 0 5); vm_compute; [split; [discriminate|reflexivity]|reflexivity|reflexivity].
  - apply (syscall_unknown echo_run echo_kill 128 0 5) with (x := 0); vm_compute;
      [split; [discriminate|reflexivity]|reflexivity|discriminate|reflexivity].
Defined.
