(* ===== verification/Vfs.v ===== *)
(** * The virtual file system: [src/src/fs/vfs/vfs.c], [src/src/fs/vfs/vnode.c]

    Vnodes, super blocks, open files, mounts and file system types, all objects
    at kernel addresses; the vnode cache of a super block; the dispatch of file
    operations through a vnode's operation tables.  A pointer is its address,
    0 the null pointer; dereferencing an address without an object is a fault.

    A file system is an instance of [FsOps]: its operation tables, which the
    vnodes and super blocks name by address, over its own private state [F].
    The chains [cache_next], [filesystem_t.next] and [vfsmount.next] are lists
    of addresses in chain order. *)
From S2P Require Import Prelude CString Abi.
Open Scope nup_scope.

(** ** Data *)

Record vnode := Vnode {
  ino : Z; count : Z; nlinks : Z; uid : Z; gid : Z; mode : Z; flags : Z; size : Z;
  atime : Z; mtime : Z; ctime : Z;
  dev : Z; sb : Z; i_op : Z; u : Z;
  mount : Z; cover : Z }.

Record super_block := SuperBlock {
  sb_dev : Z; sb_flags : Z; sb_type : Z; s_op : Z; blocksize : Z; blocksize_bits : Z;
  skip_bytes : Z; sb_root : Z; sb_u : Z; sb_mi : Z; cache : list Z }.

Record file := File { f_fd : Z; f_flags : Z; f_node : Z; f_offset : Z; f_count : Z }.

Record filesystem_t := FilesystemT { fs_name : option (list Z); fs_flags : Z }.

Record vfsmount := VfsMount {
  devname : option (list Z); dirname : option (list Z); mnt_flags : Z; mnt_sb : Z }.

Record dirent := Dirent { d_ino : Z; d_name : list Z; d_namlen : Z; d_type : Z }.

(** What the file system code uses of the current task. *)
Record task_fs := TaskFs {
  t_uid : Z; t_euid : Z; t_gid : Z; t_egid : Z; t_pwd : Z; t_root : Z;
  t_close_on_exec : Z; t_files : list Z }.

Record vstate (F : Type) := VState {
  vnodes : gmap Z vnode;
  sbs : gmap Z super_block;
  files : gmap Z file;
  fstypes : gmap Z filesystem_t;
  filesystems : list Z;
  vmnts : gmap Z vfsmount;
  vfs_mounts : list Z;
  root_vnode : Z;
  next_ptr : Z;
  current_task : task_fs;
  fsd : F }.
Arguments VState {F}.
Arguments vnodes {F}.
Arguments sbs {F}.
Arguments files {F}.
Arguments fstypes {F}.
Arguments filesystems {F}.
Arguments vmnts {F}.
Arguments vfs_mounts {F}.
Arguments root_vnode {F}.
Arguments next_ptr {F}.
Arguments current_task {F}.
Arguments fsd {F}.

Local Abbreviation VM F := (M (vstate F)).

(** The operation tables; the entries no kernel code calls are left out.  A
    buffer an operation fills is part of its result. *)
Record file_operations (F : Type) := FileOperations {
  fo_open : option (Z -> Z -> VM F Z);
  fo_read : option (Z -> Z -> Z -> VM F (Z * list Z));
  fo_write : option (Z -> Z -> Z -> list Z -> VM F Z);
  fo_readdir : option (Z -> Z -> VM F (Z * option dirent));
  fo_close : option (Z -> VM F Z);
  fo_ioctl : option (Z -> Z -> Z -> VM F Z);
  fo_request : option (Z -> Z -> Z -> Z -> list Z -> VM F (Z * list Z)) }.
Arguments FileOperations {F}.
Arguments fo_open {F}.
Arguments fo_read {F}.
Arguments fo_write {F}.
Arguments fo_readdir {F}.
Arguments fo_close {F}.
Arguments fo_ioctl {F}.
Arguments fo_request {F}.

Record inode_operations (F : Type) := InodeOperations {
  f_op : option (file_operations F);
  lookup : option (Z -> list Z -> VM F Z) }.
Arguments InodeOperations {F}.
Arguments f_op {F}.
Arguments lookup {F}.

Record super_operations (F : Type) := SuperOperations {
  read_inode : option (Z -> VM F unit);
  put_inode : option (Z -> VM F unit);
  put_super : option (Z -> VM F unit) }.
Arguments SuperOperations {F}.
Arguments read_inode {F}.
Arguments put_inode {F}.
Arguments put_super {F}.

(** The file systems: the table at an address, and each type's [read_super]. *)
Class FsOps (F : Type) := {
  iop_at : Z -> option (inode_operations F);
  sop_at : Z -> option (super_operations F);
  read_super : Z -> Z -> Z -> VM F Z }.

(** ** State access *)

Section vfs.
Context {F : Type} `{FsOps F}.
Implicit Types s : vstate F.

Definition set_vnodes (m : gmap Z vnode) s : vstate F :=
  VState m (sbs s) (files s) (fstypes s) (filesystems s) (vmnts s) (vfs_mounts s) (root_vnode s)
    (next_ptr s) (current_task s) (fsd s).
Definition set_sbs (m : gmap Z super_block) s : vstate F :=
  VState (vnodes s) m (files s) (fstypes s) (filesystems s) (vmnts s) (vfs_mounts s) (root_vnode s)
    (next_ptr s) (current_task s) (fsd s).
Definition set_files (m : gmap Z file) s : vstate F :=
  VState (vnodes s) (sbs s) m (fstypes s) (filesystems s) (vmnts s) (vfs_mounts s) (root_vnode s)
    (next_ptr s) (current_task s) (fsd s).
Definition set_filesystems (l : list Z) s : vstate F :=
  VState (vnodes s) (sbs s) (files s) (fstypes s) l (vmnts s) (vfs_mounts s) (root_vnode s)
    (next_ptr s) (current_task s) (fsd s).
Definition set_mounts (m : gmap Z vfsmount) (l : list Z) s : vstate F :=
  VState (vnodes s) (sbs s) (files s) (fstypes s) (filesystems s) m l (root_vnode s)
    (next_ptr s) (current_task s) (fsd s).
Definition set_root_vnode (p : Z) s : vstate F :=
  VState (vnodes s) (sbs s) (files s) (fstypes s) (filesystems s) (vmnts s) (vfs_mounts s) p
    (next_ptr s) (current_task s) (fsd s).
Definition set_next_ptr (p : Z) s : vstate F :=
  VState (vnodes s) (sbs s) (files s) (fstypes s) (filesystems s) (vmnts s) (vfs_mounts s)
    (root_vnode s) p (current_task s) (fsd s).
Definition set_task (t : task_fs) s : vstate F :=
  VState (vnodes s) (sbs s) (files s) (fstypes s) (filesystems s) (vmnts s) (vfs_mounts s)
    (root_vnode s) (next_ptr s) t (fsd s).
Definition set_fsd (d : F) s : vstate F :=
  VState (vnodes s) (sbs s) (files s) (fstypes s) (filesystems s) (vmnts s) (vfs_mounts s)
    (root_vnode s) (next_ptr s) (current_task s) d.

(** [malloc]/[calloc] of an object: an address no object has. *)
Definition new_ptr : VM F Z :=
  let! p := gets next_ptr in do! modify (set_next_ptr (p + 1)); ret p.

Definition get_vnode (p : Z) : VM F vnode := get_or_fault (fun s => vnodes s !! p).
Definition put_vnode (p : Z) (v : vnode) : VM F unit :=
  modify (fun s => set_vnodes (<[p := v]> (vnodes s)) s).
Definition upd_vnode (p : Z) (f : vnode -> vnode) : VM F unit :=
  let! v := get_vnode p in put_vnode p (f v).
Definition get_sb (p : Z) : VM F super_block := get_or_fault (fun s => sbs s !! p).
Definition put_sb (p : Z) (v : super_block) : VM F unit :=
  modify (fun s => set_sbs (<[p := v]> (sbs s)) s).
Definition free_vnode (p : Z) : VM F unit :=
  modify (fun s => set_vnodes (delete p (vnodes s)) s).

Definition set_count (c : Z) (v : vnode) : vnode :=
  Vnode (ino v) c (nlinks v) (uid v) (gid v) (mode v) (flags v) (size v) (atime v) (mtime v)
    (ctime v) (dev v) (sb v) (i_op v) (u v) (mount v) (cover v).
Definition set_mount (m : Z) (v : vnode) : vnode :=
  Vnode (ino v) (count v) (nlinks v) (uid v) (gid v) (mode v) (flags v) (size v) (atime v)
    (mtime v) (ctime v) (dev v) (sb v) (i_op v) (u v) m (cover v).
Definition set_cover (c : Z) (v : vnode) : vnode :=
  Vnode (ino v) (count v) (nlinks v) (uid v) (gid v) (mode v) (flags v) (size v) (atime v)
    (mtime v) (ctime v) (dev v) (sb v) (i_op v) (u v) (mount v) c.
Definition set_cache (l : list Z) (b : super_block) : super_block :=
  SuperBlock (sb_dev b) (sb_flags b) (sb_type b) (s_op b) (blocksize b) (blocksize_bits b)
    (skip_bytes b) (sb_root b) (sb_u b) (sb_mi b) l.

(** [node->count++] on an [UCHAR] *)
Definition inc_count (p : Z) : VM F unit := upd_vnode p (fun v => set_count (u8 (count v + 1)) v).

Definition IS_REG (v : vnode) : bool := Z.land (flags v) 0x7 =? FS_FILE.
Definition IS_DIR (v : vnode) : bool := Z.land (flags v) 0x7 =? FS_DIRECTORY.
Definition IS_CHR (v : vnode) : bool := Z.land (flags v) 0x7 =? FS_CHARDEVICE.
Definition IS_BLK (v : vnode) : bool := Z.land (flags v) 0x7 =? FS_BLOCKDEVICE.
Definition IS_PIP (v : vnode) : bool := Z.land (flags v) 0x7 =? FS_PIPE.
Definition IS_LNK (v : vnode) : bool := Z.land (flags v) 0x7 =? FS_SYMLINK.
Definition IS_MNT (v : vnode) : bool := negb (mount v =? 0).
Definition IS_MNTED (v : vnode) : bool := negb (cover v =? 0).

(** ** The vnode cache: vnode.c *)

Definition iop_of (v : vnode) : option (inode_operations F) :=
  if i_op v =? 0 then None else iop_at (i_op v).
Definition fop_of (v : vnode) : option (file_operations F) :=
  match iop_of v with Some o => f_op o | None => None end.
Definition sop_of (b : super_block) : option (super_operations F) :=
  if s_op b =? 0 then None else sop_at (s_op b).

Definition vnode_zero : vnode := Vnode 0 0 0 0 0 0 0 0 0 0 0 0 0 0 0 0 0.

Definition create_empty_inode (b ino_ : Z) : VM F Z :=
  let! res := new_ptr in
  let! sblk := get_sb b in
  do! put_vnode res (Vnode ino_ 1 0 0 0 0 0 0 0 0 0 (sb_dev sblk) b 0 0 0 0);
  let! ops := get_or_fault (fun _ => sop_of sblk) in
  let! read := get_or_fault (fun _ => read_inode ops) in
  do! read res;
  let! sblk := get_sb b in
  do! put_sb b (set_cache (res :: cache sblk) sblk);
  ret res.

(** The chain without the node. *)
Fixpoint unlink (node : Z) (l : list Z) : list Z :=
  match l with
  | [] => []
  | x :: l => if x =? node then l else x :: unlink node l
  end.

Definition free_inode (node : Z) : VM F unit :=
  let! v := get_vnode node in
  let! sblk := get_sb (sb v) in
  do! put_sb (sb v) (set_cache (unlink node (cache sblk)) sblk);
  free_vnode node.

Definition vfs_create_cache : list Z := [].

Definition call_put_inode (sblk : super_block) (node : Z) : VM F unit :=
  let! ops := get_or_fault (fun _ => sop_of sblk) in
  match put_inode ops with Some f => f node | None => ret tt end.

Fixpoint free_nodes (sblk : super_block) (l : list Z) : VM F unit :=
  match l with
  | [] => ret tt
  | node :: l =>
      do! upd_vnode node (set_count 1);
      do! call_put_inode sblk node;
      do! free_vnode node;
      free_nodes sblk l
  end.

Definition free_sb_inodes (b : Z) : VM F unit :=
  if b =? 0 then ret tt else let! sblk := get_sb b in free_nodes sblk (cache sblk).

(** The walk over the cache for an inode number. *)
Fixpoint cache_find (l : list Z) (ino_ : Z) : VM F (option Z) :=
  match l with
  | [] => ret None
  | p :: l => let! v := get_vnode p in if ino v =? ino_ then ret (Some p) else cache_find l ino_
  end.

Definition iget (b ino_ : Z) : VM F Z :=
  if b =? 0 then ret 0
  else
    let! sblk := get_sb b in
    let! found := cache_find (cache sblk) ino_ in
    match found with
    | Some node => do! inc_count node; ret node
    | None =>
        match sop_of sblk with
        | Some ops => match read_inode ops with
                      | Some _ => create_empty_inode b ino_
                      | None => ret 0
                      end
        | None => ret 0
        end
    end.

Definition iput (node : Z) : VM F unit :=
  if node =? 0 then ret tt
  else
    let! v := get_vnode node in
    if sb v =? 0 then ret tt
    else
      let! sblk := get_sb (sb v) in
      if s_op sblk =? 0 then ret tt
      else if count v =? 0 then ret tt
      else
        do! call_put_inode sblk node;
        do! upd_vnode node (fun v => set_count (u8 (count v - 1)) v);
        let! v := get_vnode node in
        if count v =? 0 then free_inode node else ret tt.

(** ** File system types: vfs.c *)

Definition get_fstype (p : Z) : VM F filesystem_t := get_or_fault (fun s => fstypes s !! p).

(** [!strcmp(fs->name, name)] *)
Definition same_name (a b : option (list Z)) : VM F bool :=
  let! r := get_or_fault (fun _ => strcmp a b) in ret (r =? 0).

Fixpoint find_fs (l : list Z) (name : option (list Z)) : VM F Z :=
  match l with
  | [] => ret 0
  | p :: l =>
      let! fs := get_fstype p in
      let! eq := same_name (fs_name fs) name in
      if eq then ret p else find_fs l name
  end.

Definition vfs_get_fs (name : option (list Z)) : VM F Z :=
  match name with
  | None => ret 0
  | Some _ => let! l := gets filesystems in find_fs l name
  end.

(** The [next] pointer of an element of a chain. *)
Fixpoint next_in (l : list Z) (p : Z) : Z :=
  match l with
  | [] => 0
  | x :: l => if x =? p then hd 0 l else next_in l p
  end.

Definition register_filesystem (fs : Z) : VM F Z :=
  if fs =? 0 then ret (- EINVAL)
  else
    let! l := gets filesystems in
    if negb (next_in l fs =? 0) then ret (- EBUSY)
    else
      let! t := get_fstype fs in
      let! other := vfs_get_fs (fs_name t) in
      if negb (other =? 0) then ret (- EBUSY)
      else do! modify (set_filesystems (fs :: l)); ret 0.

Definition unregister_filesystem (fs : Z) : VM F Z :=
  if fs =? 0 then ret (- EINVAL)
  else
    let! t := get_fstype fs in
    match fs_name t with
    | None => ret (- EINVAL)
    | Some _ =>
        let! l := gets filesystems in
        let! tmp := find_fs l (fs_name t) in
        if tmp =? 0 then ret (- EINVAL)
        else do! modify (set_filesystems (unlink tmp l)); ret 0
    end.

(** ** Dispatch of file operations *)

Definition open_fs (node f : Z) : VM F Z :=
  let! v := get_vnode node in
  match fop_of v with
  | Some ops => match fo_open ops with Some op => op node f | None => ret 0 end
  | None => ret 0
  end.

Definition read_fs (node offset sz : Z) : VM F (Z * list Z) :=
  let! v := get_vnode node in
  if IS_DIR v then ret (- EISDIR, [])
  else match fop_of v with
       | Some ops => match fo_read ops with Some op => op node offset sz | None => ret (- EINVAL, []) end
       | None => ret (- EINVAL, [])
       end.

Definition write_fs (node offset sz : Z) (buffer : list Z) : VM F Z :=
  let! v := get_vnode node in
  if IS_DIR v then ret (- EISDIR)
  else match fop_of v with
       | Some ops => match fo_write ops with Some op => op node offset sz buffer | None => ret (- EINVAL) end
       | None => ret (- EINVAL)
       end.

Definition request_fs (node cmd sector cnt : Z) (buffer : list Z) : VM F (Z * list Z) :=
  let! v := get_vnode node in
  if IS_DIR v then ret (- EISDIR, buffer)
  else match fop_of v with
       | Some ops =>
           match fo_request ops with
           | Some op => op node cmd sector cnt buffer
           | None => ret (- EINVAL, buffer)
           end
       | None => ret (- EINVAL, buffer)
       end.

Definition close_fs (node : Z) : VM F Z :=
  let! v := get_vnode node in
  match fop_of v with
  | Some ops => match fo_close ops with Some op => op node | None => ret 0 end
  | None => ret 0
  end.

Definition readdir_fs (node index : Z) : VM F (Z * option dirent) :=
  let! v := get_vnode node in
  if negb (IS_DIR v) then ret (- EINVAL, None)
  else match fop_of v with
       | Some ops => match fo_readdir ops with Some op => op node index | None => ret (- EINVAL, None) end
       | None => ret (- EINVAL, None)
       end.

Definition ioctl_fs (node cmd arg : Z) : VM F Z :=
  let! v := get_vnode node in
  match fop_of v with
  | Some ops => match fo_ioctl ops with Some op => op node cmd arg | None => ret (- ENOTTY) end
  | None => ret (- ENOTTY)
  end.

End vfs.

(** ** What the cache relies on of a file system *)

(** [f] on the vnode [node] changed that vnode, but not its identity or its
    place in the tree, and the file system's own state. *)
Definition local_to {F} (node : Z) (s s' : vstate F) : Prop :=
  exists v v' d, vnodes s !! node = Some v /\
    s' = set_fsd d (set_vnodes (<[node := v']> (vnodes s)) s) /\
    ino v' = ino v /\ sb v' = sb v /\ count v' = count v /\ mount v' = mount v /\ cover v' = cover v.

Class FsLaws (F : Type) `{FsOps F} := {
  read_inode_local a ops f node s x s' :
    sop_at a = Some ops -> read_inode ops = Some f -> f node s = Ok (x, s') -> local_to node s s' }.

Section vfs_facts.
Context {F : Type} `{FsOps F}.
Implicit Types s : vstate F.

(** Every object lies below the next free address. *)
Definition ptrs_ok s : Prop := 0 < next_ptr s /\ forall p, is_Some (vnodes s !! p) -> 0 < p < next_ptr s.

Definition cached_ino s (p : Z) : option Z := ino <$> vnodes s !! p.

(** The cache of super block [b]: distinct vnodes of [b] with distinct inode
    numbers. *)
Record cache_ok s (b : Z) (sblk : super_block) : Prop := {
  co_sb : sbs s !! b = Some sblk;
  co_node p : p ∈ cache sblk -> exists v, vnodes s !! p = Some v /\ sb v = b;
  co_ptr : NoDup (cache sblk);
  co_ino p q : p ∈ cache sblk -> q ∈ cache sblk -> cached_ino s p = cached_ino s q -> p = q }.

Lemma get_vnode_Ok p v s : vnodes s !! p = Some v -> get_vnode p s = Ok (v, s).
Proof. intros E. unfold get_vnode, get_or_fault. by rewrite E. Qed.
Lemma get_sb_Ok b sblk s : sbs s !! b = Some sblk -> get_sb b s = Ok (sblk, s).
Proof. intros E. unfold get_sb, get_or_fault. by rewrite E. Qed.

Lemma bind_run {A B} (m : M (vstate F) A) (k : A -> M (vstate F) B) s a s' :
  m s = Ok (a, s') -> bind m k s = k a s'.
Proof. intros E. unfold bind. by rewrite E. Qed.

Lemma upd_vnode_Ok p v g s : vnodes s !! p = Some v ->
  upd_vnode p g s = Ok (tt, set_vnodes (<[p := g v]> (vnodes s)) s).
Proof. intros E. unfold upd_vnode. by rewrite (bind_run _ _ _ _ _ (get_vnode_Ok _ _ _ E)). Qed.

Lemma inc_count_Ok p v s : vnodes s !! p = Some v ->
  inc_count p s = Ok (tt, set_vnodes (<[p := set_count (u8 (count v + 1)) v]> (vnodes s)) s).
Proof. intros E. unfold inc_count. by rewrite (upd_vnode_Ok p v). Qed.

Lemma cache_find_spec s l i :
  (forall p, p ∈ l -> is_Some (vnodes s !! p)) ->
  exists r, cache_find l i s = Ok (r, s) /\
    match r with
    | Some p => p ∈ l /\ cached_ino s p = Some i
    | None => forall p, p ∈ l -> cached_ino s p <> Some i
    end.
Proof.
  induction l as [|p l IH]; intros Hl; cbn [cache_find].
  - exists None. split; [done|]. intros p Hp. by apply not_elem_of_nil in Hp.
  - destruct (Hl p ltac:(left)) as [v Hv].
    rewrite (bind_run _ _ _ _ _ (get_vnode_Ok _ _ _ Hv)).
    assert (Hc : cached_ino s p = Some (ino v)) by (unfold cached_ino; by rewrite Hv).
    destruct (Z.eqb_spec (ino v) i) as [<-|Hne].
    + exists (Some p). split; [done|]. split; [left|done].
    + destruct IH as (r & Hr & Hs); [intros q Hq; apply Hl; by right|].
      exists r. split; [done|]. destruct r as [q|].
      * destruct Hs. split; [by right|done].
      * intros q [->|Hq]%elem_of_cons; [rewrite Hc; congruence|by apply Hs].
Qed.

(** A cached inode is found, and only its count changes. *)
Lemma iget_hit s b sblk p v :
  cache_ok s b sblk -> b <> 0 -> p ∈ cache sblk -> vnodes s !! p = Some v ->
  iget b (ino v) s = Ok (p, set_vnodes (<[p := set_count (u8 (count v + 1)) v]> (vnodes s)) s).
Proof.
  intros Hok Hb Hp Hv. unfold iget. replace (b =? 0) with false by lia.
  rewrite (bind_run _ _ _ _ _ (get_sb_Ok _ _ _ (co_sb _ _ _ Hok))).
  destruct (cache_find_spec s (cache sblk) (ino v)) as (r & Hr & Hs).
  { intros q Hq. destruct (co_node _ _ _ Hok q Hq) as (w & -> & _). by eexists. }
  rewrite (bind_run _ _ _ _ _ Hr).
  assert (Hc : cached_ino s p = Some (ino v)) by (unfold cached_ino; by rewrite Hv).
  destruct r as [q|]; [|by destruct (Hs p Hp)]. destruct Hs as [Hq Hqi].
  assert (q = p) as -> by (apply (co_ino _ _ _ Hok); congruence).
  by rewrite (bind_run _ _ _ _ _ (inc_count_Ok _ _ _ Hv)).
Qed.

Lemma cache_ok_count s b sblk p v c : cache_ok s b sblk -> vnodes s !! p = Some v ->
  cache_ok (set_vnodes (<[p := set_count c v]> (vnodes s)) s) b sblk.
Proof.
  intros [H1 H2 H3 H4] Hv.
  assert (Hi : forall q, cached_ino (set_vnodes (<[p := set_count c v]> (vnodes s)) s) q = cached_ino s q).
  { intros q. unfold cached_ino. simpl. destruct (decide (q = p)) as [->|Hne].
    - by rewrite lookup_insert_eq, Hv.
    - by rewrite lookup_insert_ne. }
  constructor; [done| |done|].
  - intros q Hq. destruct (H2 q Hq) as (w & Hw & Hb). simpl. destruct (decide (q = p)) as [->|Hne].
    + rewrite lookup_insert_eq. eexists. split; [done|]. simpl. congruence.
    + rewrite lookup_insert_ne by done. by exists w.
  - intros x y. rewrite !Hi. apply H4.
Qed.

End vfs_facts.

Section vfs_properties.
Context {F : Type} `{FsLaws F}.
Implicit Types s : vstate F.

(** A new vnode, whatever the file system does to fill it in. *)
Lemma create_empty_inode_ok s b sblk ops f i p s' : cache_ok s b sblk -> ptrs_ok s ->
  sop_of sblk = Some ops -> read_inode ops = Some f ->
  (forall q, q ∈ cache sblk -> cached_ino s q <> Some i) -> create_empty_inode b i s = Ok (p, s') ->
  vnodes s !! p = None /\
  exists sblk' v, cache_ok s' b sblk' /\ ptrs_ok s' /\ p ∈ cache sblk' /\
    vnodes s' !! p = Some v /\ ino v = i /\ count v = 1.
Proof.
  intros Hok [Hn Hp] Eop Ef Hs Hg.
  unfold create_empty_inode in Hg. unfold new_ptr in Hg.
  unfold bind at 1 2 3, gets, modify, ret in Hg.
  set (s1 := set_next_ptr (next_ptr s + 1) s) in Hg.
  rewrite (bind_run _ _ s1 _ _ (get_sb_Ok b sblk s1 (co_sb _ _ _ Hok))) in Hg.
  unfold put_vnode, modify at 1 in Hg. unfold bind at 1 in Hg.
  set (v0 := Vnode i 1 _ _ _ _ _ _ _ _ _ _ _ _ _ _ _) in Hg.
  set (s2 := set_vnodes _ s1) in Hg. unfold bind at 1, get_or_fault at 1 in Hg. rewrite Eop in Hg.
  unfold bind at 1, get_or_fault at 1 in Hg. rewrite Ef in Hg. unfold bind at 1 in Hg.
  destruct (f (next_ptr s) s2) as [[x s3]| |] eqn:Er; [|done..].
  unfold sop_of in Eop. destruct (s_op sblk =? 0); [done|].
  destruct (read_inode_local _ _ _ _ _ _ _ Eop Ef Er) as (w & w' & d & Hw & -> & Ei & Es & Ec & _ & _).
  set (s3 := set_fsd d _) in *.
  assert (Hfresh : vnodes s !! next_ptr s = None).
  { destruct (vnodes s !! next_ptr s) eqn:E; [|done].
    destruct (Hp (next_ptr s)); [by rewrite E|lia]. }
  simpl in Hw. rewrite lookup_insert_eq in Hw. injection Hw as <-.
  rewrite (bind_run _ _ s3 _ _ (get_sb_Ok b sblk s3 (co_sb _ _ _ Hok))) in Hg.
  unfold put_sb, bind, modify, ret in Hg. injection Hg as <- <-.
  set (s4 := set_sbs _ s3).
  assert (Hother : forall q, q <> next_ptr s -> vnodes s4 !! q = vnodes s !! q).
  { intros q Hq. simpl. by rewrite !lookup_insert_ne. }
  assert (Hself : vnodes s4 !! next_ptr s = Some w') by (simpl; by rewrite lookup_insert_eq).
  assert (Hne : forall q, q ∈ cache sblk -> q <> next_ptr s).
  { intros q Hq ->. destruct (co_node _ _ _ Hok _ Hq) as (z & Hz & _). congruence. }
  assert (Hino : forall q, q ∈ cache sblk -> cached_ino s4 q = cached_ino s q).
  { intros q Hq. unfold cached_ino. by rewrite Hother by auto. }
  assert (Hself_i : cached_ino s4 (next_ptr s) = Some i) by (unfold cached_ino; rewrite Hself; simpl; by rewrite Ei).
  set (sblk' := set_cache (next_ptr s :: cache sblk) sblk).
  assert (Hok' : cache_ok s4 b sblk').
  { constructor.
    - simpl. by rewrite lookup_insert_eq.
    - intros q [->|Hq]%elem_of_cons; [exists w'; split; [done|by rewrite Es]|].
      rewrite Hother by auto. by apply (co_node _ _ _ Hok).
    - constructor; [|apply Hok]. intros Hin. by apply Hne in Hin.
    - intros x1 x2 [->|H1]%elem_of_cons [->|H2]%elem_of_cons; rewrite ?Hself_i, ?Hino by done;
        intros E; [done|exfalso; by apply (Hs x2)|exfalso; by apply (Hs x1)|by apply (co_ino _ _ _ Hok)]. }
  split; [done|]. exists sblk', w'. split_and!; try done.
  - split; [simpl; lia|]. intros q Hq. destruct (decide (q = next_ptr s)) as [->|Hqn]; [simpl; lia|].
    rewrite Hother in Hq by done. destruct (Hp q Hq). simpl. lia.
  - apply elem_of_cons. by left.
Qed.


End vfs_properties.

(** ** rootfs: vfs.c

    A file system of one directory to mount on; its mode is 0777. *)
Definition rootfs_read_inode {F} (node : Z) : M (vstate F) unit :=
  upd_vnode node (fun v =>
    Vnode (ino v) (count v) (nlinks v) (uid v) (gid v) 511 FS_DIRECTORY (size v) (atime v) (mtime v)
      (ctime v) (dev v) (sb v) (i_op v) (u v) (mount v) (cover v)).

Definition rootfs_sb_ops {F} : super_operations F :=
  SuperOperations (Some rootfs_read_inode) None None.

(** [s_op_address] is where [rootfs_sb_ops] lies. *)
Definition read_rootfs_sb {F} `{FsOps F} (s_op_address b : Z) : M (vstate F) Z :=
  let! sblk := get_sb b in
  do! put_sb b (SuperBlock (sb_dev sblk) (sb_flags sblk) (sb_type sblk) s_op_address 1 0
        (skip_bytes sblk) (sb_root sblk) (sb_u sblk) (sb_mi sblk) (cache sblk));
  let! root := iget b 0 in
  let! sblk := get_sb b in
  do! put_sb b (SuperBlock (sb_dev sblk) (sb_flags sblk) (sb_type sblk) (s_op sblk) (blocksize sblk)
        (blocksize_bits sblk) (skip_bytes sblk) root (sb_u sblk) (sb_mi sblk) (cache sblk));
  ret b.

(** The kernel with rootfs alone: its table lies at address 1. *)
#[export] Instance rootfs_only : FsOps unit := {
  iop_at _ := None;
  sop_at a := if a =? 1 then Some rootfs_sb_ops else None;
  read_super _ b _ := ret b }.

#[export] Instance rootfs_laws : FsLaws unit.
Proof.
  constructor. intros a ops f node s x s'. simpl. destruct (a =? 1); [|done]. intros [= <-] [= <-].
  unfold rootfs_read_inode, upd_vnode, bind, get_vnode, get_or_fault, put_vnode, modify.
  destruct (vnodes s !! node) as [v|] eqn:E; [|done]. intros [= _ <-].
  exists v, (Vnode (ino v) (count v) (nlinks v) (uid v) (gid v) 511 FS_DIRECTORY (size v) (atime v)
    (mtime v) (ctime v) (dev v) (sb v) (i_op v) (u v) (mount v) (cover v)), (fsd s).
  split_and!; try done.
Qed.

Definition task_zero : task_fs := TaskFs 0 0 0 0 0 0 0 (replicate 32 0).
Definition rootfs_sample : vstate unit :=
  VState ∅ {[ 100 := SuperBlock 0 0 0 1 0 0 0 0 0 0 [] ]} ∅ ∅ [] ∅ [] 0 1000 task_zero tt.


(** ** References *)

Section refs.
Context {F : Type} `{FsOps F}.
Implicit Types s : vstate F.

Definition no_put_inode (sblk : super_block) : Prop :=
  exists ops, sop_of sblk = Some ops /\ put_inode ops = None.

Lemma sop_of_s_op sblk ops : sop_of sblk = Some ops -> (s_op sblk =? 0) = false.
Proof. unfold sop_of. by destruct (s_op sblk =? 0). Qed.

Lemma set_vnodes_twice m m' s : set_vnodes m' (set_vnodes m s) = set_vnodes m' s.
Proof. done. Qed.
Lemma set_vnodes_id s : set_vnodes (vnodes s) s = s.
Proof. by destruct s. Qed.

Lemma iput_count s p v sblk : vnodes s !! p = Some v -> sbs s !! sb v = Some sblk ->
  no_put_inode sblk -> p <> 0 -> sb v <> 0 -> 1 < count v < 256 ->
  iput p s = Ok (tt, set_vnodes (<[p := set_count (count v - 1) v]> (vnodes s)) s).
Proof.
  intros Hv Hb (ops & Hop & Hpi) Hp Hsb Hc. unfold iput. replace (p =? 0) with false by lia.
  rewrite (bind_run _ _ _ _ _ (get_vnode_Ok _ _ _ Hv)). replace (sb v =? 0) with false by lia.
  rewrite (bind_run _ _ _ _ _ (get_sb_Ok _ _ _ Hb)), (sop_of_s_op _ _ Hop).
  replace (count v =? 0) with false by lia.
  assert (Hcall : call_put_inode sblk p s = Ok (tt, s)).
  { unfold call_put_inode, bind, get_or_fault. by rewrite Hop, Hpi. }
  rewrite (bind_run _ _ _ _ _ Hcall), (bind_run _ _ _ _ _ (upd_vnode_Ok _ _ _ _ Hv)).
  assert (Hv' : vnodes (set_vnodes (<[p := set_count (u8 (count v - 1)) v]> (vnodes s)) s) !! p
                = Some (set_count (u8 (count v - 1)) v)) by (simpl; by rewrite lookup_insert_eq).
  rewrite (bind_run _ _ _ _ _ (get_vnode_Ok _ _ _ Hv')). cbn [count set_count].
  rewrite u8_id by lia. by replace (count v - 1 =? 0) with false by lia.
Qed.


(** The reference count is an [UCHAR]: the 256th reference makes it 0, and
    [iput] then gives nothing back any more. *)
Theorem iget_count_wraps s b sblk p v :
  cache_ok s b sblk -> b <> 0 -> p <> 0 -> s_op sblk <> 0 -> p ∈ cache sblk ->
  vnodes s !! p = Some v -> count v = 255 ->
  exists s', iget b (ino v) s = Ok (p, s') /\ vnodes s' !! p = Some (set_count 0 v) /\
    iput p s' = Ok (tt, s').
Proof.
  intros Hok Hb Hp Hop Hin Hv Hc. eexists. split; [by apply (iget_hit s b sblk)|].
  rewrite Hc. change (u8 (255 + 1)) with 0.
  assert (Hv' : vnodes (set_vnodes (<[p := set_count 0 v]> (vnodes s)) s) !! p = Some (set_count 0 v))
    by (simpl; by rewrite lookup_insert_eq).
  split; [done|]. unfold iput. replace (p =? 0) with false by lia.
  rewrite (bind_run _ _ _ _ _ (get_vnode_Ok _ _ _ Hv')). cbn [sb set_count count].
  destruct (co_node _ _ _ Hok p Hin) as (w & Hw & Hwb). rewrite Hv in Hw. injection Hw as <-.
  rewrite Hwb. replace (b =? 0) with false by lia.
  rewrite (bind_run _ _ _ _ _ (get_sb_Ok b sblk (set_vnodes _ s) (co_sb _ _ _ Hok))).
  by replace (s_op sblk =? 0) with false by lia.
Qed.

(** ** The list of file system types *)

Definition tname s (p : Z) : option (list Z) :=
  match fstypes s !! p with
  | Some t => match fs_name t with Some a => cstr a | None => None end
  | None => None
  end.

(** Registered types have distinct names. *)
Definition registry_ok s : Prop :=
  (forall p, p ∈ filesystems s -> p <> 0 /\ is_Some (tname s p)) /\
  (forall p q, p ∈ filesystems s -> q ∈ filesystems s -> tname s p = tname s q -> p = q) /\
  NoDup (filesystems s).

Lemma tname_inv s p n : tname s p = Some n ->
  exists t a, fstypes s !! p = Some t /\ fs_name t = Some a /\ cstr a = Some n.
Proof.
  unfold tname. destruct (fstypes s !! p) as [t|]; [|done].
  destruct (fs_name t) as [a|] eqn:E; [|done]. intros Hn. by exists t, a.
Qed.

Lemma find_fs_spec s l a n : cstr a = Some n ->
  (forall p, p ∈ l -> p <> 0 /\ is_Some (tname s p)) ->
  exists r, find_fs l (Some a) s = Ok (r, s) /\
    ((r ∈ l /\ tname s r = Some n) \/ (r = 0 /\ forall p, p ∈ l -> tname s p <> Some n)).
Proof.
  intros Ha. induction l as [|p l IH]; intros Hl; cbn [find_fs].
  - exists 0. split; [done|]. right. split; [done|]. intros p Hp. by apply not_elem_of_nil in Hp.
  - destruct (Hl p ltac:(left)) as [Hp [m Hm]]. destruct (tname_inv s p m Hm) as (t & c & Ht & Hc & Hcm).
    assert (Hg : get_fstype p s = Ok (t, s)) by (unfold get_fstype, get_or_fault; by rewrite Ht).
    rewrite (bind_run _ _ _ _ _ Hg). unfold same_name, bind, get_or_fault, ret. rewrite Hc.
    cbn [strcmp]. rewrite (strcmp_loop_correct c a m n) by done.
    destruct (Z.eqb_spec (lex m n) 0) as [E|E].
    + exists p. split; [done|]. left. split; [left|]. apply lex_refl_iff in E. congruence.
    + destruct IH as (r & Hr & Hs); [intros q Hq; apply Hl; by right|]. exists r. split; [done|].
      destruct Hs as [[H1 H2]|[H1 H2]]; [left; split; [by right|done]|right].
      split; [done|]. intros q [->|Hq]%elem_of_cons; [|by apply H2].
      rewrite Hm. intros [= ->]. by apply E, lex_refl_iff.
Qed.

Lemma unlink_head p l : unlink p (p :: l) = l.
Proof. simpl. by rewrite Z.eqb_refl. Qed.

Lemma next_in_absent l p : p ∉ l -> next_in l p = 0.
Proof.
  induction l as [|x l IH]; [done|]. rewrite not_elem_of_cons. intros [H1 H2]. simpl.
  replace (x =? p) with false by lia. auto.
Qed.

(** [register_filesystem] refuses a type whose name is taken and otherwise
    makes it the one [vfs_get_fs] finds under that name, keeping the names
    distinct; [unregister_filesystem] undoes exactly that. *)
Theorem register_filesystem_roundtrip s fs a n :
  registry_ok s -> fs <> 0 -> fs ∉ filesystems s -> tname s fs = Some n -> cstr a = Some n ->
  ((exists p, p ∈ filesystems s /\ tname s p = Some n) /\
     register_filesystem fs s = Ok (- EBUSY, s)) \/
  (exists s', register_filesystem fs s = Ok (0, s') /\ registry_ok s' /\
     vfs_get_fs (Some a) s' = Ok (fs, s') /\ unregister_filesystem fs s' = Ok (0, s)).
Proof.
  intros (Hl & Hi & Hd) Hfs Hnin Hn Ha. destruct (tname_inv s fs n Hn) as (t & c & Ht & Hc & Hcn).
  assert (Hg : forall l, get_fstype fs (set_filesystems l s) = Ok (t, set_filesystems l s)).
  { intros l. unfold get_fstype, get_or_fault. simpl. by rewrite Ht. }
  assert (Hs0 : set_filesystems (filesystems s) s = s) by (by destruct s).
  assert (Hreg : register_filesystem fs s =
    (let! other := find_fs (filesystems s) (Some c) in
     if negb (other =? 0) then ret (- EBUSY)
     else do! modify (set_filesystems (fs :: filesystems s)); ret 0) s).
  { unfold register_filesystem. replace (fs =? 0) with false by lia. unfold bind at 1, gets.
    rewrite next_in_absent by done. cbn [negb Z.eqb].
    assert (Hg0 : get_fstype fs s = Ok (t, s)) by (unfold get_fstype, get_or_fault; by rewrite Ht).
    rewrite (bind_run _ _ _ _ _ Hg0), Hc. done. }
  destruct (find_fs_spec s (filesystems s) c n Hcn Hl) as (r & Hr & Hs).
  rewrite Hreg, (bind_run _ _ _ _ _ Hr). destruct Hs as [[Hrl Hrn]|[-> Hno]].
  - left. destruct (Hl r Hrl) as [Hr0 _]. replace (r =? 0) with false by lia.
    split; [by exists r|done].
  - right. eexists. split; [done|]. set (s' := set_filesystems _ s).
    pose proof (Hg (fs :: filesystems s) : get_fstype fs s' = Ok (t, s')) as Hg'.
    assert (Hl' : forall p, p ∈ fs :: filesystems s -> p <> 0 /\ is_Some (tname s' p)).
    { intros p [->|Hp]%elem_of_cons; [split; [done|by exists n]|by apply Hl]. }
    assert (Hfind : forall x, cstr x = Some n -> find_fs (fs :: filesystems s) (Some x) s' = Ok (fs, s')).
    { intros x Hx. cbn [find_fs]. rewrite (bind_run _ _ _ _ _ Hg').
      unfold same_name, bind, get_or_fault, ret. rewrite Hc. cbn [strcmp].
      rewrite (strcmp_loop_correct c x n n) by done. by rewrite (proj2 (lex_refl_iff n n)). }
    split_and!.
    + split_and!; [done| |by constructor].
      intros p q [->|Hp]%elem_of_cons [->|Hq]%elem_of_cons; change (tname s') with (tname s);
        rewrite ?Hn; intros E; [done|by destruct (Hno q)|by destruct (Hno p)|by apply Hi].
    + unfold vfs_get_fs. by rewrite (bind_run (gets filesystems) _ s' (fs :: filesystems s) s'), Hfind.
    + unfold unregister_filesystem. replace (fs =? 0) with false by lia.
      rewrite (bind_run _ _ _ _ _ Hg'), Hc.
      rewrite (bind_run (gets filesystems) _ s' (fs :: filesystems s) s') by done.
      rewrite (bind_run _ _ _ _ _ (Hfind c Hcn)). replace (fs =? 0) with false by lia.
      rewrite unlink_head. unfold bind, modify, ret, s'. do 2 f_equal. by destruct s.
Qed.

End refs.

(** One cached vnode with [c] references, and two file system types. *)
Definition sample_vnode (c : Z) : vnode := Vnode 7 c 0 0 0 511 FS_DIRECTORY 0 0 0 0 0 100 0 0 0 0.
Definition sample_sb : super_block := SuperBlock 0 0 0 1 1 0 0 0 0 0 [500].
Definition vfs_sample (c : Z) : vstate unit :=
  VState {[ 500 := sample_vnode c ]} {[ 100 := sample_sb ]} ∅
    (<[1 := FilesystemT (Some (lit "rootfs")) 0]> {[ 2 := FilesystemT (Some (lit "devfs")) 0 ]}) [1]
    ∅ [] 0 1000 task_zero tt.

Lemma vfs_sample_cache c : cache_ok (vfs_sample c) 100 sample_sb.
Proof.
  assert (Hin : forall p, p ∈ cache sample_sb -> p = 500) by (intros p; simpl; set_solver).
  constructor; [reflexivity| |apply NoDup_singleton|].
  - intros p ->%Hin. exists (sample_vnode c). split; reflexivity.
  - by intros p q ->%Hin ->%Hin.
Qed.


Lemma iget_count_wraps_witness : exists s', iget 100 7 (vfs_sample 255) = Ok (500, s') /\
  iput 500 s' = Ok (tt, s').
Proof.
  destruct (iget_count_wraps (vfs_sample 255) 100 sample_sb 500 (sample_vnode 255)) as (s' & H1 & _ & H2).
  - apply vfs_sample_cache.
  - discriminate.
  - discriminate.
  - discriminate.
  - simpl. apply list_elem_of_singleton. reflexivity.
  - reflexivity.
  - reflexivity.
  - exists s'. split; [exact H1|exact H2].
Defined.

Lemma register_filesystem_roundtrip_witness :
  exists s', register_filesystem 2 (vfs_sample 1) = Ok (0, s') /\
    unregister_filesystem 2 s' = Ok (0, vfs_sample 1).
Proof.
  destruct (register_filesystem_roundtrip (vfs_sample 1) 2 (lit "devfs") (chars "devfs"))
    as [[(p & Hp & Hn) _]|(s' & H1 & _ & _ & H2)].
  - split; [|split].
    + intros p. simpl. rewrite list_elem_of_singleton. intros ->. split; [discriminate|].
      vm_compute. eexists. reflexivity.
    + intros p q. simpl. rewrite !list_elem_of_singleton. by intros -> ->.
    + apply NoDup_singleton.
  - discriminate.
  - simpl. rewrite list_elem_of_singleton. discriminate.
  - vm_compute. reflexivity.
  - vm_compute. reflexivity.
  - exfalso. simpl in Hp. apply list_elem_of_singleton in Hp as ->. vm_compute in Hn. discriminate.
  - exists s'. split; [exact H1|exact H2].
Defined.
