(* ===== verification/Namei.v ===== *)
(** * Path names: [src/src/fs/namei.c]

    The comparison of path components, the permission check, and the walk from
    a path to a vnode.  The out-parameter [status] is passed in and returned
    next to the vnode; no caller passes a null pointer for it.  The two
    recursions that are not structural, over the mounts on a node and over the
    nodes covered by a mounted root, take fuel; [namei] starts them with one
    more than the number of vnodes. *)
From S2P Require Import Prelude CString Abi Vfs.
Open Scope nup_scope.

Definition SLASH : Z := 47.

Definition I_AM_ROOT (t : task_fs) : bool := negb (negb (t_uid t =? 0) && negb (t_euid t =? 0)).

Definition node_permission (t : task_fs) (node : vnode) (mask : Z) : Z :=
  let m :=
    if I_AM_ROOT t then 511
    else if (t_uid t =? uid node) || (t_euid t =? uid node) then Z.shiftr (mode node) 6
    else if (t_gid t =? gid node) || (t_egid t =? gid node) then Z.shiftr (mode node) 3
    else mode node in
  Z.land (Z.land m mask) 7.

Definition is_end_chr (c : Z) : bool := (c =? 0) || (c =? SLASH).

Fixpoint namei_match (s1 s2 : list Z) : option bool :=
  match s1, s2 with
  | c1 :: r1, c2 :: r2 =>
      if negb (is_end_chr c1) && negb (is_end_chr c2) then
        if negb (c1 =? c2) then Some false else namei_match r1 r2
      else Some (Bool.eqb (is_end_chr c1) (is_end_chr c2))
  | _, _ => None
  end.

(** The post-decrement [s2len--] in the loop condition wraps when it finds 0. *)
Fixpoint namei_nmatch (s1 s2 : list Z) (s2len : Z) : option bool :=
  let after c1 s2 n :=
    if is_end_chr c1 && (n =? 0) then Some true
    else match s2 with
         | c2 :: _ => Some (Bool.eqb (is_end_chr c1) (is_end_chr c2))
         | [] => None
         end in
  match s1 with
  | [] => None
  | c1 :: r1 =>
      if is_end_chr c1 then after c1 s2 s2len
      else match s2 with
           | [] => None
           | c2 :: r2 =>
               if is_end_chr c2 then after c1 s2 s2len
               else if s2len =? 0 then after c1 s2 (u32 (s2len - 1))
               else if negb (c1 =? c2) then Some false
               else namei_nmatch r1 r2 (u32 (s2len - 1))
           end
  end.

Section namei.
Context {F : Type} `{FsOps F}.
Implicit Types s : vstate F.
Local Abbreviation VM := (M (vstate F)).

(** [resolve_mount]: the recursive call passes [steps--], the old value. *)
Fixpoint resolve_mount (fuel : nat) (node status steps : Z) : VM (Z * Z) :=
  match fuel with
  | O => nofuel
  | S fuel =>
      let! v := get_vnode node in
      if IS_MNT v then
        if steps =? 0 then do! iput node; ret (0, - EMLINK)
        else
          let newnode := mount v in
          do! iput node;
          do! inc_count newnode;
          resolve_mount fuel newnode status steps
      else ret (node, status)
  end.

(** One more than the number of vnodes: enough for a chain without a cycle. *)
Definition walk_fuel s : nat := S (base.size (vnodes s)).
Definition resolve_mounts (node status : Z) : VM (Z * Z) :=
  let! fuel := gets walk_fuel in resolve_mount fuel node status MOUNT_MAX.

Definition match_name (filename : list Z) (name : string) : VM bool :=
  get_or_fault (fun _ => namei_match filename (lit name)).

(** The part of [getdentry] after the special names. *)
Definition lookup_dentry (node : Z) (filename : list Z) (status : Z) : VM (Z * Z) :=
  let! v := get_vnode node in
  let! task := gets current_task in
  if negb (IS_DIR v) then do! iput node; ret (0, - ENOTDIR)
  else if node_permission task v X_OK =? 0 then do! iput node; ret (0, - EACCES)
  else
    match iop_of v with
    | None => do! iput node; ret (0, - EGENERIC)
    | Some ops =>
        match lookup ops with
        | None => do! iput node; ret (0, - EGENERIC)
        | Some op =>
            let! newnode := op node filename in
            let status := if negb (newnode =? 0) then 0 else - ENOENT in
            do! iput node;
            if newnode =? 0 then ret (0, status) else resolve_mounts newnode status
        end
    end.

Fixpoint getdentry (fuel : nat) (node : Z) (filename : list Z) (status : Z) (frommount : bool)
  : VM (Z * Z) :=
  match fuel with
  | O => nofuel
  | S fuel =>
      do! inc_count node;
      let! ' (node, status) :=
        (if negb frommount then resolve_mounts node status else ret (node, status)) in
      if node =? 0 then ret (0, status)
      else
        let! dot := match_name filename "." in
        if dot : bool then ret (node, status)
        else
          let! dotdot := match_name filename ".." in
          if dotdot : bool then
            let! v := get_vnode node in
            if IS_MNTED v then
              let newnode := cover v in
              do! iput node;
              getdentry fuel newnode filename status true
            else
              let! task := gets current_task in
              do! inc_count (t_root task);
              let! ' (newnode, status) := resolve_mounts (t_root task) status in
              if node =? newnode then do! iput newnode; ret (node, status)
              else do! iput newnode; lookup_dentry node filename status
          else lookup_dentry node filename status
  end.

Definition get_dentry (node : Z) (filename : list Z) (status : Z) : VM (Z * Z) :=
  let! fuel := gets walk_fuel in getdentry fuel node filename status false.

(** The loop of [igetdir]: the fuel is the length of the path, which every
    round shortens.  The result is the node, the rest of the path and the
    status. *)
Fixpoint igetdir_loop (fuel : nat) (node : Z) (filename : list Z) (status : Z)
  : VM (Z * list Z * Z) :=
  match fuel with
  | O => nofuel
  | S fuel =>
      let! pos := get_or_fault (fun _ => strchr filename SLASH) in
      match pos with
      | None => ret (node, filename, status)
      | Some pos =>
          let len := Z.of_nat (length filename) - Z.of_nat (length pos) in
          let! ' (node, status) :=
            (if negb (len =? 0) then get_dentry node filename status
             else get_dentry node (lit ".") status) in
          if node =? 0 then ret (0, filename, status)
          else igetdir_loop fuel node (drop 1 pos) status
      end
  end.

(** The result is the node, the base name, its length and the status. *)
Definition igetdir (node : Z) (filename : list Z) (status : Z) : VM (Z * list Z * Z * Z) :=
  let! c := get_or_fault (fun _ => aget filename 0) in
  if c =? 0 then
    do! inc_count node;
    let! ' (node, status) := resolve_mounts node status in
    ret (node, filename, 0, status)
  else
    let! ' (node, name, status) := igetdir_loop (length filename) node filename status in
    if node =? 0 then ret (0, name, 0, status)
    else
      let! len := get_or_fault (fun _ => strlen name) in
      ret (node, name, len, status).

Definition namei (filename : option (list Z)) (status : Z) : VM (Z * Z) :=
  match filename with
  | None => ret (0, - ENOENT)
  | Some filename =>
      let! c := get_or_fault (fun _ => aget filename 0) in
      if c =? 0 then ret (0, - ENOENT)
      else
        let! task := gets current_task in
        let! rv := gets root_vnode in
        let '(node, filename) :=
          if c =? SLASH then (t_root task, drop 1 filename) else (t_pwd task, filename) in
        let node := if node =? 0 then rv else node in
        let! ' (node, basename, len, status) := igetdir node filename status in
        if node =? 0 then ret (0, status)
        else if len =? 0 then ret (node, 0)
        else get_dentry node basename 0
  end.
End namei.

(** ** Comparing components *)

(** The component a path starts with. *)
Fixpoint component (s : list Z) : option (list Z) :=
  match s with
  | [] => None
  | c :: r => if is_end_chr c then Some [] else cons c <$> component r
  end.

Lemma namei_match_spec s1 s2 p1 p2 :
  component s1 = Some p1 -> component s2 = Some p2 ->
  namei_match s1 s2 = Some (bool_decide (p1 = p2)).
Proof.
  revert s2 p1 p2. induction s1 as [|c1 r1 IH]; intros [|c2 r2] p1 p2 H1 H2; simpl in *; try done.
  destruct (is_end_chr c1) eqn:E1, (is_end_chr c2) eqn:E2; simpl.
  - simplify_eq. done.
  - destruct (component r2); simplify_eq/=. done.
  - destruct (component r1); simplify_eq/=. done.
  - destruct (component r1) as [q1|] eqn:C1, (component r2) as [q2|] eqn:C2; simplify_eq/=.
    destruct (Z.eqb_spec c1 c2) as [->|Hne]; simpl.
    + rewrite (IH r2 q1 q2) by done. f_equal. apply bool_decide_ext. naive_solver.
    + rewrite bool_decide_eq_false_2 by congruence. done.
Qed.

Lemma namei_nmatch_spec name s1 p g rest :
  component s1 = Some p -> Forall (fun c => is_end_chr c = false) name ->
  Z.of_nat (length name) < 4294967296 ->
  namei_nmatch s1 (name ++ g :: rest) (Z.of_nat (length name)) =
  Some (bool_decide (p = name) || (bool_decide (name `prefix_of` p) && negb (is_end_chr g))).
Proof.
  revert s1 p. induction name as [|c name IH]; intros [|c1 r1] p Hp Hn Hl; simpl in Hp; try done.
  - simpl. destruct (is_end_chr c1) eqn:E1; simplify_eq/=; [done|].
    destruct (component r1) as [q|] eqn:C1; simplify_eq/=.
    by destruct (is_end_chr g).
  - apply Forall_cons_1 in Hn as [Hc Hn]. cbn [namei_nmatch app]. rewrite Hc.
    replace (Z.of_nat (length (c :: name)) =? 0) with false by (simpl; lia).
    destruct (is_end_chr c1) eqn:E1; simplify_eq/=.
    + done.
    + destruct (component r1) as [q|] eqn:C1; simplify_eq/=.
      destruct (Z.eqb_spec c1 c) as [->|Hne]; simpl.
      * rewrite u32_id by lia. replace (Z.of_nat (S (length name)) - 1) with (Z.of_nat (length name)) by lia.
        rewrite (IH r1 q) by (done || lia). f_equal. f_equal.
        -- apply bool_decide_ext. naive_solver.
        -- f_equal. apply bool_decide_ext. split; [apply prefix_cons|apply prefix_cons_inv_2].
      * rewrite bool_decide_eq_false_2 by congruence. simpl. rewrite bool_decide_eq_false_2; [done|].
        intros Hpre. by apply prefix_cons_inv_1 in Hpre.
Qed.

(** [namei_match] compares exactly the components two paths start with. *)
Theorem namei_match_correct s1 s2 p1 p2 :
  component s1 = Some p1 -> component s2 = Some p2 ->
  namei_match s1 s2 = Some (bool_decide (p1 = p2)).
Proof. apply namei_match_spec. Qed.

Lemma namei_match_correct_witness : namei_match (lit "bin/sh") (lit "bin") = Some true.
Proof. rewrite (namei_match_correct _ _ (chars "bin") (chars "bin")); vm_compute; reflexivity. Defined.

(** [namei_nmatch] against a name of known length, as ext2 directories hold
    it: it accepts the name itself, but also every longer component the name
    is a prefix of, unless the byte behind the name happens to be NUL or a
    slash. *)
Theorem namei_nmatch_accepts_prefix name s1 p g rest :
  component s1 = Some p -> Forall (fun c => is_end_chr c = false) name ->
  Z.of_nat (length name) < 4294967296 -> is_end_chr g = false ->
  namei_nmatch s1 (name ++ g :: rest) (Z.of_nat (length name)) = Some (bool_decide (name `prefix_of` p)).
Proof.
  intros Hp Hn Hl Hg. rewrite (namei_nmatch_spec name s1 p) by done. rewrite Hg, andb_true_r. f_equal.
  destruct (decide (p = name)) as [->|Hne].
  - by rewrite !bool_decide_eq_true_2.
  - by rewrite (bool_decide_eq_false_2 (p = name)).
Qed.

Lemma namei_nmatch_accepts_prefix_witness :
  namei_nmatch (lit "initial") (chars "init" ++ 12 :: [0; 0; 0]) 4 = Some true.
Proof.
  change 4 with (Z.of_nat (length (chars "init"))).
  rewrite (namei_nmatch_accepts_prefix (chars "init") _ (chars "initial"));
    [vm_compute; reflexivity|vm_compute; reflexivity|repeat constructor|vm_compute; reflexivity
    |vm_compute; reflexivity].
Defined.

(** ** Mounts *)

Section mounts.
Context {F : Type} `{FsOps F}.
Implicit Types s : vstate F.

(** Adding [d] to the count of a node. *)
Definition add_count (p d : Z) s : vstate F :=
  match vnodes s !! p with
  | Some v => set_vnodes (<[p := set_count (count v + d) v]> (vnodes s)) s
  | None => s
  end.

(** A node that [inc_count] and [iput] treat as a plain counter. *)
Record counted s (p : Z) (v : vnode) : Prop := {
  ct_node : vnodes s !! p = Some v;
  ct_nz : p <> 0;
  ct_sbnz : sb v <> 0;
  ct_sb : exists sblk, sbs s !! sb v = Some sblk /\ no_put_inode sblk }.

Lemma inc_counted s p v : counted s p v -> 0 <= count v < 255 ->
  inc_count p s = Ok (tt, add_count p 1 s).
Proof.
  intros Hc Hr. rewrite (inc_count_Ok p v) by apply Hc. unfold add_count.
  rewrite (ct_node _ _ _ Hc). by rewrite u8_id by lia.
Qed.

Lemma iput_counted s p v : counted s p v -> 1 < count v < 256 -> iput p s = Ok (tt, add_count p (-1) s).
Proof.
  intros [Hv Hp Hb (sblk & Hsb & Hops)] Hr. rewrite (iput_count s p v sblk) by done.
  unfold add_count. rewrite Hv. do 3 f_equal.
Qed.

Lemma add_count_lookup s p d q v : vnodes s !! q = Some v ->
  vnodes (add_count p d s) !! q = Some (if decide (p = q) then set_count (count v + d) v else v).
Proof.
  intros Hq. unfold add_count. destruct (vnodes s !! p) as [w|] eqn:Hp.
  - simpl. case_decide as E.
    + subst. rewrite lookup_insert_eq. congruence.
    + by rewrite lookup_insert_ne.
  - case_decide; [subst; congruence|done].
Qed.

Lemma counted_add s p d q v : counted s q v ->
  counted (add_count p d s) q (if decide (p = q) then set_count (count v + d) v else v).
Proof.
  intros [Hv Hp Hb Hops]. constructor; [by apply add_count_lookup|done| |].
  - case_decide; done.
  - destruct Hops as (sblk & Hs & Hn). exists sblk. split; [|done].
    unfold add_count. destruct (vnodes s !! p); case_decide; done.
Qed.

Lemma add_count_add s p a b : add_count p b (add_count p a s) = add_count p (a + b) s.
Proof.
  unfold add_count. destruct (vnodes s !! p) as [v|] eqn:E; [|by rewrite E].
  simpl. rewrite lookup_insert_eq, set_vnodes_twice, insert_insert_eq. do 2 f_equal.
  unfold set_count. simpl. f_equal. lia.
Qed.

Lemma add_count_0 s p : add_count p 0 s = s.
Proof.
  unfold add_count. destruct (vnodes s !! p) as [v|] eqn:E; [|done].
  replace (set_count (count v + 0) v) with v by (destruct v; unfold set_count; simpl; f_equal; lia).
  by rewrite insert_id, set_vnodes_id.
Qed.

Lemma add_count_comm s p q a b : p <> q -> add_count q b (add_count p a s) = add_count p a (add_count q b s).
Proof.
  intros Hne. unfold add_count. destruct (vnodes s !! p) as [v|] eqn:Ep, (vnodes s !! q) as [w|] eqn:Eq;
    simpl; rewrite ?lookup_insert_ne, ?Ep, ?Eq by done; try done.
  rewrite !set_vnodes_twice. f_equal. simpl. by rewrite insert_insert_ne.
Qed.

(** [l] is the chain of nodes mounted above [p], the last one bare. *)
Fixpoint mount_chain s (p : Z) (l : list Z) : Prop :=
  match l with
  | [] => exists v, counted s p v /\ mount v = 0
  | q :: l => exists v, counted s p v /\ mount v = q /\ q <> 0 /\ mount_chain s q l
  end.

Lemma mount_chain_add s a d p l : mount_chain s p l -> mount_chain (add_count a d s) p l.
Proof.
  revert p. induction l as [|q l IH]; intros p; simpl.
  - intros (v & Hc & Hm). exists (if decide (a = p) then set_count (count v + d) v else v).
    split; [by apply counted_add|]. by case_decide.
  - intros (v & Hc & Hm & Hnz & Hch). exists (if decide (a = p) then set_count (count v + d) v else v).
    split; [by apply counted_add|]. split_and!; [by case_decide|done|by apply IH].
Qed.

(** The nodes of [l] have between [1] and [254] references. *)
Definition referenced s (l : list Z) : Prop :=
  forall x, x ∈ l -> exists w, vnodes s !! x = Some w /\ 1 <= count w < 255.

Lemma referenced_add s a d l : a ∉ l -> referenced s l -> referenced (add_count a d s) l.
Proof.
  intros Ha Hr x Hx. destruct (Hr x Hx) as (w & Hw & Hc). exists w. split; [|done].
  rewrite (add_count_lookup s a d x w) by done. rewrite decide_False; [done|congruence].
Qed.

(** The node a walk over mounts ends at. *)
Fixpoint chain_end (p : Z) (l : list Z) : Z :=
  match l with [] => p | q :: l => chain_end q l end.

Lemma chain_end_in p l : l <> [] -> chain_end p l ∈ l.
Proof.
  revert p. induction l as [|q l IH]; intros p Hl; [done|]. simpl. destruct l; [left|].
  right. by apply IH.
Qed.

(** [resolve_mount] follows mounts to the bare node on top, however many
    there are: it passes its step count on undiminished, so the limit of
    [MOUNT_MAX] steps is never reached; the caller's reference moves from the
    node it gave to the node it gets. *)
Theorem resolve_mount_unbounded l s p v status steps fuel :
  NoDup (p :: l) -> mount_chain s p l -> vnodes s !! p = Some v -> (l <> [] -> 1 < count v < 256) ->
  referenced s l -> steps <> 0 -> (length l < fuel)%nat ->
  resolve_mount fuel p status steps s =
  Ok ((chain_end p l, status),
      if decide (l = []) then s else add_count (chain_end p l) 1 (add_count p (-1) s)).
Proof.
  intros Hd Hch Hv Hc He Hst Hf. revert s p v fuel Hd Hch Hv Hc He Hf.
  induction l as [|q l IH]; intros s p v [|fuel] Hd Hch Hv Hc He Hf; simpl in Hf; try lia;
    cbn [resolve_mount chain_end].
  - destruct Hch as (v' & Hct & Hm). pose proof (ct_node _ _ _ Hct) as Hv'. simplify_eq.
    rewrite (bind_run _ _ _ _ _ (get_vnode_Ok _ _ _ Hv)). unfold IS_MNT. by rewrite Hm.
  - destruct Hch as (v' & Hct & Hm & Hq & Hch). pose proof (ct_node _ _ _ Hct) as Hv'.
    assert (v' = v) as -> by congruence. clear Hv'.
    rewrite (bind_run _ _ _ _ _ (get_vnode_Ok _ _ _ Hv)). unfold IS_MNT. rewrite Hm.
    replace (negb (q =? 0)) with true by lia. replace (steps =? 0) with false by lia.
    rewrite (bind_run _ _ _ _ _ (iput_counted s p v Hct (Hc ltac:(done)))).
    apply NoDup_cons in Hd as [Hpl Hd]. apply NoDup_cons in Hd as Hd'. destruct Hd' as [Hql Hdl].
    destruct (He q ltac:(left)) as (w & Hw & Hwr).
    assert (Hwq : counted (add_count p (-1) s) q w).
    { assert (Hcq : exists w', counted s q w') by (destruct l; destruct Hch as (w' & ? & _); by exists w').
      destruct Hcq as [w' Hcq]. assert (w' = w) as -> by (pose proof (ct_node _ _ _ Hcq); congruence).
      pose proof (counted_add s p (-1) q w Hcq) as Hx. rewrite decide_False in Hx; [done|set_solver]. }
    rewrite (bind_run _ _ _ _ _ (inc_counted _ q w Hwq ltac:(lia))).
    set (s1 := add_count p (-1) s) in *.
    rewrite (IH (add_count q 1 s1) q (set_count (count w + 1) w) fuel); try done.
    + do 2 f_equal. rewrite (decide_False (P := q :: l = [])) by done.
      case_decide as El; [by subst l|]. f_equal. rewrite add_count_add. apply add_count_0.
    + by do 2 apply mount_chain_add.
    + rewrite (add_count_lookup s1 q 1 q w) by apply Hwq. by rewrite decide_True.
    + intros _. simpl. lia.
    + apply referenced_add; [done|]. apply referenced_add; [set_solver|].
      intros x Hx. apply He. by right.
    + lia.
Qed.

(** ** Walking down directories *)

(** A searchable directory with nothing mounted on it, whose file system looks
    names up with [op]. *)
Record plain_dir s (p : Z) (v : vnode) (op : Z -> list Z -> M (vstate F) Z) : Prop := {
  pd_counted : counted s p v;
  pd_mount : mount v = 0;
  pd_dir : IS_DIR v = true;
  pd_perm : node_permission (current_task s) v X_OK <> 0;
  pd_op : exists ops, iop_of v = Some ops /\ lookup ops = Some op;
  pd_count : 1 <= count v < 255 }.

(** [op] finds [c], with one reference more, under the name [fn] starts with. *)
Definition finds (op : Z -> list Z -> M (vstate F) Z) (p : Z) (fn : list Z) (c : Z) s : Prop :=
  op p fn (add_count p 1 s) = Ok (c, add_count c 1 (add_count p 1 s)).

Definition bare s (c : Z) : Prop := exists w, counted s c w /\ mount w = 0.

Lemma resolve_bare s p status : bare s p -> resolve_mounts p status s = Ok ((p, status), s).
Proof.
  intros (w & Hw & Hm). unfold resolve_mounts, bind at 1, gets, walk_fuel.
  cbn [resolve_mount]. rewrite (bind_run _ _ _ _ _ (get_vnode_Ok _ _ _ (ct_node _ _ _ Hw))).
  unfold IS_MNT. by rewrite Hm.
Qed.

Lemma bare_add s a d p : bare s p -> bare (add_count a d s) p.
Proof.
  intros (w & Hw & Hm). exists (if decide (a = p) then set_count (count w + d) w else w).
  split; [by apply counted_add|by case_decide].
Qed.

Lemma add_count_task s p d : current_task (add_count p d s) = current_task s.
Proof. unfold add_count. by destruct (vnodes s !! p). Qed.

Lemma iop_of_count v c : iop_of (set_count c v) = iop_of v.
Proof. done. Qed.

Lemma match_name_run fn n name s : component fn = Some n ->
  match_name fn name s = Ok (match component (lit name) with
                             | Some m => bool_decide (n = m)
                             | None => false
                             end, s) \/ component (lit name) = None.
Proof.
  intros Hn. unfold match_name, get_or_fault. destruct (component (lit name)) as [m|] eqn:E; [|by right].
  left. by rewrite (namei_match_spec fn (lit name) n m).
Qed.

(** [lookup_dentry] in a plain directory gives back its own reference. *)
Lemma lookup_dentry_plain s p v op fn c status :
  plain_dir s p v op -> finds op p fn c s -> c <> 0 -> c <> p -> bare s c ->
  lookup_dentry p fn status (add_count p 1 s) = Ok ((c, 0), add_count c 1 s).
Proof.
  intros [Hc Hm Hd Hp (ops & Hi & Hl) Hr] Hf Hc0 Hcp Hb. set (s1 := add_count p 1 s).
  pose proof (counted_add s p 1 p v Hc) as Hc1. rewrite decide_True in Hc1 by done. fold s1 in Hc1.
  unfold lookup_dentry. rewrite (bind_run _ _ _ _ _ (get_vnode_Ok _ _ _ (ct_node _ _ _ Hc1))).
  unfold bind at 1, gets. unfold s1 at 1. rewrite add_count_task.
  change (IS_DIR (set_count _ v)) with (IS_DIR v). rewrite Hd. cbn [negb].
  change (node_permission (current_task s) (set_count _ v) X_OK) with (node_permission (current_task s) v X_OK).
  replace (node_permission (current_task s) v X_OK =? 0) with false by lia.
  rewrite iop_of_count, Hi, Hl, (bind_run _ _ _ _ _ Hf). fold s1.
  replace (c =? 0) with false by lia. cbn [negb].
  pose proof (counted_add s1 c 1 p _ Hc1) as Hc2. rewrite decide_False in Hc2 by done.
  rewrite (bind_run _ _ _ _ _ (iput_counted _ p _ Hc2 ltac:(simpl; lia))).
  rewrite resolve_bare by (do 3 apply bare_add; done). do 2 f_equal.
  rewrite add_count_comm by done. unfold s1. rewrite add_count_add. by rewrite add_count_0.
Qed.

Lemma get_dentry_plain s p v op fn n c status :
  plain_dir s p v op -> component fn = Some n -> n <> chars "." -> n <> chars ".." ->
  finds op p fn c s -> c <> 0 -> c <> p -> bare s c ->
  get_dentry p fn status s = Ok ((c, 0), add_count c 1 s).
Proof.
  intros Hpd Hn Hdot Hdd Hf Hc0 Hcp Hb. unfold get_dentry, bind at 1, gets, walk_fuel. cbn [getdentry].
  pose proof (pd_counted _ _ _ _ Hpd) as Hct.
  rewrite (bind_run _ _ _ _ _ (inc_counted s p v Hct ltac:(pose proof (pd_count _ _ _ _ Hpd); lia))).
  cbn [negb].
  assert (Hbp : bare (add_count p 1 s) p).
  { apply bare_add. exists v. split; [done|apply Hpd]. }
  rewrite (bind_run _ _ _ _ _ (resolve_bare _ p status Hbp)).
  replace (p =? 0) with false by (pose proof (ct_nz _ _ _ Hct); lia).
  destruct (match_name_run fn n "." (add_count p 1 s) Hn) as [E1|E1]; [|vm_compute in E1; discriminate E1].
  rewrite (bind_run _ _ _ _ _ E1). change (component (lit ".")) with (Some (chars ".")). cbv iota.
  rewrite bool_decide_eq_false_2 by done.
  destruct (match_name_run fn n ".." (add_count p 1 s) Hn) as [E2|E2]; [|vm_compute in E2; discriminate E2].
  rewrite (bind_run _ _ _ _ _ E2). change (component (lit "..")) with (Some (chars "..")). cbv iota.
  rewrite bool_decide_eq_false_2 by done. by apply (lookup_dentry_plain s p v op).
Qed.

Definition plain_name (n : list Z) : Prop :=
  n <> [] /\ Forall (fun c => c <> 0 /\ c <> SLASH) n /\ n <> chars "." /\ n <> chars "..".

Lemma component_app n c rest : Forall (fun c => c <> 0 /\ c <> SLASH) n -> is_end_chr c = true ->
  component (n ++ c :: rest) = Some n.
Proof.
  intros Hn Hc. induction Hn as [|x n [Hx Hs] Hn IH]; simpl; [by rewrite Hc|].
  unfold is_end_chr at 1. replace (x =? 0) with false by lia. replace (x =? SLASH) with false by lia.
  simpl. by rewrite IH.
Qed.

(** C19: a path of two components, [a/b], from the working directory: the walk
    finds [b] in [a], but of the references it took it gives only that on [b]
    to the caller and keeps the one on [a] forever. *)
Theorem namei_leaks_parent s d vd opd a ca va opa b cb status :
  t_pwd (current_task s) = d -> plain_name a -> plain_name b ->
  Z.of_nat (length b) < 4294967296 ->
  plain_dir s d vd opd -> finds opd d (a ++ SLASH :: b ++ [0]) ca s -> ca <> 0 -> ca <> d ->
  plain_dir (add_count ca 1 s) ca va opa -> mount va = 0 ->
  finds opa ca (b ++ [0]) cb (add_count ca 1 s) -> cb <> 0 -> cb <> ca -> bare s ca -> bare s cb ->
  namei (Some (a ++ SLASH :: b ++ [0])) status s = Ok ((cb, 0), add_count cb 1 (add_count ca 1 s)).
Proof.
  intros Hpwd (Ha0 & Ha & Ha1 & Ha2) (Hb0 & Hb & Hb1 & Hb2) Hbl Hd Hfa Hca Hcad Hpa Hma Hfb Hcb Hcba Hba Hbb.
  destruct a as [|c a]; [done|]. inversion Ha as [|? ? [Hc0 Hcs] Ha']; subst.
  set (path := (c :: a) ++ SLASH :: b ++ [0]) in *.
  unfold namei. cbn [app aget]. unfold get_or_fault at 1, bind at 1.
  change (aget path 0) with (Some c). cbv iota beta. replace (c =? 0) with false by lia.
  unfold bind at 1 2, gets. replace (c =? SLASH) with false by lia.
  pose proof (ct_nz _ _ _ (pd_counted _ _ _ _ Hd)) as Hdnz.
  replace (t_pwd (current_task s) =? 0) with false by lia. cbv iota.
  assert (Hloop : igetdir_loop (length path) (t_pwd (current_task s)) path status s
                  = Ok ((ca, b ++ [0], 0), add_count ca 1 s)).
  { unfold path at 1. cbn [app length igetdir_loop]. unfold bind at 1, get_or_fault at 1.
    unfold path at 1. rewrite strchr_found by done. cbv iota beta.
    assert (Hlp : length path = (S (length a) + length (SLASH :: b ++ [0%Z]))%nat)
      by (unfold path; by rewrite length_app).
    replace (Z.of_nat (length path) - Z.of_nat (length (SLASH :: b ++ [0%Z])) =? 0) with false
      by (rewrite Hlp; lia). cbn [negb].
    rewrite (bind_run _ _ _ _ _ (get_dentry_plain s _ vd opd path (c :: a) ca status Hd
      ltac:(unfold path; by apply component_app) Ha1 Ha2 Hfa Hca Hcad Hba)).
    replace (ca =? 0) with false by lia. cbn [drop].
    rewrite length_app. cbn [length]. rewrite Nat.add_succ_r. cbn [igetdir_loop].
    unfold bind, get_or_fault. change (drop 0 (b ++ [0])) with (b ++ [0]). by rewrite (strchr_absent b SLASH []). }
  unfold igetdir. unfold bind at 1, get_or_fault at 1. unfold bind at 1. 
  change (aget path 0) with (Some c). cbv iota beta. replace (c =? 0) with false by lia.
  rewrite (bind_run _ _ _ _ _ Hloop). replace (ca =? 0) with false by lia.
  assert (Hlen : strlen (b ++ [0]) = Some (Z.of_nat (length b))).
  { apply (strlen_spec _ b); [|done]. apply cstr_app. eapply Forall_impl; [exact Hb|]. naive_solver. }
  unfold bind at 1, get_or_fault. rewrite Hlen. unfold ret at 1.
  replace (ca =? 0) with false by lia.
  replace (Z.of_nat (length b) =? 0) with false by (destruct b; [done|simpl; lia]).
  apply (get_dentry_plain _ ca va opa _ b cb 0); try done.
  - by apply component_app.
  - by apply bare_add.
Qed.

End mounts.

(** ** A concrete tree: a directory chain 500, 501, 502

    Looking any name up in the directory with inode number [i] finds inode
    [i + 1]. *)
#[local] Instance chain_fs : FsOps unit := {
  iop_at a := if a =? 2 then
    Some (InodeOperations None (Some (fun p _ => let! v := get_vnode p in @iget _ rootfs_only (sb v) (ino v + 1))))
    else None;
  sop_at a := if a =? 1 then Some rootfs_sb_ops else None;
  read_super _ b _ := ret b }.

Definition chain_vnode (i m : Z) : vnode := Vnode i 1 0 0 0 511 FS_DIRECTORY 0 0 0 0 0 100 2 0 m 0.
Definition chain_state (m0 m1 : Z) : vstate unit :=
  VState (<[500 := set_count 2 (chain_vnode 0 m0)]> (<[501 := chain_vnode 1 m1]> {[502 := chain_vnode 2 0]}))
    {[ 100 := SuperBlock 0 0 0 1 1 0 0 500 0 0 [500; 501; 502] ]} ∅ ∅ [] ∅ [] 500 1000
    (TaskFs 0 0 0 0 500 500 0 (replicate 32 0)) tt.

Lemma chain_counted (m0 m1 p : Z) (v : vnode) : vnodes (chain_state m0 m1) !! p = Some v -> p <> 0 -> sb v = 100 ->
  counted (chain_state m0 m1) p v.
Proof.
  intros Hv Hp Hb. constructor; [done|done|lia|]. rewrite Hb.
  exists (SuperBlock 0 0 0 1 1 0 0 500 0 0 [500; 501; 502]). split; [reflexivity|].
  exists rootfs_sb_ops. split; reflexivity.
Qed.

Lemma resolve_mount_unbounded_witness :
  resolve_mount 3 500 0 1 (chain_state 501 502)
  = Ok ((502, 0), add_count 502 1 (add_count 500 (-1) (chain_state 501 502))).
Proof.
  apply (resolve_mount_unbounded [501; 502] (chain_state 501 502) 500 (set_count 2 (chain_vnode 0 501)) 0 1 3).
  - repeat constructor; set_solver.
  - exists (set_count 2 (chain_vnode 0 501)). split; [apply chain_counted; done|].
    split; [reflexivity|]. split; [discriminate|].
    exists (chain_vnode 1 502). split; [apply chain_counted; done|].
    split; [reflexivity|]. split; [discriminate|].
    exists (chain_vnode 2 0). split; [apply chain_counted; done|reflexivity].
  - reflexivity.
  - intros _. simpl. lia.
  - intros x Hx. rewrite !elem_of_cons, elem_of_nil in Hx. destruct Hx as [->|[->|[]]];
      eexists; (split; [reflexivity|simpl; lia]).
  - discriminate.
  - simpl. lia.
Defined.

Lemma namei_leaks_parent_witness :
  exists s', namei (Some (lit "a/b")) 0 (chain_state 0 0) = Ok ((502, 0), s') /\
    (count <$> vnodes s' !! 501) = Some 2.
Proof.
  exists (add_count 502 1 (add_count 501 1 (chain_state 0 0))). split; [|vm_compute; reflexivity].
  apply (namei_leaks_parent (chain_state 0 0) 500 (set_count 2 (chain_vnode 0 0))
           (fun p _ => let! v := get_vnode p in @iget _ rootfs_only (sb v) (ino v + 1))
           (chars "a") 501 (set_count 2 (chain_vnode 1 0))
           (fun p _ => let! v := get_vnode p in @iget _ rootfs_only (sb v) (ino v + 1)) (chars "b") 502 0).
  - reflexivity.
  - split; [discriminate|]. split; [repeat constructor; discriminate|split; discriminate].
  - split; [discriminate|]. split; [repeat constructor; discriminate|split; discriminate].
  - vm_compute. reflexivity.
  - constructor; [apply chain_counted; done|reflexivity|reflexivity|discriminate|eexists; split; reflexivity|simpl; lia].
  - vm_compute. reflexivity.
  - discriminate.
  - discriminate.
  - constructor; [|reflexivity|reflexivity|discriminate|eexists; split; reflexivity|simpl; lia].
    change (counted (add_count 501 1 (chain_state 0 0)) 501
      (if decide (501 = 501) then set_count (count (chain_vnode 1 0) + 1) (chain_vnode 1 0) else chain_vnode 1 0)).
    apply counted_add, chain_counted; done.
  - reflexivity.
  - vm_compute. reflexivity.
  - discriminate.
  - discriminate.
  - exists (chain_vnode 1 0). split; [apply chain_counted; done|reflexivity].
  - exists (chain_vnode 2 0). split; [apply chain_counted; done|reflexivity].
Defined.
