(* ===== verification/Mount.v ===== *)
(** * Mounting: [src/src/fs/mount.c], and the set-up of the VFS in vfs.c *)
From S2P Require Import Prelude CString Abi Vfs Namei.
Open Scope nup_scope.

Section mount.
Context {F : Type} `{FsOps F}.
Implicit Types s : vstate F.
Local Abbreviation VM := (M (vstate F)).

Definition get_mnt (p : Z) : VM vfsmount := get_or_fault (fun s => vmnts s !! p).

(** A mount that already has a successor is on the list. *)
Definition d_mount (mnt : Z) : VM Z :=
  if mnt =? 0 then ret (- EINVAL)
  else
    let! l := gets vfs_mounts in
    if negb (next_in l mnt =? 0) then ret (- EBUSY)
    else do! modify (fun s => set_mounts (vmnts s) (mnt :: l) s); ret 0.

(** A super block whose mount is not on the list makes [tmp] null, and
    [tmp->next] a null dereference. *)
Definition d_umount (b : Z) : VM Z :=
  if b =? 0 then ret 0
  else
    let! sblk := get_sb b in
    let! l := gets vfs_mounts in
    if bool_decide (sb_mi sblk ∈ l) then
      do! modify (fun s => set_mounts (delete (sb_mi sblk) (vmnts s)) (unlink (sb_mi sblk) l) s);
      ret 0
    else fault.

Definition free_sb (b : Z) : VM unit := modify (fun s => set_sbs (delete b (sbs s)) s).

(** The part of [sys_mount] after the device: the test [!sb] reads the pointer
    [calloc] returned, not what [read_super] returned. *)
Definition mount_on (mountpoint type dev_ : Z) (source target : option (list Z)) (mountflags data : Z)
  : VM Z :=
  let! mnt := new_ptr in
  let! b := new_ptr in
  do! put_sb b (SuperBlock dev_ mountflags type 0 0 0 0 0 0 mnt vfs_create_cache);
  let! msb := read_super type b data in
  do! modify (fun s => set_mounts (<[mnt := VfsMount source target mountflags msb]> (vmnts s))
                         (vfs_mounts s) s);
  if b =? 0 then
    do! free_sb b;
    do! iput mountpoint;
    do! iput dev_;
    ret (- EINVAL)
  else
    do! d_mount mnt;
    let! sblk := get_sb b in
    do! upd_vnode mountpoint (set_mount (sb_root sblk));
    do! upd_vnode (sb_root sblk) (set_cover mountpoint);
    ret 0.

Definition sys_mount (source target filesystemtype : option (list Z)) (mountflags data status : Z)
  : VM Z :=
  let! task := gets current_task in
  if negb (I_AM_ROOT task) then ret (- EPERM)
  else
    let! type := vfs_get_fs filesystemtype in
    if type =? 0 then ret (- EINVAL)
    else
      let! ' (mountpoint, status) := namei target status in
      if mountpoint =? 0 then ret status
      else
        let! t := get_fstype type in
        if test (fs_flags t) MNT_FLAG_REQDEV then
          let! ' (dev_, status) := namei source status in
          if dev_ =? 0 then do! iput mountpoint; ret status
          else mount_on mountpoint type dev_ source target mountflags data
        else mount_on mountpoint type 0 source target mountflags data.

(** What [sys_umount] does with a mountpoint. *)
Definition umount_node (node : Z) (v : vnode) : VM Z :=
  let newnode := mount v in
  do! iput node;
  let! nv := get_vnode newnode in
  let! sblk := get_sb (sb nv) in
  let! ops := get_or_fault (fun _ => sop_of sblk) in
  do! match put_super ops with Some f => f (sb nv) | None => ret tt end;
  let! sblk := get_sb (sb nv) in
  do! iput (sb_dev sblk);
  do! free_sb_inodes (sb nv);
  do! d_umount (sb nv);
  do! free_sb (sb nv);
  ret 0.

Definition sys_umount (target : option (list Z)) (status : Z) : VM Z :=
  let! task := gets current_task in
  if negb (I_AM_ROOT task) then ret (- EPERM)
  else
    match target with
    | None => ret (- EFAULT)
    | Some t =>
        let! c := get_or_fault (fun _ => aget t 0) in
        if c =? 0 then ret (- EFAULT)
        else
          let! ' (node, status) := namei target status in
          if node =? 0 then ret status
          else
            let! v := get_vnode node in
            if negb (IS_MNT v) then do! iput node; ret (- EINVAL)
            else umount_node node v
    end.

(** ** Setting the VFS up: vfs.c *)

Definition set_pwd_root (pwd root : Z) (t : task_fs) : task_fs :=
  TaskFs (t_uid t) (t_euid t) (t_gid t) (t_egid t) pwd root (t_close_on_exec t) (t_files t).

(** The arguments are the addresses of the static structures. *)
Definition setup_vfs (rootfs_type rootfs_ops initrd_fs_type devfs_fs_type ext2_fs_type : Z) : VM Z :=
  do! register_filesystem rootfs_type;
  let! mnt := new_ptr in
  let! b := new_ptr in
  do! put_sb b (SuperBlock 0 0 rootfs_type 0 0 0 0 0 0 mnt vfs_create_cache);
  let! msb := read_rootfs_sb rootfs_ops b in
  do! modify (fun s => set_mounts (<[mnt := VfsMount None None 0 msb]> (vmnts s)) (vfs_mounts s) s);
  let! sblk := get_sb b in
  do! modify (set_root_vnode (sb_root sblk));
  do! d_mount mnt;
  do! register_filesystem initrd_fs_type;
  do! register_filesystem devfs_fs_type;
  do! register_filesystem ext2_fs_type;
  let! root := gets root_vnode in
  do! modify (fun s => set_task (set_pwd_root root root (current_task s)) s);
  do! upd_vnode root (fun v => set_count (u8 (count v + 2)) v);
  ret 0.

Definition close_vfs (rootfs_type initrd_fs_type devfs_fs_type ext2_fs_type : Z) : VM Z :=
  let! root := gets root_vnode in
  if root =? 0 then ret (-1)
  else
    do! unregister_filesystem ext2_fs_type;
    do! unregister_filesystem devfs_fs_type;
    do! unregister_filesystem initrd_fs_type;
    let! v := get_vnode root in
    do! free_sb_inodes (sb v);
    do! d_umount (sb v);
    do! free_sb (sb v);
    do! unregister_filesystem rootfs_type;
    do! modify (set_root_vnode 0);
    ret 0.
End mount.

(** ** What a path can lead to *)

(** Releasing a reference may run the file system's [put_inode]. *)
Class PutLaws (F : Type) `{FsOps F} := {
  put_inode_local a ops f node s x s' :
    sop_at a = Some ops -> put_inode ops = Some f -> f node s = Ok (x, s') -> local_to node s s' }.

Section bare.
Context {F : Type} `{PutLaws F}.
Implicit Types s : vstate F.

(** Nothing is mounted on [p], if it still exists. *)
Definition unmounted s (p : Z) : Prop := forall v, vnodes s !! p = Some v -> mount v = 0.

Lemma bind_inv {A B} (m : M (vstate F) A) (k : A -> M (vstate F) B) s r s' :
  bind m k s = Ok (r, s') -> exists a s1, m s = Ok (a, s1) /\ k a s1 = Ok (r, s').
Proof. apply bind_Ok. Qed.

Lemma get_vnode_inv p s v s' : get_vnode p s = Ok (v, s') -> s' = s /\ vnodes s !! p = Some v.
Proof. unfold get_vnode, get_or_fault. destruct (vnodes s !! p); [|done]. by intros [= -> ->]. Qed.

Lemma get_sb_inv p s v s' : get_sb p s = Ok (v, s') -> s' = s /\ sbs s !! p = Some v.
Proof. unfold get_sb, get_or_fault. destruct (sbs s !! p); [|done]. by intros [= -> ->]. Qed.

Lemma local_unmounted node s s' p : local_to node s s' -> unmounted s p -> unmounted s' p.
Proof.
  intros (v & v' & d & Hv & -> & _ & _ & _ & Hm & _) Hu w. simpl.
  destruct (decide (p = node)) as [->|Hne].
  - rewrite lookup_insert_eq. intros [= <-]. rewrite Hm. by apply Hu.
  - rewrite lookup_insert_ne by done. apply Hu.
Qed.

Lemma iput_unmounted node s x s' p : iput node s = Ok (x, s') -> unmounted s p -> unmounted s' p.
Proof.
  unfold iput. destruct (node =? 0); [by intros [= _ <-]|]. intros Hi Hu.
  apply bind_inv in Hi as (v & s1 & Hv & Hi). apply get_vnode_inv in Hv as [-> Hv].
  destruct (sb v =? 0); [by injection Hi as _ <-|].
  apply bind_inv in Hi as (sblk & s1 & Hb & Hi). apply get_sb_inv in Hb as [-> Hb].
  destruct (s_op sblk =? 0) eqn:Eso; [by injection Hi as _ <-|].
  destruct (count v =? 0); [by injection Hi as _ <-|].
  apply bind_inv in Hi as (y & s1 & Hp & Hi).
  assert (Hu1 : unmounted s1 p).
  { unfold call_put_inode in Hp. apply bind_inv in Hp as (ops & s0 & Ho & Hp).
    unfold get_or_fault in Ho. destruct (sop_of sblk) as [ops'|] eqn:E; [|done]. injection Ho as -> <-.
    destruct (put_inode ops) as [f|] eqn:Ef; [|by injection Hp as _ <-].
    unfold sop_of in E. rewrite Eso in E. eapply local_unmounted; [by eapply put_inode_local|done]. }
  apply bind_inv in Hi as (y2 & s2 & Hd & Hi).
  unfold upd_vnode in Hd. apply bind_inv in Hd as (w & s3 & Hw & Hd).
  apply get_vnode_inv in Hw as [-> Hw]. unfold put_vnode, modify in Hd. injection Hd as _ <-.
  assert (Hu2 : unmounted (set_vnodes (<[node := set_count (u8 (count w - 1)) w]> (vnodes s1)) s1) p).
  { intros z. simpl. destruct (decide (p = node)) as [->|Hne].
    - rewrite lookup_insert_eq. intros [= <-]. simpl. by apply Hu1.
    - rewrite lookup_insert_ne by done. apply Hu1. }
  set (s2 := set_vnodes _ s1) in *.
  apply bind_inv in Hi as (w2 & s4 & Hw2 & Hi). apply get_vnode_inv in Hw2 as [-> Hw2].
  destruct (count w2 =? 0); [|by injection Hi as _ <-].
  unfold free_inode in Hi. apply bind_inv in Hi as (w3 & s5 & Hw3 & Hi).
  apply get_vnode_inv in Hw3 as [-> Hw3]. apply bind_inv in Hi as (b3 & s5 & Hb3 & Hi).
  apply get_sb_inv in Hb3 as [-> Hb3]. unfold put_sb, free_vnode, bind, modify in Hi.
  injection Hi as _ <-. intros z. simpl. intros [_ Hz]%lookup_delete_Some. by apply Hu2.
Qed.

(** [resolve_mount] returns a node with nothing mounted on it. *)
Lemma resolve_mount_unmounted fuel node status steps s q st s' :
  resolve_mount fuel node status steps s = Ok ((q, st), s') -> q <> 0 -> unmounted s' q.
Proof.
  revert node s. induction fuel as [|fuel IH]; intros node s Hr Hq; [done|].
  cbn [resolve_mount] in Hr. apply bind_inv in Hr as (v & s1 & Hv & Hr).
  apply get_vnode_inv in Hv as [-> Hv]. unfold IS_MNT in Hr.
  destruct (mount v =? 0) eqn:Em; cbn [negb] in Hr.
  - injection Hr as <- _ <-. intros w Hw. rewrite Hv in Hw. injection Hw as <-. lia.
  - destruct (steps =? 0).
    + apply bind_inv in Hr as (x & s1 & _ & Hr). injection Hr as <- _ _. done.
    + apply bind_inv in Hr as (x & s1 & _ & Hr). apply bind_inv in Hr as (y & s2 & _ & Hr).
      by apply (IH _ _ Hr).
Qed.

Lemma resolve_mounts_unmounted node status s q st s' :
  resolve_mounts node status s = Ok ((q, st), s') -> q <> 0 -> unmounted s' q.
Proof.
  unfold resolve_mounts. intros Hr. apply bind_inv in Hr as (n & s1 & _ & Hr).
  by apply (resolve_mount_unmounted _ _ _ _ _ _ _ _ Hr).
Qed.

Lemma lookup_dentry_unmounted node fn status s q st s' :
  lookup_dentry node fn status s = Ok ((q, st), s') -> q <> 0 -> unmounted s' q.
Proof.
  unfold lookup_dentry. intros Hr Hq. apply bind_inv in Hr as (v & s1 & _ & Hr).
  apply bind_inv in Hr as (t & s2 & _ & Hr).
  assert (Hz : forall e, (do! iput node; ret (0, e)) s2 = Ok ((q, st), s') -> unmounted s' q).
  { intros e He. apply bind_inv in He as (x & s3 & _ & He). injection He as <- _ _. done. }
  destruct (negb (IS_DIR v)); [by eapply Hz|]. destruct (_ =? 0); [by eapply Hz|].
  destruct (iop_of v) as [ops|]; [|by eapply Hz]. destruct (lookup ops) as [op|]; [|by eapply Hz].
  apply bind_inv in Hr as (n & s3 & _ & Hr). apply bind_inv in Hr as (x & s4 & _ & Hr).
  destruct (n =? 0); [by injection Hr as <- _ _|].
  by apply (resolve_mounts_unmounted _ _ _ _ _ _ Hr).
Qed.

Lemma not_dot_and_dotdot fn : namei_match fn (lit "..") = Some true ->
  namei_match fn (lit ".") = Some true -> False.
Proof.
  change (lit "..") with [46; 46; 0]. change (lit ".") with [46; 0].
  assert (E1 : is_end_chr 46 = false) by done. assert (E0 : is_end_chr 0 = true) by done.
  destruct fn as [|a [|b fn]]; [done| |]; cbn [namei_match]; rewrite ?E1, ?E0;
    destruct (is_end_chr a); cbn [negb andb Bool.eqb]; try done; destruct (negb (a =? 46)); try done.
  destruct (is_end_chr b); cbn [negb andb Bool.eqb]; done.
Qed.

Lemma match_name_inv fn name s r s' : match_name fn name s = Ok (r, s') ->
  s' = s /\ namei_match fn (lit name) = Some r.
Proof.
  unfold match_name, get_or_fault. destruct (namei_match fn (lit name)); [|done]. by intros [= -> ->].
Qed.

Lemma getdentry_unmounted fuel node fn status fm s q st s' :
  getdentry fuel node fn status fm s = Ok ((q, st), s') -> q <> 0 ->
  (fm = true -> namei_match fn (lit "..") = Some true) -> unmounted s' q.
Proof.
  revert node status fm s. induction fuel as [|fuel IH]; intros node status fm s Hr Hq Hfm; [done|].
  cbn [getdentry] in Hr. apply bind_inv in Hr as (x & s1 & _ & Hr).
  apply bind_inv in Hr as ([n st1] & s2 & Hres & Hr).
  destruct (n =? 0); [by injection Hr as <- _ _|].
  apply bind_inv in Hr as (dot & s3 & Hd & Hr). apply match_name_inv in Hd as [-> Hd].
  destruct dot.
  { injection Hr as <- _ <-. destruct fm; cbn [negb] in Hres.
    - exfalso. by apply (not_dot_and_dotdot fn); auto.
    - by apply (resolve_mounts_unmounted _ _ _ _ _ _ Hres). }
  apply bind_inv in Hr as (dd & s3 & Hdd & Hr). apply match_name_inv in Hdd as [-> Hdd].
  destruct dd; [|by apply (lookup_dentry_unmounted _ _ _ _ _ _ _ Hr)].
  apply bind_inv in Hr as (v & s3 & _ & Hr). destruct (IS_MNTED v).
  - apply bind_inv in Hr as (y & s4 & _ & Hr). by apply (IH _ _ _ _ Hr).
  - apply bind_inv in Hr as (t & s4 & _ & Hr). apply bind_inv in Hr as (y & s5 & _ & Hr).
    apply bind_inv in Hr as ([n2 st2] & s6 & Hres2 & Hr). destruct (n =? n2) eqn:En.
    + apply bind_inv in Hr as (y2 & s7 & Hput & Hr). injection Hr as <- _ <-.
      assert (n2 = n) as -> by lia. apply (iput_unmounted _ _ _ _ _ Hput).
      by apply (resolve_mounts_unmounted _ _ _ _ _ _ Hres2).
    + apply bind_inv in Hr as (y2 & s7 & _ & Hr). by apply (lookup_dentry_unmounted _ _ _ _ _ _ _ Hr).
Qed.

Lemma get_dentry_unmounted node fn status s q st s' :
  get_dentry node fn status s = Ok ((q, st), s') -> q <> 0 -> unmounted s' q.
Proof.
  unfold get_dentry. intros Hr Hq. apply bind_inv in Hr as (n & s1 & _ & Hr).
  by apply (getdentry_unmounted _ _ _ _ _ _ _ _ _ Hr).
Qed.

(** The loop of [igetdir] either has not moved, and the path has no slash, or
    it ends at an unmounted node. *)
Lemma igetdir_loop_unmounted fuel node fn status s q name st s' :
  igetdir_loop fuel node fn status s = Ok ((q, name, st), s') -> q <> 0 ->
  (q = node /\ name = fn /\ s' = s) \/ unmounted s' q.
Proof.
  revert node fn status s. induction fuel as [|fuel IH]; intros node fn status s Hr Hq; [done|].
  cbn [igetdir_loop] in Hr. apply bind_inv in Hr as (pos & s1 & Hp & Hr).
  unfold get_or_fault in Hp. destruct (strchr fn SLASH); [|done]. injection Hp as -> <-.
  destruct pos as [pos|]; [|injection Hr as <- <- _ <-; by left].
  apply bind_inv in Hr as ([n st1] & s2 & Hd & Hr). destruct (n =? 0) eqn:En; [by injection Hr as <- _ _ _|].
  apply IH in Hr as [(-> & -> & ->)|Hu]; [|by right|done]. right.
  destruct (negb _); by eapply get_dentry_unmounted; [exact Hd|lia].
Qed.

Lemma namei_unmounted t status s q st s' :
  Z.of_nat (length t) < 4294967296 -> namei (Some t) status s = Ok ((q, st), s') -> q <> 0 ->
  unmounted s' q.
Proof.
  intros Hlen Hr Hq. unfold namei in Hr. apply bind_inv in Hr as (c & s1 & Hc & Hr).
  unfold get_or_fault in Hc. destruct (aget t 0) as [c'|] eqn:Et; [|done]. injection Hc as -> <-.
  destruct (c =? 0); [by injection Hr as <- _ _|].
  apply bind_inv in Hr as (task & s1 & Htask & Hr). injection Htask as <- <-.
  apply bind_inv in Hr as (rv & s1 & Hrv & Hr). injection Hrv as <- <-.
  set (start := if c =? SLASH then _ else _) in Hr. destruct start as [node fn] eqn:Es.
  assert (Hfl : Z.of_nat (length fn) < 4294967296).
  { unfold start in Es. destruct (c =? SLASH); injection Es as _ <-; [rewrite length_drop; lia|done]. }
  clear start Es. apply bind_inv in Hr as ([[[n base] len] st1] & s1 & Hi & Hr).
  destruct (n =? 0) eqn:En; [by injection Hr as <- _ _|].
  destruct (len =? 0) eqn:El; [|by apply (get_dentry_unmounted _ _ _ _ _ _ _ Hr)].
  injection Hr as <- _ <-. unfold igetdir in Hi. apply bind_inv in Hi as (c2 & s2 & Hc2 & Hi).
  unfold get_or_fault in Hc2. destruct (aget fn 0) as [c2'|] eqn:Ef; [|done]. injection Hc2 as -> <-.
  destruct (c2 =? 0) eqn:Ec2.
  - apply bind_inv in Hi as (x & s2 & _ & Hi). apply bind_inv in Hi as ([m st2] & s3 & Hm & Hi).
    injection Hi as <- _ _ _ <-. by apply (resolve_mounts_unmounted _ _ _ _ _ _ Hm).
  - apply bind_inv in Hi as ([[m nm] st2] & s2 & Hl & Hi).
    destruct (m =? 0); [by injection Hi as <- _ _ _ _|].
    apply bind_inv in Hi as (l & s3 & Hs & Hi). unfold get_or_fault in Hs.
    destruct (strlen nm) as [l'|] eqn:Esl; [|done]. injection Hs as -> <-. injection Hi as <- <- <- <- <-.
    apply igetdir_loop_unmounted in Hl as [(-> & -> & ->)|Hu]; [|done|done].
    exfalso. destruct fn as [|x fn]; [done|]. injection Ef as ->.
    unfold strlen in Esl. cbn [strlen_loop] in Esl. rewrite Ec2 in Esl. cbn [negb] in Esl.
    change (u32 (0 + 1)) with 1 in Esl.
    assert (Hge : forall str k r, strlen_loop str k = Some r -> 1 <= k ->
              k + Z.of_nat (length str) < 4294967296 -> 1 <= r).
    { clear. induction str as [|y str IH]; intros k r; cbn [strlen_loop]; [done|].
      destruct (negb (y =? 0)); [|intros [= <-]; lia]. intros Hr Hk Hb. cbn [length] in Hb.
      rewrite u32_id in Hr by lia. apply (IH _ _ Hr); lia. }
    cbn [length] in Hfl. specialize (Hge fn 1 l Esl ltac:(lia) ltac:(lia)). lia.
Qed.

(** [sys_umount] never unmounts anything: [namei] resolves the mount on the
    node it returns, so the node is never one that something is mounted on and
    the call ends with an error, whatever is mounted. *)
Theorem sys_umount_never_succeeds target status s r s' :
  (forall t, target = Some t -> Z.of_nat (length t) < 4294967296) ->
  sys_umount target status s = Ok (r, s') ->
  r = - EPERM \/ r = - EFAULT \/ r = - EINVAL \/
  exists st s1, namei target status s = Ok ((0, st), s1) /\ r = st.
Proof.
  intros Hlen Hr. unfold sys_umount in Hr. apply bind_inv in Hr as (task & s1 & Ht & Hr).
  injection Ht as <- <-. destruct (negb _); [injection Hr as <- _; by left|].
  destruct target as [t|]; [|injection Hr as <- _; by right; left].
  apply bind_inv in Hr as (c & s1 & Hc & Hr). unfold get_or_fault in Hc.
  destruct (aget t 0); [|done]. injection Hc as -> <-.
  destruct (c =? 0); [injection Hr as <- _; by right; left|].
  apply bind_inv in Hr as ([node st] & s2 & Hn & Hr).
  destruct (node =? 0) eqn:En.
  - injection Hr as <- _. right. right. right. exists st, s2. by replace 0 with node by lia.
  - apply bind_inv in Hr as (v & s3 & Hv & Hr). apply get_vnode_inv in Hv as [-> Hv].
    unfold IS_MNT in Hr.
    rewrite (namei_unmounted t status s node st s2 (Hlen t eq_refl) Hn ltac:(lia) v Hv) in Hr.
    cbn [Z.eqb negb] in Hr. apply bind_inv in Hr as (y & s4 & _ & Hr). injection Hr as <- _.
    by right; right; left.
Qed.

(** [sys_mount] does not look at what [read_super] returned: when it
    refuses the device (and so leaves no root) the mount dereferences the null
    root pointer. *)
Theorem mount_refused_super_faults mountpoint type dev_ source target mountflags data s s1 msb :
  0 < next_ptr s -> vnodes s1 !! 0 = None ->
  read_super type (next_ptr s + 1) data
    (set_sbs (<[next_ptr s + 1 := SuperBlock dev_ mountflags type 0 0 0 0 0 0 (next_ptr s) vfs_create_cache]>
       (sbs s)) (set_next_ptr (next_ptr s + 2) s)) = Ok (msb, s1) ->
  (exists sblk, sbs s1 !! (next_ptr s + 1) = Some sblk /\ sb_root sblk = 0) ->
  mount_on mountpoint type dev_ source target mountflags data s = Fault.
Proof.
  intros Hn Hnull Hread (sblk & Hsb & Hroot). unfold mount_on.
  rewrite (bind_run new_ptr _ s (next_ptr s) (set_next_ptr (next_ptr s + 1) s)) by done.
  rewrite (bind_run new_ptr _ _ (next_ptr s + 1) (set_next_ptr (next_ptr s + 2) s))
    by (unfold new_ptr, bind, gets, modify, ret, set_next_ptr; simpl; do 3 f_equal; lia).
  unfold bind at 1, put_sb at 1, modify at 1. rewrite (bind_run _ _ _ _ _ Hread).
  unfold bind at 1, modify at 1. replace (next_ptr s + 1 =? 0) with false by lia.
  set (s2 := set_mounts _ _ s1).
  assert (Hd : exists r s3, d_mount (next_ptr s) s2 = Ok (r, s3) /\ vnodes s3 = vnodes s1 /\ sbs s3 = sbs s1).
  { unfold d_mount. replace (next_ptr s =? 0) with false by lia. unfold bind at 1, gets.
    case_cond; eexists _, _; (split; [reflexivity|done]). }
  destruct Hd as (r & s3 & Hd & Hv3 & Hs3). rewrite (bind_run _ _ _ _ _ Hd).
  assert (Hsb3 : sbs s3 !! (next_ptr s + 1) = Some sblk) by (by rewrite Hs3).
  rewrite (bind_run _ _ _ _ _ (get_sb_Ok _ _ _ Hsb3)), Hroot.
  destruct (vnodes s3 !! mountpoint) as [v|] eqn:Ev.
  - rewrite (bind_run _ _ _ _ _ (upd_vnode_Ok _ _ _ _ Ev)).
    unfold upd_vnode, bind at 1 2, get_vnode, get_or_fault. simpl.
    rewrite lookup_insert_ne; [by rewrite Hv3, Hnull|]. intros ->. by rewrite Hv3, Hnull in Ev.
  - unfold upd_vnode at 1, bind at 1 2, get_vnode, get_or_fault. by rewrite Ev.
Qed.
End bare.

#[export] Instance rootfs_put_laws : PutLaws unit.
Proof.
  constructor. intros a ops f node s x s'. simpl. destruct (a =? 1); [|done]. intros [= <-]. done.
Qed.

Lemma sys_umount_never_succeeds_witness :
  exists r s', sys_umount (Some (lit "/")) 0 (set_root_vnode 500 (set_task (set_pwd_root 500 500 task_zero) (vfs_sample 3))) = Ok (r, s') /\
    (r = - EPERM \/ r = - EFAULT \/ r = - EINVAL \/
     exists st s1, namei (Some (lit "/")) 0
       (set_root_vnode 500 (set_task (set_pwd_root 500 500 task_zero) (vfs_sample 3))) = Ok ((0, st), s1) /\ r = st).
Proof.
  destruct (sys_umount (Some (lit "/")) 0 (set_root_vnode 500 (set_task (set_pwd_root 500 500 task_zero) (vfs_sample 3))))
    as [[r s']| |] eqn:E; [|vm_compute in E; discriminate E..].
  exists r, s'. split; [reflexivity|]. apply (sys_umount_never_succeeds (Some (lit "/")) 0 _ r s').
  - intros t [= <-]. vm_compute. reflexivity.
  - exact E.
Defined.

(** A type whose [read_super] refuses, as initrdfs does on a wrong magic number. *)
#[local] Instance refusing_fs : FsOps unit := {
  iop_at _ := None;
  sop_at a := if a =? 1 then Some rootfs_sb_ops else None;
  read_super _ _ _ := ret 0 }.

Lemma mount_refused_super_faults_witness :
  mount_on 500 2 0 None None 0 0 (vfs_sample 3) = Fault.
Proof.
  apply (mount_refused_super_faults 500 2 0 None None 0 0 (vfs_sample 3)
    (set_sbs (<[1001 := SuperBlock 0 0 2 0 0 0 0 0 0 1000 []]> (sbs (vfs_sample 3)))
       (set_next_ptr 1002 (vfs_sample 3))) 0).
  - reflexivity.
  - reflexivity.
  - reflexivity.
  - eexists. split; reflexivity.
Defined.
