(* ===== verification/Files.v ===== *)
(** * Open files: [src/src/fs/open.c], [src/src/fs/read_write.c], [src/src/fs/fcntl.c] *)
From S2P Require Import Prelude CString Abi Vfs Namei Mount.
Open Scope nup_scope.

Section files.
Context {F : Type} `{FsOps F}.
Implicit Types s : vstate F.
Local Abbreviation VM := (M (vstate F)).

(** [access_ok] of paging.c: "Fill it!". *)
Definition access_ok (type addr sz : Z) : Z := 1.

Definition set_fds (coe : Z) (l : list Z) (t : task_fs) : task_fs :=
  TaskFs (t_uid t) (t_euid t) (t_gid t) (t_egid t) (t_pwd t) (t_root t) coe l.

Definition upd_task (f : task_fs -> task_fs) : VM unit :=
  modify (fun s => set_task (f (current_task s)) s).
Definition get_file (p : Z) : VM file := get_or_fault (fun s => files s !! p).
Definition put_file (p : Z) (f : file) : VM unit := modify (fun s => set_files (<[p := f]> (files s)) s).
Definition get_fd (fd : Z) : VM Z := get_or_fault (fun s => aget (t_files (current_task s)) fd).
Definition put_fd (fd p : Z) : VM unit :=
  upd_or_fault (fun s => l ← aset (t_files (current_task s)) fd p;
    Some (set_task (set_fds (t_close_on_exec (current_task s)) l (current_task s)) s)).
(** [current_task->close_on_exec &= ~(1 << fd)] *)
Definition clear_cloexec (fd : Z) : VM unit :=
  upd_task (fun t => set_fds (Z.land (t_close_on_exec t) (Z.lnot (Z.shiftl 1 fd))) (t_files t) t).

Definition sys_chdir (name : option (list Z)) (status : Z) : VM Z :=
  let! ' (node, status) := namei name status in
  if negb (node =? 0) then
    let! v := get_vnode node in
    if IS_DIR v then
      do! upd_task (fun t => set_pwd_root node (t_root t) t); ret 0
    else ret (- ENOTDIR)
  else ret status.

Definition sys_chroot (name : option (list Z)) (status : Z) : VM Z :=
  let! task := gets current_task in
  if negb (I_AM_ROOT task) then ret (- EPERM)
  else
    let! ' (node, status) := namei name status in
    if negb (node =? 0) then
      let! v := get_vnode node in
      if IS_DIR v then
        do! upd_task (fun t => set_pwd_root (t_pwd t) node t); ret 0
      else ret (- ENOTDIR)
    else ret status.

(** The loop over the descriptors for a free one: [NR_OPEN] when there is none. *)
Fixpoint free_fd (l : list Z) (fd : Z) : Z :=
  match l with
  | [] => fd
  | p :: l => if p =? 0 then fd else free_fd l (fd + 1)
  end.

Definition open_mode (flag : Z) : Z :=
  Z.lor (if (Z.land flag 3 =? 0) || test flag O_RDWR then FMODE_READ else 0)
        (if test flag O_WRONLY || test flag O_RDWR then FMODE_WRITE else 0).

(** [sys_open] once a descriptor is found. *)
Definition open_at (fd : Z) (filename : option (list Z)) (flag status : Z) : VM Z :=
  let! f := new_ptr in
  let! ' (node, status) := namei filename status in
  if node =? 0 then ret status
  else
    let! v := get_vnode node in
    let offset := if test flag O_APPEND then size v else 0 in
    do! put_file f (File fd (open_mode flag) node offset 1);
    do! open_fs node f;
    do! clear_cloexec fd;
    do! put_fd fd f;
    ret fd.

Definition sys_open (filename : option (list Z)) (flag mode_ status : Z) : VM Z :=
  let! task := gets current_task in
  let fd := free_fd (take (Z.to_nat NR_OPEN) (t_files task)) 0 in
  if NR_OPEN <=? fd then ret (- EMFILE) else open_at fd filename flag status.

Definition sys_close (fd : Z) : VM Z :=
  if (fd <? 0) || (NR_OPEN <=? fd) then ret (- EBADF)
  else
    let! p := get_fd fd in
    if p =? 0 then ret (- EBADF)
    else
      let! f := get_file p in
      do! clear_cloexec fd;
      do! put_fd fd 0;
      if negb (f_count f =? 0) then
        let c := u32 (f_count f - 1) in
        do! put_file p (File (f_fd f) (f_flags f) (f_node f) (f_offset f) c);
        if c =? 0 then
          do! close_fs (f_node f);
          do! iput (f_node f);
          do! modify (fun s => set_files (delete p (files s)) s);
          ret 0
        else ret 0
      else ret 0.

Definition sys_ioctl (fd cmd arg : Z) : VM Z :=
  if (fd <? 0) || (NR_OPEN <=? fd) then ret (- EBADF)
  else
    let! p := get_fd fd in
    if p =? 0 then ret (- EBADF)
    else let! f := get_file p in ioctl_fs (f_node f) cmd arg.

(** [if (!IS_CHR(f->node)) f->offset += size;] with the unsigned [size] *)
Definition advance (p sz : Z) : VM unit :=
  let! f := get_file p in
  let! v := get_vnode (f_node f) in
  if negb (IS_CHR v) then
    put_file p (File (f_fd f) (f_flags f) (f_node f) (u32 (f_offset f + sz)) (f_count f))
  else ret tt.

(** [!f->flags & FMODE_READ] is [(!f->flags) & 1]. *)
Definition sys_read (fd sz : Z) : VM (Z * list Z) :=
  if (fd <? 0) || (NR_OPEN <=? fd) then ret (- EBADF, [])
  else
    let! p := get_fd fd in
    if p =? 0 then ret (- EBADF, [])
    else
      let! f := get_file p in
      if test (b2z (f_flags f =? 0)) FMODE_READ then ret (- EBADF, [])
      else
        let! ' (r, buffer) := read_fs (f_node f) (f_offset f) sz in
        let sz := u32 r in
        do! advance p sz;
        ret (s32 sz, buffer).

Definition sys_write (fd : Z) (buffer : list Z) (sz : Z) : VM Z :=
  if (fd <? 0) || (NR_OPEN <=? fd) then ret (- EBADF)
  else
    let! p := get_fd fd in
    if p =? 0 then ret (- EBADF)
    else
      let! f := get_file p in
      if negb (test (f_flags f) FMODE_WRITE) then ret (- EBADF)
      else
        let! r := write_fs (f_node f) (f_offset f) sz buffer in
        let sz := u32 r in
        do! advance p sz;
        ret (s32 sz).

Definition sys_dup2 (fd fd2 : Z) : VM Z :=
  if (fd <? 0) || (NR_OPEN <=? fd) || (fd2 <? 0) || (NR_OPEN <=? fd2) then ret (- EBADF)
  else
    let! p := get_fd fd in
    if p =? 0 then ret (- EBADF)
    else
      do! sys_close fd2;
      do! clear_cloexec fd2;
      let! p := get_fd fd in
      do! put_fd fd2 p;
      let! f := get_file p in
      do! put_file p (File (f_fd f) (f_flags f) (f_node f) (f_offset f) (u32 (f_count f + 1)));
      ret fd2.

Definition sys_dup (fd : Z) : VM Z :=
  let! task := gets current_task in
  let fd2 := free_fd (take (Z.to_nat NR_OPEN) (t_files task)) 0 in
  if NR_OPEN <=? fd2 then ret (- EMFILE) else sys_dup2 fd fd2.

(** ** Lemmas *)

Lemma free_fd_spec l k : 
  (exists i, l !! i = Some 0 /\ free_fd l k = k + Z.of_nat i /\ forall j p, (j < i)%nat -> l !! j = Some p -> p <> 0) \/
  (free_fd l k = k + Z.of_nat (length l) /\ 0 ∉ l).
Proof.
  revert k. induction l as [|p l IH]; intros k; cbn [free_fd].
  - right. split; [simpl; lia|apply not_elem_of_nil].
  - destruct (p =? 0) eqn:E.
    + left. exists 0%nat. split_and!; [f_equal/=; lia|lia|intros; lia]. 
    + destruct (IH (k + 1)) as [(i & H1 & H2 & H3)|[H1 H2]].
      * left. exists (S i). split_and!; [done|rewrite H2; lia|]. intros [|j] q Hj Hq; [simplify_eq/=; lia|].
        apply (H3 j q); [lia|done].
      * right. split; [rewrite H1; simpl; lia|]. apply not_elem_of_cons. split; [lia|done].
Qed.

(** A file table of [NR_OPEN] entries. *)
Definition fds_ok s : Prop := length (t_files (current_task s)) = 32%nat.

Lemma get_fd_Ok s fd p : t_files (current_task s) !! Z.to_nat fd = Some p -> 0 <= fd -> get_fd fd s = Ok (p, s).
Proof. intros Hp Hfd. unfold get_fd, get_or_fault, aget. zcond. by rewrite Hp. Qed.

Lemma get_file_Ok s p f : files s !! p = Some f -> get_file p s = Ok (f, s).
Proof. intros Hf. unfold get_file, get_or_fault. by rewrite Hf. Qed.

Definition task_with_fd (fd p : Z) (t : task_fs) : task_fs :=
  set_fds (t_close_on_exec t) (<[Z.to_nat fd := p]> (t_files t)) t.

Lemma put_fd_Ok s fd p : fds_ok s -> 0 <= fd < 32 ->
  put_fd fd p s = Ok (tt, set_task (task_with_fd fd p (current_task s)) s).
Proof.
  intros Hl Hfd. unfold put_fd, upd_or_fault. rewrite aset_Some by (unfold fds_ok in Hl; lia). done.
Qed.

Definition close_cloexec (fd : Z) (t : task_fs) : task_fs :=
  set_fds (Z.land (t_close_on_exec t) (Z.lnot (Z.shiftl 1 fd))) (t_files t) t.

Lemma clear_cloexec_Ok s fd :
  clear_cloexec fd s = Ok (tt, set_task (close_cloexec fd (current_task s)) s).
Proof. done. Qed.

(** ** Properties *)

(** What [sys_read] tests before reading is whether the descriptor has no
    flag at all: a descriptor opened write-only is read like any other, and
    whatever the read returns is added to the offset, an error number
    included. *)
Theorem sys_read_unchecked s s' fd p f v r buffer sz :
  fds_ok s -> 0 <= fd < NR_OPEN -> t_files (current_task s) !! Z.to_nat fd = Some p -> p <> 0 ->
  files s !! p = Some f -> f_flags f <> 0 -> read_fs (f_node f) (f_offset f) sz s = Ok ((r, buffer), s') ->
  files s' !! p = Some f -> vnodes s' !! f_node f = Some v -> IS_CHR v = false ->
  sys_read fd sz s =
  Ok ((s32 r, buffer),
      set_files (<[p := File (f_fd f) (f_flags f) (f_node f) (u32 (f_offset f + r)) (f_count f)]> (files s')) s').
Proof.
  intros Hl Hfd Hp Hp0 Hf Hfl Hread Hf' Hv Hchr. unfold sys_read, NR_OPEN in *. zcond.
  rewrite (bind_run _ _ _ _ _ (get_fd_Ok s fd p Hp ltac:(lia))). replace (p =? 0) with false by lia.
  rewrite (bind_run _ _ _ _ _ (get_file_Ok s p f Hf)). replace (f_flags f =? 0) with false by lia.
  change (test (b2z false) FMODE_READ) with false. cbv iota.
  rewrite (bind_run _ _ _ _ _ Hread). unfold advance.
  unfold bind at 1. rewrite (bind_run _ _ _ _ _ (get_file_Ok s' p f Hf')).
  rewrite (bind_run _ _ _ _ _ (get_vnode_Ok _ _ _ Hv)), Hchr. cbn [negb].
  unfold put_file, modify, ret. do 3 f_equal.
  - width.
  - do 2 f_equal. width.
Qed.


(** Duplicating a descriptor to itself closes it first and then follows the
    empty table entry: when it is the file's only descriptor and nothing else
    goes wrong in closing it, [sys_dup2(fd, fd)] dereferences null. *)
Theorem sys_dup2_same_faults s s' fd p r :
  fds_ok s' -> 0 <= fd < NR_OPEN -> t_files (current_task s) !! Z.to_nat fd = Some p -> p <> 0 ->
  sys_close fd s = Ok (r, s') -> t_files (current_task s') !! Z.to_nat fd = Some 0 -> files s' !! 0 = None ->
  sys_dup2 fd fd s = Fault.
Proof.
  intros Hl Hfd Hp Hp0 Hc Hz Hnull. unfold sys_dup2. zcond.
  rewrite (bind_run _ _ _ _ _ (get_fd_Ok s fd p Hp ltac:(lia))). replace (p =? 0) with false by lia.
  rewrite (bind_run _ _ _ _ _ Hc), (bind_run _ _ _ _ _ (clear_cloexec_Ok s' fd)).
  rewrite (bind_run _ _ _ _ _ (get_fd_Ok (set_task (close_cloexec fd (current_task s')) s') fd 0 Hz ltac:(lia))).
  rewrite (bind_run _ _ _ _ _ (put_fd_Ok (set_task (close_cloexec fd (current_task s')) s') fd 0 Hl ltac:(unfold NR_OPEN in Hfd; lia))).
  unfold bind, get_file, get_or_fault. simpl. by rewrite Hnull.
Qed.

Lemma set_task_twice t t' s : set_task t' (set_task t s) = set_task t' s.
Proof. done. Qed.

Lemma land_lnot_idem c m : Z.land (Z.land c (Z.lnot m)) (Z.lnot m) = Z.land c (Z.lnot m).
Proof. by rewrite <- Z.land_assoc, Z.land_diag. Qed.

(** A file other descriptors share stays open with one reference less. *)
Definition with_refs (f : file) (n : Z) : file := File (f_fd f) (f_flags f) (f_node f) (f_offset f) n.
Lemma sys_close_shared s fd p f : fds_ok s -> 0 <= fd < 32 -> t_files (current_task s) !! Z.to_nat fd = Some p -> p <> 0 ->
  files s !! p = Some f -> 2 <= f_count f < 4294967296 ->
  sys_close fd s = Ok (0, set_files (<[p := with_refs f (f_count f - 1)]> (files s))
    (set_task (task_with_fd fd 0 (close_cloexec fd (current_task s))) s)).
Proof.
  intros Hl Hfd Hp Hp0 Hf Hc. unfold sys_close, NR_OPEN. zcond.
  rewrite (bind_run _ _ _ _ _ (get_fd_Ok s fd p Hp ltac:(lia))). replace (p =? 0) with false by lia.
  rewrite (bind_run _ _ _ _ _ (get_file_Ok s p _ Hf)), (bind_run _ _ _ _ _ (clear_cloexec_Ok s fd)).
  rewrite (bind_run _ _ _ _ _ (put_fd_Ok (set_task (close_cloexec fd (current_task s)) s) fd 0 Hl ltac:(lia))).
  replace (f_count f =? 0) with false by lia. cbn [negb].
  unfold bind, put_file, modify. rewrite u32_id by lia. by replace (f_count f - 1 =? 0) with false by lia.
Qed.

End files.

(** ** A concrete task: descriptor 3 open write-only on a directory *)

Definition files_task : task_fs := TaskFs 0 0 0 0 500 500 0 (<[3%nat := 600]> (replicate 32 0)).
Definition files_sample (f : file) : vstate unit :=
  set_files {[ 600 := f ]} (set_root_vnode 500 (set_task files_task (vfs_sample 3))).

Lemma sys_read_unchecked_witness :
  exists s', sys_read 3 10 (files_sample (File 3 FMODE_WRITE 500 100 1)) = Ok ((- EISDIR, []), s') /\
    (f_offset <$> files s' !! 600) = Some 79.
Proof.
  eexists. split.
  - apply (sys_read_unchecked (files_sample (File 3 FMODE_WRITE 500 100 1))
      (files_sample (File 3 FMODE_WRITE 500 100 1)) 3 600 (File 3 FMODE_WRITE 500 100 1) (sample_vnode 3)
      (- EISDIR) [] 10); try reflexivity; try discriminate. vm_compute. split; congruence.
  - vm_compute. reflexivity.
Defined.


Lemma sys_dup2_same_faults_witness : sys_dup2 3 3 (files_sample (File 3 1 500 0 1)) = Fault.
Proof.
  destruct (sys_close 3 (files_sample (File 3 1 500 0 1))) as [[r s']| |] eqn:E;
    [|vm_compute in E; discriminate E..].
  apply (sys_dup2_same_faults _ s' 3 600 r); try reflexivity; try discriminate; try exact E;
    vm_compute in E; injection E as _ <-; vm_compute; try reflexivity. split; congruence.
Defined.

