(* ===== verification/Task.v ===== *)
(** * Processes: [src/src/kernel/task.c], [sched.c], [exit.c]

    The task table, the scheduler, forking, signals and exit.  Files, vnodes,
    address spaces and kernel memory belong to other components: [TaskEnv] is
    what this one uses of them.  [schedule] and [sys_kill] also reach
    [tasks[NR_TASKS]], the memory behind the table; the model's table has that
    cell as its last entry.

    A switch is modelled up to the jump to the next task: the registers that
    [switch_task] saves are its argument. *)
From S2P Require Import Prelude Abi Vfs.
Open Scope nup_scope.

Record task := Task {
  pid : Z; parent : Z; pgrp : Z; state : Z;
  esp : Z; ebp : Z; eip : Z; directory : Z; kernel_stack : Z;
  exit_code : Z; signals : Z; tfs : task_fs }.

(** The registers saved and loaded by a switch. *)
Record cpu := Cpu { c_eip : Z; c_esp : Z; c_ebp : Z; c_cr3 : Z; c_esp0 : Z }.

Record kstate (E : Type) := KState {
  tasks : list task;
  current : Z;
  interrupts : bool;
  halted : bool;
  the_cpu : cpu;
  env : E }.
Arguments KState {E}.
Arguments tasks {E}.
Arguments current {E}.
Arguments interrupts {E}.
Arguments halted {E}.
Arguments the_cpu {E}.
Arguments env {E}.

(** What tasks use of memory management and of the file system. *)
Class TaskEnv (E : Type) := {
  env_clone_directory : Z -> M E Z;
  env_free_directory : Z -> M E unit;
  env_kmalloc_a : Z -> M E Z;
  env_free : Z -> M E unit;
  env_ref_file : Z -> M E unit;
  env_ref_vnode : Z -> M E unit;
  env_close : Z -> task_fs -> M E (Z * task_fs) }.

Section tasks.
Context {E : Type} `{TaskEnv E}.
Local Abbreviation K := (M (kstate E)).
Implicit Types k : kstate E.

Definition set_tasks (l : list task) k : kstate E :=
  KState l (current k) (interrupts k) (halted k) (the_cpu k) (env k).
Definition set_current (c : Z) k : kstate E :=
  KState (tasks k) c (interrupts k) (halted k) (the_cpu k) (env k).
Definition set_interrupts (b : bool) k : kstate E :=
  KState (tasks k) (current k) b (halted k) (the_cpu k) (env k).
Definition set_halted k : kstate E :=
  KState (tasks k) (current k) false true (the_cpu k) (env k).
Definition set_cpu (c : cpu) k : kstate E :=
  KState (tasks k) (current k) (interrupts k) (halted k) c (env k).
Definition cli : K unit := modify (set_interrupts false).
Definition sti : K unit := modify (set_interrupts true).

Definition on_env {A} (m : M E A) : K A := fun k =>
  match m (env k) with
  | Ok (a, e) => Ok (a, KState (tasks k) (current k) (interrupts k) (halted k) (the_cpu k) e)
  | Fault => Fault
  | Fuel => Fuel
  end.

Definition get_task (i : Z) : K task := get_or_fault (fun k => aget (tasks k) i).
Definition put_task (i : Z) (t : task) : K unit :=
  upd_or_fault (fun k => l ← aset (tasks k) i t; Some (set_tasks l k)).
Definition get_current : K task := let! c := gets current in get_task c.

Definition set_state (s : Z) (t : task) : task :=
  Task (pid t) (parent t) (pgrp t) s (esp t) (ebp t) (eip t) (directory t) (kernel_stack t)
    (exit_code t) (signals t) (tfs t).
Definition set_signals (s : Z) (t : task) : task :=
  Task (pid t) (parent t) (pgrp t) (state t) (esp t) (ebp t) (eip t) (directory t)
    (kernel_stack t) (exit_code t) s (tfs t).
Definition set_parent (p : Z) (t : task) : task :=
  Task (pid t) p (pgrp t) (state t) (esp t) (ebp t) (eip t) (directory t) (kernel_stack t)
    (exit_code t) (signals t) (tfs t).
Definition set_pid (p : Z) (t : task) : task :=
  Task p (parent t) (pgrp t) (state t) (esp t) (ebp t) (eip t) (directory t) (kernel_stack t)
    (exit_code t) (signals t) (tfs t).
Definition set_exit_code (c : Z) (t : task) : task :=
  Task (pid t) (parent t) (pgrp t) (state t) (esp t) (ebp t) (eip t) (directory t)
    (kernel_stack t) c (signals t) (tfs t).
Definition set_regs (ip sp bp : Z) (t : task) : task :=
  Task (pid t) (parent t) (pgrp t) (state t) sp bp ip (directory t) (kernel_stack t)
    (exit_code t) (signals t) (tfs t).
Definition set_kstack (s : Z) (t : task) : task :=
  Task (pid t) (parent t) (pgrp t) (state t) (esp t) (ebp t) (eip t) (directory t) s
    (exit_code t) (signals t) (tfs t).
Definition set_tfs (f : task_fs) (t : task) : task :=
  Task (pid t) (parent t) (pgrp t) (state t) (esp t) (ebp t) (eip t) (directory t)
    (kernel_stack t) (exit_code t) (signals t) f.

(** ** Scheduling: sched.c *)

Definition wakes (t : task) : bool :=
  negb (pid t =? NO_TASK) && negb (signals t =? 0) && (state t =? TASK_BLOCKED).

(** The first loop, from [tasks[NR_TASKS]] down: every cell on its own. *)
Definition wake_blocked (l : list task) : list task :=
  map (fun t => if wakes t then set_state TASK_WAITING t else t) l.

Definition runnable (t : task) : bool := negb (pid t =? NO_TASK) && (state t =? TASK_WAITING).

(** The second loop: the first runnable index from [i] on, below [NR_TASKS]. *)
Fixpoint next_runnable (fuel : nat) (l : list task) (i : Z) : option Z :=
  match fuel with
  | O => Some NR_TASKS
  | S fuel =>
      if NR_TASKS <=? i then Some NR_TASKS
      else t ← aget l i; if runnable t then Some i else next_runnable fuel l (i + 1)
  end.

(** The table after the first loop and the index of the task to run.  64
    rounds pass every index. *)
Definition schedule (l : list task) (cur : Z) : option (list task * Z) :=
  let l := wake_blocked l in
  t ← aget l cur;
  i ← next_runnable 64 l (pid t + 1);
  Some (l, if i =? NR_TASKS then 0 else i).

(** [set_kernel_stack] loads [esp0]; [cr3] is given the directory. *)
Definition switch_task (r : cpu) : K unit :=
  do! cli;
  let! c := gets current in
  let! t := get_task c in
  let t := set_regs (c_eip r) (c_esp r) (c_ebp r) t in
  do! put_task c (if state t =? TASK_RUNNING then set_state TASK_WAITING t else t);
  let! l := gets tasks in
  let! ' (l, n) := get_or_fault (fun _ => schedule l c) in
  do! modify (set_tasks l);
  do! modify (set_current n);
  let! t := get_task n in
  do! put_task n (set_state TASK_RUNNING t);
  modify (set_cpu (Cpu (eip t) (esp t) (ebp t) (directory t) (u32 (kernel_stack t + KERNEL_STACK_SIZE)))).

Definition sys_pause (r : cpu) : K Z :=
  let! c := gets current in
  let! t := get_task c in
  do! put_task c (set_state TASK_BLOCKED t);
  do! switch_task r;
  ret 0.

(** ** Forking: task.c *)

Fixpoint free_slot (fuel : nat) (l : list task) (i : Z) : option Z :=
  match fuel with
  | O => Some i
  | S fuel => t ← aget l i; if pid t =? NO_TASK then Some i else free_slot fuel l (i + 1)
  end.

(** [for (i = NR_OPEN; i--;) if (newtask->files[i]) newtask->files[i]->count++] *)
Fixpoint ref_files (l : list Z) : K unit :=
  match l with
  | [] => ret tt
  | p :: l => do! (if negb (p =? 0) then on_env (env_ref_file p) else ret tt); ref_files l
  end.

Definition forked (i dir : Z) (p : task) : task :=
  Task i (pid p) (pgrp p) TASK_WAITING 0 0 0 dir (kernel_stack p) 0 0 (tfs p).

(** The parent's return; the child starts at [r] with 0. *)
Definition sys_fork (r : cpu) : K Z :=
  do! cli;
  let! c := gets current in
  let! l := gets tasks in
  let! i := get_or_fault (fun _ => free_slot (Z.to_nat NR_TASKS) l 0) in
  if i =? NR_TASKS then ret (-1)
  else
    let! p := get_task c in
    let! dir := on_env (env_clone_directory (directory p)) in
    do! put_task i (forked i dir p);
    do! ref_files (rev (t_files (tfs p)));
    do! (if negb (t_pwd (tfs p) =? 0) then on_env (env_ref_vnode (t_pwd (tfs p))) else ret tt);
    do! (if negb (t_root (tfs p) =? 0) then on_env (env_ref_vnode (t_root (tfs p))) else ret tt);
    let! ks := on_env (env_kmalloc_a KERNEL_STACK_SIZE) in
    let! p := get_task c in
    do! put_task c (set_kstack ks p);
    let! n := get_task i in
    do! put_task i (set_regs (c_eip r) (c_esp r) (c_ebp r) n);
    do! sti;
    ret i.

Definition sys_getpid : K Z := let! t := get_current in ret (pid t).
Definition sys_getppid : K Z := let! t := get_current in ret (parent t).

(** ** Signals and exit: exit.c *)

(** The check is made with the current task [me]; the new signal set, or
    [None] for [-EPERM]. *)
Definition send_signal (me t : task) (sign : Z) : option Z :=
  let root := negb (negb (t_uid (tfs me) =? 0) && negb (t_euid (tfs me) =? 0)) in
  if root || (t_uid (tfs t) =? t_uid (tfs me)) || (t_uid (tfs t) =? t_euid (tfs me))
     || (t_euid (tfs t) =? t_uid (tfs me)) || (t_euid (tfs t) =? t_euid (tfs me)) || (sign =? SIGCONT)
  then Some (Z.lor (signals t) (u32 (Z.shiftl 1 (sign - 1))))
  else None.

(** One of the loops of [sys_kill] over the table: the table, whether a task
    was found and whether one accepted the signal. *)
Fixpoint signal_all (me : task) (sel : task -> bool) (sign : Z) (l : list task) : list task * bool * bool :=
  match l with
  | [] => ([], false, false)
  | t :: l =>
      let '(l', found, perm) := signal_all me sel sign l in
      if negb (pid t =? NO_TASK) && sel t then
        match send_signal me t sign with
        | Some s => (set_signals s t :: l', true, true)
        | None => (t :: l', true, perm)
        end
      else (t :: l', found, perm)
  end.

Definition kill_where (sel : task -> bool) (sign : Z) : K Z :=
  let! me := get_current in
  let! l := gets tasks in
  let '(l', found, perm) := signal_all me sel sign (take (Z.to_nat NR_TASKS) l) in
  do! modify (set_tasks (l' ++ drop (Z.to_nat NR_TASKS) l));
  if negb found then ret (- ESRCH) else if negb perm then ret (- EPERM) else ret 0.

Definition sys_kill (p sign : Z) : K Z :=
  if (sign <? 1) || (32 <? sign) then ret (- EINVAL)
  else
    let! me := get_current in
    if p =? 0 then kill_where (fun t => pgrp t =? pgrp me) sign
    else if p =? -1 then kill_where (fun _ => true) sign
    else if p <? -1 then kill_where (fun t => pgrp t =? - p) sign
    else if NR_TASKS <? p then ret (- ESRCH)
    else
      let! t := get_task p in
      if pid t =? NO_TASK then ret (- ESRCH)
      else
        match send_signal me t sign with
        | Some s => do! put_task p (set_signals s t); ret 0
        | None => ret (- EPERM)
        end.

Definition orphan (me t : task) : task :=
  if negb (pid t =? NO_TASK) && (parent t =? pid me) then set_parent 1 t else t.

(** [for (i = NR_OPEN; i--;) sys_close(i)] *)
Fixpoint close_all (n : nat) : K unit :=
  match n with
  | O => ret tt
  | S i =>
      let! c := gets current in
      let! t := get_task c in
      let! ' (_, f) := on_env (env_close (Z.of_nat i) (tfs t)) in
      do! put_task c (set_tfs f t);
      close_all i
  end.

(** [hlt] with interrupts off ends the machine. *)
Definition sys_exit (status : Z) (r : cpu) : K Z :=
  do! cli;
  let! me := get_current in
  let! l := gets tasks in
  do! modify (set_tasks (map (orphan me) (take (Z.to_nat NR_TASKS) l) ++ drop (Z.to_nat NR_TASKS) l));
  do! close_all (Z.to_nat NR_OPEN);
  let! c := gets current in
  let! t := get_task c in
  if pid t =? 0 then do! modify set_halted; ret 0
  else
    do! put_task c (set_exit_code status (set_state TASK_ZOMBIE t));
    do! sys_kill (parent t) SIGCHLD;
    do! on_env (env_free_directory (directory t));
    do! on_env (env_free (kernel_stack t));
    do! switch_task r;
    ret (- EGENERIC).

(** [sys_waitpid]: the result and the word stored at [statloc], or [None] while
    [while (tasks[pid].state != TASK_ZOMBIE);] goes on. *)
Definition sys_waitpid (p : Z) (statloc : bool) : K (option (Z * option Z)) :=
  if (p <=? 0) || (NR_TASKS <=? p) then ret (Some (- ECHILD, None))
  else
    let! t := get_task p in
    if negb (state t =? TASK_ZOMBIE) then ret None
    else
      do! put_task p (set_pid NO_TASK t);
      ret (Some (p, if statloc then Some (exit_code t) else None)).

Definition abort_current_process (r : cpu) : K Z := sys_exit 0 r.

(** [setup_tasking], after [move_stack]: [dir] is [current_directory]. *)
Definition task_free : task := Task NO_TASK 0 0 0 0 0 0 0 0 0 0 (TaskFs 0 0 0 0 0 0 0 (replicate 32 0)).
Definition first_task (dir ks : Z) : task :=
  Task 0 0 0 TASK_RUNNING 0 0 0 dir ks 0 0 (TaskFs ROOT_UID ROOT_UID ROOT_UID ROOT_UID 0 0 0 (replicate 32 0)).

Definition setup_tasking (dir : Z) : K unit :=
  do! cli;
  let! l := gets tasks in
  do! modify (set_tasks (take 1 l ++ map (set_pid NO_TASK) (drop 1 (take (Z.to_nat NR_TASKS) l))
                         ++ drop (Z.to_nat NR_TASKS) l));
  do! modify (set_current 0);
  let! ks := on_env (env_kmalloc_a KERNEL_STACK_SIZE) in
  do! put_task 0 (first_task dir ks);
  sti.
End tasks.

(** ** Lemmas on the scheduler *)

Lemma next_runnable_spec fuel l i : length l = 65%nat -> 0 <= i -> NR_TASKS - i <= Z.of_nat fuel ->
  exists r, next_runnable fuel l i = Some r /\
    ((r = NR_TASKS /\ forall j t, i <= j < NR_TASKS -> aget l j = Some t -> runnable t = false) \/
     (i <= r < NR_TASKS /\ (exists t, aget l r = Some t /\ runnable t = true) /\
      forall j t, i <= j < r -> aget l j = Some t -> runnable t = false)).
Proof.
  intros Hl. unfold NR_TASKS. revert i. induction fuel as [|fuel IH]; intros i Hi Hf; cbn [next_runnable].
  - exists 64. split; [done|]. left. split; [done|]. intros; lia.
  - unfold NR_TASKS. destruct (64 <=? i) eqn:E64.
    { exists 64. split; [done|]. left. split; [done|]. intros; lia. }
    destruct (aget_Some l i) as [t Ht]; [lia|]. rewrite Ht. cbn [mbind option_bind].
    destruct (runnable t) eqn:E.
    + exists i. split; [done|]. right. split_and!; [lia|lia|by exists t|intros; lia].
    + destruct (IH (i + 1)) as (r & Hr & Hs); [lia|lia|]. exists r. split; [done|].
      assert (Hcase : forall j u, j = i -> aget l j = Some u -> runnable u = false) by (intros; subst; congruence).
      destruct Hs as [[-> Hs]|(Hb & Hx & Hs)]; [left; split; [done|]|right; split_and!; [lia|lia|done|]];
        intros j u Hj Hu; (destruct (decide (j = i)); [by eapply Hcase|apply (Hs j u); [lia|done]]).
Qed.

Lemma wake_blocked_length l : length (wake_blocked l) = length l.
Proof. apply length_map. Qed.

Lemma aget_map {A B} (f : A -> B) l i : aget (map f l) i = f <$> aget l i.
Proof. unfold aget. case_match; [done|]. apply list_lookup_fmap. Qed.

Lemma aget_wake l i : aget (wake_blocked l) i =
  (fun t => if wakes t then set_state TASK_WAITING t else t) <$> aget l i.
Proof. apply aget_map. Qed.

Lemma wake_pid t : pid (if wakes t then set_state TASK_WAITING t else t) = pid t.
Proof. by destruct (wakes t). Qed.

(** [schedule] wakes exactly the blocked tasks that have a signal and then
    runs the first waiting task behind the current one in the table, or task 0
    when there is none, whatever state task 0 is in. *)
Theorem schedule_next l cur t :
  length l = 65%nat -> aget l cur = Some t -> -1 <= pid t ->
  exists n, schedule l cur = Some (wake_blocked l, n) /\
    ((n = 0 /\ forall j u, pid t < j < NR_TASKS -> aget (wake_blocked l) j = Some u -> runnable u = false) \/
     (pid t < n < NR_TASKS /\ (exists u, aget (wake_blocked l) n = Some u /\ runnable u = true) /\
      forall j u, pid t < j < n -> aget (wake_blocked l) j = Some u -> runnable u = false)).
Proof.
  intros Hl Ht Hp. unfold schedule. rewrite aget_wake, Ht. cbn [fmap option_fmap option_map mbind option_bind].
  rewrite wake_pid.
  destruct (next_runnable_spec 64 (wake_blocked l) (pid t + 1)) as (r & Hr & Hs);
    [by rewrite wake_blocked_length|lia|unfold NR_TASKS; lia|]. rewrite Hr. cbn [mbind option_bind].
  destruct Hs as [[-> Hs]|(Hb & Hx & Hs)].
  - exists 0. split; [done|]. left. split; [done|]. intros j u Hj. apply Hs. lia.
  - exists r. replace (r =? NR_TASKS) with false by lia. split; [done|]. right.
    split_and!; [lia|lia|done|]. intros j u Hj. apply Hs. lia.
Qed.

(** Every used cell of the table holds its index as its number. *)
Definition numbered (l : list task) : Prop :=
  forall i t, aget l i = Some t -> runnable t = true \/ i = 0 -> pid t = i.

(** The task that runs after [cur]. *)
Definition sched_step (l : list task) (cur : Z) : Z :=
  match schedule l cur with Some (_, n) => n | None => cur end.

(** Every waiting task gets its turn: starting from task 0, with the tasks
    that are switched away staying ready, each waiting task is reached after
    finitely many switches. *)
Theorem schedule_reaches_every_task l j t :
  length l = 65%nat -> wake_blocked l = l -> numbered l -> 0 < j < NR_TASKS ->
  aget l j = Some t -> runnable t = true -> exists n, Nat.iter n (sched_step l) 0 = j.
Proof.
  intros Hl Hw Hnum Hj Ht Hrun.
  (* from any reached task below j the next step stays at or below j and moves up *)
  assert (Hstep : forall c u, aget l c = Some u -> pid u = c -> 0 <= c < j ->
            c < sched_step l c <= j /\ exists v, aget l (sched_step l c) = Some v /\ runnable v = true).
  { intros c u Hc Hpid Hcj. unfold sched_step.
    destruct (next_runnable_spec 64 (wake_blocked l) (pid u + 1)) as (r & Hr & Hs);
      [by rewrite wake_blocked_length|lia|unfold NR_TASKS; lia|].
    unfold schedule. rewrite aget_wake, Hc. cbn [fmap option_fmap option_map mbind option_bind].
    rewrite wake_pid, Hr. cbn [mbind option_bind]. rewrite Hw in Hs.
    destruct Hs as [[-> Hs]|(Hb & Hx & Hs)].
    - exfalso. pose proof (Hs j t ltac:(lia) Ht). congruence.
    - replace (r =? NR_TASKS) with false by lia. split; [|done]. split; [lia|].
      destruct (decide (r <= j)); [done|]. pose proof (Hs j t ltac:(lia) Ht). congruence. }
  assert (H0 : exists t0, aget l 0 = Some t0) by (apply aget_Some; lia). destruct H0 as [t0 H0].
  assert (Hgo : forall k c u, Z.to_nat (j - c) = k -> aget l c = Some u -> pid u = c -> 0 <= c <= j ->
            exists n, Nat.iter n (sched_step l) c = j).
  { induction k as [k IH] using lt_wf_ind. intros c u Hk Hc Hpid Hcj.
    destruct (decide (c = j)) as [->|Hne]; [by exists 0%nat|].
    destruct (Hstep c u Hc Hpid ltac:(lia)) as (Hb & v & Hv & Hrv).
    destruct (IH (Z.to_nat (j - sched_step l c)) ltac:(lia) (sched_step l c) v eq_refl Hv) as [n Hn].
    - apply Hnum; [done|by left].
    - lia.
    - exists (S n). by rewrite Nat.iter_succ_r. }
  apply (Hgo (Z.to_nat j) 0 t0); [f_equal; lia|done|apply Hnum; [done|by right]|lia].
Qed.

Section task_facts.
Context {E : Type} `{TaskEnv E}.
Implicit Types k : kstate E.

Lemma bind_ok {A B} (m : M (kstate E) A) (f : A -> M (kstate E) B) k a k' :
  m k = Ok (a, k') -> bind m f k = f a k'.
Proof. intros Hm. unfold bind. by rewrite Hm. Qed.

Lemma get_task_Ok i t k : aget (tasks k) i = Some t -> get_task i k = Ok (t, k).
Proof. intros Ht. unfold get_task, get_or_fault. by rewrite Ht. Qed.

Lemma put_task_Ok i t u k : aget (tasks k) i = Some u ->
  exists l, aset (tasks k) i t = Some l /\ put_task i t k = Ok (tt, set_tasks l k).
Proof.
  intros Hu. apply aget_inv in Hu as [Hi _]. exists (<[Z.to_nat i := t]> (tasks k)).
  unfold put_task, upd_or_fault. rewrite aset_Some by done. done.
Qed.

(** [sys_waitpid] frees the table entry but leaves it in the zombie state:
    waiting again for the same process answers again, with the same exit
    code. *)
Theorem sys_waitpid_repeats p t k :
  0 < p < NR_TASKS -> aget (tasks k) p = Some t -> state t = TASK_ZOMBIE ->
  exists k', sys_waitpid p true k = Ok (Some (p, Some (exit_code t)), k') /\
    (pid <$> aget (tasks k') p) = Some NO_TASK /\
    exists k'', sys_waitpid p true k' = Ok (Some (p, Some (exit_code t)), k'').
Proof.
  intros Hp Ht Hz.
  assert (Hw : forall k u, aget (tasks k) p = Some u -> state u = TASK_ZOMBIE ->
    exists l, aset (tasks k) p (set_pid NO_TASK u) = Some l /\
      sys_waitpid p true k = Ok (Some (p, Some (exit_code u)), set_tasks l k)).
  { clear k t Ht Hz. intros k u Hu Hz. unfold sys_waitpid, NR_TASKS in *. zcond.
    rewrite (bind_ok _ _ _ _ _ (get_task_Ok p u k Hu)), Hz. cbn [negb Z.eqb].
    change (negb (TASK_ZOMBIE =? TASK_ZOMBIE)) with false. cbv iota.
    destruct (put_task_Ok p (set_pid NO_TASK u) u k Hu) as (l & Hl & Hput).
    exists l. split; [done|]. by rewrite (bind_ok _ _ _ _ _ Hput). }
  destruct (Hw k t Ht Hz) as (l & Hl & Hr). eexists. split; [exact Hr|].
  assert (Hg : aget l p = Some (set_pid NO_TASK t)) by (by apply (aget_aset_eq (tasks k))).
  split; [simpl; by rewrite Hg|].
  destruct (Hw (set_tasks l k) (set_pid NO_TASK t) Hg Hz) as (l' & _ & Hr'). eexists. exact Hr'.
Qed.

(** The bound of [sys_kill] is off by one: the number [NR_TASKS] passes it,
    and the signal goes into the memory behind the task table. *)
Theorem sys_kill_behind_table k me t sign s :
  aget (tasks k) (current k) = Some me -> aget (tasks k) NR_TASKS = Some t -> 1 <= sign <= 32 ->
  pid t <> NO_TASK -> send_signal me t sign = Some s ->
  exists l, aset (tasks k) NR_TASKS (set_signals s t) = Some l /\
    sys_kill NR_TASKS sign k = Ok (0, set_tasks l k).
Proof.
  intros Hme Ht Hs Hp Hsend. destruct (put_task_Ok NR_TASKS (set_signals s t) t k Ht) as (l & Hl & Hput).
  exists l. split; [done|]. unfold sys_kill. replace ((sign <? 1) || (32 <? sign)) with false by lia.
  unfold get_current. rewrite (bind_ok _ _ k me k).
  2:{ unfold bind, gets. by rewrite (get_task_Ok _ me). }
  cbn [Z.eqb NR_TASKS]. unfold NR_TASKS in *. cbn [Z.ltb].
  change (64 =? 0) with false. change (64 =? -1) with false. change (64 <? -1) with false.
  change (64 <? 64) with false. cbv iota.
  rewrite (bind_ok _ _ _ _ _ (get_task_Ok 64 t k Ht)). replace (pid t =? NO_TASK) with false by lia.
  by rewrite Hsend, (bind_ok _ _ _ _ _ Hput).
Qed.

(** A process whose parent is task 0 cannot signal it alone: the [SIGCHLD]
    of [sys_exit] goes through [sys_kill(0, ...)], which addresses the whole
    process group of the caller. *)
Theorem sys_kill_zero_is_group k me sign :
  aget (tasks k) (current k) = Some me -> length (tasks k) = 65%nat -> 1 <= sign <= 32 ->
  exists l r, sys_kill 0 sign k = Ok (r, set_tasks l k) /\ length l = 65%nat /\
    forall i t, 0 <= i < NR_TASKS -> aget (tasks k) i = Some t ->
      aget l i = Some (if negb (pid t =? NO_TASK) && (pgrp t =? pgrp me) then
                         match send_signal me t sign with Some s => set_signals s t | None => t end
                       else t).
Proof.
  intros Hme Hlen Hs.
  assert (Hall : forall ts, exists f p, signal_all me (fun t => pgrp t =? pgrp me) sign ts =
    (map (fun t => if negb (pid t =? NO_TASK) && (pgrp t =? pgrp me) then
                     match send_signal me t sign with Some s => set_signals s t | None => t end
                   else t) ts, f, p)).
  { induction ts as [|t ts (f & p & IH)]; [by exists false, false|]. cbn [signal_all map]. rewrite IH.
    destruct (_ && _); [destruct (send_signal me t sign)|]; by eexists _, _. }
  destruct (Hall (take 64 (tasks k))) as (f & p & Hsig).
  assert (Hcur : get_current k = Ok (me, k)).
  { unfold get_current, bind, gets. by rewrite (get_task_Ok _ me). }
  eexists _, (if negb f then - ESRCH else if negb p then - EPERM else 0).
  unfold sys_kill. replace ((sign <? 1) || (32 <? sign)) with false by lia.
  rewrite (bind_ok _ _ _ _ _ Hcur). change (0 =? 0) with true. cbv iota.
  unfold kill_where. rewrite (bind_ok _ _ _ _ _ Hcur). unfold bind at 1, gets.
  change (Z.to_nat NR_TASKS) with 64%nat. rewrite Hsig. split_and!.
  - unfold bind, modify. by repeat case_match.
  - rewrite length_app, length_map, length_take, length_drop. lia.
  - intros i t Hi Ht. unfold NR_TASKS in Hi. unfold aget. replace (i <? 0) with false by lia.
    apply aget_inv in Ht as [_ Ht]. rewrite lookup_app_l by (rewrite length_map, length_take; lia).
    etrans; [apply list_lookup_fmap|]. rewrite lookup_take by lia. case_decide; [by rewrite Ht|lia].
Qed.

(** *** Forking *)

Lemma on_env_inv {A} (m : M E A) k a k' : on_env m k = Ok (a, k') ->
  tasks k' = tasks k /\ current k' = current k /\ interrupts k' = interrupts k.
Proof. unfold on_env. destruct (m (env k)) as [[x e]| |]; [|done..]. by intros [= _ <-]. Qed.

Lemma ref_files_inv l k x k' : ref_files l k = Ok (x, k') ->
  tasks k' = tasks k /\ current k' = current k /\ interrupts k' = interrupts k.
Proof.
  revert k. induction l as [|p l IH]; intros k; cbn [ref_files]; [by intros [= _ <-]|].
  intros Hr. apply bind_Ok in Hr as (y & k1 & Hp & Hr). apply IH in Hr as (-> & -> & ->).
  destruct (negb (p =? 0)); [by apply on_env_inv in Hp|by injection Hp as _ <-].
Qed.

Lemma free_slot_spec fuel l i r : free_slot fuel l i = Some r -> 0 <= i ->
  i <= r <= i + Z.of_nat fuel /\
  (forall j t, i <= j < r -> aget l j = Some t -> pid t <> NO_TASK) /\
  (r < i + Z.of_nat fuel -> exists t, aget l r = Some t /\ pid t = NO_TASK).
Proof.
  revert i. induction fuel as [|fuel IH]; intros i; cbn [free_slot].
  - intros [= <-] Hi. split_and!; [lia|lia|intros; lia|lia].
  - destruct (aget l i) as [t|] eqn:Et; [|done]. cbn [mbind option_bind].
    destruct (pid t =? NO_TASK) eqn:Ep.
    + intros [= <-] Hi. split_and!; [lia|lia|intros; lia|]. intros _. exists t. split; [done|lia].
    + intros Hr Hi. apply IH in Hr as (H1 & H2 & H3); [|lia]. split_and!; [lia|lia| |intros; apply H3; lia].
      intros j u Hj Hu. destruct (decide (j = i)) as [->|]; [|apply (H2 j u); [lia|done]].
      rewrite Et in Hu. injection Hu as <-. lia.
Qed.

Lemma get_task_inv i k t k' : get_task i k = Ok (t, k') -> k' = k /\ aget (tasks k) i = Some t.
Proof. unfold get_task, get_or_fault. destruct (aget (tasks k) i); [|done]. by intros [= -> ->]. Qed.

Lemma get_current_inv k t k' : get_current k = Ok (t, k') -> k' = k /\ aget (tasks k) (current k) = Some t.
Proof. unfold get_current. intros (c & k1 & Hc & Hr)%bind_Ok. injection Hc as <- <-. by apply get_task_inv in Hr. Qed.
Lemma put_task_inv i t k x k' : put_task i t k = Ok (x, k') ->
  exists l, aset (tasks k) i t = Some l /\ k' = set_tasks l k.
Proof.
  unfold put_task, upd_or_fault. destruct (aset (tasks k) i t) as [l|]; [|done].
  cbn [mbind option_bind]. intros [= _ <-]. by exists l.
Qed.

End task_facts.

(** ** A concrete table: task 0 runs, tasks 2 and 5 wait *)

#[local] Instance unit_env : TaskEnv unit := {
  env_clone_directory d := ret (d + 1);
  env_free_directory _ := ret tt;
  env_kmalloc_a _ := ret 9000;
  env_free _ := ret tt;
  env_ref_file _ := ret tt;
  env_ref_vnode _ := ret tt;
  env_close _ f := ret (0, f) }.

Definition ready (i : Z) : task := set_state TASK_WAITING (set_pid i (first_task 100 8000)).
Definition sample_table : list task :=
  <[0%nat := first_task 100 8000]> (<[2%nat := ready 2]> (<[5%nat := ready 5]> (replicate 65 task_free))).
Definition sample_kernel : kstate unit := KState sample_table 0 true false (Cpu 0 0 0 0 0) tt.

Lemma sample_table_length : length sample_table = 65%nat.
Proof. reflexivity. Qed.

Lemma sample_table_cells i t : aget sample_table i = Some t ->
  (i = 0 /\ t = first_task 100 8000) \/ (i = 2 /\ t = ready 2) \/ (i = 5 /\ t = ready 5) \/ t = task_free.
Proof.
  intros Hi. assert (Hb : 0 <= i < 65) by (apply aget_inv in Hi as [Hi _]; done).
  apply aget_inv in Hi as [_ Hi]. unfold sample_table in Hi.
  destruct (decide (i = 0)) as [->|H0]; [left; split; [done|by injection Hi as <-]|].
  rewrite list_lookup_insert_ne in Hi by lia.
  destruct (decide (i = 2)) as [->|H2]; [right; left; split; [done|by injection Hi as <-]|].
  rewrite list_lookup_insert_ne in Hi by lia.
  destruct (decide (i = 5)) as [->|H5]; [do 2 right; left; split; [done|by injection Hi as <-]|].
  rewrite list_lookup_insert_ne in Hi by lia. apply lookup_replicate in Hi as [-> _]. by do 3 right.
Qed.

Lemma schedule_next_witness : exists n, schedule sample_table 0 = Some (wake_blocked sample_table, n) /\ n <> 0.
Proof.
  destruct (schedule_next sample_table 0 (first_task 100 8000)) as (n & H1 & [[_ H2]|[H2 _]]).
  - reflexivity.
  - reflexivity.
  - simpl. lia.
  - exfalso. assert (Hx : runnable (ready 2) = false) by (apply (H2 2); [simpl; unfold NR_TASKS; lia|reflexivity]).
    discriminate Hx.
  - exists n. split; [exact H1|]. simpl in H2. lia.
Defined.

Lemma schedule_reaches_every_task_witness : exists n, Nat.iter n (sched_step sample_table) 0 = 5.
Proof.
  apply (schedule_reaches_every_task sample_table 5 (ready 5)).
  - reflexivity.
  - vm_compute. reflexivity.
  - intros i t Hi Hr. destruct (sample_table_cells i t Hi) as [[-> ->]|[[-> ->]|[[-> ->]| ->]]]; try reflexivity.
    destruct Hr as [Hr| ->]; [discriminate Hr|]. discriminate Hi.
  - unfold NR_TASKS. lia.
  - reflexivity.
  - reflexivity.
Defined.

Lemma sys_waitpid_repeats_witness : exists k',
  sys_waitpid 2 true (set_tasks (<[2%nat := set_exit_code 7 (set_state TASK_ZOMBIE (ready 2))]> sample_table) sample_kernel)
  = Ok (Some (2, Some 7), k').
Proof.
  destruct (sys_waitpid_repeats 2 (set_exit_code 7 (set_state TASK_ZOMBIE (ready 2)))
    (set_tasks (<[2%nat := set_exit_code 7 (set_state TASK_ZOMBIE (ready 2))]> sample_table) sample_kernel))
    as (k' & H & _).
  - unfold NR_TASKS. lia.
  - reflexivity.
  - reflexivity.
  - exists k'. exact H.
Defined.

Lemma sys_kill_behind_table_witness : exists l,
  sys_kill 64 9 (set_tasks (<[64%nat := ready 77]> sample_table) sample_kernel) =
  Ok (0, set_tasks l (set_tasks (<[64%nat := ready 77]> sample_table) sample_kernel)).
Proof.
  destruct (sys_kill_behind_table (set_tasks (<[64%nat := ready 77]> sample_table) sample_kernel)
    (first_task 100 8000) (ready 77) 9 256) as (l & _ & H).
  - reflexivity.
  - reflexivity.
  - lia.
  - discriminate.
  - reflexivity.
  - exists l. exact H.
Defined.

Lemma sys_kill_zero_is_group_witness : exists l r,
  sys_kill 0 17 sample_kernel = Ok (r, set_tasks l sample_kernel) /\ (signals <$> aget l 5) = Some 65536.
Proof.
  destruct (sys_kill_zero_is_group sample_kernel (first_task 100 8000) 17) as (l & r & H1 & _ & H2).
  - reflexivity.
  - reflexivity.
  - lia.
  - exists l, r. split; [exact H1|]. rewrite (H2 5 (ready 5)); [reflexivity|unfold NR_TASKS; lia|reflexivity].
Defined.

