(* ===== verification/Initrdfs.v ===== *)
(** * The initial ram disk file system: [src/src/fs/initrdfs/]

    A read-only image in memory: a header, a table of inodes and their data;
    directories are files of fixed-size entries.  The image is the list of its
    bytes, found by the address it was loaded at.  The definitions work over
    any kernel state [F] that has an [initrd_state] in it. *)
From S2P Require Import Prelude CString Abi Vfs Namei.
Open Scope nup_scope.

Definition INITRD_FILENAME_LEN : Z := 64.
Definition INITRD_MAGIC : Z := 0x54494E49.

Record initrd_inode := InitrdInode {
  in_inode : Z; in_offset : Z; in_mode : Z; in_gid : Z; in_uid : Z; in_flags : Z; in_size : Z }.

(** The structures' sizes as the compiler lays them out (the flag byte is
    followed by three bytes of padding). *)
Definition sizeof_initrd_header : Z := 12.
Definition sizeof_initrd_inode : Z := 28.
Definition sizeof_initrd_d_entry : Z := 68.

(** The loaded images by address, and the [initrd_discr] structures, each
    with its [location]; header and inode table follow from it. *)
Record initrd_state := InitrdState { images : gmap Z (list Z); discrs : gmap Z Z }.

(** A component's state inside the state of the whole kernel. *)
Class Sub (P F : Type) := { proj : F -> P; inj : P -> F -> F }.
Class SubLaws (P F : Type) `{Sub P F} := {
  proj_inj p f : proj (inj p f) = p;
  inj_inj p q f : inj p (inj q f) = inj p f;
  inj_proj f : inj (proj f) f = f }.
#[export] Instance sub_refl P : Sub P P := { proj f := f; inj p _ := p }.
#[export] Instance sub_refl_laws P : SubLaws P P.
Proof. done. Qed.

(** ** Reading memory *)

(** [n] bytes at offset [off]. *)
Definition slice (img : list Z) (off n : Z) : option (list Z) :=
  if (0 <=? off) && (off + n <=? Z.of_nat (length img))
  then Some (take (Z.to_nat n) (drop (Z.to_nat off) img)) else None.

(** A little-endian number from its bytes. *)
Fixpoint le (bytes : list Z) : Z :=
  match bytes with [] => 0 | b :: r => b + 256 * le r end.

Definition le32 (img : list Z) (off : Z) : option Z := le <$> slice img off 4.
Definition byte_at (img : list Z) (off : Z) : option Z := aget img off.

(** The characters from [off] on. *)
Definition chars_at (img : list Z) (off : Z) : option (list Z) :=
  if (0 <=? off) && (off <=? Z.of_nat (length img)) then Some (s8 <$> drop (Z.to_nat off) img) else None.

Definition read_initrd_inode (img : list Z) (off : Z) : option initrd_inode :=
  i ← le32 img off; o ← le32 img (off + 4); m ← le32 img (off + 8); g ← le32 img (off + 12);
  w ← le32 img (off + 16); f ← byte_at img (off + 20); s ← le32 img (off + 24);
  Some (InitrdInode i o m g w f s).

Definition inode_off (n : Z) : Z := sizeof_initrd_header + n * sizeof_initrd_inode.

Section initrd.
Context {F : Type} `{FsOps F} `{Sub initrd_state F}.
Local Abbreviation VM := (M (vstate F)).
(** The address of [initrd_i_ops]. *)
Context (INITRD_I_OPS : Z).

(** The location of a super block's image. *)
Definition discr_of (b : Z) : VM Z :=
  let! sblk := get_sb b in get_or_fault (fun s => discrs (proj (fsd s)) !! sb_u sblk).
Definition image_at (location : Z) : VM (list Z) :=
  get_or_fault (fun s => images (proj (fsd s)) !! location).

(** The vnode's location, image and inode: [node->u.initrdfs_i] points into
    the image. *)
Definition initrd_of (node : Z) : VM (Z * list Z * initrd_inode * vnode) :=
  let! v := get_vnode node in
  let! location := discr_of (sb v) in
  let! img := image_at location in
  let! inode := get_or_fault (fun _ => read_initrd_inode img (u v - location)) in
  ret (location, img, inode, v).

Definition initrd_read (node offset sz : Z) : VM (Z * list Z) :=
  let! ' (location, img, inode, v) := initrd_of node in
  if in_size inode <? offset then ret (0, [])
  else
    let sz := if in_size inode <? u32 (offset + sz) then u32 (in_size inode - offset) else sz in
    let! data := get_or_fault (fun _ => slice img (in_offset inode + offset) sz) in
    ret (s32 sz, data).

Definition initrd_write (node offset sz : Z) (buffer : list Z) : VM Z := ret (- EINVAL).

Definition entry_off (inode : initrd_inode) (i : Z) : Z := in_offset inode + i * sizeof_initrd_d_entry.

(** [d_name] is the buffer's array of [VFS_NAME_LEN] characters before. *)
Definition initrd_readdir (d_name0 : list Z) (dir index : Z) : VM (Z * option dirent) :=
  let! ' (location, img, inode, v) := initrd_of dir in
  if in_size inode / sizeof_initrd_d_entry <=? index then ret (- EINVAL, None)
  else
    let! e := get_or_fault (fun _ => le32 img (entry_off inode index)) in
    let! name := get_or_fault (fun _ => chars_at img (entry_off inode index + 4)) in
    let! target := get_or_fault (fun _ => read_initrd_inode img (inode_off e)) in
    let! d := get_or_fault (fun _ => strncpy d_name0 name INITRD_FILENAME_LEN) in
    let! d := get_or_fault (fun _ => aset d (INITRD_FILENAME_LEN - 1) 0) in
    let! len := get_or_fault (fun _ => strlen d) in
    ret (0, Some (Dirent e d len (in_flags target))).

(** [while (i--)]: from the last entry to the first. *)
Fixpoint initrd_search (n : nat) (img : list Z) (inode : initrd_inode) (name : list Z) : option (option Z) :=
  match n with
  | O => Some None
  | S i =>
      filename ← chars_at img (entry_off inode (Z.of_nat i) + 4);
      m ← namei_match name filename;
      if m : bool then e ← le32 img (entry_off inode (Z.of_nat i)); Some (Some e)
      else initrd_search i img inode name
  end.

Definition initrd_lookup (dir : Z) (name : list Z) : VM Z :=
  let! ' (location, img, inode, v) := initrd_of dir in
  let! e := get_or_fault (fun _ =>
    initrd_search (Z.to_nat (in_size inode / sizeof_initrd_d_entry)) img inode name) in
  match e with Some e => iget (sb v) e | None => ret 0 end.

(** The test is [node->ino > inodecount]. *)
Definition initrd_read_inode (node : Z) : VM unit :=
  let! v := get_vnode node in
  let! location := discr_of (sb v) in
  let! img := image_at location in
  let! inodecount := get_or_fault (fun _ => le32 img 4) in
  if inodecount <? ino v then ret tt
  else
    let! it := get_or_fault (fun _ => read_initrd_inode img (inode_off (ino v))) in
    put_vnode node (Vnode (ino v) (count v) 1 (u16 (in_uid it)) (u16 (in_gid it)) (in_mode it) (in_flags it)
      (in_size it) 0 0 0 (dev v) (sb v) INITRD_I_OPS (location + inode_off (in_inode it)) (mount v) (cover v)).

Definition initrd_put_super (b : Z) : VM unit :=
  let! sblk := get_sb b in
  modify (fun s => set_fsd (inj (InitrdState (images (proj (fsd s))) (delete (sb_u sblk) (discrs (proj (fsd s)))))
                              (fsd s)) s).

Definition initrd_f_ops : file_operations F :=
  FileOperations None (Some initrd_read) (Some initrd_write)
    (Some (initrd_readdir (replicate (Z.to_nat VFS_NAME_LEN) 0))) None None None.
Definition initrd_i_ops : inode_operations F := InodeOperations (Some initrd_f_ops) (Some initrd_lookup).
Definition initrd_s_ops : super_operations F :=
  SuperOperations (Some initrd_read_inode) None (Some initrd_put_super).

(** [data] is the address of the image. *)
Definition read_initrd_sb (INITRD_S_OPS b data : Z) : VM Z :=
  let! img := image_at data in
  let! magic := get_or_fault (fun _ => le32 img 0) in
  if negb (magic =? INITRD_MAGIC) then ret 0
  else
    let! discr := new_ptr in
    do! modify (fun s => set_fsd (inj (InitrdState (images (proj (fsd s)))
                                         (<[discr := data]> (discrs (proj (fsd s))))) (fsd s)) s);
    let! sblk := get_sb b in
    do! put_sb b (SuperBlock (sb_dev sblk) (sb_flags sblk) (sb_type sblk) INITRD_S_OPS 1 0 (skip_bytes sblk)
          (sb_root sblk) discr (sb_mi sblk) (cache sblk));
    let! root := iget b 0 in
    let! sblk := get_sb b in
    do! put_sb b (SuperBlock (sb_dev sblk) (sb_flags sblk) (sb_type sblk) (s_op sblk) (blocksize sblk)
          (blocksize_bits sblk) (skip_bytes sblk) root (sb_u sblk) (sb_mi sblk) (cache sblk));
    ret b.
End initrd.

(** ** Properties *)

(** The bytes of a file in its image. *)
Definition file_bytes (img : list Z) (i : initrd_inode) : list Z :=
  take (Z.to_nat (in_size i)) (drop (Z.to_nat (in_offset i)) img).

Definition inode_ok (img : list Z) (i : initrd_inode) : Prop :=
  0 <= in_offset i /\ 0 <= in_size i < 2147483648 /\ in_offset i + in_size i <= Z.of_nat (length img).

Section initrd_facts.
Context {F : Type} `{FsOps F} `{Sub initrd_state F}.
Implicit Types s : vstate F.

(** C36: Reading a file of the image at an offset inside it gives the bytes of
    the file from there on, cut at its end, and as many as are left there; a
    request whose end does not fit in 32 bits is cut by nothing and reads
    outside the image. *)
Theorem initrd_read_file node offset sz s loc img i v :
  initrd_of node s = Ok ((loc, img, i, v), s) -> inode_ok img i -> 0 <= offset <= in_size i ->
  0 <= sz < 4294967296 ->
  (offset + sz < 4294967296 ->
   initrd_read node offset sz s =
     Ok ((Z.min sz (in_size i - offset),
          take (Z.to_nat sz) (drop (Z.to_nat offset) (file_bytes img i))), s)) /\
  (4294967296 <= offset + sz -> Z.of_nat (length img) < 2147483648 -> 1 <= offset ->
   u32 (offset + sz) <= in_size i -> 2147483648 <= sz -> initrd_read node offset sz s = Fault).
Proof.
  intros Hi (Ho & Hs & Hl) Hoff Hsz. unfold initrd_read.
  assert (Hrun : forall (k : (Z * list Z * initrd_inode * vnode) -> M (vstate F) (Z * list Z)),
            bind (initrd_of node) k s = k (loc, img, i, v) s) by (intros k; unfold bind; by rewrite Hi).
  rewrite Hrun. replace (in_size i <? offset) with false by lia. split.
  - intros Hsum. rewrite (u32_id (offset + sz)) by lia. unfold slice, bind, get_or_fault, file_bytes, ret.
    rewrite skipn_firstn_comm, drop_drop, take_take.
    destruct (in_size i <? offset + sz) eqn:E.
    + rewrite u32_id by lia. zcond. rewrite s32_id by lia. do 3 f_equal; [lia|].
      f_equal; [lia|]. f_equal. lia.
    + zcond. rewrite s32_id by lia. do 3 f_equal; [lia|]. f_equal; [lia|]. f_equal. lia.
  - intros Hsum Hlen Ho1 Hwrap Hbig. unfold slice, bind, get_or_fault.
    replace (in_size i <? u32 (offset + sz)) with false by lia. by zcond.
Qed.

(** The entry that a directory holds for a name: the last one that matches. *)
Definition entry_name (img : list Z) (i : initrd_inode) (k : nat) : option (list Z) :=
  f ← chars_at img (entry_off i (Z.of_nat k) + 4); component f.

(** The search through a directory finds an entry whose name is the
    component asked for, the last one if there are several, and reports its
    inode number; it fails only when no entry has the name. *)
Theorem initrd_search_finds n img i name p :
  component name = Some p ->
  (forall k, (k < n)%nat -> is_Some (entry_name img i k) /\ is_Some (le32 img (entry_off i (Z.of_nat k)))) ->
  exists r, initrd_search n img i name = Some r /\
  match r with
  | Some e => exists k, (k < n)%nat /\ entry_name img i k = Some p /\
      le32 img (entry_off i (Z.of_nat k)) = Some e /\
      forall j, (k < j < n)%nat -> entry_name img i j <> Some p
  | None => forall k, (k < n)%nat -> entry_name img i k <> Some p
  end.
Proof.
  intros Hp. induction n as [|n IH]; intros Hn; cbn [initrd_search].
  - exists None. split; [done|]. intros k Hk. lia.
  - destruct (Hn n ltac:(lia)) as [[q Hq] [e He]]. pose proof Hq as Hq'. unfold entry_name in Hq'.
    destruct (chars_at img (entry_off i (Z.of_nat n) + 4)) as [f|]; [|done]. cbn [mbind option_bind] in *.
    rewrite (namei_match_spec name f p q) by done. cbn [mbind option_bind]. rewrite He.
    destruct (bool_decide (p = q)) eqn:E.
    + apply bool_decide_eq_true in E as ->. exists (Some e). split; [done|].
      exists n. split_and!; [lia|done|done|intros; lia].
    + apply bool_decide_eq_false in E. destruct IH as (r & Hr & IH); [intros; apply Hn; lia|].
      exists r. split; [done|]. destruct r as [e'|].
      * destruct IH as (k & Hk & Hkn & Hke & Hlast). exists k. split_and!; [lia|done|done|].
        intros j Hj. destruct (decide (j = n)) as [->|]; [congruence|]. apply Hlast. lia.
      * intros k Hk. destruct (decide (k = n)) as [->|]; [congruence|]. apply IH. lia.
Qed.
End initrd_facts.

(** ** A concrete image: a root directory with one file *)

Definition le4 (n : Z) : list Z := [n mod 256; n / 256 mod 256; n / 65536 mod 256; n / 16777216].
Definition inode_bytes (i : initrd_inode) : list Z :=
  le4 (in_inode i) ++ le4 (in_offset i) ++ le4 (in_mode i) ++ le4 (in_gid i) ++ le4 (in_uid i) ++
  [in_flags i; 0; 0; 0] ++ le4 (in_size i).
Definition entry_bytes (e : Z) (name : string) : list Z :=
  le4 e ++ chars name ++ replicate (64 - String.length name) 0.

(** Two inodes, the root's directory at 68, the file's data at 136. *)
Definition sample_image : list Z :=
  le4 INITRD_MAGIC ++ le4 2 ++ le4 1 ++
  inode_bytes (InitrdInode 0 68 493 0 0 FS_DIRECTORY 68) ++ inode_bytes (InitrdInode 1 136 420 0 0 FS_FILE 5) ++
  entry_bytes 1 "motd" ++ chars "Hello".

#[local] Instance sub_self : Sub initrd_state initrd_state := { proj x := x; inj x _ := x }.
#[local] Instance no_ops : FsOps initrd_state := {
  iop_at _ := None; sop_at _ := None; read_super _ b _ := ret b }.
Definition initrd_sample : vstate initrd_state :=
  VState {[ 500 := Vnode 1 1 1 0 0 420 FS_FILE 5 0 0 0 0 100 10 (4096 + inode_off 1) 0 0 ]}
    {[ 100 := SuperBlock 0 0 0 11 1 0 0 0 700 0 [500] ]} ∅ ∅ [] ∅ [] 0 1000 task_zero
    (InitrdState {[ 4096 := sample_image ]} {[ 700 := 4096 ]}).

Lemma initrd_read_file_witness :
  initrd_read 500 1 3 initrd_sample = Ok ((3, chars "ell"), initrd_sample).
Proof.
  destruct (initrd_read_file 500 1 3 initrd_sample 4096 sample_image (InitrdInode 1 136 420 0 0 FS_FILE 5)
    (Vnode 1 1 1 0 0 420 FS_FILE 5 0 0 0 0 100 10 (4096 + inode_off 1) 0 0)) as [H _].
  - vm_compute. reflexivity.
  - vm_compute. repeat split; congruence.
  - simpl. lia.
  - lia.
  - rewrite H by lia. vm_compute. reflexivity.
Defined.

Lemma initrd_search_finds_witness :
  exists r, initrd_search 1 sample_image (InitrdInode 0 68 493 0 0 FS_DIRECTORY 68) (lit "motd/x") = Some r /\
    r <> None.
Proof.
  destruct (initrd_search_finds 1 sample_image (InitrdInode 0 68 493 0 0 FS_DIRECTORY 68) (lit "motd/x")
    (chars "motd")) as (r & Hr & Hs).
  - vm_compute. reflexivity.
  - intros [|k] Hk; [|lia]. split; vm_compute; eexists; reflexivity.
  - exists r. split; [exact Hr|]. destruct r; [discriminate|]. exfalso.
    apply (Hs 0%nat); [lia|]. vm_compute. reflexivity.
Defined.
