(* ===== verification/Mkinitrd.v ===== *)
(** * The image builder: [src/tools/mkinitrd/main.c]

    The tool walks a directory of the host and writes the image that the kernel
    mounts as its first file system.  The host's directory is a [tree], its
    entries in the order [readdir] gives them; what [realloc] leaves in new
    memory, and the padding of a structure, is [fresh].  The names of the paths
    the tool opens are not modelled (they are in arrays of 255 characters).

    The image is read back with the functions of [Initrdfs]. *)
From S2P Require Import Prelude CString Abi Vfs Initrdfs.
Open Scope nup_scope.

Definition HARDLINKS : Z := 2.

Inductive tree :=
  | File_ (mode gid uid : Z) (data : list Z)
  | Dir (mode gid uid : Z) (children : list (list Z * tree)).

Definition is_directory (t : tree) : bool := match t with Dir _ _ _ _ => true | _ => false end.

(** [filebuf] and [filelen] (its length), [tmp_inode], [header.entries]. *)
Record builder := Builder { filebuf : list Z; tmp_inode : Z; entries : Z }.

Local Abbreviation BM := (M builder).

(** The bytes of a word, and of an inode; stores of bytes in the buffer. *)
Definition word_bytes (x : Z) : list Z := [u8 x; u8 (x / 256); u8 (x / 65536); u8 (x / 16777216)].
Definition inode_bytes (i : initrd_inode) (padding : list Z) : list Z :=
  word_bytes (in_inode i) ++ word_bytes (in_offset i) ++ word_bytes (in_mode i) ++ word_bytes (in_gid i) ++
  word_bytes (in_uid i) ++ [u8 (in_flags i)] ++ take 3 padding ++ word_bytes (in_size i).
Definition poke (buf : list Z) (off : Z) (bs : list Z) : option (list Z) :=
  if (0 <=? off) && (off + Z.of_nat (length bs) <=? Z.of_nat (length buf))
  then Some (take (Z.to_nat off) buf ++ bs ++ drop (Z.to_nat off + length bs) buf) else None.

Section mkinitrd.
Context (fresh : Z -> list Z).

Definition store (off : Z) (bs : list Z) : BM unit :=
  upd_or_fault (fun b => buf ← poke (filebuf b) off bs; Some (Builder buf (tmp_inode b) (entries b))).
Definition count_entry : BM unit := modify (fun b => Builder (filebuf b) (tmp_inode b) (u32 (entries b + 1))).

(** The number of inodes below a directory, or of its entries; -1 for what
    [opendir] refuses. *)
Fixpoint count_of_inodes (t : tree) (recursive : bool) : Z :=
  match t with
  | File_ _ _ _ _ => UINT_MAX
  | Dir _ _ _ l =>
      (fix count (l : list (list Z * tree)) (res : Z) : Z :=
         match l with
         | [] => res
         | (_, c) :: l =>
             if is_directory c && recursive then
               let tmp := count_of_inodes c true in
               if tmp =? UINT_MAX then UINT_MAX else count l (u32 (u32 (res + tmp) + 1))
             else count l (u32 (res + 1))
         end) l 0
  end.

(** The offset of the new part.  When [filelen] passes 32 bits the buffer
    shrinks and the stores into the part are outside of it. *)
Definition expand_initrd (diff : Z) : BM Z := fun b =>
  if Z.of_nat (length (filebuf b)) + diff <=? UINT_MAX then
    Ok (Z.of_nat (length (filebuf b)), Builder (filebuf b ++ fresh diff) (tmp_inode b) (entries b))
  else Fault.

Definition createinode (mode gid uid size flags : Z) : BM initrd_inode := fun b =>
  Ok (InitrdInode (tmp_inode b) (Z.of_nat (length (filebuf b))) mode gid uid flags size,
      Builder (filebuf b) (u32 (tmp_inode b + 1)) (entries b)).

Definition save_inode (i : initrd_inode) : BM unit :=
  store (inode_off (in_inode i)) (inode_bytes i (fresh 3)).

Definition dentry_pos (off i : Z) : Z := off + i * sizeof_initrd_d_entry.
(** [strcpy(entries[i].filename, name)] *)
Definition put_name (off i : Z) (name : list Z) : BM unit := store (dentry_pos off i + 4) ((u8 <$> name) ++ [0]).
Definition put_number (off i n : Z) : BM unit := store (dentry_pos off i) (word_bytes n).

(** [savefile], which is [savedir] for a directory; the number of the inode. *)
Fixpoint save (t : tree) (parent_inode : Z) : BM Z :=
  match t with
  | File_ mode gid uid data =>
      let! inode := createinode mode gid uid (Z.of_nat (length data)) FS_FILE in
      do! count_entry;
      let! p := expand_initrd (in_size inode) in
      do! store p data;
      do! save_inode inode;
      ret (in_inode inode)
  | Dir mode gid uid l =>
      do! count_entry;
      let! inode := createinode mode gid uid 0 FS_DIRECTORY in
      let inode := InitrdInode (in_inode inode) (in_offset inode) mode gid uid FS_DIRECTORY
        (u32 (sizeof_initrd_d_entry * (count_of_inodes t false + HARDLINKS))) in
      let! off := expand_initrd (in_size inode) in
      do! put_number off 0 (in_inode inode);
      do! put_name off 0 (chars ".");
      do! count_entry;
      do! put_number off 1 (if parent_inode =? UINT_MAX then in_inode inode else parent_inode);
      do! put_name off 1 (chars "..");
      do! count_entry;
      do! (fix save_entries (l : list (list Z * tree)) (i : Z) : BM unit :=
             match l with
             | [] => ret tt
             | (name, c) :: l =>
                 do! store (dentry_pos off i + 4) (replicate (Z.to_nat INITRD_FILENAME_LEN) 0);
                 do! put_name off i name;
                 let! tmp := save c (in_inode inode) in
                 do! put_number (in_offset inode) i tmp;
                 save_entries l (i + 1)
             end) l HARDLINKS;
      do! save_inode inode;
      ret (in_inode inode)
  end.

(** [main]: the image, [None] when a store leaves the buffer. *)
Definition mkinitrd (t : tree) : option (list Z) :=
  let inodecount := u32 (count_of_inodes t true + 1) in
  if inodecount =? 0 then None
  else
    let build :=
      do! expand_initrd (u32 (sizeof_initrd_header + inodecount * sizeof_initrd_inode));
      do! store sizeof_initrd_header (replicate (Z.to_nat (inodecount * sizeof_initrd_inode)) 0);
      do! save t UINT_MAX;
      let! n := gets entries in
      store 0 (word_bytes INITRD_MAGIC ++ word_bytes inodecount ++ word_bytes n) in
    match build (Builder [] 0 0) with Ok (_, b) => Some (filebuf b) | _ => None end.

End mkinitrd.

(** ** Reading an image back, with the kernel's functions *)

Fixpoint read_tree (fuel : nat) (img : list Z) (n : Z) : option tree :=
  match fuel with
  | O => None
  | S fuel =>
      i ← read_initrd_inode img (inode_off n);
      if in_flags i =? FS_FILE then
        data ← slice img (in_offset i) (in_size i); Some (File_ (in_mode i) (in_gid i) (in_uid i) data)
      else
        let fix children (k : nat) (j : Z) : option (list (list Z * tree)) :=
          match k with
          | O => Some []
          | S k =>
              name ← chars_at img (entry_off i j + 4) ≫= cstr;
              m ← le32 img (entry_off i j);
              c ← read_tree fuel img m;
              l ← children k (j + 1);
              Some ((name, c) :: l)
          end in
        l ← children (Z.to_nat (in_size i / sizeof_initrd_d_entry - HARDLINKS)) HARDLINKS;
        Some (Dir (in_mode i) (in_gid i) (in_uid i) l)
  end.

(** ** Bytes of an image *)

Section image.
Implicit Types (img : list Z).

Definition is_byte (x : Z) : Prop := 0 <= x < 256.

Lemma u8_is_byte x : is_byte (u8 x).
Proof. apply u8_range. Qed.

Lemma le_word_bytes x : 0 <= x < 4294967296 -> le (word_bytes x) = x.
Proof. intros Hx. unfold word_bytes, le, u8. lia. Qed.

Lemma slice_lookup img off n l : 0 <= n ->
  slice img off n = Some l <->
  0 <= off /\ off + n <= Z.of_nat (length img) /\ Z.of_nat (length l) = n /\
  forall k, (k < length l)%nat -> img !! (Z.to_nat off + k)%nat = l !! k.
Proof.
  intros Hn. unfold slice. case_cond.
  - split.
    + intros [= <-]. rewrite length_take, length_drop. split_and!; [lia..|].
      intros k Hk. rewrite lookup_take_lt, lookup_drop by lia. done.
    + intros (Ho & Hl & Hll & Hk). f_equal. apply list_eq. intros k.
      destruct (decide (k < length l)%nat) as [Hkl|Hkl].
      * rewrite lookup_take_lt, lookup_drop by lia. by apply Hk.
      * rewrite lookup_take_ge by lia. symmetry. apply lookup_ge_None. lia.
  - split; [done|lia].
Qed.

(** A part of a slice. *)
Lemma slice_slice img off n l a m l' : 0 <= n -> slice img off n = Some l -> 0 <= a -> 0 <= m -> a + m <= n ->
  slice l a m = Some l' -> slice img (off + a) m = Some l'.
Proof.
  intros Hn (Ho & Hl & Hll & Hk)%slice_lookup Ha Hm Ham Hl'; [|done]. apply slice_lookup in Hl' as (_ & _ & Hl2 & Hk'); [|done].
  apply slice_lookup; [done|]. split_and!; [lia|lia|done|]. intros k Hkl. rewrite <- Hk' by done.
  rewrite <- Hk by lia. f_equal. lia.
Qed.

(** The second image is as long and agrees with the first on the bytes from
    [a] to [b]. *)
Definition agree img img' (a b : Z) : Prop :=
  (length img <= length img')%nat /\ forall z, a <= z < b -> 0 <= z < Z.of_nat (length img) -> img' !! Z.to_nat z = img !! Z.to_nat z.

Lemma agree_refl img a b : agree img img a b.
Proof. done. Qed.
Lemma agree_trans img1 img2 img3 a b : agree img1 img2 a b -> agree img2 img3 a b -> agree img1 img3 a b.
Proof. intros [Hl H] [Hl' H']. split; [lia|]. intros z Hz Hz'. rewrite H' by lia. by apply H. Qed.
Lemma agree_sub img img' a b a' b' : agree img img' a b -> a <= a' -> b' <= b -> agree img img' a' b'.
Proof. intros [Hl H] Ha Hb. split; [done|]. intros z Hz. apply H. lia. Qed.

(** Only the bytes of the first image count. *)
Lemma agree_end img img' a b : agree img img' a (Z.of_nat (length img) `min` b) -> agree img img' a b.
Proof. intros [Hl H]. split; [done|]. intros z Hz Hz'. apply H; lia. Qed.

Lemma agree_slice img img' off n l : 0 <= n -> slice img off n = Some l -> agree img img' off (off + n) ->
  slice img' off n = Some l.
Proof.
  intros Hn (Ho & Hl & Hll & Hk)%slice_lookup [Hlen Hag]; [|done].
  apply slice_lookup; [done|]. split_and!; [done|lia|done|]. intros k Hkl. rewrite <- Hk by done.
  replace (Z.to_nat off + k)%nat with (Z.to_nat (off + Z.of_nat k)) by lia. apply Hag; lia.
Qed.

Lemma poke_run img off bs : 0 <= off -> off + Z.of_nat (length bs) <= Z.of_nat (length img) ->
  exists img', poke img off bs = Some img' /\ length img' = length img /\ slice img' off (Z.of_nat (length bs)) = Some bs /\
    forall a b, b <= off \/ off + Z.of_nat (length bs) <= a -> agree img img' a b.
Proof.
  intros Ho Hl. unfold poke. replace (_ && _) with true by lia. eexists. split; [done|].
  assert (Hlen : length (take (Z.to_nat off) img ++ bs ++ drop (Z.to_nat off + length bs) img) = length img).
  { rewrite !length_app, length_take, length_drop. lia. }
  split; [done|]. split.
  - apply slice_lookup; [lia|]. split_and!; [done|lia|done|]. intros k Hk.
    rewrite lookup_app_r by (rewrite length_take; lia). rewrite length_take, lookup_app_l by lia. f_equal. lia.
  - intros a b Hab. split; [lia|]. intros z Hz Hz'. destruct Hab.
    + rewrite lookup_app_l by (rewrite length_take; lia). apply lookup_take_lt. lia.
    + rewrite lookup_app_r by (rewrite length_take; lia). rewrite lookup_app_r by (rewrite length_take; lia).
      rewrite lookup_drop. f_equal. rewrite length_take. lia.
Qed.

Lemma agree_app img l a b : agree img (img ++ l) a b.
Proof. split; [rewrite length_app; lia|]. intros z _ Hz. apply lookup_app_l. lia. Qed.

(** ** Structures in an image *)

Lemma le32_word img off x : 0 <= x < 4294967296 -> slice img off 4 = Some (word_bytes x) -> le32 img off = Some x.
Proof. intros Hx Hs. unfold le32. rewrite Hs. change (Some (le (word_bytes x)) = Some x). by rewrite le_word_bytes. Qed.

(** An inode whose fields are in range. *)
Definition inode_range (i : initrd_inode) : Prop :=
  0 <= in_inode i < 4294967296 /\ 0 <= in_offset i < 4294967296 /\ 0 <= in_mode i < 4294967296 /\ 0 <= in_gid i < 4294967296 /\
  0 <= in_uid i < 4294967296 /\ is_byte (in_flags i) /\ 0 <= in_size i < 4294967296.

Lemma inode_bytes_length i p : (3 <= length p)%nat -> length (inode_bytes i p) = Z.to_nat sizeof_initrd_inode.
Proof. intros Hp. unfold inode_bytes. rewrite !length_app, length_take. cbn [length word_bytes]. unfold sizeof_initrd_inode. lia. Qed.

Lemma read_inode_bytes img off i p : inode_range i -> (3 <= length p)%nat ->
  slice img off sizeof_initrd_inode = Some (inode_bytes i p) -> read_initrd_inode img off = Some i.
Proof.
  intros (H1 & H2 & H3 & H4 & H5 & H6 & H7) Hp Hs.
  destruct p as [|p1 [|p2 [|p3 p]]]; cbn in Hp; try lia. unfold sizeof_initrd_inode in Hs.
  assert (Hw : forall a x, 0 <= a -> a + 4 <= 28 -> 0 <= x < 4294967296 ->
    slice (inode_bytes i (p1 :: p2 :: p3 :: p)) a 4 = Some (word_bytes x) -> le32 img (off + a) = Some x).
  { intros a x Ha Ha' Hx Hsl. apply le32_word; [done|]. by apply (slice_slice img off 28 _ a 4 _ ltac:(lia) Hs). }
  assert (Hb : byte_at img (off + 20) = Some (in_flags i)).
  { assert (Hsl : slice img (off + 20) 1 = Some [u8 (in_flags i)]) by (by apply (slice_slice img off 28 _ 20 1 _ ltac:(lia) Hs)).
    apply slice_lookup in Hsl as (Ho & Hl & _ & Hk); [|lia]. specialize (Hk 0%nat ltac:(cbn; lia)).
    rewrite Nat.add_0_r in Hk. unfold byte_at, aget. replace (off + 20 <? 0) with false by lia. rewrite Hk. cbn.
    f_equal. unfold is_byte, u8 in *. lia. }
  pose proof (Hw 0 (in_inode i) ltac:(lia) ltac:(lia) H1 eq_refl) as E0. rewrite Z.add_0_r in E0.
  pose proof (Hw 4 (in_offset i) ltac:(lia) ltac:(lia) H2 eq_refl) as E1.
  pose proof (Hw 8 (in_mode i) ltac:(lia) ltac:(lia) H3 eq_refl) as E2.
  pose proof (Hw 12 (in_gid i) ltac:(lia) ltac:(lia) H4 eq_refl) as E3.
  pose proof (Hw 16 (in_uid i) ltac:(lia) ltac:(lia) H5 eq_refl) as E4.
  pose proof (Hw 24 (in_size i) ltac:(lia) ltac:(lia) H7 eq_refl) as E5.
  unfold read_initrd_inode. rewrite E0, E1, E2, E3, E4, Hb, E5. cbn. by destruct i.
Qed.

(** A name: characters without NUL that leave room for one. *)
Definition name_ok (name : list Z) : Prop :=
  Forall (fun c => -128 <= c < 128 /\ c <> 0) name /\ (length name < Z.to_nat INITRD_FILENAME_LEN)%nat.

Lemma name_read img off name : name_ok name ->
  slice img off (Z.of_nat (length name) + 1) = Some ((u8 <$> name) ++ [0]) ->
  chars_at img off ≫= cstr = Some name.
Proof.
  intros [Hn _] (Ho & Hl & _ & Hk)%slice_lookup; [|lia]. unfold chars_at. replace (_ && _) with true by lia. cbn [mbind option_bind].
  set (bs := (u8 <$> name) ++ [0]) in *.
  assert (Hbs : length bs = (length name + 1)%nat) by (unfold bs; rewrite length_app, length_fmap; done).
  assert (Hd : drop (Z.to_nat off) img = bs ++ drop (Z.to_nat off + length name + 1) img).
  { apply list_eq. intros k. rewrite lookup_drop. destruct (decide (k < length name + 1)%nat) as [Hkl|Hkl].
    - rewrite Hk by lia. by rewrite lookup_app_l by lia.
    - rewrite lookup_app_r by lia. rewrite lookup_drop. f_equal. lia. }
  rewrite Hd. unfold bs. clear Hk Hd Hbs bs. generalize (drop (Z.to_nat off + length name + 1) img). intros rest. clear Hl.
  induction name as [|c name IH]; [done|]. apply Forall_cons in Hn as [[Hc Hc0] Hn].
  cbn. assert (Hs : s8 (u8 c) = c) by width. rewrite Hs. replace (c =? 0) with false by lia.
  cbn in IH. by rewrite IH.
Qed.

(** ** What an image holds *)

Definition tree_ind' (P : tree -> Prop) (Hf : forall m g u d, P (File_ m g u d))
    (Hd : forall m g u l, Forall (fun c => P c.2) l -> P (Dir m g u l)) : forall t, P t :=
  fix rec t := match t with
               | File_ m g u d => Hf m g u d
               | Dir m g u l => Hd m g u l
                   ((fix all l : Forall (fun c => P c.2) l :=
                       match l with
                       | [] => Forall_nil_2 _
                       | c :: l => Forall_cons_2 _ _ _ (rec c.2) (all l)
                       end) l)
               end.

(** The inodes of a tree, and the bytes of their data. *)
Fixpoint nodes (t : tree) : Z :=
  match t with File_ _ _ _ _ => 1 | Dir _ _ _ l => 1 + foldr (fun c a => nodes c.2 + a) 0 l end.
Definition nodes_of (l : list (list Z * tree)) : Z := foldr (fun c a => nodes c.2 + a) 0 l.
Definition dir_size (l : list (list Z * tree)) : Z := sizeof_initrd_d_entry * (Z.of_nat (length l) + HARDLINKS).
Fixpoint data_size (t : tree) : Z :=
  match t with
  | File_ _ _ _ d => Z.of_nat (length d)
  | Dir _ _ _ l => dir_size l + foldr (fun c a => data_size c.2 + a) 0 l
  end.
Definition data_of (l : list (list Z * tree)) : Z := foldr (fun c a => data_size c.2 + a) 0 l.

Definition word_ok (x : Z) : Prop := 0 <= x < 4294967296.
Fixpoint tree_ok (t : tree) : Prop :=
  match t with
  | File_ m g u d => word_ok m /\ word_ok g /\ word_ok u /\ Forall is_byte d
  | Dir m g u l => word_ok m /\ word_ok g /\ word_ok u /\
      foldr (fun c P => name_ok c.1 /\ tree_ok c.2 /\ P) True l
  end.
Definition children_ok (l : list (list Z * tree)) : Prop := foldr (fun c P => name_ok c.1 /\ tree_ok c.2 /\ P) True l.

Definition entry_at img (off j m : Z) (name : list Z) : Prop :=
  slice img (dentry_pos off j) 4 = Some (word_bytes m) /\
  slice img (dentry_pos off j + 4) (Z.of_nat (length name) + 1) = Some ((u8 <$> name) ++ [0]).

(** The tree [t] as inode [n] with its data from [off] on: the inodes in the
    order of a walk that visits a directory before its entries. *)
Fixpoint represents img (n parent off : Z) (t : tree) : Prop :=
  match t with
  | File_ m g u d =>
      read_initrd_inode img (inode_off n) = Some (InitrdInode n off m g u FS_FILE (Z.of_nat (length d))) /\
      slice img off (Z.of_nat (length d)) = Some d
  | Dir m g u l =>
      read_initrd_inode img (inode_off n) = Some (InitrdInode n off m g u FS_DIRECTORY (dir_size l)) /\
      entry_at img off 0 n (chars ".") /\ entry_at img off 1 parent (chars "..") /\
      (fix go (l : list (list Z * tree)) (j m o : Z) : Prop :=
         match l with
         | [] => True
         | (name, c) :: l => entry_at img off j m name /\ represents img m n o c /\ go l (j + 1) (m + nodes c) (o + data_size c)
         end) l HARDLINKS (n + 1) (off + dir_size l)
  end.
Definition represents_all img (n off : Z) : list (list Z * tree) -> Z -> Z -> Z -> Prop :=
  fix go (l : list (list Z * tree)) (j m o : Z) : Prop :=
    match l with
    | [] => True
    | (name, c) :: l => entry_at img off j m name /\ represents img m n o c /\ go l (j + 1) (m + nodes c) (o + data_size c)
    end.

Lemma represents_dir img n parent off m g u l :
  represents img n parent off (Dir m g u l) <->
  read_initrd_inode img (inode_off n) = Some (InitrdInode n off m g u FS_DIRECTORY (dir_size l)) /\
  entry_at img off 0 n (chars ".") /\ entry_at img off 1 parent (chars "..") /\
  represents_all img n off l HARDLINKS (n + 1) (off + dir_size l).
Proof. done. Qed.

Lemma nodes_pos t : 1 <= nodes t.
Proof.
  induction t as [m g u d|m g u l IH] using tree_ind'; cbn [nodes]; [lia|]. 
  assert (0 <= foldr (fun c a => nodes c.2 + a) 0 l); [|lia].
  induction IH as [|c l Hc _ IH]; cbn in *; lia.
Qed.
Lemma nodes_of_pos l : 0 <= nodes_of l.
Proof. unfold nodes_of. induction l as [|c l IH]; cbn; [lia|]. pose proof (nodes_pos c.2). lia. Qed.
Lemma data_size_pos t : 0 <= data_size t.
Proof.
  induction t as [m g u d|m g u l IH] using tree_ind'; cbn [data_size]; [lia|].
  assert (0 <= foldr (fun c a => data_size c.2 + a) 0 l); [induction IH as [|c l Hc _ IH]; cbn in *; lia|]. unfold dir_size, sizeof_initrd_d_entry, HARDLINKS. lia.
Qed.
Lemma data_of_pos l : 0 <= data_of l.
Proof. unfold data_of. induction l as [|c l IH]; cbn; [lia|]. pose proof (data_size_pos c.2). lia. Qed.

(** Images that agree on a tree's inodes and on its data. *)
Definition agree_tree img img' (n k off d : Z) : Prop :=
  agree img img' (inode_off n) (inode_off (n + k)) /\ agree img img' off (off + d).

Lemma agree_le32 img img' off x : le32 img off = Some x -> agree img img' off (off + 4) -> le32 img' off = Some x.
Proof.
  unfold le32. intros E Hag. destruct (slice img off 4) as [l|] eqn:Es; [|done].
  by rewrite (agree_slice _ _ off 4 l ltac:(lia) Es Hag).
Qed.
Lemma agree_inode img img' off i : read_initrd_inode img off = Some i -> agree img img' off (off + sizeof_initrd_inode) ->
  read_initrd_inode img' off = Some i.
Proof.
  unfold read_initrd_inode, sizeof_initrd_inode. intros E Hag.
  assert (Hw : forall a x, 0 <= a <= 24 -> le32 img (off + a) = Some x -> le32 img' (off + a) = Some x).
  { intros a x Ha Hx. apply (agree_le32 _ _ _ _ Hx). eapply agree_sub; [exact Hag|lia|lia]. }
  pose proof (Hw 0) as Hw0. rewrite Z.add_0_r in Hw0.
  destruct (le32 img off) as [x0|] eqn:E0; [|done]. cbn in E. destruct (le32 img (off + 4)) as [x1|] eqn:E1; [|done]. cbn in E.
  destruct (le32 img (off + 8)) as [x2|] eqn:E2; [|done]. cbn in E. destruct (le32 img (off + 12)) as [x3|] eqn:E3; [|done]. cbn in E.
  destruct (le32 img (off + 16)) as [x4|] eqn:E4; [|done]. cbn in E. destruct (byte_at img (off + 20)) as [x5|] eqn:E5; [|done]. cbn in E.
  destruct (le32 img (off + 24)) as [x6|] eqn:E6; [|done]. cbn in E.
  assert (Hb : byte_at img' (off + 20) = Some x5).
  { unfold byte_at in *. apply aget_inv in E5 as [Hr Hx]. unfold aget. replace (off + 20 <? 0) with false by lia.
    rewrite <- Hx. destruct Hag as [_ Hag]. apply Hag; lia. }
  rewrite (Hw0 x0), (Hw 4 x1), (Hw 8 x2), (Hw 12 x3), (Hw 16 x4), Hb, (Hw 24 x6) by (done || lia). exact E.
Qed.
Lemma agree_entry img img' off j m name : entry_at img off j m name -> name_ok name ->
  agree img img' (dentry_pos off j) (dentry_pos off j + sizeof_initrd_d_entry) -> entry_at img' off j m name.
Proof.
  intros [H1 H2] [_ Hn] Hag. unfold sizeof_initrd_d_entry, INITRD_FILENAME_LEN in *. split.
  - apply (agree_slice img img' _ 4 _ ltac:(lia) H1). eapply agree_sub; [exact Hag|lia|lia].
  - apply (agree_slice img img' _ (Z.of_nat (length name) + 1) _ ltac:(lia) H2). eapply agree_sub; [exact Hag|lia|lia].
Qed.

Lemma inode_off_mono n m : n <= m -> inode_off n <= inode_off m.
Proof. unfold inode_off, sizeof_initrd_inode. lia. Qed.
Lemma inode_off_next n : inode_off n + sizeof_initrd_inode = inode_off (n + 1).
Proof. unfold inode_off. lia. Qed.
Lemma dot_ok : name_ok (chars ".").
Proof. split; [repeat constructor; vm_compute; discriminate|vm_compute; lia]. Qed.
Lemma dotdot_ok : name_ok (chars "..").
Proof. split; [repeat constructor; vm_compute; discriminate|vm_compute; lia]. Qed.

(** A tree is found in every image that agrees on its parts; so are the
    entries of a directory. *)
Lemma represents_all_frame img img' n off : forall l j m o,
  Forall (fun c => forall n parent off, tree_ok c.2 -> represents img n parent off c.2 ->
    agree_tree img img' n (nodes c.2) off (data_size c.2) -> represents img' n parent off c.2) l ->
  children_ok l -> represents_all img n off l j m o ->
  agree_tree img img' m (nodes_of l) o (data_of l) ->
  agree img img' (dentry_pos off j) (dentry_pos off (j + Z.of_nat (length l))) -> represents_all img' n off l j m o.
Proof.
  induction l as [|[name c] l IHl]; intros j m o Hall Hok Hr Hag Hent; [done|].
  apply Forall_cons in Hall as [Hc Hall]. destruct Hok as (Hname & Hcok & Hok). destruct Hr as (He & Hrc & Hr).
  cbn [fst snd nodes_of data_of foldr length] in *. fold (nodes_of l) in *. fold (data_of l) in *. destruct Hag as [Hi Hd].
  pose proof (nodes_pos c). pose proof (nodes_of_pos l). pose proof (data_size_pos c). pose proof (data_of_pos l).
  split; [|split].
  - apply (agree_entry img); [done|done|]. eapply agree_sub; [exact Hent|lia|unfold dentry_pos, sizeof_initrd_d_entry; lia].
  - apply Hc; [done|done|]. split; [eapply agree_sub; [exact Hi|lia|apply inode_off_mono; lia]|].
    eapply agree_sub; [exact Hd|lia|lia].
  - apply IHl; [done|done|exact Hr| |].
    + split; [eapply agree_sub; [exact Hi|apply inode_off_mono; lia|by rewrite <- Z.add_assoc]|].
      eapply agree_sub; [exact Hd|lia|lia].
    + eapply agree_sub; [exact Hent|unfold dentry_pos, sizeof_initrd_d_entry; lia|]. unfold dentry_pos, sizeof_initrd_d_entry. lia.
Qed.

Lemma represents_frame img img' t : forall n parent off, tree_ok t -> represents img n parent off t ->
  agree_tree img img' n (nodes t) off (data_size t) -> represents img' n parent off t.
Proof.
  induction t as [m g u d|m g u l IH] using tree_ind'; intros n parent off Hok Hr [Hi Hd].
  - destruct Hr as [H1 H2]. cbn [nodes data_size] in *. split.
    + apply (agree_inode img); [done|]. eapply agree_sub; [exact Hi|lia|by rewrite inode_off_next].
    + by apply (agree_slice img img' off (Z.of_nat (length d)) d ltac:(lia) H2).
  - apply represents_dir in Hr as (H1 & H2 & H3 & H4). apply represents_dir. destruct Hok as (_ & _ & _ & Hok).
    cbn [nodes data_size] in *. fold (nodes_of l) in *. fold (data_of l) in *.
    pose proof (nodes_of_pos l). pose proof (data_of_pos l).
    assert (Hent : forall j, 0 <= j -> j + 1 <= Z.of_nat (length l) + 2 ->
      agree img img' (dentry_pos off j) (dentry_pos off j + sizeof_initrd_d_entry)).
    { intros j Hj Hj'. eapply agree_sub; [exact Hd| |]; unfold dentry_pos, dir_size, sizeof_initrd_d_entry, HARDLINKS; lia. }
    split; [apply (agree_inode img); [done|]; eapply agree_sub; [exact Hi|lia|rewrite inode_off_next; apply inode_off_mono; lia]|].
    split; [apply (agree_entry img); [done|apply dot_ok|apply Hent; lia]|].
    split; [apply (agree_entry img); [done|apply dotdot_ok|apply Hent; lia]|].
    eapply represents_all_frame; [exact IH|exact Hok|exact H4| |].
    + split; [eapply agree_sub; [exact Hi|apply inode_off_mono; lia|apply inode_off_mono; lia]|].
      eapply agree_sub; [exact Hd|unfold dir_size, sizeof_initrd_d_entry, HARDLINKS; lia|lia].
    + eapply agree_sub; [exact Hd| |]; unfold dentry_pos, dir_size, sizeof_initrd_d_entry, HARDLINKS; lia.
Qed.


End image.

(** ** The builder's steps *)

Section steps.
Context (fresh : Z -> list Z) (fresh_length : forall n, length (fresh n) = Z.to_nat n).
Implicit Types (b : builder).

Lemma store_bytes_run off bs b : 0 <= off -> off + Z.of_nat (length bs) <= Z.of_nat (length (filebuf b)) ->
  exists buf, store off bs b = Ok (tt, Builder buf (tmp_inode b) (entries b)) /\ length buf = length (filebuf b) /\
    slice buf off (Z.of_nat (length bs)) = Some bs /\
    forall a c, c <= off \/ off + Z.of_nat (length bs) <= a -> agree (filebuf b) buf a c.
Proof.
  intros Ho Hl. destruct (poke_run (filebuf b) off bs Ho Hl) as (buf & E & H). exists buf. split; [|exact H].
  unfold store, upd_or_fault. by rewrite E.
Qed.

Lemma expand_run diff b : 0 <= diff -> Z.of_nat (length (filebuf b)) + diff < 4294967296 ->
  expand_initrd fresh diff b = Ok (Z.of_nat (length (filebuf b)), Builder (filebuf b ++ fresh diff) (tmp_inode b) (entries b)).
Proof. intros Hd Hl. unfold expand_initrd, UINT_MAX. by replace (_ <=? _) with true by lia. Qed.

Lemma fresh_app_length l n : 0 <= n -> Z.of_nat (length (l ++ fresh n)) = Z.of_nat (length l) + n.
Proof. intros Hn. rewrite length_app, fresh_length. lia. Qed.

Lemma padding_length : (3 <= length (fresh 3))%nat.
Proof. rewrite fresh_length. lia. Qed.

Lemma word_bytes_length x : length (word_bytes x) = 4%nat.
Proof. done. Qed.
Lemma name_bytes_length name : length ((u8 <$> name) ++ [0]) = (length name + 1)%nat.
Proof. by rewrite length_app, length_fmap. Qed.

(** An inode's record is stored where it is read. *)
Lemma save_inode_run i b : inode_range i -> 0 <= in_inode i -> inode_off (in_inode i + 1) <= Z.of_nat (length (filebuf b)) ->
  exists buf, save_inode fresh i b = Ok (tt, Builder buf (tmp_inode b) (entries b)) /\ length buf = length (filebuf b) /\
    read_initrd_inode buf (inode_off (in_inode i)) = Some i /\
    forall a c, c <= inode_off (in_inode i) \/ inode_off (in_inode i + 1) <= a -> agree (filebuf b) buf a c.
Proof.
  intros Hi Hn Hl. rewrite <- inode_off_next in Hl.
  pose proof (inode_bytes_length i (fresh 3) padding_length) as Hlen.
  assert (Hsz : Z.of_nat (length (inode_bytes i (fresh 3))) = sizeof_initrd_inode) by (rewrite Hlen; done).
  destruct (store_bytes_run (inode_off (in_inode i)) (inode_bytes i (fresh 3)) b) as (buf & E & Hb & Hs & Hk).
  { unfold inode_off, sizeof_initrd_header, sizeof_initrd_inode in *. lia. }
  { by rewrite Hsz. }
  rewrite Hsz in Hs, Hk. rewrite inode_off_next in Hk. exists buf. split_and!; [exact E|exact Hb| |exact Hk].
  by apply (read_inode_bytes _ _ _ (fresh 3) Hi padding_length).
Qed.

(** An entry's name and its number. *)
Lemma put_entry_run off j b (m : Z) name : name_ok name -> 0 <= off -> 0 <= j ->
  dentry_pos off (j + 1) <= Z.of_nat (length (filebuf b)) ->
  exists buf, (do! put_number off j m; put_name off j name) b = Ok (tt, Builder buf (tmp_inode b) (entries b)) /\
    length buf = length (filebuf b) /\ entry_at buf off j m name /\
    forall a c, c <= dentry_pos off j \/ dentry_pos off (j + 1) <= a -> agree (filebuf b) buf a c.
Proof.
  intros [_ Hn] Ho Hj Hl. unfold dentry_pos, sizeof_initrd_d_entry, INITRD_FILENAME_LEN in *.
  destruct (store_bytes_run (off + j * 68) (word_bytes m) b ltac:(lia) ltac:(rewrite word_bytes_length; lia)) as (b1 & E1 & Hl1 & Hs1 & Hk1).
  destruct (store_bytes_run (off + j * 68 + 4) ((u8 <$> name) ++ [0]) (Builder b1 (tmp_inode b) (entries b)) ltac:(lia)
    ltac:(rewrite name_bytes_length; cbn [filebuf]; lia)) as (b2 & E2 & Hl2 & Hs2 & Hk2).
  rewrite name_bytes_length in *. rewrite word_bytes_length in *. cbn [filebuf tmp_inode entries] in *. exists b2. split_and!.
  - unfold put_number, dentry_pos, sizeof_initrd_d_entry. rewrite (bind_step _ _ _ _ _ E1). exact E2.
  - lia.
  - unfold entry_at, dentry_pos, sizeof_initrd_d_entry. split.
    + apply (agree_slice b1 b2 _ 4 _ ltac:(lia) Hs1). apply Hk2. lia.
    + rewrite <- Hs2. f_equal. lia.
  - intros a c Hac. apply (agree_trans _ b1); [apply Hk1|apply Hk2]; lia.
Qed.

(** ** One entry, then the entries of a directory *)

Definition save_entry (n off off' : Z) (name : list Z) (c : tree) (j : Z) : BM unit :=
  do! store (dentry_pos off j + 4) (replicate (Z.to_nat INITRD_FILENAME_LEN) 0);
  do! put_name off j name;
  let! tmp := save fresh c n in
  put_number off' j tmp.
Definition save_entries (n off off' : Z) : list (list Z * tree) -> Z -> BM unit :=
  fix save_entries (l : list (list Z * tree)) (i : Z) : BM unit :=
    match l with
    | [] => ret tt
    | (name, c) :: l =>
        do! store (dentry_pos off i + 4) (replicate (Z.to_nat INITRD_FILENAME_LEN) 0);
        do! put_name off i name;
        let! tmp := save fresh c n in
        do! put_number off' i tmp;
        save_entries l (i + 1)
    end.

Lemma save_entries_cons n off off' name c l j b b1 : save_entry n off off' name c j b = Ok (tt, b1) ->
  save_entries n off off' ((name, c) :: l) j b = save_entries n off off' l (j + 1) b1.
Proof.
  unfold save_entry. intros E. cbn [save_entries]. unfold bind in *.
  destruct (store _ _ b) as [[[] b2]| |]; [|done..]. destruct (put_name _ _ _ b2) as [[[] b3]| |]; [|done..].
  destruct (save _ _ _ b3) as [[k b4]| |]; [|done..]. by rewrite E.
Qed.

(** What [save] does for a tree: the inodes from [tmp_inode] on, the data at
    the end, and nothing else. *)
Definition saved (t : tree) (parent : Z) b b' : Prop :=
  let n := tmp_inode b in
  let off := Z.of_nat (length (filebuf b)) in
  save fresh t parent b = Ok (n, b') /\ tmp_inode b' = n + nodes t /\
  Z.of_nat (length (filebuf b')) = off + data_size t /\
  represents (filebuf b') n (if parent =? UINT_MAX then n else parent) off t /\
  forall a c, c <= inode_off n \/ inode_off (n + nodes t) <= a -> agree (filebuf b) (filebuf b') a c.
Definition save_ok (t : tree) : Prop := forall parent b, tree_ok t -> 0 <= tmp_inode b ->
  inode_off (tmp_inode b + nodes t) <= Z.of_nat (length (filebuf b)) ->
  Z.of_nat (length (filebuf b)) + data_size t < 4294967296 -> exists b', saved t parent b b'.

Lemma save_entry_run n off name c j b : let m := tmp_inode b in let o := Z.of_nat (length (filebuf b)) in
  save_ok c -> name_ok name -> tree_ok c -> 0 <= n < UINT_MAX -> 0 <= m -> 0 <= j ->
  inode_off (m + nodes c) <= off -> dentry_pos off (j + 1) <= o -> o + data_size c < 4294967296 ->
  exists b', save_entry n off off name c j b = Ok (tt, b') /\ tmp_inode b' = m + nodes c /\
    Z.of_nat (length (filebuf b')) = o + data_size c /\ entry_at (filebuf b') off j m name /\ represents (filebuf b') m n o c /\
    forall x y, y <= inode_off m \/ inode_off (m + nodes c) <= x -> y <= dentry_pos off j \/ dentry_pos off (j + 1) <= x ->
      agree (filebuf b) (filebuf b') x y.
Proof.
  intros m o Hc Hname Hok Hn Hm Hj Hi Hent Hlen.
  assert (Hoff : 0 <= off) by (unfold inode_off, sizeof_initrd_header, sizeof_initrd_inode in Hi; pose proof (nodes_pos c); lia).
  assert (Hpos : dentry_pos off (j + 1) = dentry_pos off j + 68) by (unfold dentry_pos, sizeof_initrd_d_entry; lia).
  assert (Hpo : off <= dentry_pos off j) by (unfold dentry_pos, sizeof_initrd_d_entry; lia).
  destruct Hname as [Hch Hnl]. change (Z.to_nat INITRD_FILENAME_LEN) with 64%nat in *.
  destruct (store_bytes_run (dentry_pos off j + 4) (replicate 64 0) b ltac:(lia) ltac:(rewrite length_replicate; lia))
    as (b1 & E1 & Hl1 & _ & Hk1). rewrite length_replicate in Hk1.
  destruct (store_bytes_run (dentry_pos off j + 4) ((u8 <$> name) ++ [0]) (Builder b1 (tmp_inode b) (entries b)) ltac:(lia)
    ltac:(rewrite name_bytes_length; cbn [filebuf]; lia)) as (b2 & E2 & Hl2 & Hs2 & Hk2).
  rewrite name_bytes_length in Hs2, Hk2. cbn [filebuf tmp_inode entries] in *.
  destruct (Hc n (Builder b2 m (entries b))) as (b3 & E3 & Hm3 & Hl3 & Hr3 & Hk3); cbn [filebuf tmp_inode entries] in *; [done..|lia|lia|].
  replace (n =? UINT_MAX) with false in Hr3 by lia. replace (Z.of_nat (length b2)) with o in * by lia.
  destruct (store_bytes_run (dentry_pos off j) (word_bytes m) b3 ltac:(lia) ltac:(rewrite word_bytes_length; pose proof (data_size_pos c); lia))
    as (b4 & E4 & Hl4 & Hs4 & Hk4). rewrite word_bytes_length in *.
  exists (Builder b4 (tmp_inode b3) (entries b3)). cbn [filebuf tmp_inode entries]. split_and!.
  - unfold save_entry. rewrite (bind_step _ _ _ _ _ E1). unfold put_name. rewrite (bind_step _ _ _ _ _ E2), (bind_step _ _ _ _ _ E3). exact E4.
  - done.
  - lia.
  - split; [exact Hs4|]. replace (Z.of_nat (length name) + 1) with (Z.of_nat (length name + 1)) by lia.
    apply (agree_slice b2 b4 _ (Z.of_nat (length name + 1)) _ ltac:(lia) Hs2).
    apply (agree_trans _ (filebuf b3)); [apply Hk3|apply Hk4]; lia.
  - apply (represents_frame (filebuf b3)); [done|done|]. split; apply Hk4; lia.
  - intros x y H1 H2. apply (agree_trans _ b1); [apply Hk1; lia|]. apply (agree_trans _ b2); [apply Hk2; lia|].
    apply (agree_trans _ (filebuf b3)); [apply Hk3|apply Hk4]; lia.
Qed.

Lemma save_entries_run n off : forall l, Forall (fun c => save_ok c.2) l -> forall j b,
  let m := tmp_inode b in let o := Z.of_nat (length (filebuf b)) in let k := Z.of_nat (length l) in
  children_ok l -> 0 <= n < UINT_MAX -> 0 <= m -> 0 <= j ->
  inode_off (m + nodes_of l) <= off -> dentry_pos off (j + k) <= o -> o + data_of l < 4294967296 ->
  exists b', save_entries n off off l j b = Ok (tt, b') /\ tmp_inode b' = m + nodes_of l /\
    Z.of_nat (length (filebuf b')) = o + data_of l /\ represents_all (filebuf b') n off l j m o /\
    forall x y, y <= inode_off m \/ inode_off (m + nodes_of l) <= x -> y <= dentry_pos off j \/ dentry_pos off (j + k) <= x ->
      agree (filebuf b) (filebuf b') x y.
Proof.
  induction 1 as [|[name c] l Hc _ IH]; intros j b m o k Hok Hn Hm Hj Hi Hent Hlen.
  - exists b. cbn in *. split_and!; [done|lia|lia|done|done].
  - destruct Hok as (Hname & Hcok & Hok). cbn [fst snd nodes_of data_of foldr length] in *. fold (nodes_of l) (data_of l) in *.
    pose proof (nodes_pos c). pose proof (nodes_of_pos l). pose proof (data_size_pos c). pose proof (data_of_pos l).
    pose proof (inode_off_mono (m + nodes c) (m + (nodes c + nodes_of l)) ltac:(lia)).
    assert (Hpos : dentry_pos off (j + 1) = dentry_pos off j + 68 /\ dentry_pos off (j + 1) <= dentry_pos off (j + k) /\
      off <= dentry_pos off j /\ dentry_pos off (j + 1 + Z.of_nat (length l)) = dentry_pos off (j + k)).
    { unfold dentry_pos, sizeof_initrd_d_entry, k. split_and!; nia. }
    destruct (save_entry_run n off name c j b) as (b1 & E1 & Hm1 & Hl1 & He1 & Hr1 & Hk1); [done|done|done|done|lia|lia|fold m; lia|fold o; lia|fold o; lia|].
    fold m o in Hm1, Hl1, He1, Hr1, Hk1.
    destruct (IH (j + 1) b1) as (b2 & E2 & Hm2 & Hl2 & Hr2 & Hk2); [done|done|lia|lia|rewrite Hm1, <- Z.add_assoc; lia|lia|lia|].
    rewrite Hm1, Hl1 in *. rewrite <- !Z.add_assoc in *. exists b2. split_and!.
    + by rewrite (save_entries_cons _ _ _ _ _ _ _ _ _ E1).
    + done.
    + done.
    + split; [|split].
      * apply (agree_entry (filebuf b1)); [done|done|]. apply Hk2; unfold sizeof_initrd_d_entry; lia.
      * apply (represents_frame (filebuf b1)); [done|done|]. split; apply Hk2; unfold inode_off, sizeof_initrd_inode in *; lia.
      * exact Hr2.
    + pose proof (inode_off_mono m (m + nodes c) ltac:(lia)).
      intros x y Hx Hy. apply (agree_trans _ (filebuf b1)); [apply Hk1|apply Hk2]; lia.
Qed.

(** ** Counting *)

Definition count (recursive : bool) : list (list Z * tree) -> Z -> Z :=
  fix count (l : list (list Z * tree)) (res : Z) : Z :=
    match l with
    | [] => res
    | (_, c) :: l =>
        if is_directory c && recursive then
          let tmp := count_of_inodes c true in
          if tmp =? UINT_MAX then UINT_MAX else count l (u32 (u32 (res + tmp) + 1))
        else count l (u32 (res + 1))
    end.

Lemma count_entries l : forall res, 0 <= res -> res + Z.of_nat (length l) < 4294967296 ->
  count false l res = res + Z.of_nat (length l).
Proof.
  induction l as [|[name c] l IH]; intros res Hr Hl; cbn [count length] in *; [lia|].
  rewrite andb_false_r, IH; unfold u32 in *; lia.
Qed.

Lemma count_all l : Forall (fun c => is_directory c.2 = true -> nodes c.2 < 4294967296 -> count_of_inodes c.2 true = nodes c.2 - 1) l ->
  forall res, 0 <= res -> res + nodes_of l < 4294967296 -> count true l res = res + nodes_of l.
Proof.
  induction 1 as [|[name c] l Hc _ IH]; intros res Hr Hl; cbn [count nodes_of foldr snd] in *; [lia|].
  fold (nodes_of l) in *. pose proof (nodes_of_pos l). pose proof (nodes_pos c). destruct c as [m g u d|m g u l']; cbn [is_directory andb].
  - cbn [nodes] in *. rewrite IH; unfold u32; lia.
  - rewrite (Hc eq_refl) by lia. cbv zeta. replace (_ =? UINT_MAX) with false by (unfold UINT_MAX; lia).
    rewrite IH; unfold u32; lia.
Qed.

Lemma count_of_inodes_all t : is_directory t = true -> nodes t < 4294967296 -> count_of_inodes t true = nodes t - 1.
Proof.
  induction t as [m g u d|m g u l IH] using tree_ind'; intros Hd Hn; [done|]. cbn [nodes] in *. fold (nodes_of l) in *.
  change (count true l 0 = 1 + nodes_of l - 1). rewrite (count_all l IH); lia.
Qed.

(** ** Saving a tree *)

Lemma save_dir m g u l parent b : let n := tmp_inode b in let o := Z.of_nat (length (filebuf b)) in
  let size := u32 (sizeof_initrd_d_entry * (count false l 0 + HARDLINKS)) in
  save fresh (Dir m g u l) parent b =
  (let! off := expand_initrd fresh size in
   do! put_number off 0 n; do! put_name off 0 (chars "."); do! count_entry;
   do! put_number off 1 (if parent =? UINT_MAX then n else parent); do! put_name off 1 (chars ".."); do! count_entry;
   do! save_entries n off o l HARDLINKS;
   do! save_inode fresh (InitrdInode n o m g u FS_DIRECTORY size);
   ret n) (Builder (filebuf b) (u32 (n + 1)) (u32 (entries b + 1))).
Proof. reflexivity. Qed.

Lemma save_file_ok m g u d : save_ok (File_ m g u d).
Proof.
  intros parent b (Hm & Hg & Hu & _) Hn Hi Hl. cbn [nodes data_size] in *. unfold word_ok in *.
  set (n := tmp_inode b) in *. set (o := Z.of_nat (length (filebuf b))) in *.
  assert (Hno : 0 <= n < UINT_MAX) by (unfold inode_off, sizeof_initrd_header, sizeof_initrd_inode, UINT_MAX in *; lia).
  unfold saved. fold n o. cbn [save].
  set (b1 := Builder (filebuf b) (n + 1) (u32 (entries b + 1))).
  destruct (store_bytes_run o d (Builder (filebuf b1 ++ fresh (Z.of_nat (length d))) (tmp_inode b1) (entries b1)) ltac:(lia)) as (b2 & E2 & Hl2 & Hs2 & Hk2).
  { cbn [filebuf b1]. rewrite fresh_app_length by lia. fold o. lia. }
  cbn [filebuf tmp_inode entries b1] in E2, Hl2, Hk2.
  destruct (save_inode_run (InitrdInode n o m g u FS_FILE (Z.of_nat (length d))) (Builder b2 (n + 1) (u32 (entries b + 1))))
    as (b3 & E3 & Hl3 & Hr3 & Hk3).
  { unfold inode_range, is_byte, FS_FILE. cbn. unfold UINT_MAX in *. lia. }
  { cbn. lia. }
  { cbn [filebuf in_inode]. rewrite Hl2, fresh_app_length by lia. fold o. lia. }
  cbn [filebuf tmp_inode entries in_inode] in *.
  exists (Builder b3 (n + 1) (u32 (entries b + 1))). cbn [filebuf tmp_inode entries].
  assert (Hinode : inode_off (n + 1) <= o) by done. split_and!.
  - unfold bind at 1, createinode. fold n o. replace (u32 (n + 1)) with (n + 1) by (unfold u32, UINT_MAX in *; lia).
    unfold bind at 1, count_entry, modify. cbn [filebuf tmp_inode entries in_size in_inode].
    rewrite (bind_step _ _ _ _ _ (expand_run (Z.of_nat (length d)) b1 ltac:(lia) Hl)).
    cbn [filebuf tmp_inode entries b1]. fold o. rewrite (bind_step _ _ _ _ _ E2), (bind_step _ _ _ _ _ E3). done.
  - done.
  - rewrite Hl3, Hl2, fresh_app_length by lia. done.
  - split; [exact Hr3|]. apply (agree_slice b2 b3 o (Z.of_nat (length d)) d ltac:(lia) Hs2). apply Hk3. lia.
  - cbn [nodes]. intros a c Hac. apply agree_end. apply (agree_trans _ (filebuf b ++ fresh (Z.of_nat (length d)))); [apply agree_app|].
    fold o. apply (agree_trans _ b2); [apply Hk2|apply Hk3]; lia.
Qed.

Lemma bind_assoc_step {A B C} (x : BM A) (f : A -> BM B) (k : B -> BM C) b r b' : bind x f b = Ok (r, b') ->
  bind x (fun a => bind (f a) k) b = k r b'.
Proof. unfold bind. destruct (x b) as [[a b1]| |]; [|done..]. intros E. by rewrite E. Qed.

(** The two entries every directory begins with. *)
Lemma save_head_run n off p b : 0 <= off -> dentry_pos off HARDLINKS <= Z.of_nat (length (filebuf b)) ->
  exists buf, (forall A (k : BM A), (do! put_number off 0 n; do! put_name off 0 (chars "."); do! count_entry;
     do! put_number off 1 p; do! put_name off 1 (chars ".."); do! count_entry; k) b =
     k (Builder buf (tmp_inode b) (u32 (u32 (entries b + 1) + 1)))) /\
   length buf = length (filebuf b) /\ entry_at buf off 0 n (chars ".") /\ entry_at buf off 1 p (chars "..") /\
   forall a c, c <= off \/ dentry_pos off HARDLINKS <= a -> agree (filebuf b) buf a c.
Proof.
  intros Ho Hl. unfold dentry_pos, sizeof_initrd_d_entry, HARDLINKS in Hl.
  destruct (put_entry_run off 0 b n (chars ".") dot_ok Ho ltac:(lia) ltac:(unfold dentry_pos, sizeof_initrd_d_entry; lia))
    as (b1 & E1 & Hl1 & He1 & Hk1).
  destruct (put_entry_run off 1 (Builder b1 (tmp_inode b) (u32 (entries b + 1))) p (chars "..") dotdot_ok Ho ltac:(lia)
    ltac:(unfold dentry_pos, sizeof_initrd_d_entry; cbn [filebuf]; lia)) as (b2 & E2 & Hl2 & He2 & Hk2).
  cbn [filebuf tmp_inode entries] in *. exists b2. split_and!; [|lia| |exact He2|].
  - intros A k. rewrite (bind_assoc_step _ _ _ _ _ _ E1). unfold bind at 1, count_entry at 1, modify. cbn [filebuf tmp_inode entries].
    rewrite (bind_assoc_step _ _ _ _ _ _ E2). done.
  - apply (agree_entry b1); [done|apply dot_ok|]. apply Hk2. unfold dentry_pos, sizeof_initrd_d_entry. lia.
  - unfold dentry_pos, sizeof_initrd_d_entry, HARDLINKS in *.
    intros a c Hac. apply (agree_trans _ b1); [apply Hk1|apply Hk2]; lia.
Qed.

(** The images of the four stages of a directory: grown, with the first two
    entries, with the others, with its inode. *)
Lemma save_dir_frame img0 img1 img2 img3 ext n o p m g u l :
  tree_ok (Dir m g u l) -> o = Z.of_nat (length img0) -> 0 <= n -> inode_off (n + (1 + nodes_of l)) <= o ->
  length img1 = length (img0 ++ ext) ->
  entry_at img1 o 0 n (chars ".") -> entry_at img1 o 1 p (chars "..") ->
  (forall a c, c <= o \/ dentry_pos o HARDLINKS <= a -> agree (img0 ++ ext) img1 a c) ->
  represents_all img2 n o l HARDLINKS (n + 1) (o + dir_size l) ->
  (forall x y, y <= inode_off (n + 1) \/ inode_off (n + 1 + nodes_of l) <= x ->
    y <= dentry_pos o HARDLINKS \/ o + dir_size l <= x -> agree img1 img2 x y) ->
  read_initrd_inode img3 (inode_off n) = Some (InitrdInode n o m g u FS_DIRECTORY (dir_size l)) ->
  (forall a c, c <= inode_off n \/ inode_off (n + 1) <= a -> agree img2 img3 a c) ->
  represents img3 n p o (Dir m g u l) /\
  forall a c, c <= inode_off n \/ inode_off (n + nodes (Dir m g u l)) <= a -> agree img0 img3 a c.
Proof.
  intros (_ & _ & _ & Hok) Ho Hn Hi Hl1 He0 He1 Hk1 Hr2 Hk2 Hr3 Hk3.
  pose proof (nodes_of_pos l) as Hnl. pose proof (data_of_pos l) as Hdl. rewrite Z.add_assoc in Hi.
  pose proof (inode_off_mono n (n + 1) ltac:(lia)). pose proof (inode_off_mono (n + 1) (n + 1 + nodes_of l) ltac:(lia)).
  assert (Hp2 : dentry_pos o HARDLINKS = o + 136) by (unfold dentry_pos, sizeof_initrd_d_entry, HARDLINKS; lia).
  assert (Hpl : dentry_pos o (HARDLINKS + Z.of_nat (length l)) = o + dir_size l) by (unfold dentry_pos, dir_size; lia).
  assert (Hds : 136 <= dir_size l) by (unfold dir_size, sizeof_initrd_d_entry, HARDLINKS; lia).
  assert (H13 : forall a c, inode_off (n + 1 + nodes_of l) <= a -> c <= o + 136 -> agree img1 img3 a c).
  { intros a c Ha Hc. apply (agree_trans _ img2); [apply Hk2|apply Hk3]; lia. }
  split.
  - apply represents_dir. split; [exact Hr3|]. split; [|split].
    + apply (agree_entry img1); [done|apply dot_ok|]. apply H13; unfold dentry_pos, sizeof_initrd_d_entry; lia.
    + apply (agree_entry img1); [done|apply dotdot_ok|]. apply H13; unfold dentry_pos, sizeof_initrd_d_entry; lia.
    + apply (represents_all_frame img2); [|done|done|split; apply Hk3; lia|apply Hk3; lia].
      apply Forall_true. intros [name c] k q off Hc Hr Hag. by apply (represents_frame img2).
  - cbn [nodes]. fold (nodes_of l). rewrite Z.add_assoc. intros a c Hac. apply agree_end. rewrite <- Ho.
    apply (agree_trans _ (img0 ++ ext)); [apply agree_app|]. apply (agree_trans _ img1); [apply Hk1; lia|].
    apply (agree_trans _ img2); [apply Hk2|apply Hk3]; lia.
Qed.

Lemma save_dir_ok m g u l : Forall (fun c => save_ok c.2) l -> save_ok (Dir m g u l).
Proof.
  intros IH parent b (Hm & Hg & Hu & Hok) Hn Hi Hl. cbn [nodes data_size] in Hi, Hl. fold (nodes_of l) (data_of l) in Hi, Hl.
  unfold word_ok in *. set (n := tmp_inode b) in *. set (o := Z.of_nat (length (filebuf b))) in *.
  pose proof (nodes_of_pos l) as Hnl. pose proof (data_of_pos l) as Hdl.
  assert (Hds : dir_size l = 68 * (Z.of_nat (length l) + 2)) by done.
  assert (Hno : 0 <= n < UINT_MAX /\ 0 <= o /\ inode_off (n + 1) <= o).
  { unfold inode_off, sizeof_initrd_header, sizeof_initrd_inode, UINT_MAX in *. lia. }
  unfold saved. rewrite save_dir. fold n o.
  rewrite (count_entries l 0) by lia. rewrite Z.add_0_l. fold (dir_size l).
  replace (u32 (dir_size l)) with (dir_size l) by (unfold u32; lia).
  replace (u32 (n + 1)) with (n + 1) by (unfold u32, UINT_MAX in *; lia).
  set (p := if parent =? UINT_MAX then n else parent).
  rewrite (bind_step _ _ _ _ _ (expand_run (dir_size l) (Builder (filebuf b) (n + 1) (u32 (entries b + 1))) ltac:(lia)
    ltac:(cbn [filebuf]; fold o; lia))).
  cbn [filebuf tmp_inode entries]. fold o.
  set (base := filebuf b ++ fresh (dir_size l)) in *.
  assert (Hbase : Z.of_nat (length base) = o + dir_size l) by (apply fresh_app_length; lia).
  assert (Hp2 : dentry_pos o HARDLINKS = o + 136) by (unfold dentry_pos, sizeof_initrd_d_entry, HARDLINKS; lia).
  assert (Hpl : dentry_pos o (HARDLINKS + Z.of_nat (length l)) = o + dir_size l) by (unfold dentry_pos, dir_size; lia).
  destruct (save_head_run n o p (Builder base (n + 1) (u32 (entries b + 1)))) as (b1 & E1 & Hl1 & He0 & He1 & Hk1);
    [lia|cbn [filebuf]; lia|].
  rewrite E1. cbn [filebuf tmp_inode entries] in *.
  destruct (save_entries_run n o l IH HARDLINKS (Builder b1 (n + 1) (u32 (u32 (u32 (entries b + 1) + 1) + 1))))
    as (b2 & E2 & Hm2 & Hl2 & Hr2 & Hk2); cbn [filebuf tmp_inode]; rewrite ?Hl1, ?Hbase; [done|lia|lia|done|rewrite <- Z.add_assoc; lia|lia|lia|].
  rewrite (bind_step _ _ _ _ _ E2). cbn [filebuf tmp_inode entries] in *. rewrite Hl1, Hbase in *. clear E1 E2.
  destruct (save_inode_run (InitrdInode n o m g u FS_DIRECTORY (dir_size l)) b2) as (b3 & E3 & Hl3 & Hr3 & Hk3).
  { unfold inode_range, is_byte, FS_DIRECTORY, UINT_MAX in *. cbn [in_inode in_offset in_mode in_gid in_uid in_flags in_size]. lia. }
  { cbn. lia. }
  { cbn [in_inode]. lia. }
  rewrite (bind_step _ _ _ _ _ E3). cbn [in_inode] in *. eexists. split; [done|]. cbn [filebuf tmp_inode nodes data_size].
  fold (nodes_of l) (data_of l). split; [lia|]. split; [lia|].
  rewrite Hpl in Hk2. by apply (save_dir_frame _ b1 (filebuf b2) b3 (fresh (dir_size l))).
Qed.

Lemma save_tree_ok t : save_ok t.
Proof. induction t as [m g u d|m g u l IH] using tree_ind'; [apply save_file_ok|by apply save_dir_ok]. Qed.

End steps.

(** ** Reading it back *)

Definition read_children (fuel : nat) (img : list Z) (i : initrd_inode) : nat -> Z -> option (list (list Z * tree)) :=
  fix children (k : nat) (j : Z) : option (list (list Z * tree)) :=
    match k with
    | O => Some []
    | S k =>
        name ← chars_at img (entry_off i j + 4) ≫= cstr;
        m ← le32 img (entry_off i j);
        c ← read_tree fuel img m;
        l ← children k (j + 1);
        Some ((name, c) :: l)
    end.

(** The directories on the longest path. *)
Fixpoint depth (t : tree) : nat :=
  match t with File_ _ _ _ _ => 1%nat | Dir _ _ _ l => S (foldr (fun c a => Nat.max (depth c.2) a) 0%nat l) end.

Definition read_back (t : tree) : Prop := forall img n p off fuel, tree_ok t -> represents img n p off t ->
  0 <= n -> n + nodes t < 4294967296 -> (depth t <= fuel)%nat -> read_tree fuel img n = Some t.

Lemma read_children_ok img i n off fuel : in_offset i = off -> forall l, Forall (fun c => read_back c.2) l ->
  forall j m o, children_ok l -> represents_all img n off l j m o -> 0 <= m -> m + nodes_of l < 4294967296 ->
  (foldr (fun c a => Nat.max (depth c.2) a) 0%nat l <= fuel)%nat -> read_children fuel img i (length l) j = Some l.
Proof.
  intros Hoff. induction 1 as [|[name c] l Hc _ IH]; intros j m o Hok Hr Hm Hl Hf; [done|].
  destruct Hok as (Hname & Hcok & Hok). destruct Hr as ((Hnum & Hnm) & Hrc & Hr).
  cbn [fst snd nodes_of foldr length read_children] in *. fold (nodes_of l) in *. pose proof (nodes_pos c). pose proof (nodes_of_pos l).
  change (dentry_pos off j) with (off + j * sizeof_initrd_d_entry) in Hnum, Hnm. unfold entry_off. rewrite Hoff.
  rewrite (name_read _ _ _ Hname Hnm). cbn. rewrite (le32_word _ _ m ltac:(lia) Hnum). cbn.
  rewrite (Hc img m n o fuel) by (done || lia). cbn.
  by rewrite (IH _ _ _ Hok Hr) by lia.
Qed.

Lemma read_tree_ok t : read_back t.
Proof.
  induction t as [m g u d|m g u l IH] using tree_ind'; intros img n p off fuel Hok Hr Hn Hl Hf;
    cbn [depth nodes] in *; destruct fuel as [|fuel]; [lia| |lia|].
  - destruct Hr as [H1 H2]. cbn [read_tree]. rewrite H1. cbn. by rewrite H2.
  - apply represents_dir in Hr as (H1 & _ & _ & H4). destruct Hok as (_ & _ & _ & Hok). fold (nodes_of l) in *. cbn [read_tree].
    rewrite H1. cbn [mbind option_bind in_flags in_size in_mode in_gid in_uid]. change (FS_DIRECTORY =? FS_FILE) with false.
    set (i := InitrdInode n off m g u FS_DIRECTORY (dir_size l)).
    replace (Z.to_nat (dir_size l / sizeof_initrd_d_entry - HARDLINKS)) with (length l)
      by (unfold dir_size, sizeof_initrd_d_entry, HARDLINKS; lia).
    fold (read_children fuel img i). by rewrite (read_children_ok img i n off fuel eq_refl l IH _ _ _ Hok H4) by lia.
Qed.

(** ** The image of a directory *)

Definition image_size (t : tree) : Z := sizeof_initrd_header + sizeof_initrd_inode * nodes t + data_size t.

(** C31: [mkinitrd] builds an image of every directory whose image has less
    than 2^32 bytes, whatever new memory holds; the image has the size the
    tree asks for, its header the number of inodes, and reading it with the
    functions of the kernel gives back the whole tree, with names, modes,
    owners and contents. *)
Theorem mkinitrd_roundtrip (fresh : Z -> list Z) (fresh_length : forall n, length (fresh n) = Z.to_nat n) t :
  is_directory t = true -> tree_ok t -> image_size t < 4294967296 ->
  exists img, mkinitrd fresh t = Some img /\ Z.of_nat (length img) = image_size t /\
    le32 img 0 = Some INITRD_MAGIC /\ le32 img 4 = Some (nodes t) /\ read_tree (depth t) img 0 = Some t.
Proof.
  intros Hd Hok Hsz. unfold image_size, sizeof_initrd_header, sizeof_initrd_inode in Hsz.
  pose proof (nodes_pos t) as Hn. pose proof (data_size_pos t) as Hds. unfold mkinitrd.
  rewrite (count_of_inodes_all t Hd) by lia. rewrite Z.sub_add. replace (u32 (nodes t)) with (nodes t) by (unfold u32; lia).
  replace (nodes t =? 0) with false by lia. unfold sizeof_initrd_header, sizeof_initrd_inode.
  set (size := 12 + nodes t * 28) in *. replace (u32 size) with size by (unfold u32, size; lia).
  rewrite (bind_step _ _ _ _ _ (expand_run fresh size (Builder [] 0 0) ltac:(lia) ltac:(cbn; lia))). cbn [filebuf tmp_inode entries app].
  destruct (store_bytes_run 12 (replicate (Z.to_nat (nodes t * 28)) 0) (Builder (fresh size) 0 0) ltac:(lia)
    ltac:(cbn [filebuf]; rewrite length_replicate, fresh_length; lia)) as (b1 & E1 & Hl1 & _ & _).
  cbn [filebuf tmp_inode entries] in *. rewrite fresh_length in Hl1. rewrite (bind_step _ _ _ _ _ E1).
  destruct (save_tree_ok fresh fresh_length t UINT_MAX (Builder b1 0 0) Hok) as (b2 & E2 & _ & Hl2 & Hr2 & _);
    cbn [filebuf tmp_inode entries] in *; [lia|unfold inode_off, sizeof_initrd_header, sizeof_initrd_inode; lia|lia|].
  rewrite (bind_step _ _ _ _ _ E2). unfold bind at 1, gets. rewrite Z.eqb_refl in Hr2.
  set (h := word_bytes INITRD_MAGIC ++ word_bytes (nodes t) ++ word_bytes (entries b2)).
  destruct (store_bytes_run 0 h b2 ltac:(lia) ltac:(change (length h) with 12%nat; lia)) as (b3 & E3 & Hl3 & Hs3 & Hk3).
  change (Z.of_nat (length h)) with 12 in *. rewrite E3. cbn [filebuf]. exists b3. split; [done|].
  split; [unfold image_size, sizeof_initrd_header, sizeof_initrd_inode; lia|]. split; [|split].
  - by apply le32_word, (slice_slice b3 0 12 h 0 4 _ ltac:(lia) Hs3).
  - apply le32_word; [lia|]. by apply (slice_slice b3 0 12 h 4 4 _ ltac:(lia) Hs3).
  - apply (read_tree_ok t b3 0 0 (Z.of_nat (length b1)) (depth t)); [done| |lia|lia|lia].
    apply (represents_frame (filebuf b2)); [done|done|]. split; apply Hk3; unfold inode_off, sizeof_initrd_header, sizeof_initrd_inode; lia.
Qed.

Definition sample_tree : tree :=
  Dir 16877 0 0 [(chars "bin", Dir 16877 0 0 [(chars "sh", File_ 33261 0 0 [127; 69; 76; 70])]); (chars "empty", File_ 33188 7 9 [])].

Lemma mkinitrd_roundtrip_witness : (forall n, length (replicate (Z.to_nat n) 170) = Z.to_nat n) /\
  exists img, mkinitrd (fun n => replicate (Z.to_nat n) 170) sample_tree = Some img /\
    Z.of_nat (length img) = image_size sample_tree /\ le32 img 0 = Some INITRD_MAGIC /\
    le32 img 4 = Some (nodes sample_tree) /\ read_tree (depth sample_tree) img 0 = Some sample_tree.
Proof.
  assert (Hf : forall n, length (replicate (Z.to_nat n) 170) = Z.to_nat n) by (intros n; apply length_replicate).
  split; [exact Hf|]. apply (mkinitrd_roundtrip (fun n => replicate (Z.to_nat n) 170) Hf); [reflexivity| |reflexivity].
  unfold sample_tree, word_ok, name_ok, is_byte. cbn [tree_ok foldr fst snd].
  repeat split; repeat constructor; vm_compute; done.
Defined.
