(* ===== verification/Devfs.v ===== *)
(** * The device file system: [src/src/fs/devfs/]

    One tree of directories in memory whose entries name device handles.  A
    handle is an object at a kernel address; the array a directory's [pdata]
    points to is part of its handle ([h_entries]), any other [pdata] is the
    driver's own address.  The chain [cache_next] is a list of addresses in
    chain order; every handle is in it from its registration until it is freed,
    so the unlinking of one that is not in it does not arise.  A vnode of this file system gets a private copy of
    [devfs_i_ops] whose [f_op] is the handle's: [IOPS f_op] is the address of
    a table with those contents. *)
From S2P Require Import Prelude CString Abi Vfs Namei Initrdfs.
Open Scope nup_scope.

Definition DEVFS_FILENAME_LEN : Z := 16.

Record devfs_d_entry := DevfsDEntry { de_inode : Z; de_filename : list Z }.
(** Four bytes of number, seventeen of name, three of padding. *)
Definition sizeof_devfs_d_entry : Z := 24.

Record devfs_handle := DevfsHandle {
  h_ino : Z; h_nlinks : Z; h_uid : Z; h_gid : Z; h_mode : Z; h_flags : Z; h_size : Z;
  h_pdata : Z; h_entries : list devfs_d_entry; h_queue : list Z; h_bsize : Z; h_bcount : Z;
  h_f_op : Z; h_parent : Z; h_node : Z }.

Record devfs_state := DevfsState {
  handles : gmap Z devfs_handle;
  dcache : list Z;
  next_inode : Z;
  devfs_sb : Z;
  devfs_root : Z }.

(** The static variables before the first mount. *)
Definition devfs_init : devfs_state := DevfsState ∅ [] 1 0 0.

Definition set_size (n : Z) (h : devfs_handle) : devfs_handle :=
  DevfsHandle (h_ino h) (h_nlinks h) (h_uid h) (h_gid h) (h_mode h) (h_flags h) n (h_pdata h) (h_entries h)
    (h_queue h) (h_bsize h) (h_bcount h) (h_f_op h) (h_parent h) (h_node h).
Definition set_entries (l : list devfs_d_entry) (h : devfs_handle) : devfs_handle :=
  DevfsHandle (h_ino h) (h_nlinks h) (h_uid h) (h_gid h) (h_mode h) (h_flags h) (h_size h) (h_pdata h) l
    (h_queue h) (h_bsize h) (h_bcount h) (h_f_op h) (h_parent h) (h_node h).
Definition set_node (v : Z) (h : devfs_handle) : devfs_handle :=
  DevfsHandle (h_ino h) (h_nlinks h) (h_uid h) (h_gid h) (h_mode h) (h_flags h) (h_size h) (h_pdata h)
    (h_entries h) (h_queue h) (h_bsize h) (h_bcount h) (h_f_op h) (h_parent h) v.

Section devfs.
Context {F : Type} `{FsOps F} `{Sub devfs_state F}.
Local Abbreviation VM := (M (vstate F)).
Context (DEVFS_DIR_FOP : Z) (IOPS : Z -> Z) (free_pdata : Z -> option (Z -> VM unit)).

Definition dstate (s : vstate F) : devfs_state := proj (fsd s).
Definition upd_dev (f : devfs_state -> devfs_state) : VM unit :=
  modify (fun s => set_fsd (inj (f (dstate s)) (fsd s)) s).

Definition get_handle (p : Z) : VM devfs_handle := get_or_fault (fun s => handles (dstate s) !! p).
Definition put_handle (p : Z) (h : devfs_handle) : VM unit :=
  upd_dev (fun d => DevfsState (<[p := h]> (handles d)) (dcache d) (next_inode d) (devfs_sb d) (devfs_root d)).
Definition free_handle (p : Z) : VM unit :=
  upd_dev (fun d => DevfsState (delete p (handles d)) (dcache d) (next_inode d) (devfs_sb d) (devfs_root d)).
Definition set_dcache (l : list Z) : VM unit :=
  upd_dev (fun d => DevfsState (handles d) l (next_inode d) (devfs_sb d) (devfs_root d)).
Definition set_next_inode (n : Z) : VM unit :=
  upd_dev (fun d => DevfsState (handles d) (dcache d) n (devfs_sb d) (devfs_root d)).
Definition set_devfs_sb (p : Z) : VM unit :=
  upd_dev (fun d => DevfsState (handles d) (dcache d) (next_inode d) p (devfs_root d)).
Definition set_devfs_root (p : Z) : VM unit :=
  upd_dev (fun d => DevfsState (handles d) (dcache d) (next_inode d) (devfs_sb d) p).

(** ** The handle cache: cache.c *)

Definition devfs_create_cache : VM unit := set_dcache [].

Definition devfs_add_to_cache (handle : Z) : VM unit :=
  let! l := gets (fun s => dcache (dstate s)) in set_dcache (handle :: l).

(** [handle->f_op && handle->f_op->free_pdata] *)
Definition call_free_pdata (h : devfs_handle) : VM unit :=
  if h_f_op h =? 0 then ret tt
  else match free_pdata (h_f_op h) with Some f => f (h_pdata h) | None => ret tt end.

Definition devfs_del_from_cache (handle : Z) : VM unit :=
  if handle =? 0 then ret tt
  else
    let! l := gets (fun s => dcache (dstate s)) in
    let! h := get_handle handle in
    do! set_dcache (unlink handle l);
    do! call_free_pdata h;
    free_handle handle.

(** The walk over the cache for an inode number. *)
Fixpoint find_handle (l : list Z) (ino_ : Z) : VM Z :=
  match l with
  | [] => ret 0
  | p :: l => let! h := get_handle p in if h_ino h =? ino_ then ret p else find_handle l ino_
  end.
Definition devfs_iget (ino_ : Z) : VM Z :=
  let! l := gets (fun s => dcache (dstate s)) in find_handle l ino_.

Fixpoint free_handles (l : list Z) : VM unit :=
  match l with
  | [] => ret tt
  | p :: l =>
      let! h := get_handle p in
      do! call_free_pdata h;
      do! free_handle p;
      do! set_dcache l;
      free_handles l
  end.
Definition devfs_free_cache : VM unit :=
  let! l := gets (fun s => dcache (dstate s)) in free_handles l.

(** ** Handles and vnodes: super.c *)

Definition vnode_of_handle (v : vnode) (h : devfs_handle) (handle : Z) : vnode :=
  Vnode (ino v) (count v) (h_nlinks h) (h_uid h) (h_gid h) (h_mode h) (h_flags h) (h_size h)
    0 0 0 (dev v) (sb v) (IOPS (h_f_op h)) handle (mount v) (cover v).

Definition devfs_handle2vnode (node handle : Z) : VM unit :=
  if (node =? 0) || (handle =? 0) then ret tt
  else
    let! h := get_handle handle in
    let! v := get_vnode node in
    do! put_vnode node (vnode_of_handle v h handle);
    put_handle handle (set_node node h).

(** The mode is the decimal number 755. *)
Definition devfs_empty_dir (ino_ parent : Z) : VM Z :=
  let! h := new_ptr in
  let! p := devfs_iget parent in
  do! put_handle h (DevfsHandle ino_ 1 0 0 755 FS_DIRECTORY (sizeof_devfs_d_entry * 2) 0
        [DevfsDEntry ino_ (lit "." ++ replicate 15 0); DevfsDEntry parent (lit ".." ++ replicate 14 0)]
        [] 0 0 DEVFS_DIR_FOP p 0);
  do! devfs_add_to_cache h;
  ret h.

Definition devfs_read_inode (node : Z) : VM unit :=
  let! v := get_vnode node in
  let! handle := devfs_iget (ino v) in
  devfs_handle2vnode node handle.

Definition devfs_put_inode (node : Z) : VM unit :=
  let! v := get_vnode node in
  if count v =? 1 then
    let! h := get_handle (u v) in
    put_handle (u v) (set_node 0 h)
  else ret tt.

Definition devfs_put_super (b : Z) : VM unit :=
  do! devfs_free_cache;
  do! set_devfs_root 0;
  do! set_next_inode 0;
  set_devfs_sb 0.

Definition devfs_s_ops : super_operations F :=
  SuperOperations (Some devfs_read_inode) (Some devfs_put_inode) (Some devfs_put_super).

Definition read_devfs_sb (DEVFS_S_OPS b data : Z) : VM Z :=
  let! cur := gets (fun s => devfs_sb (dstate s)) in
  if negb (cur =? 0) then ret 0
  else
    do! set_devfs_sb b;
    let! sblk := get_sb b in
    do! put_sb b (SuperBlock (sb_dev sblk) (sb_flags sblk) (sb_type sblk) DEVFS_S_OPS 1 0 (skip_bytes sblk)
          (sb_root sblk) (sb_u sblk) (sb_mi sblk) (cache sblk));
    do! devfs_create_cache;
    let! root := devfs_empty_dir 0 0 in
    do! set_devfs_root root;
    let! rnode := iget b 0 in
    let! sblk := get_sb b in
    do! put_sb b (SuperBlock (sb_dev sblk) (sb_flags sblk) (sb_type sblk) (s_op sblk) (blocksize sblk)
          (blocksize_bits sblk) (skip_bytes sblk) rnode (sb_u sblk) (sb_mi sblk) (cache sblk));
    ret b.

(** ** Directories: dir.c, inode.c *)

(** [realloc] keeps the entries that fit and leaves new ones unset; the code
    sets the new one at once.  [filename0] is what the new entry held. *)
Definition new_filename (filename0 name : list Z) : option (list Z) :=
  f ← strncpy filename0 name DEVFS_FILENAME_LEN; aset f DEVFS_FILENAME_LEN 0.

Definition sync_node (dir : Z) : VM unit :=
  let! d := get_handle dir in
  if negb (h_node d =? 0) then devfs_handle2vnode (h_node d) dir else ret tt.

Definition devfs_add_d_entry (filename0 : list Z) (dir : Z) (name : list Z) (inode : Z) : VM unit :=
  let! d := get_handle dir in
  let entr_num := h_size d / sizeof_devfs_d_entry in
  let! f := get_or_fault (fun _ => new_filename filename0 name) in
  do! put_handle dir (set_size (u32 ((entr_num + 1) * sizeof_devfs_d_entry))
        (set_entries (take (Z.to_nat entr_num) (h_entries d) ++ [DevfsDEntry inode f]) d));
  sync_node dir.

(** The first entry from position [index] on with this number. *)
Fixpoint entry_index (l : list devfs_d_entry) (index ino_ : Z) : option Z :=
  match l with
  | [] => None
  | e :: l => if de_inode e =? ino_ then Some index else entry_index l (index + 1) ino_
  end.

Definition devfs_del_d_entry (dir ino_ : Z) : VM unit :=
  if dir =? 0 then ret tt
  else
    let! d := get_handle dir in
    match entry_index (drop 2 (h_entries d)) 2 ino_ with
    | None => ret tt
    | Some index =>
        do! put_handle dir (set_size (u32 (h_size d - sizeof_devfs_d_entry))
              (set_entries (take (Z.to_nat index) (h_entries d) ++ drop (Z.to_nat (index + 1)) (h_entries d)) d));
        sync_node dir
    end.

Definition is_dir (h : devfs_handle) : bool := Z.land (h_flags h) 0x7 =? FS_DIRECTORY.

Definition devfs_register_device (filename0 : list Z) (dir : Z) (name : list Z) (mode uid gid type f_op : Z) : VM Z :=
  let! root := gets (fun s => devfs_root (dstate s)) in
  let dir := if dir =? 0 then root else dir in
  if dir =? 0 then ret 0
  else
    let! d := get_handle dir in
    if negb (is_dir d) then ret 0
    else
      let! handle := new_ptr in
      let! n := gets (fun s => next_inode (dstate s)) in
      do! set_next_inode (u32 (n + 1));
      do! put_handle handle (DevfsHandle n 1 (u16 uid) (u16 gid) mode type 1 0 [] [] 0 0 f_op dir 0);
      do! devfs_add_d_entry filename0 dir name n;
      do! devfs_add_to_cache handle;
      ret handle.

Definition devfs_unregister_device (device : Z) : VM unit :=
  if device =? 0 then ret tt
  else
    let! h := get_handle device in
    do! devfs_del_d_entry (h_parent h) (h_ino h);
    devfs_del_from_cache device.

Definition devfs_readdir (d_name0 : list Z) (dir index : Z) : VM (Z * option dirent) :=
  let! v := get_vnode dir in
  if u v =? 0 then ret (- EINVAL, None)
  else
    let! h := get_handle (u v) in
    if h_size h / sizeof_devfs_d_entry <=? index then ret (- EINVAL, None)
    else
      let! e := get_or_fault (fun _ => aget (h_entries h) index) in
      let! fi := devfs_iget (de_inode e) in
      let! d := get_or_fault (fun _ => strncpy d_name0 (de_filename e) DEVFS_FILENAME_LEN) in
      let! d := get_or_fault (fun _ => aset d DEVFS_FILENAME_LEN 0) in
      let! len := get_or_fault (fun _ => strlen d) in
      let! fh := get_handle fi in
      ret (0, Some (Dirent (de_inode e) d len (h_flags fh))).

(** The array goes with the handle. *)
Definition devfs_dir_free_pdata (pdata : Z) : VM unit := ret tt.

(** [while (i--)]: from the last entry to the first. *)
Fixpoint dir_search (n : nat) (l : list devfs_d_entry) (name : list Z) : option (option Z) :=
  match n with
  | O => Some None
  | S i =>
      e ← l !! i;
      m ← namei_match name (de_filename e);
      if m : bool then Some (Some (de_inode e)) else dir_search i l name
  end.

Definition devfs_lookup (dir : Z) (name : list Z) : VM Z :=
  let! v := get_vnode dir in
  if u v =? 0 then ret 0
  else
    let! h := get_handle (u v) in
    let! e := get_or_fault (fun _ => dir_search (Z.to_nat (size v / sizeof_devfs_d_entry)) (h_entries h) name) in
    match e with Some i => iget (sb v) i | None => ret 0 end.

Definition devfs_dir_fop : file_operations F :=
  FileOperations None None None (Some (devfs_readdir (replicate (Z.to_nat VFS_NAME_LEN) 0))) None None None.
Definition devfs_i_ops (f_op : option (file_operations F)) : inode_operations F :=
  InodeOperations f_op (Some devfs_lookup).

End devfs.

Section devfs_facts.
Context {F : Type} `{FsOps F} `{SubLaws devfs_state F}.
Context (DEVFS_DIR_FOP : Z) (IOPS : Z -> Z) (free_pdata : Z -> option (Z -> M (vstate F) unit)).
Implicit Types (s : vstate F) (D : devfs_state).

(** The state with another device tree. *)
Definition with_dev D s : vstate F := set_fsd (inj D (fsd s)) s.

Lemma dstate_with D s : dstate (with_dev D s) = D.
Proof. unfold dstate, with_dev. cbn. apply proj_inj. Qed.
Lemma dstate_sbs D S s : dstate (set_sbs S (with_dev D s)) = D.
Proof. apply dstate_with. Qed.
Lemma with_with D D' s : with_dev D (with_dev D' s) = with_dev D s.
Proof. unfold with_dev. cbn. by rewrite inj_inj. Qed.
Lemma with_dstate s : with_dev (dstate s) s = s.
Proof. unfold with_dev, dstate. rewrite inj_proj. by destruct s. Qed.
Lemma with_vnodes V D s : set_vnodes V (with_dev D s) = with_dev D (set_vnodes V s).
Proof. done. Qed.
Lemma with_vnodes_id V s : V = vnodes s -> set_vnodes V s = s.
Proof. intros ->. by destruct s. Qed.

Lemma upd_dev_run f s : upd_dev f s = Ok (tt, with_dev (f (dstate s)) s).
Proof. done. Qed.
Lemma get_handle_run s p h : handles (dstate s) !! p = Some h -> get_handle p s = Ok (h, s).
Proof. intros E. unfold get_handle, get_or_fault. by rewrite E. Qed.

Definition set_handles (m : gmap Z devfs_handle) D : devfs_state :=
  DevfsState m (dcache D) (next_inode D) (devfs_sb D) (devfs_root D).

Lemma put_handle_run s p h :
  put_handle p h s = Ok (tt, with_dev (set_handles (<[p := h]> (handles (dstate s))) (dstate s)) s).
Proof. done. Qed.

Lemma set_handles_id D m : m = handles D -> set_handles m D = D.
Proof. intros ->. by destruct D. Qed.

(** What bringing the vnode of a directory up to date does. *)
Definition sync_vnodes (dir : Z) (d : devfs_handle) (V : gmap Z vnode) : gmap Z vnode :=
  if h_node d =? 0 then V
  else match V !! h_node d with
       | Some v => <[h_node d := vnode_of_handle IOPS v d dir]> V
       | None => V
       end.
Definition synced (dir : Z) (d : devfs_handle) s : vstate F := set_vnodes (sync_vnodes dir d (vnodes s)) s.

Lemma sync_vnodes_ne dir d V p : p <> h_node d -> sync_vnodes dir d V !! p = V !! p.
Proof.
  intros Hp. unfold sync_vnodes. destruct (_ =? _); [done|]. destruct (V !! h_node d); [|done].
  by rewrite lookup_insert_ne.
Qed.
Lemma sync_vnodes_is_Some dir d V p : is_Some (V !! p) -> is_Some (sync_vnodes dir d V !! p).
Proof.
  intros Hp. destruct (decide (p = h_node d)) as [->|]; [|by rewrite sync_vnodes_ne].
  unfold sync_vnodes. destruct (_ =? _); [done|]. destruct (V !! h_node d); [|done]. by rewrite lookup_insert_eq.
Qed.

Lemma sync_node_run s dir d : dir <> 0 -> handles (dstate s) !! dir = Some d ->
  (h_node d <> 0 -> is_Some (vnodes s !! h_node d)) -> sync_node IOPS dir s = Ok (tt, synced dir d s).
Proof.
  intros Hdir Hd Hn. unfold sync_node. rewrite (bind_run _ _ _ _ _ (get_handle_run _ _ _ Hd)).
  unfold synced, sync_vnodes. destruct (h_node d =? 0) eqn:E; cbn [negb].
  - unfold ret. by rewrite with_vnodes_id.
  - destruct Hn as [v Hv]; [lia|]. rewrite Hv. unfold devfs_handle2vnode. rewrite E.
    replace (dir =? 0) with false by lia. cbn [orb].
    rewrite (bind_run _ _ _ _ _ (get_handle_run _ _ _ Hd)), (bind_run _ _ _ _ _ (get_vnode_Ok _ _ _ Hv)).
    unfold put_vnode, bind, modify. rewrite put_handle_run.
    assert (Hs : set_node (h_node d) d = d) by (by destruct d). rewrite Hs.
    rewrite set_handles_id by (cbn; by rewrite insert_id). by rewrite with_dstate.
Qed.

(** Adding an entry, and removing one. *)
Definition with_entry (d : devfs_handle) (e : devfs_d_entry) : devfs_handle :=
  set_size (h_size d + sizeof_devfs_d_entry) (set_entries (h_entries d ++ [e]) d).

Definition dir_ok (d : devfs_handle) : Prop :=
  h_size d = Z.of_nat (length (h_entries d)) * sizeof_devfs_d_entry /\ h_size d + sizeof_devfs_d_entry < 4294967296.

Lemma devfs_add_d_entry_run s filename0 dir d name i f : dir <> 0 -> handles (dstate s) !! dir = Some d -> dir_ok d ->
  new_filename filename0 name = Some f -> (h_node d <> 0 -> is_Some (vnodes s !! h_node d)) ->
  let d' := with_entry d (DevfsDEntry i f) in
  devfs_add_d_entry IOPS filename0 dir name i s =
  Ok (tt, synced dir d' (with_dev (set_handles (<[dir := d']> (handles (dstate s))) (dstate s)) s)).
Proof.
  intros Hdir Hd [Hsz Hmax] Hf Hn. cbn zeta. unfold devfs_add_d_entry.
  rewrite (bind_run _ _ _ _ _ (get_handle_run _ _ _ Hd)). unfold get_or_fault at 1. rewrite Hf. unfold bind at 1.
  assert (Hq : h_size d / sizeof_devfs_d_entry = Z.of_nat (length (h_entries d))) by (unfold sizeof_devfs_d_entry in *; lia).
  rewrite Hq, Nat2Z.id, take_ge by lia.
  replace (u32 ((Z.of_nat (length (h_entries d)) + 1) * sizeof_devfs_d_entry)) with (h_size d + sizeof_devfs_d_entry)
    by (unfold sizeof_devfs_d_entry in *; rewrite u32_id by lia; lia).
  unfold bind. rewrite put_handle_run. apply sync_node_run; [done| |done].
  rewrite dstate_with. apply lookup_insert_eq.
Qed.

Lemma entry_index_app l e ino_ : forall k, Forall (fun x => de_inode x <> ino_) l -> de_inode e = ino_ ->
  entry_index (l ++ [e]) k ino_ = Some (k + Z.of_nat (length l)).
Proof.
  induction l as [|x l IH]; intros k Hl He; cbn [app entry_index length].
  - replace (de_inode e =? ino_) with true by lia. f_equal. lia.
  - apply Forall_cons in Hl as [Hx Hl]. replace (de_inode x =? ino_) with false by lia.
    rewrite IH by done. f_equal. lia.
Qed.

(** Removing the entry that was added last. *)
Lemma devfs_del_d_entry_run s dir d i f : dir <> 0 ->
  handles (dstate s) !! dir = Some (with_entry d (DevfsDEntry i f)) -> dir_ok d ->
  (2 <= length (h_entries d))%nat -> Forall (fun e => de_inode e <> i) (h_entries d) ->
  (h_node d <> 0 -> is_Some (vnodes s !! h_node d)) ->
  devfs_del_d_entry IOPS dir i s =
  Ok (tt, synced dir d (with_dev (set_handles (<[dir := d]> (handles (dstate s))) (dstate s)) s)).
Proof.
  intros Hdir Hd [Hsz Hmax] H2 Hi Hn. unfold devfs_del_d_entry. replace (dir =? 0) with false by lia.
  rewrite (bind_run _ _ _ _ _ (get_handle_run _ _ _ Hd)). cbn [with_entry set_size set_entries h_entries h_size].
  rewrite drop_app_le, entry_index_app by (done || lia || by apply Forall_drop). rewrite length_drop.
  replace (2 + Z.of_nat (length (h_entries d) - 2)) with (Z.of_nat (length (h_entries d))) by lia.
  rewrite Nat2Z.id, take_app_length, drop_ge, app_nil_r by (rewrite length_app; cbn [length]; lia).
  replace (u32 (h_size d + sizeof_devfs_d_entry - sizeof_devfs_d_entry)) with (h_size d)
    by (unfold sizeof_devfs_d_entry in *; rewrite u32_id by lia; lia).
  replace (set_size (h_size d) _) with d by (by destruct d).
  unfold bind. rewrite put_handle_run. apply sync_node_run; [done| |done].
  rewrite dstate_with. apply lookup_insert_eq.
Qed.

(** ** Properties *)

Definition no_free_pdata (f_op : Z) : Prop := f_op = 0 \/ free_pdata f_op = None.

(** The handle a registration makes. *)
Definition new_handle (n uid gid mode type f_op dir : Z) : devfs_handle :=
  DevfsHandle n 1 (u16 uid) (u16 gid) mode type 1 0 [] [] 0 0 f_op dir 0.

(** A directory a device can be registered in, in state [s]. *)
Record dir_ready s (dir : Z) (d : devfs_handle) : Prop := {
  dr_ptr : dir <> 0;
  dr_handle : handles (dstate s) !! dir = Some d;
  dr_dir : is_dir d = true;
  dr_size : dir_ok d;
  dr_node : h_node d <> 0 -> is_Some (vnodes s !! h_node d);
  dr_fresh : next_ptr s <> 0 /\ handles (dstate s) !! next_ptr s = None }.

Lemma devfs_register_run s filename0 dir d name mode uid gid type f_op f :
  dir_ready s dir d -> new_filename filename0 name = Some f ->
  let h := next_ptr s in let D := dstate s in
  let d' := with_entry d (DevfsDEntry (next_inode D) f) in
  devfs_register_device IOPS filename0 dir name mode uid gid type f_op s =
  Ok (h, with_dev (DevfsState (<[dir := d']> (<[h := new_handle (next_inode D) uid gid mode type f_op dir]> (handles D)))
                     (h :: dcache D) (u32 (next_inode D + 1)) (devfs_sb D) (devfs_root D))
           (set_vnodes (sync_vnodes dir d' (vnodes s)) (set_next_ptr (h + 1) s))).
Proof.
  intros [Hdir Hd Hisd Hok Hn [Hz Hfr]] Hf. cbn zeta. unfold devfs_register_device.
  unfold bind at 1, gets at 1. replace (dir =? 0) with false by lia. cbn [andb]. rewrite (proj2 (Z.eqb_neq dir 0)) by done.
  rewrite (bind_run _ _ _ _ _ (get_handle_run _ _ _ Hd)), Hisd. cbn [negb].
  assert (Hne : dir <> next_ptr s) by congruence.
  unfold new_ptr, bind at 1 2 3, gets at 1, modify at 1, ret at 1. unfold bind at 1, gets at 1.
  set (s1 := set_next_ptr (next_ptr s + 1) s). change (dstate s1) with (dstate s).
  unfold bind at 1, set_next_inode at 1. rewrite upd_dev_run. unfold bind at 1. rewrite put_handle_run.
  rewrite !dstate_with, with_with. change (dstate s1) with (dstate s). cbn [set_handles handles dcache next_inode devfs_sb devfs_root].
  set (D2 := DevfsState _ _ _ _ _).
  unfold bind at 1. rewrite (devfs_add_d_entry_run _ filename0 dir d name _ f Hdir); [| |done|done|done].
  2: { rewrite dstate_with. cbn. rewrite lookup_insert_ne by done. exact Hd. }
  unfold bind, devfs_add_to_cache, bind, gets, synced, set_dcache, ret. rewrite upd_dev_run.
  rewrite !with_vnodes. cbn [set_handles vnodes with_dev set_fsd]. rewrite !dstate_with, !with_with.
  do 2 f_equal.
Qed.

Lemma call_free_pdata_run s h : no_free_pdata (h_f_op h) -> call_free_pdata free_pdata h s = Ok (tt, s).
Proof. unfold call_free_pdata. intros [->| ->]; [done|]. by destruct (h_f_op h =? 0). Qed.

(** Dropping the handle at the head of the chain. *)
Lemma devfs_del_from_cache_run s p h l : p <> 0 -> handles (dstate s) !! p = Some h -> dcache (dstate s) = p :: l ->
  no_free_pdata (h_f_op h) ->
  devfs_del_from_cache free_pdata p s =
  Ok (tt, with_dev (DevfsState (delete p (handles (dstate s))) l (next_inode (dstate s)) (devfs_sb (dstate s))
                      (devfs_root (dstate s))) s).
Proof.
  intros Hp Hh Hl Hf. unfold devfs_del_from_cache. replace (p =? 0) with false by lia. unfold bind at 1, gets at 1.
  rewrite (bind_run _ _ _ _ _ (get_handle_run _ _ _ Hh)), Hl. cbn [unlink]. rewrite Z.eqb_refl.
  unfold set_dcache. rewrite (bind_run _ _ _ _ _ (upd_dev_run _ _)).
  rewrite (bind_run _ _ _ _ _ (call_free_pdata_run _ _ Hf)). unfold free_handle. rewrite upd_dev_run.
  by rewrite dstate_with, with_with.
Qed.

(** Registering a device and unregistering it again puts the directory and
    the handle cache back as they were, for every directory with a vnode or
    without; in between the number it got is found in the cache.  Only the number is
    not used again, and at most the vnode of the directory has changed. *)
Theorem devfs_register_unregister s filename0 dir d name mode uid gid type f_op f :
  dir_ready s dir d -> new_filename filename0 name = Some f -> no_free_pdata f_op ->
  (2 <= length (h_entries d))%nat -> Forall (fun e => de_inode e <> next_inode (dstate s)) (h_entries d) ->
  exists h s1 s2,
    devfs_register_device IOPS filename0 dir name mode uid gid type f_op s = Ok (h, s1) /\
    devfs_iget (next_inode (dstate s)) s1 = Ok (h, s1) /\
    devfs_unregister_device IOPS free_pdata h s1 = Ok (tt, s2) /\
    dstate s2 = DevfsState (handles (dstate s)) (dcache (dstate s)) (u32 (next_inode (dstate s) + 1))
                  (devfs_sb (dstate s)) (devfs_root (dstate s)) /\
    (forall p, p <> h_node d -> vnodes s2 !! p = vnodes s !! p).
Proof.
  intros Hr Hf Hfp H2 Hi. pose proof Hr as [Hdir Hd Hisd Hok Hn [Hz Hfr]].
  assert (Hne : dir <> next_ptr s) by congruence.
  set (D := dstate s) in *. set (h := next_ptr s) in *. set (nh := new_handle (next_inode D) uid gid mode type f_op dir).
  set (d' := with_entry d (DevfsDEntry (next_inode D) f)).
  set (D1 := DevfsState (<[dir := d']> (<[h := nh]> (handles D))) (h :: dcache D) (u32 (next_inode D + 1)) (devfs_sb D)
               (devfs_root D)).
  set (s1 := with_dev D1 (set_vnodes (sync_vnodes dir d' (vnodes s)) (set_next_ptr (h + 1) s))).
  set (s2 := with_dev (set_handles (<[dir := d]> (handles D1)) D1) (set_vnodes (sync_vnodes dir d (vnodes s1)) s1)).
  assert (Hs1 : dstate s1 = D1) by apply dstate_with.
  assert (Hs2 : dstate s2 = set_handles (<[dir := d]> (handles D1)) D1) by apply dstate_with.
  assert (Hh : handles (dstate s1) !! h = Some nh).
  { rewrite Hs1. cbn. rewrite lookup_insert_ne by done. apply lookup_insert_eq. }
  assert (Hh2 : handles (dstate s2) !! h = Some nh).
  { rewrite Hs2. cbn. rewrite insert_insert_eq, lookup_insert_ne by done. apply lookup_insert_eq. }
  eexists h, s1, _. split_and!.
  - by apply (devfs_register_run _ _ _ d _ _ _ _ _ _ f).
  - unfold devfs_iget, bind, gets. rewrite Hs1. cbn [dcache D1 find_handle].
    rewrite (bind_run _ _ _ _ _ (get_handle_run _ _ _ Hh)). cbn [nh new_handle h_ino]. by rewrite Z.eqb_refl.
  - unfold devfs_unregister_device. replace (h =? 0) with false by lia.
    rewrite (bind_run _ _ _ _ _ (get_handle_run _ _ _ Hh)). cbn [nh new_handle h_parent h_ino].
    unfold bind at 1. rewrite (devfs_del_d_entry_run s1 dir d (next_inode D) f); [|done| |done|done|done|].
    + unfold synced. rewrite with_vnodes, Hs1. change (with_dev _ (set_vnodes _ _)) with s2.
      rewrite (devfs_del_from_cache_run s2 h nh (dcache D) Hz Hh2); [reflexivity|by rewrite Hs2|done].
    + rewrite Hs1. cbn. by rewrite lookup_insert_eq.
    + intros Hn0. cbn. by apply sync_vnodes_is_Some, Hn.
  - rewrite dstate_with, Hs2. cbn [set_handles handles dcache D1 next_inode devfs_sb devfs_root].
    f_equal. apply map_eq. intros p. destruct (decide (p = h)) as [->|Hp].
    + by rewrite lookup_delete_eq.
    + rewrite lookup_delete_ne by done. destruct (decide (p = dir)) as [->|Hp'].
      * by rewrite lookup_insert_eq.
      * by rewrite !lookup_insert_ne.
  - intros p Hp. cbn. by rewrite !sync_vnodes_ne.
Qed.

Lemma dir_search_last n l name p e m f : n = length l -> component name = Some p ->
  component f = Some p -> e = DevfsDEntry m f -> dir_search (S n) (l ++ [e]) name = Some (Some m).
Proof.
  intros -> Hn Hf ->. cbn [dir_search]. rewrite list_lookup_middle by done. cbn.
  rewrite (namei_match_spec name f p p) by done. cbn. by rewrite bool_decide_eq_true_2.
Qed.

(** A device that was registered in a directory is found there under its
    name: looking any path up that starts with it gives the vnode of the
    device's number, even when an older entry has the same name. *)
Theorem devfs_register_lookup s filename0 dir d name mode uid gid type f_op f p h s1 path v :
  dir_ready s dir d -> new_filename filename0 name = Some f -> component f = Some p -> component path = Some p ->
  h_node d <> 0 -> vnodes s !! h_node d = Some v ->
  devfs_register_device IOPS filename0 dir name mode uid gid type f_op s = Ok (h, s1) ->
  devfs_lookup (h_node d) path s1 = iget (sb v) (next_inode (dstate s)) s1.
Proof.
  intros Hr Hf Hc Hp Hn0 Hv Hreg. pose proof Hr as [Hdir Hd Hisd [Hsz Hmax] Hn [Hz Hfr]].
  rewrite (devfs_register_run _ _ _ d _ _ _ _ _ _ f Hr Hf) in Hreg. injection Hreg as <- <-.
  set (D := dstate s) in *. set (d' := with_entry d _). set (s1 := with_dev _ _).
  assert (Hv1 : vnodes s1 !! h_node d = Some (vnode_of_handle IOPS v d' dir)).
  { subst s1. cbn. unfold sync_vnodes. replace (h_node d' =? 0) with false by (cbn; lia).
    replace (h_node d') with (h_node d) by done. rewrite Hv. apply lookup_insert_eq. }
  assert (Hd1 : handles (dstate s1) !! dir = Some d').
  { subst s1. rewrite dstate_with. apply lookup_insert_eq. }
  unfold devfs_lookup. rewrite (bind_run _ _ _ _ _ (get_vnode_Ok _ _ _ Hv1)). cbn [vnode_of_handle u size sb].
  replace (dir =? 0) with false by lia. rewrite (bind_run _ _ _ _ _ (get_handle_run _ _ _ Hd1)).
  unfold d' at 1 2. cbn [with_entry set_size set_entries h_size h_entries].
  replace (Z.to_nat ((h_size d + sizeof_devfs_d_entry) / sizeof_devfs_d_entry)) with (S (length (h_entries d)))
    by (unfold sizeof_devfs_d_entry in *; lia).
  unfold bind at 1, get_or_fault. by rewrite (dir_search_last _ _ path p _ (next_inode D) f).
Qed.

(** The inode numbers of the cached handles: distinct, and below the next one. *)
Record devfs_ok D : Prop := {
  dv_handle p : p ∈ dcache D -> exists h, handles D !! p = Some h /\ 0 <= h_ino h < next_inode D;
  dv_ino p q h h' : p ∈ dcache D -> q ∈ dcache D -> handles D !! p = Some h -> handles D !! q = Some h' ->
    h_ino h = h_ino h' -> p = q;
  dv_entry p h e : p ∈ dcache D -> handles D !! p = Some h -> is_dir h = true -> e ∈ h_entries h ->
    exists q h', q ∈ dcache D /\ handles D !! q = Some h' /\ h_ino h' = de_inode e }.

(** C38: registering keeps the device tree well formed: the numbers of the
    cached handles stay distinct, and every entry of every directory names a
    cached handle, which is what listing a directory relies on. *)
Theorem devfs_register_invariant s filename0 dir d name mode uid gid type f_op f h s1 :
  dir_ready s dir d -> new_filename filename0 name = Some f -> devfs_ok (dstate s) -> dir ∈ dcache (dstate s) ->
  0 <= next_inode (dstate s) < 4294967295 ->
  devfs_register_device IOPS filename0 dir name mode uid gid type f_op s = Ok (h, s1) -> devfs_ok (dstate s1).
Proof.
  intros Hr Hf [Ok1 Ok2 Ok3] Hin Hni Hreg. pose proof Hr as [Hdir Hd Hisd Hok Hn [Hz Hfr]].
  rewrite (devfs_register_run _ _ _ d _ _ _ _ _ _ f Hr Hf) in Hreg. injection Hreg as <- <-.
  rewrite dstate_with. set (D := dstate s) in *. set (hp := next_ptr s) in *. set (nh := new_handle _ _ _ _ _ _ _).
  rewrite u32_id by lia.
  assert (Hne : forall p, p ∈ dcache D -> p <> hp).
  { intros p Hp ->. destruct (Ok1 _ Hp) as (z & Hz' & _). congruence. }
  assert (Hold : forall p, p ∈ dcache D -> exists h0 h1, handles D !! p = Some h0 /\
    <[dir := with_entry d (DevfsDEntry (next_inode D) f)]> (<[hp := nh]> (handles D)) !! p = Some h1 /\
    h_ino h1 = h_ino h0 /\ is_dir h1 = is_dir h0 /\
    forall e, e ∈ h_entries h1 -> e ∈ h_entries h0 \/ de_inode e = next_inode D).
  { intros p Hp. destruct (decide (p = dir)) as [->|Hpd].
    - exists d. eexists. rewrite lookup_insert_eq. split_and!; try done.
      intros e [He|[->|[]%elem_of_nil]%elem_of_cons]%elem_of_app; [by left|by right].
    - destruct (Ok1 _ Hp) as (h0 & Hh0 & _). exists h0, h0.
      rewrite !lookup_insert_ne by (done || by apply not_eq_sym, Hne). split_and!; try done. intros e He. by left. }
  assert (Hnew : <[dir := with_entry d (DevfsDEntry (next_inode D) f)]> (<[hp := nh]> (handles D)) !! hp = Some nh).
  { rewrite lookup_insert_ne by (by apply Hne). apply lookup_insert_eq. }
  split; cbn [handles dcache next_inode].
  - intros p [->|Hp]%elem_of_cons; [exists nh; split; [done|cbn; lia]|].
    destruct (Hold p Hp) as (h0 & h1 & HA & HB & Hi & _). exists h1. split; [done|].
    destruct (Ok1 _ Hp) as (z & Hz' & ?). simplify_eq. lia.
  - intros p q h0 h0' [->|Hp]%elem_of_cons [->|Hq]%elem_of_cons Ep Eq Ei; [done|..].
    + destruct (Hold q Hq) as (a & b & Ha & Hb & Hi & _). destruct (Ok1 _ Hq) as (z & Hz' & ?).
      simplify_eq. cbn in *. lia.
    + destruct (Hold p Hp) as (a & b & Ha & Hb & Hi & _). destruct (Ok1 _ Hp) as (z & Hz' & ?).
      simplify_eq. cbn in *. lia.
    + destruct (Hold p Hp) as (a & b & Ha & Hb & Hi & _). destruct (Hold q Hq) as (a' & b' & Ha' & Hb' & Hi' & _).
      simplify_eq. apply (Ok2 p q a a'); done || lia.
  - intros p h0 e [->|Hp]%elem_of_cons Ep Edir He; [simplify_eq; by apply elem_of_nil in He|].
    destruct (Hold p Hp) as (a & b & Ha & Hb & Hi & Hdd & Hes). simplify_eq.
    destruct (Hes e He) as [He'|He'].
    + destruct (Ok3 p a e Hp Ha ltac:(congruence) He') as (q & h' & Hq & Hh' & Hino).
      destruct (Hold q Hq) as (a' & b' & Ha' & Hb' & Hi' & _). exists q, b'.
      split; [by right|]. split; [done|]. simplify_eq. congruence.
    + exists hp, nh. split; [by left|]. split; [done|]. by rewrite He'.
Qed.

(** The root directory a mount makes, with the vnode [v]. *)
Definition root_handle (v : Z) : devfs_handle :=
  DevfsHandle 0 1 0 0 755 FS_DIRECTORY (sizeof_devfs_d_entry * 2) 0
    [DevfsDEntry 0 (lit "." ++ replicate 15 0); DevfsDEntry 0 (lit ".." ++ replicate 14 0)] [] 0 0 DEVFS_DIR_FOP 0 v.

Lemma devfs_empty_dir_root s : dcache (dstate s) = [] ->
  devfs_empty_dir DEVFS_DIR_FOP 0 0 s =
  Ok (next_ptr s, with_dev (DevfsState (<[next_ptr s := root_handle 0]> (handles (dstate s))) [next_ptr s]
        (next_inode (dstate s)) (devfs_sb (dstate s)) (devfs_root (dstate s))) (set_next_ptr (next_ptr s + 1) s)).
Proof.
  intros Hc. unfold devfs_empty_dir, new_ptr, devfs_iget, devfs_add_to_cache, set_dcache.
  unfold bind at 1 2 3, gets at 1, modify, ret at 1. set (s1 := set_next_ptr _ s). change (dstate s) with (dstate s1) in *.
  unfold bind at 1, gets at 1. unfold bind at 1. rewrite Hc. cbn [find_handle]. unfold ret at 1.
  rewrite (bind_run _ _ _ _ _ (put_handle_run _ _ _)). unfold bind, gets. rewrite upd_dev_run, !dstate_with, with_with.
  cbn [set_handles dcache]. by rewrite Hc.
Qed.

(** Making the vnode of the one cached handle. *)
Lemma create_handle_vnode s b sblk p h : sbs s !! b = Some sblk ->
  sop_of sblk = Some (devfs_s_ops IOPS free_pdata) -> dcache (dstate s) = [p] ->
  handles (dstate s) !! p = Some h -> p <> 0 -> next_ptr s <> 0 ->
  exists w, create_empty_inode b (h_ino h) s =
  Ok (next_ptr s, set_sbs (<[b := set_cache (next_ptr s :: cache sblk) sblk]> (sbs s))
        (with_dev (set_handles (<[p := set_node (next_ptr s) h]> (handles (dstate s))) (dstate s))
           (set_vnodes (<[next_ptr s := w]> (vnodes s)) (set_next_ptr (next_ptr s + 1) s)))).
Proof.
  intros Hs Hop Hc Hh Hp Hn. unfold create_empty_inode, new_ptr.
  unfold bind at 1 2 3, gets at 1, modify at 1, ret at 1. set (s1 := set_next_ptr _ s).
  rewrite (bind_run _ _ s1 _ _ (get_sb_Ok b sblk s1 Hs)).
  unfold put_vnode, modify at 1. unfold bind at 1. set (w := Vnode _ _ _ _ _ _ _ _ _ _ _ _ _ _ _ _ _).
  set (s2 := set_vnodes _ s1). unfold get_or_fault at 1, bind at 1. rewrite Hop. cbn [devfs_s_ops read_inode].
  unfold get_or_fault at 1, bind at 1.
  assert (Hw : vnodes s2 !! next_ptr s = Some w) by apply lookup_insert_eq.
  assert (Hr : devfs_read_inode IOPS (next_ptr s) s2 =
    Ok (tt, with_dev (set_handles (<[p := set_node (next_ptr s) h]> (handles (dstate s))) (dstate s))
              (set_vnodes (<[next_ptr s := vnode_of_handle IOPS w h p]> (vnodes s2)) s2))).
  { unfold devfs_read_inode. rewrite (bind_run _ _ _ _ _ (get_vnode_Ok _ _ _ Hw)). cbn [w ino].
    unfold devfs_iget, bind at 1 2, gets at 1. change (dstate s2) with (dstate s). rewrite Hc. cbn [find_handle].
    rewrite (bind_run _ _ _ _ _ (get_handle_run s2 _ _ Hh)), Z.eqb_refl. unfold ret at 1.
    unfold devfs_handle2vnode. replace (next_ptr s =? 0) with false by lia. replace (p =? 0) with false by lia. cbn [orb].
    rewrite (bind_run _ _ _ _ _ (get_handle_run s2 _ _ Hh)), (bind_run _ _ _ _ _ (get_vnode_Ok _ _ _ Hw)). done. }
  exists (vnode_of_handle IOPS w h p). rewrite (bind_run _ _ _ _ _ Hr).
  erewrite (bind_run _ _ _ _ _ (get_sb_Ok b sblk _ _)). Unshelve. 2: exact Hs.
  unfold put_sb, bind, modify, ret. do 2 f_equal. cbn. by rewrite insert_insert_eq.
Qed.

Lemma read_devfs_sb_run s b data S_OPS sblk :
  devfs_sb (dstate s) = 0 -> b <> 0 -> sbs s !! b = Some sblk -> cache sblk = [] ->
  S_OPS <> 0 -> sop_at S_OPS = Some (devfs_s_ops IOPS free_pdata) ->
  0 < next_ptr s -> handles (dstate s) = ∅ ->
  exists s1 w, read_devfs_sb DEVFS_DIR_FOP S_OPS b data s = Ok (b, s1) /\
    dstate s1 = DevfsState {[ next_ptr s := root_handle (next_ptr s + 1) ]} [next_ptr s] (next_inode (dstate s)) b
                  (next_ptr s) /\
    vnodes s1 = <[next_ptr s + 1 := w]> (vnodes s) /\ next_ptr s1 = next_ptr s + 2.
Proof.
  intros Hsb Hb Hs Hc Hops Hsop Hp Hh.
  unfold read_devfs_sb. unfold bind at 1, gets at 1. rewrite Hsb. cbn [Z.eqb negb].
  unfold set_devfs_sb at 1. rewrite (bind_run _ _ _ _ _ (upd_dev_run _ _)).
  rewrite (bind_run _ _ _ _ _ (get_sb_Ok b sblk (with_dev _ s) Hs)).
  set (sblk1 := SuperBlock (sb_dev sblk) (sb_flags sblk) (sb_type sblk) S_OPS 1 0 (skip_bytes sblk) (sb_root sblk)
    (sb_u sblk) (sb_mi sblk) (cache sblk)).
  unfold put_sb at 1, modify. unfold bind at 1. unfold devfs_create_cache, set_dcache.
  rewrite (bind_run _ _ _ _ _ (upd_dev_run _ _)).
  set (s1 := with_dev _ (set_sbs _ _)).
  assert (Hs1 : dstate s1 = DevfsState ∅ [] (next_inode (dstate s)) b (devfs_root (dstate s))).
  { unfold s1. rewrite dstate_with, !dstate_sbs. cbn [handles next_inode devfs_sb devfs_root]. by rewrite Hh. }
  rewrite (bind_run _ _ _ _ _ (devfs_empty_dir_root s1 ltac:(by rewrite Hs1))).
  unfold set_devfs_root. rewrite (bind_run _ _ _ _ _ (upd_dev_run _ _)). rewrite dstate_with, with_with.
  change (next_ptr s1) with (next_ptr s). rewrite Hs1. cbn [handles dcache next_inode devfs_sb].
  set (s2 := with_dev _ _).
  assert (Hs2 : sbs s2 !! b = Some sblk1) by apply lookup_insert_eq.
  assert (Hd2 : dstate s2 = DevfsState {[next_ptr s := root_handle 0]} [next_ptr s] (next_inode (dstate s)) b (next_ptr s))
    by apply dstate_with.
  assert (Hop : sop_of sblk1 = Some (devfs_s_ops IOPS free_pdata)).
  { unfold sop_of. cbn [sblk1 s_op]. by replace (S_OPS =? 0) with false by lia. }
  destruct (create_handle_vnode s2 b sblk1 (next_ptr s) (root_handle 0) Hs2 Hop) as [w Hw];
    [by rewrite Hd2|rewrite Hd2; apply lookup_insert_eq|lia|change (next_ptr s + 1 <> 0); lia|].
  cbn [root_handle h_ino] in Hw.
  assert (Hi : iget b 0 s2 = create_empty_inode b 0 s2).
  { unfold iget. replace (b =? 0) with false by lia. rewrite (bind_run _ _ _ _ _ (get_sb_Ok b sblk1 s2 Hs2)).
    cbn [sblk1 cache]. rewrite Hc. cbn [cache_find]. unfold bind at 1, ret at 1. fold sblk1. rewrite Hop. done. }
  rewrite <- Hi in Hw. rewrite (bind_run _ _ _ _ _ Hw).
  match type of Hw with _ = Ok (_, ?x) => set (s3 := x) in * end.
  assert (Hs3 : sbs s3 !! b = Some (set_cache (next_ptr s2 :: cache sblk1) sblk1)) by apply lookup_insert_eq.
  rewrite (bind_run _ _ _ _ _ (get_sb_Ok b _ _ Hs3)).
  unfold put_sb, bind, modify, ret. set (S3 := <[b := _]> (sbs s3)). exists (set_sbs S3 s3), w. split; [reflexivity|].
  split; [|split; [done|cbn; lia]]. change (dstate (set_sbs S3 s3)) with (dstate s3). unfold s3. rewrite dstate_sbs, Hd2.
  unfold set_handles. cbn. f_equal. apply insert_insert_eq.
Qed.

(** What a mount leaves is ready for devices, and well formed. *)
Lemma mounted_root_ready s s1 w n b : 0 < next_ptr s ->
  dstate s1 = DevfsState {[ next_ptr s := root_handle (next_ptr s + 1) ]} [next_ptr s] n b (next_ptr s) ->
  vnodes s1 = <[next_ptr s + 1 := w]> (vnodes s) -> next_ptr s1 = next_ptr s + 2 ->
  dir_ready s1 (next_ptr s) (root_handle (next_ptr s + 1)).
Proof.
  intros Hp Hd Hv Hn. split; rewrite ?Hd, ?Hv, ?Hn; try done.
  - lia.
  - apply lookup_insert_eq.
  - intros _. cbn. rewrite lookup_insert_eq. by eexists.
  - split; [lia|]. cbn. apply lookup_singleton_ne. lia.
Qed.
Lemma one_dir_ok p v n b : 0 < n -> devfs_ok (DevfsState {[ p := root_handle v ]} [p] n b p).
Proof.
  intros Hi. split; cbn.
  - intros q ->%list_elem_of_singleton. eexists. rewrite lookup_singleton_eq. split; [done|cbn; lia].
  - by intros q q' h h' ->%list_elem_of_singleton ->%list_elem_of_singleton.
  - intros q h e ->%list_elem_of_singleton [_ <-]%lookup_singleton_Some _ He. eexists _, _.
    split; [apply list_elem_of_here|]. rewrite lookup_singleton_eq. split; [done|]. cbn in He |- *. set_solver.
Qed.

(** Mounting the device file system for the first time gives the super
    block back and leaves a tree of one directory, with its vnode, that devices
    can be registered in; it is well formed as long as the number the first
    device gets is not the root's. *)
Theorem devfs_mount_ready s b data S_OPS sblk :
  devfs_sb (dstate s) = 0 -> b <> 0 -> sbs s !! b = Some sblk -> cache sblk = [] ->
  S_OPS <> 0 -> sop_at S_OPS = Some (devfs_s_ops IOPS free_pdata) ->
  0 < next_ptr s -> handles (dstate s) = ∅ ->
  let root := next_ptr s in let v := next_ptr s + 1 in
  exists s1, read_devfs_sb DEVFS_DIR_FOP S_OPS b data s = Ok (b, s1) /\
    dstate s1 = DevfsState {[ root := root_handle v ]} [root] (next_inode (dstate s)) b root /\
    dir_ready s1 root (root_handle v) /\
    (0 < next_inode (dstate s) -> devfs_ok (dstate s1)).
Proof.
  intros Hsb Hb Hs Hc Hops Hsop Hp Hh. cbn zeta.
  destruct (read_devfs_sb_run s b data S_OPS sblk) as (s1 & w & Hr & Hd & Hv & Hn); [done..|].
  exists s1. split; [done|]. split; [done|]. split; [by eapply mounted_root_ready|].
  intros Hi. rewrite Hd. by apply one_dir_ok.
Qed.

Lemma devfs_put_super_run s b s1 : devfs_put_super free_pdata b s = Ok (tt, s1) ->
  next_inode (dstate s1) = 0 /\ devfs_sb (dstate s1) = 0.
Proof.
  unfold devfs_put_super, bind. destruct (devfs_free_cache free_pdata s) as [[[] s0]| |]; [|done..].
  unfold set_devfs_root, set_next_inode, set_devfs_sb. rewrite !upd_dev_run, !dstate_with. intros [= <-].
  by rewrite dstate_with.
Qed.

(** Unmounting sets the next number to 0, which was 1 at the start: after
    mounting again the first device gets the root directory's number, and the
    root's number finds the device. *)
Theorem devfs_remount_number_clash s0 b0 s b data S_OPS sblk filename0 name mode uid gid type f_op f :
  devfs_put_super free_pdata b0 s0 = Ok (tt, s) ->
  b <> 0 -> sbs s !! b = Some sblk -> cache sblk = [] -> S_OPS <> 0 ->
  sop_at S_OPS = Some (devfs_s_ops IOPS free_pdata) -> 0 < next_ptr s -> handles (dstate s) = ∅ ->
  new_filename filename0 name = Some f ->
  exists s1 s2 h, read_devfs_sb DEVFS_DIR_FOP S_OPS b data s = Ok (b, s1) /\
    devfs_register_device IOPS filename0 (devfs_root (dstate s1)) name mode uid gid type f_op s1 = Ok (h, s2) /\
    devfs_iget 0 s2 = Ok (h, s2) /\ h <> devfs_root (dstate s2).
Proof.
  intros Hput Hb Hs Hc Hops Hsop Hp Hh Hf. destruct (devfs_put_super_run _ _ _ Hput) as [Hn Hsb].
  destruct (read_devfs_sb_run s b data S_OPS sblk) as (s1 & w & Hr & Hd & Hv & Hnp); [done..|].
  assert (Hready : dir_ready s1 (next_ptr s) (root_handle (next_ptr s + 1))) by by eapply mounted_root_ready.
  pose proof (devfs_register_run s1 filename0 _ _ name mode uid gid type f_op f Hready Hf) as Hreg. cbn zeta in Hreg.
  rewrite Hd in Hreg. cbn [devfs_root handles dcache next_inode devfs_sb] in Hreg. rewrite Hn, Hnp in Hreg.
  eexists s1, _, _. split; [done|]. split; [rewrite Hd; exact Hreg|].
  rewrite dstate_with. split; [|cbn; lia]. unfold devfs_iget, bind at 1, gets at 1. rewrite dstate_with. cbn [dcache find_handle].
  erewrite bind_run. 2: { apply get_handle_run. rewrite dstate_with. cbn. rewrite lookup_insert_ne by lia. apply lookup_insert_eq. }
  done.
Qed.

End devfs_facts.

(** ** Witnesses: one mounted tree, with this file system alone *)

#[local] Abbreviation iops := (fun f => 1000 + f).
Definition devfs_sop (p : Z) : option (super_operations devfs_state) :=
  if p =? 2 then Some (devfs_s_ops iops (fun _ => None)) else None.
#[local] Instance devfs_super_only : FsOps devfs_state := {
  iop_at _ := None; sop_at := devfs_sop; read_super _ b _ := ret b }.

Definition devfs_unmounted : vstate devfs_state :=
  VState ∅ {[ 100 := SuperBlock 7 0 0 0 0 0 0 0 0 0 [] ]} ∅ ∅ [] ∅ [] 0 500 task_zero devfs_init.
Definition devfs_mounted : vstate devfs_state :=
  VState {[ 501 := Vnode 0 1 1 0 0 755 FS_DIRECTORY 48 0 0 0 7 100 1003 500 0 0 ]}
    {[ 100 := SuperBlock 7 0 0 2 1 0 0 501 0 0 [501] ]} ∅ ∅ [] ∅ [] 0 502 task_zero
    (DevfsState {[ 500 := root_handle 3 501 ]} [500] 1 100 500).
Definition tty_filename : list Z := lit "tty" ++ replicate 13 0.

Lemma devfs_mounted_ready : dir_ready devfs_mounted 500 (root_handle 3 501).
Proof. split; try done. Qed.
Lemma tty_new_filename : new_filename (replicate 17 0) tty_filename = Some tty_filename.
Proof. reflexivity. Qed.

Lemma devfs_mount_ready_witness : exists s1, read_devfs_sb 3 2 100 0 devfs_unmounted = Ok (100, s1) /\
  dir_ready s1 500 (root_handle 3 501) /\ devfs_ok (dstate s1).
Proof.
  destruct (devfs_mount_ready 3 iops (fun _ => None) devfs_unmounted 100 0 2 (SuperBlock 7 0 0 0 0 0 0 0 0 0 []))
    as (s1 & Hr & _ & Hd & Hok); [reflexivity|lia|reflexivity|reflexivity|lia|reflexivity|reflexivity|reflexivity|].
  exists s1. split; [exact Hr|]. split; [exact Hd|]. apply Hok. reflexivity.
Defined.

Lemma devfs_register_unregister_witness : exists h s1 s2,
  devfs_register_device iops (replicate 17 0) 500 tty_filename 438 0 0 FS_CHARDEVICE 9 devfs_mounted = Ok (h, s1) /\
  devfs_unregister_device iops (fun _ => None) h s1 = Ok (tt, s2) /\ dcache (dstate s2) = [500].
Proof.
  destruct (devfs_register_unregister iops (fun _ => None) devfs_mounted (replicate 17 0) 500 (root_handle 3 501)
    tty_filename 438 0 0 FS_CHARDEVICE 9 tty_filename) as (h & s1 & s2 & H1 & _ & H2 & H3 & _).
  - exact devfs_mounted_ready.
  - reflexivity.
  - right. reflexivity.
  - simpl. lia.
  - repeat constructor; discriminate.
  - exists h, s1, s2. split; [exact H1|]. split; [exact H2|]. rewrite H3. reflexivity.
Defined.

Lemma devfs_register_lookup_witness : exists h s1,
  devfs_register_device iops (replicate 17 0) 500 tty_filename 438 0 0 FS_CHARDEVICE 9 devfs_mounted = Ok (h, s1) /\
  devfs_lookup 501 (lit "tty/x") s1 = iget 100 1 s1.
Proof.
  pose proof (devfs_register_run iops (fun _ => None) devfs_mounted (replicate 17 0) 500 _ tty_filename 438 0 0 FS_CHARDEVICE 9 tty_filename
    devfs_mounted_ready eq_refl) as Hreg. eexists _, _. split; [exact Hreg|].
  assert (Hn : h_node (root_handle 3 501) <> 0) by (simpl; lia).
  exact (devfs_register_lookup iops (fun _ => None) devfs_mounted (replicate 17 0) 500 (root_handle 3 501) tty_filename
    438 0 0 FS_CHARDEVICE 9 tty_filename (chars "tty") 502 _ (lit "tty/x")
    (Vnode 0 1 1 0 0 755 FS_DIRECTORY 48 0 0 0 7 100 1003 500 0 0) devfs_mounted_ready eq_refl eq_refl eq_refl
    Hn eq_refl Hreg).
Defined.

Lemma devfs_mounted_ok : devfs_ok (dstate devfs_mounted).
Proof. apply (one_dir_ok 3 iops (fun _ => None) 500 501 1 100). reflexivity. Qed.

Lemma devfs_register_invariant_witness : exists h s1,
  devfs_register_device iops (replicate 17 0) 500 tty_filename 438 0 0 FS_CHARDEVICE 9 devfs_mounted = Ok (h, s1) /\
  devfs_ok (dstate s1).
Proof.
  pose proof (devfs_register_run iops (fun _ => None) devfs_mounted (replicate 17 0) 500 _ tty_filename 438 0 0 FS_CHARDEVICE 9 tty_filename
    devfs_mounted_ready eq_refl) as Hreg. eexists _, _. split; [exact Hreg|].
  apply (devfs_register_invariant iops (fun _ => None) devfs_mounted (replicate 17 0) 500 (root_handle 3 501) tty_filename 438 0 0
    FS_CHARDEVICE 9 tty_filename 502).
  - exact devfs_mounted_ready.
  - reflexivity.
  - exact devfs_mounted_ok.
  - apply list_elem_of_here.
  - simpl. lia.
  - exact Hreg.
Defined.
