(* ===== verification/Drivers.v ===== *)
(** * Drivers: [src/src/drivers/]

    The driver core of drivers.c: access to a device's handle and the queue
    that locks a device; the ram disk of ramdisk.c and the pseudo devices of
    pseudo.c.  The memory a handle's [pdata] points to is part of the drivers'
    own state.  The lock is modelled twice with the same queue operations: as
    the code of one process, where [pause] is [sys_pause], and in
    [Module Lock] as a step relation over all processes. *)
From stdpp Require Import functions.
From S2P Require Import Prelude CString Abi Vfs Namei Initrdfs Devfs.
Open Scope nup_scope.

Definition REQUEST_READ : Z := 0x2EAD.
Definition REQUEST_WRITE : Z := 0x217E.
Definition RAMDISK_SECTOR_SIZE : Z := 512.
Definition RAMDISK_SECTOR_COUNT : Z := 2880.

(** The memory behind [pdata], by address. *)
Record drv_state := DrvState { pdata_mem : gmap Z (list Z) }.

(** ** The queue of a device: the process numbers of its requests *)

Definition enqueue (q : list Z) (p : Z) : list Z := q ++ [p].
(** [dev->queue->pid] *)
Definition queue_head (q : list Z) : option Z := head q.

Definition set_queue (q : list Z) (h : devfs_handle) : devfs_handle :=
  DevfsHandle (h_ino h) (h_nlinks h) (h_uid h) (h_gid h) (h_mode h) (h_flags h) (h_size h) (h_pdata h)
    (h_entries h) q (h_bsize h) (h_bcount h) (h_f_op h) (h_parent h) (h_node h).
Definition set_pdata (p : Z) (h : devfs_handle) : devfs_handle :=
  DevfsHandle (h_ino h) (h_nlinks h) (h_uid h) (h_gid h) (h_mode h) (h_flags h) (h_size h) p
    (h_entries h) (h_queue h) (h_bsize h) (h_bcount h) (h_f_op h) (h_parent h) (h_node h).
Definition set_blocks (bs bc : Z) (h : devfs_handle) : devfs_handle :=
  DevfsHandle (h_ino h) (h_nlinks h) (h_uid h) (h_gid h) (h_mode h) (h_flags h) (h_size h) (h_pdata h)
    (h_entries h) (h_queue h) bs bc (h_f_op h) (h_parent h) (h_node h).

Section drivers.
Context {F : Type} `{FsOps F} `{Sub devfs_state F} `{Sub drv_state F}.
Local Abbreviation VM := (M (vstate F)).
(** [current_task->pid], [sys_pause] and [sys_kill] on this state. *)
Context (current_pid : Z) (pause : VM unit) (kill : Z -> Z -> VM unit).

Definition upd_handle (p : Z) (f : devfs_handle -> devfs_handle) : VM unit :=
  let! h := get_handle p in put_handle p (f h).

(** ** The driver core: drivers.c *)

Definition device_discr (node : Z) : VM Z :=
  if node =? 0 then ret 0 else let! v := get_vnode node in ret (u v).
Definition device_pdata (handle : Z) : VM Z :=
  if handle =? 0 then ret 0 else let! h := get_handle handle in ret (h_pdata h).
Definition devicen_pdata (node : Z) : VM Z :=
  let! dev := device_discr node in
  if dev =? 0 then ret 0 else let! h := get_handle dev in ret (h_pdata h).
Definition set_device_pdata (handle pdata : Z) : VM unit :=
  if handle =? 0 then ret tt else upd_handle handle (set_pdata pdata).

(** [while (dev->queue->pid != current_task->pid) sys_pause();] *)
Fixpoint lock_wait (fuel : nat) (dev : Z) : VM unit :=
  match fuel with
  | O => nofuel
  | S fuel =>
      let! h := get_handle dev in
      match queue_head (h_queue h) with
      | None => fault
      | Some p => if p =? current_pid then ret tt else do! pause; lock_wait fuel dev
      end
  end.

Definition device_lock (fuel : nat) (node : Z) : VM unit :=
  let! dev := device_discr node in
  if dev =? 0 then ret tt
  else
    do! upd_handle dev (fun h => set_queue (enqueue (h_queue h) current_pid) h);
    lock_wait fuel dev.

Definition device_unlock (node : Z) : VM unit :=
  let! dev := device_discr node in
  if dev =? 0 then ret tt
  else
    let! h := get_handle dev in
    match h_queue h with
    | [] => fault
    | p :: rest =>
        if negb (p =? current_pid) then ret tt
        else
          do! put_handle dev (set_queue rest h);
          match rest with
          | q :: _ => kill q SIGCONT
          | [] => ret tt
          end
    end.

Definition requesting_pid (node : Z) : VM Z :=
  let! dev := device_discr node in
  if dev =? 0 then ret (-1)
  else let! h := get_handle dev in ret (match h_queue h with [] => -1 | p :: _ => p end).

(** ** The ram disk: ramdisk.c *)

Definition get_mem (p : Z) : VM (list Z) :=
  get_or_fault (fun s => pdata_mem (proj (fsd s)) !! p).
Definition put_mem (p : Z) (l : list Z) : VM unit :=
  modify (fun s => set_fsd (inj (DrvState (<[p := l]> (pdata_mem (proj (fsd s))))) (fsd s)) s).

(** [memcpy(target + off, src, size)] *)
Definition copy_at (target : list Z) (off : Z) (src : list Z) (size : Z) : option (list Z) :=
  app (take (Z.to_nat off) target) <$> memcpy (drop (Z.to_nat off) target) src (Z.to_nat size).

Definition ramdisk_request (fuel : nat) (node cmd sector count : Z) (buffer : list Z) : VM (Z * list Z) :=
  do! device_lock fuel node;
  if RAMDISK_SECTOR_COUNT <? sector then ret (0, buffer)
  else
    let count := if RAMDISK_SECTOR_COUNT <? u32 (sector + count) then RAMDISK_SECTOR_COUNT - sector else count in
    let size := u32 (count * RAMDISK_SECTOR_SIZE) in
    let off := u32 (sector * RAMDISK_SECTOR_SIZE) in
    let! v := get_vnode node in
    let! h := get_handle (u v) in
    let! buffer :=
      if cmd =? REQUEST_READ then
        let! mem := get_mem (h_pdata h) in
        get_or_fault (fun _ => memcpy buffer (drop (Z.to_nat off) mem) (Z.to_nat size))
      else if cmd =? REQUEST_WRITE then
        let! mem := get_mem (h_pdata h) in
        let! mem := get_or_fault (fun _ => copy_at mem off buffer size) in
        do! put_mem (h_pdata h) mem;
        ret buffer
      else ret buffer in
    do! device_unlock node;
    ret (s32 count, buffer).

Definition ramdisk_free_pdata (pdata : Z) : VM unit :=
  modify (fun s => set_fsd (inj (DrvState (delete pdata (pdata_mem (proj (fsd s))))) (fsd s)) s).

Definition ramdisk_ops (fuel : nat) : file_operations F :=
  FileOperations None None None None None None (Some (ramdisk_request fuel)).

(** ** The pseudo devices: pseudo.c *)

(** The vnode of the file a descriptor of the current task names, unless the
    descriptor is closed or the file is [node] itself. *)
Definition std_node (fd node : Z) : VM (option Z) :=
  let! t := gets current_task in
  let! f := get_or_fault (fun _ => aget (t_files t) fd) in
  if f =? 0 then ret None
  else
    let! fl := get_or_fault (fun s => files s !! f) in
    ret (if (f_node fl =? 0) || (f_node fl =? node) then None else Some (f_node fl)).

Definition drv_stdin_read (node offset size : Z) : VM (Z * list Z) :=
  let! n := std_node STDIN_FILENO node in
  match n with Some n => read_fs n offset size | None => ret (0, []) end.
Definition drv_stdout_write (node offset size : Z) (buffer : list Z) : VM Z :=
  let! n := std_node STDOUT_FILENO node in
  match n with Some n => write_fs n offset size buffer | None => ret 0 end.
Definition drv_stderr_write (node offset size : Z) (buffer : list Z) : VM Z :=
  let! n := std_node STDERR_FILENO node in
  match n with Some n => write_fs n offset size buffer | None => ret 0 end.
Definition drv_null_read (node offset size : Z) : VM (Z * list Z) := ret (0, []).
Definition drv_null_write (node offset size : Z) (buffer : list Z) : VM Z := ret (s32 size).
Definition drv_zero_read (node offset size : Z) : VM (Z * list Z) :=
  ret (s32 size, replicate (Z.to_nat size) 0).

Definition stdin_ops : file_operations F :=
  FileOperations None (Some drv_stdin_read) (Some drv_null_write) None None None None.
Definition stdout_ops : file_operations F :=
  FileOperations None (Some drv_null_read) (Some drv_stdout_write) None None None None.
Definition stderr_ops : file_operations F :=
  FileOperations None (Some drv_null_read) (Some drv_stderr_write) None None None None.
Definition null_ops : file_operations F :=
  FileOperations None (Some drv_null_read) (Some drv_null_write) None None None None.
Definition zero_ops : file_operations F :=
  FileOperations None (Some drv_zero_read) (Some drv_null_write) None None None None.

(** ** Registration

    [IOPS] and [filename0] are those of [Devfs]; the tables by address.  The
    modes are 0444, 0222, 0666 and 0660. *)
Context (IOPS : Z -> Z) (filename0 : list Z).
Context (STDIN_OPS STDOUT_OPS STDERR_OPS NULL_OPS ZERO_OPS URANDOM_OPS RAMDISK_OPS : Z).

Definition register (name : string) (mode type f_op : Z) : VM Z :=
  devfs_register_device IOPS filename0 0 (lit name) mode FS_UID_ROOT FS_GID_ROOT type f_op.

Definition setup_urandom_file : VM unit :=
  do! register "urandom" 438 FS_CHARDEVICE URANDOM_OPS; ret tt.
Definition setup_pseudo_devices : VM unit :=
  do! register "stdin" 292 FS_CHARDEVICE STDIN_OPS;
  do! register "stdout" 146 FS_CHARDEVICE STDOUT_OPS;
  do! register "stderr" 146 FS_CHARDEVICE STDERR_OPS;
  do! register "null" 438 FS_CHARDEVICE NULL_OPS;
  do! register "zero" 438 FS_CHARDEVICE ZERO_OPS;
  setup_urandom_file.

Definition setup_ramdisk : VM unit :=
  let! dev := register "ram0" 432 FS_BLOCKDEVICE RAMDISK_OPS in
  let! p := new_ptr in
  do! put_mem p (replicate (Z.to_nat (RAMDISK_SECTOR_COUNT * RAMDISK_SECTOR_SIZE)) 0);
  upd_handle dev (fun h => set_blocks RAMDISK_SECTOR_SIZE RAMDISK_SECTOR_COUNT (set_pdata p h)).

End drivers.

(** Two components' states inside one do not meet. *)
Class SubDisj (P Q F : Type) `{Sub P F} `{Sub Q F} := {
  proj_inj_ne (q : Q) (f : F) : proj (inj q f) = (proj f : P);
  proj_inj_ne' (p : P) (f : F) : proj (inj p f) = (proj f : Q);
  inj_comm (p : P) (q : Q) (f : F) : inj p (inj q f) = inj q (inj p f) }.

Section driver_facts.
Context {F : Type} `{FsOps F} `{SubLaws devfs_state F} `{SubLaws drv_state F} `{!SubDisj devfs_state drv_state F}.
Implicit Types (s : vstate F).

Definition mem_of s : gmap Z (list Z) := pdata_mem (proj (fsd s)).
Definition with_mem (p : Z) (l : list Z) s : vstate F := set_fsd (inj (DrvState (<[p := l]> (mem_of s))) (fsd s)) s.
Definition with_handle (p : Z) (h : devfs_handle) s : vstate F :=
  with_dev (set_handles (<[p := h]> (handles (dstate s))) (dstate s)) s.

Lemma set_queue_back h q : h_queue h = [] -> set_queue [] (set_queue q h) = h.
Proof. intros E. destruct h. cbn in *. by rewrite E. Qed.
Lemma with_handle_same p h s : handles (dstate s) !! p = Some h -> with_handle p h s = s.
Proof.
  intros Hh. unfold with_handle. rewrite set_handles_id by (by apply insert_id). apply with_dstate.
Qed.
Lemma with_handle_twice p h h' s : with_handle p h (with_handle p h' s) = with_handle p h s.
Proof.
  unfold with_handle. rewrite dstate_with, with_with. cbn [handles set_handles].
  by rewrite insert_insert_eq.
Qed.
Lemma with_handle_lookup p h s : handles (dstate (with_handle p h s)) !! p = Some h.
Proof. unfold with_handle. rewrite dstate_with. apply lookup_insert_eq. Qed.
Lemma mem_of_handle p h s : mem_of (with_handle p h s) = mem_of s.
Proof. unfold mem_of, with_handle, with_dev. cbn. by rewrite proj_inj_ne'. Qed.
Lemma dstate_mem p l s : dstate (with_mem p l s) = dstate s.
Proof. unfold dstate, with_mem. cbn. apply proj_inj_ne. Qed.
Lemma with_mem_handle p l d h s : with_mem p l (with_handle d h s) = with_handle d h (with_mem p l s).
Proof.
  unfold with_handle. rewrite dstate_mem. unfold with_mem, with_dev. cbn.
  unfold mem_of at 1. cbn. rewrite proj_inj_ne'. unfold set_fsd. cbn. by rewrite (inj_comm (P := devfs_state)).
Qed.
Lemma mem_of_mem p l s : mem_of (with_mem p l s) = <[p := l]> (mem_of s).
Proof. unfold mem_of at 1, with_mem. cbn. by rewrite proj_inj. Qed.

Lemma get_mem_run s p l : mem_of s !! p = Some l -> get_mem p s = Ok (l, s).
Proof. intros E. unfold get_mem, get_or_fault. unfold mem_of in E. by rewrite E. Qed.
Lemma put_mem_run s p l : put_mem p l s = Ok (tt, with_mem p l s).
Proof. done. Qed.
Lemma upd_handle_run s p h f : handles (dstate s) !! p = Some h -> upd_handle p f s = Ok (tt, with_handle p (f h) s).
Proof. intros E. unfold upd_handle. by rewrite (bind_run _ _ _ _ _ (get_handle_run _ _ _ E)). Qed.

(** A device node whose handle is [h], at [d]. *)
Record device s (node : Z) (v : vnode) (d : Z) (h : devfs_handle) : Prop := {
  dv_node : node <> 0;
  dv_vnode : vnodes s !! node = Some v;
  dv_u : u v = d;
  dv_ptr : d <> 0;
  dv_h : handles (dstate s) !! d = Some h }.

Lemma device_discr_run s node v d h : device s node v d h -> device_discr node s = Ok (d, s).
Proof.
  intros [Hn Hv Hu Hd Hh]. unfold device_discr. replace (node =? 0) with false by lia.
  rewrite (bind_run _ _ _ _ _ (get_vnode_Ok _ _ _ Hv)). by rewrite Hu.
Qed.

Lemma device_with_handle s node v d h h' : device s node v d h -> device (with_handle d h' s) node v d h'.
Proof. intros [Hn Hv Hu Hd Hh]. split; try done. apply with_handle_lookup. Qed.
Lemma device_with_mem s node v d h p l : device s node v d h -> device (with_mem p l s) node v d h.
Proof. intros [Hn Hv Hu Hd Hh]. split; try done. by rewrite dstate_mem. Qed.

Lemma memcpy_short (target src : list Z) n : (length src < n)%nat -> memcpy target src n = None.
Proof.
  revert target src. induction n as [|n IH]; intros [|t target] [|c src] Hl; cbn in *; try done; try lia.
  by rewrite IH by lia.
Qed.

(** A lock somebody else holds, and does not give back, is waited for for ever. *)
Lemma device_lock_waits pid (pause : M (vstate F) unit) s fuel node v d h p q : device s node v d h -> h_queue h = p :: q -> p <> pid ->
  (forall s', pause s' = Ok (tt, s')) -> device_lock pid pause fuel node s = Fuel.
Proof.
  intros Hdev Hq Hp Hpause. pose proof Hdev as [Hn Hv Hu Hd Hh]. unfold device_lock.
  rewrite (bind_run _ _ _ _ _ (device_discr_run _ _ _ _ _ Hdev)). replace (d =? 0) with false by lia.
  rewrite (bind_run _ _ _ _ _ (upd_handle_run _ _ _ _ Hh)), Hq. cbn [enqueue app].
  induction fuel as [|fuel IH]; [done|]. cbn [lock_wait].
  rewrite (bind_run _ _ _ _ _ (get_handle_run _ _ _ (with_handle_lookup d _ s))). cbn [set_queue h_queue queue_head head].
  replace (p =? pid) with false by lia. by rewrite (bind_run _ _ _ _ _ (Hpause _)).
Qed.

Context (pid : Z) (pause : M (vstate F) unit) (kill : Z -> Z -> M (vstate F) unit).

(** Taking a free lock does not wait. *)
Lemma device_lock_free s fuel node v d h : device s node v d h -> h_queue h = [] ->
  device_lock pid pause (S fuel) node s = Ok (tt, with_handle d (set_queue [pid] h) s).
Proof.
  intros Hdev Hq. pose proof Hdev as [Hn Hv Hu Hd Hh]. unfold device_lock.
  rewrite (bind_run _ _ _ _ _ (device_discr_run _ _ _ _ _ Hdev)). replace (d =? 0) with false by lia.
  rewrite (bind_run _ _ _ _ _ (upd_handle_run _ _ _ _ Hh)), Hq. cbn [lock_wait enqueue app].
  rewrite (bind_run _ _ _ _ _ (get_handle_run _ _ _ (with_handle_lookup d (set_queue [pid] h) s))).
  cbn [set_queue h_queue queue_head head]. by rewrite Z.eqb_refl.
Qed.

Lemma device_unlock_own s node v d h : device s node v d h -> h_queue h = [pid] ->
  device_unlock pid kill node s = Ok (tt, with_handle d (set_queue [] h) s).
Proof.
  intros Hdev Hq. pose proof Hdev as [Hn Hv Hu Hd Hh]. unfold device_unlock.
  rewrite (bind_run _ _ _ _ _ (device_discr_run _ _ _ _ _ Hdev)). replace (d =? 0) with false by lia.
  rewrite (bind_run _ _ _ _ _ (get_handle_run _ _ _ Hh)), Hq, Z.eqb_refl. cbn [negb]. done.
Qed.

(** A ram disk nobody uses: its memory is [mem], its lock is free. *)
Record ramdisk s (node d : Z) (mem : list Z) : Prop := {
  rd_dev : exists v h, device s node v d h /\ h_queue h = [] /\ mem_of s !! h_pdata h = Some mem;
  rd_len : length mem = Z.to_nat (RAMDISK_SECTOR_COUNT * RAMDISK_SECTOR_SIZE) }.

(** The bytes of [n] sectors from [sector] on. *)
Definition sectors (mem : list Z) (sector n : Z) : list Z :=
  take (Z.to_nat (n * RAMDISK_SECTOR_SIZE)) (drop (Z.to_nat (sector * RAMDISK_SECTOR_SIZE)) mem).
(** The disk after writing the first [n] sectors of [buffer] at [sector]. *)
Definition put_sectors (mem : list Z) (sector n : Z) (buffer : list Z) : list Z :=
  take (Z.to_nat (sector * RAMDISK_SECTOR_SIZE)) mem ++ take (Z.to_nat (n * RAMDISK_SECTOR_SIZE)) buffer ++
  drop (Z.to_nat ((sector + n) * RAMDISK_SECTOR_SIZE)) mem.
(** The sectors a request for [count] of them gets. *)
Definition clipped (sector count : Z) : Z := Z.min count (RAMDISK_SECTOR_COUNT - sector).

(** What a request does between taking the lock and giving it back. *)
Lemma ramdisk_request_run s s1 fuel node cmd sector count buffer buffer' v d h :
  device s node v d h -> h_queue h = [] ->
  0 <= sector <= RAMDISK_SECTOR_COUNT -> 0 <= count -> sector + count < 4294967296 ->
  let n := clipped sector count in
  let s0 := with_handle d (set_queue [pid] h) s in
  (if cmd =? REQUEST_READ then
     let! mem := get_mem (h_pdata h) in
     get_or_fault (fun _ => memcpy buffer (drop (Z.to_nat (sector * RAMDISK_SECTOR_SIZE)) mem)
                              (Z.to_nat (n * RAMDISK_SECTOR_SIZE)))
   else if cmd =? REQUEST_WRITE then
     let! mem := get_mem (h_pdata h) in
     let! mem := get_or_fault (fun _ => copy_at mem (sector * RAMDISK_SECTOR_SIZE) buffer (n * RAMDISK_SECTOR_SIZE)) in
     do! put_mem (h_pdata h) mem;
     ret buffer
   else ret buffer) s0 = Ok (buffer', with_handle d (set_queue [pid] h) s1) ->
  device s1 node v d h ->
  ramdisk_request pid pause kill (S fuel) node cmd sector count buffer s = Ok ((n, buffer'), s1).
Proof.
  intros Hdev Hq Hs Hc Hw n s0 Hbody Hdev1. pose proof Hdev as [Hn Hv Hu Hd Hh].
  unfold ramdisk_request. rewrite (bind_run _ _ _ _ _ (device_lock_free _ fuel _ _ _ _ Hdev Hq)). fold s0.
  replace (RAMDISK_SECTOR_COUNT <? sector) with false by (unfold RAMDISK_SECTOR_COUNT in *; lia).
  rewrite (u32_id (sector + count)) by lia.
  replace (if RAMDISK_SECTOR_COUNT <? sector + count then RAMDISK_SECTOR_COUNT - sector else count) with n.
  2: { unfold n, clipped. destruct (RAMDISK_SECTOR_COUNT <? sector + count) eqn:E; lia. }
  assert (Hnb : 0 <= n <= RAMDISK_SECTOR_COUNT) by (unfold n, clipped; lia).
  rewrite (u32_id (n * _)), (u32_id (sector * _)) by (unfold RAMDISK_SECTOR_COUNT, RAMDISK_SECTOR_SIZE in *; lia).
  assert (Hdev0 : device s0 node v d (set_queue [pid] h)) by (by eapply device_with_handle).
  rewrite (bind_run _ _ _ _ _ (get_vnode_Ok _ _ s0 Hv)), Hu.
  rewrite (bind_run _ _ _ _ _ (get_handle_run _ _ _ (dv_h _ _ _ _ _ Hdev0))).
  rewrite (bind_run _ _ _ _ _ Hbody).
  assert (Hdev2 : device (with_handle d (set_queue [pid] h) s1) node v d (set_queue [pid] h))
    by (by eapply device_with_handle).
  rewrite (bind_run _ _ _ _ _ (device_unlock_own _ _ _ _ _ Hdev2 eq_refl)).
  unfold ret. rewrite with_handle_twice.
  rewrite (set_queue_back h [pid]) by done.
  rewrite with_handle_same by apply (dv_h _ _ _ _ _ Hdev1).
  rewrite s32_id by (unfold RAMDISK_SECTOR_COUNT in *; lia). done.
Qed.

Lemma ramdisk_read_run s fuel node d mem sector count buffer : ramdisk s node d mem ->
  0 <= sector <= RAMDISK_SECTOR_COUNT -> 0 <= count -> sector + count < 4294967296 ->
  let n := clipped sector count in
  n * RAMDISK_SECTOR_SIZE <= Z.of_nat (length buffer) ->
  ramdisk_request pid pause kill (S fuel) node REQUEST_READ sector count buffer s =
  Ok ((n, sectors mem sector n ++ drop (Z.to_nat (n * RAMDISK_SECTOR_SIZE)) buffer), s).
Proof.
  intros [(v & h & Hdev & Hq & Hm) Hlen] Hs Hc Hw n Hb. apply (ramdisk_request_run s s _ _ _ _ _ _ _ v d h); try done.
  cbn [Z.eqb]. rewrite Z.eqb_refl. rewrite (bind_run _ _ _ mem (with_handle d (set_queue [pid] h) s)).
  2: { apply get_mem_run. by rewrite mem_of_handle. }
  unfold get_or_fault. fold n. assert (0 <= n <= RAMDISK_SECTOR_COUNT - sector) by (unfold n, clipped; lia).
  rewrite memcpy_spec; [done|lia|]. rewrite length_drop, Hlen. unfold RAMDISK_SECTOR_COUNT, RAMDISK_SECTOR_SIZE in *. lia.
Qed.

Lemma ramdisk_write_run s fuel node d mem sector count buffer : ramdisk s node d mem ->
  0 <= sector <= RAMDISK_SECTOR_COUNT -> 0 <= count -> sector + count < 4294967296 ->
  let n := clipped sector count in
  n * RAMDISK_SECTOR_SIZE <= Z.of_nat (length buffer) ->
  exists s1, ramdisk_request pid pause kill (S fuel) node REQUEST_WRITE sector count buffer s = Ok ((n, buffer), s1) /\
    ramdisk s1 node d (put_sectors mem sector n buffer).
Proof.
  intros [(v & h & Hdev & Hq & Hm) Hlen] Hs Hc Hw n Hb. pose proof Hdev as [Hn Hv Hu Hd Hh].
  assert (Hnb : 0 <= n <= RAMDISK_SECTOR_COUNT - sector) by (unfold n, clipped; lia).
  assert (Hcopy : copy_at mem (sector * RAMDISK_SECTOR_SIZE) buffer (n * RAMDISK_SECTOR_SIZE) =
    Some (put_sectors mem sector n buffer)).
  { unfold copy_at. rewrite memcpy_spec; [|unfold RAMDISK_SECTOR_COUNT, RAMDISK_SECTOR_SIZE in *; rewrite ?length_drop, ?Hlen; lia..].
    cbn. unfold put_sectors. do 3 f_equal. rewrite drop_drop. f_equal. unfold RAMDISK_SECTOR_SIZE. lia. }
  exists (with_mem (h_pdata h) (put_sectors mem sector n buffer) s). split.
  - apply (ramdisk_request_run s _ _ _ _ _ _ _ _ v d h); try done; [|by apply device_with_mem]. fold n.
    change (REQUEST_WRITE =? REQUEST_READ) with false. change (REQUEST_WRITE =? REQUEST_WRITE) with true. cbv iota.
    rewrite (bind_run _ _ _ mem (with_handle d (set_queue [pid] h) s)).
    2: { apply get_mem_run. by rewrite mem_of_handle. }
    unfold get_or_fault. unfold bind at 1. rewrite Hcopy. rewrite (bind_run _ _ _ _ _ (put_mem_run _ _ _)).
    unfold ret. by rewrite with_mem_handle.
  - split.
    + exists v, h. split; [by apply device_with_mem|]. split; [done|]. rewrite mem_of_mem. apply lookup_insert_eq.
    + unfold put_sectors. rewrite !length_app, !length_take, length_drop, Hlen.
      unfold RAMDISK_SECTOR_COUNT, RAMDISK_SECTOR_SIZE in *. lia.
Qed.

Lemma sectors_put_same mem sector n buffer :
  length mem = Z.to_nat (RAMDISK_SECTOR_COUNT * RAMDISK_SECTOR_SIZE) ->
  0 <= sector <= RAMDISK_SECTOR_COUNT -> 0 <= n <= RAMDISK_SECTOR_COUNT - sector ->
  n * RAMDISK_SECTOR_SIZE <= Z.of_nat (length buffer) ->
  sectors (put_sectors mem sector n buffer) sector n = take (Z.to_nat (n * RAMDISK_SECTOR_SIZE)) buffer.
Proof.
  intros Hlen Hs Hn Hb. unfold sectors, put_sectors, RAMDISK_SECTOR_COUNT, RAMDISK_SECTOR_SIZE in *.
  rewrite drop_app_le by (rewrite length_take; lia). rewrite drop_ge by (rewrite length_take; lia). cbn [app].
  rewrite take_app_le by (rewrite length_take; lia). rewrite take_take. f_equal. lia.
Qed.

Lemma sectors_put_other mem sector n buffer i :
  length mem = Z.to_nat (RAMDISK_SECTOR_COUNT * RAMDISK_SECTOR_SIZE) ->
  0 <= sector <= RAMDISK_SECTOR_COUNT -> 0 <= n <= RAMDISK_SECTOR_COUNT - sector ->
  n * RAMDISK_SECTOR_SIZE <= Z.of_nat (length buffer) -> 0 <= i < sector \/ sector + n <= i ->
  sectors (put_sectors mem sector n buffer) i 1 = sectors mem i 1.
Proof.
  intros Hlen Hs Hn Hb Hi. unfold sectors, put_sectors, RAMDISK_SECTOR_COUNT, RAMDISK_SECTOR_SIZE in *.
  destruct Hi as [Hi|Hi].
  - rewrite drop_app_le by (rewrite length_take; lia). rewrite take_app_le by (rewrite length_drop, length_take; lia).
    rewrite List.skipn_firstn_comm, take_take. f_equal. lia.
  - rewrite (drop_app_ge (take _ mem)) by (rewrite length_take; lia).
    rewrite drop_app_ge by (rewrite !length_take; lia). rewrite drop_drop. do 2 f_equal. rewrite !length_take. lia.
Qed.

(** C22: What is written to the ram disk is read back: after a request that
    writes [count] sectors, a request that reads them gives the bytes written,
    and every sector outside keeps its bytes; both requests are cut at the end
    of the disk and leave the lock free. *)
Theorem ramdisk_write_read s fuel node d mem sector count buffer buffer' :
  ramdisk s node d mem ->
  0 <= sector <= RAMDISK_SECTOR_COUNT -> 0 <= count -> sector + count < 4294967296 ->
  let n := clipped sector count in
  n * RAMDISK_SECTOR_SIZE <= Z.of_nat (length buffer) -> n * RAMDISK_SECTOR_SIZE <= Z.of_nat (length buffer') ->
  exists s1 mem1,
    ramdisk_request pid pause kill (S fuel) node REQUEST_WRITE sector count buffer s = Ok ((n, buffer), s1) /\
    ramdisk s1 node d mem1 /\
    ramdisk_request pid pause kill (S fuel) node REQUEST_READ sector count buffer' s1 =
      Ok ((n, take (Z.to_nat (n * RAMDISK_SECTOR_SIZE)) buffer ++ drop (Z.to_nat (n * RAMDISK_SECTOR_SIZE)) buffer'), s1) /\
    (forall i, 0 <= i < sector \/ sector + n <= i -> sectors mem1 i 1 = sectors mem i 1).
Proof.
  intros Hrd Hs Hc Hw n Hb Hb'. assert (Hnb : 0 <= n <= RAMDISK_SECTOR_COUNT - sector) by (unfold n, clipped; lia).
  destruct (ramdisk_write_run s fuel node d mem sector count buffer) as (s1 & Hwr & Hrd1); [done..|].
  exists s1, (put_sectors mem sector n buffer). split; [done|]. split; [done|].
  pose proof (rd_len _ _ _ _ Hrd) as Hlen. split.
  - rewrite (ramdisk_read_run _ _ _ _ _ _ _ _ Hrd1) by done. fold n. do 3 f_equal. f_equal. by apply sectors_put_same.
  - intros i Hi. by apply sectors_put_other.
Qed.

(** A request for a sector behind the end of the ram disk reports 0
    sectors but keeps the lock of the device: from then on every other process
    that uses the ram disk waits for ever, unless another process changes the
    queue while it sleeps. *)
Theorem ramdisk_error_keeps_lock s fuel node d mem cmd sector count buffer pid2 :
  ramdisk s node d mem -> RAMDISK_SECTOR_COUNT < sector -> pid2 <> pid -> (forall s, pause s = Ok (tt, s)) ->
  exists s1, ramdisk_request pid pause kill (S fuel) node cmd sector count buffer s = Ok ((0, buffer), s1) /\
    forall fuel2 cmd2 sector2 count2 buffer2,
      ramdisk_request pid2 pause kill fuel2 node cmd2 sector2 count2 buffer2 s1 = Fuel.
Proof.
  intros [(v & h & Hdev & Hq & Hm) Hlen] Hs Hp Hpause.
  exists (with_handle d (set_queue [pid] h) s). split.
  - unfold ramdisk_request. rewrite (bind_run _ _ _ _ _ (device_lock_free _ _ _ _ _ _ Hdev Hq)).
    by replace (RAMDISK_SECTOR_COUNT <? sector) with true by lia.
  - intros fuel2 cmd2 sector2 count2 buffer2. unfold ramdisk_request, bind at 1.
    by rewrite (device_lock_waits pid2 pause _ fuel2 node v d (set_queue [pid] h) pid [] (device_with_handle _ _ _ _ _ _ Hdev)).
Qed.

(** No request moves more sectors than the disk has from its first one on,
    and a request whose sector numbers do not wrap never leaves the disk: it
    ends, with the number of sectors moved.  When [sector + count] wraps, the
    count is not cut, and a request for that many sectors leaves the disk. *)
Theorem ramdisk_request_bounds s fuel node d mem sector count buffer :
  ramdisk s node d mem -> 0 <= sector <= RAMDISK_SECTOR_COUNT -> 0 <= count < 4294967296 ->
  clipped sector count * RAMDISK_SECTOR_SIZE <= Z.of_nat (length buffer) ->
  (sector + count < 4294967296 -> exists n buffer' s',
     ramdisk_request pid pause kill (S fuel) node REQUEST_READ sector count buffer s = Ok ((n, buffer'), s') /\
     0 <= n <= RAMDISK_SECTOR_COUNT - sector /\ n <= count /\ length buffer' = length buffer) /\
  (4294967296 <= sector + count ->
     ramdisk_request pid pause kill (S fuel) node REQUEST_READ sector count buffer s = Fault).
Proof.
  intros Hrd Hs Hc Hb. split; intros Hw.
  - eexists _, _, _. split; [by apply ramdisk_read_run with (mem := mem) (d := d); try done; lia|].
    split; [unfold clipped; lia|]. split; [unfold clipped; lia|].
    pose proof (rd_len _ _ _ _ Hrd) as Hlen. unfold sectors.
    rewrite length_app, length_take, !length_drop, Hlen. unfold clipped, RAMDISK_SECTOR_COUNT, RAMDISK_SECTOR_SIZE in *. lia.
  - destruct Hrd as [(v & h & Hdev & Hq & Hm) Hlen]. pose proof Hdev as [Hn Hv Hu Hd Hh].
    unfold ramdisk_request. rewrite (bind_run _ _ _ _ _ (device_lock_free _ _ _ _ _ _ Hdev Hq)).
    replace (RAMDISK_SECTOR_COUNT <? sector) with false by (unfold RAMDISK_SECTOR_COUNT in *; lia).
    replace (RAMDISK_SECTOR_COUNT <? u32 (sector + count)) with false by (unfold RAMDISK_SECTOR_COUNT, u32 in *; lia).
    set (s0 := with_handle d _ s). rewrite (bind_run _ _ _ _ _ (get_vnode_Ok _ _ s0 Hv)), Hu.
    rewrite (bind_run _ _ _ _ _ (get_handle_run s0 d _ (with_handle_lookup _ _ _))).
    rewrite Z.eqb_refl. unfold bind at 1 2. cbn [set_queue h_pdata].
    rewrite (get_mem_run s0 _ mem) by (unfold s0; by rewrite mem_of_handle).
    unfold get_or_fault. rewrite memcpy_short; [done|]. rewrite length_drop, Hlen.
    unfold RAMDISK_SECTOR_COUNT, RAMDISK_SECTOR_SIZE, u32 in *. lia.
Qed.

End driver_facts.

(** ** The lock of one device, over all processes

    One step is what a process does between two points at which the timer can
    switch to another: putting its request into the queue is one step, because
    interrupts are disabled; so is taking it out.  A process is [Checking]
    before it compares the head of the queue with itself, [Pausing] once it
    has decided to sleep, [Paused] when its state is [TASK_BLOCKED]; the
    scheduler runs it again when a signal is pending, and nothing clears a
    signal.  A process that unlocks has first left the queue ([Unlocked]), then
    reads the new head ([Killing]), then sends it [SIGCONT]. *)
Module Lock.

Inductive lpc := Idle | Checking | Pausing | Paused | Inside | Unlocked | Killing (q : Z).

Record lock_state := LockState { queue : list Z; pc : Z -> lpc; sig : Z -> bool }.

Definition init : lock_state := LockState [] (fun _ => Idle) (fun _ => false).

Inductive event := Request (p : Z) | Enter (p : Z) | Leave (p : Z) | Tau.

Inductive step : lock_state -> event -> lock_state -> Prop :=
  | step_request s p : pc s p = Idle ->
      step s (Request p) (LockState (enqueue (queue s) p) (<[p := Checking]> (pc s)) (sig s))
  | step_enter s p : pc s p = Checking -> queue_head (queue s) = Some p ->
      step s (Enter p) (LockState (queue s) (<[p := Inside]> (pc s)) (sig s))
  | step_wait s p q : pc s p = Checking -> queue_head (queue s) = Some q -> q <> p ->
      step s Tau (LockState (queue s) (<[p := Pausing]> (pc s)) (sig s))
  | step_pause s p : pc s p = Pausing ->
      step s Tau (LockState (queue s) (<[p := Paused]> (pc s)) (sig s))
  | step_wake s p : pc s p = Paused -> sig s p = true ->
      step s Tau (LockState (queue s) (<[p := Checking]> (pc s)) (sig s))
  | step_leave s p rest : pc s p = Inside -> queue s = p :: rest ->
      step s (Leave p) (LockState rest (<[p := Unlocked]> (pc s)) (sig s))
  | step_no_next s p : pc s p = Unlocked -> queue_head (queue s) = None ->
      step s Tau (LockState (queue s) (<[p := Idle]> (pc s)) (sig s))
  | step_next s p q : pc s p = Unlocked -> queue_head (queue s) = Some q ->
      step s Tau (LockState (queue s) (<[p := Killing q]> (pc s)) (sig s))
  | step_kill s p q : pc s p = Killing q ->
      step s Tau (LockState (queue s) (<[p := Idle]> (pc s)) (<[q := true]> (sig s)))
  | step_signal s p : step s Tau (LockState (queue s) (pc s) (<[p := true]> (sig s))).

Inductive run : lock_state -> list event -> lock_state -> Prop :=
  | run_nil s : run s [] s
  | run_step s e s' tr s'' : run s tr s' -> step s' e s'' -> run s (tr ++ [e]) s''.

(** A process that has asked for the lock and not given it back. *)
Definition queued (c : lpc) : Prop := c = Checking \/ c = Pausing \/ c = Paused \/ c = Inside.

Record lock_inv (s : lock_state) : Prop := {
  li_nodup : NoDup (queue s);
  li_queued p : p ∈ queue s <-> queued (pc s p);
  li_inside p : pc s p = Inside -> queue_head (queue s) = Some p;
  li_wake h : queue_head (queue s) = Some h -> pc s h = Pausing \/ pc s h = Paused -> sig s h = false ->
    exists p, pc s p = Unlocked \/ pc s p = Killing h }.

Definition requests (tr : list event) : list Z := omap (fun e => match e with Request p => Some p | _ => None end) tr.
Definition enters (tr : list event) : list Z := omap (fun e => match e with Enter p => Some p | _ => None end) tr.
Definition leaves (tr : list event) : list Z := omap (fun e => match e with Leave p => Some p | _ => None end) tr.

Lemma lock_inv_init : lock_inv init.
Proof.
  split; cbn; try done; [by apply NoDup_nil|].
  intros p. split; [by intros ?%elem_of_nil|]. unfold queued. naive_solver.
Qed.

(** Looks one process up in an updated table. *)
Ltac lookup_pc :=
  repeat match goal with
  | H : context [<[?p := _]> ?f ?q] |- _ =>
      destruct (decide (p = q)) as [<-|]; [rewrite fn_lookup_insert in H|rewrite fn_lookup_insert_ne in H by done]
  | |- context [<[?p := _]> ?f ?q] =>
      destruct (decide (p = q)) as [<-|]; [rewrite fn_lookup_insert|rewrite fn_lookup_insert_ne by done]
  end.

Lemma head_elem (q : list Z) p : queue_head q = Some p -> p ∈ q.
Proof. destruct q; cbn; [done|]. intros [= ->]. apply list_elem_of_here. Qed.

(** A process that changes its place but not whether it is queued. *)
Lemma li_queued_keep s p c : queued (pc s p) <-> queued c -> (forall r, r ∈ queue s <-> queued (pc s r)) ->
  forall r, r ∈ queue s <-> queued (<[p := c]> (pc s) r).
Proof. intros Hc Hq r. lookup_pc; rewrite Hq; naive_solver. Qed.

Lemma step_queued s e s' : lock_inv s -> step s e s' -> forall r, r ∈ queue s' <-> queued (pc s' r).
Proof.
  intros [Hn Hq Hi Hw] Hstep. destruct Hstep as [s p Hp|s p Hp|s p q Hp|s p Hp|s p Hp|s p rest Hp Hl|s p Hp|s p q Hp|s p q Hp|s p];
    cbn [queue pc sig]; try (apply li_queued_keep; [rewrite Hp; unfold queued; naive_solver|done]).
  - intros r. unfold enqueue. rewrite elem_of_app, list_elem_of_singleton, Hq.
    lookup_pc; [|naive_solver]. unfold queued. naive_solver.
  - intros r. rewrite Hl in Hn, Hq. apply NoDup_cons in Hn as [Hn _]. specialize (Hq r).
    rewrite elem_of_cons in Hq. lookup_pc; [unfold queued; naive_solver|]. naive_solver.
  - done.
Qed.

Lemma step_nodup s e s' : lock_inv s -> step s e s' -> NoDup (queue s').
Proof.
  intros [Hn Hq Hi Hw] Hstep. destruct Hstep as [s p Hp| | | | |s p rest Hp Hl| | | |]; cbn [queue]; try done.
  - apply NoDup_app. split; [done|]. split; [|apply NoDup_singleton].
    intros r Hr ->%list_elem_of_singleton. apply Hq in Hr. rewrite Hp in Hr. unfold queued in Hr. naive_solver.
  - rewrite Hl in Hn. by apply NoDup_cons in Hn as [_ ?].
Qed.

Lemma step_inside s e s' : lock_inv s -> step s e s' -> forall r, pc s' r = Inside -> queue_head (queue s') = Some r.
Proof.
  intros [Hn Hq Hi Hw] Hstep r. destruct Hstep as [s p Hp| | | | |s p rest Hp Hl| | | |]; cbn [queue pc]; intros Hr;
    lookup_pc; try done; try by apply Hi.
  - apply Hi in Hr. by destruct (queue s).
  - apply Hi in Hr. rewrite Hl in Hr. cbn in Hr. congruence.
Qed.

(** A process that does not notify changes its place. *)
Lemma notifier_keep s p c h : pc s p <> Unlocked /\ pc s p <> Killing h ->
  (exists x, pc s x = Unlocked \/ pc s x = Killing h) ->
  exists x, <[p := c]> (pc s) x = Unlocked \/ <[p := c]> (pc s) x = Killing h.
Proof.
  intros [Hu Hk] [x Hx]. exists x. rewrite fn_lookup_insert_ne; [done|]. intros <-. naive_solver.
Qed.

Lemma step_wakes s e s' : lock_inv s -> step s e s' -> forall h, queue_head (queue s') = Some h ->
  pc s' h = Pausing \/ pc s' h = Paused -> sig s' h = false ->
  exists p, pc s' p = Unlocked \/ pc s' p = Killing h.
Proof.
  intros [Hn Hq Hi Hw] Hstep h.
  destruct Hstep as [s p Hp|s p Hp Hh|s p q Hp Hh Hne|s p Hp|s p Hp Hs|s p rest Hp Hl|s p Hp Hh|s p q Hp Hh|s p q Hp|s p];
    cbn [queue pc sig]; intros Hq' Hpc Hsig.
  - destruct (decide (p = h)) as [<-|Hph]; rewrite ?fn_lookup_insert, ?fn_lookup_insert_ne in Hpc by done; [naive_solver|].
    apply (notifier_keep s p _ h); [rewrite Hp; naive_solver|]. apply Hw; [|done..].
    destruct (queue s); cbn in *; congruence.
  - lookup_pc; [naive_solver|]. apply (notifier_keep s p _ h); [rewrite Hp; naive_solver|]. by apply Hw.
  - lookup_pc; [congruence|]. apply (notifier_keep s p _ h); [rewrite Hp; naive_solver|]. by apply Hw.
  - apply (notifier_keep s p _ h); [rewrite Hp; naive_solver|]. apply Hw; [done| |done]. lookup_pc; [by left|done].
  - lookup_pc; [naive_solver|]. apply (notifier_keep s p _ h); [rewrite Hp; naive_solver|]. by apply Hw.
  - exists p. rewrite fn_lookup_insert. by left.
  - congruence.
  - simplify_eq. exists p. rewrite fn_lookup_insert. by right.
  - destruct (decide (q = h)) as [<-|Hqh]; [by rewrite fn_lookup_insert in Hsig|]. rewrite fn_lookup_insert_ne in Hsig by done.
    lookup_pc; [naive_solver|]. apply (notifier_keep s p _ h); [rewrite Hp; naive_solver|]. by apply Hw.
  - apply Hw; try done. lookup_pc; done.
Qed.

Lemma lock_inv_step s e s' : lock_inv s -> step s e s' -> lock_inv s'.
Proof.
  intros Hinv Hstep. split; [by eapply step_nodup|by eapply step_queued|by eapply step_inside|by eapply step_wakes].
Qed.

Lemma lock_inv_run tr s : run init tr s -> lock_inv s.
Proof. intros Hrun. remember init as s0. induction Hrun; subst; [apply lock_inv_init|by eapply lock_inv_step; eauto]. Qed.

Lemma run_app s tr s' tr' s'' : run s tr s' -> run s' tr' s'' -> run s (tr ++ tr') s''.
Proof. intros H1 H2. induction H2; [by rewrite app_nil_r|]. rewrite app_assoc. econstructor; eauto. Qed.
Lemma run_one s e s' : step s e s' -> run s [e] s'.
Proof. intros Hs. by apply (run_step s e s []); [constructor|]. Qed.

(** The head of the queue, once awake, gets the lock. *)
Lemma checking_enters s h : pc s h = Checking -> queue_head (queue s) = Some h ->
  exists s', run s [Enter h] s' /\ pc s' h = Inside.
Proof.
  intros Hc Hh. eexists. split; [by apply run_one, step_enter|]. cbn. apply fn_lookup_insert.
Qed.
Lemma signalled_enters s h : pc s h = Paused -> queue_head (queue s) = Some h -> sig s h = true ->
  exists s', run s [Tau; Enter h] s' /\ pc s' h = Inside.
Proof.
  intros Hc Hh Hs. destruct (checking_enters (LockState (queue s) (<[h := Checking]> (pc s)) (sig s)) h) as (s' & Hr & He);
    [apply fn_lookup_insert|done|].
  exists s'. split; [|done]. by apply (run_app _ [Tau] _ [Enter h] _ (run_one _ _ _ (step_wake s h Hc Hs))).
Qed.
(** If it sleeps without a signal, the process that left the queue sends one. *)
Lemma paused_signalled s h : lock_inv s -> pc s h = Paused -> queue_head (queue s) = Some h -> sig s h = false ->
  exists s' tr, run s tr s' /\ requests tr = [] /\ pc s' h = Paused /\ queue_head (queue s') = Some h /\ sig s' h = true.
Proof.
  intros Hinv Hp Hh Hs. destruct (li_wake s Hinv h Hh (or_intror Hp) Hs) as [x Hx].
  assert (Hxh : x <> h) by (intros ->; rewrite Hp in Hx; naive_solver).
  assert (Hkill : forall s1, pc s1 x = Killing h -> pc s1 h = Paused -> queue_head (queue s1) = Some h ->
    exists s', run s1 [Tau] s' /\ pc s' h = Paused /\ queue_head (queue s') = Some h /\ sig s' h = true).
  { intros s1 Hk H1 H2. eexists. split; [by apply run_one, step_kill|]. cbn. by rewrite fn_lookup_insert_ne, fn_lookup_insert. }
  destruct Hx as [Hx|Hx].
  - destruct (Hkill (LockState (queue s) (<[x := Killing h]> (pc s)) (sig s))) as (s' & Hr & Hrest);
      [apply fn_lookup_insert|by cbn; rewrite fn_lookup_insert_ne|done|].
    exists s', ([Tau] ++ [Tau]). split; [|done].
    by apply (run_app _ _ _ _ _ (run_one _ _ _ (step_next s x h Hx Hh))).
  - destruct (Hkill s Hx Hp Hh) as (s' & Hr & Hrest). by exists s', [Tau].
Qed.

(** C10: Two processes are never both between [device_lock] and
    [device_unlock] of a device, whatever the order in which they are
    switched. *)
Theorem device_lock_mutex tr s p q : run init tr s -> pc s p = Inside -> pc s q = Inside -> p = q.
Proof. intros Hr%lock_inv_run Hp%(li_inside s Hr) Hq%(li_inside s Hr). congruence. Qed.


(** The process that has the lock. *)
Definition owner (q : list Z) (f : Z -> lpc) : list Z :=
  match q with p :: _ => match f p with Inside => [p] | _ => [] end | [] => [] end.

Lemma owner_keep q f p c : f p <> Inside -> c <> Inside -> owner q (<[p := c]> f) = owner q f.
Proof.
  intros Hf Hc. destruct q as [|h q]; cbn; [done|]. destruct (decide (p = h)) as [<-|].
  - rewrite fn_lookup_insert. by destruct c, (f p).
  - by rewrite fn_lookup_insert_ne.
Qed.

(** The processes that have given the lock back, then those in the queue, are
    those that asked, in that order; those that got it are the first of them. *)
Lemma lock_order tr s : run init tr s ->
  requests tr = leaves tr ++ queue s /\ enters tr = leaves tr ++ owner (queue s) (pc s).
Proof.
  intros Hrun. remember init as s0 eqn:E0. induction Hrun as [s|s e s' tr s'' Hrun IH Hstep]; subst; [done|].
  pose proof (lock_inv_run _ _ Hrun) as Hinv. destruct (IH eq_refl) as [Hr He]. clear IH.
  unfold requests, enters, leaves in *. rewrite !omap_app, Hr, He.
  destruct Hstep as [s p Hp|s p Hp Hh|s p q Hp Hh Hne|s p Hp|s p Hp Hs|s p rest Hp Hl|s p Hp Hh|s p q Hp Hh|s p q Hp|s p];
    cbn [queue pc omap list_omap]; rewrite ?app_nil_r; try (rewrite owner_keep; [done|by rewrite Hp|done]); try done.
  - unfold enqueue. split; [by rewrite app_assoc|]. f_equal. destruct (queue s) as [|h q] eqn:Eq; cbn.
    + by rewrite fn_lookup_insert.
    + rewrite fn_lookup_insert_ne; [done|]. intros ->.
      assert (Hq : h ∈ queue s) by (rewrite Eq; apply list_elem_of_here).
      apply (li_queued s Hinv) in Hq. rewrite Hp in Hq. unfold queued in Hq. naive_solver.
  - split; [done|]. destruct (queue s) as [|h q] eqn:Eq; [done|]. cbn in Hh |- *. simplify_eq.
    by rewrite fn_lookup_insert, Hp, app_nil_r.
  - rewrite Hl. split; [by rewrite <- app_assoc|]. rewrite <- !app_assoc. f_equal. cbn. rewrite Hp. cbn. f_equal.
    pose proof (li_nodup s Hinv) as Hn. rewrite Hl in Hn. apply NoDup_cons in Hn as [Hn _].
    destruct rest as [|r rest]; cbn; [done|]. rewrite fn_lookup_insert_ne by (intros ->; apply Hn, list_elem_of_here).
    destruct (pc s r) eqn:Er; try done. apply (li_inside s Hinv) in Er. rewrite Hl in Er. cbn in Er. simplify_eq.
    exfalso. apply Hn, list_elem_of_here.
Qed.


End Lock.

(** ** Witnesses: the ram disk alone *)

Definition devices : Type := devfs_state * drv_state.
#[export] Instance devices_devfs : Sub devfs_state devices := { proj f := fst f; inj d f := (d, snd f) }.
#[export] Instance devices_drv : Sub drv_state devices := { proj f := snd f; inj d f := (fst f, d) }.
#[export] Instance devices_devfs_laws : SubLaws devfs_state devices.
Proof. split; [done..|by intros []]. Qed.
#[export] Instance devices_drv_laws : SubLaws drv_state devices.
Proof. split; [done..|by intros []]. Qed.
#[export] Instance devices_disj : SubDisj devfs_state drv_state devices.
Proof. done. Qed.

Definition no_pause : M (vstate devices) unit := ret tt.
Definition no_kill : Z -> Z -> M (vstate devices) unit := fun _ _ => ret tt.
Definition empty_disk : list Z := replicate (Z.to_nat (RAMDISK_SECTOR_COUNT * RAMDISK_SECTOR_SIZE)) 0.
Definition ram0_handle : devfs_handle := DevfsHandle 7 1 0 0 432 FS_BLOCKDEVICE 1 900 [] [] 512 2880 11 500 60.
Definition ram0_node : vnode := Vnode 7 1 1 0 0 432 FS_BLOCKDEVICE 1 0 0 0 0 100 1011 40 0 0.
Definition ramdisk_sample : vstate devices :=
  VState {[ 60 := ram0_node ]} ∅ ∅ ∅ [] ∅ [] 0 1000 task_zero
    (DevfsState {[ 40 := ram0_handle ]} [40] 8 100 500, DrvState {[ 900 := empty_disk ]}).

Lemma ramdisk_sample_ready : ramdisk ramdisk_sample 60 40 empty_disk.
Proof.
  split; [|apply length_replicate]. exists ram0_node, ram0_handle. split; [split; done|]. split; [done|].
  apply lookup_singleton_eq.
Qed.

Lemma ramdisk_write_read_witness : exists s1,
  ramdisk_request 3 no_pause no_kill 1 60 REQUEST_WRITE 5 1 (replicate 512 7) ramdisk_sample =
    Ok ((1, replicate 512 7), s1) /\
  ramdisk_request 3 no_pause no_kill 1 60 REQUEST_READ 5 1 (replicate 512 9) s1 = Ok ((1, replicate 512 7), s1).
Proof.
  destruct (ramdisk_write_read 3 no_pause no_kill ramdisk_sample 0 60 40 empty_disk 5 1 (replicate 512 7) (replicate 512 9))
    as (s1 & mem1 & Hw & _ & Hr & _).
  - exact ramdisk_sample_ready.
  - unfold RAMDISK_SECTOR_COUNT. lia.
  - lia.
  - lia.
  - rewrite length_replicate. unfold clipped, RAMDISK_SECTOR_COUNT, RAMDISK_SECTOR_SIZE. lia.
  - rewrite length_replicate. unfold clipped, RAMDISK_SECTOR_COUNT, RAMDISK_SECTOR_SIZE. lia.
  - exists s1. split; [exact Hw|exact Hr].
Defined.

Lemma ramdisk_error_keeps_lock_witness : exists s1,
  ramdisk_request 3 no_pause no_kill 1 60 REQUEST_READ 3000 1 [] ramdisk_sample = Ok ((0, []), s1) /\
  ramdisk_request 4 no_pause no_kill 100 60 REQUEST_READ 0 1 [] s1 = Fuel.
Proof.
  destruct (ramdisk_error_keeps_lock 3 no_pause no_kill ramdisk_sample 0 60 40 empty_disk REQUEST_READ 3000 1 [] 4)
    as (s1 & Hr & Hl).
  - exact ramdisk_sample_ready.
  - unfold RAMDISK_SECTOR_COUNT. lia.
  - lia.
  - intros s'. reflexivity.
  - exists s1. split; [exact Hr|apply Hl].
Defined.

Lemma ramdisk_request_bounds_witness :
  ramdisk_request 3 no_pause no_kill 1 60 REQUEST_READ 1 4294967295 (replicate (512 * 2879) 0) ramdisk_sample = Fault.
Proof.
  apply (ramdisk_request_bounds 3 no_pause no_kill ramdisk_sample 0 60 40 empty_disk 1 4294967295).
  - exact ramdisk_sample_ready.
  - unfold RAMDISK_SECTOR_COUNT. lia.
  - lia.
  - rewrite length_replicate. unfold clipped, RAMDISK_SECTOR_COUNT, RAMDISK_SECTOR_SIZE. lia.
  - lia.
Defined.

(** Process 1 gets the lock, process 2 decides to sleep, then 1 gives it back. *)
Lemma late_sleeper_run : exists s, Lock.run Lock.init
  [Lock.Request 1; Lock.Enter 1; Lock.Request 2; Lock.Tau; Lock.Leave 1] s /\
  queue_head (Lock.queue s) = Some 2 /\ Lock.pc s 2 = Lock.Pausing.
Proof.
  eexists. split.
  - eapply (Lock.run_step _ _ _ [_; _; _; _] _).
    1: eapply (Lock.run_step _ _ _ [_; _; _] _).
    1: eapply (Lock.run_step _ _ _ [_; _] _).
    1: eapply (Lock.run_step _ _ _ [_] _).
    1: eapply (Lock.run_step _ _ _ [] _ (Lock.run_nil _)).
    1: apply (Lock.step_request _ 1); reflexivity.
    1: apply (Lock.step_enter _ 1); reflexivity.
    1: apply (Lock.step_request _ 2); reflexivity.
    1: apply (Lock.step_wait _ 2 1); [reflexivity|reflexivity|discriminate].
    apply (Lock.step_leave _ 1 [2]); reflexivity.
  - split; reflexivity.
Qed.



Lemma device_lock_mutex_witness : exists s, Lock.pc s 1 = Lock.Inside /\ forall q, Lock.pc s q = Lock.Inside -> 1 = q.
Proof.
  eexists. split; [|intros q; refine (Lock.device_lock_mutex [Lock.Request 1; Lock.Enter 1] _ 1 q _ _)].
  2: { eapply (Lock.run_step _ _ _ [_] _).
    1: eapply (Lock.run_step _ _ _ [] _ (Lock.run_nil _)).
    1: apply (Lock.step_request _ 1); reflexivity.
    apply (Lock.step_enter _ 1); reflexivity. }
  all: reflexivity.
Defined.
