(* ===== verification/Ext2.v ===== *)
(** * The block buffer and the ext2 file system:
    [src/src/fs/vfs/buffer.c], [src/src/fs/ext2/]

    A read-only ext2: the super block and the group descriptors are read at
    the mount, inodes and directories through [fs_read_block], which asks the
    block device of the super block.  A buffer is the list of its bytes; what
    [malloc] leaves in a fresh one is [fresh].  A pointer into a directory's
    buffer is its offset. *)
From S2P Require Import Prelude CString Abi Vfs Namei Initrdfs Devfs Drivers.
Open Scope nup_scope.

Definition EXT2_MAGIC : Z := 0xEF53.
Definition EXT2_TYPE_FIFO : Z := 0x1000.
Definition EXT2_TYPE_CHAR : Z := 0x2000.
Definition EXT2_TYPE_DIR : Z := 0x4000.
Definition EXT2_TYPE_BLOCK : Z := 0x6000.
Definition EXT2_TYPE_FILE : Z := 0x8000.
Definition EXT2_TYPE_LINK : Z := 0xA000.
Definition EXT2_N_BLOCKS : Z := 15.
Definition EXT2_NDIR_BLOCKS : Z := 12.
Definition EXT2_ROOT_INO : Z := 2.

(** The fields of the structures the code reads. *)
Record ext2_inode := Ext2Inode {
  i_mode : Z; i_uid : Z; i_size : Z; i_atime : Z; i_ctime : Z; i_mtime : Z; i_gid : Z; i_nlinks : Z;
  i_block : list Z }.
Definition sizeof_ext2_inode : Z := 128.
Record ext2_group_dt := Ext2GroupDt { bg_block_bitmap : Z; bg_inode_bitmap : Z; bg_inode_table : Z }.
Definition sizeof_ext2_group_dt : Z := 32.
Record ext2_group := Ext2Group { inode_bitmap : list Z; block_bitmap : list Z; phys : ext2_group_dt }.
Record ext2_sb := Ext2Sb {
  s_inodes_count : Z; s_blocks_count : Z; s_first_data_block : Z; s_log_block_size : Z;
  s_blocks_per_group : Z; s_inodes_per_group : Z; s_magic : Z; s_ino_size : Z }.
Definition sizeof_ext2_sb : Z := 200.
Record ext2_discr := Ext2Discr {
  pysb : ext2_sb; groups : list ext2_group; group_count : Z; inodes_per_block : Z }.

Record ext2_state := Ext2State { ext2_inodes : gmap Z ext2_inode; ext2_discrs : gmap Z ext2_discr }.

Definition le16 (img : list Z) (off : Z) : option Z := le <$> slice img off 2.

(** [n] words from [off] on. *)
Fixpoint le32s (n : nat) (img : list Z) (off : Z) : option (list Z) :=
  match n with
  | O => Some []
  | S n => x ← le32 img off; l ← le32s n img (off + 4); Some (x :: l)
  end.

Definition read_ext2_inode (img : list Z) (off : Z) : option ext2_inode :=
  m ← le16 img off; w ← le16 img (off + 2); s ← le32 img (off + 4); a ← le32 img (off + 8);
  c ← le32 img (off + 12); mt ← le32 img (off + 16); g ← le16 img (off + 24); n ← le16 img (off + 26);
  b ← le32s (Z.to_nat EXT2_N_BLOCKS) img (off + 40);
  _ ← slice img off sizeof_ext2_inode;
  Some (Ext2Inode m w s a c mt g n b).
Definition read_ext2_group_dt (img : list Z) : option ext2_group_dt :=
  b ← le32 img 0; i ← le32 img 4; t ← le32 img 8;
  _ ← slice img 0 sizeof_ext2_group_dt; Some (Ext2GroupDt b i t).
Definition read_ext2_super (img : list Z) : option ext2_sb :=
  ic ← le32 img 0; bc ← le32 img 4; fd ← le32 img 20; lb ← le32 img 24; bg ← le32 img 32; ig ← le32 img 40;
  mg ← le16 img 56; isz ← le16 img 88;
  _ ← slice img 0 sizeof_ext2_sb; Some (Ext2Sb ic bc fd lb bg ig mg isz).

(** Division of the processor: by zero it faults. *)
Definition udiv (a b : Z) : option Z := if b =? 0 then None else Some (a / b).
Definition umod (a b : Z) : option Z := if b =? 0 then None else Some (a mod b).

Section ext2.
Context {F : Type} `{FsOps F} `{Sub devfs_state F} `{Sub ext2_state F}.
Local Abbreviation VM := (M (vstate F)).
(** The address of [ext2_i_ops], and the contents of fresh memory. *)
Context (EXT2_I_OPS : Z) (fresh : Z -> list Z).

Definition lift {A} (x : option A) : VM A := get_or_fault (fun _ => x).

Definition estate (s : vstate F) : ext2_state := proj (fsd s).
Definition upd_ext (f : ext2_state -> ext2_state) : VM unit :=
  modify (fun s => set_fsd (inj (f (estate s)) (fsd s)) s).
Definition get_ext2_inode (p : Z) : VM ext2_inode := get_or_fault (fun s => ext2_inodes (estate s) !! p).
Definition put_ext2_inode (p : Z) (i : ext2_inode) : VM unit :=
  upd_ext (fun e => Ext2State (<[p := i]> (ext2_inodes e)) (ext2_discrs e)).
Definition free_ext2_inode (p : Z) : VM unit :=
  upd_ext (fun e => Ext2State (delete p (ext2_inodes e)) (ext2_discrs e)).
Definition get_discr (p : Z) : VM ext2_discr := get_or_fault (fun s => ext2_discrs (estate s) !! p).
Definition put_discr (p : Z) (d : ext2_discr) : VM unit :=
  upd_ext (fun e => Ext2State (ext2_inodes e) (<[p := d]> (ext2_discrs e))).
Definition free_ext2_discr (p : Z) : VM unit :=
  upd_ext (fun e => Ext2State (ext2_inodes e) (delete p (ext2_discrs e))).

(** ** The block buffer: buffer.c *)

Definition fs_read_block (b block cnt : Z) (buffer : list Z) : VM (Z * list Z) :=
  let! sblk := get_sb b in
  let! v := get_vnode (sb_dev sblk) in
  let! h := get_handle (u v) in
  let! start_sector := lift (udiv (skip_bytes sblk) (h_bsize h)) in
  let! sec_block := lift (udiv (blocksize sblk) (h_bsize h)) in
  request_fs (sb_dev sblk) REQUEST_READ (u32 (block * sec_block + start_sector)) (u32 (cnt * sec_block)) buffer.

(** ** super.c *)

Definition ext2_read_block (b block : Z) (buffer : list Z) : VM (Z * list Z) :=
  if block =? 0 then let! z := lift (memset buffer 0 1024) in ret (2, z)
  else fs_read_block b (u32 (block - 1)) 1 buffer.

Definition ext2_inode_used (inode_bitmap : list Z) (group_off : Z) : option bool :=
  x ← aget inode_bitmap (group_off / 8); Some (test x (Z.shiftl 1 (group_off mod 8))).

(** The kind of an inode, [None] for the default case. *)
Definition ext2_flags (i : ext2_inode) : option Z :=
  let t := Z.land (i_mode i) 0xF000 in
  if t =? EXT2_TYPE_FIFO then Some FS_PIPE
  else if t =? EXT2_TYPE_CHAR then Some FS_CHARDEVICE
  else if t =? EXT2_TYPE_DIR then Some FS_DIRECTORY
  else if t =? EXT2_TYPE_BLOCK then Some FS_BLOCKDEVICE
  else if t =? EXT2_TYPE_FILE then Some FS_FILE
  else if t =? EXT2_TYPE_LINK then Some FS_SYMLINK
  else None.

Definition ext2_read_inode (node : Z) : VM unit :=
  let! v := get_vnode node in
  let! sblk := get_sb (sb v) in
  let! discr := get_discr (sb_u sblk) in
  if (ino v =? 0) || (s_inodes_count (pysb discr) <? ino v) then ret tt
  else
    let! group := lift (udiv (ino v - 1) (s_inodes_per_group (pysb discr))) in
    if group_count discr <=? group then ret tt
    else
      let! goff := lift (umod (ino v - 1) (s_inodes_per_group (pysb discr))) in
      let! g := lift (aget (groups discr) group) in
      let! used := lift (ext2_inode_used (inode_bitmap g) goff) in
      if negb used then ret tt
      else
        let! q := lift (udiv goff (inodes_per_block discr)) in
        let! ' (err, buf) := ext2_read_block (sb v) (u32 (bg_inode_table (phys g) + q)) (fresh (blocksize sblk)) in
        if err <=? 0 then ret tt
        else
          let! i := lift (read_ext2_inode buf ((goff mod inodes_per_block discr) * s_ino_size (pysb discr))) in
          let! v := get_vnode node in
          let v := Vnode (ino v) (count v) (nlinks v) (uid v) (gid v) (Z.land (i_mode i) 0x1FF) (flags v) (size v)
            (i_atime i) (i_mtime i) (i_ctime i) (dev v) (sb v) (i_op v) (u v) (mount v) (cover v) in
          match ext2_flags i with
          | None => put_vnode node v
          | Some fl =>
              let! p := new_ptr in
              do! put_ext2_inode p i;
              put_vnode node (Vnode (ino v) (count v) (u8 (i_nlinks i)) (i_uid i) (i_gid i) (mode v) fl (i_size i)
                (atime v) (mtime v) (ctime v) (dev v) (sb v) EXT2_I_OPS p (mount v) (cover v))
          end.

Definition ext2_put_inode (node : Z) : VM unit :=
  let! v := get_vnode node in if count v =? 1 then free_ext2_inode (u v) else ret tt.

Definition ext2_put_super (b : Z) : VM unit := let! sblk := get_sb b in free_ext2_discr (sb_u sblk).

Definition ext2_s_ops : super_operations F :=
  SuperOperations (Some ext2_read_inode) (Some ext2_put_inode) (Some ext2_put_super).

Definition ext2_sb_of (sblk : super_block) (sop bsize bits skip u_ : Z) : super_block :=
  SuperBlock (sb_dev sblk) (sb_flags sblk) (sb_type sblk) sop bsize bits skip (sb_root sblk) u_ (sb_mi sblk)
    (cache sblk).

(** One round of the loop over the groups; [None] for a block that could not
    be read.  [buf] is the array of 1024 bytes on the stack. *)
Definition read_group (b : Z) (py : ext2_sb) (bsize i : Z) (buf : list Z) : VM (option (ext2_group * list Z)) :=
  let! ' (err, buf) := ext2_read_block b (u32 (s_first_data_block py + s_blocks_per_group py * i + 1)) buf in
  if err <=? 0 then ret None
  else
    let! ph := lift (read_ext2_group_dt buf) in
    let! ' (err, ib) := ext2_read_block b (bg_inode_bitmap ph) (fresh bsize) in
    if err <=? 0 then ret None
    else
      let! ' (err, bb) := ext2_read_block b (bg_block_bitmap ph) (fresh bsize) in
      if err <=? 0 then ret None else ret (Some (Ext2Group ib bb ph, buf)).

Fixpoint read_groups (n : nat) (b : Z) (py : ext2_sb) (bsize i : Z) (buf : list Z) : VM (option (list ext2_group)) :=
  match n with
  | O => ret (Some [])
  | S n =>
      let! g := read_group b py bsize i buf in
      match g with
      | None => ret None
      | Some (g, buf) =>
          let! l := read_groups n b py bsize (i + 1) buf in
          ret (match l with Some l => Some (g :: l) | None => None end)
      end
  end.

Definition read_ext2_sb (EXT2_S_OPS b data : Z) : VM Z :=
  let! sblk := get_sb b in
  do! put_sb b (ext2_sb_of sblk (s_op sblk) 0x400 (blocksize_bits sblk) 0x400 (sb_u sblk));
  let! ' (err, buf) := ext2_read_block b 1 (fresh 1024) in
  if err <=? 0 then ret 0
  else
    let! py := lift (read_ext2_super buf) in
    if negb (s_magic py =? EXT2_MAGIC) then ret 0
    else
      let bsize := u32 (Z.shiftl 0x400 (s_log_block_size py mod 32)) in
      let! discr := new_ptr in
      let! sblk := get_sb b in
      do! put_sb b (ext2_sb_of sblk (s_op sblk) bsize (u8 (s_log_block_size py + 10)) 0x400 discr);
      let! ipb := lift (udiv bsize (s_ino_size py)) in
      let! q := lift (udiv (s_blocks_count py) (s_blocks_per_group py)) in
      let gcount := u32 (q + 1) in
      let! gs := read_groups (Z.to_nat gcount) b py bsize 0 buf in
      match gs with
      | None => ret 0
      | Some gs =>
          do! put_discr discr (Ext2Discr py gs gcount ipb);
          let! sblk := get_sb b in
          do! put_sb b (ext2_sb_of sblk EXT2_S_OPS (blocksize sblk) (blocksize_bits sblk) (skip_bytes sblk) (sb_u sblk));
          let! root := iget b EXT2_ROOT_INO in
          let! sblk := get_sb b in
          do! put_sb b (SuperBlock (sb_dev sblk) (sb_flags sblk) (sb_type sblk) (s_op sblk) (blocksize sblk)
            (blocksize_bits sblk) (skip_bytes sblk) root (sb_u sblk) (sb_mi sblk) (cache sblk));
          ret b
      end.

(** ** inode.c *)

Definition file_ext2_block (node : ext2_inode) (block : Z) : option Z :=
  if block <? EXT2_NDIR_BLOCKS then aget (i_block node) block else Some 0.

(** Reads the blocks from [block] on, [n] of them, each whole; the bytes
    stored at [buffer] in turn. *)
Fixpoint read_blocks (n : nat) (b : Z) (node : ext2_inode) (block : Z) (buf : list Z) : VM (Z * list Z * list Z) :=
  match n with
  | O => ret (1, [], buf)
  | S n =>
      let! p := lift (file_ext2_block node block) in
      let! ' (err, buf) := ext2_read_block b p buf in
      if err <=? 0 then ret (err, [], buf)
      else
        let! ' (err, out, buf') := read_blocks n b node (block + 1) buf in
        ret (err, buf ++ out, buf')
  end.

(** The result and the bytes stored from [buffer] on. *)
Definition ext2_read (node offset sz : Z) : VM (Z * list Z) :=
  let! v := get_vnode node in
  let! sblk := get_sb (sb v) in
  let bs := blocksize sblk in
  if size v <? offset then ret (0, [])
  else
    let sz := if size v <? u32 (offset + sz) then u32 (size v - offset) else sz in
    let! b_s := lift (udiv offset bs) in
    let! boff := lift (umod offset bs) in
    let! b_e := lift (udiv (u32 (offset + sz - 1)) bs) in
    let! i := get_ext2_inode (u v) in
    let! p := lift (file_ext2_block i b_s) in
    let! ' (err, buf) := ext2_read_block (sb v) p (fresh bs) in
    if err <=? 0 then ret (- EIO, [])
    else
      let first := drop (Z.to_nat boff) buf in
      let! ' (err, middle, buf) := read_blocks (Z.to_nat (b_e - (b_s + 1))) (sb v) i (b_s + 1) buf in
      if err <=? 0 then ret (- EIO, first ++ middle)
      else if b_s =? b_e then ret (s32 sz, first ++ middle)
      else
        let! p := lift (file_ext2_block i b_e) in
        let! ' (err, buf) := ext2_read_block (sb v) p buf in
        if err <=? 0 then ret (- EIO, first ++ middle)
        else ret (s32 sz, first ++ middle ++ take (Z.to_nat (u32 (offset + sz) mod bs)) buf).

(** A directory read into memory of its size: writing behind it is a fault. *)
Definition read_dir (dir : Z) : VM (Z * list Z * vnode) :=
  let! v := get_vnode dir in
  let! ' (err, out) := ext2_read dir 0 (size v) in
  let! buffer := lift (if (length out <=? Z.to_nat (size v))%nat
                       then Some (out ++ drop (length out) (fresh (size v))) else None) in
  ret (err, buffer, v).

(** [while (index--)]: [None] when the walk ends early. *)
Fixpoint skip_entries (index : nat) (buffer : list Z) (ent read_size : Z) : option (option Z) :=
  match index with
  | O => Some (Some ent)
  | S index =>
      rl ← le16 buffer (ent + 4);
      let read_size := s32 (read_size - rl) in
      if (read_size <=? 0) || (rl =? 0) then Some None
      else skip_entries index buffer (ent + rl) read_size
  end.

(** [d_name0] and [d_type0] are what the caller's structure holds. *)
Definition ext2_readdir (d_name0 : list Z) (d_type0 : Z) (dir index : Z) : VM (Z * option dirent) :=
  let! ' (err, buffer, v) := read_dir dir in
  if err <=? 0 then ret (err, None)
  else
    let! e := lift (skip_entries (Z.to_nat index) buffer 0 (s32 (size v))) in
    match e with
    | None => ret (- EINVAL, None)
    | Some ent =>
        let! i := lift (le32 buffer ent) in
        if i =? 0 then ret (- EINVAL, None)
        else
          let! name := lift (chars_at buffer (ent + 8)) in
          let! d := lift (strncpy d_name0 name VFS_NAME_LEN) in
          let! len := lift (strlen d) in
          let! nl := lift (byte_at buffer (ent + 6)) in
          let! d := lift (aset d nl 0) in
          ret (0, Some (Dirent i d len d_type0))
    end.

(** The walk over the entries: the number of the first entry that matches.
    The size left is counted down by the entry the pointer has moved to. *)
Fixpoint ext2_search (fuel : nat) (buffer : list Z) (name : list Z) (ent read_size : Z) : option (option Z) :=
  match fuel with
  | O => None
  | S fuel =>
      if read_size <=? 0 then Some None
      else
        str ← chars_at buffer (ent + 8);
        nl ← byte_at buffer (ent + 6);
        m ← namei_nmatch name str nl;
        if m : bool then Some <$> le32 buffer ent
        else
          rl ← le16 buffer (ent + 4);
          if rl =? 0 then Some None
          else
            let ent := ent + rl in
            rl' ← le16 buffer (ent + 4);
            ext2_search fuel buffer name ent (s32 (read_size - rl'))
  end.

(** Each round moves the pointer by at least one byte; at the end of the
    buffer the next access faults. *)
Definition ext2_lookup (dir : Z) (name : list Z) : VM Z :=
  let! ' (err, buffer, v) := read_dir dir in
  if err <=? 0 then ret 0
  else
    let! e := lift (ext2_search (S (length buffer)) buffer name 0 (s32 (size v))) in
    match e with Some i => iget (sb v) i | None => ret 0 end.

Definition ext2_f_ops : file_operations F :=
  FileOperations None (Some ext2_read) None
    (Some (ext2_readdir (replicate (Z.to_nat VFS_NAME_LEN) 0) 0)) None None None.
Definition ext2_i_ops : inode_operations F := InodeOperations (Some ext2_f_ops) (Some ext2_lookup).

End ext2.

(** ** What ext2 relies on: a device that reads its blocks *)

(** The block device of super block [b]: it has [n] blocks of [bs] bytes,
    numbered as ext2 numbers them, from 1 on; reading one fills the buffer
    with its bytes and changes nothing. *)
Class BlockDevice {F : Type} `{FsOps F} `{Sub devfs_state F} (s : vstate F) (b bs n : Z) (blk : Z -> list Z) : Prop := {
  bd_length k : 1 <= k < n -> length (blk k) = Z.to_nat bs;
  bd_read k buffer : 1 <= k < n -> length buffer = Z.to_nat bs ->
    exists c, 0 < c /\ fs_read_block b (k - 1) 1 buffer s = Ok ((c, blk k), s) }.

Section ext2_facts.
Context {F : Type} `{FsOps F} `{Sub devfs_state F} `{Sub ext2_state F}.
Context (fresh : Z -> list Z) (Hfresh : forall n, 0 <= n -> length (fresh n) = Z.to_nat n).
Implicit Types (s : vstate F).

Lemma lift_Some {A} (x : option A) a s : x = Some a -> lift x s = Ok (a, s).
Proof. intros ->. done. Qed.

(** A block as [ext2_read_block] delivers it: number 0 is a hole. *)
Definition ext2_block (blk : Z -> list Z) (k : Z) : list Z :=
  if k =? 0 then replicate (Z.to_nat 1024) 0 else blk k.
Definition valid_block (n k : Z) : Prop := k = 0 \/ 1 <= k < n.

Lemma ext2_block_length s b n blk k : BlockDevice s b 1024 n blk -> valid_block n k ->
  length (ext2_block blk k) = Z.to_nat 1024.
Proof.
  intros Hbd Hk. unfold ext2_block. case_cond; [apply length_replicate|].
  apply bd_length. destruct Hk; lia.
Qed.

Lemma ext2_read_block_run s b n blk k buffer : BlockDevice s b 1024 n blk -> n <= 4294967296 -> valid_block n k ->
  length buffer = Z.to_nat 1024 ->
  exists c, 0 < c /\ ext2_read_block b k buffer s = Ok ((c, ext2_block blk k), s).
Proof.
  intros Hbd Hn Hk Hb. unfold ext2_read_block, ext2_block. case_cond.
  - exists 2. split; [lia|]. assert (Hm : memset buffer 0 1024 = Some (replicate (Z.to_nat 1024) 0)).
    { unfold memset. rewrite (fill_spec _ _ (Z.to_nat 1024)) by lia. by rewrite drop_ge, app_nil_r by lia. }
    by rewrite (bind_run _ _ _ _ _ (lift_Some _ _ s Hm)).
  - rewrite u32_id by (destruct Hk; lia). apply bd_read; [destruct Hk; lia|done].
Qed.

(** A file's blocks, holes as zeros; and its first bytes. *)
Definition file_block (blk : Z -> list Z) (i : ext2_inode) (j : nat) : list Z :=
  ext2_block blk (if Z.of_nat j <? EXT2_NDIR_BLOCKS then default 0 (i_block i !! j) else 0).
Definition file_blocks (blk : Z -> list Z) (i : ext2_inode) (j k : nat) : list Z :=
  concat (map (file_block blk i) (seq j k)).

(** The block numbers an inode names are a disk's. *)
Definition inode_ok (n : Z) (i : ext2_inode) : Prop :=
  length (i_block i) = Z.to_nat EXT2_N_BLOCKS /\ Forall (valid_block n) (i_block i).

Lemma file_ext2_block_run i n j : inode_ok n i ->
  exists k, file_ext2_block i (Z.of_nat j) = Some k /\ valid_block n k /\
    forall blk, file_block blk i j = ext2_block blk k.
Proof.
  intros [Hl Hi]. unfold file_ext2_block, file_block. case_cond.
  - rewrite aget_nat. destruct (i_block i !! j) as [k|] eqn:E.
    + exists k. split; [done|]. split; [by eapply Forall_lookup_1|done].
    + apply lookup_ge_None in E. unfold EXT2_N_BLOCKS, EXT2_NDIR_BLOCKS in *. lia.
  - exists 0. split; [done|]. split; [by left|done].
Qed.

Section file.
Context (s : vstate F) (b n : Z) (blk : Z -> list Z) `{Hbd : !BlockDevice s b 1024 n blk} (Hn : n <= 4294967296).
Context (i : ext2_inode) (Hi : inode_ok n i).

Lemma file_block_length j : length (file_block blk i j) = Z.to_nat 1024.
Proof. destruct (file_ext2_block_run i n j Hi) as (k & _ & Hk & ->). by eapply ext2_block_length. Qed.
Lemma file_blocks_length j k : length (file_blocks blk i j k) = (k * Z.to_nat 1024)%nat.
Proof.
  revert j. induction k as [|k IH]; intros j; [done|]. unfold file_blocks in *. cbn [seq map concat].
  rewrite length_app, IH, file_block_length. lia.
Qed.
Lemma file_blocks_app j k l : file_blocks blk i j (k + l) = file_blocks blk i j k ++ file_blocks blk i (j + k) l.
Proof. unfold file_blocks. by rewrite seq_app, map_app, concat_app. Qed.

Lemma read_file_block j buffer : length buffer = Z.to_nat 1024 ->
  exists k c, file_ext2_block i (Z.of_nat j) = Some k /\ 0 < c /\
    ext2_read_block b k buffer s = Ok ((c, file_block blk i j), s).
Proof.
  intros Hb. destruct (file_ext2_block_run i n j Hi) as (k & Hk & Hv & E).
  destruct (ext2_read_block_run s b n blk k buffer Hbd Hn Hv Hb) as (c & Hc & Hr). exists k, c. by rewrite E.
Qed.

Lemma read_blocks_run m : forall j buffer, length buffer = Z.to_nat 1024 ->
  exists c buf, 0 < c /\ length buf = Z.to_nat 1024 /\
    read_blocks m b i (Z.of_nat j) buffer s = Ok ((c, file_blocks blk i j m, buf), s).
Proof.
  induction m as [|m IH]; intros j buffer Hb; cbn [read_blocks]; [by exists 1, buffer|].
  destruct (read_file_block j buffer Hb) as (k & c & Hk & Hc & Hr).
  rewrite (bind_run _ _ _ _ _ (lift_Some _ _ s Hk)), (bind_run _ _ _ _ _ Hr). replace (c <=? 0) with false by lia.
  destruct (IH (S j) (file_block blk i j) (file_block_length j)) as (c' & buf & Hc' & Hbuf & Hr').
  exists c', buf. split; [done|]. split; [done|].
  replace (Z.of_nat j + 1) with (Z.of_nat (S j)) by lia. by rewrite (bind_run _ _ _ _ _ Hr').
Qed.

(** The bytes a read of [m] bytes at [offset] stores: to the end of the block
    if it stays in one, otherwise the [m] bytes, but without the last block
    when they end with it. *)
Definition stored (offset m : Z) : Z :=
  if offset / 1024 =? (offset + m - 1) / 1024 then 1024 - offset mod 1024
  else if (offset + m) mod 1024 =? 0 then m - 1024 else m.

Lemma stored_bound offset m : 0 <= offset -> 0 < m ->
  0 <= stored offset m <= ((offset + m - 1) / 1024 + 1) * 1024 - offset.
Proof. intros Ho Hm. unfold stored. repeat case_cond; lia. Qed.

(** The pieces the loop puts together are a part of the file. *)
Lemma pieces_one j k r : (r <= Z.to_nat 1024)%nat -> 
  drop r (file_block blk i j) =
  take (Z.to_nat 1024 - r) (drop (j * Z.to_nat 1024 + r) (file_blocks blk i 0 (j + S k))).
Proof.
  intros Hr. rewrite file_blocks_app, <- drop_drop.
  rewrite drop_app_length' by (by rewrite file_blocks_length). cbn [Nat.add].
  unfold file_blocks. cbn [seq map concat]. rewrite drop_app_le by (rewrite file_block_length; lia).
  rewrite take_app_length'; [done|]. rewrite length_drop, file_block_length. lia.
Qed.
Lemma pieces_many j k r e : (r <= Z.to_nat 1024)%nat -> (e <= Z.to_nat 1024)%nat ->
  drop r (file_block blk i j) ++ file_blocks blk i (S j) k ++ take e (file_block blk i (S j + k)) =
  take (Z.to_nat 1024 - r + (k * Z.to_nat 1024 + e)) (drop (j * Z.to_nat 1024 + r) (file_blocks blk i 0 (j + S (k + 1)))).
Proof.
  intros Hr He. rewrite file_blocks_app, <- drop_drop.
  rewrite drop_app_length' by (by rewrite file_blocks_length). cbn [Nat.add].
  unfold file_blocks at 2. cbn [seq map concat]. rewrite drop_app_le by (rewrite file_block_length; lia).
  fold (file_blocks blk i (S j) (k + 1)).
  rewrite take_app_add'; [|rewrite length_drop, file_block_length; lia]. f_equal.
  rewrite file_blocks_app. rewrite take_app_add'; [|by rewrite file_blocks_length]. f_equal.
  unfold file_blocks. cbn [seq map concat]. by rewrite app_nil_r.
Qed.

Lemma ext2_read_run node v sblk offset sz :
  vnodes s !! node = Some v -> sb v = b -> sbs s !! b = Some sblk -> blocksize sblk = 1024 ->
  ext2_inodes (estate s) !! u v = Some i ->
  0 <= offset < size v -> 0 < sz -> offset + sz < 4294967296 -> size v < 2147483648 ->
  let m := Z.min sz (size v - offset) in
  let out := take (Z.to_nat (stored offset m))
               (drop (Z.to_nat offset) (file_blocks blk i 0 (Z.to_nat ((offset + m - 1) / 1024 + 1)))) in
  ext2_read fresh node offset sz s = Ok ((m, out), s) /\ Z.of_nat (length out) = stored offset m.
Proof.
  intros Hv Hb Hs Hbs Hino Hoff Hsz Hw Hsize m out.
  unfold ext2_read. rewrite (bind_run _ _ _ _ _ (get_vnode_Ok _ _ _ Hv)), Hb.
  rewrite (bind_run _ _ _ _ _ (get_sb_Ok _ _ _ Hs)), Hbs. replace (size v <? offset) with false by lia.
  rewrite (u32_id (offset + sz)) by lia.
  replace (if size v <? offset + sz then u32 (size v - offset) else sz) with m.
  2: { unfold m. case_cond; [rewrite u32_id by lia|]; lia. }
  rewrite !(u32_id (offset + m - 1)), !(u32_id (offset + m)), (s32_id m) by lia.
  set (q := offset / 1024). set (r := offset mod 1024). set (e := (offset + m - 1) / 1024).
  assert (Hm : 0 < m /\ offset + m <= size v) by (unfold m; lia).
  assert (Hq : offset = q * 1024 + r /\ 0 <= r < 1024 /\ 0 <= q <= e) by (unfold q, r, e; lia).
  rewrite (bind_run _ _ s q s), (bind_run _ _ s r s), (bind_run _ _ s e s) by done.
  rewrite (bind_run _ _ s i s) by (unfold get_ext2_inode, get_or_fault; by rewrite Hino).
  destruct (read_file_block (Z.to_nat q) (fresh 1024)) as (k & c & Hk & Hc & Hr); [by apply Hfresh|].
  rewrite Z2Nat.id in Hk by lia. rewrite (bind_run _ _ _ _ _ (lift_Some _ _ s Hk)), (bind_run _ _ _ _ _ Hr).
  replace (c <=? 0) with false by lia.
  destruct (read_blocks_run (Z.to_nat (e - (q + 1))) (S (Z.to_nat q)) (file_block blk i (Z.to_nat q)))
    as (c' & buf & Hc' & Hbuf & Hrs); [apply file_block_length|].
  replace (Z.of_nat (S (Z.to_nat q))) with (q + 1) in Hrs by lia. rewrite (bind_run _ _ _ _ _ Hrs).
  replace (c' <=? 0) with false by lia.
  pose proof (stored_bound offset m ltac:(lia) ltac:(lia)) as Hst.
  assert (Hlen : Z.of_nat (length out) = stored offset m).
  { unfold out. rewrite length_take, length_drop, file_blocks_length. lia. }
  split; [|done]. clear Hlen.
  unfold out, stored in *. fold q r e. destruct (q =? e) eqn:Eqe.
  - replace (Z.to_nat (e - (q + 1))) with 0%nat by lia. unfold ret. do 3 f_equal.
    rewrite app_nil_r. rewrite (pieces_one _ 0) by lia. f_equal; [lia|]. f_equal; [lia|]. f_equal. lia.
  - destruct (read_file_block (Z.to_nat e) buf Hbuf) as (k2 & c2 & Hk2 & Hc2 & Hr2). rewrite Z2Nat.id in Hk2 by lia.
    rewrite (bind_run _ _ _ _ _ (lift_Some _ _ s Hk2)), (bind_run _ _ _ _ _ Hr2).
    replace (c2 <=? 0) with false by lia. unfold ret. do 3 f_equal.
    replace (Z.to_nat e) with (S (Z.to_nat q) + Z.to_nat (e - (q + 1)))%nat by lia. rewrite pieces_many by lia.
    f_equal; [|f_equal; [lia|f_equal; lia]]. unfold e. destruct ((offset + m) mod 1024 =? 0) eqn:E0; lia.
Qed.

(** A file whose vnode is in memory. *)
Record ext2_file (node : Z) (v : vnode) : Prop := {
  ef_vnode : vnodes s !! node = Some v;
  ef_sb : exists sblk, sb v = b /\ sbs s !! b = Some sblk /\ blocksize sblk = 1024;
  ef_inode : ext2_inodes (estate s) !! u v = Some i;
  ef_size : size v < 2147483648 }.


(** A read whose end is the end of a block, but not of the first, reports
    [m] bytes and leaves out the last block; a read inside one block stores
    all bytes to the end of that block, also those behind the [m] asked for. *)
Theorem ext2_read_wrong_length node v offset sz :
  ext2_file node v -> 0 <= offset < size v -> 0 < sz -> offset + sz < 4294967296 ->
  let m := Z.min sz (size v - offset) in
  exists out, ext2_read fresh node offset sz s = Ok ((m, out), s) /\
    ((offset + m) mod 1024 = 0 -> offset / 1024 <> (offset + m - 1) / 1024 -> Z.of_nat (length out) = m - 1024) /\
    (offset / 1024 = (offset + m - 1) / 1024 -> Z.of_nat (length out) = 1024 - offset mod 1024 /\
       ((offset + m) mod 1024 <> 0 -> m < Z.of_nat (length out))).
Proof.
  intros [Hv (sblk & Hb & Hs & Hbs) Hino Hsize] Hoff Hsz Hw m. eexists.
  destruct (ext2_read_run node v sblk offset sz) as [Hr Hl]; [done..|]. split; [exact Hr|].
  rewrite Hl. fold m. unfold stored. split.
  - intros H0' Hne. replace (offset / 1024 =? (offset + m - 1) / 1024) with false by lia.
    by replace ((offset + m) mod 1024 =? 0) with true by lia.
  - intros He. replace (offset / 1024 =? (offset + m - 1) / 1024) with true by lia. split; [done|]. lia.
Qed.

(** *** Directories of one block *)

(** The entries of a directory's buffer from [ent] on: number and length. *)
Fixpoint dir_entries (l : list (Z * Z)) (buffer : list Z) (ent : Z) : Prop :=
  match l with
  | [] => ent = Z.of_nat (length buffer)
  | (ino_, rl) :: l =>
      le32 buffer ent = Some ino_ /\ le16 buffer (ent + 4) = Some rl /\ 8 <= rl /\ dir_entries l buffer (ent + rl)
  end.
(** Whether the name of the entry at [ent] is accepted for [name]. *)
Definition entry_matches (buffer name : list Z) (ent : Z) : option bool :=
  str ← chars_at buffer (ent + 8); nl ← byte_at buffer (ent + 6); namei_nmatch name str nl.
(** The number the search gives: the first accepted entry's. *)
Fixpoint first_match (l : list (Z * Z)) (buffer name : list Z) (ent : Z) : option (option Z) :=
  match l with
  | [] => Some None
  | (ino_, rl) :: l =>
      m ← entry_matches buffer name ent;
      if m : bool then Some (Some ino_) else first_match l buffer name (ent + rl)
  end.

Lemma dir_entries_end l buffer ent : dir_entries l buffer ent -> ent <= Z.of_nat (length buffer).
Proof.
  revert ent. induction l as [|[ino_ rl] l IH]; intros ent; cbn; [lia|]. intros (_ & _ & Hrl & Hl%IH). lia.
Qed.

Lemma slice_behind buffer off k : Z.of_nat (length buffer) < off + k -> slice buffer off k = None.
Proof. intros Hk. unfold slice. by replace ((0 <=? off) && (off + k <=? Z.of_nat (length buffer))) with false by lia. Qed.

(** The search at an entry: [rest] is what the count has left over the end. *)
Lemma ext2_search_run buffer name r rest : forall l fuel ent ino_ rl,
  dir_entries ((ino_, rl) :: l) buffer ent -> first_match ((ino_, rl) :: l) buffer name ent = Some r ->
  (length l < fuel)%nat -> 0 <= ent -> 0 < rest ->
  Z.of_nat (length buffer) + rest < 2147483648 ->
  ext2_search fuel buffer name ent (Z.of_nat (length buffer) - (ent + rl) + rest) =
    match r with Some x => Some (Some x) | None => None end.
Proof.
  induction l as [|[ino2 rl2] l IH]; intros [|fuel] ent ino_ rl Hd Hf Hfu He Hr Hw; cbn [length] in Hfu; try lia;
    pose proof Hd as (Hino & Hrl & H8 & Hl); pose proof (dir_entries_end _ _ _ Hl) as Hend; cbn [ext2_search].
  all: replace (_ <=? 0) with false by lia.
  all: cbn [first_match] in Hf; unfold entry_matches in Hf.
  all: destruct (chars_at buffer (ent + 8)) as [str|]; [|done]; destruct (byte_at buffer (ent + 6)) as [nl|]; [|done];
    cbn in Hf |- *; destruct (namei_nmatch name str nl) as [[]|]; cbn in Hf |- *; simplify_eq; [by rewrite Hino| |done..].
  all: rewrite Hrl; cbn; replace (rl =? 0) with false by lia.
  - cbn in Hl. unfold le16. rewrite slice_behind by lia. done.
  - pose proof Hl as (_ & Hrl2 & H82 & Hl2). pose proof (dir_entries_end _ _ _ Hl2). rewrite Hrl2. cbn.
    rewrite s32_id by lia.
    replace (Z.of_nat (length buffer) - (ent + rl) + rest - rl2) with (Z.of_nat (length buffer) - (ent + rl + rl2) + rest) by lia.
    apply (IH fuel (ent + rl) ino2 rl2); done || lia.
Qed.

Lemma dir_entries_count l buffer ent : dir_entries l buffer ent -> ent + 8 * Z.of_nat (length l) <= Z.of_nat (length buffer).
Proof.
  revert ent. induction l as [|[ino_ rl] l IH]; intros ent; cbn [dir_entries length]; [lia|]. intros (_ & _ & Hrl & Hl%IH). lia.
Qed.

(** A directory of one block is read as a whole. *)
Lemma read_dir_run dir v : ext2_file dir v -> size v = 1024 ->
  read_dir fresh dir s = Ok ((1024, file_block blk i 0, v), s).
Proof.
  intros [Hv (sblk & Hb & Hs & Hbs) Hino Hsize] Hsz. unfold read_dir.
  rewrite (bind_run _ _ _ _ _ (get_vnode_Ok _ _ _ Hv)), Hsz.
  destruct (ext2_read_run dir v sblk 0 1024) as [Hr _]; [done..|lia|lia|lia|lia|].
  rewrite Hsz in Hr. change (Z.min 1024 (1024 - 0)) with 1024 in Hr. change (stored 0 1024) with 1024 in Hr.
  change (Z.to_nat ((0 + 1024 - 1) / 1024 + 1)) with 1%nat in Hr. rewrite drop_0 in Hr.
  assert (Hf : file_blocks blk i 0 1 = file_block blk i 0) by (unfold file_blocks; cbn [seq map concat]; apply app_nil_r).
  pose proof (file_block_length 0) as Hl. rewrite Hf, take_ge in Hr by lia.
  rewrite (bind_run _ _ _ _ _ Hr).
  assert (Hle : (length (file_block blk i 0) <=? Z.to_nat 1024)%nat = true) by (apply Nat.leb_le; lia).
  rewrite Hle, drop_ge, app_nil_r by (rewrite Hfresh; lia). done.
Qed.

Lemma ext2_lookup_run dir v name l r :
  ext2_file dir v -> size v = 1024 -> dir_entries l (file_block blk i 0) 0 -> l <> [] ->
  first_match l (file_block blk i 0) name 0 = Some r ->
  ext2_lookup fresh dir name s = match r with Some x => iget b x s | None => Fault end.
Proof.
  intros Hfile Hsz Hd Hne Hf. unfold ext2_lookup. rewrite (bind_run _ _ _ _ _ (read_dir_run _ _ Hfile Hsz)).
  cbn [Z.leb Z.compare]. rewrite Hsz. change (s32 1024) with 1024.
  destruct l as [|[ino_ rl] l]; [done|]. pose proof (dir_entries_count _ _ _ Hd) as Hc. cbn [length] in Hc.
  pose proof (file_block_length 0) as Hl. pose proof Hd as (_ & _ & Hrl & _). pose proof (dir_entries_end _ _ _ Hd).
  assert (Hend : 0 + rl <= Z.of_nat (length (file_block blk i 0))) by (eapply dir_entries_end; apply Hd).
  pose proof (ext2_search_run _ name r rl l (S (length (file_block blk i 0))) 0 ino_ rl Hd Hf) as Hs.
  replace (Z.of_nat (length (file_block blk i 0)) - (0 + rl) + rl) with 1024 in Hs by lia.
  unfold bind, lift, get_or_fault. rewrite Hs by lia.
  destruct r as [x|]; [|done]. destruct Hfile as [_ (sblk & -> & _) _ _]. done.
Qed.


(** Looking up a name that no entry of the directory has leaves the
    directory: the size left is counted down by the entry after the current
    one, so that it is still positive behind the last, and the walk goes on
    reading behind the buffer. *)
Theorem ext2_lookup_miss_faults dir v name l :
  ext2_file dir v -> size v = 1024 -> dir_entries l (file_block blk i 0) 0 -> l <> [] ->
  first_match l (file_block blk i 0) name 0 = Some None ->
  ext2_lookup fresh dir name s = Fault.
Proof. intros Hfile Hsz Hd Hne Hf. by rewrite (ext2_lookup_run dir v name l None). Qed.

End file.
End ext2_facts.

(** ** The ram disk is such a device *)

Section on_ramdisk.
Context {F : Type} `{FsOps F} `{SubLaws devfs_state F} `{SubLaws drv_state F} `{!SubDisj devfs_state drv_state F}.
Context (pid : Z) (pause : M (vstate F) unit) (kill : Z -> Z -> M (vstate F) unit).
Implicit Types (s : vstate F).

(** C23: A ram disk nobody uses is a block device as ext2 needs it, with 1439
    blocks of 1024 bytes behind the first 1024: block [k] is sectors [2k] and
    [2k + 1]. *)
Theorem ramdisk_block_device s fuel b sblk v d h mem :
  sbs s !! b = Some sblk -> blocksize sblk = 1024 -> skip_bytes sblk = 1024 ->
  ramdisk s (sb_dev sblk) d mem -> device s (sb_dev sblk) v d h -> h_bsize h = RAMDISK_SECTOR_SIZE ->
  IS_DIR v = false -> fop_of v = Some (ramdisk_ops pid pause kill (S fuel)) ->
  BlockDevice s b 1024 1440 (fun k => sectors mem (2 * k) 2).
Proof.
  intros Hs Hbs Hsk Hrd Hdev Hh Hdir Hfop. pose proof (rd_len _ _ _ _ Hrd) as Hlen.
  assert (Hsec : forall k, 1 <= k < 1440 -> length (sectors mem (2 * k) 2) = Z.to_nat 1024).
  { intros k Hk. unfold sectors. rewrite length_take, length_drop, Hlen. unfold RAMDISK_SECTOR_COUNT, RAMDISK_SECTOR_SIZE. lia. }
  split; [done|]. intros k buffer Hk Hb. exists 2. split; [lia|].
  unfold fs_read_block. rewrite (bind_run _ _ _ _ _ (get_sb_Ok _ _ _ Hs)).
  pose proof Hdev as [_ Hv Hu _ Hhd]. rewrite (bind_run _ _ _ _ _ (get_vnode_Ok _ _ _ Hv)), Hu.
  rewrite (bind_run _ _ _ _ _ (get_handle_run _ _ _ Hhd)), Hh, Hbs, Hsk.
  rewrite (bind_run _ _ s 2 s), (bind_run _ _ s 2 s) by done.
  rewrite !u32_id by lia. replace ((k - 1) * 2 + 2) with (2 * k) by lia. change (1 * 2) with 2.
  unfold request_fs. rewrite (bind_run _ _ _ _ _ (get_vnode_Ok _ _ _ Hv)), Hdir, Hfop. cbn [ramdisk_ops fo_request].
  rewrite (ramdisk_read_run pid pause kill s fuel _ d mem); [|done|unfold RAMDISK_SECTOR_COUNT; lia|lia|lia|].
  - replace (clipped (2 * k) 2) with 2 by (unfold clipped, RAMDISK_SECTOR_COUNT; lia).
    by rewrite drop_ge, app_nil_r by (rewrite Hb; unfold RAMDISK_SECTOR_SIZE; lia).
  - rewrite Hb. unfold clipped, RAMDISK_SECTOR_COUNT, RAMDISK_SECTOR_SIZE. lia.
Qed.

End on_ramdisk.

(** ** Witnesses: one directory and one file on a device that answers with
    fixed blocks *)

Definition disk_files : Type := devfs_state * ext2_state.
#[export] Instance disk_files_devfs : Sub devfs_state disk_files := { proj f := fst f; inj d f := (d, snd f) }.
#[export] Instance disk_files_ext2 : Sub ext2_state disk_files := { proj f := snd f; inj d f := (fst f, d) }.

Definition dir_block : list Z :=
  [2; 0; 0; 0; 12; 0; 1; 2; 46; 0; 0; 0] ++ [2; 0; 0; 0; 12; 0; 2; 2; 46; 46; 0; 0] ++
  [11; 0; 0; 0; 232; 3; 4; 1; 109; 111; 116; 100] ++ replicate 988 0.
Definition fixed_blk (k : Z) : list Z := if k =? 5 then dir_block else replicate 1024 7.
Definition fixed_request (node cmd sector cnt : Z) (buffer : list Z) : M (vstate disk_files) (Z * list Z) :=
  ret (cnt, fixed_blk (sector / 2)).
#[local] Instance fixed_disk : FsOps disk_files := {
  iop_at _ := Some (InodeOperations (Some (FileOperations None None None None None None (Some fixed_request))) None);
  sop_at _ := None; read_super _ b _ := ret b }.

Definition ext2_dir_vnode : vnode := Vnode 2 1 2 0 0 493 FS_DIRECTORY 1024 0 0 0 60 100 1012 800 0 0.
Definition ext2_file_vnode : vnode := Vnode 11 1 1 0 0 420 FS_FILE 2048 0 0 0 60 100 1012 801 0 0.
Definition ext2_dir_inode : ext2_inode := Ext2Inode 0x41ED 0 1024 0 0 0 0 2 (5 :: replicate 14 0).
Definition ext2_file_inode : ext2_inode := Ext2Inode 0x81A4 0 2048 0 0 0 0 1 (5 :: 6 :: replicate 13 0).
Definition ext2_sblk : super_block := SuperBlock 60 0 0 12 1024 10 1024 70 900 0 [70; 71].
Definition ext2_sample : vstate disk_files :=
  VState {[ 60 := Vnode 7 1 1 0 0 432 FS_BLOCKDEVICE 1 0 0 0 0 0 1011 40 0 0; 70 := ext2_dir_vnode; 71 := ext2_file_vnode ]}
    {[ 100 := ext2_sblk ]} ∅ ∅ [] ∅ [] 0 1000 task_zero
    (DevfsState {[ 40 := DevfsHandle 7 1 0 0 432 FS_BLOCKDEVICE 1 0 [] [] 512 2880 11 0 60 ]} [40] 8 0 0,
     Ext2State {[ 800 := ext2_dir_inode; 801 := ext2_file_inode ]} ∅).
Definition fresh_sample (n : Z) : list Z := replicate (Z.to_nat n) 170.

Lemma fresh_sample_length n : 0 <= n -> length (fresh_sample n) = Z.to_nat n.
Proof. intros _. apply length_replicate. Qed.
Lemma fixed_blk_length k : length (fixed_blk k) = Z.to_nat 1024.
Proof. unfold fixed_blk. case_cond; reflexivity. Qed.

#[export] Instance fixed_device : BlockDevice ext2_sample 100 1024 1440 fixed_blk.
Proof.
  split; [intros; apply fixed_blk_length|]. intros k buffer Hk Hb. exists 2. split; [lia|].
  transitivity (fixed_request 60 REQUEST_READ (u32 ((k - 1) * 2 + 2)) (u32 (1 * 2)) buffer ext2_sample); [reflexivity|].
  rewrite !u32_id by lia. unfold fixed_request, ret. replace (((k - 1) * 2 + 2) / 2) with k by lia. done.
Qed.

Lemma ext2_dir_inode_ok : inode_ok 1440 ext2_dir_inode.
Proof. split; [reflexivity|]. cbn. repeat apply Forall_cons_2; try (unfold valid_block; lia). done. Qed.
Lemma ext2_file_inode_ok : inode_ok 1440 ext2_file_inode.
Proof. split; [reflexivity|]. cbn. repeat apply Forall_cons_2; try (unfold valid_block; lia). done. Qed.
Lemma ext2_dir_ready : ext2_file ext2_sample 100 ext2_dir_inode 70 ext2_dir_vnode.
Proof. split; [reflexivity|by exists ext2_sblk|reflexivity|cbn; lia]. Qed.
Lemma ext2_file_ready : ext2_file ext2_sample 100 ext2_file_inode 71 ext2_file_vnode.
Proof. split; [reflexivity|by exists ext2_sblk|reflexivity|cbn; lia]. Qed.


Lemma ext2_read_wrong_length_witness : exists out,
  ext2_read fresh_sample 71 0 2048 ext2_sample = Ok ((2048, out), ext2_sample) /\ Z.of_nat (length out) = 1024.
Proof.
  destruct (ext2_read_wrong_length fresh_sample fresh_sample_length ext2_sample 100 1440 fixed_blk ltac:(lia) ext2_file_inode
    ext2_file_inode_ok 71 ext2_file_vnode 0 2048) as (out & Hr & Hl & _).
  - exact ext2_file_ready.
  - simpl. lia.
  - lia.
  - lia.
  - exists out. split; [exact Hr|]. apply Hl; [reflexivity|discriminate].
Defined.

Lemma dir_block_entries : dir_entries [(2, 12); (2, 12); (11, 1000)] (file_block fixed_blk ext2_dir_inode 0) 0.
Proof. repeat split; lia || reflexivity. Qed.


Lemma ext2_lookup_miss_faults_witness : ext2_lookup fresh_sample 70 (lit "usr") ext2_sample = Fault.
Proof.
  apply (ext2_lookup_miss_faults fresh_sample fresh_sample_length ext2_sample 100 1440 fixed_blk ltac:(lia) ext2_dir_inode
    ext2_dir_inode_ok 70 ext2_dir_vnode (lit "usr") [(2, 12); (2, 12); (11, 1000)]).
  - exact ext2_dir_ready.
  - reflexivity.
  - exact dir_block_entries.
  - discriminate.
  - vm_compute. reflexivity.
Defined.

#[local] Instance ramdisk_only : FsOps devices := {
  iop_at _ := Some (InodeOperations (Some (ramdisk_ops 3 no_pause no_kill 1)) None);
  sop_at _ := None; read_super _ b _ := ret b }.
Definition ext2_on_ramdisk : vstate devices := set_sbs {[ 100 := ext2_sblk ]} ramdisk_sample.

Lemma ramdisk_block_device_witness :
  BlockDevice ext2_on_ramdisk 100 1024 1440 (fun k => sectors empty_disk (2 * k) 2).
Proof.
  apply (ramdisk_block_device 3 no_pause no_kill ext2_on_ramdisk 0 100 ext2_sblk ram0_node 40 ram0_handle empty_disk).
  - reflexivity.
  - reflexivity.
  - reflexivity.
  - destruct ramdisk_sample_ready as [(v & h & [? ? ? ? ?] & Hq & Hm) Hl]. split; [|exact Hl].
    exists v, h. split; [split; assumption|]. split; [exact Hq|exact Hm].
  - split; try reflexivity; discriminate.
  - reflexivity.
  - reflexivity.
  - reflexivity.
Defined.
