(* ===== verification/Ports.v ===== *)
(** * Ports and the devices behind them: [src/src/drivers/], except the floppy
    controller

    The hardware is a script: the successive values the driver reads, from
    whatever port; what the driver does is the log of its accesses.  A theorem
    for every script is a theorem for every behaviour of the device.  Reading
    behind the end of the script is [Fuel]: the driver would wait for a value
    the script does not have.  Polling loops therefore need no more rounds than
    the script has values.  [sys_pause] and [sleep] give other processes time
    and do nothing here. *)
From S2P Require Import Prelude Abi.
Open Scope nup_scope.

Inductive access :=
  | In8 (port : Z) | Out8 (port value : Z) | In16 (port : Z) | Out16 (port value : Z)
  | Cli | Sti.

Record bus := Bus { log : list access; script : list Z }.

Abbreviation IO := (M bus).

Definition record (a : access) : IO unit := modify (fun b => Bus (log b ++ [a]) (script b)).
Definition read_script : IO Z := fun b =>
  match script b with [] => Fuel | v :: r => Ok (v, Bus (log b) r) end.

(** ** Port access: drivers.c *)

Definition outportb (port value : Z) : IO unit := record (Out8 (u16 port) (u8 value)).
Definition inportb (port : Z) : IO Z := do! record (In8 (u16 port)); let! v := read_script in ret (u8 v).
Definition outportw (port value : Z) : IO unit := record (Out16 (u16 port) (u16 value)).
Definition inportw (port : Z) : IO Z := do! record (In16 (u16 port)); let! v := read_script in ret (u16 v).

(** [while (go(inportb(port)));] *)
Fixpoint poll_loop (fuel : nat) (port : Z) (go : Z -> bool) : IO unit :=
  match fuel with
  | O => nofuel
  | S fuel => let! v := inportb port in if go v then poll_loop fuel port go else ret tt
  end.
Definition poll (port : Z) (go : Z -> bool) : IO unit :=
  let! fuel := gets (fun b => S (length (script b))) in poll_loop fuel port go.

(** ** The speaker: pc_speaker.c *)

Definition init_pc_speaker : IO unit := let! v := inportb 0x61 in outportb 0x61 (Z.lor v 0x03).
Definition stop_pc_speaker : IO unit := let! v := inportb 0x61 in outportb 0x61 (Z.land v 0xFC).
Definition echo_pc_speaker (freq : Z) : IO unit :=
  if freq =? 0 then fault
  else
    let caller := 0x1234DD / freq in
    do! outportb 0x43 0xB6;
    do! outportb 0x42 (Z.land caller 0xFF);
    do! outportb 0x42 (Z.shiftr caller 8);
    init_pc_speaker.

(** ** The DMA controller: fdc/dma_lib.c *)

Definition LOW_BYTE (x : Z) : Z := Z.land x 0x00FF.
Definition HI_BYTE (x : Z) : Z := Z.shiftr (Z.land x 0xFF00) 8.

Definition MaskReg : list Z := [0x0A; 0x0A; 0x0A; 0x0A; 0xD4; 0xD4; 0xD4; 0xD4].
Definition ModeReg : list Z := [0x0B; 0x0B; 0x0B; 0x0B; 0xD6; 0xD6; 0xD6; 0xD6].
Definition ClearReg : list Z := [0x0C; 0x0C; 0x0C; 0x0C; 0xD8; 0xD8; 0xD8; 0xD8].
Definition PagePort : list Z := [0x87; 0x83; 0x81; 0x82; 0x8F; 0x8B; 0x89; 0x8A].
Definition AddrPort : list Z := [0x00; 0x02; 0x04; 0x06; 0xC0; 0xC4; 0xC8; 0xCC].
Definition CountPort : list Z := [0x01; 0x03; 0x05; 0x07; 0xC2; 0xC6; 0xCA; 0xCE].

Definition reg (l : list Z) (channel : Z) : IO Z := get_or_fault (fun _ => aget l channel).

Definition _dma_xfer (DMA_channel apage offset length mode : Z) : IO unit :=
  do! record Cli;
  let! p := reg MaskReg DMA_channel in
  do! outportb p (Z.lor 0x04 DMA_channel);
  let! p := reg ClearReg DMA_channel in
  do! outportb p 0x00;
  let! p := reg ModeReg DMA_channel in
  do! outportb p mode;
  let! p := reg AddrPort DMA_channel in
  do! outportb p (LOW_BYTE offset);
  do! outportb p (HI_BYTE offset);
  let! p := reg PagePort DMA_channel in
  do! outportb p apage;
  let! p := reg CountPort DMA_channel in
  do! outportb p (LOW_BYTE length);
  do! outportb p (HI_BYTE length);
  let! p := reg MaskReg DMA_channel in
  do! outportb p DMA_channel;
  record Sti.

Definition dma_xfer (channel address length : Z) (read_req : bool) : IO unit :=
  let mode := u8 ((if read_req then 0x48 else 0x44) + channel) in
  let apage := u8 (Z.shiftr address 16) in
  let offset := Z.land address 0xFFFF in
  _dma_xfer channel apage offset (u32 (length - 1)) mode.

(** ** ATA disks: ata/ata.c *)

Definition ATA_IDE_1 : Z := 0x1F0.
Definition ATA_IDE_2 : Z := 0x170.
Definition ATA_MASTER : Z := 0x00.
Definition ATA_SLAVE : Z := 0x01.
Definition ATA_FEAT : Z := 1.
Definition ATA_SECS : Z := 2.
Definition ATA_SNUM : Z := 3.
Definition ATA_CLOW : Z := 4.
Definition ATA_CHIH : Z := 5.
Definition ATA_HDEV : Z := 6.
Definition ATA_CMD : Z := 7.
Definition ATA_CHK2 : Z := 0x206.
Definition ATA_READ_CMD : Z := 0x20.
Definition ATA_WRITE_CMD : Z := 0x30.

Definition lba28_init (controller drive addr sectorcount : Z) : IO Z :=
  do! poll (controller + ATA_CHK2) (fun v => test v 0x80);
  do! outportb (Z.lor controller ATA_FEAT) 0x00;
  do! outportb (Z.lor controller ATA_SECS) sectorcount;
  do! outportb (Z.lor controller ATA_SNUM) (u8 addr);
  do! outportb (Z.lor controller ATA_CLOW) (u8 (Z.shiftr addr 8));
  do! outportb (Z.lor controller ATA_CHIH) (u8 (Z.shiftr addr 16));
  do! outportb (Z.lor controller ATA_HDEV)
        (Z.lor (Z.lor 0xE0 (u8 (Z.shiftl drive 4))) (u8 (Z.land (Z.shiftr addr 24) 0x0F)));
  ret 1.

Definition ata_known (controller drive : Z) : bool :=
  ((controller =? ATA_IDE_1) || (controller =? ATA_IDE_2)) && ((drive =? ATA_MASTER) || (drive =? ATA_SLAVE)).

(** The words of the data port into [buf], from byte [i * 2] on. *)
Fixpoint read_words (n : nat) (controller i : Z) (buf : list Z) : IO (list Z) :=
  match n with
  | O => ret buf
  | S n =>
      let! value := inportw controller in
      let! buf := get_or_fault (fun _ => aset buf (i * 2) (u8 (Z.land value 0xFF))) in
      let! buf := get_or_fault (fun _ => aset buf (i * 2 + 1) (u8 (Z.shiftr (Z.land value 0xFF00) 8))) in
      read_words n controller (i + 1) buf
  end.

Fixpoint write_words (n : nat) (controller i : Z) (buf : list Z) : IO unit :=
  match n with
  | O => ret tt
  | S n =>
      let! lo := get_or_fault (fun _ => aget buf (i * 2)) in
      let! hi := get_or_fault (fun _ => aget buf (i * 2 + 1)) in
      do! outportw controller (u16 (Z.lor lo (Z.shiftl hi 8)));
      write_words n controller (i + 1) buf
  end.

Definition lba28_read (buf : list Z) (controller drive addr sectorcount : Z) : IO (Z * list Z) :=
  let controller := Z.land controller 0xFFF0 in
  if negb (ata_known controller drive) then ret (0, buf)
  else
    let! ok := lba28_init controller drive addr sectorcount in
    if ok =? 0 then ret (0, buf)
    else
      do! outportb (Z.lor controller ATA_CMD) ATA_READ_CMD;
      do! poll (Z.lor controller ATA_CMD) (fun v => negb (test v 0x08));
      let! buf := read_words (Z.to_nat (256 * (sectorcount + 1))) controller 0 buf in
      ret (1, buf).

Definition lba28_write (buf : list Z) (controller drive addr sectorcount : Z) : IO Z :=
  let controller := Z.land controller 0xFFF0 in
  if negb (ata_known controller drive) then ret 0
  else
    let! ok := lba28_init controller drive addr sectorcount in
    if ok =? 0 then ret 0
    else
      do! outportb (Z.lor controller ATA_CMD) ATA_WRITE_CMD;
      do! poll (Z.lor controller ATA_CMD) (fun v => negb (test v 0x08));
      do! write_words (Z.to_nat (256 * (sectorcount + 1))) controller 0 buf;
      ret 1.

(** ** Serial lines: serial.c *)

Definition COM1 : Z := 0x3F8.
Definition COM2 : Z := 0x2F8.
Definition COM3 : Z := 0x3E8.
Definition COM4 : Z := 0x2E8.
Definition RBR : Z := 0.
Definition THR : Z := 0.
Definition IER : Z := 1.
Definition FCR : Z := 2.
Definition LCR : Z := 3.
Definition MCR : Z := 4.
Definition LSR : Z := 5.
Definition MSR : Z := 6.
Definition DL_LO : Z := 0.
Definition DL_HI : Z := 1.
Definition NO_INTERRUPTS : Z := 0x00.
Definition SET_DLAB : Z := 0x80.
Definition RX_TRIGGER : Z := 0xC0.
Definition XFres : Z := 0x04.
Definition RFres : Z := 0x02.
Definition FCR_enable : Z := 0x01.
Definition OUT2 : Z := 0x08.
Definition RTS : Z := 0x02.
Definition DTR : Z := 0x01.
Definition MCR_LOOP : Z := 0x10.
Definition LOOP_CLEAR : Z := 0x00.
Definition THRE : Z := 0x20.
Definition RBF : Z := 0x01.
Definition WORD_8 : Z := 0x03.
Definition divisor : Z := 1.

Definition detect_serial_port (port : Z) : IO Z :=
  do! outportb (port + MCR) MCR_LOOP;
  let! v := inportb (port + MSR) in
  if test v 0xF0 then ret 0
  else
    do! outportb (port + MCR) (Z.lor MCR_LOOP 0x0F);
    let! v := inportb (port + MSR) in
    if negb (Z.land v 0xF0 =? 0xF0) then ret 0 else ret 1.

(** [pdata] is what [devicen_pdata] gives for the node. *)
Definition serial_open (pdata : Z) : IO Z :=
  let port := u16 pdata in
  do! outportb (port + IER) NO_INTERRUPTS;
  do! outportb (port + LCR) SET_DLAB;
  do! outportb (port + DL_LO) (Z.land divisor 0xFF);
  do! outportb (port + DL_HI) (Z.land (Z.shiftr divisor 8) 0xFF);
  do! outportb (port + LCR) WORD_8;
  do! outportb (port + MCR) LOOP_CLEAR;
  do! outportb (port + FCR) (Z.lor (Z.lor (Z.lor RX_TRIGGER RFres) XFres) FCR_enable);
  do! outportb (port + MCR) (Z.lor (Z.lor OUT2 RTS) DTR);
  ret 0.

Fixpoint send_bytes (n : nat) (port : Z) (buffer : list Z) : IO unit :=
  match n with
  | O => ret tt
  | S n =>
      do! poll (port + LSR) (fun v => negb (test v THRE));
      match buffer with
      | [] => fault
      | c :: buffer => do! outportb (port + THR) c; send_bytes n port buffer
      end
  end.
Definition serial_write (pdata size : Z) (buffer : list Z) : IO Z :=
  do! send_bytes (Z.to_nat size) (u16 pdata) buffer; ret (s32 size).

(** The loop condition is [!inportb(port + LSR)&RBF], which is
    [(!inportb(port + LSR)) & RBF]. *)
Fixpoint receive_bytes (n : nat) (port : Z) : IO (list Z) :=
  match n with
  | O => ret []
  | S n =>
      do! poll (port + LSR) (fun v => test (b2z (v =? 0)) RBF);
      let! c := inportb (port + RBR) in
      let! l := receive_bytes n port in
      ret (s8 c :: l)
  end.
Definition serial_read (pdata size : Z) : IO (Z * list Z) :=
  let! l := receive_bytes (Z.to_nat size) (u16 pdata) in ret (s32 size, l).

Definition serial_close (pdata : Z) : IO Z :=
  let port := u16 pdata in
  do! outportb (port + IER) NO_INTERRUPTS;
  do! outportb (port + MCR) 0x00;
  ret 0.

(** ** Facts *)

Definition logged (l : list access) (b : bus) : bus := Bus (log b ++ l) (script b).

Lemma record_run a b : record a b = Ok (tt, logged [a] b).
Proof. done. Qed.
Lemma outportb_run p v b : outportb p v b = Ok (tt, logged [Out8 (u16 p) (u8 v)] b).
Proof. done. Qed.
Lemma outportw_run p v b : outportw p v b = Ok (tt, logged [Out16 (u16 p) (u16 v)] b).
Proof. done. Qed.
Lemma inportb_run p v l r : inportb p (Bus l (v :: r)) = Ok (u8 v, Bus (l ++ [In8 (u16 p)]) r).
Proof. done. Qed.
Lemma inportw_run p v l r : inportw p (Bus l (v :: r)) = Ok (u16 v, Bus (l ++ [In16 (u16 p)]) r).
Proof. done. Qed.
Lemma logged_logged l l' b : logged l (logged l' b) = logged (l' ++ l) b.
Proof. unfold logged. cbn. by rewrite app_assoc. Qed.
(** Waiting: the values the loop goes on for, then one it stops at. *)
Lemma poll_loop_run port go l : forall fuel ls v rest, Forall (fun x => go (u8 x) = true) l -> go (u8 v) = false ->
  (length l < fuel)%nat ->
  poll_loop fuel port go (Bus ls (l ++ v :: rest)) = Ok (tt, Bus (ls ++ replicate (S (length l)) (In8 (u16 port))) rest).
Proof.
  induction l as [|x l IH]; intros [|fuel] ls v rest Hl Hv Hf; cbn [length] in Hf; try lia; cbn [app poll_loop].
  - rewrite (bind_step _ _ _ _ _ (inportb_run _ _ _ _)). by rewrite Hv.
  - apply Forall_cons in Hl as [Hx Hl]. rewrite (bind_step _ _ _ _ _ (inportb_run _ _ _ _)), Hx.
    rewrite (IH fuel) by (done || lia). by rewrite <- app_assoc.
Qed.
Lemma poll_run port go l ls v rest : Forall (fun x => go (u8 x) = true) l -> go (u8 v) = false ->
  poll port go (Bus ls (l ++ v :: rest)) = Ok (tt, Bus (ls ++ replicate (S (length l)) (In8 (u16 port))) rest).
Proof. intros Hl Hv. unfold poll, bind, gets. apply poll_loop_run; [done..|]. cbn [script]. rewrite length_app. lia. Qed.

(** A script that never lets the loop stop does not satisfy it. *)
Lemma poll_waits port go ls l : Forall (fun x => go (u8 x) = true) l -> poll port go (Bus ls l) = Fuel.
Proof.
  intros Hl. unfold poll, bind, gets. cbn [script].
  assert (H : forall fuel ls, poll_loop fuel port go (Bus ls l) = Fuel); [|apply H].
  induction l as [|x l IH]; intros [|fuel] ls'; try done. apply Forall_cons in Hl as [Hx Hl].
  cbn [poll_loop]. rewrite (bind_step _ _ _ _ _ (inportb_run _ _ _ _)), Hx. by apply IH.
Qed.

(** What was written to a port, and the words written to any. *)
Definition sent (port : Z) (l : list access) : list Z :=
  omap (fun a => match a with Out8 p v => if p =? port then Some v else None | _ => None end) l.
Definition words (l : list access) : list Z := omap (fun a => match a with Out16 _ v => Some v | _ => None end) l.

Lemma sent_app port l l' : sent port (l ++ l') = sent port l ++ sent port l'.
Proof. apply omap_app. Qed.
Lemma sent_polls port p n : sent port (replicate n (In8 p)) = [].
Proof. induction n; done. Qed.
Lemma words_app l l' : words (l ++ l') = words l ++ words l'.
Proof. apply omap_app. Qed.
Lemma words_polls p n : words (replicate n (In8 p)) = [].
Proof. induction n; done. Qed.

(** *** Serial lines *)

(** The line status while a byte waits to be sent. *)
Definition wait_then_ready (ws : list Z) (r : Z) : Prop :=
  Forall (fun x => negb (test (u8 x) THRE) = true) ws /\ negb (test (u8 r) THRE) = false.

Lemma send_bytes_run port : forall (buffer : list Z) (waits : list (list Z * Z)) rest ls, 
  length waits = length buffer -> Forall (fun w => wait_then_ready w.1 w.2) waits ->
  exists l', send_bytes (length buffer) port buffer (Bus ls (concat (map (fun w => w.1 ++ [w.2]) waits) ++ rest)) =
    Ok (tt, Bus (ls ++ l') rest) /\ sent (u16 (port + THR)) l' = u8 <$> buffer.
Proof.
  induction buffer as [|c buffer IH]; intros [|[ws r] waits] rest ls Hl Hw; try done.
  - exists []. rewrite app_nil_r. done.
  - apply Forall_cons in Hw as [[Hws Hr] Hw]. cbn [length send_bytes map concat fst snd] in *.
    rewrite <- !app_assoc. cbn [app]. rewrite (bind_step _ _ _ _ _ (poll_run _ _ _ _ _ _ Hws Hr)).
    rewrite (bind_step _ _ _ _ _ (outportb_run _ _ _)). unfold logged. cbn [log script].
    destruct (IH waits rest ((ls ++ replicate (S (length ws)) (In8 (u16 (port + LSR)))) ++ [Out8 (u16 (port + THR)) (u8 c)]))
      as (l' & -> & Hs); [lia|done|].
    eexists. split; [by rewrite <- !app_assoc|]. rewrite !sent_app, sent_polls, Hs. cbn. by rewrite Z.eqb_refl.
Qed.

(** Writing to a serial line sends the bytes in order, each when the line says
    that it is ready, however long it takes. *)
Theorem serial_write_sends pdata (buffer : list Z) (waits : list (list Z * Z)) rest :
  length waits = length buffer -> Forall (fun w => wait_then_ready w.1 w.2) waits ->
  Z.of_nat (length buffer) < 2147483648 ->
  exists l', serial_write pdata (Z.of_nat (length buffer)) buffer
      (Bus [] (concat (map (fun w => w.1 ++ [w.2]) waits) ++ rest)) = Ok (Z.of_nat (length buffer), Bus l' rest) /\
    sent (u16 (u16 pdata + THR)) l' = u8 <$> buffer.
Proof.
  intros Hl Hw Hb. unfold serial_write. rewrite Nat2Z.id.
  destruct (send_bytes_run (u16 pdata) buffer waits rest [] Hl Hw) as (l' & Hr & Hs).
  exists l'. rewrite (bind_step _ _ _ _ _ Hr). unfold ret. by rewrite s32_id by lia.
Qed.

(** Reading takes any status but 0 for received data: on a line that is only
    ready to send, the byte is read although none was received. *)
Theorem serial_read_ignores_ready pdata status c rest :
  u8 status <> 0 -> test (u8 status) RBF = false ->
  exists b, serial_read pdata 1 (Bus [] (status :: c :: rest)) = Ok ((1, [s8 (u8 c)]), b).
Proof.
  intros Hs _. unfold serial_read. cbn [Z.to_nat Pos.to_nat Pos.iter_op Nat.add receive_bytes].
  change (Z.to_nat 1) with 1%nat. cbn [receive_bytes].
  assert (Hp : poll (u16 pdata + LSR) (fun v => test (b2z (v =? 0)) RBF) (Bus [] (status :: c :: rest)) =
    Ok (tt, Bus [In8 (u16 (u16 pdata + LSR))] (c :: rest))).
  { apply (poll_run _ _ [] [] status (c :: rest)); [constructor|]. by replace (u8 status =? 0) with false by lia. }
  rewrite (bind_step _ _ _ (s8 (u8 c) :: []) (Bus [In8 (u16 (u16 pdata + LSR)); In8 (u16 (u16 pdata + RBR))] rest)); [by eexists|].
  rewrite (bind_step _ _ _ _ _ Hp). done.
Qed.

(** *** DMA *)

(** The address and the count that the controller's registers hold after the
    bytes were written to the ports, low byte first. *)
Definition dma_address (l : list access) (addr_port page_port : Z) : option Z :=
  match sent addr_port l, sent page_port l with
  | [lo; hi], [page] => Some (lo + 256 * hi + 65536 * page)
  | _, _ => None
  end.
Definition dma_count (l : list access) (count_port : Z) : option Z :=
  match sent count_port l with [lo; hi] => Some (lo + 256 * hi) | _ => None end.

Lemma low_high x : 0 <= x < 65536 -> u8 (LOW_BYTE x) + 256 * u8 (HI_BYTE x) = x.
Proof.
  intros Hx. unfold LOW_BYTE, HI_BYTE. change 0x00FF with (Z.ones 8).
  change 0xFF00 with (Z.shiftl (Z.ones 8) 8). rewrite Z.land_ones by lia.
  rewrite Z.shiftr_land, Z.shiftr_shiftl_l by lia. cbn [Z.sub]. change (8 - 8) with 0. rewrite Z.shiftl_0_r.
  rewrite Z.land_ones, Z.shiftr_div_pow2 by lia. change (2 ^ 8) with 256. unfold u8. lia.
Qed.

(** Programming the controller for channel 2, the floppy's, gives it the
    address and the length of the transfer less one, and leaves the channel
    enabled. *)
Theorem dma_xfer_programs address length (read_req : bool) s :
  0 <= address < 16777216 -> 1 <= length <= 65536 ->
  exists l, dma_xfer 2 address length read_req (Bus [] s) = Ok (tt, Bus l s) /\
    dma_address l 0x04 0x81 = Some address /\ dma_count l 0x05 = Some (length - 1) /\
    sent 0x0A l = [0x06; 0x02] /\ sent 0x0B l = [if read_req then 0x4A else 0x46].
Proof.
  intros Ha Hl. set (lo := u8 (LOW_BYTE (Z.land address 0xFFFF))). set (hi := u8 (HI_BYTE (Z.land address 0xFFFF))).
  set (page := u8 (u8 (Z.shiftr address 16))). set (clo := u8 (LOW_BYTE (u32 (length - 1)))).
  set (chi := u8 (HI_BYTE (u32 (length - 1)))).
  exists [Cli; Out8 0x0A 0x06; Out8 0x0C 0; Out8 0x0B (if read_req then 0x4A else 0x46); Out8 0x04 lo; Out8 0x04 hi;
     Out8 0x81 page; Out8 0x05 clo; Out8 0x05 chi; Out8 0x0A 0x02; Sti].
  split; [by destruct read_req|]. unfold dma_address, dma_count, sent. cbn [omap list_omap Z.eqb Pos.eqb].
  assert (Hlo : lo + 256 * hi = address mod 65536).
  { unfold lo, hi. change 0xFFFF with (Z.ones 16). rewrite Z.land_ones by lia. rewrite low_high; [done|].
    change (2 ^ 16) with 65536. lia. }
  assert (Hpg : page = address / 65536).
  { unfold page. rewrite Z.shiftr_div_pow2 by lia. change (2 ^ 16) with 65536. unfold u8. lia. }
  assert (Hc : clo + 256 * chi = length - 1).
  { unfold clo, chi. rewrite u32_id by lia. apply low_high. lia. }
  split; [f_equal; lia|]. split; [f_equal; lia|]. done.
Qed.

(** *** ATA disks *)

(** The address and the drive that the controller's registers hold. *)
Definition ata_address (l : list access) (controller : Z) : option (Z * Z) :=
  match sent (controller + ATA_SNUM) l, sent (controller + ATA_CLOW) l, sent (controller + ATA_CHIH) l,
        sent (controller + ATA_HDEV) l with
  | [a], [b], [c], [d] => Some (a + 256 * b + 65536 * c + 16777216 * (d mod 16), d / 16 mod 2)
  | _, _, _, _ => None
  end.

Lemma hdev_byte drive n : drive = 0 \/ drive = 1 -> 0 <= n < 16 ->
  let d := u8 (Z.lor (Z.lor 0xE0 (u8 (Z.shiftl drive 4))) (u8 n)) in d mod 16 = n /\ d / 16 mod 2 = drive.
Proof.
  intros Hd Hn. assert (H : forall_below 16 (fun n => forallb (fun drive =>
    let d := u8 (Z.lor (Z.lor 0xE0 (u8 (Z.shiftl drive 4))) (u8 n)) in (d mod 16 =? n) && (d / 16 mod 2 =? drive)) [0; 1]) = true)
    by (vm_compute; reflexivity).
  apply (forall_below_spec _ _ n H) in Hn. cbn [forallb] in Hn. destruct Hd as [-> | ->]; lia.
Qed.

(** Programming the controller selects the drive and the sector: the registers
    hold the 28 bits of the address, for each of the two controllers. *)
Theorem lba28_init_programs controller drive addr sectorcount ws v rest :
  controller = ATA_IDE_1 \/ controller = ATA_IDE_2 -> drive = ATA_MASTER \/ drive = ATA_SLAVE -> 0 <= addr < 4294967296 ->
  Forall (fun x => test (u8 x) 0x80 = true) ws -> test (u8 v) 0x80 = false ->
  exists l, lba28_init controller drive addr sectorcount (Bus [] (ws ++ v :: rest)) = Ok (1, Bus l rest) /\
    ata_address l controller = Some (addr mod 268435456, drive) /\ sent (controller + ATA_SECS) l = [u8 sectorcount].
Proof.
  intros Hc Hd Ha Hws Hv. unfold lba28_init. rewrite (bind_step _ _ _ _ _ (poll_run _ _ _ _ _ _ Hws Hv)).
  set (n := Z.land (Z.shiftr addr 24) 0x0F). set (h := u8 (Z.lor (Z.lor 0xE0 (u8 (Z.shiftl drive 4))) (u8 n))).
  set (a := u8 (u8 addr)). set (b := u8 (u8 (Z.shiftr addr 8))). set (c := u8 (u8 (Z.shiftr addr 16))).
  exists (replicate (S (length ws)) (In8 (u16 (controller + ATA_CHK2))) ++
    [Out8 (controller + 1) 0; Out8 (controller + 2) (u8 sectorcount); Out8 (controller + 3) a; Out8 (controller + 4) b;
     Out8 (controller + 5) c; Out8 (controller + 6) h]).
  assert (Hn : n = addr / 16777216 mod 16).
  { unfold n. change 0x0F with (Z.ones 4). rewrite Z.land_ones, Z.shiftr_div_pow2 by lia. done. }
  destruct (hdev_byte drive n Hd) as [Hh1 Hh2]; [lia|]. fold h in Hh1, Hh2.
  assert (Hab : a + 256 * b + 65536 * c = addr mod 16777216).
  { unfold a, b, c. rewrite !Z.shiftr_div_pow2 by lia. change (2 ^ 8) with 256. change (2 ^ 16) with 65536. unfold u8. lia. }
  split; [destruct Hc as [-> | ->]; unfold bind; rewrite ?outportb_run; unfold logged, ret; cbn [log script]; by rewrite <- !app_assoc|].
  unfold ata_address. rewrite !sent_app, !sent_polls. cbn [app].
  destruct Hc as [-> | ->]; unfold sent; cbn [omap list_omap Z.add ATA_IDE_1 ATA_IDE_2 ATA_SNUM ATA_CLOW ATA_CHIH ATA_HDEV ATA_SECS
    Pos.add Pos.add_carry Pos.succ Z.eqb Pos.eqb]; (split; [|done]); do 2 f_equal; [lia|done|lia|done].
Qed.

(** The words of a buffer, low byte first. *)
Definition word (buf : list Z) (k : nat) : Z := default 0 (buf !! (2 * k)%nat) + 256 * default 0 (buf !! (2 * k + 1)%nat).
Definition is_byte (x : Z) : Prop := 0 <= x < 256.

Lemma lor_shifted lo hi : is_byte lo -> 0 <= hi -> Z.lor lo (Z.shiftl hi 8) = lo + 256 * hi.
Proof.
  intros Hlo Hhi. rewrite <- Z.lxor_lor, <- Z.add_nocarry_lxor.
  - rewrite Z.shiftl_mul_pow2 by lia. change (2 ^ 8) with 256. lia.
  - apply Z.bits_inj'. intros k Hk. rewrite Z.land_spec, Z.shiftl_spec, Z.bits_0 by lia.
    destruct (decide (k < 8)); [rewrite (Z.testbit_neg_r hi) by lia; by rewrite andb_false_r|].
    rewrite (bits_high lo 8 k); [done|exact Hlo|lia].
  - apply Z.bits_inj'. intros k Hk. rewrite Z.land_spec, Z.shiftl_spec, Z.bits_0 by lia.
    destruct (decide (k < 8)); [rewrite (Z.testbit_neg_r hi) by lia; by rewrite andb_false_r|].
    rewrite (bits_high lo 8 k); [done|exact Hlo|lia].
Qed.

Lemma word_bytes lo hi : is_byte lo -> is_byte hi ->
  let w := u16 (Z.lor lo (Z.shiftl hi 8)) in
  w = lo + 256 * hi /\ u8 (Z.land w 0xFF) = lo /\ u8 (Z.shiftr (Z.land w 0xFF00) 8) = hi.
Proof.
  intros Hlo Hhi w. unfold is_byte in *. assert (Hw : w = lo + 256 * hi).
  { unfold w. rewrite lor_shifted by (unfold is_byte; lia). unfold u16. lia. }
  pose proof (low_high w) as Hlh. split; [done|]. unfold LOW_BYTE, HI_BYTE in Hlh. unfold u8 in *. lia.
Qed.

Lemma write_words_run n controller buf : forall i b, Forall is_byte buf -> (2 * (i + n) <= length buf)%nat ->
  write_words n controller (Z.of_nat i) buf b =
  Ok (tt, logged (map (fun k => Out16 (u16 controller) (word buf k)) (seq i n)) b).
Proof.
  induction n as [|n IH]; intros i b Hb Hl; cbn [write_words seq map].
  { unfold logged, ret. rewrite app_nil_r. by destruct b. }
  destruct (lookup_lt_is_Some_2 buf (2 * i)%nat) as [lo Hlo]; [lia|].
  destruct (lookup_lt_is_Some_2 buf (2 * i + 1)%nat) as [hi Hhi]; [lia|].
  assert (Hglo : aget buf (Z.of_nat i * 2) = Some lo).
  { replace (Z.of_nat i * 2) with (Z.of_nat (2 * i)) by lia. by rewrite aget_nat. }
  assert (Hghi : aget buf (Z.of_nat i * 2 + 1) = Some hi).
  { replace (Z.of_nat i * 2 + 1) with (Z.of_nat (2 * i + 1)) by lia. by rewrite aget_nat. }
  unfold get_or_fault, bind at 1. rewrite Hglo. unfold bind at 1. rewrite Hghi.
  rewrite (bind_step _ _ _ _ _ (outportw_run _ _ _)).
  replace (Z.of_nat i + 1) with (Z.of_nat (S i)) by lia. rewrite IH by (done || lia). rewrite logged_logged. cbn [app].
  assert (Hwlo := Forall_lookup_1 _ _ _ _ Hb Hlo). assert (Hwhi := Forall_lookup_1 _ _ _ _ Hb Hhi).
  destruct (word_bytes lo hi Hwlo Hwhi) as (Hw & _). unfold word. rewrite Hlo, Hhi. cbn [default from_option id].
  replace (u16 (u16 (Z.lor lo (Z.shiftl hi 8)))) with (lo + 256 * hi); [done|].
  rewrite Hw. unfold is_byte, u16 in *. lia.
Qed.

(** Reading the words of [src]: the bytes read are those of [src]. *)
Lemma read_words_run n controller src : forall i buf ls rest, Forall is_byte src -> (2 * (i + n) <= length src)%nat ->
  length buf = length src -> take (2 * i) buf = take (2 * i) src ->
  exists buf' ls', read_words n controller (Z.of_nat i) buf (Bus ls (map (word src) (seq i n) ++ rest)) =
    Ok (buf', Bus ls' rest) /\ length buf' = length src /\ take (2 * (i + n)) buf' = take (2 * (i + n)) src.
Proof.
  induction n as [|n IH]; intros i buf ls rest Hs Hl Hlen Ht; cbn [read_words seq map app].
  { exists buf, ls. by rewrite Nat.add_0_r. }
  destruct (lookup_lt_is_Some_2 src (2 * i)%nat) as [lo Hlo]; [lia|].
  destruct (lookup_lt_is_Some_2 src (2 * i + 1)%nat) as [hi Hhi]; [lia|].
  assert (Hblo := Forall_lookup_1 _ _ _ _ Hs Hlo). assert (Hbhi := Forall_lookup_1 _ _ _ _ Hs Hhi).
  destruct (word_bytes lo hi Hblo Hbhi) as (Hw & H1 & H2).
  assert (Hword : u16 (word src i) = u16 (Z.lor lo (Z.shiftl hi 8))).
  { clear H1 H2. unfold word. rewrite Hlo, Hhi. cbn [default from_option id]. rewrite Hw. unfold is_byte, u16 in *. lia. }
  rewrite (bind_step _ _ _ _ _ (inportw_run _ _ _ _)), Hword, H1, H2.
  unfold get_or_fault. unfold bind at 1. rewrite aset_Some by lia.
  unfold bind at 1. rewrite aset_Some by (rewrite length_insert; lia).
  replace (Z.to_nat (Z.of_nat i * 2)) with (2 * i)%nat by lia. replace (Z.to_nat (Z.of_nat i * 2 + 1)) with (2 * i + 1)%nat by lia.
  replace (Z.of_nat i + 1) with (Z.of_nat (S i)) by lia. replace (i + S n)%nat with (S i + n)%nat by lia.
  apply IH; [done|lia|by rewrite !length_insert|].
  replace (2 * S i)%nat with (S (2 * i + 1)) by lia. rewrite take_insert_S by (rewrite length_insert; lia).
  rewrite (take_S_r src (2 * i + 1) hi) by done. f_equal. rewrite Nat.add_1_r.
  rewrite take_insert_S by lia. rewrite (take_S_r src (2 * i) lo) by done. by rewrite Ht.
Qed.

(** A status the controller is busy in, and one it has data in. *)
Definition not_busy (v : Z) : Prop := test (u8 v) 0x80 = false.
Definition data_ready (v : Z) : Prop := test (u8 v) 0x08 = true.

Lemma lba28_init_run controller drive addr sectorcount v rest ls : not_busy v ->
  exists ls', lba28_init controller drive addr sectorcount (Bus ls (v :: rest)) = Ok (1, Bus (ls ++ ls') rest) /\
    words ls' = [].
Proof.
  intros Hv. unfold lba28_init.
  rewrite (bind_step _ _ _ _ _ (poll_run (controller + ATA_CHK2) (fun v => test v 0x80) [] ls v rest (Forall_nil_2 _) Hv)).
  unfold bind. rewrite !outportb_run. unfold logged, ret. cbn [log script].
  eexists. rewrite <- !app_assoc. split; [reflexivity|]. done.
Qed.

Lemma words_out ws c : words (map (fun w => Out16 c w) ws) = ws.
Proof. unfold words. induction ws as [|w ws IH]; cbn; [done|]. by rewrite IH. Qed.

(** What is written to a disk and what is read from it have the same form: the
    words a write of a buffer puts on the data port, given to a read of as many
    sectors, fill its buffer with the same bytes.  Both transfer one sector
    more than the number in the sector count register. *)
Theorem lba28_write_read controller drive addr sectorcount buf buf' v r :
  let c := Z.land controller 0xFFF0 in
  c = ATA_IDE_1 \/ c = ATA_IDE_2 -> drive = ATA_MASTER \/ drive = ATA_SLAVE -> 0 <= sectorcount < 256 ->
  Z.of_nat (length buf) = 512 * (sectorcount + 1) -> length buf' = length buf -> Forall is_byte buf ->
  not_busy v -> data_ready r ->
  exists l l',
    lba28_write buf controller drive addr sectorcount (Bus [] [v; r]) = Ok (1, Bus l []) /\
    Z.of_nat (length (words l)) = 256 * (sectorcount + 1) /\
    lba28_read buf' controller drive addr sectorcount (Bus [] (v :: r :: words l)) = Ok ((1, buf), Bus l' []).
Proof.
  intros c Hc Hd Hn Hl Hl' Hb Hv Hr. unfold lba28_write, lba28_read. fold c.
  replace (ata_known c drive) with true by (unfold ata_known; destruct Hc as [-> | ->], Hd as [-> | ->]; done).
  cbn [negb]. set (n := Z.to_nat (256 * (sectorcount + 1))).
  set (w := map (fun k => word buf k) (seq 0 n)).
  assert (Hpoll : forall ls rest, poll (Z.lor c ATA_CMD) (fun v => negb (test v 0x08)) (Bus ls (r :: rest)) =
    Ok (tt, Bus (ls ++ [In8 (u16 (Z.lor c ATA_CMD))]) rest)).
  { intros ls rest. apply (poll_run _ (fun v => negb (test v 0x08)) [] ls r rest); [constructor|]. by rewrite Hr. }
  destruct (lba28_init_run c drive addr sectorcount v [r] [] Hv) as (lw & Hiw & Hww).
  destruct (lba28_init_run c drive addr sectorcount v (r :: w) [] Hv) as (lr & Hir & Hwr).
  rewrite (bind_step _ _ _ _ _ Hiw). cbn [Z.eqb].
  rewrite (bind_step _ _ _ _ _ (outportb_run _ _ _)). unfold logged. cbn [log script].
  rewrite (bind_step _ _ _ _ _ (Hpoll _ _)).
  rewrite (bind_step _ _ _ _ _ (write_words_run n c buf 0 _ Hb ltac:(lia))). unfold logged, ret. cbn [log script].
  assert (Hw : words ((([] ++ lw) ++ [Out8 (u16 (Z.lor c ATA_CMD)) (u8 ATA_WRITE_CMD)]) ++ [In8 (u16 (Z.lor c ATA_CMD))] ++
    map (fun k => Out16 (u16 c) (word buf k)) (seq 0 n)) = w).
  { rewrite !words_app, Hww. cbn [app words omap list_omap]. unfold w. rewrite <- (words_out (map _ _) (u16 c)).
    by rewrite map_map. }
  destruct (read_words_run n c buf 0 buf' ((([] ++ lr) ++ [Out8 (u16 (Z.lor c ATA_CMD)) (u8 ATA_READ_CMD)]) ++
    [In8 (u16 (Z.lor c ATA_CMD))]) [] Hb ltac:(lia) Hl' eq_refl) as (b & l' & Hrd & Hlb & Htb).
  eexists _, l'. split; [reflexivity|]. rewrite <- app_assoc, Hw. split; [unfold w; rewrite length_map, length_seq; lia|].
  rewrite (bind_step _ _ _ _ _ Hir). cbn [Z.eqb].
  rewrite (bind_step _ _ _ _ _ (outportb_run _ _ _)). unfold logged. cbn [log script].
  rewrite (bind_step _ _ _ _ _ (Hpoll _ _)). rewrite app_nil_r in Hrd. rewrite (bind_step _ _ _ _ _ Hrd).
  rewrite !take_ge in Htb by lia. by rewrite Htb.
Qed.

(** ** Witnesses *)

Lemma serial_write_sends_witness : exists l,
  serial_write 0x3F8 2 [104; 105] (Bus [] [0; 0x20; 0x60]) = Ok (2, Bus l []) /\ sent 0x3F8 l = [104; 105].
Proof.
  destruct (serial_write_sends 0x3F8 [104; 105] [([0], 0x20); ([], 0x60)] []) as (l & Hr & Hs).
  - reflexivity.
  - repeat constructor.
  - simpl. lia.
  - exists l. split; [exact Hr|exact Hs].
Defined.

Lemma serial_read_ignores_ready_witness : exists b, serial_read 0x3F8 1 (Bus [] [0x60; 0]) = Ok ((1, [0]), b).
Proof. apply (serial_read_ignores_ready 0x3F8 0x60 0 []); [discriminate|reflexivity]. Defined.

Lemma dma_xfer_programs_witness : exists l, dma_xfer 2 0x80000 512 true (Bus [] []) = Ok (tt, Bus l []) /\
  dma_address l 0x04 0x81 = Some 0x80000 /\ dma_count l 0x05 = Some 511.
Proof.
  destruct (dma_xfer_programs 0x80000 512 true []) as (l & Hr & Ha & Hc & _); [lia|lia|].
  exists l. split; [exact Hr|]. split; [exact Ha|exact Hc].
Defined.

Lemma lba28_init_programs_witness : exists l, lba28_init 0x1F0 1 0x1234567 3 (Bus [] [0x80; 0x50]) = Ok (1, Bus l []) /\
  ata_address l 0x1F0 = Some (0x1234567, 1).
Proof.
  destruct (lba28_init_programs 0x1F0 1 0x1234567 3 [0x80] 0x50 []) as (l & Hr & Ha & _).
  - left. reflexivity.
  - right. reflexivity.
  - lia.
  - repeat constructor.
  - reflexivity.
  - exists l. split; [exact Hr|exact Ha].
Defined.

Lemma lba28_write_read_witness : exists l l',
  lba28_write (replicate 512 7) 0x1F0 0 9 0 (Bus [] [0x50; 0x58]) = Ok (1, Bus l []) /\
  lba28_read (replicate 512 0) 0x1F0 0 9 0 (Bus [] (0x50 :: 0x58 :: words l)) = Ok ((1, replicate 512 7), Bus l' []).
Proof.
  destruct (lba28_write_read 0x1F0 0 9 0 (replicate 512 7) (replicate 512 0) 0x50 0x58) as (l & l' & Hw & _ & Hr).
  - left. reflexivity.
  - left. reflexivity.
  - lia.
  - reflexivity.
  - reflexivity.
  - apply Forall_replicate. unfold is_byte. lia.
  - reflexivity.
  - reflexivity.
  - exists l, l'. split; [exact Hw|exact Hr].
Defined.
