(* ===== verification/Floppy.v ===== *)
(** * The floppy disk: [src/src/drivers/fdc/fdc_lib.c]

    The controller's side is the script of [Ports] and, for the data, the
    contents its DMA leaves in the track buffer, one for each read command;
    what a write command takes from the track buffer is logged.  [sleep] and
    [sys_pause] do nothing here.  A request runs on the state of the file
    systems, which has the controller's in it. *)
From S2P Require Import Prelude CString Abi Vfs Namei Initrdfs Devfs Drivers Ports.
Open Scope nup_scope.

Definition DG144_HEADS : Z := 2.
Definition DG144_TRACKS : Z := 80.
Definition DG144_SPT : Z := 18.
Definition DG144_GAP3RW : Z := 0x1b.
Definition DG168_GAP3RW : Z := 0x1c.
Definition FDC_DOR : Z := 0x3f2.
Definition FDC_MSR : Z := 0x3f4.
Definition FDC_DRS : Z := 0x3f4.
Definition FDC_DATA : Z := 0x3f5.
Definition FDC_DIR : Z := 0x3f7.
Definition FDC_CCR : Z := 0x3f7.
Definition CMD_SPECIFY : Z := 0x03.
Definition CMD_WRITE : Z := 0xc5.
Definition CMD_READ : Z := 0xe6.
Definition CMD_RECAL : Z := 0x07.
Definition CMD_SENSEI : Z := 0x08.
Definition CMD_SEEK : Z := 0x0f.
Definition FLOPPY_SECTOR_SIZE : Z := 512.
Definition FLOPPY_SECTOR_COUNT : Z := 2880.

(** [geometry]: the only one the driver sets. *)
Record DrvGeom := Geom { heads : Z; tracks : Z; spt : Z }.
Definition geometry : DrvGeom := Geom DG144_HEADS DG144_TRACKS DG144_SPT.
Definition tbaddr : Z := 0x80000.

Record fdc := Fdc {
  io : bus;
  dma_in : list (list Z); dma_out : list (list Z);
  track_buffer : list Z;
  done_ : Z; thepid : Z; dchange : Z; motor : Z; mtick : Z; tmout : Z;
  status : list Z; statsz : Z; sr0 : Z; fdc_track : Z }.

Definition set_io (b : bus) (f : fdc) : fdc :=
  Fdc b (dma_in f) (dma_out f) (track_buffer f) (done_ f) (thepid f) (dchange f) (motor f) (mtick f) (tmout f) (status f)
    (statsz f) (sr0 f) (fdc_track f).
Definition set_buffer (i o : list (list Z)) (t : list Z) (f : fdc) : fdc :=
  Fdc (io f) i o t (done_ f) (thepid f) (dchange f) (motor f) (mtick f) (tmout f) (status f) (statsz f) (sr0 f) (fdc_track f).
Definition set_done (d : Z) (f : fdc) : fdc :=
  Fdc (io f) (dma_in f) (dma_out f) (track_buffer f) d (thepid f) (dchange f) (motor f) (mtick f) (tmout f) (status f)
    (statsz f) (sr0 f) (fdc_track f).
Definition set_wait (p t : Z) (f : fdc) : fdc :=
  Fdc (io f) (dma_in f) (dma_out f) (track_buffer f) (done_ f) p (dchange f) (motor f) (mtick f) t (status f) (statsz f)
    (sr0 f) (fdc_track f).
Definition set_dchange (d : Z) (f : fdc) : fdc :=
  Fdc (io f) (dma_in f) (dma_out f) (track_buffer f) (done_ f) (thepid f) d (motor f) (mtick f) (tmout f) (status f)
    (statsz f) (sr0 f) (fdc_track f).
Definition set_motor (m t : Z) (f : fdc) : fdc :=
  Fdc (io f) (dma_in f) (dma_out f) (track_buffer f) (done_ f) (thepid f) (dchange f) m t (tmout f) (status f) (statsz f)
    (sr0 f) (fdc_track f).
Definition set_status (s : list Z) (n : Z) (f : fdc) : fdc :=
  Fdc (io f) (dma_in f) (dma_out f) (track_buffer f) (done_ f) (thepid f) (dchange f) (motor f) (mtick f) (tmout f) s n
    (sr0 f) (fdc_track f).
Definition set_sense (s t : Z) (f : fdc) : fdc :=
  Fdc (io f) (dma_in f) (dma_out f) (track_buffer f) (done_ f) (thepid f) (dchange f) (motor f) (mtick f) (tmout f)
    (status f) (statsz f) s t.

Local Abbreviation FM := (M fdc).

Definition on_bus {A} (m : IO A) : FM A := fun f =>
  match m (io f) with Ok (a, b) => Ok (a, set_io b f) | Fault => Fault | Fuel => Fuel end.

(** ** Bytes to and from the controller *)

Fixpoint sendbyte_loop (n : nat) (byte : Z) : IO unit :=
  match n with
  | O => ret tt
  | S n =>
      let! msr := inportb FDC_MSR in
      if Z.land msr 0xc0 =? 0x80 then outportb FDC_DATA byte
      else do! inportb 0x80; sendbyte_loop n byte
  end.
Definition sendbyte (byte : Z) : FM unit := on_bus (sendbyte_loop 128 byte).

Fixpoint getbyte_loop (n : nat) : IO Z :=
  match n with
  | O => ret (-1)
  | S n =>
      let! msr := inportb FDC_MSR in
      if Z.land msr 0xd0 =? 0xd0 then inportb FDC_DATA else do! inportb 0x80; getbyte_loop n
  end.
Definition getbyte : FM Z := on_bus (getbyte_loop 128).

(** The result bytes, at most 7. *)
Fixpoint read_status (n : nat) : FM unit :=
  match n with
  | O => ret tt
  | S n =>
      let! msr := on_bus (inportb FDC_MSR) in
      if test msr (Z.shiftl 1 4) then
        let! b := getbyte in
        let! f := gets id in
        let! s := get_or_fault (fun _ => aset (status f) (statsz f) (u8 b)) in
        do! modify (set_status s (u8 (statsz f + 1)));
        read_status n
      else ret tt
  end.

(** [while (!done && tmout) sys_pause();]: nothing the loop runs through
    changes either of them. *)
Definition waitfdc (pid sensei : Z) : FM Z :=
  do! modify (set_wait pid 1000);
  let! f := gets id in
  if (done_ f =? 0) && negb (tmout f =? 0) then nofuel
  else
    do! modify (fun f => set_status (status f) 0 f);
    do! read_status 7;
    do! (if sensei =? 0 then ret tt
         else
           do! sendbyte CMD_SENSEI;
           let! s := getbyte in
           do! modify (fun f => set_sense (u8 s) (fdc_track f) f);
           let! t := getbyte in
           modify (fun f => set_sense (sr0 f) (u8 t) f));
    let! f := gets id in
    if tmout f =? 0 then
      let! d := on_bus (inportb FDC_DIR) in
      do! (if test d 0x80 then modify (set_dchange 1) else ret tt);
      ret 0
    else ret 1.

(** Head, track and sector of a block; C's division of [int]s. *)
Definition block2hts (block : Z) : Z * Z * Z :=
  (Z.quot (Z.rem block (spt geometry * heads geometry)) (spt geometry),
   Z.quot block (spt geometry * heads geometry), Z.rem block (spt geometry) + 1).

(** ** Disk operations *)

Section operations.
(** The process that asks. *)
Context (pid : Z).

Definition motoron : FM unit :=
  let! f := gets id in
  if motor f =? 0 then
    do! modify (set_motor 0 (-1));
    do! on_bus (outportb FDC_DOR 0x1c);
    modify (fun f => set_motor 1 (mtick f) f)
  else ret tt.
Definition motoroff : FM unit :=
  let! f := gets id in if motor f =? 0 then ret tt else modify (set_motor (motor f) 2000).

Definition recalibrate : FM unit :=
  do! sendbyte CMD_RECAL; do! sendbyte 0; do! waitfdc pid 1; ret tt.

Definition flseek (track : Z) : FM Z :=
  let! f := gets id in
  if fdc_track f =? track then ret 1
  else
    do! (if motor f =? 0 then motoron else ret tt);
    do! sendbyte CMD_SEEK;
    do! sendbyte 0;
    do! sendbyte track;
    let! ok := waitfdc pid 1 in
    if ok =? 0 then ret 0
    else
      let! f := gets id in
      ret (b2z (negb (negb (sr0 f =? 0x20) || negb (fdc_track f =? track)))).

Definition reset : FM unit :=
  do! on_bus (outportb FDC_DOR 0);
  do! modify (set_motor 0 0);
  do! on_bus (outportb FDC_DRS 0);
  do! on_bus (outportb FDC_DOR 0x0c);
  do! modify (set_done 1);
  do! sendbyte CMD_SPECIFY;
  do! sendbyte 0xdf;
  do! sendbyte 0x02;
  do! flseek 1;
  do! recalibrate;
  modify (set_dchange 0).

(** What the DMA does during a command. *)
Definition transfer_in : FM unit :=
  upd_or_fault (fun f => match dma_in f with
                         | [] => None
                         | t :: i => Some (set_buffer i (dma_out f) t f)
                         end).
Definition transfer_out (n : Z) : FM unit :=
  modify (fun f => set_buffer (dma_in f) (dma_out f ++ [take (Z.to_nat n) (track_buffer f)]) (track_buffer f) f).

Inductive attempt := Again | Give_up | Retry | Worked.

(** One round of the loop over the tries. *)
Definition fdc_try (head track sector cmd_read nosectors : Z) : FM attempt :=
  let! d := on_bus (inportb FDC_DIR) in
  if test d 0x80 then
    do! modify (set_dchange 1);
    do! flseek 1;
    do! recalibrate;
    do! motoroff;
    ret Again
  else
    let! ok := flseek track in
    if ok =? 0 then do! motoroff; ret Give_up
    else
      do! on_bus (outportb FDC_CCR 0);
      do! (if cmd_read =? 0 then
             do! on_bus (dma_xfer 2 tbaddr (u32 (nosectors * FLOPPY_SECTOR_SIZE)) true);
             do! sendbyte CMD_WRITE;
             transfer_out (u32 (nosectors * FLOPPY_SECTOR_SIZE))
           else
             do! on_bus (dma_xfer 2 tbaddr (u32 (nosectors * FLOPPY_SECTOR_SIZE)) false);
             do! sendbyte CMD_READ;
             transfer_in);
      do! sendbyte (Z.shiftl head 2);
      do! sendbyte track;
      do! sendbyte head;
      do! sendbyte sector;
      do! sendbyte 2;
      do! sendbyte (spt geometry);
      do! sendbyte (if spt geometry =? DG144_SPT then DG144_GAP3RW else DG168_GAP3RW);
      do! sendbyte 0xFF;
      let! ok := waitfdc pid 1 in
      if ok =? 0 then do! reset; ret Again
      else
        let! f := gets id in
        let! s := get_or_fault (fun _ => aget (status f) 0) in
        if Z.land s 0xC0 =? 0 then ret Worked else do! recalibrate; ret Retry.

(** Up to [tries] rounds; [Again] when the whole call is to start again. *)
Fixpoint fdc_tries (tries : nat) (head track sector cmd_read nosectors : Z) : FM attempt :=
  match tries with
  | O => ret Retry
  | S tries =>
      let! a := fdc_try head track sector cmd_read nosectors in
      match a with
      | Retry => fdc_tries tries head track sector cmd_read nosectors
      | a => ret a
      end
  end.

(** The result and the caller's buffer.  The call starts again for as long as
    the disk is reported changed, or the controller does not answer. *)
Fixpoint fdc_rw (fuel : nat) (block : Z) (blockbuff : list Z) (cmd_read nosectors : Z) : FM (Z * list Z) :=
  match fuel with
  | O => nofuel
  | S fuel =>
      let '(head, track, sector) := block2hts block in
      let n := Z.to_nat (u32 (nosectors * FLOPPY_SECTOR_SIZE)) in
      do! motoron;
      do! (if cmd_read =? 0 then
             upd_or_fault (fun f => t ← memcpy (track_buffer f) blockbuff n;
                                    Some (set_buffer (dma_in f) (dma_out f) t f))
           else ret tt);
      let! a := fdc_tries 3 head track sector cmd_read nosectors in
      match a with
      | Again => fdc_rw fuel block blockbuff cmd_read nosectors
      | Give_up => ret (0, blockbuff)
      | _ =>
          do! motoroff;
          let! f := gets id in
          let! b := (if cmd_read =? 0 then ret blockbuff
                     else get_or_fault (fun _ => memcpy blockbuff (track_buffer f) n)) in
          ret (match a with Worked => 1 | _ => 0 end, b)
      end
  end.

(** One sector at a time, each at its place in the buffer; the result is the
    last one's. *)
Fixpoint read_each (n : nat) (fuel : nat) (block loop result : Z) (blockbuff : list Z) : FM (Z * list Z) :=
  match n with
  | O => ret (result, blockbuff)
  | S n =>
      let off := Z.to_nat (loop * 512) in
      let! ' (r, b) := fdc_rw fuel (block + loop) (drop off blockbuff) 1 1 in
      read_each n fuel block (loop + 1) r (take off blockbuff ++ b)
  end.

Definition fdc_read_block (fuel : nat) (block : Z) (blockbuff : list Z) (nosectors : Z) : FM (Z * list Z) :=
  let '(_, track, _) := block2hts block in
  let '(_, track2, _) := block2hts (s32 (block + nosectors)) in
  if negb (track =? track2) then read_each (Z.to_nat nosectors) fuel block 0 0 blockbuff
  else fdc_rw fuel block blockbuff 1 nosectors.

End operations.

(** ** The device *)

Section device.
Context {F : Type} `{FsOps F} `{Sub devfs_state F} `{Sub fdc F}.
Local Abbreviation VM := (M (vstate F)).
Context (current_pid : Z) (pause : VM unit) (kill : Z -> Z -> VM unit).

Definition on_fdc {A} (m : FM A) : VM A := fun s =>
  match m (proj (fsd s)) with
  | Ok (a, f) => Ok (a, set_fsd (inj f (fsd s)) s)
  | Fault => Fault
  | Fuel => Fuel
  end.

(** The interrupt handler does not touch [done]. *)
Definition FloppyIRQ : VM unit :=
  let! p := gets (fun s => thepid (proj (fsd s))) in
  do! kill p SIGCONT;
  on_fdc (on_bus (outportb 0x20 0x20)).

Definition floppy_request (fuel : nat) (node cmd sector count : Z) (buffer : list Z) : VM (Z * list Z) :=
  if FLOPPY_SECTOR_COUNT <=? sector then ret (- EINVAL, buffer)
  else
    do! device_lock current_pid pause fuel node;
    let count := if FLOPPY_SECTOR_COUNT <=? u32 (sector + count) then FLOPPY_SECTOR_COUNT - sector else count in
    let! buffer :=
      if cmd =? REQUEST_READ then
        let! ' (_, b) := on_fdc (fdc_read_block current_pid fuel sector buffer count) in ret b
      else if cmd =? REQUEST_WRITE then
        let! ' (_, b) := on_fdc (fdc_rw current_pid fuel sector buffer 0 count) in ret b
      else ret buffer in
    do! device_unlock current_pid kill node;
    ret (s32 count, buffer).

Definition floppy_ops (fuel : nat) : file_operations F :=
  FileOperations None None None None None None (Some (floppy_request fuel)).

End device.

(** ** Properties *)

(** The physical address of a block of the disk is on the disk, and says which
    block it is: no two blocks have the same one. *)
Theorem block2hts_roundtrip block head track sector : 0 <= block < FLOPPY_SECTOR_COUNT ->
  block2hts block = (head, track, sector) ->
  0 <= head < DG144_HEADS /\ 0 <= track < DG144_TRACKS /\ 1 <= sector <= DG144_SPT /\
  (track * DG144_HEADS + head) * DG144_SPT + (sector - 1) = block.
Proof.
  unfold block2hts, geometry, FLOPPY_SECTOR_COUNT, DG144_HEADS, DG144_TRACKS, DG144_SPT. cbn [spt heads].
  intros Hb [= <- <- <-]. change (18 * 2) with 36.
  rewrite !Z.rem_mod_nonneg, !Z.quot_div_nonneg by (lia || apply Z.mod_pos_bound; lia). lia.
Qed.

(** What the reading of results leaves alone: the two variables [waitfdc]
    waits for. *)
Definition keeps_wait {A} (m : FM A) : Prop := forall f a f', m f = Ok (a, f') -> done_ f' = done_ f /\ tmout f' = tmout f.

Lemma keeps_bind {A B} (m : FM A) (k : A -> FM B) : keeps_wait m -> (forall a, keeps_wait (k a)) -> keeps_wait (bind m k).
Proof.
  intros Hm Hk f b f' (a & f1 & H1 & H2)%bind_Ok. apply Hm in H1 as [<- <-]. by apply Hk in H2.
Qed.
Lemma keeps_ret {A} (a : A) : keeps_wait (ret a).
Proof. by intros f ? ? [= _ <-]. Qed.
Lemma keeps_on_bus {A} (m : IO A) : keeps_wait (on_bus m).
Proof. intros f a f'. unfold on_bus. destruct (m (io f)) as [[]| |]; [|done..]. by intros [= _ <-]. Qed.
Lemma keeps_gets {A} (g : fdc -> A) : keeps_wait (gets g).
Proof. by intros f ? ? [= _ <-]. Qed.
Lemma keeps_get_or_fault {A} (g : fdc -> option A) : keeps_wait (get_or_fault g).
Proof. intros f a f'. unfold get_or_fault. destruct (g f); [|done]. by intros [= _ <-]. Qed.
Lemma keeps_modify g : (forall f, done_ (g f) = done_ f /\ tmout (g f) = tmout f) -> keeps_wait (modify g).
Proof. intros Hg f ? ? [= _ <-]. apply Hg. Qed.
Create HintDb fdc.
#[local] Hint Resolve keeps_bind keeps_ret keeps_on_bus keeps_gets keeps_get_or_fault : fdc.
#[local] Hint Extern 1 (keeps_wait (modify _)) => apply keeps_modify; done : fdc.
#[local] Hint Extern 1 (keeps_wait (if _ then _ else _)) => case_cond : fdc.
Ltac keeps := repeat first [ progress intros | apply keeps_bind | solve [auto with fdc] | case_cond ].

Lemma keeps_sendbyte b : keeps_wait (sendbyte b).
Proof. apply keeps_on_bus. Qed.
Lemma keeps_getbyte : keeps_wait getbyte.
Proof. apply keeps_on_bus. Qed.
#[local] Hint Resolve keeps_sendbyte keeps_getbyte : fdc.
Lemma keeps_read_status n : keeps_wait (read_status n).
Proof. induction n as [|n IH]; cbn [read_status]; keeps; auto. Qed.
#[local] Hint Resolve keeps_read_status : fdc.

(** Waiting for the controller: [done] is set once by [reset] and never
    cleared, and nothing counts [tmout] down.  After the reset the function
    never waits and never reports a timeout; before it, it never returns. *)
Theorem waitfdc_never_waits pid sensei f :
  (done_ f <> 0 -> forall r f', waitfdc pid sensei f = Ok (r, f') -> r = 1 /\ done_ f' = done_ f) /\
  (done_ f = 0 -> waitfdc pid sensei f = Fuel).
Proof.
  unfold waitfdc. rewrite (bind_step _ _ _ tt (set_wait pid 1000 f)) by done.
  rewrite (bind_step _ _ _ (set_wait pid 1000 f) (set_wait pid 1000 f)) by done. split; intros Hd.
  - intros r f'. replace (done_ (set_wait pid 1000 f) =? 0) with false by (cbn; lia). cbn [andb].
    set (rest := bind (modify _) _). intros H.
    assert (Hk : exists f1, done_ f1 = done_ f /\ tmout f1 = 1000 /\
      (let! g := gets id in if tmout g =? 0 then
         let! d := on_bus (inportb FDC_DIR) in
         do! (if test d 0x80 then modify (set_dchange 1) else ret tt); ret 0
       else ret 1) f1 = Ok (r, f')).
    { unfold rest in H. apply bind_Ok in H as (a0 & f0 & [= <- <-] & H).
      apply bind_Ok in H as (a1 & f1 & [Hd1 Ht1]%keeps_read_status & H).
      apply bind_Ok in H as (a2 & f2 & H2 & H). exists f2. split_and!; [| |exact H].
      all: match type of H2 with ?m _ = _ => assert (Hkm : keeps_wait m) by keeps end.
      all: apply Hkm in H2 as [Hd2 Ht2]; cbn in Hd1, Ht1; congruence. }
    destruct Hk as (f1 & Hd1 & Ht & Hr). unfold bind at 1, gets, id in Hr. rewrite Ht in Hr. cbn [Z.eqb] in Hr.
    injection Hr as <- <-. done.
  - cbn [set_wait done_ tmout]. by rewrite Hd.
Qed.

(** A request reports the sectors it was asked for, cut at the end of the
    disk, whatever became of them: what [fdc_rw] and [fdc_read_block] return is
    not used. *)
Theorem floppy_request_hides_errors {F : Type} `{FsOps F} `{Sub devfs_state F} `{Sub fdc F} pid pause kill fuel
    (s s' : vstate F) node cmd sector count buffer r b :
  0 <= sector < FLOPPY_SECTOR_COUNT -> 0 <= count -> sector + count < 4294967296 ->
  floppy_request pid pause kill fuel node cmd sector count buffer s = Ok ((r, b), s') ->
  r = Z.min count (FLOPPY_SECTOR_COUNT - sector).
Proof.
  intros Hs Hc Hw. unfold floppy_request. replace (FLOPPY_SECTOR_COUNT <=? sector) with false by lia.
  rewrite (u32_id (sector + count)) by lia. intros Hr. apply bind_Ok in Hr as (a1 & s1 & _ & Hr).
  apply bind_Ok in Hr as (a2 & s2 & _ & Hr). apply bind_Ok in Hr as (a3 & s3 & _ & Hr). injection Hr as <- _ _.
  unfold FLOPPY_SECTOR_COUNT in *. case_cond; rewrite s32_id by lia; lia.
Qed.

(** ** Witnesses *)

Lemma block2hts_roundtrip_witness : block2hts 1234 = (0, 34, 11) /\ (34 * 2 + 0) * 18 + (11 - 1) = 1234.
Proof.
  split; [reflexivity|]. apply (block2hts_roundtrip 1234 0 34 11); [unfold FLOPPY_SECTOR_COUNT; lia|reflexivity].
Defined.

(** A drive whose head is not on the track it was sent to. *)
Definition lost_drive : fdc :=
  Fdc (Bus [] [0; 0x80; 0x80; 0x80; 0x80; 0x80; 0xd0; 0x40; 0xd0; 5]) [] [] [] 1 0 0 1 0 1000 (replicate 7 0) 0 0 0xff.

Definition with_floppy : Type := devfs_state * fdc.
#[local] Instance with_floppy_devfs : Sub devfs_state with_floppy := { proj f := fst f; inj d f := (d, snd f) }.
#[local] Instance with_floppy_fdc : Sub fdc with_floppy := { proj f := snd f; inj d f := (fst f, d) }.
#[local] Instance with_floppy_ops : FsOps with_floppy := { iop_at _ := None; sop_at _ := None; read_super _ b _ := ret b }.
Definition floppy_sample : vstate with_floppy :=
  VState {[ 60 := Vnode 7 1 1 0 0 432 FS_BLOCKDEVICE 1 0 0 0 0 100 1011 40 0 0 ]} ∅ ∅ ∅ [] ∅ [] 0 1000 task_zero
    (DevfsState {[ 40 := DevfsHandle 7 1 0 0 432 FS_BLOCKDEVICE 1 0 [] [] 512 2880 11 500 60 ]} [40] 8 100 500, lost_drive).

(** The seek fails and nothing is read; the request reports one sector. *)
Lemma floppy_request_hides_errors_witness : exists s',
  floppy_request 3 (ret tt) (fun _ _ => ret tt) 2 60 REQUEST_READ 100 1 (replicate 512 9) floppy_sample =
    Ok ((1, replicate 512 9), s') /\ 1 = Z.min 1 (FLOPPY_SECTOR_COUNT - 100).
Proof.
  eexists. split; [vm_compute; reflexivity|].
  eapply (floppy_request_hides_errors 3 (ret tt) (fun _ _ => ret tt) 2 floppy_sample _ 60 REQUEST_READ 100 1 (replicate 512 9) 1).
  - unfold FLOPPY_SECTOR_COUNT. lia.
  - lia.
  - lia.
  - vm_compute. reflexivity.
Defined.

Lemma waitfdc_never_waits_witness : forall r f', waitfdc 3 1 lost_drive = Ok (r, f') -> r = 1.
Proof. intros r f' Hr. apply (waitfdc_never_waits 3 1 lost_drive) in Hr; [exact (proj1 Hr)|discriminate]. Defined.
