(* ===== verification/Acpi.v ===== *)
(** * Power management: [src/src/drivers/acpi.c]

    The tables of the firmware are physical memory: [mem a] is the byte at
    address [a].  The functions that search them only read; switching to ACPI
    mode and powering off are accesses to the ports of [Ports].  [sleep] does
    nothing here. *)
From S2P Require Import Prelude CString Initrdfs Ports.
Open Scope nup_scope.

Definition TIME_TO_WAIT : Z := 300.
Definition sizeof_RSDPtr : Z := 20.

(** The static variables. *)
Record acpi := Acpi {
  SMI_CMD : Z; ACPI_ENABLE : Z; ACPI_DISABLE : Z; PM1a_CNT : Z; PM1b_CNT : Z;
  SLP_TYPa : Z; SLP_TYPb : Z; SLP_EN : Z; SCI_EN : Z; PM1_CNT_LEN : Z }.
Definition acpi_init : acpi := Acpi 0 0 0 0 0 0 0 0 0 0.

Section memory.
Context (mem : Z -> Z).

(** [n] bytes from [a] on, and what the code reads through a pointer. *)
Definition bytes (a : Z) (n : nat) : list Z := map (fun k => u8 (mem (a + Z.of_nat k))) (seq 0 n).
Definition char_at (a : Z) : Z := s8 (mem a).
Definition uint_at (a : Z) : Z := le (bytes a 4).
Definition int_at (a : Z) : Z := s32 (uint_at a).
Definition short_at (a : Z) : Z := let x := le (bytes a 2) in if x <? 32768 then x else x - 65536.

Definition memcmp_at (sig : string) (a : Z) (n : nat) : bool :=
  match memcmp (chars sig) (bytes a n) n with Some r => r =? 0 | None => false end.

(** [check += *bptr] for [n] bytes, in a [char]. *)
Fixpoint char_sum (n : nat) (a check : Z) : Z :=
  match n with O => check | S n => char_sum n (a + 1) (s8 (check + char_at a)) end.

Definition acpiCheckRSDPtr (ptr : Z) : Z :=
  if negb (memcmp_at "RSD PTR " ptr 8) then 0
  else if char_sum (Z.to_nat sizeof_RSDPtr) ptr 0 =? 0 then uint_at (ptr + 16) else 0.

(** One candidate every 16 bytes. *)
Fixpoint scan (n : nat) (addr : Z) : Z :=
  match n with
  | O => 0
  | S n => let rsdp := acpiCheckRSDPtr addr in if rsdp =? 0 then scan n (addr + 16) else rsdp
  end.

Definition acpiGetRSDPtr : Z :=
  let rsdp := scan (Z.to_nat ((0x00100000 - 0x000E0000) / 16)) 0x000E0000 in
  if negb (rsdp =? 0) then rsdp
  else
    let ebda := Z.land (short_at 0x40E * 0x10) 0x000FFFFF in
    scan (Z.to_nat (1024 / 16)) ebda.

Definition acpiCheckHeader (ptr : Z) (sig : string) : Z :=
  if memcmp_at sig ptr 4 then
    if char_sum (Z.to_nat (u32 (int_at (ptr + 4)))) ptr 0 =? 0 then 0 else -1
  else -1.

(** The search for the name [_S5_]: its address and what is left of the
    length, which is 0 when it is the last place looked at and -1 when there is
    none. *)
Fixpoint find_S5 (n : nat) (addr : Z) : Z * Z :=
  match n with
  | O => (addr, -1)
  | S n => if memcmp_at "_S5_" addr 4 then (addr, Z.of_nat n) else find_S5 n (addr + 1)
  end.

(** The FADT at [facp] and the [_S5_] package in the DSDT it names. *)
Definition parse_facp (facp : Z) : option acpi :=
  let dsdt := uint_at (facp + 40) in
  if negb (acpiCheckHeader dsdt "DSDT" =? 0) then None
  else
    let '(s5, left_) := find_S5 (Z.to_nat (u32 (int_at (dsdt + 4) - 36))) (dsdt + 36) in
    if (0 <? left_) &&
       ((char_at (s5 - 1) =? 0x08) || ((char_at (s5 - 2) =? 0x08) && (char_at (s5 - 1) =? 92))) &&
       (char_at (s5 + 4) =? 0x12)
    then
      let p := s5 + 5 in
      let p := p + Z.shiftr (Z.land (char_at p) 0xC0) 6 + 2 in
      let p := if char_at p =? 0x0A then p + 1 else p in
      let typa := u16 (Z.shiftl (char_at p) 10) in
      let p := p + 1 in
      let p := if char_at p =? 0x0A then p + 1 else p in
      let typb := u16 (Z.shiftl (char_at p) 10) in
      Some (Acpi (uint_at (facp + 48)) (char_at (facp + 52)) (char_at (facp + 53)) (uint_at (facp + 64))
              (uint_at (facp + 68)) typa typb (Z.shiftl 1 13) 1 (char_at (facp + 89)))
    else None.

(** The entries of the RSDT from [ptr] on.  After an FADT that could not be
    used the counter is set to -2, which does not end the loop. *)
Fixpoint find_facp (fuel : nat) (ptr entrys : Z) : res (option acpi) :=
  match fuel with
  | O => Fuel
  | S fuel =>
      if entrys =? 0 then Ok None
      else
        let entrys := s32 (entrys - 1) in
        if acpiCheckHeader (uint_at ptr) "FACP" =? 0 then
          match parse_facp (uint_at ptr) with
          | Some a => Ok (Some a)
          | None => find_facp fuel (ptr + 4) (-2)
          end
        else find_facp fuel (ptr + 4) entrys
  end.

(** The result and the variables. *)
Definition setup_ACPI (fuel : nat) (a : acpi) : res (Z * acpi) :=
  let ptr := acpiGetRSDPtr in
  if (ptr =? 0) || negb (acpiCheckHeader ptr "RSDT" =? 0) then Ok (-1, a)
  else
    let entrys := Z.quot (int_at (ptr + 4) - 36) 4 in
    match find_facp fuel (ptr + 36) entrys with
    | Ok (Some a) => Ok (0, a)
    | Ok None => Ok (-1, a)
    | Fault => Fault
    | Fuel => Fuel
    end.
End memory.

(** ** Switching on and off *)

(** Rounds [i] to [TIME_TO_WAIT] of the wait for the mode bit: the round it
    ends in. *)
Fixpoint wait_sci (n : nat) (port en i : Z) : IO Z :=
  match n with
  | O => ret i
  | S n => let! v := inportw port in if Z.land v en =? 1 then ret i else wait_sci n port en (i + 1)
  end.

Definition acpiEnable (a : acpi) : IO Z :=
  let! v := inportw (PM1a_CNT a) in
  if test v (SCI_EN a) then ret 0
  else if (SMI_CMD a =? 0) || (ACPI_ENABLE a =? 0) then ret (-1)
  else
    do! outportb (SMI_CMD a) (ACPI_ENABLE a);
    let! i := wait_sci (Z.to_nat TIME_TO_WAIT) (PM1a_CNT a) (SCI_EN a) 0 in
    let! i := (if PM1b_CNT a =? 0 then ret i
               else wait_sci (Z.to_nat (TIME_TO_WAIT - i)) (PM1b_CNT a) (SCI_EN a) i) in
    ret (if i <? TIME_TO_WAIT then 0 else -1).

Definition acpiPowerOff (a : acpi) : IO unit :=
  if SCI_EN a =? 0 then ret tt
  else
    do! acpiEnable a;
    do! outportw (PM1a_CNT a) (Z.lor (SLP_TYPa a) (SLP_EN a));
    if PM1b_CNT a =? 0 then ret tt else outportw (PM1b_CNT a) (Z.lor (SLP_TYPb a) (SLP_EN a)).

(** ** Properties *)

Section properties.
Context (mem : Z -> Z).

(** The sum of [n] bytes. *)
Fixpoint byte_sum (n : nat) (a : Z) : Z :=
  match n with O => 0 | S n => u8 (mem a) + byte_sum n (a + 1) end.

Lemma char_sum_mod n : forall a c, char_sum mem n a c mod 256 = (c + byte_sum n a) mod 256.
Proof.
  induction n as [|n IH]; intros a c; cbn [char_sum byte_sum]; [f_equal; lia|].
  rewrite IH. unfold char_at, u8. set (b := byte_sum n (a + 1)). unfold s8. lia.
Qed.
Lemma char_sum_char n : forall a c, -128 <= c < 128 -> -128 <= char_sum mem n a c < 128.
Proof. induction n as [|n IH]; intros a c Hc; cbn [char_sum]; [done|]. apply IH, s8_range. Qed.

(** The sum in a [char] is 0 exactly when the bytes sum up to a multiple of 256. *)
Lemma char_sum_zero n a : char_sum mem n a 0 = 0 <-> byte_sum n a mod 256 = 0.
Proof.
  pose proof (char_sum_mod n a 0) as Hm. pose proof (char_sum_char n a 0 ltac:(lia)) as Hr.
  rewrite Z.add_0_l in Hm. rewrite <- Hm. lia.
Qed.

Lemma memcmp_same l1 : forall l2, length l1 = length l2 -> Forall (fun x => 0 <= x < 256) l1 -> Forall (fun x => 0 <= x < 256) l2 ->
  (memcmp l1 l2 (length l1) = Some 0 <-> l1 = l2).
Proof.
  induction l1 as [|x l1 IH]; intros [|y l2] Hl H1 H2; try done.
  apply Forall_cons in H1 as [Hx H1]. apply Forall_cons in H2 as [Hy H2]. cbn [length memcmp].
  rewrite (u8_id x), (u8_id y) by lia. destruct (x =? y) eqn:E; cbn [negb].
  - rewrite IH by (done || cbn in Hl; lia). split; [intros ->|intros [= _ ->]; done]. f_equal. lia.
  - split; [intros [= ?]; lia|intros [= -> _]; lia].
Qed.

(** An RSD PTR is accepted exactly when it has the signature and its bytes sum
    up to a multiple of 256. *)
Theorem acpiCheckRSDPtr_accepts ptr : uint_at mem (ptr + 16) <> 0 ->
  (acpiCheckRSDPtr mem ptr <> 0 <-> bytes mem ptr 8 = chars "RSD PTR " /\ byte_sum 20 ptr mod 256 = 0).
Proof.
  intros Ha. unfold acpiCheckRSDPtr, memcmp_at. change (Z.to_nat sizeof_RSDPtr) with 20%nat.
  rewrite <- char_sum_zero. set (b := bytes mem ptr 8).
  assert (Hb : Forall (fun x => 0 <= x < 256) b).
  { unfold b, bytes. apply Forall_fmap, Forall_forall. intros k _. apply u8_range. }
  pose proof (memcmp_same (chars "RSD PTR ") b eq_refl ltac:(repeat (constructor; [vm_compute; split; [discriminate|reflexivity]|]); constructor) Hb) as Hm.
  change (length (chars "RSD PTR ")) with 8%nat in Hm. destruct (memcmp _ b 8) as [r|].
  - destruct (r =? 0) eqn:E; cbn [negb].
    + assert (r = 0) as -> by lia. destruct Hm as [Hm _]. specialize (Hm eq_refl).
      destruct (char_sum mem 20 ptr 0 =? 0) eqn:E2.
      * split; [|done]. intros _. split; [by symmetry|]. by apply Z.eqb_eq.
      * split; [done|]. intros [_ H0]. by apply Z.eqb_neq in E2.
    + split; [done|]. intros [Hb' _]. symmetry in Hb'. apply Hm in Hb'. simplify_eq.
  - cbn [negb]. split; [done|]. intros [Hb' _]. symmetry in Hb'. apply Hm in Hb'. done.
Qed.

(** The search gives the first candidate that is accepted, at the lowest
    address, and 0 when there is none. *)
Theorem scan_first n : forall addr,
  (forall r, scan mem n addr = r -> r <> 0 ->
     exists k, (k < n)%nat /\ acpiCheckRSDPtr mem (addr + 16 * Z.of_nat k) = r /\
       forall j, (j < k)%nat -> acpiCheckRSDPtr mem (addr + 16 * Z.of_nat j) = 0) /\
  (scan mem n addr = 0 -> forall k, (k < n)%nat -> acpiCheckRSDPtr mem (addr + 16 * Z.of_nat k) = 0).
Proof.
  induction n as [|n IH]; intros addr; cbn [scan].
  { split; [by intros r <-|]. intros _ k Hk. lia. }
  destruct (acpiCheckRSDPtr mem addr =? 0) eqn:E.
  - destruct (IH (addr + 16)) as [H1 H2]. split.
    + intros r Hr Hr0. destruct (H1 r Hr Hr0) as (k & Hk & Hc & Hj). exists (S k).
      split; [lia|]. split; [by replace (addr + 16 * Z.of_nat (S k)) with (addr + 16 + 16 * Z.of_nat k) by lia|].
      intros [|j] Hjk; [replace (addr + 16 * Z.of_nat 0) with addr by lia; lia|].
      replace (addr + 16 * Z.of_nat (S j)) with (addr + 16 + 16 * Z.of_nat j) by lia. apply Hj. lia.
    + intros Hs [|k] Hk; [replace (addr + 16 * Z.of_nat 0) with addr by lia; lia|].
      replace (addr + 16 * Z.of_nat (S k)) with (addr + 16 + 16 * Z.of_nat k) by lia. apply H2; [done|lia].
  - split; [|lia]. intros r <- _. exists 0%nat. split; [lia|].
    split; [by replace (addr + 16 * Z.of_nat 0) with addr by lia|]. intros j Hj. lia.
Qed.

(** After an FADT whose DSDT cannot be used, the loop over the tables does not
    end: the counter is -2, and it takes 4294967294 further entries behind the
    table until it is 0, unless one of them looks like a usable FADT. *)
Theorem find_facp_runs_on fuel ptr entrys :
  entrys <> 0 -> acpiCheckHeader mem (uint_at mem ptr) "FACP" = 0 -> parse_facp mem (uint_at mem ptr) = None ->
  (forall k, (k < fuel)%nat -> acpiCheckHeader mem (uint_at mem (ptr + 4 + 4 * Z.of_nat k)) "FACP" <> 0) ->
  Z.of_nat fuel <= 4294967294 -> find_facp mem (S fuel) ptr entrys = Fuel.
Proof.
  intros He Hh Hp Hk Hf. cbn [find_facp]. replace (entrys =? 0) with false by lia. rewrite Hh, Hp. cbn [Z.eqb].
  assert (Hrun : forall fuel p d, (forall k, (k < fuel)%nat -> acpiCheckHeader mem (uint_at mem (p + 4 * Z.of_nat k)) "FACP" <> 0) ->
    0 <= d -> d + Z.of_nat fuel <= 4294967294 -> find_facp mem fuel p (s32 (-2 - d)) = Fuel).
  { clear. induction fuel as [|fuel IH]; intros p d Hk Hd Hf; [done|]. cbn [find_facp].
    replace (s32 (-2 - d) =? 0) with false by width.
    pose proof (Hk 0%nat ltac:(lia)) as Hk0. replace (p + 4 * Z.of_nat 0) with p in Hk0 by lia.
    replace (acpiCheckHeader mem (uint_at mem p) "FACP" =? 0) with false by lia.
    replace (s32 (s32 (-2 - d) - 1)) with (s32 (-2 - (d + 1))) by width.
    apply IH; [|lia|lia]. intros k Hkf. replace (p + 4 + 4 * Z.of_nat k) with (p + 4 * Z.of_nat (S k)) by lia. apply Hk. lia. }
  specialize (Hrun fuel (ptr + 4) 0 Hk ltac:(lia) ltac:(lia)). by change (s32 (-2 - 0)) with (-2) in Hrun.
Qed.
End properties.
