(* ===== verification/Elf.v ===== *)
(** * Program loading: [src/src/kernel/elf.c]

    The loader of statically linked programs.  The process's memory is a map from addresses to bytes; mapping a
    page is [make_page] of the paging component, seen here as the record of
    the addresses it is called with. *)
From S2P Require Import Prelude CString Paging Initrdfs.
Open Scope nup_scope.

Definition ELF_MAGIC : Z := 0x464C457F.
Definition ELFCLASS32 : Z := 1.
Definition ELFDATA2LSB : Z := 1.
Definition EV_CURRENT : Z := 1.
Definition ET_EXEC : Z := 2.
Definition EM_386 : Z := 3.
Definition PT_NULL : Z := 0.
Definition PT_LOAD : Z := 1.
Definition PT_DYNAMIC : Z := 2.
Definition PT_INTERP : Z := 3.
Definition PT_NOTE : Z := 4.
Definition PT_SHLIB : Z := 5.
Definition PT_PHDR : Z := 6.
Definition LOAD_ELF_SUCCESS : Z := 0.
Definition LOAD_ELF_INVARG : Z := 1.
Definition LOAD_ELF_NOELF : Z := 2.
Definition LOAD_ELF_MACHINE : Z := 3.
Definition LOAD_ELF_SUPPORT : Z := 4.
Definition LOAD_ELF_DYNAMIC : Z := 5.
Definition LOAD_ELF_LOAD : Z := 6.

(** The header fields the loader uses. *)
Record elf32_ehdr := Elf32Ehdr {
  ei_magic : Z; ei_class : Z; ei_data : Z; ei_version : Z;
  e_type : Z; e_machine : Z; e_version : Z; e_entry : Z; e_phoff : Z;
  e_phentsize : Z; e_phnum : Z }.

Record elf32_phdr := Elf32Phdr {
  p_type : Z; p_offset : Z; p_vaddr : Z; p_filesz : Z; p_memsz : Z }.

Definition le16 (img : list Z) (off : Z) : option Z := le <$> slice img off 2.

Definition read_ehdr (img : list Z) : option elf32_ehdr :=
  magic ← le32 img 0; class ← byte_at img 4; data ← byte_at img 5; ver ← byte_at img 6;
  ty ← le16 img 16; mach ← le16 img 18; ever ← le32 img 20; entry ← le32 img 24; phoff ← le32 img 28;
  phent ← le16 img 42; phnum ← le16 img 44;
  Some (Elf32Ehdr magic class data ver ty mach ever entry phoff phent phnum).

Definition read_phdr (img : list Z) (off : Z) : option elf32_phdr :=
  ty ← le32 img off; o ← le32 img (off + 4); va ← le32 img (off + 8);
  fsz ← le32 img (off + 16); msz ← le32 img (off + 20);
  Some (Elf32Phdr ty o va fsz msz).

(** A process: its bytes, the addresses [make_page] was called with (newest
    first), and the file image, which the loader also writes to. *)
Record proc := Proc { memory : gmap Z Z; pages : list Z; image : list Z }.

Definition write_byte (a b : Z) (p : proc) : proc := Proc (<[a := b]> (memory p)) (pages p) (image p).
Fixpoint write_bytes (a : Z) (l : list Z) (p : proc) : proc :=
  match l with [] => p | b :: l => write_bytes (a + 1) l (write_byte a b p) end.

(** [for (i = ALIGN_DOWN(p_vaddr); i < p_vaddr + p_memsz; i += FRAME_SIZE)] *)
Fixpoint map_pages (fuel : nat) (i end_ : Z) (p : proc) : res proc :=
  match fuel with
  | O => Fuel
  | S fuel =>
      if i <? end_ then map_pages fuel (u32 (i + FRAME_SIZE)) end_ (Proc (memory p) (i :: pages p) (image p))
      else Ok p
  end.

(** The counter passes every page of the 32-bit space in 2^20 rounds. *)
Definition page_rounds : nat := Z.to_nat 1048577.

Definition elf_load_segment (seg : elf32_phdr) (p : proc) : res (Z * proc) :=
  match map_pages page_rounds (ALIGN_DOWN (p_vaddr seg)) (u32 (p_vaddr seg + p_memsz seg)) p with
  | Ok p =>
      let sz := if p_memsz seg <? p_filesz seg then p_memsz seg else p_filesz seg in
      match slice (image p) (p_offset seg) sz with
      | Some data =>
          let p := write_bytes (p_vaddr seg) data p in
          if p_filesz seg <? sz then
            match slice (image p) (p_offset seg + p_filesz seg) (sz - p_filesz seg) with
            | Some _ =>
                let img := take (Z.to_nat (p_offset seg + p_filesz seg)) (image p) ++
                           replicate (Z.to_nat (sz - p_filesz seg)) 0 ++
                           drop (Z.to_nat (p_offset seg + sz)) (image p) in
                Ok (0, Proc (memory p) (pages p) img)
            | None => Fault
            end
          else Ok (0, p)
      | None => Fault
      end
  | Fault => Fault
  | Fuel => Fuel
  end.

(** The loop over the program headers; the fuel is their number. *)
Fixpoint load_segments (n : nat) (hdr : elf32_ehdr) (i : Z) (pretend : bool) (p : proc) : res (Z * proc) :=
  match n with
  | O => Ok (LOAD_ELF_SUCCESS, p)
  | S n =>
      match read_phdr (image p) (e_phoff hdr + i * e_phentsize hdr) with
      | None => Fault
      | Some seg =>
          if (p_type seg =? PT_DYNAMIC) || (p_type seg =? PT_SHLIB) then Ok (LOAD_ELF_DYNAMIC, p)
          else if (p_type seg =? PT_LOAD) && negb pretend then
            match elf_load_segment seg p with
            | Ok (r, p) => if negb (r =? 0) then Ok (LOAD_ELF_LOAD, p) else load_segments n hdr (i + 1) pretend p
            | Fault => Fault
            | Fuel => Fuel
            end
          else load_segments n hdr (i + 1) pretend p
      end
  end.

(** The checks before the program headers: the result if one fails. *)
Definition check_ehdr (hdr : elf32_ehdr) : option Z :=
  if negb (ei_magic hdr =? ELF_MAGIC) then Some LOAD_ELF_NOELF
  else if negb (ei_version hdr =? EV_CURRENT) || negb (e_version hdr =? EV_CURRENT) then Some LOAD_ELF_SUPPORT
  else if negb (ei_class hdr =? ELFCLASS32) || negb (ei_data hdr =? ELFDATA2LSB) || negb (e_machine hdr =? EM_386)
  then Some LOAD_ELF_MACHINE
  else if negb (ei_version hdr =? EV_CURRENT) || negb (e_version hdr =? EV_CURRENT) || negb (e_type hdr =? ET_EXEC)
  then Some LOAD_ELF_SUPPORT
  else None.

(** The result, the entry point stored (0: none), and the process. *)
Definition load_elf (entry_ptr pretend : bool) (p : proc) : res (Z * option Z * proc) :=
  if negb entry_ptr then Ok (LOAD_ELF_INVARG, None, p)
  else
    match read_ehdr (image p) with
    | None => Fault
    | Some hdr =>
        match check_ehdr hdr with
        | Some r => Ok (r, None, p)
        | None =>
            match load_segments (Z.to_nat (e_phnum hdr)) hdr 0 pretend p with
            | Ok (r, p) => Ok (r, Some (e_entry hdr), p)
            | Fault => Fault
            | Fuel => Fuel
            end
        end
    end.

(** ** Lemmas *)

Lemma write_bytes_rest a l p : pages (write_bytes a l p) = pages p /\ image (write_bytes a l p) = image p.
Proof. revert a p. induction l as [|b l IH]; intros a p; simpl; [done|]. by destruct (IH (a + 1) (write_byte a b p)) as [-> ->]. Qed.

Lemma write_bytes_lookup a l p x :
  memory (write_bytes a l p) !! x =
  if (a <=? x) && (x <? a + Z.of_nat (length l)) then l !! Z.to_nat (x - a) else memory p !! x.
Proof.
  revert a p. induction l as [|b l IH]; intros a p; cbn [write_bytes length].
  - by replace ((a <=? x) && (x <? a + Z.of_nat 0)) with false by lia.
  - rewrite IH. cbn [memory write_byte]. destruct (decide (x = a)) as [->|Hne].
    + replace ((a + 1 <=? a) && _) with false by lia.
      replace ((a <=? a) && (a <? a + Z.of_nat (S (length l)))) with true by lia.
      by rewrite lookup_insert_eq, Z.sub_diag.
    + rewrite lookup_insert_ne by done.
      destruct ((a + 1 <=? x) && (x <? a + 1 + Z.of_nat (length l))) eqn:E.
      * replace ((a <=? x) && (x <? a + Z.of_nat (S (length l)))) with true by lia.
        by replace (Z.to_nat (x - a)) with (S (Z.to_nat (x - (a + 1)))) by lia.
      * by replace ((a <=? x) && (x <? a + Z.of_nat (S (length l)))) with false by lia.
Qed.

Lemma map_pages_spec fuel i end_ p :
  0 <= i -> end_ <= 4294963200 -> (end_ - i) / FRAME_SIZE + 1 < Z.of_nat fuel -> i <= end_ + FRAME_SIZE ->
  exists l, map_pages fuel i end_ p = Ok (Proc (memory p) (l ++ pages p) (image p)) /\
    forall a, a ∈ l <-> exists k, 0 <= k /\ a = i + k * FRAME_SIZE /\ a < end_.
Proof.
  unfold FRAME_SIZE. revert i p. induction fuel as [|fuel IH]; intros i p Hi He Hf Hb; [lia|].
  cbn [map_pages]. destruct (i <? end_) eqn:E.
  - unfold FRAME_SIZE. rewrite u32_id by lia.
    destruct (IH (i + 4096) (Proc (memory p) (i :: pages p) (image p))) as (l & Hl & Hin); [lia|lia|lia|lia|].
    exists (l ++ [i]). rewrite Hl. cbn [memory pages image]. rewrite <- app_assoc. split; [done|].
    intros a. rewrite elem_of_app, list_elem_of_singleton, Hin. split.
    + intros [(k & Hk & -> & Hlt)| ->]; [exists (k + 1)|exists 0]; lia.
    + intros (k & Hk & -> & Hlt). destruct (decide (k = 0)) as [->|]; [right; lia|left].
      exists (k - 1). lia.
  - exists []. split; [by destruct p|]. intros a. split; [intros Ha; by apply not_elem_of_nil in Ha|].
    intros (k & Hk & -> & Hlt). lia.
Qed.

Lemma ALIGN_DOWN_spec v : 0 <= v < 4294967296 -> ALIGN_DOWN v = v / FRAME_SIZE * FRAME_SIZE.
Proof.
  intros Hv. unfold ALIGN_DOWN, FRAME_SIZE.
  replace (v / 4096 * 4096) with (Z.shiftl (Z.shiftr v 12) 12)
    by (rewrite Z.shiftl_mul_pow2, Z.shiftr_div_pow2 by lia; done).
  apply Z.bits_inj'. intros k Hk. rewrite Z.land_spec, Z.shiftl_spec by lia.
  change 0xFFFFF000 with (Z.shiftl (Z.ones 20) 12). rewrite Z.shiftl_spec by lia.
  destruct (decide (k < 12)).
  - by rewrite !(Z.testbit_neg_r _ (k - 12)), andb_false_r by lia.
  - rewrite Z.shiftr_spec by lia. replace (k - 12 + 12) with k by lia.
    destruct (decide (k < 32)).
    + by rewrite Z.ones_spec_low, andb_true_r by lia.
    + by rewrite (bits_high v 32) by lia.
Qed.

Lemma elf_load_segment_run seg p data :
  0 <= p_vaddr seg -> 0 <= p_filesz seg -> 0 <= p_memsz seg -> p_vaddr seg + p_memsz seg <= 4294963200 ->
  slice (image p) (p_offset seg) (Z.min (p_filesz seg) (p_memsz seg)) = Some data ->
  exists p', elf_load_segment seg p = Ok (0, p') /\ image p' = image p /\
    (forall a, a ∈ pages p -> a ∈ pages p') /\
    (forall a, p_vaddr seg <= a < p_vaddr seg + p_memsz seg -> a / FRAME_SIZE * FRAME_SIZE ∈ pages p') /\
    (forall k, 0 <= k < Z.min (p_filesz seg) (p_memsz seg) ->
       memory p' !! (p_vaddr seg + k) = data !! Z.to_nat k) /\
    (forall a, ~ p_vaddr seg <= a < p_vaddr seg + Z.min (p_filesz seg) (p_memsz seg) ->
       memory p' !! a = memory p !! a).
Proof.
  intros Hva Hfs Hms Hsum Hslice. unfold elf_load_segment.
  rewrite ALIGN_DOWN_spec by lia. rewrite (u32_id (p_vaddr seg + p_memsz seg)) by lia.
  destruct (map_pages_spec page_rounds (p_vaddr seg / FRAME_SIZE * FRAME_SIZE) (p_vaddr seg + p_memsz seg) p)
    as (l & Hl & Hin); [unfold FRAME_SIZE; lia|lia|unfold FRAME_SIZE, page_rounds; lia|unfold FRAME_SIZE; lia|].
  rewrite Hl. cbn [image].
  replace (if p_memsz seg <? p_filesz seg then p_memsz seg else p_filesz seg)
    with (Z.min (p_filesz seg) (p_memsz seg)) by (case_cond; lia).
  rewrite Hslice. replace (p_filesz seg <? Z.min (p_filesz seg) (p_memsz seg)) with false by lia.
  assert (Hlen : Z.of_nat (length data) = Z.min (p_filesz seg) (p_memsz seg)).
  { unfold slice in Hslice. case_cond_in Hslice; [|done]. injection Hslice as <-.
    rewrite length_take, length_drop. lia. }
  set (p1 := Proc (memory p) (l ++ pages p) (image p)).
  destruct (write_bytes_rest (p_vaddr seg) data p1) as [Hpg Himg].
  eexists. split; [done|]. split_and!; [done| | | |].
  - intros a Ha. rewrite Hpg. apply elem_of_app. by right.
  - intros a Ha. rewrite Hpg. apply elem_of_app. left. apply Hin. unfold FRAME_SIZE.
    exists (a / 4096 - p_vaddr seg / 4096). lia.
  - intros k Hk. rewrite write_bytes_lookup. rewrite Hlen. zcond. f_equal. lia.
  - intros a Ha. rewrite write_bytes_lookup. rewrite Hlen. by zcond.
Qed.

(** ** Properties *)

(** C25: Loading a segment maps every page it touches, copies the bytes the file
    has for it to its address, and writes nothing else: the rest of the
    segment, where the program expects zeros, keeps what the memory held,
    because the test that guards the clearing compares the file size with the
    smaller of the two sizes. *)
Theorem elf_load_segment_spec seg p data :
  0 <= p_vaddr seg -> 0 <= p_filesz seg -> 0 <= p_memsz seg -> p_vaddr seg + p_memsz seg <= 4294963200 ->
  slice (image p) (p_offset seg) (Z.min (p_filesz seg) (p_memsz seg)) = Some data ->
  exists p', elf_load_segment seg p = Ok (0, p') /\ image p' = image p /\
    (forall a, p_vaddr seg <= a < p_vaddr seg + p_memsz seg -> a / FRAME_SIZE * FRAME_SIZE ∈ pages p') /\
    (forall k, 0 <= k < Z.min (p_filesz seg) (p_memsz seg) ->
       memory p' !! (p_vaddr seg + k) = data !! Z.to_nat k) /\
    (forall a, ~ p_vaddr seg <= a < p_vaddr seg + Z.min (p_filesz seg) (p_memsz seg) ->
       memory p' !! a = memory p !! a).
Proof.
  intros Hva Hfs Hms Hsum Hs. destruct (elf_load_segment_run seg p data Hva Hfs Hms Hsum Hs) as (p' & E & Hi & _ & H).
  by exists p'.
Qed.

Lemma elf_load_segment_spec_witness :
  exists p', elf_load_segment (Elf32Phdr PT_LOAD 2 0x8000 3 6) (Proc {[ 0x8004 := 99 ]} [] [0; 0; 7; 8; 9; 0])
    = Ok (0, p') /\ memory p' !! 0x8001 = Some 8 /\ memory p' !! 0x8004 = Some 99.
Proof.
  destruct (elf_load_segment_spec (Elf32Phdr PT_LOAD 2 0x8000 3 6)
    (Proc {[ 0x8004 := 99 ]} [] [0; 0; 7; 8; 9; 0]) [7; 8; 9]) as (p' & H1 & _ & _ & H2 & H3).
  - simpl. lia.
  - simpl. lia.
  - simpl. lia.
  - simpl. lia.
  - reflexivity.
  - exists p'. split; [exact H1|]. split; [exact (H2 1 ltac:(simpl; lia))|].
    rewrite (H3 0x8004) by (simpl; lia). reflexivity.
Defined.

Lemma load_segments_pretend n hdr i p r p' : load_segments n hdr i true p = Ok (r, p') -> p' = p.
Proof.
  revert i. induction n as [|n IH]; intros i; cbn [load_segments]; [by intros [= _ <-]|].
  destruct (read_phdr _ _) as [seg|]; [|done]. case_cond; [by intros [= _ <-]|].
  rewrite andb_false_r. apply IH.
Qed.

(** Loading changes the image nowhere, so that the later headers read the same. *)
Lemma elf_load_segment_image seg p r p' : elf_load_segment seg p = Ok (r, p') -> r = 0 /\ image p' = image p.
Proof.
  unfold elf_load_segment.
  assert (Hm : forall fuel i e q q', map_pages fuel i e q = Ok q' -> image q' = image q).
  { induction fuel as [|fuel IH]; intros i e q q'; cbn [map_pages]; [done|].
    case_cond; [intros Hq; apply IH in Hq; done|by intros [= <-]]. }
  destruct (map_pages _ _ _ p) as [q| |] eqn:E; [|done..]. apply Hm in E.
  set (sz := if p_memsz seg <? p_filesz seg then p_memsz seg else p_filesz seg). destruct (slice (image q) _ sz) as [data|]; [|done].
  replace (p_filesz seg <? sz) with false by (unfold sz; case_cond; lia).
  intros [= <- <-]. split; [done|]. destruct (write_bytes_rest (p_vaddr seg) data q) as [_ ->]. done.
Qed.

(** The first pass of [do_exec], which only pretends, decides for the
    second: it changes nothing, and whatever verdict and entry point it gives
    the loading pass gives too when it completes, so that a program the checks
    reject is never half loaded. *)
Theorem load_elf_pretend_decides entry_ptr p r e p1 r2 e2 p2 :
  load_elf entry_ptr true p = Ok (r, e, p1) -> load_elf entry_ptr false p = Ok (r2, e2, p2) ->
  p1 = p /\ r2 = r /\ e2 = e /\ image p2 = image p.
Proof.
  unfold load_elf. destruct entry_ptr; cbn [negb]; [|by intros [= <- <- <-] [= <- <- <-]].
  destruct (read_ehdr (image p)) as [hdr|]; [|done].
  destruct (check_ehdr hdr); [by intros [= <- <- <-] [= <- <- <-]|].
  generalize (Z.to_nat (e_phnum hdr)). intros n.
  assert (Hg : forall i q, image q = image p -> forall r1 q1 r2 q2,
    load_segments n hdr i true p = Ok (r1, q1) -> load_segments n hdr i false q = Ok (r2, q2) ->
    r2 = r1 /\ image q2 = image p).
  { clear. induction n as [|n IH]; intros i q Hq r1 q1 r2 q2; cbn [load_segments].
    { by intros [= <- <-] [= <- <-]. }
    rewrite Hq. destruct (read_phdr _ _) as [seg|]; [|done].
    destruct ((p_type seg =? PT_DYNAMIC) || (p_type seg =? PT_SHLIB)); [by intros [= <- <-] [= <- <-]|].
    rewrite andb_false_r, andb_true_r. destruct (p_type seg =? PT_LOAD); [|by apply IH].
    destruct (elf_load_segment seg q) as [[x q']| |] eqn:E; [|done..].
    apply elf_load_segment_image in E as [-> E]. cbn [negb Z.eqb]. apply IH. congruence. }
  destruct (load_segments n hdr 0 true p) as [[a1 q1]| |] eqn:E1; [|done..].
  destruct (load_segments n hdr 0 false p) as [[a2 q2]| |] eqn:E2; [|done..].
  intros [= <- <- <-] [= <- <- <-]. destruct (Hg 0 p eq_refl _ _ _ _ E1 E2) as [-> ->].
  by apply load_segments_pretend in E1 as ->.
Qed.

(** The header of a program for the i386 without segments. *)
Definition elf_sample : list Z :=
  [127; 69; 76; 70; 1; 1; 1] ++ replicate 9 0 ++ [2; 0; 3; 0; 1; 0; 0; 0; 16; 0; 0; 8] ++ replicate 24 0.

Lemma load_elf_pretend_decides_witness :
  load_elf true true (Proc ∅ [] elf_sample) = Ok (0, Some 0x08000010, Proc ∅ [] elf_sample) /\
  exists r e p2, load_elf true false (Proc ∅ [] elf_sample) = Ok (r, e, p2) /\ r = 0 /\ e = Some 0x08000010.
Proof.
  split; [vm_compute; reflexivity|].
  destruct (load_elf true false (Proc ∅ [] elf_sample)) as [[[r e] p2]| |] eqn:E; [|vm_compute in E; discriminate E..].
  exists r, e, p2. split; [reflexivity|].
  destruct (load_elf_pretend_decides true (Proc ∅ [] elf_sample) 0 (Some 0x08000010) (Proc ∅ [] elf_sample) r e p2)
    as (_ & H1 & H2 & _); [vm_compute; reflexivity|exact E|]. split; [exact H1|exact H2].
Defined.
