(* ===== verification/Exec.v ===== *)
(** * Executing a program: [src/src/fs/exec.c], [src/usr/crt0.S]

    [sys_execve] finds the file, builds the stack of the new program, loads its
    segments, closes the descriptors that ask for it and points the saved
    registers at the program.

    The caller's vectors and strings are read from the same memory the new
    stack is written to: nothing is copied before, and a vector may overlap what
    is written.  An address is accessible when [make_page] was called for its
    page; a byte nothing was written to has the value that the frame happened
    to hold ([garbage]). *)
From S2P Require Import Prelude CString Abi Paging Vfs Namei Mount Files Initrdfs Elf.
Open Scope nup_scope.

Definition USER_STACK_POS : Z := 0x80000000.
Definition USER_STACK_SIZE : Z := 0x1000.
Definition STACK_NOMEM : Z := 0xFFFFFFFF.

(** ** Memory of the process *)

Section user_memory.
Context (garbage : Z -> Z).
Implicit Types p : proc.
Local Abbreviation PM := (M proc).

Definition page_of (a : Z) : Z := a / FRAME_SIZE * FRAME_SIZE.
Definition accessible p (a : Z) : bool := bool_decide (page_of a ∈ pages p).

Definition rd8 (a : Z) : PM Z :=
  get_or_fault (fun p => if accessible p a then Some (default (garbage a) (memory p !! a)) else None).
Definition wr8 (a b : Z) : PM unit :=
  upd_or_fault (fun p => if accessible p a then Some (write_byte a (u8 b) p) else None).
Definition rd32 (a : Z) : PM Z :=
  let! b0 := rd8 a in let! b1 := rd8 (u32 (a + 1)) in let! b2 := rd8 (u32 (a + 2)) in let! b3 := rd8 (u32 (a + 3)) in
  ret (le [b0; b1; b2; b3]).
Definition wr32 (a v : Z) : PM unit :=
  do! wr8 a v; do! wr8 (u32 (a + 1)) (v / 256); do! wr8 (u32 (a + 2)) (v / 65536); wr8 (u32 (a + 3)) (v / 16777216).

(** A walk over consecutive addresses ends or faults within the bytes that are
    mapped, unless the whole address space is. *)
Definition walk_rounds p : nat := S (Z.to_nat FRAME_SIZE * length (pages p)).

(** [strlen], and [strncpy] with its two loops, on memory. *)
Fixpoint strlen_from (fuel : nat) (a res : Z) : PM Z :=
  match fuel with
  | O => nofuel
  | S fuel => let! c := rd8 a in if negb (c =? 0) then strlen_from fuel (u32 (a + 1)) (u32 (res + 1)) else ret res
  end.
Definition strlen_at (a : Z) : PM Z := let! fuel := gets walk_rounds in strlen_from fuel a 0.

Fixpoint pad_from (fuel : nat) (tmp num : Z) : PM unit :=
  match fuel with
  | O => nofuel
  | S fuel => if num =? 0 then ret tt else do! wr8 tmp 0; pad_from fuel (u32 (tmp + 1)) (u32 (num - 1))
  end.
Fixpoint strncpy_from (fuel : nat) (tmp src num : Z) : PM unit :=
  match fuel with
  | O => nofuel
  | S fuel =>
      let! c := rd8 src in
      if negb (c =? 0) then
        if negb (num =? 0) then
          let! c := rd8 src in
          do! wr8 tmp c; strncpy_from fuel (u32 (tmp + 1)) (u32 (src + 1)) (u32 (num - 1))
        else let! fuel := gets walk_rounds in pad_from fuel tmp (u32 (num - 1))
      else let! fuel := gets walk_rounds in pad_from fuel tmp num
  end.
Definition strncpy_at (dest src num : Z) : PM unit :=
  let! fuel := gets walk_rounds in strncpy_from fuel dest src num.

(** The characters of the string at an address, with its NUL. *)
Fixpoint string_from (fuel : nat) (a : Z) : PM (list Z) :=
  match fuel with
  | O => nofuel
  | S fuel =>
      let! c := rd8 a in
      if negb (c =? 0) then let! l := string_from fuel (u32 (a + 1)) in ret (s8 c :: l) else ret [0]
  end.
Definition string_at (a : Z) : PM (option (list Z)) :=
  if a =? 0 then ret None
  else let! fuel := gets walk_rounds in let! l := string_from fuel a in ret (Some l).

(** ** The new stack *)

(** [while (vec[argc++]);]: the value of [argc] behind the loop. *)
Fixpoint count_from (fuel : nat) (vec argc : Z) : PM Z :=
  match fuel with
  | O => nofuel
  | S fuel =>
      let! w := rd32 (u32 (vec + 4 * argc)) in
      if negb (w =? 0) then count_from fuel vec (argc + 1) else ret (argc + 1)
  end.
Definition count_vector (vec : Z) : PM Z := let! fuel := gets walk_rounds in count_from fuel vec 0.

(** [while (i--)]: the strings, the last one first. *)
Fixpoint write_strings (i : nat) (vec buf : Z) : PM Z :=
  match i with
  | O => ret buf
  | S i =>
      let! w := rd32 (u32 (vec + 4 * Z.of_nat i)) in
      let! n := strlen_at w in
      let tmp := u32 (n + 1) in
      let buf := u32 (buf - tmp) in
      let! w := rd32 (u32 (vec + 4 * Z.of_nat i)) in
      do! strncpy_at buf w tmp;
      write_strings i vec buf
  end.

(** [while (i--)]: the pointers. *)
Fixpoint write_pointers (i : nat) (vec oldbuf buf : Z) : PM Z :=
  match i with
  | O => ret buf
  | S i =>
      let! w := rd32 (u32 (vec + 4 * Z.of_nat i)) in
      let! n := strlen_at w in
      let oldbuf := u32 (oldbuf - u32 (n + 1)) in
      let buf := u32 (buf - 4) in
      do! wr32 buf oldbuf;
      write_pointers i vec oldbuf buf
  end.

Definition write_vector (vec buf : Z) : PM Z :=
  if vec =? 0 then ret 0
  else
    let oldbuf := buf in
    let! argc := count_vector vec in
    let! buf := write_strings (Z.to_nat (argc - 1)) vec buf in
    let buf := u32 (buf - 4) in
    do! wr32 buf 0;
    write_pointers (Z.to_nat (argc - 1)) vec oldbuf buf.

Fixpoint new_stack_from (fuel : nat) (i pos size : Z) : PM unit :=
  match fuel with
  | O => nofuel
  | S fuel =>
      if u32 (pos - size) <=? i then
        do! modify (fun p => Proc (memory p) (i :: pages p) (image p));
        new_stack_from fuel (u32 (i - FRAME_SIZE)) pos size
      else ret tt
  end.
(** The counter passes the pages of the stack, or wraps behind the first. *)
Definition new_stack (pos size : Z) : PM Z :=
  do! new_stack_from (S (S (Z.to_nat (size / FRAME_SIZE)))) pos pos size; ret 0.

Definition make_new_stack (argv envp pos : Z) : PM Z :=
  let esp := pos in
  let! envs := write_vector envp esp in
  if envs =? STACK_NOMEM then ret STACK_NOMEM
  else
    let esp := if negb (envs =? 0) then envs else esp in
    let! args := write_vector argv esp in
    if args =? STACK_NOMEM then ret STACK_NOMEM
    else
      let esp := if negb (args =? 0) then args else esp in
      let! i := count_vector argv in
      let esp := u32 (esp - 12) in
      do! wr32 esp (i - 1);
      do! wr32 (u32 (esp + 4)) args;
      do! wr32 (u32 (esp + 8)) envs;
      ret esp.

(** [_start] of crt0.S: what it pushes for [main]. *)
Definition _start (ebx : Z) : PM (Z * Z * Z) :=
  let! envp := rd32 (u32 (ebx + 8)) in
  let! argv := rd32 (u32 (ebx + 4)) in
  let! argc := rd32 ebx in
  ret (argc, argv, envp).

End user_memory.

(** ** [do_exec] and [sys_execve] *)

Record xstate (F : Type) := XState {
  x_vfs : vstate F;
  x_proc : proc;
  glob_regs : option (Z * Z);
  x_interrupts : bool }.
Arguments XState {F}.
Arguments x_vfs {F}.
Arguments x_proc {F}.
Arguments glob_regs {F}.
Arguments x_interrupts {F}.

Section exec.
Context {F : Type} `{FsOps F} (garbage : Z -> Z) (fresh : Z -> list Z).
Implicit Types x : xstate F.
Local Abbreviation XM := (M (xstate F)).

Definition on_vfs {A} (m : M (vstate F) A) : XM A := fun x =>
  match m (x_vfs x) with
  | Ok (a, s) => Ok (a, XState s (x_proc x) (glob_regs x) (x_interrupts x))
  | Fault => Fault
  | Fuel => Fuel
  end.
Definition on_proc {A} (m : M proc A) : XM A := fun x =>
  match m (x_proc x) with
  | Ok (a, p) => Ok (a, XState (x_vfs x) p (glob_regs x) (x_interrupts x))
  | Fault => Fault
  | Fuel => Fuel
  end.

Definition load_program (pretend : bool) : XM (Z * option Z) := on_proc (load_elf true pretend).

(** [while (fd--)]: the descriptors from the last one on. *)
Fixpoint close_marked (fd : nat) : M (vstate F) unit :=
  match fd with
  | O => ret tt
  | S fd =>
      let! p := get_fd (Z.of_nat fd) in
      let! t := gets current_task in
      do! (if negb (p =? 0) && Z.testbit (t_close_on_exec t) (Z.of_nat fd)
           then let! r := sys_close (Z.of_nat fd) in ret tt else ret tt);
      close_marked fd
  end.

(** The file's bytes are read into a new buffer; how many were read is not
    looked at. *)
Definition read_program (node : Z) : XM unit :=
  do! on_vfs (open_fs node 0);
  let! v := on_vfs (get_vnode node) in
  let! ' (_, buffer) := on_vfs (read_fs node 0 (size v)) in
  do! on_proc (modify (fun p => Proc (memory p) (pages p) (buffer ++ drop (length buffer) (fresh (size v)))));
  do! on_vfs (close_fs node);
  ret tt.

Definition set_program (entry stack : Z) : XM unit := modify (fun x =>
  XState (x_vfs x) (x_proc x) (match glob_regs x with Some _ => Some (entry, stack) | None => None end) false).

Definition do_exec (node argv envp : Z) : XM Z :=
  do! read_program node;
  do! on_proc (new_stack USER_STACK_POS USER_STACK_SIZE);
  let! stack := on_proc (make_new_stack garbage argv envp USER_STACK_POS) in
  if stack =? STACK_NOMEM then ret (- EFAULT)
  else
    let! ' (r, entry) := load_program true in
    if negb (r =? 0) then ret (- ENOEXEC)
    else
      let! ' (r, entry) := load_program false in
      if negb (r =? 0) then ret (- ENOEXEC)
      else
        do! on_vfs (close_marked (Z.to_nat NR_OPEN));
        do! set_program (default 0 entry) stack;
        ret 0.

Definition sys_execve (file argv envp status : Z) : XM Z :=
  let! name := on_proc (string_at garbage file) in
  let! ' (node, status) := on_vfs (namei name status) in
  if node =? 0 then ret status
  else
    let! status := do_exec node argv envp in
    do! on_vfs (iput node);
    ret status.

End exec.

(** ** Walks through memory *)

Section walks.
Context (garbage : Z -> Z).
Implicit Types p : proc.

(** The byte at an accessible address. *)
Definition byte p (a b : Z) : Prop := accessible p a = true /\ default (garbage a) (memory p !! a) = b.
Definition range_ok p (lo hi : Z) : Prop := forall a, lo <= a < hi -> accessible p a = true.

(** Only bytes of [lo, hi) are changed, and no page is taken away. *)
Definition same_outside (lo hi : Z) p p' : Prop :=
  (forall a, accessible p a = true -> accessible p' a = true) /\ image p' = image p /\
  forall a, ~ lo <= a < hi -> memory p' !! a = memory p !! a.

Lemma same_outside_refl lo hi p : same_outside lo hi p p.
Proof. done. Qed.
Lemma same_outside_trans lo hi p1 p2 p3 : same_outside lo hi p1 p2 -> same_outside lo hi p2 p3 -> same_outside lo hi p1 p3.
Proof. intros (H1 & I1 & H2) (H3 & I2 & H4). split_and!; [auto|congruence|]. intros a Ha. by rewrite H4, H2. Qed.
Lemma same_outside_mono lo hi lo' hi' p p' : same_outside lo' hi' p p' -> lo <= lo' -> hi' <= hi -> same_outside lo hi p p'.
Proof. intros (H1 & I1 & H2) Hlo Hhi. split_and!; [done..|]. intros a Ha. apply H2. lia. Qed.
Lemma byte_same lo hi p p' a b : same_outside lo hi p p' -> ~ lo <= a < hi -> byte p a b -> byte p' a b.
Proof. intros (H1 & _ & H2) Ha [Hb Hv]. split; [by apply H1|]. by rewrite H2. Qed.
Lemma range_same lo hi p p' l h : same_outside lo hi p p' -> range_ok p l h -> range_ok p' l h.
Proof. intros [H1 _] Hr a Ha. by apply H1, Hr. Qed.
Lemma rd8_run p a b : byte p a b -> rd8 garbage a p = Ok (b, p).
Proof. intros [Ha <-]. unfold rd8, get_or_fault. by rewrite Ha. Qed.

Lemma wr8_run p a b : accessible p a = true ->
  wr8 a b p = Ok (tt, write_byte a (u8 b) p) /\ byte (write_byte a (u8 b) p) a (u8 b) /\
  same_outside a (a + 1) p (write_byte a (u8 b) p).
Proof.
  intros Ha. unfold wr8, upd_or_fault. rewrite Ha. split; [done|]. split.
  - split; [done|]. cbn. by rewrite lookup_insert_eq.
  - split_and!; [done..|]. intros x Hx. cbn. rewrite lookup_insert_ne; [done|lia].
Qed.

(** Consecutive accessible addresses are in mapped pages: there are not more
    than [walk_rounds]. *)
Lemma walk_enough p a n : range_ok p a (a + Z.of_nat n) -> (n < walk_rounds p)%nat.
Proof.
  intros Hr. unfold walk_rounds. apply Nat.lt_succ_r.
  set (page := fun g : Z => map (fun k => g + Z.of_nat k) (seq 0 (Z.to_nat FRAME_SIZE))).
  assert (Hlen : length (pages p ≫= page) = (Z.to_nat FRAME_SIZE * length (pages p))%nat).
  { induction (pages p) as [|g l IH]; [simpl; lia|]. cbn [mbind list_bind length]. rewrite length_app, IH. unfold page at 1.
    rewrite length_map, length_seq. lia. }
  rewrite <- Hlen. rewrite <- (length_seq n 0), <- (length_map (fun k => a + Z.of_nat k) (seq 0 n)).
  apply submseteq_length, NoDup_submseteq.
  - apply NoDup_fmap_2; [intros x y; lia|]. apply NoDup_seq.
  - intros x (k & -> & Hk)%list_elem_of_fmap. apply elem_of_seq in Hk.
    pose proof (Hr (a + Z.of_nat k) ltac:(lia)) as Hx. apply bool_decide_eq_true in Hx.
    apply list_elem_of_bind. exists (page_of (a + Z.of_nat k)). split; [|done]. unfold page, page_of.
    apply list_elem_of_fmap. exists (Z.to_nat ((a + Z.of_nat k) mod FRAME_SIZE)). split.
    + unfold FRAME_SIZE. lia.
    + apply elem_of_seq. unfold FRAME_SIZE. lia.
Qed.

(** ** Words *)

Definition word p (a w : Z) : Prop :=
  0 <= a /\ a + 4 < 4294967296 /\ 0 <= w < 4294967296 /\
  byte p a (u8 w) /\ byte p (a + 1) (u8 (w / 256)) /\ byte p (a + 2) (u8 (w / 65536)) /\ byte p (a + 3) (u8 (w / 16777216)).

Lemma rd32_run p a w : word p a w -> rd32 garbage a p = Ok (w, p).
Proof.
  intros (Ha & Ha' & Hw & H0 & H1 & H2 & H3). unfold rd32. rewrite !u32_id by lia.
  rewrite (bind_step _ _ _ _ _ (rd8_run _ _ _ H0)), (bind_step _ _ _ _ _ (rd8_run _ _ _ H1)),
    (bind_step _ _ _ _ _ (rd8_run _ _ _ H2)), (bind_step _ _ _ _ _ (rd8_run _ _ _ H3)).
  unfold ret. do 2 f_equal. unfold le, u8. lia.
Qed.

Lemma word_same lo hi p p' a w : same_outside lo hi p p' -> a + 4 <= lo \/ hi <= a -> word p a w -> word p' a w.
Proof.
  intros Hs Ha (H0 & H1 & H2 & B0 & B1 & B2 & B3).
  split_and!; try lia; (eapply byte_same; [exact Hs|lia|done]).
Qed.

Lemma word_range p a w : word p a w -> range_ok p a (a + 4).
Proof.
  intros (_ & _ & _ & [B0 _] & [B1 _] & [B2 _] & [B3 _]) x Hx.
  assert (x = a \/ x = a + 1 \/ x = a + 2 \/ x = a + 3) as [ -> | [ -> | [ -> | -> ]]] by lia; done.
Qed.

Lemma wr32_run p a w : 0 <= a -> a + 4 < 4294967296 -> 0 <= w < 4294967296 -> range_ok p a (a + 4) ->
  exists p', wr32 a w p = Ok (tt, p') /\ word p' a w /\ same_outside a (a + 4) p p'.
Proof.
  intros Ha Ha' Hw Hr. unfold wr32. rewrite !u32_id by lia.
  destruct (wr8_run p a w (Hr a ltac:(lia))) as (E0 & B0 & S0). set (p0 := write_byte a _ p) in *.
  destruct (wr8_run p0 (a + 1) (w / 256) (Hr (a + 1) ltac:(lia))) as (E1 & B1 & S1). set (p1 := write_byte (a + 1) _ p0) in *.
  destruct (wr8_run p1 (a + 2) (w / 65536) (Hr (a + 2) ltac:(lia))) as (E2 & B2 & S2). set (p2 := write_byte (a + 2) _ p1) in *.
  destruct (wr8_run p2 (a + 3) (w / 16777216) (Hr (a + 3) ltac:(lia))) as (E3 & B3 & S3). set (p3 := write_byte (a + 3) _ p2) in *.
  exists p3. rewrite (bind_step _ _ _ _ _ E0), (bind_step _ _ _ _ _ E1), (bind_step _ _ _ _ _ E2), E3. split; [done|].
  pose proof (byte_same _ _ _ _ a _ S1 ltac:(lia) B0) as B01. pose proof (byte_same _ _ _ _ a _ S2 ltac:(lia) B01) as B02.
  pose proof (byte_same _ _ _ _ (a + 1) _ S2 ltac:(lia) B1) as B12. split.
  - split_and!; [lia..| | | |done]; (eapply byte_same; [exact S3|lia|done]).
  - apply (same_outside_trans _ _ _ p0); [|apply (same_outside_trans _ _ _ p1); [|apply (same_outside_trans _ _ _ p2)]];
      (eapply same_outside_mono; [done|lia|lia]).
Qed.

(** ** Strings *)

Definition cstring p (a : Z) (s : list Z) : Prop :=
  0 <= a /\ a + Z.of_nat (length s) + 1 < 4294967296 /\ Forall (fun c => 0 < c < 256) s /\
  forall k c, (s ++ [0]) !! k = Some c -> byte p (a + Z.of_nat k) c.

Lemma cstring_nil p a : cstring p a [] -> byte p a 0.
Proof. intros (_ & _ & _ & Hb). specialize (Hb 0%nat 0 eq_refl). by rewrite Z.add_0_r in Hb. Qed.
Lemma cstring_cons p a c s : cstring p a (c :: s) <->
  0 <= a /\ a + Z.of_nat (length s) + 2 < 4294967296 /\ 0 < c < 256 /\ byte p a c /\ cstring p (a + 1) s.
Proof.
  split.
  - intros (Ha & Hl & Hs & Hb). apply Forall_cons in Hs as [Hc Hs]. cbn [length] in Hl.
    split_and!; [done|lia|lia|lia| |].
    + specialize (Hb 0%nat c eq_refl). by rewrite Z.add_0_r in Hb.
    + split_and!; [lia|lia|done|]. intros k d Hk. replace (a + 1 + Z.of_nat k) with (a + Z.of_nat (S k)) by lia. by apply Hb.
  - intros (Ha & Hl & Hc & Hb & _ & _ & Hs & Hbs). split_and!; [done|cbn [length]; lia|by constructor|].
    intros [|k] d Hk.
    + injection Hk as <-. by rewrite Z.add_0_r.
    + replace (a + Z.of_nat (S k)) with (a + 1 + Z.of_nat k) by lia. by apply Hbs.
Qed.

Lemma cstring_range p a s : cstring p a s -> range_ok p a (a + Z.of_nat (length s) + 1).
Proof.
  intros (_ & _ & _ & Hb) x Hx.
  destruct (lookup_lt_is_Some_2 (s ++ [0]) (Z.to_nat (x - a))) as [c Hc]; [rewrite length_app; cbn [length]; lia|].
  destruct (Hb _ _ Hc) as [Ha _]. replace (a + Z.of_nat (Z.to_nat (x - a))) with x in Ha by lia. done.
Qed.

Lemma cstring_walk p a s : cstring p a s -> (S (length s) < walk_rounds p)%nat.
Proof. intros Hs. apply (walk_enough p a). intros x Hx. apply (cstring_range _ _ _ Hs). lia. Qed.

Lemma cstring_same lo hi p p' a s : same_outside lo hi p p' -> a + Z.of_nat (length s) + 1 <= lo \/ hi <= a ->
  cstring p a s -> cstring p' a s.
Proof.
  intros Hs Ha (H0 & H1 & H2 & H3). split_and!; [done..|]. intros k c Hk.
  pose proof (lookup_lt_Some _ _ _ Hk) as Hl. rewrite length_app in Hl. cbn [length] in Hl.
  apply (byte_same lo hi p); [done|lia|by apply H3].
Qed.

Lemma strlen_from_run p s : forall fuel a res, cstring p a s -> 0 <= res -> res + Z.of_nat (length s) < 4294967296 ->
  (length s < fuel)%nat -> strlen_from garbage fuel a res p = Ok (res + Z.of_nat (length s), p).
Proof.
  induction s as [|c s IH]; intros [|fuel] a res Hs Hr Hl Hf; cbn [length] in *; try lia; cbn [strlen_from].
  - rewrite (bind_step _ _ _ _ _ (rd8_run _ _ _ (cstring_nil _ _ Hs))). cbn. unfold ret. do 2 f_equal. lia.
  - apply cstring_cons in Hs as (Ha & Hal & Hc & Hb & Hs). rewrite (bind_step _ _ _ _ _ (rd8_run _ _ _ Hb)).
    replace (c =? 0) with false by lia. cbn [negb]. rewrite !u32_id by lia. rewrite IH by (done || lia). do 2 f_equal. lia.
Qed.

Lemma strlen_at_run p a s : cstring p a s -> strlen_at garbage a p = Ok (Z.of_nat (length s), p).
Proof.
  intros Hs. pose proof (cstring_walk _ _ _ Hs). unfold strlen_at. unfold bind at 1, gets.
  rewrite (strlen_from_run p s); [done|done|lia| |lia]. destruct Hs as (? & ? & _). lia.
Qed.

Lemma string_from_run p s : forall fuel a, cstring p a s -> (length s < fuel)%nat ->
  string_from garbage fuel a p = Ok ((s8 <$> s) ++ [0], p).
Proof.
  induction s as [|c s IH]; intros [|fuel] a Hs Hf; cbn [length] in *; try lia; cbn [string_from].
  - by rewrite (bind_step _ _ _ _ _ (rd8_run _ _ _ (cstring_nil _ _ Hs))).
  - apply cstring_cons in Hs as (Ha & Hal & Hc & Hb & Hs). rewrite (bind_step _ _ _ _ _ (rd8_run _ _ _ Hb)).
    replace (c =? 0) with false by lia. cbn [negb]. rewrite !u32_id by lia.
    rewrite (bind_step _ _ _ _ _ (IH fuel (a + 1) Hs ltac:(lia))). done.
Qed.

Lemma string_at_run p a s : a <> 0 -> cstring p a s -> string_at garbage a p = Ok (Some ((s8 <$> s) ++ [0]), p).
Proof.
  intros Ha Hs. pose proof (cstring_walk _ _ _ Hs). unfold string_at. replace (a =? 0) with false by lia.
  unfold bind at 1, gets. by rewrite (bind_step _ _ _ _ _ (string_from_run p s (walk_rounds p) a Hs ltac:(lia))).
Qed.

Lemma strncpy_from_run s : forall fuel src dest p, let n := Z.of_nat (length s) + 1 in
  cstring p src s -> range_ok p dest (dest + n) -> src + n <= dest \/ dest + n <= src -> 0 <= dest -> dest + n < 4294967296 ->
  (length s < fuel)%nat ->
  exists p', strncpy_from garbage fuel dest src n p = Ok (tt, p') /\ cstring p' dest s /\ same_outside dest (dest + n) p p'.
Proof.
  induction s as [|c s IH]; intros [|fuel] src dest p n Hs Hr Hd Hd0 Hdn Hf; cbn [length] in *; try lia; cbn [strncpy_from].
  - rewrite (bind_step _ _ _ _ _ (rd8_run _ _ _ (cstring_nil _ _ Hs))). cbn [Z.eqb negb].
    pose proof (cstring_walk _ _ _ Hs) as Hw. cbn [length] in Hw. unfold bind at 1, gets.
    destruct (walk_rounds p) as [|[|r]]; [lia..|]. change n with 1 in *. cbn [pad_from]. change (1 =? 0) with false. cbv iota.
    destruct (wr8_run p dest 0 (Hr dest ltac:(lia))) as (E & B & S1).
    rewrite (bind_step _ _ _ _ _ E). eexists. split; [done|]. split; [|eapply same_outside_mono; [exact S1|lia|lia]].
    split_and!; [done|cbn [length]; lia|done|]. intros [|k] x Hx; [|done]. injection Hx as <-. by rewrite Z.add_0_r.
  - apply cstring_cons in Hs as (Ha & Hal & Hc & Hb & Hs). rewrite (bind_step _ _ _ _ _ (rd8_run _ _ _ Hb)).
    replace (c =? 0) with false by lia. replace (n =? 0) with false by lia. cbn [negb].
    rewrite (bind_step _ _ _ _ _ (rd8_run _ _ _ Hb)).
    destruct (wr8_run p dest c (Hr dest ltac:(lia))) as (E & B & S1). rewrite u8_id in E, B, S1 by lia.
    set (p1 := write_byte dest c p) in *. rewrite (bind_step _ _ _ _ _ E). rewrite !u32_id by lia.
    replace (n - 1) with (Z.of_nat (length s) + 1) by lia.
    destruct (IH fuel (src + 1) (dest + 1) p1) as (p2 & E2 & Hs2 & S2); [|intros x Hx; apply Hr; lia|lia..|].
    + apply (cstring_same dest (dest + 1) p); [done|lia|done].
    + exists p2. split; [exact E2|]. split.
      * apply cstring_cons. split_and!; [done|lia|lia|lia| |done]. eapply byte_same; [exact S2|lia|done].
      * apply (same_outside_trans _ _ _ p1); (eapply same_outside_mono; [done|lia|lia]).
Qed.

Lemma strncpy_at_run s src dest p : let n := Z.of_nat (length s) + 1 in
  cstring p src s -> range_ok p dest (dest + n) -> src + n <= dest \/ dest + n <= src -> 0 <= dest -> dest + n < 4294967296 ->
  exists p', strncpy_at garbage dest src n p = Ok (tt, p') /\ cstring p' dest s /\ same_outside dest (dest + n) p p'.
Proof.
  intros n Hs Hr Hd Hd0 Hdn. pose proof (cstring_walk _ _ _ Hs). unfold strncpy_at. unfold bind at 1, gets.
  apply strncpy_from_run; [done..|lia].
Qed.

(** ** Vectors of strings *)

Definition total (strs : list (list Z)) : Z := foldr (fun s a => Z.of_nat (length s) + 1 + a) 0 strs.
(** Where the strings are put that end at [buf]. *)
Fixpoint str_pos (buf : Z) (strs : list (list Z)) : list Z :=
  match strs with [] => [] | s :: l => (buf - total (s :: l)) :: str_pos buf l end.

Lemma total_nonneg l : 0 <= total l.
Proof. unfold total. induction l as [|s l IH]; cbn; lia. Qed.
Lemma total_snoc l s : total (l ++ [s]) = total l + (Z.of_nat (length s) + 1).
Proof. unfold total. induction l as [|x l IH]; cbn; [lia|]. rewrite IH. lia. Qed.
Lemma str_pos_snoc buf l s : str_pos buf (l ++ [s]) =
  str_pos (buf - (Z.of_nat (length s) + 1)) l ++ [buf - (Z.of_nat (length s) + 1)].
Proof.
  induction l as [|x l IH]; cbn [str_pos app]; [unfold total; cbn; do 2 f_equal; lia|]. rewrite IH. f_equal.
  pose proof (total_snoc (x :: l) s) as Ht. cbn [app] in Ht. lia.
Qed.
Lemma str_pos_length buf l : length (str_pos buf l) = length l.
Proof. induction l as [|x l IH]; cbn; congruence. Qed.
Lemma str_pos_bounds buf l i w s : str_pos buf l !! i = Some w -> l !! i = Some s ->
  buf - total l <= w /\ w + Z.of_nat (length s) + 1 <= buf.
Proof.
  revert i. induction l as [|x l IH]; intros i; [done|]. pose proof (total_nonneg l). unfold total in *.
  destruct i as [|i]; cbn [str_pos lookup list_lookup total foldr]; [intros [= <-] [= <-]; unfold total; cbn; lia|].
  intros Hw Hs. destruct (IH i Hw Hs). lia.
Qed.

(** The [i]-th entry of a vector, clear of the bytes of [lo, hi). *)
Definition entry p (vec : Z) (i : nat) (w : Z) (s : list Z) : Prop :=
  w <> 0 /\ word p (vec + 4 * Z.of_nat i) w /\ cstring p w s.
Definition entry_clear (lo hi vec : Z) (i : nat) (w : Z) (s : list Z) : Prop :=
  (vec + 4 * Z.of_nat i + 4 <= lo \/ hi <= vec + 4 * Z.of_nat i) /\ (w + Z.of_nat (length s) + 1 <= lo \/ hi <= w).
Definition entries p (vec : Z) (ptrs : list Z) (strs : list (list Z)) : Prop :=
  length ptrs = length strs /\ forall i w s, ptrs !! i = Some w -> strs !! i = Some s -> entry p vec i w s.
Definition entries_clear (lo hi vec : Z) (ptrs : list Z) (strs : list (list Z)) : Prop :=
  forall i w s, ptrs !! i = Some w -> strs !! i = Some s -> entry_clear lo hi vec i w s.

Lemma entries_same lo hi p p' vec ptrs strs : same_outside lo hi p p' -> entries_clear lo hi vec ptrs strs ->
  entries p vec ptrs strs -> entries p' vec ptrs strs.
Proof.
  intros Hs Hc [Hl He]. split; [done|]. intros i w s Hw Hss. destruct (He i w s Hw Hss) as (H0 & H1 & H2).
  destruct (Hc i w s Hw Hss) as [C1 C2]. split_and!; [done|by apply (word_same lo hi p)|by apply (cstring_same lo hi p)].
Qed.
Lemma entries_snoc p vec ptrs w strs s : length ptrs = length strs -> entries p vec (ptrs ++ [w]) (strs ++ [s]) ->
  entries p vec ptrs strs /\ entry p vec (length strs) w s.
Proof.
  intros Hl [_ He]. split; [split; [done|]|].
  - intros i w' s' Hw Hs. apply He; rewrite lookup_app_l; [done|by apply lookup_lt_Some in Hw|done|by apply lookup_lt_Some in Hs].
  - apply He; [rewrite <- Hl|]; by rewrite lookup_app_r, Nat.sub_diag by lia.
Qed.
Lemma entries_clear_snoc lo hi vec ptrs w strs s : length ptrs = length strs ->
  entries_clear lo hi vec (ptrs ++ [w]) (strs ++ [s]) -> entries_clear lo hi vec ptrs strs /\ entry_clear lo hi vec (length strs) w s.
Proof.
  intros Hl He. split.
  - intros i w' s' Hw Hs. apply He; rewrite lookup_app_l; [done|by apply lookup_lt_Some in Hw|done|by apply lookup_lt_Some in Hs].
  - apply He; [rewrite <- Hl|]; by rewrite lookup_app_r, Nat.sub_diag by lia.
Qed.
Lemma entries_clear_mono lo hi lo' hi' vec ptrs strs : entries_clear lo hi vec ptrs strs -> lo <= lo' -> hi' <= hi ->
  entries_clear lo' hi' vec ptrs strs.
Proof. intros Hc Hlo Hhi i w s Hw Hs. destruct (Hc i w s Hw Hs) as [C1 C2]. split; lia. Qed.

(** The strings are copied below [buf]. *)
Lemma write_strings_run lo hi vec : 0 <= lo -> hi < 4294967296 -> forall strs ptrs buf p,
  entries p vec ptrs strs -> entries_clear lo hi vec ptrs strs -> range_ok p lo hi -> lo <= buf - total strs -> buf <= hi ->
  exists p', write_strings garbage (length strs) vec buf p = Ok (buf - total strs, p') /\
    same_outside (buf - total strs) buf p p' /\ Forall2 (cstring p') (str_pos buf strs) strs.
Proof.
  intros Hlo Hhi. induction strs as [|s strs IH] using rev_ind; intros ptrs buf p He Hc Hr Hb Hbh.
  - exists p. cbn. unfold total. cbn. rewrite Z.sub_0_r. done.
  - destruct ptrs as [|w ptrs _] using rev_ind; [apply proj1 in He; rewrite length_app in He; cbn in He; lia|].
    assert (Hl : length ptrs = length strs) by (apply proj1 in He; rewrite !length_app in He; cbn in He; lia).
    apply entries_snoc in He as [He (_ & Hw & Hs)]; [|done]. apply entries_clear_snoc in Hc as [Hc [Hc1 Hc2]]; [|done].
    rewrite total_snoc in *. rewrite str_pos_snoc. pose proof (total_nonneg strs). set (n := Z.of_nat (length s) + 1) in *.
    rewrite length_app, Nat.add_comm. cbn [length Nat.add write_strings].
    rewrite u32_id by (destruct Hw as (? & ? & _); lia).
    rewrite (bind_step _ _ _ _ _ (rd32_run _ _ _ Hw)), (bind_step _ _ _ _ _ (strlen_at_run _ _ _ Hs)). fold n.
    rewrite (bind_step _ _ _ _ _ (rd32_run _ _ _ Hw)). rewrite (u32_id n), (u32_id (buf - n)) by lia.
    destruct (strncpy_at_run s w (buf - n) p) as (p1 & E1 & Hs1 & S1); fold n; [done|intros x Hx; apply Hr; lia|lia|lia|lia|].
    fold n in E1, S1. rewrite (bind_step _ _ _ _ _ E1).
    destruct (IH ptrs (buf - n) p1) as (p2 & E2 & S2 & Hf).
    + apply (entries_same lo hi p); [eapply same_outside_mono; [exact S1|lia|lia]|done|done].
    + done.
    + by apply (range_same _ _ _ _ _ _ S1).
    + lia.
    + lia.
    + exists p2. rewrite E2. replace (buf - n - total strs) with (buf - (total strs + n)) in * by lia. split; [done|]. split.
      * apply (same_outside_trans _ _ _ p1); (eapply same_outside_mono; [done|lia|lia]).
      * apply Forall2_app; [done|]. constructor; [|done]. apply (cstring_same _ _ p1 _ _ _ S2); [lia|done].
Qed.

(** Their addresses are stored below [buf]. *)
Lemma write_pointers_run lo hi vec : 0 <= lo -> hi < 4294967296 -> forall strs ptrs oldbuf buf p,
  entries p vec ptrs strs -> entries_clear lo hi vec ptrs strs -> range_ok p lo hi ->
  0 <= oldbuf - total strs -> oldbuf < 4294967296 -> lo <= buf - 4 * Z.of_nat (length strs) -> buf <= hi ->
  exists p', write_pointers garbage (length strs) vec oldbuf buf p = Ok (buf - 4 * Z.of_nat (length strs), p') /\
    same_outside (buf - 4 * Z.of_nat (length strs)) buf p p' /\
    forall i w, str_pos oldbuf strs !! i = Some w -> word p' (buf - 4 * Z.of_nat (length strs) + 4 * Z.of_nat i) w.
Proof.
  intros Hlo Hhi. induction strs as [|s strs IH] using rev_ind; intros ptrs oldbuf buf p He Hc Hr Hob Hoh Hb Hbh.
  - exists p. cbn. rewrite Z.sub_0_r. done.
  - destruct ptrs as [|w ptrs _] using rev_ind; [apply proj1 in He; rewrite length_app in He; cbn in He; lia|].
    assert (Hl : length ptrs = length strs) by (apply proj1 in He; rewrite !length_app in He; cbn in He; lia).
    apply entries_snoc in He as [He (_ & Hw & Hs)]; [|done]. apply entries_clear_snoc in Hc as [Hc [Hc1 Hc2]]; [|done].
    rewrite total_snoc in *. rewrite str_pos_snoc. pose proof (total_nonneg strs). set (n := Z.of_nat (length s) + 1) in *.
    rewrite length_app in *. cbn [length] in *. rewrite Nat.add_1_r in *. cbn [write_pointers].
    rewrite u32_id by (destruct Hw as (? & ? & _); lia).
    rewrite (bind_step _ _ _ _ _ (rd32_run _ _ _ Hw)), (bind_step _ _ _ _ _ (strlen_at_run _ _ _ Hs)). fold n.
    rewrite (u32_id n), (u32_id (oldbuf - n)), (u32_id (buf - 4)) by lia.
    destruct (wr32_run p (buf - 4) (oldbuf - n)) as (p1 & E1 & Hw1 & S1); [lia|lia|lia|intros x Hx; apply Hr; lia|].
    replace (buf - 4 + 4) with buf in S1 by lia. rewrite (bind_step _ _ _ _ _ E1).
    destruct (IH ptrs (oldbuf - n) (buf - 4) p1) as (p2 & E2 & S2 & Hf).
    + apply (entries_same lo hi p); [eapply same_outside_mono; [exact S1|lia|lia]|done|done].
    + done.
    + by apply (range_same _ _ _ _ _ _ S1).
    + lia.
    + lia.
    + lia.
    + lia.
    + exists p2. rewrite E2. replace (buf - 4 * Z.of_nat (S (length strs))) with (buf - 4 - 4 * Z.of_nat (length strs)) by lia.
      split; [done|]. split; [apply (same_outside_trans _ _ _ p1); (eapply same_outside_mono; [done|lia|lia])|].
      intros i x [Hi|[Hi Hx]]%lookup_app_Some; [by apply Hf|]. rewrite str_pos_length in Hi, Hx.
      destruct (i - length strs)%nat as [|k] eqn:Ek; [|done]. injection Hx as <-.
      apply (word_same _ _ p1 _ _ _ S2); [lia|]. by replace (buf - 4 - 4 * Z.of_nat (length strs) + 4 * Z.of_nat i) with (buf - 4) by lia.
Qed.

(** A vector of strings at [vec], ended by a null pointer; and one that
    [lo, hi) has no byte of. *)
Definition vector p (vec : Z) (strs : list (list Z)) : Prop :=
  exists ptrs, entries p vec ptrs strs /\ word p (vec + 4 * Z.of_nat (length strs)) 0 /\ 0 < vec.
Definition vector_clear lo hi p (vec : Z) (strs : list (list Z)) : Prop :=
  exists ptrs, entries p vec ptrs strs /\ entries_clear lo hi vec ptrs strs /\ word p (vec + 4 * Z.of_nat (length strs)) 0 /\
    0 < vec /\ (vec + 4 * Z.of_nat (length strs) + 4 <= lo \/ hi <= vec + 4 * Z.of_nat (length strs)).

Lemma vector_clear_same lo hi lo' hi' p p' vec strs : same_outside lo' hi' p p' -> lo <= lo' -> hi' <= hi ->
  vector_clear lo hi p vec strs -> vector_clear lo hi p' vec strs.
Proof.
  intros Hs Hlo Hhi (ptrs & He & Hc & Hz & Hv & Hd).
  pose proof (same_outside_mono _ _ _ _ _ _ Hs Hlo Hhi) as Hs'. exists ptrs. split_and!; [|done| |done|done].
  - by apply (entries_same lo hi p).
  - by apply (word_same lo hi p).
Qed.
Lemma vector_clear_mono lo hi lo' hi' p vec strs : lo <= lo' -> hi' <= hi -> vector_clear lo hi p vec strs ->
  vector_clear lo' hi' p vec strs.
Proof.
  intros Hlo Hhi (ptrs & He & Hc & Hz & Hv & Hd). exists ptrs. split_and!; [done| |done|done|lia].
  by apply (entries_clear_mono lo hi).
Qed.
Lemma vector_of_clear lo hi p vec strs : vector_clear lo hi p vec strs -> vector p vec strs.
Proof. intros (ptrs & He & _ & Hz & Hv & _). by exists ptrs. Qed.

Lemma entries_range p vec ptrs strs : entries p vec ptrs strs -> word p (vec + 4 * Z.of_nat (length strs)) 0 ->
  range_ok p vec (vec + Z.of_nat (4 * S (length strs))).
Proof.
  intros [Hl He] Hz x Hx. set (i := Z.to_nat ((x - vec) / 4)).
  destruct (decide (i < length strs)%nat) as [Hi|Hi].
  - destruct (lookup_lt_is_Some_2 ptrs i ltac:(lia)) as [w Hw]. destruct (lookup_lt_is_Some_2 strs i Hi) as [s Hs].
    destruct (He i w s Hw Hs) as (_ & Hword & _). apply (word_range _ _ _ Hword). lia.
  - apply (word_range _ _ _ Hz). lia.
Qed.

Lemma count_from_run p vec ptrs strs : entries p vec ptrs strs -> word p (vec + 4 * Z.of_nat (length strs)) 0 ->
  forall k fuel, (k <= length strs)%nat -> (length strs - k < fuel)%nat -> 0 <= vec ->
  count_from garbage fuel vec (Z.of_nat k) p = Ok (Z.of_nat (length strs) + 1, p).
Proof.
  intros [Hl He] Hz k fuel. revert k. induction fuel as [|fuel IH]; intros k Hk Hf Hv; [lia|]. cbn [count_from].
  destruct (decide (k = length strs)) as [->|Hne].
  - rewrite u32_id by (destruct Hz as (? & ? & _); lia). by rewrite (bind_step _ _ _ _ _ (rd32_run _ _ _ Hz)).
  - destruct (lookup_lt_is_Some_2 ptrs k ltac:(lia)) as [w Hw]. destruct (lookup_lt_is_Some_2 strs k ltac:(lia)) as [s Hs].
    destruct (He k w s Hw Hs) as (Hw0 & Hword & _). rewrite u32_id by (destruct Hword as (? & ? & _); lia).
    rewrite (bind_step _ _ _ _ _ (rd32_run _ _ _ Hword)). replace (w =? 0) with false by lia. cbn [negb].
    replace (Z.of_nat k + 1) with (Z.of_nat (S k)) by lia. apply IH; lia.
Qed.

Lemma count_vector_run p vec strs : vector p vec strs -> count_vector garbage vec p = Ok (Z.of_nat (length strs) + 1, p).
Proof.
  intros (ptrs & He & Hz & Hv). pose proof (walk_enough _ _ _ (entries_range _ _ _ _ He Hz)).
  unfold count_vector. unfold bind at 1, gets. apply (count_from_run p vec ptrs strs He Hz 0); lia.
Qed.

Definition vec_size (strs : list (list Z)) : Z := total strs + 4 + 4 * Z.of_nat (length strs).

Lemma write_vector_run lo hi vec strs buf p : vector_clear lo hi p vec strs -> range_ok p lo hi ->
  0 < lo -> hi < 4294967296 -> lo <= buf - vec_size strs -> buf <= hi ->
  exists p', write_vector garbage vec buf p = Ok (buf - vec_size strs, p') /\ same_outside (buf - vec_size strs) buf p p' /\
    vector_clear 0 (buf - vec_size strs) p' (buf - vec_size strs) strs.
Proof.
  intros (ptrs & He & Hc & Hz & Hv & Hd) Hr Hlo Hhi Hb Hbh. unfold vec_size in *. pose proof (total_nonneg strs).
  unfold write_vector. replace (vec =? 0) with false by lia.
  rewrite (bind_step _ _ _ _ _ (count_vector_run p vec strs ltac:(by exists ptrs))).
  replace (Z.to_nat (Z.of_nat (length strs) + 1 - 1)) with (length strs) by lia.
  destruct (write_strings_run lo hi vec ltac:(lia) Hhi strs ptrs buf p He Hc Hr ltac:(lia) Hbh) as (p1 & E1 & S1 & Hf).
  rewrite (bind_step _ _ _ _ _ E1). set (b4 := buf - total strs - 4). rewrite (u32_id b4) by lia.
  destruct (wr32_run p1 b4 0) as (p2 & E2 & Hw2 & S2); [lia|lia|lia| |].
  { intros x Hx. apply (range_same _ _ _ _ _ _ S1 Hr). lia. }
  rewrite (bind_step _ _ _ _ _ E2).
  assert (S12 : same_outside b4 buf p p2) by (apply (same_outside_trans _ _ _ p1); (eapply same_outside_mono; [done|lia|lia])).
  destruct (write_pointers_run lo hi vec ltac:(lia) Hhi strs ptrs buf b4 p2) as (p3 & E3 & S3 & Hp);
    [|done|by apply (range_same _ _ _ _ _ _ S12)|lia..|].
  { apply (entries_same lo hi p); [eapply same_outside_mono; [exact S12|lia|lia]|done|done]. }
  replace (b4 - 4 * Z.of_nat (length strs)) with (buf - (total strs + 4 + 4 * Z.of_nat (length strs))) in * by lia.
  set (base := buf - (total strs + 4 + 4 * Z.of_nat (length strs))) in *.
  exists p3. split; [exact E3|]. split; [apply (same_outside_trans _ _ _ p2); (eapply same_outside_mono; [done|lia|lia])|].
  exists (str_pos buf strs). split_and!.
  - split; [apply str_pos_length|]. intros i w s Hw Hs. destruct (str_pos_bounds _ _ _ _ _ Hw Hs).
    split_and!; [lia|by apply Hp|]. apply (cstring_same _ _ p2 _ _ _ S3); [lia|].
    apply (cstring_same _ _ p1 _ _ _ S2); [lia|]. destruct (Forall2_lookup_l _ _ _ _ _ Hf Hw) as (s' & Hs' & Hcs). by simplify_eq.
  - intros i w s Hw Hs. destruct (str_pos_bounds _ _ _ _ _ Hw Hs). split; lia.
  - replace (base + 4 * Z.of_nat (length strs)) with b4 by lia. apply (word_same _ _ p2 _ _ _ S3); [lia|done].
  - lia.
  - lia.
Qed.

(** The optional vector [envp]. *)
Definition opt_clear lo hi p (vec : Z) (o : option (list (list Z))) : Prop :=
  match o with None => vec = 0 | Some strs => vector_clear lo hi p vec strs end.
Definition opt_vector p (vec : Z) (o : option (list (list Z))) : Prop :=
  match o with None => vec = 0 | Some strs => vector p vec strs end.
Definition opt_size (o : option (list (list Z))) : Z := match o with None => 0 | Some strs => vec_size strs end.

Lemma opt_clear_same lo hi lo' hi' p p' vec o : same_outside lo' hi' p p' -> lo <= lo' -> hi' <= hi ->
  opt_clear lo hi p vec o -> opt_clear lo hi p' vec o.
Proof. destruct o; [apply vector_clear_same|done]. Qed.
Lemma opt_clear_mono lo hi lo' hi' p vec o : lo <= lo' -> hi' <= hi -> opt_clear lo hi p vec o -> opt_clear lo' hi' p vec o.
Proof. destruct o; [apply vector_clear_mono|done]. Qed.
Lemma vec_size_pos l : 4 <= vec_size l.
Proof. unfold vec_size. pose proof (total_nonneg l). lia. Qed.
Lemma opt_size_nonneg o : 0 <= opt_size o.
Proof. destruct o; cbn; [|lia]. pose proof (vec_size_pos l). lia. Qed.

Lemma write_opt_run lo hi vec o buf p : opt_clear lo hi p vec o -> range_ok p lo hi ->
  0 < lo -> hi < 4294967295 -> lo <= buf - opt_size o -> buf <= hi ->
  exists v p', write_vector garbage vec buf p = Ok (v, p') /\ (v =? STACK_NOMEM) = false /\
    (if negb (v =? 0) then v else buf) = buf - opt_size o /\ same_outside (buf - opt_size o) buf p p' /\
    opt_clear 0 (buf - opt_size o) p' v o.
Proof.
  intros Hc Hr Hlo Hhi Hb Hbh. destruct o as [strs|]; cbn [opt_clear opt_size] in *.
  - destruct (write_vector_run lo hi vec strs buf p) as (p' & E & S & Hv); [done..|lia|done|done|]. pose proof (vec_size_pos strs).
    eexists _, p'. split; [exact E|]. unfold STACK_NOMEM. split_and!; [lia| |done|done].
    by replace (buf - vec_size strs =? 0) with false by lia.
  - subst vec. exists 0, p. split_and!; [done|done|cbn; lia|done|done].
Qed.

Lemma make_new_stack_run lo hi argv envp strs o pos p : let esp := pos - opt_size o - vec_size strs - 12 in
  opt_clear lo hi p envp o -> vector_clear lo hi p argv strs -> range_ok p lo hi ->
  0 < lo -> hi < 4294967295 -> lo <= esp -> pos <= hi ->
  exists args envs p', make_new_stack garbage argv envp pos p = Ok (esp, p') /\
    word p' esp (Z.of_nat (length strs)) /\ word p' (esp + 4) args /\ word p' (esp + 8) envs /\
    vector_clear 0 esp p' args strs /\ opt_clear 0 esp p' envs o /\ same_outside esp pos p p'.
Proof.
  intros esp Hce Hca Hr Hlo Hhi Hesp Hpos. pose proof (total_nonneg strs).
  assert (vec_size strs = total strs + 4 + 4 * Z.of_nat (length strs)) by done. pose proof (opt_size_nonneg o).
  unfold make_new_stack.
  destruct (write_opt_run lo hi envp o pos p Hce Hr Hlo Hhi ltac:(lia) Hpos) as (envs & p1 & E1 & N1 & Hv1 & S1 & C1).
  rewrite (bind_step _ _ _ _ _ E1), N1, Hv1. set (mid := pos - opt_size o) in *.
  assert (Hca1 : vector_clear lo hi p1 argv strs) by (apply (vector_clear_same _ _ _ _ _ _ _ _ S1); [lia|lia|done]).
  destruct (write_vector_run lo hi argv strs mid p1) as (p2 & E2 & S2 & C2);
    [done|by apply (range_same _ _ _ _ _ _ S1)|lia|lia|lia|lia|].
  rewrite (bind_step _ _ _ _ _ E2). set (args := mid - vec_size strs) in *.
  replace (args =? STACK_NOMEM) with false by (unfold STACK_NOMEM; lia). replace (args =? 0) with false by lia. cbn [negb].
  assert (Hca2 : vector_clear lo hi p2 argv strs) by (apply (vector_clear_same _ _ _ _ _ _ _ _ S2); [lia|lia|done]).
  rewrite (bind_step _ _ _ _ _ (count_vector_run _ _ _ (vector_of_clear _ _ _ _ _ Hca2))).
  replace (args - 12) with esp by lia. rewrite (u32_id esp), (u32_id (esp + 4)), (u32_id (esp + 8)), Z.add_simpl_r by lia.
  assert (S12 : same_outside lo hi p p2) by (apply (same_outside_trans _ _ _ p1); (eapply same_outside_mono; [done|lia|lia])).
  assert (Hr2 : range_ok p2 lo hi) by (by apply (range_same _ _ _ _ _ _ S12)).
  assert (Hv : 0 <= envs < 4294967296).
  { destruct (negb (envs =? 0)) eqn:Ez; lia. }
  destruct (wr32_run p2 esp (Z.of_nat (length strs))) as (p3 & E3 & W3 & S3); [lia|lia|lia|intros x Hx; apply Hr2; lia|].
  assert (Hr3 : range_ok p3 lo hi) by (by apply (range_same _ _ _ _ _ _ S3)).
  destruct (wr32_run p3 (esp + 4) args) as (p4 & E4 & W4 & S4);
    [lia|lia|lia|intros x Hx; apply Hr3; lia|].
  assert (Hr4 : range_ok p4 lo hi) by (by apply (range_same _ _ _ _ _ _ S4)).
  destruct (wr32_run p4 (esp + 4 + 4) envs) as (p5 & E5 & W5 & S5);
    [lia|lia|lia|intros x Hx; apply Hr4; lia|].
  replace (esp + 4 + 4) with (esp + 8) in * by lia.
  assert (S25 : same_outside esp (esp + 12) p2 p5).
  { apply (same_outside_trans _ _ _ p3); [|apply (same_outside_trans _ _ _ p4)]; (eapply same_outside_mono; [done|lia|lia]). }
  exists args, envs, p5. split_and!.
  - rewrite (bind_step _ _ _ _ _ E3), (bind_step _ _ _ _ _ E4), (bind_step _ _ _ _ _ E5). done.
  - apply (word_same _ _ p4 _ _ _ S5); [lia|]. apply (word_same _ _ p3 _ _ _ S4); [lia|done].
  - apply (word_same _ _ p4 _ _ _ S5); [lia|done].
  - done.
  - apply (vector_clear_mono 0 args); [lia|lia|].
    by apply (vector_clear_same 0 args esp (esp + 12) p2); [|lia|lia|].
  - apply (opt_clear_mono 0 mid); [lia|lia|]. apply (opt_clear_same 0 mid esp (esp + 12) p2); [done|lia|lia|].
    by apply (opt_clear_same 0 mid args mid p1); [|lia|lia|].
  - apply (same_outside_trans _ _ _ p1); [eapply same_outside_mono; [exact S1|lia|lia]|].
    apply (same_outside_trans _ _ _ p2); (eapply same_outside_mono; [done|lia|lia]).
Qed.

Lemma _start_run p esp argc args envs : word p esp argc -> word p (esp + 4) args -> word p (esp + 8) envs ->
  _start garbage esp p = Ok ((argc, args, envs), p).
Proof.
  intros W0 W4 W8. unfold _start. rewrite (u32_id (esp + 8)) by (destruct W0 as (? & _), W8 as (_ & ? & _); lia).
  rewrite (u32_id (esp + 4)) by (destruct W0 as (? & _), W4 as (_ & ? & _); lia).
  by rewrite (bind_step _ _ _ _ _ (rd32_run _ _ _ W8)), (bind_step _ _ _ _ _ (rd32_run _ _ _ W4)),
    (bind_step _ _ _ _ _ (rd32_run _ _ _ W0)).
Qed.

Lemma new_stack_run p : exists p', new_stack USER_STACK_POS USER_STACK_SIZE p = Ok (0, p') /\ same_outside 0 0 p p' /\
  range_ok p' (USER_STACK_POS - USER_STACK_SIZE) (USER_STACK_POS + 1).
Proof.
  eexists. split; [reflexivity|]. cbn [memory pages image]. split.
  - split_and!; [|done..]. intros a Ha. apply bool_decide_eq_true in Ha. apply bool_decide_eq_true. cbn [pages]. set_solver.
  - intros a Ha. apply bool_decide_eq_true. unfold page_of. cbn [pages].
    unfold USER_STACK_POS, USER_STACK_SIZE, FRAME_SIZE in *.
    assert (a / 4096 * 4096 = 2147479552 \/ a / 4096 * 4096 = 2147483648) as [->| ->] by lia; set_solver.
Qed.

(** The bytes of the new stack: the vectors and three words. *)
Definition stack_size (strs : list (list Z)) (o : option (list (list Z))) : Z := opt_size o + vec_size strs + 12.

Lemma build_stack_run p argv envp strs o : let esp := USER_STACK_POS - stack_size strs o in
  stack_size strs o <= USER_STACK_SIZE -> vector_clear esp USER_STACK_POS p argv strs -> opt_clear esp USER_STACK_POS p envp o ->
  exists p1 args envs p2, new_stack USER_STACK_POS USER_STACK_SIZE p = Ok (0, p1) /\
    make_new_stack garbage argv envp USER_STACK_POS p1 = Ok (esp, p2) /\
    word p2 esp (Z.of_nat (length strs)) /\ word p2 (esp + 4) args /\ word p2 (esp + 8) envs /\
    vector_clear 0 esp p2 args strs /\ opt_clear 0 esp p2 envs o /\ same_outside esp USER_STACK_POS p p2.
Proof.
  intros esp Hsz Hca Hce. destruct (new_stack_run p) as (p1 & E1 & S1 & Hr).
  assert (Hesp : USER_STACK_POS - opt_size o - vec_size strs - 12 = esp) by (unfold esp, stack_size; lia).
  assert (S1' : same_outside esp esp p p1).
  { destruct S1 as (A & B & C). split_and!; [done|done|]. intros a _. apply C. lia. }
  destruct (make_new_stack_run esp USER_STACK_POS argv envp strs o USER_STACK_POS p1) as (args & envs & p2 & E2 & H).
  - apply (opt_clear_same _ _ _ _ _ _ _ _ S1'); [lia| |done]. unfold esp, stack_size. pose proof (opt_size_nonneg o). pose proof (vec_size_pos strs). lia.
  - apply (vector_clear_same _ _ _ _ _ _ _ _ S1'); [lia| |done]. unfold esp, stack_size. pose proof (opt_size_nonneg o). pose proof (vec_size_pos strs). lia.
  - intros a Ha. apply Hr. lia.
  - unfold esp, USER_STACK_SIZE, USER_STACK_POS in *. lia.
  - done.
  - lia.
  - done.
  - rewrite Hesp in *. exists p1, args, envs, p2. split; [done|]. split; [done|].
    destruct H as (W0 & W4 & W8 & V & O & S2). split_and!; [done..|].
    apply (same_outside_trans _ _ _ p1); [|done]. destruct S1' as (A & B & C). split_and!; [done|done|]. intros a Ha. apply C. lia.
Qed.

End walks.

(** ** Loading below the stack *)

(** An image whose checks pass and whose segments lie in the file and below
    [top]. *)
Definition loadable (top : Z) (img : list Z) (entry : Z) : Prop :=
  exists hdr, read_ehdr img = Some hdr /\ check_ehdr hdr = None /\ e_entry hdr = entry /\
  forall i, 0 <= i < e_phnum hdr -> exists seg, read_phdr img (e_phoff hdr + i * e_phentsize hdr) = Some seg /\
    p_type seg <> PT_DYNAMIC /\ p_type seg <> PT_SHLIB /\
    (p_type seg = PT_LOAD -> 0 <= p_vaddr seg /\ 0 <= p_filesz seg /\ 0 <= p_memsz seg /\ p_vaddr seg + p_memsz seg <= top /\
       exists data, slice img (p_offset seg) (Z.min (p_filesz seg) (p_memsz seg)) = Some data).

Lemma load_segment_below seg p data top : 0 <= p_vaddr seg -> 0 <= p_filesz seg -> 0 <= p_memsz seg ->
  p_vaddr seg + p_memsz seg <= top -> top <= 4294963200 ->
  slice (image p) (p_offset seg) (Z.min (p_filesz seg) (p_memsz seg)) = Some data ->
  exists p', elf_load_segment seg p = Ok (0, p') /\ same_outside 0 top p p'.
Proof.
  intros Hv Hf Hm Ht Htop Hs.
  destruct (elf_load_segment_run seg p data Hv Hf Hm ltac:(lia) Hs) as (p' & E & Hi & Hp & _ & _ & Hmem).
  exists p'. split; [done|]. split_and!; [|done|].
  - intros a Ha. apply bool_decide_eq_true in Ha. apply bool_decide_eq_true. by apply Hp.
  - intros a Ha. apply Hmem. lia.
Qed.

Lemma load_segments_below top hdr pretend n : top <= 4294963200 -> forall i p,
  (forall j, i <= j < i + Z.of_nat n -> exists seg, read_phdr (image p) (e_phoff hdr + j * e_phentsize hdr) = Some seg /\
    p_type seg <> PT_DYNAMIC /\ p_type seg <> PT_SHLIB /\
    (p_type seg = PT_LOAD -> 0 <= p_vaddr seg /\ 0 <= p_filesz seg /\ 0 <= p_memsz seg /\ p_vaddr seg + p_memsz seg <= top /\
       exists data, slice (image p) (p_offset seg) (Z.min (p_filesz seg) (p_memsz seg)) = Some data)) ->
  exists p', load_segments n hdr i pretend p = Ok (LOAD_ELF_SUCCESS, p') /\ same_outside 0 top p p' /\
    (pretend = true -> p' = p).
Proof.
  intros Htop. induction n as [|n IH]; intros i p Hseg; cbn [load_segments]; [by exists p|].
  destruct (Hseg i ltac:(lia)) as (seg & Hr & Hd & Hsh & Hload). rewrite Hr.
  replace (p_type seg =? PT_DYNAMIC) with false by lia. replace (p_type seg =? PT_SHLIB) with false by lia. cbn [orb].
  destruct ((p_type seg =? PT_LOAD) && negb pretend) eqn:E.
  - apply andb_true_iff in E as [El Ep]. destruct (Hload ltac:(lia)) as (Hv & Hf & Hm & Ht & data & Hs).
    destruct (load_segment_below seg p data top Hv Hf Hm Ht Htop Hs) as (p1 & E1 & S1). rewrite E1. cbn [Z.eqb negb].
    destruct (IH (i + 1) p1) as (p2 & E2 & S2 & _).
    { destruct S1 as (_ & Hi & _). rewrite Hi. intros j Hj. apply Hseg. lia. }
    exists p2. split; [done|]. split; [by apply (same_outside_trans _ _ _ p1)|]. intros ->. done.
  - destruct (IH (i + 1) p) as (p2 & E2 & S2 & Hp); [intros j Hj; apply Hseg; lia|]. by exists p2.
Qed.

Lemma load_elf_below top entry pretend p : top <= 4294963200 -> loadable top (image p) entry ->
  exists p', load_elf true pretend p = Ok (LOAD_ELF_SUCCESS, Some entry, p') /\ same_outside 0 top p p' /\
    (pretend = true -> p' = p).
Proof.
  intros Htop (hdr & Hr & Hc & He & Hseg). unfold load_elf. cbn [negb]. rewrite Hr, Hc.
  destruct (load_segments_below top hdr pretend (Z.to_nat (e_phnum hdr)) Htop 0 p) as (p' & E & S & Hp).
  { intros j Hj. apply Hseg. lia. }
  rewrite E, He. by exists p'.
Qed.

(** ** [sys_execve] *)

Section execve.
Context {F : Type} `{FsOps F} (garbage : Z -> Z) (fresh : Z -> list Z).
Implicit Types x : xstate F.

Lemma on_proc_step {A B} (m : M proc A) (f : A -> M (xstate F) B) s p g i a p' : m p = Ok (a, p') ->
  bind (on_proc m) f (XState s p g i) = f a (XState s p' g i).
Proof. intros E. unfold bind, on_proc. cbn [x_proc]. by rewrite E. Qed.
Lemma on_vfs_step {A B} (m : M (vstate F) A) (f : A -> M (xstate F) B) s p g i a s' : m s = Ok (a, s') ->
  bind (on_vfs m) f (XState s p g i) = f a (XState s' p g i).
Proof. intros E. unfold bind, on_vfs. cbn [x_vfs]. by rewrite E. Qed.

Definition with_image (img : list Z) p : proc := Proc (memory p) (pages p) img.

(** Reading the file: the four calls, and the buffer they leave. *)
Definition reads (node : Z) (img : list Z) (s s' : vstate F) : Prop := exists r1 s1 v r2 data s2 r3,
  open_fs node 0 s = Ok (r1, s1) /\ vnodes s1 !! node = Some v /\ read_fs node 0 (size v) s1 = Ok ((r2, data), s2) /\
  img = data ++ drop (length data) (fresh (size v)) /\ close_fs node s2 = Ok (r3, s').

Lemma read_program_run node img s s' p g i : reads node img s s' ->
  read_program fresh node (XState s p g i) = Ok (tt, XState s' (with_image img p) g i).
Proof.
  intros (r1 & s1 & v & r2 & data & s2 & r3 & E1 & Hv & E2 & -> & E3). unfold read_program.
  rewrite (on_vfs_step _ _ _ _ _ _ _ _ E1), (on_vfs_step _ _ _ _ _ _ _ _ (get_vnode_Ok _ _ _ Hv)), (on_vfs_step _ _ _ _ _ _ _ _ E2).
  rewrite (on_proc_step _ _ _ p _ _ tt (with_image (data ++ drop (length data) (fresh (size v))) p)) by done.
  by rewrite (on_vfs_step _ _ _ _ _ _ _ _ E3).
Qed.

Lemma load_pretend_image p q r e : image q = image p -> load_elf true true p = Ok (r, e, p) -> load_elf true true q = Ok (r, e, q).
Proof.
  intros Hi. unfold load_elf. cbn [negb]. rewrite Hi. destruct (read_ehdr (image p)) as [hdr|]; [|done].
  destruct (check_ehdr hdr) as [c|]; [by intros [= <- <-]|]. generalize (Z.to_nat (e_phnum hdr)). intros n.
  assert (Hg : forall i, load_segments n hdr i true q =
    match load_segments n hdr i true p with Ok (r, _) => Ok (r, q) | Fault => Fault | Fuel => Fuel end).
  { clear -Hi. induction n as [|n IH]; intros i; cbn [load_segments]; [done|]. rewrite Hi.
    destruct (read_phdr _ _) as [seg|]; [|done]. case_cond; [done|]. rewrite andb_false_r. apply IH. }
  rewrite Hg. destruct (load_segments n hdr 0 true p) as [[a q1]| |]; [|done..]. by intros [= <- <- _].
Qed.

(** What [sys_execve] is given: the path [path] at [file], which leads to
    [node] with the bytes [img], and vectors that the bytes of the new stack
    do not overlap. *)
Record request x (file argv envp status : Z) (path : list Z) (strs : list (list Z)) (o : option (list (list Z)))
    (node st : Z) (img : list Z) (s1 s2 : vstate F) : Prop := {
  rq_file : file <> 0;
  rq_path : cstring garbage (x_proc x) file path;
  rq_namei : namei (Some ((s8 <$> path) ++ [0])) status (x_vfs x) = Ok ((node, st), s1);
  rq_node : node <> 0;
  rq_reads : reads node img s1 s2;
  rq_fits : stack_size strs o <= USER_STACK_SIZE;
  rq_argv : vector_clear garbage (USER_STACK_POS - stack_size strs o) USER_STACK_POS (x_proc x) argv strs;
  rq_envp : opt_clear garbage (USER_STACK_POS - stack_size strs o) USER_STACK_POS (x_proc x) envp o }.

(** Up to the first pass of the loader. *)
Lemma sys_execve_stack x file argv envp status path strs o node st img s1 s2 : let esp := USER_STACK_POS - stack_size strs o in
  request x file argv envp status path strs o node st img s1 s2 ->
  exists args envs p, word garbage p esp (Z.of_nat (length strs)) /\ word garbage p (esp + 4) args /\ word garbage p (esp + 8) envs /\
    vector_clear garbage 0 esp p args strs /\ opt_clear garbage 0 esp p envs o /\
    same_outside esp USER_STACK_POS (with_image img (x_proc x)) p /\
    sys_execve garbage fresh file argv envp status x =
    (let! status :=
       let! ' (r, entry) := load_program true in
       if negb (r =? 0) then ret (- ENOEXEC)
       else
         let! ' (r, entry) := load_program false in
         if negb (r =? 0) then ret (- ENOEXEC)
         else do! on_vfs (close_marked (Z.to_nat NR_OPEN)); do! set_program (default 0 entry) esp; ret 0 in
     do! on_vfs (iput node); ret status) (XState s2 p (glob_regs x) (x_interrupts x)).
Proof.
  intros esp. destruct x as [s p g i]. cbn [x_vfs x_proc glob_regs x_interrupts].
  intros [Hf Hp Hn Hnode Hrd Hfit Ha He]. cbn [x_vfs x_proc] in *.
  destruct (build_stack_run garbage (with_image img p) argv envp strs o Hfit Ha He)
    as (p1 & args & envs & p2 & E1 & E2 & W0 & W4 & W8 & V & O & S).
  exists args, envs, p2. split_and!; [done..|]. unfold sys_execve.
  rewrite (on_proc_step _ _ _ _ _ _ _ _ (string_at_run garbage _ _ _ Hf Hp)), (on_vfs_step _ _ _ _ _ _ _ _ Hn).
  replace (node =? 0) with false by lia. unfold bind at 1. symmetry. unfold bind at 1. symmetry. unfold do_exec.
  rewrite (bind_step _ _ _ _ _ (read_program_run node img s1 s2 p g i Hrd)).
  rewrite (on_proc_step _ _ _ _ _ _ _ _ E1), (on_proc_step _ _ _ _ _ _ _ _ E2).
  replace (USER_STACK_POS - stack_size strs o =? STACK_NOMEM) with false; [done|].
  pose proof (opt_size_nonneg o). pose proof (vec_size_pos strs). unfold stack_size, USER_STACK_POS, STACK_NOMEM in *. lia.
Qed.

(** ** Closing on execution *)

(** The descriptors that are open and marked. *)
Definition marked (s : vstate F) (fd : nat) : bool :=
  match t_files (current_task s) !! fd with
  | Some p => negb (p =? 0) && Z.testbit (t_close_on_exec (current_task s)) (Z.of_nat fd)
  | None => false
  end.
(** Their files, below [n]: each is shared with another process and none is
    there twice. *)
Record shared_below (n : nat) (s : vstate F) : Prop := {
  sh_table : fds_ok s;
  sh_refs fd p : (fd < n)%nat -> marked s fd = true -> t_files (current_task s) !! fd = Some p ->
    exists f, files s !! p = Some f /\ 2 <= f_count f < 4294967296;
  sh_once fd fd' p : (fd < n)%nat -> (fd' < n)%nat -> marked s fd = true -> marked s fd' = true ->
    t_files (current_task s) !! fd = Some p -> t_files (current_task s) !! fd' = Some p -> fd = fd' }.

Lemma close_step s n p f : fds_ok s -> (n < 32)%nat ->
  let s' := set_files (<[p := f]> (files s)) (set_task (task_with_fd (Z.of_nat n) 0 (close_cloexec (Z.of_nat n) (current_task s))) s) in
  fds_ok s' /\ t_files (current_task s') = <[n := 0]> (t_files (current_task s)) /\
  forall fd, (fd <> n)%nat -> marked s' fd = marked s fd.
Proof.
  intros Hl Hn s'. cbn. rewrite Nat2Z.id. unfold fds_ok in *. split; [cbn; by rewrite Nat2Z.id, length_insert|]. split; [done|].
  intros fd Hne. unfold marked. cbn. rewrite Nat2Z.id, list_lookup_insert_ne by done.
  destruct (t_files (current_task s) !! fd) as [q|]; [|done]. f_equal.
  rewrite Z.land_spec, Z.lnot_spec, Z.shiftl_spec by lia. rewrite <- (Z.pow_0_r 2), Z.pow2_bits_false by lia. by rewrite andb_true_r.
Qed.

(** What closing the marked descriptors below [n] does. *)
Record closed_below (n : nat) (s s' : vstate F) : Prop := {
  cl_vnodes : vnodes s' = vnodes s;
  cl_table fd : t_files (current_task s') !! fd =
    if bool_decide (fd < n)%nat && marked s fd then Some 0 else t_files (current_task s) !! fd;
  cl_files p f : files s !! p = Some f -> files s' !! p = Some f \/
    exists fd, (fd < n)%nat /\ marked s fd = true /\ t_files (current_task s) !! fd = Some p /\
      files s' !! p = Some (with_refs f (f_count f - 1)) }.

Lemma closed_skip n s s' : marked s n = false -> closed_below n s s' -> closed_below (S n) s s'.
Proof.
  intros Hm [Hv Ht Hf]. split; [done| |].
  - intros fd. rewrite Ht. destruct (decide (fd = n)) as [->|]; [by rewrite Hm, !andb_false_r|].
    by rewrite (bool_decide_ext (fd < S n)%nat (fd < n)%nat) by lia.
  - intros p f Hp. destruct (Hf p f Hp) as [|(fd & ? & ? & ?)]; [by left|right]. exists fd. split; [lia|done].
Qed.

Lemma closed_one n s s' p f : shared_below (S n) s -> (n < 32)%nat -> marked s n = true -> t_files (current_task s) !! n = Some p ->
  files s !! p = Some f ->
  let s1 := set_files (<[p := with_refs f (f_count f - 1)]> (files s))
    (set_task (task_with_fd (Z.of_nat n) 0 (close_cloexec (Z.of_nat n) (current_task s))) s) in
  closed_below n s1 s' -> closed_below (S n) s s'.
Proof.
  intros [Hl _ Ho] Hn Hm Hp Hf s1 [Hv Ht Hfs]. destruct (close_step s n p (with_refs f (f_count f - 1)) Hl Hn) as (_ & Ht1 & Hm1).
  fold s1 in Ht1, Hm1. split; [by rewrite Hv| |].
  - intros fd. rewrite Ht, Ht1. destruct (decide (fd = n)) as [->|Hne].
    + rewrite bool_decide_eq_false_2, bool_decide_eq_true_2, Hm by lia. cbn [andb]. apply list_lookup_insert_eq. unfold fds_ok in Hl. lia.
    + rewrite Hm1, list_lookup_insert_ne by done. by rewrite (bool_decide_ext (fd < S n)%nat (fd < n)%nat) by lia.
  - intros q g Hq. destruct (decide (q = p)) as [->|Hne].
    + simplify_eq. right. exists n. split_and!; [lia|done|done|].
      destruct (Hfs p (with_refs f (f_count f - 1))) as [H1|(fd & Hfd & Mfd & Tfd & _)]; [cbn; by rewrite lookup_insert_eq|done|].
      rewrite Hm1 in Mfd by lia. rewrite Ht1, list_lookup_insert_ne in Tfd by lia.
      pose proof (Ho fd n p ltac:(lia) ltac:(lia) Mfd Hm Tfd Hp). lia.
    + destruct (Hfs q g) as [|(fd & Hfd & Mfd & Tfd & Hg)]; [cbn; by rewrite lookup_insert_ne|by left|right].
      rewrite Hm1 in Mfd by lia. rewrite Ht1, list_lookup_insert_ne in Tfd by lia. exists fd. split; [lia|done].
Qed.

Lemma close_marked_run n : (n <= 32)%nat -> forall s, shared_below n s ->
  exists s', close_marked n s = Ok (tt, s') /\ closed_below n s s'.
Proof.
  induction n as [|n IH]; intros Hn s Hs; [exists s; split; [done|split; [done|done|by left]]|]. pose proof Hs as [Hl Hr Ho].
  destruct (lookup_lt_is_Some_2 (t_files (current_task s)) n) as [p Hp]; [unfold fds_ok in Hl; lia|].
  cbn [close_marked]. rewrite (bind_step _ _ _ _ _ (get_fd_Ok s (Z.of_nat n) p ltac:(by rewrite Nat2Z.id) ltac:(lia))).
  unfold bind at 1, gets.
  assert (Hm : negb (p =? 0) && Z.testbit (t_close_on_exec (current_task s)) (Z.of_nat n) = marked s n) by (unfold marked; by rewrite Hp).
  rewrite Hm. destruct (marked s n) eqn:Em.
  - destruct (Hr n p ltac:(lia) Em Hp) as (f & Hf & Hc). assert (Hp0 : p <> 0) by lia.
    pose proof (sys_close_shared s (Z.of_nat n) p f Hl ltac:(lia) ltac:(by rewrite Nat2Z.id) Hp0 Hf Hc) as E.
    destruct (close_step s n p (with_refs f (f_count f - 1)) Hl ltac:(lia)) as (Hl1 & Ht1 & Hm1). set (s1 := set_files _ _) in *.
    rewrite (bind_step _ _ _ tt s1) by (unfold bind; by rewrite E).
    destruct (IH ltac:(lia) s1) as (s' & E' & C); [split; [done| |]|exists s'; split; [done|by apply (closed_one n s s' p f)]].
    + intros fd q Hfd Hmk Hq. rewrite Hm1 in Hmk by lia. rewrite Ht1, list_lookup_insert_ne in Hq by lia.
      destruct (Hr fd q ltac:(lia) Hmk Hq) as (g & Hg & Hgc). exists g. split; [|done]. cbn.
      rewrite lookup_insert_ne; [done|]. intros ->. pose proof (Ho fd n q ltac:(lia) ltac:(lia) Hmk Em Hq Hp). lia.
    + intros fd fd' q H1 H2 M1 M2 Q1 Q2. rewrite Hm1 in M1, M2 by lia. rewrite Ht1, list_lookup_insert_ne in Q1, Q2 by lia.
      apply (Ho fd fd' q); [lia|lia|done..].
  - cbn [bind ret]. destruct (IH ltac:(lia) s) as (s' & E' & C); [|exists s'; split; [exact E'|by apply closed_skip]].
    split; [done| |]; [intros fd q Hfd; apply Hr; lia|intros fd fd' q H1 H2; apply Ho; lia].
Qed.

(** ** Properties *)


(** A file that is not a program is refused with [ENOEXEC] only after the new
    stack has been written: the caller keeps its registers and runs on, but
    the top of its stack holds the arguments of the program that was not
    started. *)
Theorem sys_execve_enoexec_overwrites x file argv envp status path strs o node st img s1 s2 s3 r e :
  request x file argv envp status path strs o node st img s1 s2 ->
  load_elf true true (with_image img (x_proc x)) = Ok (r, e, with_image img (x_proc x)) -> r <> 0 ->
  iput node s2 = Ok (tt, s3) ->
  let esp := USER_STACK_POS - stack_size strs o in
  exists args envs p,
    sys_execve garbage fresh file argv envp status x = Ok (- ENOEXEC, XState s3 p (glob_regs x) (x_interrupts x)) /\
    word garbage p esp (Z.of_nat (length strs)) /\ word garbage p (esp + 4) args /\ word garbage p (esp + 8) envs /\
    vector garbage p args strs /\ opt_vector garbage p envs o.
Proof.
  intros Hrq Hload Hr Hput esp.
  destruct (sys_execve_stack _ _ _ _ _ _ _ _ _ _ _ _ _ Hrq) as (args & envs & p & W0 & W4 & W8 & V & O & S & E).
  fold esp in W0, W4, W8, V, O, S, E. exists args, envs, p. rewrite E. clear E. split_and!; [|done..| |].
  - apply (load_pretend_image _ p) in Hload; [|by destruct S as (_ & -> & _)].
    unfold bind at 1. unfold load_program. rewrite (on_proc_step _ _ _ _ _ _ _ _ Hload).
    replace (r =? 0) with false by lia. cbn [negb]. unfold ret. by rewrite (on_vfs_step _ _ _ _ _ _ _ _ Hput).
  - by apply (vector_of_clear garbage 0 esp).
  - destruct o as [es|]; [|exact O]. by apply (vector_of_clear garbage 0 esp).
Qed.

End execve.

(** ** A concrete program: a file of one segment, in the caller's directory *)

Definition exec_image : list Z :=
  [127; 69; 76; 70; 1; 1; 1] ++ replicate 9 0 ++ [2; 0; 3; 0; 1; 0; 0; 0; 0; 0; 0; 8; 52; 0; 0; 0] ++ replicate 10 0 ++
  [32; 0; 1; 0; 0; 0; 0; 0; 0; 0] ++ [1; 0; 0; 0; 84; 0; 0; 0; 0; 0; 0; 8; 0; 0; 0; 8; 4; 0; 0; 0; 4; 0; 0; 0] ++ replicate 8 0 ++
  [144; 144; 205; 128].

Definition exec_read (bytes : list Z) (node offset sz : Z) : M (vstate unit) (Z * list Z) :=
  ret (Z.of_nat (length bytes), bytes).
#[local] Instance exec_fs : FsOps unit := {
  iop_at a :=
    if a =? 300 then Some (InodeOperations (Some (FileOperations None (Some (exec_read exec_image)) None None None None None)) None)
    else if a =? 301 then Some (InodeOperations (Some (FileOperations None (Some (exec_read (replicate 88 35))) None None None None None)) None)
    else None;
  sop_at _ := None;
  read_super _ _ _ := ret 0 }.

Definition exec_task : task_fs := TaskFs 0 0 0 0 500 500 8 (<[3%nat := 600]> (replicate 32 0)).
Definition exec_vfs (op : Z) : vstate unit :=
  VState {[ 500 := Vnode 2 1 1 0 0 511 FS_FILE 88 0 0 0 1 0 op 0 0 0 ]} ∅ {[ 600 := File 3 FMODE_READ 500 0 2 ]} ∅ [] ∅ [] 500 900
    exec_task tt.
Definition exec_memory : gmap Z Z :=
  list_to_map (zip (seqZ 0x2000 48)
    ([46; 0] ++ replicate 14 0 ++ [0x20; 0x20; 0; 0; 0x24; 0x20; 0; 0] ++ replicate 8 0 ++ [97; 0; 0; 0; 98; 99; 0] ++ replicate 9 0)).
Definition exec_proc : proc := Proc exec_memory [0x2000] [].
Definition exec_sample (op : Z) : xstate unit := XState (exec_vfs op) exec_proc (Some (0x1111, 0x2222)) true.
Definition no_garbage (a : Z) : Z := 170.
Definition exec_fresh (n : Z) : list Z := replicate (Z.to_nat n) 170.
Definition state_of {A S} (r : res (A * S)) (s : S) : S := match r with Ok (_, s) => s | _ => s end.

Ltac at_byte := split; [vm_compute; reflexivity|vm_compute; reflexivity].
Ltac in_range := split_and?; vm_compute; (reflexivity || discriminate).
Ltac at_word := split; [in_range|split; [in_range|split; [in_range|split_and!; at_byte]]].
Ltac at_string := split_and!;
  [in_range|in_range|repeat constructor; lia|
   let k := fresh in let c := fresh in let Hk := fresh in intros k c Hk;
   repeat (destruct k as [|k]; [injection Hk as <-; at_byte|]); discriminate Hk].

Definition exec_strs : list (list Z) := [[97]; [98; 99]].

Lemma exec_argv_clear : vector_clear no_garbage (USER_STACK_POS - stack_size exec_strs None) USER_STACK_POS exec_proc 0x2010 exec_strs.
Proof.
  exists [0x2020; 0x2024]. split; [split; [done|]|split; [|split_and!; [at_word|in_range|by left]]].
  - intros [|[|i]] w s Hw Hs; [| |discriminate Hw]; injection Hw as <-; injection Hs as <-.
    + split_and!; [lia|at_word|at_string].
    + split_and!; [lia|at_word|at_string].
  - intros [|[|i]] w s Hw Hs; [| |discriminate Hw]; injection Hw as <-; injection Hs as <-; split; left; vm_compute; discriminate.
Qed.

Definition found (op : Z) : vstate unit := state_of (namei (Some [46; 0]) 7 (exec_vfs op)) (exec_vfs op).

Lemma exec_request op img : op = 300 /\ img = exec_image \/ op = 301 /\ img = replicate 88 35 ->
  request no_garbage exec_fresh (exec_sample op) 0x2000 0x2010 0 7 [46] exec_strs None 500 0 img (found op) (found op).
Proof.
  intros Hop. split.
  - lia.
  - at_string.
  - destruct Hop as [[-> _]|[-> _]]; vm_compute; reflexivity.
  - lia.
  - destruct Hop as [[-> ->]|[-> ->]]; unfold reads; do 7 eexists; (split_and!; vm_compute; reflexivity).
  - vm_compute. discriminate.
  - exact exec_argv_clear.
  - done.
Qed.

Lemma exec_loadable : loadable (USER_STACK_POS - stack_size exec_strs None) exec_image 0x08000000.
Proof.
  eexists. split; [vm_compute; reflexivity|]. split; [vm_compute; reflexivity|]. split; [reflexivity|].
  cbn [e_phnum e_phoff e_phentsize]. intros i Hi. assert (i = 0) as -> by lia.
  eexists. split; [vm_compute; reflexivity|]. cbn. split; [discriminate|]. split; [discriminate|]. intros _.
  split_and!; [lia|lia|lia|vm_compute; discriminate|]. eexists. vm_compute. reflexivity.
Qed.

Lemma exec_shared : shared_below 32 (found 300).
Proof.
  assert (Hm : forall fd, (fd < 32)%nat -> marked (found 300) fd = true -> fd = 3%nat).
  { intros fd Hfd. do 32 (destruct fd as [|fd]; [vm_compute; (discriminate || reflexivity)|]). lia. }
  split.
  - vm_compute. reflexivity.
  - intros fd p Hfd Hmk Hp. apply Hm in Hmk as ->; [|done]. vm_compute in Hp. injection Hp as <-.
    eexists. split; [vm_compute; reflexivity|]. cbn. lia.
  - intros fd fd' p H1 H2 M1 M2 _ _. apply Hm in M1 as ->; [|done]. by apply Hm in M2 as ->.
Qed.


Lemma sys_execve_enoexec_overwrites_witness : exists x',
  sys_execve no_garbage exec_fresh 0x2000 0x2010 0 7 (exec_sample 301) = Ok (- ENOEXEC, x') /\
  glob_regs x' = Some (0x1111, 0x2222) /\ word no_garbage (x_proc x') 0x7FFFFFE3 2.
Proof.
  destruct (sys_execve_enoexec_overwrites no_garbage exec_fresh (exec_sample 301) 0x2000 0x2010 0 7 [46] exec_strs None 500 0
    (replicate 88 35) (found 301) (found 301) (found 301) LOAD_ELF_NOELF None
    (exec_request 301 (replicate 88 35) (or_intror (conj eq_refl eq_refl)))) as (args & envs & p & H & W & _).
  - vm_compute. reflexivity.
  - discriminate.
  - vm_compute. reflexivity.
  - eexists. split; [exact H|]. split; [reflexivity|exact W].
Defined.

(** Where the strings of the new vector lie in the bytes of the new stack they
    may be overwritten before they are read: a program with the arguments [cd]
    and [ab] that exchanges them starts its successor with [cd] twice. *)
Definition own_stack : proc :=
  Proc (list_to_map (zip (seqZ 0x7FFFFFFA 6) [99; 100; 0; 97; 98; 0] ++
    zip (seqZ 0x2010 12) [0xFD; 0xFF; 0xFF; 0x7F; 0xFA; 0xFF; 0xFF; 0x7F; 0; 0; 0; 0])) [0x7FFFF000; 0x2000] [].
Definition own_strings : list (res (list Z)) :=
  match make_new_stack no_garbage 0x2010 0 USER_STACK_POS own_stack with
  | Ok (esp, p) =>
      map (fun i => match (let! argv := rd32 no_garbage (esp + 4) in let! w := rd32 no_garbage (argv + 4 * i) in
                           string_from no_garbage 9 w) p with Ok (s, _) => Ok s | Fault => Fault | Fuel => Fuel end) [0; 1]
  | _ => []
  end.
Theorem make_new_stack_overlap_garbles :
  map (fun a => match string_from no_garbage 9 a own_stack with Ok (s, _) => s | _ => [] end) [0x7FFFFFFD; 0x7FFFFFFA] = [lit "ab"; lit "cd"] /\
  own_strings = [Ok (lit "cd"); Ok (lit "cd")].
Proof. split; vm_compute; reflexivity. Qed.

(** Without a vector of arguments the loop that counts them reads the words
    from address 0 on. *)
Theorem make_new_stack_counts_at_null : exists p', 
  make_new_stack no_garbage 0 0 USER_STACK_POS (Proc (list_to_map (zip (seqZ 0 12) [1; 2; 3; 4; 5; 6; 7; 8; 0; 0; 0; 0])) [0; 0x7FFFF000] [])
    = Ok (USER_STACK_POS - 12, p') /\
  _start no_garbage (USER_STACK_POS - 12) p' = Ok ((2, 0, 0), p').
Proof. eexists. split; [vm_compute; reflexivity|vm_compute; reflexivity]. Qed.
