(* ===== verification/Stack.v ===== *)
(** * Moving the boot stack: [move_stack] of [src/src/kernel/task.c]

    The stack the boot loader left lies in the kernel's pages, which every
    process shares.  [move_stack] copies it to pages of the process's own and
    moves every word of the copy that looks like an address into the old stack.
    Memory is that of [Exec]. *)
From S2P Require Import Prelude CString Abi Paging Elf Exec.
Open Scope nup_scope.

Section stack.
Context (garbage : Z -> Z).
Implicit Types p : proc.
Local Abbreviation PM := (M proc).

(** [memcpy] on memory. *)
Fixpoint memcpy_from (count : nat) (tmp source : Z) : PM unit :=
  match count with
  | O => ret tt
  | S count => let! b := rd8 garbage source in do! wr8 tmp b; memcpy_from count (u32 (tmp + 1)) (u32 (source + 1))
  end.

(** The loop from the top of the new stack down to [bottom]. *)
Fixpoint relocate (fuel : nat) (i bottom old_esp initial_esp offset : Z) : PM unit :=
  match fuel with
  | O => nofuel
  | S fuel =>
      if bottom <? i then
        let! tmp := rd32 garbage i in
        do! (if (old_esp <? tmp) && (tmp <? initial_esp) then wr32 i (u32 (tmp + offset)) else ret tt);
        relocate fuel (u32 (i - 4)) bottom old_esp initial_esp offset
      else ret tt
  end.

(** The registers [esp] and [ebp] before, and after. *)
Definition move_stack (new_stack size initial_esp old_esp old_ebp : Z) : PM (Z * Z) :=
  do! new_stack_from (S (S (Z.to_nat (size / FRAME_SIZE)))) new_stack new_stack size;
  let offset := u32 (new_stack - initial_esp) in
  let new_esp := u32 (old_esp + offset) in
  let new_ebp := u32 (old_ebp + offset) in
  do! memcpy_from (Z.to_nat (u32 (initial_esp - old_esp))) new_esp old_esp;
  do! relocate (S (Z.to_nat (size / 4))) new_stack (u32 (new_stack - size)) old_esp initial_esp offset;
  ret (new_esp, new_ebp).

(** ** Lemmas *)

Lemma memcpy_from_run n : forall dst src p, 0 <= src -> src + Z.of_nat n < 4294967296 -> 0 <= dst -> dst + Z.of_nat n < 4294967296 ->
  range_ok p src (src + Z.of_nat n) -> range_ok p dst (dst + Z.of_nat n) -> src + Z.of_nat n <= dst \/ dst + Z.of_nat n <= src ->
  exists p', memcpy_from n dst src p = Ok (tt, p') /\ same_outside dst (dst + Z.of_nat n) p p' /\
    forall k b, 0 <= k < Z.of_nat n -> byte garbage p (src + k) b -> byte garbage p' (dst + k) (u8 b).
Proof.
  induction n as [|n IH]; intros dst src p Hs Hs' Hd Hd' Rs Rd Hdis; cbn [memcpy_from].
  { exists p. split; [done|]. split; [apply same_outside_refl|]. lia. }
  assert (Hb : byte garbage p src (default (garbage src) (memory p !! src))) by (split; [apply Rs; lia|done]).
  rewrite (bind_step _ _ _ _ _ (rd8_run _ _ _ _ Hb)). set (b := default _ _) in *.
  destruct (wr8_run garbage p dst b (Rd dst ltac:(lia))) as (E & B & S1). rewrite (bind_step _ _ _ _ _ E). set (p1 := write_byte _ _ p) in *.
  destruct n as [|n].
  { exists p1. split; [done|]. split; [eapply (same_outside_mono garbage); [exact S1|lia|lia]|].
    intros k c Hk Hc. replace k with 0 in * by lia. rewrite Z.add_0_r in *. destruct Hb as [_ Hb], Hc as [_ Hc]. by replace c with b by congruence. }
  rewrite !u32_id by lia.
  destruct (IH (dst + 1) (src + 1) p1) as (p' & E' & S' & Hc'); [lia..| | |lia|].
  { eapply range_same; [exact S1|]. intros a Ha. apply Rs. lia. }
  { eapply range_same; [exact S1|]. intros a Ha. apply Rd. lia. }
  exists p'. split; [done|]. split.
  { eapply same_outside_trans; (eapply (same_outside_mono garbage); [eassumption|lia|lia]). }
  intros k c Hk Hc. destruct (Z.eq_dec k 0) as [->|Hk0].
  - rewrite Z.add_0_r in *. replace c with b by (destruct Hb as [_ Hb], Hc as [_ Hc]; congruence). eapply byte_same; [exact S'|lia|done].
  - replace (dst + k) with (dst + 1 + (k - 1)) by lia. apply Hc'; [lia|]. replace (src + 1 + (k - 1)) with (src + k) by lia.
    eapply byte_same; [exact S1|lia|done].
Qed.

Lemma rd32_total p a : 0 <= a -> a + 4 < 4294967296 -> range_ok p a (a + 4) -> exists v, rd32 garbage a p = Ok (v, p).
Proof.
  intros Ha Ha' Hr. assert (Hb : forall x, a <= x < a + 4 -> byte garbage p x (default (garbage x) (memory p !! x))) by (intros x Hx; split; [apply Hr; lia|done]).
  unfold rd32. rewrite !u32_id by lia.
  rewrite (bind_step _ _ _ _ _ (rd8_run _ _ _ _ (Hb a ltac:(lia)))), (bind_step _ _ _ _ _ (rd8_run _ _ _ _ (Hb (a + 1) ltac:(lia)))),
    (bind_step _ _ _ _ _ (rd8_run _ _ _ _ (Hb (a + 2) ltac:(lia)))), (bind_step _ _ _ _ _ (rd8_run _ _ _ _ (Hb (a + 3) ltac:(lia)))).
  by eexists.
Qed.

(** A word of the stack after the move. *)
Definition moved (old_esp initial_esp offset w : Z) : Z := if (old_esp <? w) && (w <? initial_esp) then u32 (w + offset) else w.

Lemma relocate_run old_esp initial_esp offset n : forall i bottom p, 0 <= bottom -> i = bottom + 4 * Z.of_nat n -> i + 4 < 4294967296 ->
  range_ok p (bottom + 4) (i + 4) ->
  exists p', relocate (S n) i bottom old_esp initial_esp offset p = Ok (tt, p') /\ same_outside (bottom + 4) (i + 4) p p' /\
    forall a w, bottom < a <= i -> (i - a) mod 4 = 0 -> word garbage p a w -> word garbage p' a (moved old_esp initial_esp offset w).
Proof.
  induction n as [|n IH]; intros i bottom p Hb Hi Hi' Hr; cbn [relocate].
  { replace (bottom <? i) with false by lia. exists p. split; [done|]. split; [apply same_outside_refl|]. lia. }
  replace (bottom <? i) with true by lia. destruct (rd32_total p i) as [v Hv]; [lia|lia|intros a Ha; apply Hr; lia|].
  rewrite (bind_step _ _ _ _ _ Hv).
  assert (H1 : exists p1, (if (old_esp <? v) && (v <? initial_esp) then wr32 i (u32 (v + offset)) else ret tt) p = Ok (tt, p1) /\
    same_outside i (i + 4) p p1 /\ forall w, word garbage p i w -> word garbage p1 i (moved old_esp initial_esp offset w)).
  { destruct (_ && _) eqn:Ev.
    - destruct (wr32_run garbage p i (u32 (v + offset))) as (p1 & E1 & W1 & S1); [lia|lia|apply u32_range|intros a Ha; apply Hr; lia|].
      exists p1. split; [done|]. split; [done|]. intros w Hw. pose proof (rd32_run _ _ _ _ Hw) as Hw'. rewrite Hv in Hw'. injection Hw' as ->.
      unfold moved. by rewrite Ev.
    - exists p. split; [done|]. split; [apply same_outside_refl|]. intros w Hw. pose proof (rd32_run _ _ _ _ Hw) as Hw'. rewrite Hv in Hw'. injection Hw' as ->.
      unfold moved. by rewrite Ev. }
  destruct H1 as (p1 & E1 & S1 & W1). rewrite (bind_step _ _ _ _ _ E1), u32_id by lia.
  destruct (IH (i - 4) bottom p1) as (p' & E' & S' & W'); [lia|lia|lia| |].
  { eapply range_same; [exact S1|]. intros a Ha. apply Hr. lia. }
  exists p'. split; [exact E'|]. split.
  { eapply same_outside_trans; (eapply (same_outside_mono garbage); [eassumption|lia|lia]). }
  intros a w Ha Hmod Hw. destruct (Z.eq_dec a i) as [->|Hai].
  - eapply word_same; [exact S'|lia|]. by apply W1.
  - apply W'; [lia|lia|]. eapply word_same; [exact S1|lia|done].
Qed.

(** One page of the new stack, and the pages it takes. *)
Lemma new_stack_step fuel i pos size p : new_stack_from (S fuel) i pos size p =
  if u32 (pos - size) <=? i then new_stack_from fuel (u32 (i - FRAME_SIZE)) pos size (Proc (memory p) (i :: pages p) (image p)) else Ok (tt, p).
Proof. cbn [new_stack_from]. by case_match. Qed.

Lemma page_added i p : i mod FRAME_SIZE = 0 ->
  same_outside 0 0 p (Proc (memory p) (i :: pages p) (image p)) /\ range_ok (Proc (memory p) (i :: pages p) (image p)) i (i + FRAME_SIZE).
Proof.
  unfold FRAME_SIZE. intros Hm. split.
  - split_and!; [|done..]. intros a Ha. apply bool_decide_eq_true in Ha. apply bool_decide_eq_true. cbn [pages]. set_solver.
  - intros a Ha. apply bool_decide_eq_true. unfold page_of, FRAME_SIZE. cbn [pages]. replace (a / 4096 * 4096) with i by lia. set_solver.
Qed.

Lemma new_stack_pages pos size n : forall i p, pos < 4294967296 -> pos mod FRAME_SIZE = 0 -> size mod FRAME_SIZE = 0 ->
  i = pos - size + FRAME_SIZE * Z.of_nat n -> i <= pos -> FRAME_SIZE <= pos - size ->
  exists p', new_stack_from (S (S n)) i pos size p = Ok (tt, p') /\ same_outside 0 0 p p' /\ range_ok p' (pos - size) (i + FRAME_SIZE).
Proof.
  induction n as [|n IH]; intros i p Hp Hm Hs Hi Hle Hpos;
    destruct (page_added i p) as (S1 & R1); [unfold FRAME_SIZE in *; lia| |unfold FRAME_SIZE in *; lia|];
    rewrite new_stack_step; unfold FRAME_SIZE in *; rewrite (u32_id (pos - size)), (u32_id (i - 4096)) by lia; replace (pos - size <=? i) with true by lia.
  - rewrite new_stack_step, u32_id by lia. replace (pos - size <=? i - 4096) with false by lia. eexists. split; [reflexivity|]. split; [done|].
    by replace (pos - size) with i by lia.
  - destruct (IH (i - 4096) (Proc (memory p) (i :: pages p) (image p))) as (p' & E & S' & R'); [lia..|].
    exists p'. split; [done|]. split; [by eapply same_outside_trans|].
    intros a Ha. destruct (Z_lt_ge_dec a i) as [|Hge]; [apply R'; lia|]. eapply range_same; [exact S'|exact R1|lia].
Qed.

Lemma memcpy_words n dst src p p' :
  (forall k b, 0 <= k < Z.of_nat n -> byte garbage p (src + k) b -> byte garbage p' (dst + k) (u8 b)) -> 0 <= dst -> dst + Z.of_nat n < 4294967296 ->
  forall k w, 0 <= k -> k + 4 <= Z.of_nat n -> word garbage p (src + k) w -> word garbage p' (dst + k) w.
Proof.
  intros Hc Hd Hd' k w Hk Hk' (H0 & H1 & H2 & B0 & B1 & B2 & B3). rewrite <- !(Z.add_assoc src) in B1, B2, B3.
  apply Hc in B0, B1, B2, B3; [|lia..]. rewrite u8_id in B0, B1, B2, B3 by apply u8_range. rewrite !Z.add_assoc in B1, B2, B3.
  split_and!; (done || lia).
Qed.

(** C29: the stack the boot loader left is moved: after [move_stack] every word
    of the old stack lies at the same distance from the top of the new one,
    those that are addresses above the old stack pointer and below the old top
    moved by the same offset, as are [esp] and [ebp]; the old stack is as it
    was, and nothing outside the new stack is written. *)
Theorem move_stack_relocates new_stack size initial_esp old_esp old_ebp p :
  let offset := new_stack - initial_esp in
  new_stack mod FRAME_SIZE = 0 -> size mod FRAME_SIZE = 0 -> FRAME_SIZE <= new_stack - size -> new_stack + FRAME_SIZE < 4294967296 ->
  0 <= old_esp <= initial_esp -> initial_esp - old_esp < size -> initial_esp <= new_stack - size ->
  range_ok p old_esp initial_esp ->
  exists p', move_stack new_stack size initial_esp old_esp old_ebp p = Ok ((old_esp + offset, u32 (old_ebp + offset)), p') /\
    same_outside (new_stack - size) (new_stack + 4) p p' /\ range_ok p' (new_stack - size) (new_stack + FRAME_SIZE) /\
    forall a w, old_esp <= a -> a + 4 <= initial_esp -> (initial_esp - a) mod 4 = 0 -> word garbage p a w ->
      word garbage p' a w /\ word garbage p' (a + offset) (moved old_esp initial_esp offset w).
Proof.
  intros offset Hm Hs Hlow Htop Hesp Hsz Hdis Hr. unfold FRAME_SIZE in Hm, Hs, Hlow, Htop. unfold move_stack.
  destruct (new_stack_pages new_stack size (Z.to_nat (size / FRAME_SIZE)) new_stack p) as (p1 & E1 & S1 & R1); unfold FRAME_SIZE in *; [lia..|].
  rewrite (bind_step _ _ _ _ _ E1), (u32_id (new_stack - initial_esp)), (u32_id (initial_esp - old_esp)), (u32_id (new_stack - size)) by lia.
  fold offset. rewrite (u32_id (old_esp + offset)) by lia.
  destruct (memcpy_from_run (Z.to_nat (initial_esp - old_esp)) (old_esp + offset) old_esp p1) as (p2 & E2 & S2 & C2); [lia..| | |lia|].
  { eapply range_same; [exact S1|]. intros a Ha. apply Hr. lia. }
  { intros a Ha. apply R1. lia. }
  rewrite (bind_step _ _ _ _ _ E2).
  destruct (relocate_run old_esp initial_esp offset (Z.to_nat (size / 4)) new_stack (new_stack - size) p2) as (p3 & E3 & S3 & W3); [lia..| |].
  { eapply range_same; [exact S2|]. intros a Ha. apply R1. lia. }
  rewrite (bind_step _ _ _ _ _ E3). exists p3. split; [done|]. split; [|split].
  { eapply same_outside_trans; [|eapply (same_outside_mono garbage); [exact S3|lia|lia]].
    eapply same_outside_trans; [|eapply (same_outside_mono garbage); [exact S2|lia|lia]].
    destruct S1 as (A1 & I1 & M1). split_and!; [done..|]. intros a _. apply M1. lia. }
  { eapply range_same; [exact S3|]. eapply range_same; [exact S2|]. done. }
  intros a w Ha Ha' Hmod Hw. assert (Hw1 : word garbage p1 a w) by (eapply word_same; [exact S1|lia|done]). split.
  - eapply word_same; [exact S3|lia|]. eapply word_same; [exact S2|lia|done].
  - apply W3; [lia|lia|]. replace (a + offset) with (old_esp + offset + (a - old_esp)) by lia.
    eapply memcpy_words; [exact C2|lia..|]. by replace (old_esp + (a - old_esp)) with a by lia.
Qed.
End stack.

(** A stack of two words, the second's address in the first. *)
Definition small_stack : proc := Proc (list_to_map (zip (seqZ 0x8FF8 8) [0xFC; 0x8F; 0; 0; 7; 0; 0; 0])) [0x8000] [].

Lemma move_stack_relocates_witness : exists p',
  move_stack (fun _ => 0) 0xE0000000 0x2000 0x9000 0x8FF8 0x8FF8 small_stack = Ok ((0xDFFFFFF8, 0xDFFFFFF8), p') /\
  word (fun _ => 0) p' 0xDFFFFFF8 0xDFFFFFFC /\ word (fun _ => 0) p' 0xDFFFFFFC 7.
Proof.
  destruct (move_stack_relocates (fun _ => 0) 0xE0000000 0x2000 0x9000 0x8FF8 0x8FF8 small_stack) as (p' & E & _ & _ & W);
    [reflexivity|reflexivity|done|done|done|done|done| |].
  { intros a Ha. apply bool_decide_eq_true. unfold page_of, FRAME_SIZE. replace (a / 4096 * 4096) with 0x8000 by lia. apply list_elem_of_here. }
  exists p'. split; [exact E|]. split.
  - refine (proj2 (W 0x8FF8 0x8FFC _ _ _ _)); [done..|]. repeat split; vm_compute; (reflexivity || discriminate).
  - refine (proj2 (W 0x8FFC 7 _ _ _ _)); [done..|]. repeat split; vm_compute; (reflexivity || discriminate).
Defined.
