(* ===== verification/Ktext.v ===== *)
(** * Kernel console output: [src/src/kernel/ktextio.c]

    The console used before there are terminals: the text memory of the video
    card from [0xB8000] on, the cursor and the cursor registers, and [printf],
    which formats into an array of [STRLEN] characters and passes it to
    [ktexto]: to [_kout] until [tty.c] installs its own function. *)
From S2P Require Import Prelude CString Vsprintf.
Open Scope nup_scope.

Definition STRLEN : Z := 255.
Definition TXT_COL_WHITE : Z := 0x07.
Definition TXT_WIDTH : Z := 80.
Definition TXT_HEIGHT : Z := 25.
Definition TAB_WIDTH : Z := 8.

(** The text memory, [_cursor_pos], and the port writes, the last one first. *)
Record kcons := KCons { kmem : list Z; kx : Z; ky : Z; kports : list (Z * Z) }.

Local Abbreviation KM := (M kcons).

Definition kout_port (port value : Z) : KM unit :=
  modify (fun k => KCons (kmem k) (kx k) (ky k) ((port, u8 value) :: kports k)).

Definition _ksetcursor (x y : Z) : KM Z :=
  let program x y :=
    let y := if TXT_HEIGHT <? y then 0 else y in
    let y := if y =? TXT_HEIGHT then u8 (y - 1) else y in
    let position := u16 (y * TXT_WIDTH + x) in
    do! kout_port 0x3D4 0x0F;
    do! kout_port 0x3D5 (u16 (Z.land position 0xFF));
    do! kout_port 0x3D4 0x0E;
    do! kout_port 0x3D5 (u16 (Z.land (Z.shiftr position 8) 0xFF));
    do! modify (fun k => KCons (kmem k) x y (kports k));
    ret 0 in
  let second x y :=
    if TXT_WIDTH <? x then if y =? 0 then ret 0 else program (TXT_WIDTH - 1) (u8 (y - 1)) else program x y in
  if x =? TXT_WIDTH then if y =? TXT_HEIGHT - 1 then ret 0 else second 0 (u8 (y + 1)) else second x y.

(** [for (i = i0; i < 2 * TXT_HEIGHT * TXT_WIDTH; i++) mem[i] = mem[i + d];] *)
Fixpoint pull (n : nat) (i d : Z) (mem : list Z) : option (list Z) :=
  match n with
  | O => Some mem
  | S n => c ← aget mem (i + d); mem ← aset mem i c; pull n (i + 1) d mem
  end.
Definition pull_from (i d : Z) (mem : list Z) : option (list Z) :=
  pull (Z.to_nat (2 * TXT_HEIGHT * TXT_WIDTH - i)) i d mem.

(** Cells with a blank, from [i] on. *)
Fixpoint blank (n : nat) (i : Z) (mem : list Z) : option (list Z) :=
  match n with
  | O => Some mem
  | S n => mem ← aset mem i 32; mem ← aset mem (i + 1) TXT_COL_WHITE; blank n (i + 2) mem
  end.

Definition _kclear : KM Z :=
  do! upd_or_fault (fun k => mem ← blank (Z.to_nat (TXT_WIDTH * TXT_HEIGHT)) 0 (kmem k); Some (KCons mem (kx k) (ky k) (kports k)));
  do! _ksetcursor 0 0;
  ret 0.

(** [memcpy] of a row to the one before. *)
Definition copy_row (y : Z) (mem : list Z) : option (list Z) :=
  let dst := 2 * (y * TXT_WIDTH) in
  app (take (Z.to_nat dst) mem) <$>
    memcpy (drop (Z.to_nat dst) mem) (drop (Z.to_nat (2 * ((y + 1) * TXT_WIDTH))) mem) (Z.to_nat (2 * TXT_WIDTH)).
Fixpoint copy_rows (n : nat) (y : Z) (mem : list Z) : option (list Z) :=
  match n with O => Some mem | S n => mem ← copy_row y mem; copy_rows n (y + 1) mem end.
Definition kscroll (mem : list Z) : option (list Z) :=
  mem ← copy_rows (Z.to_nat (TXT_HEIGHT - 1)) 0 mem;
  blank (Z.to_nat TXT_WIDTH) (2 * ((TXT_HEIGHT - 1) * TXT_WIDTH)) mem.

(** The [switch] of [_kout]; [x] and [y] are [UCHAR]. *)
Definition kchar (c x y : Z) (mem : list Z) : option (Z * Z * list Z) :=
  if c =? 10 then mem ← pull_from (2 * ((y + 1) * TXT_WIDTH)) (2 * x) mem; Some (0, u8 (y + 1), mem)
  else if c =? 13 then Some (0, y, mem)
  else if c =? 9 then Some (u8 (x + (TAB_WIDTH - x mod TAB_WIDTH) + 1), y, mem)
  else if c =? 8 then
    if (x =? 0) && (y =? 0) then Some (x, y, mem)
    else
      let '(x, y) := if x =? 0 then (TXT_WIDTH, u8 (y - 1)) else (x, y) in
      let x := u8 (x - 1) in
      mem ← pull_from (2 * (y * TXT_WIDTH + x)) 2 mem; Some (x, y, mem)
  else if c =? 11 then Some (x, u8 (y + 1), mem)
  else if c =? 12 then Some (x, u8 (y + 1), mem)
  else
    mem ← aset mem (2 * (y * TXT_WIDTH + x)) c;
    mem ← aset mem (2 * (y * TXT_WIDTH + x) + 1) TXT_COL_WHITE;
    Some (u8 (x + 1), y, mem).

(** One round of its loop. *)
Definition kround (c x y : Z) (mem : list Z) : option (Z * Z * list Z) :=
  '(x, y, mem) ← kchar c x y mem;
  let '(x, y) := if TXT_WIDTH <=? x then (u8 (x - TXT_WIDTH), u8 (y + 1)) else (x, y) in
  if TXT_HEIGHT <=? y then mem ← kscroll mem; Some (x, TXT_HEIGHT - 1, mem) else Some (x, y, mem).

Fixpoint kloop (output : list Z) (size : nat) (x y : Z) (mem : list Z) : option (Z * Z * list Z) :=
  match size with
  | O => Some (x, y, mem)
  | S size =>
      match output with
      | [] => None
      | c :: output => '(x, y, mem) ← kround c x y mem; kloop output size x y mem
      end
  end.

Definition _kout (size : Z) (output : list Z) : KM Z :=
  let! r := get_or_fault (fun k => kloop output (Z.to_nat size) (kx k) (ky k) (kmem k)) in
  let '(x, y, mem) := r in
  do! modify (fun k => KCons mem (kx k) (ky k) (kports k));
  do! _ksetcursor x y;
  ret 0.

(** ** Output through [ktexto] *)

Section ktexto.
Context {S : Type} (ktexto : Z -> list Z -> M S Z).

(** What is formatted behind the array overwrites the stack of [printf]. *)
Definition printf (fmt : list Z) (args : list va) : M S Z := fun s =>
  match vsprintf fmt args with
  | Ok (str, res, _) =>
      if STRLEN <? Z.of_nat (length str) then Fault
      else match strlen str with
           | Some n => match ktexto n str s with Ok (_, s) => Ok (res, s) | Fault => Fault | Fuel => Fuel end
           | None => Fault
           end
  | Fault => Fault
  | Fuel => Fuel
  end.

Definition sprintf (fmt : list Z) (args : list va) : res (list Z * Z) :=
  match vsprintf fmt args with Ok (str, res, _) => Ok (str, res) | Fault => Fault | Fuel => Fuel end.

Definition _kputc (chr : Z) : M S Z := ktexto 1 [chr].
Definition sys_putchar (chr : Z) : M S Z := do! _kputc chr; ret chr.

End ktexto.

(** ** Lemmas *)

(** The screen: its size in bytes, and states with the cursor on it.  The text
    memory of the card has 32 KB. *)
Definition SCREEN : Z := 4000.
Definition on_screen (k : kcons) : Prop := Z.of_nat (length (kmem k)) = 32768 /\ 0 <= kx k < TXT_WIDTH /\ 0 <= ky k < TXT_HEIGHT.

(** [mem'] differs from [mem] on the screen only. *)
Definition same_behind (mem mem' : list Z) : Prop :=
  length mem' = length mem /\ forall i, SCREEN <= Z.of_nat i -> mem' !! i = mem !! i.

Lemma same_behind_refl mem : same_behind mem mem.
Proof. done. Qed.
Lemma same_behind_trans m1 m2 m3 : same_behind m1 m2 -> same_behind m2 m3 -> same_behind m1 m3.
Proof. intros [H1 H2] [H3 H4]. split; [congruence|]. intros i Hi. by rewrite H4, H2. Qed.

Lemma aset_behind mem i c : 0 <= i < SCREEN -> SCREEN <= Z.of_nat (length mem) ->
  exists mem', aset mem i c = Some mem' /\ same_behind mem mem'.
Proof.
  intros Hi Hl. rewrite aset_Some by lia. eexists. split; [done|]. split; [apply length_insert|].
  intros k Hk. apply list_lookup_insert_ne. unfold SCREEN in *. lia.
Qed.

Lemma pull_behind n : forall i d mem, 0 <= i -> 0 <= d -> i + Z.of_nat n <= SCREEN -> SCREEN + d <= Z.of_nat (length mem) ->
  exists mem', pull n i d mem = Some mem' /\ same_behind mem mem'.
Proof.
  induction n as [|n IH]; intros i d mem Hi Hd Hn Hl; [by exists mem|]. cbn [pull].
  destruct (aget_Some mem (i + d)) as [c Hc]; [unfold SCREEN in *; lia|]. rewrite Hc. cbn [mbind option_bind].
  destruct (aset_behind mem i c) as (m1 & E1 & B1); [unfold SCREEN in *; lia|lia|]. rewrite E1. cbn [mbind option_bind].
  destruct (IH (i + 1) d m1) as (m2 & E2 & B2); [lia|lia|lia|destruct B1; lia|].
  exists m2. split; [done|by apply (same_behind_trans _ m1)].
Qed.

Lemma pull_from_behind i d mem : 0 <= i <= SCREEN -> 0 <= d -> SCREEN + d <= Z.of_nat (length mem) ->
  exists mem', pull_from i d mem = Some mem' /\ same_behind mem mem'.
Proof. intros Hi Hd Hl. apply pull_behind; unfold SCREEN, TXT_HEIGHT, TXT_WIDTH in *; lia. Qed.

Lemma blank_behind n : forall i mem, 0 <= i -> i + 2 * Z.of_nat n <= SCREEN -> SCREEN <= Z.of_nat (length mem) ->
  exists mem', blank n i mem = Some mem' /\ same_behind mem mem'.
Proof.
  induction n as [|n IH]; intros i mem Hi Hn Hl; [by exists mem|]. cbn [blank].
  destruct (aset_behind mem i 32) as (m1 & E1 & B1); [lia|lia|]. rewrite E1. cbn [mbind option_bind].
  destruct (aset_behind m1 (i + 1) TXT_COL_WHITE) as (m2 & E2 & B2); [lia|destruct B1; lia|]. rewrite E2. cbn [mbind option_bind].
  destruct (IH (i + 2) m2) as (m3 & E3 & B3); [lia|lia|destruct B1, B2; lia|].
  exists m3. split; [done|]. apply (same_behind_trans _ m1); [done|by apply (same_behind_trans _ m2)].
Qed.

Lemma copy_row_spec y mem : 0 <= y < TXT_HEIGHT - 1 -> SCREEN <= Z.of_nat (length mem) ->
  exists mem', copy_row y mem = Some mem' /\ length mem' = length mem /\
    forall i, mem' !! i = if (160 * y <=? Z.of_nat i) && (Z.of_nat i <? 160 * (y + 1)) then mem !! (i + 160)%nat else mem !! i.
Proof.
  intros Hy Hl. unfold copy_row, TXT_WIDTH, TXT_HEIGHT, SCREEN in *.
  rewrite memcpy_spec by (rewrite length_drop; lia). eexists. split; [done|]. 
  set (dst := Z.to_nat (2 * (y * 80))). set (src := Z.to_nat (2 * ((y + 1) * 80))).
  assert (Hds : (src = dst + 160)%nat /\ Z.of_nat dst = 160 * y) by lia. change (Z.to_nat (2 * 80)) with 160%nat.
  split; [rewrite !length_app, !length_take, !length_drop; lia|]. intros i.
  destruct (decide (i < dst)%nat) as [H1|H1].
  - rewrite lookup_app_l by (rewrite length_take; lia). rewrite lookup_take_lt by lia.
    by replace ((160 * y <=? Z.of_nat i) && _) with false by lia.
  - rewrite lookup_app_r by (rewrite length_take; lia). rewrite length_take. replace (dst `min` length mem)%nat with dst by lia.
    destruct (decide (i < dst + 160)%nat) as [H2|H2].
    + rewrite lookup_app_l by (rewrite length_take, length_drop; lia). rewrite lookup_take_lt, lookup_drop by lia.
      replace ((160 * y <=? Z.of_nat i) && (Z.of_nat i <? 160 * (y + 1))) with true by lia. f_equal. lia.
    + rewrite lookup_app_r by (rewrite length_take, length_drop; lia). rewrite length_take, length_drop, !lookup_drop.
      replace ((160 * y <=? Z.of_nat i) && (Z.of_nat i <? 160 * (y + 1))) with false by lia. f_equal. lia.
Qed.

Lemma copy_rows_spec n : forall y mem, 0 <= y -> y + Z.of_nat n <= TXT_HEIGHT - 1 -> SCREEN <= Z.of_nat (length mem) ->
  exists mem', copy_rows n y mem = Some mem' /\ length mem' = length mem /\
    forall i, mem' !! i = if (160 * y <=? Z.of_nat i) && (Z.of_nat i <? 160 * (y + Z.of_nat n)) then mem !! (i + 160)%nat else mem !! i.
Proof.
  induction n as [|n IH]; intros y mem Hy Hn Hl.
  - exists mem. split; [done|]. split; [done|]. intros i. by replace ((160 * y <=? Z.of_nat i) && _) with false by lia.
  - cbn [copy_rows]. destruct (copy_row_spec y mem ltac:(lia) Hl) as (m1 & E1 & L1 & H1). rewrite E1. cbn [mbind option_bind].
    destruct (IH (y + 1) m1 ltac:(lia) ltac:(lia) ltac:(lia)) as (m2 & E2 & L2 & H2). exists m2. split; [done|]. split; [lia|].
    intros i. rewrite H2, !H1. repeat case_cond; try done; lia.
Qed.

Lemma blank_spec n : forall i mem, 0 <= i -> i + 2 * Z.of_nat n <= Z.of_nat (length mem) ->
  exists mem', blank n i mem = Some mem' /\ length mem' = length mem /\
    forall k, mem' !! k = if (i <=? Z.of_nat k) && (Z.of_nat k <? i + 2 * Z.of_nat n)
      then Some (if (Z.of_nat k - i) mod 2 =? 0 then 32 else TXT_COL_WHITE) else mem !! k.
Proof.
  induction n as [|n IH]; intros i mem Hi Hn.
  - exists mem. split; [done|]. split; [done|]. intros k. by replace ((i <=? Z.of_nat k) && _) with false by lia.
  - cbn [blank]. rewrite aset_Some by lia. cbn [mbind option_bind]. rewrite aset_Some by (rewrite length_insert; lia).
    cbn [mbind option_bind]. set (m1 := <[Z.to_nat (i + 1) := _]> _). assert (L1 : length m1 = length mem) by (unfold m1; by rewrite !length_insert).
    destruct (IH (i + 2) m1 ltac:(lia) ltac:(lia)) as (m2 & E2 & L2 & H2). exists m2. split; [done|]. split; [lia|]. intros k. rewrite H2.
    destruct (decide (k = Z.to_nat i)) as [->|N0]; [|destruct (decide (k = Z.to_nat (i + 1))) as [->|N1]].
    + replace ((i + 2 <=? _) && _) with false by lia. replace ((i <=? _) && _) with true by lia.
      replace ((Z.of_nat (Z.to_nat i) - i) mod 2 =? 0) with true by lia.
      unfold m1. rewrite list_lookup_insert_ne by lia. apply list_lookup_insert_eq. lia.
    + replace ((i + 2 <=? _) && _) with false by lia. replace ((i <=? _) && _) with true by lia.
      replace ((Z.of_nat (Z.to_nat (i + 1)) - i) mod 2 =? 0) with false by lia.
      unfold m1. apply list_lookup_insert_eq. rewrite length_insert. lia.
    + replace ((i <=? Z.of_nat k) && (Z.of_nat k <? i + 2 * Z.of_nat (S n)))
        with ((i + 2 <=? Z.of_nat k) && (Z.of_nat k <? i + 2 + 2 * Z.of_nat n)) by lia.
      unfold m1. rewrite !list_lookup_insert_ne by lia.
      by replace ((Z.of_nat k - (i + 2)) mod 2) with ((Z.of_nat k - i) mod 2) by lia.
Qed.

(** Scrolling moves every row up and blanks the last one. *)
Lemma kscroll_spec mem : SCREEN <= Z.of_nat (length mem) ->
  exists mem', kscroll mem = Some mem' /\ length mem' = length mem /\ forall i, mem' !! i =
    if Z.of_nat i <? 3840 then mem !! (i + 160)%nat
    else if Z.of_nat i <? SCREEN then Some (if Z.of_nat i mod 2 =? 0 then 32 else TXT_COL_WHITE) else mem !! i.
Proof.
  intros Hl. unfold kscroll. destruct (copy_rows_spec (Z.to_nat (TXT_HEIGHT - 1)) 0 mem) as (m1 & E1 & L1 & H1); [done|done|done|].
  rewrite E1. cbn [mbind option_bind]. unfold SCREEN in *.
  destruct (blank_spec (Z.to_nat TXT_WIDTH) (2 * ((TXT_HEIGHT - 1) * TXT_WIDTH)) m1) as (m2 & E2 & L2 & H2);
    [unfold TXT_HEIGHT, TXT_WIDTH; lia|unfold TXT_HEIGHT, TXT_WIDTH; lia|].
  exists m2. split; [done|]. split; [lia|]. intros i. rewrite H2, H1. unfold TXT_HEIGHT, TXT_WIDTH. 
  change (160 * (0 + Z.of_nat (Z.to_nat (25 - 1)))) with 3840. change (2 * ((25 - 1) * 80)) with 3840. change (3840 + 2 * Z.of_nat (Z.to_nat 80)) with 4000.
  destruct (Z.of_nat i <? 3840) eqn:E; [|destruct (Z.of_nat i <? 4000) eqn:E'].
  - replace ((3840 <=? Z.of_nat i) && _) with false by lia. by replace ((160 * 0 <=? Z.of_nat i) && true) with true by lia.
  - replace ((3840 <=? Z.of_nat i) && true) with true by lia.
    by replace ((Z.of_nat i - 3840) mod 2) with (Z.of_nat i mod 2) by lia.
  - by rewrite !andb_false_r.
Qed.

Lemma kscroll_behind mem : SCREEN <= Z.of_nat (length mem) -> exists mem', kscroll mem = Some mem' /\ same_behind mem mem'.
Proof.
  intros Hl. destruct (kscroll_spec mem Hl) as (m & E & L & H). exists m. split; [done|]. split; [done|].
  intros i Hi. rewrite H. unfold SCREEN in *. by replace (Z.of_nat i <? 3840) with false by lia; replace (Z.of_nat i <? 4000) with false by lia.
Qed.

(** A character leaves the cursor at most one tab behind the row and one row
    below the screen. *)
Lemma kchar_ok c x y mem : 0 <= x < TXT_WIDTH -> 0 <= y < TXT_HEIGHT -> Z.of_nat (length mem) = 32768 ->
  exists x' y' mem', kchar c x y mem = Some (x', y', mem') /\ 0 <= x' <= 88 /\ (x' < 80 /\ 0 <= y' <= TXT_HEIGHT \/ 0 <= y' < TXT_HEIGHT) /\
    same_behind mem mem'.
Proof.
  unfold TXT_WIDTH, TXT_HEIGHT. intros Hx Hy Hl. unfold kchar, TAB_WIDTH, TXT_WIDTH.
  destruct (c =? 10).
  { destruct (pull_from_behind (2 * ((y + 1) * 80)) (2 * x) mem) as (m & E & B); [unfold SCREEN; lia|lia|unfold SCREEN; lia|].
    rewrite E. do 3 eexists. split; [done|]. rewrite u8_id by lia. split_and!; [lia|lia|left; lia|apply B..]. }
  destruct (c =? 13); [do 3 eexists; split; [done|]; split_and!; [lia|lia|left; lia|done..]|].
  destruct (c =? 9); [do 3 eexists; split; [done|]; rewrite u8_id by lia; split_and!; [lia|lia|right; lia|done..]|].
  destruct (c =? 8).
  { destruct ((x =? 0) && (y =? 0)) eqn:E0; [do 3 eexists; split; [done|]; split_and!; [lia|lia|left; lia|done..]|].
    destruct (x =? 0) eqn:Ex; cbn [andb] in E0; rewrite ?(u8_id (y - 1)), u8_id by lia.
    - destruct (pull_from_behind (2 * ((y - 1) * 80 + (80 - 1))) 2 mem) as (m & E & B); [unfold SCREEN; lia|lia|unfold SCREEN; lia|].
      rewrite E. do 3 eexists. split; [done|]. split_and!; [lia|lia|left; lia|apply B..].
    - destruct (pull_from_behind (2 * (y * 80 + (x - 1))) 2 mem) as (m & E & B); [unfold SCREEN; lia|lia|unfold SCREEN; lia|].
      rewrite E. do 3 eexists. split; [done|]. split_and!; [lia|lia|left; lia|apply B..]. }
  destruct (c =? 11); [do 3 eexists; split; [done|]; rewrite u8_id by lia; split_and!; [lia|lia|left; lia|done..]|].
  destruct (c =? 12); [do 3 eexists; split; [done|]; rewrite u8_id by lia; split_and!; [lia|lia|left; lia|done..]|].
  destruct (aset_behind mem (2 * (y * 80 + x)) c) as (m1 & E1 & B1); [unfold SCREEN; lia|unfold SCREEN; lia|].
  destruct (aset_behind m1 (2 * (y * 80 + x) + 1) TXT_COL_WHITE) as (m2 & E2 & B2); [unfold SCREEN; lia|destruct B1; unfold SCREEN; lia|].
  rewrite E1. cbn [mbind option_bind]. rewrite E2. cbn [mbind option_bind].
  do 3 eexists. split; [done|]. rewrite u8_id by lia. split_and!; [lia|lia|right; lia|by apply (same_behind_trans _ m1)].
Qed.

Lemma kround_ok c x y mem : 0 <= x < TXT_WIDTH -> 0 <= y < TXT_HEIGHT -> Z.of_nat (length mem) = 32768 ->
  exists x' y' mem', kround c x y mem = Some (x', y', mem') /\ 0 <= x' < TXT_WIDTH /\ 0 <= y' < TXT_HEIGHT /\ same_behind mem mem'.
Proof.
  intros Hx Hy Hl. unfold kround. destruct (kchar_ok c x y mem Hx Hy Hl) as (x1 & y1 & m1 & E & Hx1 & Hxy & B). rewrite E. cbn [mbind option_bind].
  unfold TXT_WIDTH, TXT_HEIGHT in *. set (p := if 80 <=? x1 then _ else _).
  assert (Hp : exists x2 y2, p = (x2, y2) /\ 0 <= x2 < 80 /\ 0 <= y2 <= 25).
  { unfold p. destruct (80 <=? x1) eqn:Ew; do 2 eexists; (split; [done|]); [rewrite !u8_id by lia|]; lia. }
  destruct Hp as (x2 & y2 & -> & Hx2 & Hy2). destruct (25 <=? y2) eqn:Es; [|do 3 eexists; split; [done|]; split_and!; [lia..|exact B]].
  destruct (kscroll_behind m1) as (m2 & E2 & B2); [destruct B; unfold SCREEN; lia|]. rewrite E2. cbn [mbind option_bind].
  do 3 eexists. split; [done|]. split_and!; [lia..|by apply (same_behind_trans _ m1)].
Qed.

Lemma kloop_ok output : forall size x y mem, (size <= length output)%nat ->
  0 <= x < TXT_WIDTH -> 0 <= y < TXT_HEIGHT -> Z.of_nat (length mem) = 32768 ->
  exists x' y' mem', kloop output size x y mem = Some (x', y', mem') /\ 0 <= x' < TXT_WIDTH /\ 0 <= y' < TXT_HEIGHT /\ same_behind mem mem'.
Proof.
  induction output as [|c output IH]; intros [|size] x y mem Hs Hx Hy Hl; cbn [length kloop] in *; try lia;
    [by do 3 eexists..|].
  destruct (kround_ok c x y mem Hx Hy Hl) as (x1 & y1 & m1 & E & Hx1 & Hy1 & B). rewrite E. cbn [mbind option_bind].
  destruct (IH size x1 y1 m1) as (x2 & y2 & m2 & E2 & Hx2 & Hy2 & B2); [lia|done|done|destruct B; lia|].
  do 3 eexists. split; [done|]. split_and!; [lia..|by apply (same_behind_trans _ m1)].
Qed.

(** The four port writes that move the card's cursor, the last one first. *)
Definition crtc (position : Z) : list (Z * Z) :=
  [(0x3D5, position / 256); (0x3D4, 0x0E); (0x3D5, position mod 256); (0x3D4, 0x0F)].

Lemma _ksetcursor_on_screen x y k : 0 <= x < TXT_WIDTH -> 0 <= y < TXT_HEIGHT ->
  _ksetcursor x y k = Ok (0, KCons (kmem k) x y (crtc (y * TXT_WIDTH + x) ++ kports k)).
Proof.
  unfold TXT_WIDTH, TXT_HEIGHT. intros Hx Hy. unfold _ksetcursor, TXT_WIDTH, TXT_HEIGHT.
  replace (x =? 80) with false by lia. replace (80 <? x) with false by lia. replace (25 <? y) with false by lia.
  replace (y =? 25) with false by lia. rewrite (u16_id (y * 80 + x)) by lia.
  unfold kout_port, bind, modify, ret, crtc. cbn [kmem kx ky kports app].
  change 0xFF with (Z.ones 8). rewrite !Z.land_ones, Z.shiftr_div_pow2 by lia. change (2 ^ 8) with 256.
  rewrite !u16_id by lia. do 4 f_equal; [|do 3 f_equal]; f_equal; width.
Qed.

Lemma _kout_run size output k : (Z.to_nat size <= length output)%nat -> on_screen k ->
  exists x y mem, kloop output (Z.to_nat size) (kx k) (ky k) (kmem k) = Some (x, y, mem) /\
    _kout size output k = Ok (0, KCons mem x y (crtc (y * TXT_WIDTH + x) ++ kports k)) /\
    0 <= x < TXT_WIDTH /\ 0 <= y < TXT_HEIGHT /\ same_behind (kmem k) mem.
Proof.
  intros Hs (Hl & Hx & Hy). destruct (kloop_ok output (Z.to_nat size) (kx k) (ky k) (kmem k) Hs Hx Hy Hl) as (x & y & m & E & Hx' & Hy' & B).
  exists x, y, m. split; [done|]. split; [|done]. unfold _kout, bind at 1, get_or_fault. rewrite E.
  unfold bind at 1, modify. by rewrite (bind_step _ _ _ _ _ (_ksetcursor_on_screen x y _ Hx' Hy')).
Qed.

(** Printable text that stays in its row. *)
Definition printable (c : Z) : Prop := c <> 10 /\ c <> 13 /\ c <> 9 /\ c <> 8 /\ c <> 11 /\ c <> 12.

Lemma kloop_text output : forall x y mem, Forall printable output -> 0 <= x -> x + Z.of_nat (length output) < TXT_WIDTH ->
  0 <= y < TXT_HEIGHT -> SCREEN <= Z.of_nat (length mem) ->
  exists mem', kloop output (length output) x y mem = Some (x + Z.of_nat (length output), y, mem') /\ length mem' = length mem /\
    forall i, mem' !! i =
      let k := Z.of_nat i - 2 * (y * TXT_WIDTH + x) in
      if (0 <=? k) && (k <? 2 * Z.of_nat (length output))
      then if k mod 2 =? 0 then output !! Z.to_nat (k / 2) else Some TXT_COL_WHITE
      else mem !! i.
Proof.
  unfold TXT_WIDTH, TXT_HEIGHT, SCREEN. induction output as [|c output IH]; intros x y mem Hp Hx Hw Hy Hl.
  - exists mem. cbn [kloop length]. rewrite Z.add_0_r. split; [done|]. split; [done|]. intros i. cbn zeta.
    by replace ((0 <=? _) && _) with false by lia.
  - apply Forall_cons in Hp as [(N1 & N2 & N3 & N4 & N5 & N6) Hp]. cbn [kloop length] in *. unfold kround, kchar.
    replace (c =? 10) with false by lia. replace (c =? 13) with false by lia. replace (c =? 9) with false by lia.
    replace (c =? 8) with false by lia. replace (c =? 11) with false by lia. replace (c =? 12) with false by lia.
    unfold TXT_WIDTH, TXT_HEIGHT. rewrite aset_Some by lia. cbn [mbind option_bind]. rewrite aset_Some by (rewrite length_insert; lia).
    cbn [mbind option_bind]. set (m1 := <[_ := TXT_COL_WHITE]> _). assert (L1 : length m1 = length mem) by (unfold m1; by rewrite !length_insert).
    rewrite u8_id by lia. replace (80 <=? x + 1) with false by lia. replace (25 <=? y) with false by lia. cbn [mbind option_bind].
    destruct (IH (x + 1) y m1 Hp ltac:(lia) ltac:(lia) Hy ltac:(lia)) as (m2 & E2 & L2 & H2). exists m2. rewrite E2.
    split; [do 3 f_equal; lia|]. split; [lia|]. intros i. rewrite H2. cbn zeta. set (k := Z.of_nat i - 2 * (y * 80 + x)).
    replace (Z.of_nat i - 2 * (y * 80 + (x + 1))) with (k - 2) by lia.
    destruct (decide (k = 0)) as [K0|K0]; [|destruct (decide (k = 1)) as [K1|K1]].
    + replace ((0 <=? k - 2) && _) with false by lia. rewrite K0. cbn. unfold m1. rewrite list_lookup_insert_ne by lia.
      replace i with (Z.to_nat (2 * (y * 80 + x))) by lia. apply list_lookup_insert_eq. lia.
    + replace ((0 <=? k - 2) && _) with false by lia. replace ((0 <=? k) && _) with true by lia. rewrite K1. cbn. unfold m1.
      replace i with (Z.to_nat (2 * (y * 80 + x) + 1)) by lia. apply list_lookup_insert_eq. rewrite length_insert. lia.
    + replace ((0 <=? k) && (k <? 2 * Z.of_nat (S (length output)))) with ((0 <=? k - 2) && (k - 2 <? 2 * Z.of_nat (length output))) by lia.
      unfold m1. rewrite !list_lookup_insert_ne by lia. destruct ((0 <=? k - 2) && _) eqn:Ek; [|done].
      replace ((k - 2) mod 2) with (k mod 2) by lia. replace (Z.to_nat (k / 2)) with (S (Z.to_nat ((k - 2) / 2))) by lia. done.
Qed.

(** ** Properties *)

(** C27: Whatever is printed, the cursor stays on the screen, the memory behind
    the screen keeps its contents, and the card is told where the cursor is. *)
Theorem kout_safe size output k : (Z.to_nat size <= length output)%nat -> on_screen k ->
  exists k', _kout size output k = Ok (0, k') /\ on_screen k' /\
    (forall i, SCREEN <= Z.of_nat i -> kmem k' !! i = kmem k !! i) /\
    kports k' = crtc (ky k' * TXT_WIDTH + kx k') ++ kports k.
Proof.
  intros Hs Hk. destruct (_kout_run size output k Hs Hk) as (x & y & m & _ & E & Hx & Hy & Hl & B).
  eexists. split; [exact E|]. destruct Hk as (Hlen & _). split; [unfold on_screen; cbn [kmem kx ky]; lia|]. split; [exact B|done].
Qed.

(** Text that fits in the row of the cursor appears there, white on black, and
    nothing else changes. *)
Theorem kout_text output k : Forall printable output -> on_screen k -> kx k + Z.of_nat (length output) < TXT_WIDTH ->
  exists k', _kout (Z.of_nat (length output)) output k = Ok (0, k') /\ kx k' = kx k + Z.of_nat (length output) /\ ky k' = ky k /\
    forall i, kmem k' !! i =
      let n := Z.of_nat i - 2 * (ky k * TXT_WIDTH + kx k) in
      if (0 <=? n) && (n <? 2 * Z.of_nat (length output))
      then if n mod 2 =? 0 then output !! Z.to_nat (n / 2) else Some TXT_COL_WHITE
      else kmem k !! i.
Proof.
  intros Hp Hk Hw. destruct (_kout_run (Z.of_nat (length output)) output k ltac:(lia) Hk) as (x & y & m & El & E & _).
  destruct Hk as (Hl & Hx & Hy). rewrite Nat2Z.id in El.
  destruct (kloop_text output (kx k) (ky k) (kmem k) Hp) as (m' & E' & _ & H); [lia|lia|lia|unfold SCREEN; lia|].
  rewrite E' in El. injection El as <- <- <-. eexists. split; [exact E|]. cbn [kx ky kmem]. split_and!; [done|done|exact H].
Qed.

(** [_kclear] blanks the screen and puts the cursor in its corner. *)
Theorem kclear_spec k : Z.of_nat (length (kmem k)) = 32768 ->
  exists k', _kclear k = Ok (0, k') /\ kx k' = 0 /\ ky k' = 0 /\
    forall i, kmem k' !! i = if Z.of_nat i <? SCREEN then Some (if Z.of_nat i mod 2 =? 0 then 32 else TXT_COL_WHITE) else kmem k !! i.
Proof.
  intros Hl. destruct (blank_spec (Z.to_nat (TXT_WIDTH * TXT_HEIGHT)) 0 (kmem k)) as (m & E & L & H); [done|unfold TXT_WIDTH, TXT_HEIGHT; lia|].
  unfold _kclear, bind at 1, upd_or_fault. rewrite E. cbn [mbind option_bind].
  rewrite (bind_step _ _ _ _ _ (_ksetcursor_on_screen 0 0 _ ltac:(done) ltac:(done))). eexists. split; [done|]. cbn [kx ky kmem].
  split_and!; [done|done|]. intros i. rewrite H. change (0 + 2 * Z.of_nat (Z.to_nat (TXT_WIDTH * TXT_HEIGHT))) with SCREEN. rewrite Z.sub_0_r.
  by replace (0 <=? Z.of_nat i) with true by lia.
Qed.

(** [printf] has room for [STRLEN - 1] characters: plain text that fits is
    passed on, longer text is written over the stack. *)
Theorem printf_plain {S : Type} (ktexto : Z -> list Z -> M S Z) text args s : Forall (fun c => c <> 0 /\ c <> 37) text ->
  printf ktexto (text ++ [0]) args s =
  if Z.of_nat (length text) <? STRLEN then
    match ktexto (Z.of_nat (length text)) (text ++ [0]) s with Ok (_, s) => Ok (Z.of_nat (length text), s) | Fault => Fault | Fuel => Fuel end
  else Fault.
Proof.
  intros Ht. unfold printf, vsprintf. rewrite vsprintf_loop_plain by (done || rewrite length_app; lia). cbn [p_out p_stores app].
  rewrite length_app. cbn [length]. unfold STRLEN.
  destruct (Z.of_nat (length text) <? 255) eqn:E; [|by replace (255 <? _) with true by lia].
  replace (255 <? _) with false by lia. rewrite (strlen_spec _ text); [done| |lia].
  clear -Ht. induction Ht as [|c l [Hc _] _ IH]; [done|]. cbn. replace (c =? 0) with false by lia. cbn in IH. by rewrite IH.
Qed.

(** ** A blank screen *)

Definition blank_screen : kcons := KCons (replicate (Z.to_nat 32768) 32) 78 24 [].

Lemma kout_safe_witness : exists k', _kout 5 (lit "a	b" ++ [10]) blank_screen = Ok (0, k') /\ on_screen k'.
Proof.
  destruct (kout_safe 5 (lit "a	b" ++ [10]) blank_screen) as (k' & E & H & _).
  - vm_compute. lia.
  - unfold on_screen, blank_screen. cbn [kmem kx ky]. rewrite length_replicate. vm_compute. repeat split; discriminate.
  - exists k'. split; [exact E|exact H].
Defined.
