(* ===== verification/Nish.v ===== *)
(** * The kernel's shell: [src/src/kernel/nish.c]

    The device [/dev/nish] collects what the user's shell writes to it, splits
    a line into words and runs a command.  Process control and the clock are
    other components' business: [NishSys] is what the shell uses of them.  The
    output of [printf] is the list of characters passed to [ktexto].

    An array of [STRLEN] characters is the list of its cells.  [DIRECT_NISH] is
    not defined, and [NISH_EXEC_DEBUG_COMMENTS] is. *)
From S2P Require Import Prelude CString Vsprintf Time Abi Vfs Namei Mount Files Ktext.
Open Scope nup_scope.

Definition MAX_ARGS : Z := 16.
Definition NISH_EXIT : Z := 0xE0.

(** ** Words *)

Definition is_blank (c : Z) : bool := (0 <? c) && (c <=? 32).

(** The loop [str++] over blanks: how far [str] goes. *)
Fixpoint skip_blanks (str : list Z) : option Z :=
  match str with
  | [] => None
  | c :: str => if is_blank c then n ← skip_blanks str; Some (n + 1) else Some 0
  end.

(** [strcpy(cmd, cmd + k)] within one array. *)
Fixpoint strcpy_down (fuel : nat) (buf : list Z) (i k : Z) : option (list Z) :=
  match fuel with
  | O => None
  | S fuel =>
      c ← aget buf (i + k);
      if negb (c =? 0) then buf ← aset buf i c; strcpy_down fuel buf (i + 1) k else aset buf i 0
  end.

Definition ltrim (cmd : list Z) : option (list Z * Z) :=
  k ← skip_blanks cmd;
  cmd ← strcpy_down (length cmd) cmd 0 k;
  Some (cmd, k).

(** The loop [str--] over blanks.  The test [str >= cmd] comes after [str] is
    read: the character before the array is read when all are blank. *)
Fixpoint back_blanks (n : nat) (cmd : list Z) : option Z :=
  match n with
  | O => None
  | S n => c ← aget cmd (Z.of_nat n); if is_blank c then back_blanks n cmd else Some (Z.of_nat n)
  end.

Definition rtrim (cmd : list Z) : option (list Z * Z) :=
  c ← aget cmd 0;
  if c =? 0 then Some (cmd, 0)
  else
    n ← strlen cmd;
    str ← back_blanks (Z.to_nat n) cmd;
    cmd ← aset cmd (str + 1) 0;
    Some (cmd, str + 1).

Definition _nish_split_par (cmd args : list Z) : option (list Z * list Z) :=
  '(cmd, _) ← ltrim cmd;
  astart ← strchr cmd 32;
  match astart with
  | None => Some (cmd, args)
  | Some rest =>
      let pos := Z.of_nat (length cmd) - Z.of_nat (length rest) in
      cmd ← aset cmd pos 0;
      args ← strcpy args (drop (Z.to_nat (pos + 1)) cmd);
      '(args, _) ← ltrim args;
      '(args, _) ← rtrim args;
      Some (cmd, args)
  end.

(** The pointers [argv] and their arrays; [None] is a null pointer. *)
Local Abbreviation arg_array := (list (option (list Z))).

(** [strcpy(argv[i], cmd)] *)
Definition put_arg (argv : arg_array) (i : Z) (cmd : list Z) : option arg_array :=
  a ← aget argv i;
  dest ← a;
  dest ← strcpy dest cmd;
  aset argv i (Some dest).

Fixpoint split_loop (fuel : nat) (cmd args : list Z) (argv : arg_array) (i : Z) : option (Z * arg_array) :=
  match fuel with
  | O => None
  | S fuel =>
      args ← memset args 0 STRLEN;
      '(cmd, args) ← _nish_split_par cmd args;
      argv ← put_arg argv i cmd;
      cmd ← strcpy cmd args;
      c ← aget cmd 0;
      if negb (c =? 0) then split_loop fuel cmd args argv (i + 1)
      else argv ← aset argv (i + 1) None; Some (i + 1, argv)
  end.

(** The arrays on the stack hold what was there before; a round takes a
    character from [cmd], at least. *)
Definition split_to_argv (str : option (list Z)) (argv : arg_array) (cmd0 args0 : list Z) : option (Z * arg_array) :=
  match str with
  | None => Some (-1, argv)
  | Some str =>
      c ← aget str 0;
      if c =? 0 then Some (0, argv)
      else cmd ← strncpy cmd0 str STRLEN; split_loop (Z.to_nat STRLEN) cmd args0 argv 0
  end.

(** ** The mode of a file as text *)

Definition mode_bit (output : list Z) (i : nat) (set : bool) (c : Z) : list Z := <[i := if set then c else 45]> output.
Fixpoint mode_loop (i : nat) (mode : Z) (output : list Z) : list Z :=
  match i with
  | O => output
  | S i =>
      let output := mode_bit output ((i + 1) * 3) (Z.testbit mode 0) 120 in
      let output := mode_bit output (i * 3 + 2) (Z.testbit mode 1) 119 in
      let output := mode_bit output (i * 3 + 1) (Z.testbit mode 2) 114 in
      mode_loop i (Z.shiftr mode 3) output
  end.

Definition type_char (flags : Z) : Z :=
  let t := Z.land flags 0x7 in
  if t =? FS_DIRECTORY then 100 else if t =? FS_CHARDEVICE then 99 else if t =? FS_BLOCKDEVICE then 98
  else if t =? FS_PIPE then 112 else if t =? FS_SYMLINK then 108 else 45.

Definition format_mode (node : option vnode) (output : list Z) : option (list Z) :=
  output ← strcpy output (lit "??????????");
  match node with
  | None => Some output
  | Some v => Some (mode_loop 3 (mode v) (<[0%nat := type_char (flags v)]> output))
  end.

(** ** Commands *)

(** What the shell uses of processes and of the clock; they share the file
    component's state. *)
Class NishSys (F S : Type) := {
  ns_getpid : M (vstate F * S) Z;
  ns_getppid : M (vstate F * S) Z;
  ns_fork : M (vstate F * S) Z;
  ns_execve : list Z -> list (option (list Z)) -> M (vstate F * S) Z;
  ns_exit : Z -> M (vstate F * S) unit;
  ns_waitpid : Z -> M (vstate F * S) Z;
  ns_reboot : Z -> M (vstate F * S) Z;
  ns_cmos : S -> Z -> Z }.

(** The output so far, [nish_buf] and [buf_pos]. *)
Record nstate (F S : Type) := NState {
  n_vfs : vstate F; n_sys : S; n_out : list Z; nish_buf : list Z; buf_pos : Z }.
Arguments NState {F S}.
Arguments n_vfs {F S}.
Arguments n_sys {F S}.
Arguments n_out {F S}.
Arguments nish_buf {F S}.
Arguments buf_pos {F S}.

(** A string literal with its escape sequences. *)
Fixpoint unescape (l : list Z) : list Z :=
  match l with
  | 92 :: 110 :: l => 10 :: unescape l
  | 92 :: 116 :: l => 9 :: unescape l
  | 92 :: 101 :: l => 27 :: unescape l
  | c :: l => c :: unescape l
  | [] => []
  end.
Definition clit (s : string) : list Z := unescape (chars s) ++ [0].

Section commands.
Context {F S : Type} `{FsOps F} `{NishSys F S}.
Context (fresh : Z -> list Z) (stack : list Z).
Implicit Types n : nstate F S.
Local Abbreviation NM := (M (nstate F S)).

Definition on_files {A} (m : M (vstate F) A) : NM A := fun n =>
  match m (n_vfs n) with
  | Ok (a, s) => Ok (a, NState s (n_sys n) (n_out n) (nish_buf n) (buf_pos n))
  | Fault => Fault
  | Fuel => Fuel
  end.
Definition on_sys {A} (m : M (vstate F * S) A) : NM A := fun n =>
  match m (n_vfs n, n_sys n) with
  | Ok (a, (s, t)) => Ok (a, NState s t (n_out n) (nish_buf n) (buf_pos n))
  | Fault => Fault
  | Fuel => Fuel
  end.
Definition ktexto (size : Z) (output : list Z) : NM Z := fun n =>
  Ok (0, NState (n_vfs n) (n_sys n) (n_out n ++ take (Z.to_nat size) output) (nish_buf n) (buf_pos n)).
Definition say (fmt : string) (args : list va) : NM Z := printf ktexto (clit fmt) args.

(** [argv[i]] *)
Definition argument (argv : arg_array) (i : Z) : NM (option (list Z)) := get_or_fault (fun _ => aget argv i).
Definition string_of (a : option (list Z)) : NM (list Z) := get_or_fault (fun _ => a).

Definition nish_help : NM Z :=
  do! say "List of built-in commands:\n" [];
  do! say "\texec\t\tFork and execute command\n" [];
  do! say "\ttest\t\tRun the current development function\n" [];
  do! say "\tls\t\tList directory contents\n" [];
  do! say "\tcat\t\tShow file content on stdout\n" [];
  do! say "\tcd\t\tChange working directory\n" [];
  do! say "\ttime\t\tGive information about time and date\n" [];
  do! say "\thalt\t\tHalt system\n" [];
  do! say "\treboot\t\tReboot system\n" [];
  do! say "\thelp\t\tWhat do you read right now?\n" [];
  ret 0.

(** The time stamp it computes is not used. *)
Definition nish_time : NM Z :=
  let! cmos := gets (fun n => ns_cmos (n_sys n)) in
  let now := getrtctime cmos in
  do! say "Time:\t\t%.2d:%.2d:%.2d\n" [VWord (u32 (tm_hour now)); VWord (u32 (tm_min now)); VWord (u32 (tm_sec now))];
  do! say "Date:\t\t%.2d-%.2d-%.2d\n" [VWord (u32 (tm_year now)); VWord (u32 (tm_mon now)); VWord (u32 (tm_mday now))];
  ret 1.

(** [for (i = 0; i < node->size; i++) _kputc(buf[i]);] *)
Fixpoint cat_loop (count : nat) (buf : list Z) (i : Z) : NM unit :=
  match count with
  | O => ret tt
  | Datatypes.S count =>
      let! c := get_or_fault (fun _ => aget buf i) in
      do! _kputc ktexto c;
      cat_loop count buf (i + 1)
  end.

Definition nish_cat (argc : Z) (argv : arg_array) : NM Z :=
  if argc =? 1 then ret 1
  else
    let! name := argument argv 1 in
    let! ' (node, _) := on_files (namei name 0) in
    if negb (node =? 0) then
      do! on_files (open_fs node 0);
      let! v := on_files (get_vnode node) in
      let! ' (_, data) := on_files (read_fs node 0 (size v)) in
      let buf := data ++ drop (length data) (fresh (size v)) in
      let! v := on_files (get_vnode node) in
      do! cat_loop (Z.to_nat (size v)) buf 0;
      do! on_files (close_fs node);
      do! on_files (iput node);
      ret 1
    else do! say "Error: Cannot find file %s.\n" [VStr name]; ret 1.

(** A line of the listing. *)
Definition ls_line (v : vnode) (the_mode : list Z) (name : option (list Z)) : NM Z :=
  say "%d\t%s\t%d\t%d\t%d\t%s\n" [VWord (ino v); VStr (Some the_mode); VWord (uid v); VWord (gid v); VWord (size v); VStr name].

(** The loop over the entries; [lookup] is called without a test that there is
    one, and its result is not tested. *)
Fixpoint ls_loop (fuel : nat) (node i : Z) (the_mode : list Z) : NM unit :=
  match fuel with
  | O => nofuel
  | Datatypes.S fuel =>
      let! ' (r, ent) := on_files (readdir_fs node i) in
      if negb (r =? 0) then ret tt
      else
        let! d := get_or_fault (fun _ => ent) in
        let! c := get_or_fault (fun _ => aget (d_name d) 0) in
        if c =? 46 then ls_loop fuel node (u32 (i + 1)) the_mode
        else
          let! v := on_files (get_vnode node) in
          let! op := get_or_fault (fun _ => iop_of v ≫= lookup) in
          let! tmp := on_files (op node (d_name d)) in
          let! v := on_files (get_vnode tmp) in
          let! the_mode := get_or_fault (fun _ => format_mode (Some v) the_mode) in
          do! ls_line v the_mode (Some (d_name d));
          do! on_files (iput tmp);
          ls_loop fuel node (u32 (i + 1)) the_mode
  end.

Definition nish_ls (fuel : nat) (argc : Z) (argv : arg_array) : NM Z :=
  let! name := argument argv 1 in
  let! ' (node, _) := on_files (namei (if argc =? 1 then Some (clit ".") else name) 0) in
  if negb (node =? 0) then
    do! say "Inode\tMode\t\tUID\tGID\tSize\tName\n" [];
    let! v := on_files (get_vnode node) in
    do! (if negb (IS_DIR v) then
           let! the_mode := get_or_fault (fun _ => format_mode (Some v) (take 11 stack)) in
           let! _ := ls_line v the_mode name in ret tt
         else ls_loop fuel node 0 (take 11 stack));
    do! on_files (iput node);
    ret 1
  else do! say "Error: Could not find file %s.\n" [VStr name]; ret 1.

Definition nish_cd (argc : Z) (argv : arg_array) : NM Z :=
  if argc =? 1 then do! on_files (sys_chdir (Some (clit "/")) 0); ret 1
  else
    let! name := argument argv 1 in
    let! r := on_files (sys_chdir name 0) in
    do! (if r =? - ENOENT then say "cd: %s: No such file or directory\n" [VStr name]
         else if r =? - ENOTDIR then say "cd: %s: Is no directory\n" [VStr name] else ret 0);
    ret 1.

Definition nish_exec (argc : Z) (argv : arg_array) : NM Z :=
  if argc <? 2 then do! say "You need to provide at least 1 argument (executable file)!\n" []; ret 1
  else
    let! parent_pid := on_sys ns_getpid in
    let! fork_pid := on_sys ns_fork in
    if fork_pid =? 0 then
      let! fork_pid := on_sys ns_getpid in
      let! parent_pid := on_sys ns_getppid in
      do! say "CHILDF> Fork PID: %i, parent PID: %i\n" [VWord (u32 fork_pid); VWord (u32 parent_pid)];
      do! say "CHILDF> Fork calling execve...\n" [];
      let! a := argument argv 1 in
      let! file := string_of a in
      let! process_exit_code := on_sys (ns_execve file argv) in
      do! say "CHILDF> Returned from execve with exit code %i...\n" [VWord (u32 process_exit_code)];
      do! on_sys (ns_exit process_exit_code);
      ret 1
    else
      do! say "PARENT> Parent PID: %i, Fork PID: %i\n" [VWord (u32 parent_pid); VWord (u32 fork_pid)];
      let! last := argument argv (argc - 1) in
      let! differs := get_or_fault (fun _ => strcmp last (Some (clit "&"))) in
      let! l := string_of last in
      let! len := get_or_fault (fun _ => strlen l) in
      let! exit_code :=
        (if negb (differs =? 0) || negb (len =? 1) then
           do! say "PARENT> waiting for fork to finish...\n" [];
           on_sys (ns_waitpid fork_pid)
         else ret 0) in
      do! say "PARENT> Parent done, exit code was: %i\n" [VWord (u32 exit_code)];
      ret 1.

Definition nish_test (argc : Z) (argv : arg_array) : NM Z := do! say "No tests today.\n" []; ret 1.

(** [!strcmp(argv[0], command)] *)
Definition is_command (argv : arg_array) (command : string) : NM bool :=
  let! a := argument argv 0 in
  let! r := get_or_fault (fun _ => strcmp a (Some (clit command))) in
  ret (r =? 0).
Fixpoint first_command (argv : arg_array) (commands : list (string * NM Z)) (otherwise : NM Z) : NM Z :=
  match commands with
  | [] => otherwise
  | (name, run) :: commands =>
      let! b := is_command argv name in if b : bool then run else first_command argv commands otherwise
  end.

Definition _nish_interpret (fuel : nat) (str : list Z) : NM Z :=
  let! c := get_or_fault (fun _ => aget str 0) in
  if c <? 32 then ret 0
  else
    let argv := replicate (Z.to_nat MAX_ARGS) (Some (replicate (Z.to_nat STRLEN) 0)) in
    let! ' (argc, argv) := get_or_fault (fun _ => split_to_argv (Some str) argv stack stack) in
    first_command argv
      [("test"%string, nish_test argc argv); ("clear"%string, say "\e[2J\e[H" []); ("ls"%string, nish_ls fuel argc argv);
       ("cat"%string, nish_cat argc argv); ("cd"%string, nish_cd argc argv); ("time"%string, nish_time);
       ("halt"%string, on_sys (ns_reboot 0x04)); ("reboot"%string, on_sys (ns_reboot 0x02)); ("help"%string, nish_help);
       ("exit"%string, ret NISH_EXIT); ("exec"%string, nish_exec argc argv)]
      (let! a := argument argv 0 in do! say "nish: %s: command not found.\n" [VStr a]; ret 0).

(** ** The device *)

Definition set_buf (buf : list Z) (pos : Z) : NM unit :=
  modify (fun n => NState (n_vfs n) (n_sys n) (n_out n) buf pos).

(** [while (i--)]: every NUL runs the line before it. *)
Fixpoint write_chars (interpret : list Z -> NM Z) (buffer : list Z) (i : Z) : NM unit :=
  if i =? 0 then ret tt
  else
    match buffer with
    | [] => fault
    | c :: buffer =>
        let! n := gets (fun n => n) in
        let! buf := get_or_fault (fun _ => aset (nish_buf n) (buf_pos n) c) in
        do! set_buf buf (buf_pos n + 1);
        do! (if c =? 0 then do! interpret buf; set_buf (replicate (Z.to_nat STRLEN) 0) 0 else ret tt);
        write_chars interpret buffer (i - 1)
    end.

Definition nish_write (fuel : nat) (node offset size : Z) (buffer : list Z) : NM Z :=
  let! n := gets (fun n => n) in
  let size := if STRLEN <? u32 (buf_pos n + size + 1) then u32 (STRLEN - 1 - buf_pos n) else size in
  do! write_chars (_nish_interpret fuel) buffer size;
  ret (s32 size).

End commands.

(** ** Lemmas on words *)

Fixpoint lstrip (s : list Z) : list Z :=
  match s with c :: r => if is_blank c then lstrip r else s | [] => [] end.
Definition rstrip (s : list Z) : list Z := reverse (lstrip (reverse s)).

Lemma skip_blanks_spec buf s : cstr buf = Some s ->
  skip_blanks buf = Some (Z.of_nat (length s) - Z.of_nat (length (lstrip s))) /\
  s = take (length s - length (lstrip s)) s ++ lstrip s /\ (length (lstrip s) <= length s)%nat.
Proof.
  revert s. induction buf as [|c buf IH]; intros s Hs; [done|]. cbn [cstr skip_blanks] in *.
  destruct (Z.eqb_spec c 0) as [->|Hc]; [injection Hs as <-; done|].
  destruct (cstr buf) as [t|]; [|done]. injection Hs as <-. cbn [lstrip]. destruct (is_blank c) eqn:E.
  - destruct (IH t eq_refl) as (-> & Ht & Hl). cbn [mbind option_bind length]. split; [f_equal; lia|]. split; [|lia].
    replace (S (length t) - length (lstrip t))%nat with (S (length t - length (lstrip t))) by lia. cbn [take app]. by f_equal.
  - split; [f_equal; lia|]. by rewrite Nat.sub_diag.
Qed.

(** The string is moved to the front of the array. *)
Lemma strcpy_down_spec t : forall fuel pre k mid rest, Forall (fun c => c <> 0) t -> (length t < fuel)%nat -> length mid = k ->
  exists rest', strcpy_down fuel (pre ++ mid ++ t ++ 0 :: rest) (Z.of_nat (length pre)) (Z.of_nat k) = Some (pre ++ t ++ 0 :: rest') /\
    length rest' = (k + length rest)%nat.
Proof.
  induction t as [|c t IH]; intros [|fuel] pre k mid rest Ht Hf Hk; cbn [length] in *; try lia; cbn [strcpy_down app].
  - rewrite app_assoc, aget_app by (rewrite length_app; lia). cbn [mbind option_bind Z.eqb negb]. rewrite <- app_assoc.
    destruct mid as [|m mid]; cbn [app].
    + rewrite aset_app by done. exists rest. cbn in Hk. split; [done|lia].
    + rewrite aset_app by done. exists (mid ++ 0 :: rest). split; [done|]. rewrite length_app. cbn [length] in *. lia.
  - apply Forall_cons in Ht as [Hc Ht].
    rewrite (app_assoc pre mid), aget_app by (rewrite length_app; lia). cbn [mbind option_bind]. replace (c =? 0) with false by lia. cbn [negb].
    destruct (mid ++ [c]) as [|x m2] eqn:E; [by destruct mid|].
    assert (El : (pre ++ mid) ++ c :: t ++ 0 :: rest = pre ++ x :: m2 ++ t ++ 0 :: rest).
    { rewrite <- app_assoc. f_equal. change (c :: t ++ 0 :: rest) with ([c] ++ t ++ 0 :: rest). by rewrite app_assoc, E. }
    rewrite El, aset_app by done. cbn [mbind option_bind].
    assert (Hm2 : length m2 = k) by (apply (f_equal length) in E; rewrite length_app in E; cbn [length] in E; lia).
    destruct (IH fuel (pre ++ [c]) k m2 rest Ht ltac:(lia) Hm2) as (rest' & E' & Hl).
    rewrite length_app in E'. cbn [length] in E'. rewrite Nat2Z.inj_add in E'. change (Z.of_nat 1) with 1 in E'.
    rewrite <- !app_assoc in E'. cbn [app] in E'. exists rest'. by rewrite E'.
Qed.

Lemma ltrim_spec buf s : cstr buf = Some s ->
  exists buf' k, ltrim buf = Some (buf', k) /\ cstr buf' = Some (lstrip s) /\ length buf' = length buf.
Proof.
  intros Hs. destruct (skip_blanks_spec buf s Hs) as (Hk & Hsplit & Hl). destruct (cstr_split buf s Hs) as (rest & -> & Hn).
  unfold ltrim. rewrite Hk. cbn [mbind option_bind]. set (t := lstrip s) in *. set (mid := take (length s - length t) s) in *.
  assert (Hmid : length mid = (length s - length t)%nat) by (unfold mid; rewrite length_take; lia).
  replace (Z.of_nat (length s) - Z.of_nat (length t)) with (Z.of_nat (length s - length t)) by lia.
  rewrite Hsplit in Hn |- *. apply Forall_app in Hn as [_ Hn]. rewrite <- app_assoc.
  destruct (strcpy_down_spec t (length (mid ++ t ++ 0 :: rest)) [] (length s - length t)%nat mid rest Hn) as (rest' & E & Hr);
    [rewrite !length_app; cbn [length]; lia|done|].
  cbn [app length] in E. change (Z.of_nat 0) with 0 in E.
  replace (length (mid ++ t) - length t)%nat with (length s - length t)%nat by (rewrite length_app; lia). rewrite E.
  eexists _, _. split; [done|]. split; [by apply cstr_app|]. rewrite !length_app. cbn [length]. lia.
Qed.

Lemma rstrip_snoc s c : rstrip (s ++ [c]) = if is_blank c then rstrip s else s ++ [c].
Proof. unfold rstrip. rewrite reverse_snoc. cbn [lstrip]. case_match; [done|]. by rewrite reverse_cons, reverse_involutive. Qed.

Lemma rstrip_prefix s : exists l, s = rstrip s ++ l.
Proof.
  induction s as [|c s IH] using rev_ind; [by exists []|]. rewrite rstrip_snoc. case_match; [|by exists []; rewrite app_nil_r].
  destruct IH as [l Hl]. exists (l ++ [c]). by rewrite app_assoc, <- Hl.
Qed.

Lemma back_blanks_spec s : forall tail, rstrip s <> [] ->
  back_blanks (length s) (s ++ tail) = Some (Z.of_nat (length (rstrip s)) - 1).
Proof.
  induction s as [|c s IH] using rev_ind; intros tail Hs; [done|]. rewrite length_app, Nat.add_1_r. cbn [back_blanks].
  rewrite <- app_assoc. cbn [app]. rewrite aget_app by done. cbn [mbind option_bind]. rewrite rstrip_snoc in *.
  destruct (is_blank c); [by apply IH|]. f_equal. rewrite length_app. cbn [length]. lia.
Qed.

Lemma rtrim_spec buf s : cstr buf = Some s -> Z.of_nat (length s) < 4294967296 -> s = [] \/ rstrip s <> [] ->
  exists buf' k, rtrim buf = Some (buf', k) /\ cstr buf' = Some (rstrip s) /\ length buf' = length buf.
Proof.
  intros Hs Hl Hr. destruct (cstr_split buf s Hs) as (rest & -> & Hn). unfold rtrim. destruct s as [|c s].
  - do 2 eexists. split; [done|]. split; [done|done].
  - destruct Hr as [Hr|Hr]; [done|]. change (aget ((c :: s) ++ 0 :: rest) 0) with (Some c). cbn [mbind option_bind].
    apply Forall_cons_1 in Hn as [Hc Hn]. replace (c =? 0) with false by lia.
    rewrite (strlen_spec _ (c :: s) Hs Hl). cbn [mbind option_bind]. rewrite Nat2Z.id, back_blanks_spec by done. cbn [mbind option_bind].
    destruct (rstrip_prefix (c :: s)) as [l Hl2]. set (w := rstrip (c :: s)) in *. rewrite Z.sub_add.
    assert (Hw : Forall (fun c => c <> 0) w).
    { apply (Forall_cons_2 (fun c => c <> 0) c s Hc) in Hn. rewrite Hl2 in Hn. by apply Forall_app in Hn as [? _]. }
    rewrite Hl2, <- app_assoc. destruct (l ++ 0 :: rest) as [|x tail] eqn:E; [by destruct l|].
    rewrite aset_app by done. cbn [mbind option_bind]. do 2 eexists. split; [done|]. split; [by apply cstr_app|].
    rewrite !length_app. done.
Qed.

(** ** Splitting at spaces *)

(** The words of a text: its parts between spaces that are not empty. *)
Fixpoint parts (s : list Z) : list (list Z) :=
  match s with
  | [] => [[]]
  | c :: r => if c =? 32 then [] :: parts r else match parts r with w :: l => (c :: w) :: l | [] => [[c]] end
  end.
Definition words (s : list Z) : list (list Z) := base.filter (fun w => w <> []) (parts s).

(** Text whose only blanks are spaces. *)
Definition plain (s : list Z) : Prop := Forall (fun c => c <> 0 /\ (is_blank c = true -> c = 32)) s.

Lemma words_space s : words (32 :: s) = words s.
Proof. done. Qed.
Lemma words_nil : words [] = [].
Proof. done. Qed.
Lemma parts_word w r : Forall (fun c => c <> 32) w -> parts (w ++ 32 :: r) = w :: parts r.
Proof.
  induction 1 as [|c w Hc _ IH]; [done|]. cbn [app parts]. replace (c =? 32) with false by lia. by rewrite IH.
Qed.
Lemma parts_last w : Forall (fun c => c <> 32) w -> parts w = [w].
Proof. induction 1 as [|c w Hc _ IH]; [done|]. cbn [parts]. replace (c =? 32) with false by lia. by rewrite IH. Qed.
Lemma words_word w r : Forall (fun c => c <> 32) w -> w <> [] -> words (w ++ 32 :: r) = w :: words r.
Proof. intros Hw Hn. unfold words. rewrite parts_word by done. by rewrite filter_cons_True. Qed.
Lemma words_last w : Forall (fun c => c <> 32) w -> w <> [] -> words w = [w].
Proof. intros Hw Hn. unfold words. rewrite parts_last by done. by rewrite filter_cons_True. Qed.

Lemma words_lstrip s : plain s -> words (lstrip s) = words s.
Proof.
  induction 1 as [|c s [Hc Hb] _ IH]; [done|]. cbn [lstrip]. destruct (is_blank c); [|done]. rewrite (Hb eq_refl), words_space. exact IH.
Qed.
Lemma lstrip_head s c r : lstrip s = c :: r -> is_blank c = false.
Proof. induction s as [|x s IH]; [done|]. cbn [lstrip]. destruct (is_blank x) eqn:E; [exact IH|]. by intros [= -> _]. Qed.
Lemma lstrip_suffix s : exists l, s = l ++ lstrip s.
Proof. induction s as [|c s [l IH]]; [by exists []|]. cbn [lstrip]. case_match; [|by exists []]. exists (c :: l). cbn [app]. by f_equal. Qed.
Lemma plain_lstrip s : plain s -> plain (lstrip s).
Proof. intros H. destruct (lstrip_suffix s) as [l Hl]. rewrite Hl in H. by apply Forall_app in H as [_ H]. Qed.
Lemma plain_rstrip s : plain s -> plain (rstrip s).
Proof. intros H. destruct (rstrip_prefix s) as [l Hl]. rewrite Hl in H. by apply Forall_app in H as [H _]. Qed.

Lemma parts_nonempty s : parts s <> [].
Proof. destruct s as [|c s]; [done|]. cbn [parts]. case_cond; [done|]. by destruct (parts s). Qed.
Lemma parts_snoc_space s : parts (s ++ [32]) = parts s ++ [[]].
Proof.
  induction s as [|c s IH]; [done|]. cbn [app parts]. rewrite IH. destruct (c =? 32); [done|].
  pose proof (parts_nonempty s). by destruct (parts s).
Qed.
Lemma words_rstrip s : plain s -> words (rstrip s) = words s.
Proof.
  induction s as [|c s IH] using rev_ind; intros Hp; [done|]. rewrite rstrip_snoc. apply Forall_app in Hp as [Hp Hc].
  apply Forall_cons_1 in Hc as [[_ Hc] _]. destruct (is_blank c); [|done]. rewrite (Hc eq_refl), IH by done.
  unfold words. by rewrite parts_snoc_space, filter_app, app_nil_r.
Qed.
Lemma rstrip_nonempty c r : is_blank c = false -> rstrip (c :: r) <> [].
Proof.
  intros Hc. induction r as [|x r IH] using rev_ind; [change (rstrip ([] ++ [c]) <> []); by rewrite rstrip_snoc, Hc|].
  rewrite app_comm_cons, rstrip_snoc. case_match; [done|]. by destruct r.
Qed.

(** A text without its leading blanks starts with its first word. *)
Lemma first_word t : plain t -> (t = [] \/ exists c r, t = c :: r /\ is_blank c = false) ->
  (Forall (fun c => c <> 0 /\ c <> 32) t /\ words t = (if decide (t = []) then [] else [t])) \/
  exists w r, t = w ++ 32 :: r /\ Forall (fun c => c <> 0 /\ c <> 32) w /\ w <> [] /\ plain r /\ words t = w :: words r.
Proof.
  intros Hp Ht. assert (Hs : Forall (fun c => c <> 0 /\ c <> 32) t \/ exists w r, t = w ++ 32 :: r /\ Forall (fun c => c <> 0 /\ c <> 32) w).
  { clear Ht. induction Hp as [|c t [Hc _] _ IH]; [by left|]. destruct (decide (c = 32)) as [->|Hne]; [right; by exists [], t|].
    destruct IH as [IH|(w & r & -> & Hw)]; [left; by constructor|right]. exists (c :: w), r. split; [done|by constructor]. }
  assert (H32 : forall w, Forall (fun c => c <> 0 /\ c <> 32) w -> Forall (fun c => c <> 32) w) by (intros w Hw; eapply Forall_impl; [exact Hw|]; tauto).
  destruct Hs as [Hs|(w & r & -> & Hw)]; [left|right].
  - split; [done|]. case_decide as E; [by rewrite E|]. by apply words_last; [apply H32|].
  - assert (Hn : w <> []).
    { intros ->. destruct Ht as [Ht|(c & r' & Ht & Hc)]; [done|]. injection Ht as <- <-. done. }
    exists w, r. split_and!; [done|done|done| |apply words_word; [by apply H32|done]].
    apply Forall_app in Hp as [_ Hp]. by apply Forall_cons_1 in Hp as [_ Hp].
Qed.

(** One round: the first word stays in [cmd], the others go to [args]. *)
Lemma split_par_spec cmd args s : cstr cmd = Some s -> plain s -> (length cmd <= length args)%nat -> Z.of_nat (length cmd) < 4294967296 ->
  cstr args = Some [] ->
  exists cmd' args' w r, _nish_split_par cmd args = Some (cmd', args') /\ cstr cmd' = Some w /\ cstr args' = Some r /\
    length cmd' = length cmd /\ length args' = length args /\ plain r /\ (length w + length r <= length s)%nat /\
    (s <> [] -> length r < length s)%nat /\ (r = [] \/ exists c r', r = c :: r' /\ is_blank c = false) /\
    (words s = [] /\ w = [] /\ r = [] \/ words s = w :: words r).
Proof.
  intros Hs Hp Hlen Hb Ha. destruct (ltrim_spec cmd s Hs) as (cmd1 & k & E1 & Hs1 & Hl1). unfold _nish_split_par. rewrite E1. cbn [mbind option_bind].
  set (t := lstrip s) in *. destruct (lstrip_suffix s) as [pre Hpre]. fold t in Hpre.
  assert (Hlt : (length t <= length s)%nat) by (rewrite Hpre, length_app; lia).
  assert (Ht : t = [] \/ exists c r, t = c :: r /\ is_blank c = false).
  { destruct t as [|c r] eqn:Et; [by left|right]. exists c, r. split; [done|]. by apply (lstrip_head s c r). }
  destruct (cstr_split cmd1 t Hs1) as (rest & Hcmd1 & _). rewrite <- (words_lstrip s Hp). fold t.
  destruct (first_word t (plain_lstrip s Hp) Ht) as [[Hn Hw]|(w & r & Et & Hn & Hne & Hpr & Hw)].
  - rewrite Hcmd1, strchr_absent by done. cbn [mbind option_bind]. rewrite <- Hcmd1.
    exists cmd1, args, t, []. split_and!; [done|done|done|done|done|constructor|cbn [length]; lia| |by left|].
    + intros Hsn. cbn [length]. destruct s; [done|cbn; lia].
    + rewrite Hw. case_decide; [by left|by right].
  - assert (Hc1 : cmd1 = w ++ 32 :: r ++ 0 :: rest) by (by rewrite Hcmd1, Et, <- app_assoc).
    assert (Hrn : Forall (fun c => c <> 0) r) by (eapply Forall_impl; [exact Hpr|]; intros c [Hc0 _]; exact Hc0).
    rewrite Hc1, strchr_found by done. cbn [mbind option_bind].
    replace (Z.of_nat (length (w ++ 32 :: r ++ 0 :: rest)) - Z.of_nat (length (32 :: r ++ 0 :: rest))) with (Z.of_nat (length w))
      by (rewrite length_app; cbn [length]; lia).
    rewrite aset_app by done. cbn [mbind option_bind].
    replace (drop (Z.to_nat (Z.of_nat (length w) + 1)) (w ++ 0 :: r ++ 0 :: rest)) with (r ++ 0 :: rest).
    2: { replace (Z.to_nat (Z.of_nat (length w) + 1)) with (length w + 1)%nat by lia. by rewrite drop_app_add. }
    assert (Hrc : (length r < length cmd)%nat).
    { apply (f_equal length) in Hc1. rewrite length_app in Hc1. cbn [length] in Hc1. rewrite length_app in Hc1. lia. }
    assert (Hlr : (length r < length args)%nat) by lia.
    rewrite (strcpy_spec args _ r (cstr_app r rest Hrn) Hlr). cbn [mbind option_bind].
    set (a1 := r ++ 0 :: drop (S (length r)) args).
    assert (La : length a1 = length args) by (unfold a1; rewrite length_app; cbn [length]; rewrite length_drop; lia).
    destruct (ltrim_spec a1 r ltac:(by apply cstr_app)) as (a2 & k2 & E2 & Hs2 & Hl2). rewrite E2. cbn [mbind option_bind].
    destruct (lstrip_suffix r) as [pr Hpr2]. assert (Hlr2 : (length (lstrip r) <= length r)%nat) by (rewrite Hpr2 at 2; rewrite length_app; lia).
    assert (Hts : (length t = length w + 1 + length r)%nat) by (rewrite Et, length_app; cbn; lia).
    destruct (rtrim_spec a2 (lstrip r) Hs2) as (a3 & k3 & E3 & Hs3 & Hl3); [lia| |].
    { destruct (lstrip r) as [|c r'] eqn:El; [by left|right]. apply rstrip_nonempty. by apply (lstrip_head r c r'). }
    rewrite E3. cbn [mbind option_bind]. destruct (rstrip_prefix (lstrip r)) as [ps Hps].
    assert (Hl4 : (length (rstrip (lstrip r)) <= length (lstrip r))%nat) by (rewrite Hps at 2; rewrite length_app; lia).
    exists (w ++ 0 :: r ++ 0 :: rest), a3, w, (rstrip (lstrip r)). split_and!; [done| |done| |lia| |lia|lia| |].
    + apply cstr_app. eapply Forall_impl; [exact Hn|]. tauto.
    + rewrite <- Hl1, Hc1, !length_app. done.
    + by apply plain_rstrip, plain_lstrip.
    + destruct (lstrip r) as [|c r'] eqn:El; [by left|right]. pose proof (lstrip_head r c r' El) as Hcb.
      destruct (rstrip (c :: r')) as [|x y] eqn:Er; [by apply rstrip_nonempty in Er|]. cbn [app] in Hps. injection Hps as <- _. by exists c, y.
    + right. rewrite words_rstrip by (by apply plain_lstrip). by rewrite words_lstrip.
Qed.

Lemma words_nonempty c r : plain (c :: r) -> is_blank c = false -> words (c :: r) <> [].
Proof.
  intros Hp Hc. destruct (first_word (c :: r) Hp ltac:(right; by exists c, r)) as [[_ ->]|(w & r' & _ & _ & _ & _ & ->)]; [|done].
  by case_decide.
Qed.

(** What the caller finds in [argv]: never less than one word. *)
Definition arguments (s : list Z) : list (list Z) := match words s with [] => [[]] | l => l end.

Lemma put_arg_spec argv i l cmd w : argv !! i = Some (Some l) -> cstr cmd = Some w -> (length w < length l)%nat ->
  put_arg argv (Z.of_nat i) cmd = Some (<[i := Some (w ++ 0 :: drop (S (length w)) l)]> argv).
Proof.
  intros Hi Hw Hl. unfold put_arg. rewrite aget_nat, Hi. cbn [mbind option_bind]. rewrite (strcpy_spec l cmd w Hw Hl). cbn [mbind option_bind].
  pose proof (lookup_lt_Some _ _ _ Hi). rewrite aset_Some by lia. by rewrite Nat2Z.id.
Qed.

Lemma memset_clear args : length args = 255%nat -> memset args 0 STRLEN = Some (replicate 255 0).
Proof.
  intros Hl. unfold memset. change (s8 0) with 0. change STRLEN with (Z.of_nat 255). rewrite fill_spec by lia.
  by rewrite drop_ge, app_nil_r by lia.
Qed.

Definition room (argv : arg_array) (i : nat) : Prop :=
  length argv = 16%nat /\ forall j, (i <= j < 16)%nat -> exists l, argv !! j = Some (Some l) /\ length l = 255%nat.
(** The arguments from place [i] on, and the null pointer behind them. *)
Definition filled (argv : arg_array) (i : nat) (ws : list (list Z)) : Prop :=
  (forall k w, ws !! k = Some w -> exists a, argv !! (i + k)%nat = Some (Some a) /\ cstr a = Some w) /\
  argv !! (i + length ws)%nat = Some None.

Lemma cstr_bound buf s : cstr buf = Some s -> (length s < length buf)%nat.
Proof. intros H. destruct (cstr_split buf s H) as (rest & -> & _). rewrite length_app. cbn. lia. Qed.

(** One round: the first word is stored at [i], and the loop ends when it was
    the last. *)
Lemma split_round fuel s cmd args argv i : cstr cmd = Some s -> plain s -> length cmd = 255%nat -> length args = 255%nat ->
  (i < 16)%nat -> room argv i ->
  exists a w r cmd' args', let argv1 := <[i := Some a]> argv in
    cstr a = Some w /\ cstr cmd' = Some r /\ plain r /\ length cmd' = 255%nat /\ length args' = 255%nat /\ (s <> [] -> length r < length s)%nat /\
    split_loop (S fuel) cmd args argv (Z.of_nat i) =
      (if decide (r = []) then argv2 ← aset argv1 (Z.of_nat i + 1) None; Some (Z.of_nat i + 1, argv2)
       else split_loop fuel cmd' args' argv1 (Z.of_nat i + 1)) /\
    arguments s = w :: (if decide (r = []) then [] else arguments r).
Proof.
  intros Hs Hp Hlc Hla Hi [Hl16 Hroom]. cbn [split_loop]. rewrite memset_clear by done. cbn [mbind option_bind].
  destruct (split_par_spec cmd (replicate 255 0) s Hs Hp) as (cmd1 & args1 & w & r & E & Hw & Hr & Hl1 & Hl2 & Hpr & Hlen & Hless & Hnb & Hws);
    [rewrite length_replicate; lia|rewrite Hlc; lia|done|]. rewrite E. cbn [mbind option_bind]. rewrite length_replicate in Hl2.
  destruct (Hroom i ltac:(lia)) as (l & Hli & Hll). pose proof (cstr_bound _ _ Hw). pose proof (cstr_bound _ _ Hr).
  rewrite (put_arg_spec argv i l cmd1 w Hli Hw) by lia. cbn [mbind option_bind].
  rewrite (strcpy_spec cmd1 args1 r Hr) by lia. cbn [mbind option_bind]. set (cmd2 := r ++ 0 :: drop (S (length r)) cmd1).
  assert (Hn : forall b x, cstr b = Some x -> Forall (fun c => c <> 0) x) by (intros b x Hb; destruct (cstr_split _ _ Hb) as (? & _ & Hn); exact Hn).
  exists (w ++ 0 :: drop (S (length w)) l), w, r, cmd2, args1. cbn zeta.
  split; [by apply cstr_app, (Hn cmd1)|]. split; [by apply cstr_app, (Hn args1)|]. split; [done|].
  split; [unfold cmd2; rewrite length_app; cbn [length]; rewrite length_drop; lia|]. split; [lia|]. split; [done|].
  destruct Hnb as [->|(c & r' & -> & Hcb)].
  - split; [done|]. unfold arguments. destruct Hws as [(-> & -> & _)| ->]; done.
  - change (aget cmd2 0) with (Some c). cbn [mbind option_bind]. apply Forall_cons_1 in Hpr as Hpr'. destruct Hpr' as [[Hc0 _] _].
    replace (c =? 0) with false by lia. cbn [negb]. split; [done|]. rewrite decide_False by done.
    assert (Hw2 : words s = w :: words (c :: r')) by (destruct Hws as [(_ & _ & ?)|?]; done).
    pose proof (words_nonempty c r' Hpr Hcb) as Hne2. unfold arguments. rewrite Hw2. by destruct (words (c :: r')).
Qed.

Lemma arguments_nonempty s : (1 <= length (arguments s))%nat.
Proof. unfold arguments. destruct (words s); cbn [length]; lia. Qed.

Lemma split_loop_run fuel : forall s cmd args argv i, cstr cmd = Some s -> plain s -> s <> [] -> length cmd = 255%nat -> length args = 255%nat ->
  (length s < fuel)%nat -> (i <= 16)%nat -> room argv i ->
  if (i + length (arguments s) <=? 15)%nat
  then exists argv', split_loop fuel cmd args argv (Z.of_nat i) = Some (Z.of_nat (i + length (arguments s)), argv') /\
    (forall j, (j < i)%nat -> argv' !! j = argv !! j) /\ filled argv' i (arguments s)
  else split_loop fuel cmd args argv (Z.of_nat i) = None.
Proof.
  induction fuel as [|fuel IH]; intros s cmd args argv i Hs Hp Hs0 Hlc Hla Hf Hi Hroom; [lia|]. pose proof (arguments_nonempty s).
  destruct (decide (i = 16%nat)) as [->|Hne].
  { replace (_ <=? 15)%nat with false by (symmetry; apply Nat.leb_gt; lia). cbn [split_loop]. rewrite memset_clear by done. cbn [mbind option_bind].
    destruct (_nish_split_par cmd (replicate 255 0)) as [[cmd1 args1]|]; [|done]. cbn [mbind option_bind].
    unfold put_arg. destruct Hroom as [Hl16 _]. by rewrite aget_nat, lookup_ge_None_2 by lia. }
  destruct (split_round fuel s cmd args argv i Hs Hp Hlc Hla ltac:(lia) Hroom) as (a & w & r & cmd2 & args2 & Ha & Hr & Hpr & Hl3 & Hl4 & Hless & E & Harg).
  rewrite E, Harg. clear E Harg. destruct Hroom as [Hl16 Hroom]. set (argv1 := <[i := Some a]> argv).
  assert (Hl1 : length argv1 = 16%nat) by (unfold argv1; by rewrite length_insert).
  assert (Hi1 : argv1 !! i = Some (Some a)) by (apply list_lookup_insert_eq; lia).
  assert (Hlt : forall j, j <> i -> argv1 !! j = argv !! j) by (intros j Hj; apply list_lookup_insert_ne; lia).
  replace (Z.of_nat i + 1) with (Z.of_nat (i + 1)) by lia. destruct (decide (r = [])) as [->|Hr0]; cbn [length].
  - destruct (i + 1 <=? 15)%nat eqn:E15; [apply Nat.leb_le in E15|apply Nat.leb_gt in E15; by rewrite (proj2 (aset_None argv1 _ _)) by lia].
    rewrite aset_Some by lia. cbn [mbind option_bind]. rewrite Nat2Z.id. eexists. split; [done|]. split; [|split].
    + intros j Hj. rewrite list_lookup_insert_ne by lia. apply Hlt. lia.
    + intros [|k] w' Hk; [|done]. injection Hk as <-. exists a. split; [|done]. by rewrite list_lookup_insert_ne, Nat.add_0_r by lia.
    + apply list_lookup_insert_eq. cbn [length]. lia.
  - specialize (IH r cmd2 args2 argv1 (i + 1)%nat Hr Hpr Hr0 Hl3 Hl4 ltac:(specialize (Hless Hs0); lia) ltac:(lia)).
    replace (i + S (length (arguments r)))%nat with (i + 1 + length (arguments r))%nat by lia.
    assert (Hroom1 : room argv1 (i + 1)) by (split; [done|]; intros j Hj; rewrite Hlt by lia; apply Hroom; lia).
    specialize (IH Hroom1). destruct (_ <=? 15)%nat; [|exact IH]. destruct IH as (argv' & E' & Hsame & Hfill & Hend).
    exists argv'. split; [done|]. split; [|split].
    + intros j Hj. rewrite Hsame by lia. apply Hlt. lia.
    + intros [|k] w' Hk; [|replace (i + S k)%nat with (i + 1 + k)%nat by lia; by apply Hfill]. injection Hk as <-.
      exists a. split; [|done]. by rewrite Nat.add_0_r, Hsame by lia.
    + cbn [length]. by replace (i + S (length (arguments r)))%nat with (i + 1 + length (arguments r))%nat by lia.
Qed.


(** ** Other properties *)

(** The mode as [ls] prints it: the type, then three groups of permissions. *)
Theorem format_mode_spec v output : (11 <= length output)%nat ->
  let bit k c := if Z.testbit (mode v) k then c else 45 in
  format_mode (Some v) output =
  Some ([type_char (flags v); bit 8 114; bit 7 119; bit 6 120; bit 5 114; bit 4 119; bit 3 120; bit 2 114; bit 1 119; bit 0 120; 0] ++ drop 11 output).
Proof.
  intros Hl bit. unfold format_mode. rewrite (strcpy_spec output _ (chars "??????????")) by (done || (cbn; lia)).
  cbn [mbind option_bind]. f_equal. unfold mode_loop, mode_bit. rewrite !Z.shiftr_spec by lia. reflexivity.
Qed.

Section device.
Context {F S : Type} `{FsOps F} `{NishSys F S}.
Context (fresh : Z -> list Z) (stack : list Z).
Implicit Types n : nstate F S.

Definition with_buf n (buf : list Z) (pos : Z) : nstate F S := NState (n_vfs n) (n_sys n) (n_out n) buf pos.

(** Characters before the end of a line are collected. *)
Lemma write_chars_text interpret s : forall rest i n, Forall (fun c => c <> 0) s -> Z.of_nat (length s) <= i ->
  0 <= buf_pos n -> buf_pos n + Z.of_nat (length s) <= Z.of_nat (length (nish_buf n)) ->
  write_chars interpret (s ++ rest) i n =
  write_chars interpret rest (i - Z.of_nat (length s))
    (with_buf n (take (Z.to_nat (buf_pos n)) (nish_buf n) ++ s ++ drop (Z.to_nat (buf_pos n) + length s) (nish_buf n))
       (buf_pos n + Z.of_nat (length s))).
Proof.
  induction s as [|c s IH]; intros rest i n Hs Hi Hp Hl; cbn [length app] in *.
  - rewrite Nat.add_0_r, take_drop, !Z.add_0_r, Z.sub_0_r. by destruct n.
  - apply Forall_cons in Hs as [Hc Hs]. cbn [write_chars]. replace (i =? 0) with false by lia.
    unfold bind at 1, gets. rewrite aset_Some by lia. unfold bind at 1, get_or_fault.
    unfold bind at 1, set_buf, modify. replace (c =? 0) with false by lia. unfold bind at 1, ret.
    rewrite IH; cbn [nish_buf buf_pos]; [|done|lia|lia|rewrite length_insert; lia].
    replace (i - 1 - Z.of_nat (length s)) with (i - Z.of_nat (Datatypes.S (length s))) by lia. f_equal. unfold with_buf. cbn [n_vfs n_sys n_out].
    f_equal; [|lia]. replace (Z.to_nat (buf_pos n + 1)) with (Datatypes.S (Z.to_nat (buf_pos n))) by lia.
    rewrite take_S_r with (x := c) by (apply list_lookup_insert_eq; lia). rewrite take_insert_ge by lia. rewrite <- app_assoc. cbn [app].
    do 3 f_equal. rewrite drop_insert_lt by lia. f_equal. lia.
Qed.

(** A line that fits is run once, with what was collected before it, and the
    buffer is empty again. *)
Theorem nish_write_line fuel node offset n s r n' : Forall (fun c => c <> 0) s ->
  length (nish_buf n) = 255%nat -> 0 <= buf_pos n -> buf_pos n + Z.of_nat (length s) + 1 <= 254 ->
  let line := take (Z.to_nat (buf_pos n)) (nish_buf n) ++ s ++ 0 :: drop (Z.to_nat (buf_pos n) + length s + 1) (nish_buf n) in
  _nish_interpret fresh stack fuel line (with_buf n line (buf_pos n + Z.of_nat (length s) + 1)) = Ok (r, n') ->
  nish_write fresh stack fuel node offset (Z.of_nat (length s) + 1) (s ++ [0]) n =
    Ok (Z.of_nat (length s) + 1, with_buf n' (replicate 255 0) 0).
Proof.
  intros Hs Hl Hp Hfit line Hrun. unfold nish_write, STRLEN. unfold bind at 1, gets.
  replace (255 <? u32 (buf_pos n + (Z.of_nat (length s) + 1) + 1)) with false by (unfold u32; lia).
  assert (E : write_chars (_nish_interpret fresh stack fuel) (s ++ [0]) (Z.of_nat (length s) + 1) n =
    Ok (tt, with_buf n' (replicate 255 0) 0)).
  { rewrite write_chars_text by (done || lia). replace (Z.of_nat (length s) + 1 - Z.of_nat (length s)) with 1 by lia.
    cbn [write_chars Z.eqb]. unfold bind at 1, gets. cbn [with_buf nish_buf buf_pos].
    assert (Ea : aset (take (Z.to_nat (buf_pos n)) (nish_buf n) ++ s ++ drop (Z.to_nat (buf_pos n) + length s) (nish_buf n))
      (buf_pos n + Z.of_nat (length s)) 0 = Some line).
    { destruct (lookup_lt_is_Some_2 (nish_buf n) (Z.to_nat (buf_pos n) + length s)) as [x Hx]; [lia|].
      rewrite (drop_S _ x _ Hx).
      rewrite app_assoc, aset_app by (rewrite length_app, length_take; lia). unfold line. rewrite <- app_assoc. do 4 f_equal. by rewrite Nat.add_1_r. }
    unfold get_or_fault. rewrite Ea. unfold bind at 1. unfold bind at 1, set_buf, modify. unfold bind at 1. unfold bind at 1.
    unfold with_buf in *. cbn [n_vfs n_sys n_out nish_buf buf_pos] in *. rewrite Hrun. done. }
  rewrite (bind_step _ _ _ _ _ E). unfold ret. by rewrite s32_id by lia.
Qed.

(** C30: A line of 254 characters does not fit with its NUL: it is cut before the
    NUL and never run, and the buffer stays full, so that from then on every
    write is answered with 0 and nothing is run any more. *)
Theorem nish_write_full_line fuel node offset n s : Forall (fun c => c <> 0) s -> length s = 254%nat ->
  length (nish_buf n) = 255%nat -> buf_pos n = 0 ->
  exists n1, nish_write fresh stack fuel node offset 255 (s ++ [0]) n = Ok (254, n1) /\
    n_vfs n1 = n_vfs n /\ n_sys n1 = n_sys n /\ n_out n1 = n_out n /\
    forall fuel node offset size buffer, 0 <= size < 4294967041 -> nish_write fresh stack fuel node offset size buffer n1 = Ok (0, n1).
Proof.
  intros Hs Hls Hl Hp. exists (with_buf n (s ++ drop 254 (nish_buf n)) 254). split.
  - unfold nish_write, bind at 1, gets. rewrite Hp. change (STRLEN <? u32 (0 + 255 + 1)) with true. change (u32 (STRLEN - 1 - 0)) with 254. cbv iota.
    rewrite (bind_step _ _ _ tt (with_buf n (s ++ drop 254 (nish_buf n)) 254)); [done|].
    rewrite write_chars_text by (done || lia). rewrite Hp, Hls. change (Z.to_nat 0) with 0%nat. cbn [take app Nat.add].
    change (254 - Z.of_nat 254) with 0. reflexivity.
  - split_and!; [done..|]. intros fuel' node' offset' size buffer Hsz. unfold nish_write, bind at 1, gets. cbn [with_buf buf_pos].
    unfold STRLEN. replace (255 <? u32 (254 + size + 1)) with (0 <? size) by (unfold u32; lia).
    assert (Hz : (if 0 <? size then u32 (255 - 1 - 254) else size) = 0) by (destruct (0 <? size) eqn:E; [done|lia]). rewrite Hz.
    destruct buffer; done.
Qed.
End device.

(** ** A concrete shell *)

#[local] Instance no_sys : NishSys unit unit := {
  ns_getpid := ret 1; ns_getppid := ret 0; ns_fork := ret 2; ns_execve _ _ := ret 0; ns_exit _ := ret tt;
  ns_waitpid _ := ret 0; ns_reboot _ := ret 0; ns_cmos _ _ := 0 }.
#[local] Instance no_fs : FsOps unit := {
  iop_at _ := None; sop_at _ := None; read_super _ _ _ := ret 0 }.

Definition idle_shell : nstate unit unit := NState rootfs_sample tt [] (replicate 255 0) 0.
Definition new_argv : list (option (list Z)) := replicate 16 (Some (replicate 255 0)).

Lemma new_argv_room : room new_argv 0.
Proof. split; [done|]. intros j Hj. exists (replicate 255 0). split; [apply lookup_replicate_2; lia|done]. Qed.


Lemma nish_write_full_line_witness : exists n1,
  nish_write (fun k => replicate (Z.to_nat k) 0) (replicate 255 0) 9 0 0 255 (replicate 254 97 ++ [0]) idle_shell = Ok (254, n1) /\
  nish_write (fun k => replicate (Z.to_nat k) 0) (replicate 255 0) 9 0 0 5 (lit "help") n1 = Ok (0, n1).
Proof.
  destruct (nish_write_full_line (fun k => replicate (Z.to_nat k) 0) (replicate 255 0) 9 0 0 idle_shell (replicate 254 97))
    as (n1 & E & _ & _ & _ & H).
  - apply Forall_replicate. lia.
  - reflexivity.
  - reflexivity.
  - reflexivity.
  - exists n1. split; [exact E|]. apply H. lia.
Defined.

(** The shell at work: an unknown command. *)
Example nish_unknown_command :
  match nish_write (fun k => replicate (Z.to_nat k) 0) (replicate 255 0) 9 0 0 5 (lit "abcd") idle_shell with
  | Ok (r, n) => r = 5 /\ n_out n = chars "nish: abcd: command not found." ++ [10] /\ buf_pos n = 0
  | _ => False
  end.
Proof. vm_compute. repeat split. Qed.
