(* ===== verification/Traps.v ===== *)
(** * Interrupts at work: the timer, page faults, and what they do to processes

    [timer_handler] and [setup_timer] of [src/src/kernel/time.c],
    [page_fault_handler] of [mm/paging.c], and the dispatch of [isr_handler] and
    [irq_handler] of [kernel/dts.c] ([Dts]) on the processes of [Task].  A
    handler of another component is called by its name, [Other]. *)
From S2P Require Import Prelude CString Vsprintf Time Dts Abi Vfs Task Ktext.
From S2P Require Import Nish.
Open Scope nup_scope.

(** What the stubs push. *)
Record registers := Registers {
  r_ds : Z;
  r_edi : Z; r_esi : Z; r_ebp : Z; r_esp : Z; r_ebx : Z; r_edx : Z; r_ecx : Z; r_eax : Z;
  int_no : Z; err_code : Z;
  r_eip : Z; r_cs : Z; r_eflags : Z; r_useresp : Z; r_ss : Z }.

Inductive isr_t := TimerHandler | PageFaultHandler | Other (name : Z).

Record machine (E : Type) := Machine {
  m_ticks : Z;
  interrupt_handlers : list (option isr_t);
  m_tasks : kstate E;
  m_ports : list (Z * Z);
  m_text : list Z;
  glob_regs : option registers }.
Arguments Machine {E}.
Arguments m_ticks {E}.
Arguments interrupt_handlers {E}.
Arguments m_tasks {E}.
Arguments m_ports {E}.
Arguments m_text {E}.
Arguments glob_regs {E}.

Section traps.
Context {E : Type} `{TaskEnv E}.
Local Abbreviation MM := (M (machine E)).
Implicit Types m : machine E.
(** The handlers of other components; whether they return to the interrupted
    program. *)
Context (other : Z -> registers -> cpu -> MM bool).

Definition set_ticks (t : Z) m : machine E := Machine t (interrupt_handlers m) (m_tasks m) (m_ports m) (m_text m) (glob_regs m).
Definition set_interrupt_handlers (l : list (option isr_t)) m : machine E := Machine (m_ticks m) l (m_tasks m) (m_ports m) (m_text m) (glob_regs m).
Definition set_kernel (k : kstate E) m : machine E := Machine (m_ticks m) (interrupt_handlers m) k (m_ports m) (m_text m) (glob_regs m).
Definition outs (l : list (Z * Z)) m : machine E := Machine (m_ticks m) (interrupt_handlers m) (m_tasks m) (m_ports m ++ l) (m_text m) (glob_regs m).
Definition said (l : list Z) m : machine E := Machine (m_ticks m) (interrupt_handlers m) (m_tasks m) (m_ports m) (m_text m ++ l) (glob_regs m).
Definition set_glob_regs (r : option registers) m : machine E := Machine (m_ticks m) (interrupt_handlers m) (m_tasks m) (m_ports m) (m_text m) r.

Definition on_tasks {A} (f : M (kstate E) A) : MM A := fun m =>
  match f (m_tasks m) with Ok (a, k) => Ok (a, set_kernel k m) | Fault => Fault | Fuel => Fuel end.

Definition tell (fmt : string) (args : list va) : MM Z :=
  Ktext.printf (fun size output m => Ok (0, said (take (Z.to_nat size) output) m)) (clit fmt) args.

Definition install (n : Z) (h : isr_t) : MM unit :=
  let! l := get_or_fault (fun m => register_interrupt_handler (interrupt_handlers m) n (Some h)) in modify (set_interrupt_handlers l).

(** ** kernel/time.c; [switch_task] goes on with another task *)

Definition timer_handler (regs : registers) (r : cpu) : MM bool :=
  do! modify (fun m => set_ticks (u32 (m_ticks m + 1)) m);
  do! on_tasks (switch_task r);
  ret false.

Definition setup_timer : MM unit :=
  do! modify (outs (set_pic_timer tick_rate));
  install IRQ0 TimerHandler.

(** ** mm/paging.c; [faultaddr] is what [cr2] holds *)

Definition fault_bit (err_code bit : Z) (inverted : bool) (s : string) : va :=
  VStr (Some (lit (if xorb (negb (Z.land err_code bit =? 0)) inverted then s else ""))).

Definition page_fault_handler (faultaddr : Z) (regs : registers) (r : cpu) : MM bool :=
  do! tell "\nPagefault at 0x%X: %s%s%s%s\n"
    [VWord faultaddr; fault_bit (err_code regs) 1 true "present "; fault_bit (err_code regs) 2 false "read-only ";
     fault_bit (err_code regs) 4 false "user-mode "; fault_bit (err_code regs) 8 false "reserved "];
  do! on_tasks (abort_current_process r);
  ret false.

(** ** kernel/dts.c *)

Definition call_handler (faultaddr : Z) (h : isr_t) (regs : registers) (r : cpu) : MM bool :=
  match h with
  | TimerHandler => timer_handler regs r
  | PageFaultHandler => page_fault_handler faultaddr regs r
  | Other name => other name regs r
  end.

(** How a trap ends: back in the interrupted program, in another one, or in the
    endless loop of an exception without a handler. *)
Inductive trap_end := Returned | Switched | Hung.

Definition isr (faultaddr : Z) (regs : registers) (r : cpu) : MM trap_end :=
  let! a := get_or_fault (fun m => isr_handler (interrupt_handlers m) (int_no regs)) in
  match a with
  | IsrCall h =>
      do! modify (set_glob_regs (Some regs));
      let! back := call_handler faultaddr h regs r in
      if back : bool then do! modify (set_glob_regs None); ret Returned else ret Switched
  | IsrHang msg =>
      do! tell "\nEIP 0x%X\n" [VWord (r_eip regs)];
      do! match msg with
          | Some s => tell "%s Exception\n" [VStr (Some (lit s))]
          | None => tell "unhandled interrupt: 0x%X\n" [VWord (u8 (Z.land (int_no regs) 0xFF))]
          end;
      ret Hung
  end.

Definition irq (regs : registers) (r : cpu) : MM trap_end :=
  let! ' (w, h) := get_or_fault (fun m => irq_handler (interrupt_handlers m) (int_no regs)) in
  do! modify (outs w);
  match h with
  | Some h => let! back := call_handler 0 h regs r in ret (if back : bool then Returned else Switched)
  | None => ret Returned
  end.

Definition with_int_no (n : Z) (regs : registers) : registers :=
  Registers (r_ds regs) (r_edi regs) (r_esi regs) (r_ebp regs) (r_esp regs) (r_ebx regs) (r_edx regs) (r_ecx regs) (r_eax regs)
    n (err_code regs) (r_eip regs) (r_cs regs) (r_eflags regs) (r_useresp regs) (r_ss regs).

(** Interrupts of the timer, one after the other; what the processor holds when
    each arrives. *)
Fixpoint timer_ticks (rs : list (registers * cpu)) : MM unit :=
  match rs with
  | [] => ret tt
  | (regs, r) :: rs => do! irq (with_int_no IRQ0 regs) r; timer_ticks rs
  end.
End traps.

(** ** Switching *)

Section switching.
Context {E : Type} `{TaskEnv E}.
Implicit Types k : kstate E.

(** The table has its cell behind the end, a used entry has its number, the
    current task is used and runs, and task 0 is used. *)
Record sched_ok k : Prop := {
  so_len : length (tasks k) = 65%nat;
  so_pid : forall i t, 0 <= i < NR_TASKS -> aget (tasks k) i = Some t -> pid t = i \/ pid t = NO_TASK;
  so_zero : exists t, aget (tasks k) 0 = Some t /\ pid t = 0;
  so_cur : 0 <= current k < NR_TASKS /\ exists t, aget (tasks k) (current k) = Some t /\ pid t = current k }.

(** What a task that does not run needs to go on. *)
Definition context (t : task) : cpu := Cpu (eip t) (esp t) (ebp t) (directory t) (u32 (kernel_stack t + KERNEL_STACK_SIZE)).
Definition saved k (i : Z) : option cpu := context <$> aget (tasks k) i.
Definition waits k (i : Z) : Prop := exists t, aget (tasks k) i = Some t /\ runnable t = true.
Definition resumed (r : cpu) (t : task) : cpu := Cpu (c_eip r) (c_esp r) (c_ebp r) (directory t) (u32 (kernel_stack t + KERNEL_STACK_SIZE)).

(** What [wake_blocked] does to a cell. *)
Definition woken (t : task) : task := if wakes t then set_state TASK_WAITING t else t.
Lemma woken_context t : context (woken t) = context t.
Proof. unfold woken. by case_match. Qed.
Lemma woken_runnable t : runnable t = true -> runnable (woken t) = true.
Proof. unfold woken, wakes, runnable. case_match eqn:Ew; [|done]. intros Hr. cbn. lia. Qed.

(** The cells after a switch from [t] at [c] to [n]. *)
Definition put_away (r : cpu) (t : task) : task :=
  let t := set_regs (c_eip r) (c_esp r) (c_ebp r) t in if state t =? TASK_RUNNING then set_state TASK_WAITING t else t.
Lemma put_away_pid r t : pid (put_away r t) = pid t.
Proof. unfold put_away. by case_match. Qed.
Lemma put_away_context r t : context (put_away r t) = resumed r t.
Proof. unfold put_away. by case_match. Qed.
Lemma put_away_runnable r t : state t = TASK_RUNNING -> pid t <> NO_TASK -> runnable (put_away r t) = true.
Proof. unfold put_away, runnable. cbn. intros -> Hp. cbn. by rewrite andb_true_r, negb_true_iff, Z.eqb_neq. Qed.

Definition switched (r : cpu) (c n : Z) (t u : task) (l : list task) (i : Z) : option task :=
  if i =? n then Some (set_state TASK_RUNNING u) else woken <$> (if i =? c then Some (put_away r t) else aget l i).

Lemma switch_task_run r k t : sched_ok k -> aget (tasks k) (current k) = Some t ->
  exists n u l, switch_task r k = Ok (tt, KState l n false (halted k) (context u) (env k)) /\ length l = 65%nat /\
    (forall i, aget l i = switched r (current k) n t u (tasks k) i) /\
    woken <$> (if n =? current k then Some (put_away r t) else aget (tasks k) n) = Some u /\
    (n = 0 \/ (current k < n < NR_TASKS /\ runnable u = true)) /\
    forall i v, current k < i < NR_TASKS -> aget (tasks k) i = Some v -> runnable v = true -> current k < n <= i.
Proof.
  intros [Hlen Hpid _ (Hc & t' & Ht' & Hp)] Ht. rewrite Ht in Ht'. injection Ht' as <-. set (c := current k) in *. unfold NR_TASKS in *.
  assert (Hset : aset (tasks k) c (put_away r t) = Some (<[Z.to_nat c := put_away r t]> (tasks k))) by (apply aset_Some; lia).
  set (l1 := <[Z.to_nat c := put_away r t]> (tasks k)) in *.
  assert (Hl1 : forall i, aget l1 i = if i =? c then Some (put_away r t) else aget (tasks k) i).
  { intros i. destruct (Z.eqb_spec i c) as [->|Hne]; [by eapply aget_aset_eq|by eapply aget_aset_ne]. }
  assert (Hlen1 : length l1 = 65%nat) by (unfold l1; by rewrite length_insert).
  destruct (schedule_next l1 c (put_away r t)) as (n & Hn & Hcase); [done|by rewrite Hl1, Z.eqb_refl|rewrite put_away_pid; lia|].
  rewrite put_away_pid, Hp in Hcase.
  assert (Hnb : 0 <= n < 64) by (unfold NR_TASKS in Hcase; lia).
  assert (Hwl : length (wake_blocked l1) = 65%nat) by by rewrite wake_blocked_length.
  destruct (aget_Some (wake_blocked l1) n) as [u Hu]; [lia|].
  exists n, u, (<[Z.to_nat n := set_state TASK_RUNNING u]> (wake_blocked l1)).
  assert (Hset2 : aset (wake_blocked l1) n (set_state TASK_RUNNING u) = Some (<[Z.to_nat n := set_state TASK_RUNNING u]> (wake_blocked l1)))
    by (apply aset_Some; lia).
  split; [|split; [by rewrite length_insert|split; [|split; [|split]]]].
  - unfold switch_task, cli. unfold bind at 1, modify. unfold bind at 1, gets. cbn [current set_interrupts].
    rewrite (bind_step _ _ _ _ _ (get_task_Ok c t (set_interrupts false k) Ht)).
    unfold bind at 1. unfold put_task at 1, upd_or_fault. cbn [tasks set_interrupts]. fold c. fold (put_away r t). rewrite Hset. cbn [mbind option_bind].
    unfold bind at 1, get_or_fault. cbn [tasks set_tasks]. rewrite Hn. unfold bind at 1. unfold bind at 1, modify.
    erewrite bind_step; [|reflexivity]. erewrite bind_step; [|apply get_task_Ok; exact Hu]. unfold bind at 1, put_task, upd_or_fault. cbn [tasks set_tasks set_current].
    rewrite Hset2. cbn [mbind option_bind]. reflexivity.
  - intros i. unfold switched. destruct (Z.eqb_spec i n) as [->|Hne]; [by eapply aget_aset_eq|].
    rewrite (aget_aset_ne _ _ _ _ _ (not_eq_sym Hne) Hset2), aget_wake, Hl1. done.
  - rewrite aget_wake, Hl1 in Hu. done.
  - destruct Hcase as [[-> _]|(Hn' & (v & Hv & Hr) & _)]; [by left|right]. split; [unfold NR_TASKS in *; lia|congruence].
  - intros i v Hi Hv Hr. assert (Hwi : aget (wake_blocked l1) i = Some (woken v)).
    { rewrite aget_wake, Hl1. replace (i =? c) with false by lia. by rewrite Hv. }
    destruct Hcase as [[_ Hno]|(Hn' & _ & Hno)].
    + pose proof (Hno i _ ltac:(unfold NR_TASKS; lia) Hwi) as Hf. rewrite woken_runnable in Hf by done. discriminate.
    + split; [lia|]. destruct (decide (n <= i)); [done|]. pose proof (Hno i _ ltac:(lia) Hwi) as Hf. rewrite woken_runnable in Hf by done. discriminate.
Qed.

(** A switch keeps the table in order and goes to a later waiting task, or to
    task 0; what the others saved stays, and a task that waits does not stop
    waiting before it runs. *)
Lemma switch_task_step r k t : sched_ok k -> aget (tasks k) (current k) = Some t ->
  exists k', switch_task r k = Ok (tt, k') /\ sched_ok k' /\
    (current k < current k' \/ current k' = 0) /\
    (forall i, current k < i < NR_TASKS -> waits k i -> current k < current k' <= i) /\
    (forall i, i <> current k -> saved k' i = saved k i) /\
    saved k' (current k) = Some (resumed r t) /\
    (forall i, i <> current k -> waits k i -> i = current k' \/ waits k' i) /\
    (state t = TASK_RUNNING -> current k = current k' \/ waits k' (current k)) /\
    (exists u, aget (tasks k') (current k') = Some u /\ state u = TASK_RUNNING) /\
    saved k' (current k') = Some (the_cpu k').
Proof.
  intros Hok Ht. destruct (switch_task_run r k t Hok Ht) as (n & u & l & Esw & Hl & Hcell & Hu & Hn & Hlater).
  destruct Hok as [Hlen Hpid (t0 & H0 & Hp0) (Hc & t' & Ht' & Hp)]. rewrite Ht in Ht'. injection Ht' as <-. set (c := current k) in *.
  assert (Hup : pid u = n).
  { destruct (Z.eqb_spec n c) as [->|Hne]; [injection Hu as <-; unfold woken; rewrite wake_pid, put_away_pid; done|].
    destruct (aget (tasks k) n) as [v|] eqn:Hv; [|done]. injection Hu as <-. unfold woken. rewrite wake_pid.
    destruct Hn as [->|[Hb Hr]]; [congruence|]. destruct (Hpid n v) as [|Hno]; [unfold NR_TASKS in *; lia|done|done|].
    exfalso. unfold woken in Hr. unfold runnable in Hr. rewrite wake_pid, Hno in Hr. discriminate. }
  eexists. split; [exact Esw|]. cbn [current tasks the_cpu]. unfold saved, waits. cbn [tasks]. unfold NR_TASKS in *.
  assert (Hcellp : forall i v, 0 <= i < 64 -> aget l i = Some v -> pid v = i \/ pid v = NO_TASK).
  { intros i v Hi. rewrite Hcell. unfold switched. destruct (Z.eqb_spec i n) as [->|]; [intros [= <-]; by left|].
    destruct (Z.eqb_spec i c) as [->|]; [intros [= <-]; left; unfold woken; by rewrite wake_pid, put_away_pid|].
    destruct (aget (tasks k) i) as [w|] eqn:Hw; [|done]. intros [= <-]. unfold woken. rewrite wake_pid. eapply Hpid; eauto. }
  assert (Hcn : aget l n = Some (set_state TASK_RUNNING u)) by (rewrite Hcell; unfold switched; by rewrite Z.eqb_refl).
  split; [|split; [lia|split; [|split; [|split; [|split; [|split; [|split]]]]]]].
  - split; cbn [tasks current]; [done|done| |split; [unfold NR_TASKS; lia|by eexists; split; [exact Hcn|]]].
    destruct (aget_Some l 0) as [v Hv]; [lia|]. exists v. split; [done|]. revert Hv. rewrite Hcell. unfold switched.
    destruct (Z.eqb_spec 0 n) as [<-|]; [by intros [= <-]|]. destruct (Z.eqb_spec 0 c) as [Hc0|]; [intros [= <-]|rewrite H0; intros [= <-]];
      unfold woken; rewrite wake_pid; [rewrite put_away_pid; congruence|done].
  - intros i Hi (v & Hv & Hr). by apply (Hlater i v).
  - intros i Hi. rewrite Hcell. unfold switched. replace (i =? c) with false by lia. destruct (Z.eqb_spec i n) as [->|].
    + replace (n =? c) with false in Hu by lia. destruct (aget (tasks k) n) as [v|]; [|done]. injection Hu as <-. cbn. f_equal.
      by rewrite <- (woken_context v).
    + destruct (aget (tasks k) i); [|done]. cbn. by rewrite woken_context.
  - rewrite Hcell. unfold switched. rewrite Z.eqb_refl. destruct (Z.eqb_spec c n) as [<-|].
    + rewrite Z.eqb_refl in Hu. injection Hu as <-. cbn. f_equal. by rewrite <- (put_away_context r t), <- (woken_context (put_away r t)).
    + cbn. by rewrite woken_context, put_away_context.
  - intros i Hi (v & Hv & Hr). destruct (Z.eqb_spec i n) as [|Hne]; [by left|right]. rewrite Hcell. unfold switched.
    replace (i =? n) with false by lia. replace (i =? c) with false by lia. rewrite Hv. eexists. split; [reflexivity|by apply woken_runnable].
  - intros Hs. destruct (Z.eqb_spec c n) as [|Hne]; [by left|right]. rewrite Hcell. unfold switched.
    replace (c =? n) with false by lia. rewrite Z.eqb_refl. eexists. split; [reflexivity|]. apply woken_runnable, put_away_runnable; [done|].
    rewrite Hp. unfold NO_TASK. lia.
  - eexists. by split.
  - rewrite Hcn. done.
Qed.

Lemma runs_not_waits k i t : aget (tasks k) i = Some t -> state t = TASK_RUNNING -> ~ waits k i.
Proof. intros Ht Hr (u & Hu & Hw). rewrite Ht in Hu. injection Hu as <-. unfold runnable in Hw. by rewrite Hr, andb_false_r in Hw. Qed.

(** Rounds of the table: a waiting task is reached with what it saved. *)
Fixpoint switches (rs : list cpu) : M (kstate E) unit :=
  match rs with [] => ret tt | r :: rs => do! switch_task r; switches rs end.

Definition distance (c j : Z) : nat := Z.to_nat (if c <? j then j - c else NR_TASKS - c + j).

Lemma switches_reach j x (rs : nat -> cpu) d : forall o k, (distance (current k) j <= d)%nat ->
  sched_ok k -> (exists u, aget (tasks k) (current k) = Some u /\ state u = TASK_RUNNING) ->
  0 <= j < NR_TASKS -> waits k j -> saved k j = Some x ->
  exists n k', (n <= d)%nat /\ switches (map rs (seq o n)) k = Ok (tt, k') /\ sched_ok k' /\ current k' = j /\ the_cpu k' = x /\
    exists u, aget (tasks k') j = Some u /\ state u = TASK_RUNNING.
Proof.
  induction d as [|d IH]; intros o k Hd Hok (t & Ht & Hrun) Hj Hw Hx;
    destruct (Hok) as [_ _ _ (Hc & _)];
    assert (Hcj : current k <> j) by (intros Hcj; rewrite <- Hcj in Hw; by eapply runs_not_waits).
  { unfold distance in Hd. unfold NR_TASKS in *. destruct (_ <? _) eqn:Ecj; lia. }
  destruct (switch_task_step (rs o) k t Hok Ht) as (k1 & E1 & Hok1 & Hup & Hlater & Hsaved & _ & Hwaits & _ & Hrun1 & Hcpu).
  destruct (Z.eq_dec (current k1) j) as [Hdone|Hnot].
  { exists 1%nat, k1. split; [lia|]. cbn [seq map switches]. rewrite (bind_step _ _ _ _ _ E1). split; [done|]. split; [done|]. split; [done|].
    rewrite <- (Hsaved j) in Hx by done. rewrite <- Hdone in Hx. split; [congruence|by rewrite <- Hdone]. }
  assert (Hok1' := Hok1). destruct Hok1' as [_ _ _ (Hc1 & _)].
  destruct (IH (S o) k1) as (n & k' & Hn & Esw & Hrest); [|done|done|done| |by rewrite Hsaved|].
  - assert (Hlj : current k < j -> current k < current k1 <= j) by (intros; apply Hlater; [unfold NR_TASKS in *; lia|done]).
    unfold distance, NR_TASKS in *. destruct (current k <? j) eqn:Ecj, (current k1 <? j) eqn:Ec1; lia.
  - destruct (Hwaits j) as [->|]; [done|done|done|done].
  - exists (S n), k'. split; [lia|]. cbn [seq map switches]. rewrite (bind_step _ _ _ _ _ E1). done.
Qed.
End switching.

(** ** The timer *)

Section timer.
Context {E : Type} `{TaskEnv E} (other : Z -> registers -> cpu -> M (machine E) bool).
Implicit Types m : machine E.

Definition timer_installed m : Prop := aget (interrupt_handlers m) IRQ0 = Some (Some TimerHandler).

Lemma setup_timer_installs m : length (interrupt_handlers m) = 256%nat ->
  exists m', setup_timer m = Ok (tt, m') /\ timer_installed m' /\ m_ports m' = m_ports m ++ set_pic_timer tick_rate /\ m_tasks m' = m_tasks m.
Proof.
  intros Hl. unfold setup_timer. erewrite bind_step; [|reflexivity]. unfold install.
  assert (Hs : register_interrupt_handler (interrupt_handlers m) IRQ0 (Some TimerHandler) =
    Some (<[32%nat := Some TimerHandler]> (interrupt_handlers m))) by (unfold register_interrupt_handler; change (u8 IRQ0) with 32; by rewrite aset_Some by lia).
  erewrite bind_step; [|unfold get_or_fault; cbn [outs interrupt_handlers]; by rewrite Hs]. eexists. split; [reflexivity|].
  split; [|done]. unfold timer_installed. cbn. rewrite list_lookup_insert_eq; [done|lia].
Qed.

Lemma timer_irq m regs r k : timer_installed m -> switch_task r (m_tasks m) = Ok (tt, k) ->
  irq other (with_int_no IRQ0 regs) r m =
    Ok (Switched, Machine (u32 (m_ticks m + 1)) (interrupt_handlers m) k (m_ports m ++ [(0x20, 0x20)]) (m_text m) (glob_regs m)).
Proof.
  intros Ht Hs. unfold irq. erewrite bind_step; [|unfold get_or_fault, irq_handler; cbn [int_no with_int_no]; rewrite Ht; reflexivity].
  cbn iota. erewrite bind_step; [|reflexivity]. cbn [call_handler].
  assert (Hh : forall m1 rg, m_tasks m1 = m_tasks m -> timer_handler rg r m1 = Ok (false, set_kernel k (set_ticks (u32 (m_ticks m1 + 1)) m1))).
  { intros m1 rg Hm. unfold timer_handler. erewrite bind_step; [|reflexivity].
    erewrite bind_step; [|unfold on_tasks; cbn [set_ticks m_tasks]; rewrite Hm, Hs; reflexivity]. reflexivity. }
  by erewrite bind_step; [|by apply Hh].
Qed.

Lemma timer_ticks_run (rs : list (registers * cpu)) : forall m k, timer_installed m -> 0 <= m_ticks m < 4294967296 ->
  switches (map snd rs) (m_tasks m) = Ok (tt, k) ->
  exists m', timer_ticks other rs m = Ok (tt, m') /\ m_tasks m' = k /\ m_ticks m' = u32 (m_ticks m + Z.of_nat (length rs)) /\
    m_text m' = m_text m /\ m_ports m' = m_ports m ++ replicate (length rs) (0x20, 0x20).
Proof.
  induction rs as [|[regs r] rs IH]; intros m k Ht Hb Hs; cbn [map switches timer_ticks length snd] in *.
  { injection Hs as <-. exists m. split_and!; [done|done|by rewrite Z.add_0_r, u32_id|done|by rewrite app_nil_r]. }
  apply bind_Ok in Hs as ([] & k1 & H1 & Hs). rewrite (bind_step _ _ _ _ _ (timer_irq m regs r k1 Ht H1)).
  destruct (IH (Machine (u32 (m_ticks m + 1)) (interrupt_handlers m) k1 (m_ports m ++ [(0x20, 0x20)]) (m_text m) (glob_regs m)) k)
    as (m' & E' & Hk & Hticks & Htext & Hports); [done|apply u32_range|done|].
  exists m'. split; [done|]. split; [done|]. cbn [m_ticks m_text m_ports] in *. split; [|split; [done|]].
  - rewrite Hticks. unfold u32. rewrite Zplus_mod_idemp_l. f_equal. lia.
  - by rewrite Hports, <- app_assoc.
Qed.

(** C8: Preemption is fair and a task goes on where it was interrupted: while
    only the timer interrupts, whatever the other tasks do with the processor,
    the running task runs again after at most 64 interrupts, with the
    instruction, the stack and the address space it was interrupted with and
    its own kernel stack; and every waiting task gets to run, with what it
    saved, within 64 interrupts. *)
Theorem timer_preempts_and_resumes m t (arrive : nat -> registers * cpu) :
  let k := m_tasks m in
  timer_installed m -> sched_ok k -> 0 <= m_ticks m < 4294967296 ->
  aget (tasks k) (current k) = Some t -> state t = TASK_RUNNING ->
  (exists n m', (1 <= n <= 64)%nat /\ timer_ticks other (map arrive (seq 0 n)) m = Ok (tt, m') /\
     current (m_tasks m') = current k /\ the_cpu (m_tasks m') = resumed (snd (arrive 0%nat)) t /\
     m_ticks m' = u32 (m_ticks m + Z.of_nat n)) /\
  (forall j x, 0 <= j < NR_TASKS -> waits k j -> saved k j = Some x ->
     exists n m', (1 <= n <= 64)%nat /\ timer_ticks other (map arrive (seq 0 n)) m = Ok (tt, m') /\
       current (m_tasks m') = j /\ the_cpu (m_tasks m') = x /\ m_ticks m' = u32 (m_ticks m + Z.of_nat n)).
Proof.
  intros k Hi Hok Hb Ht Hrun. set (rs := fun i => snd (arrive i)).
  assert (Hmap : forall n o, map snd (map arrive (seq o n)) = map rs (seq o n)) by (intros; by rewrite map_map).
  assert (Hlift : forall n k', switches (map rs (seq 0 n)) k = Ok (tt, k') -> exists m', timer_ticks other (map arrive (seq 0 n)) m = Ok (tt, m') /\
    m_tasks m' = k' /\ m_ticks m' = u32 (m_ticks m + Z.of_nat n)).
  { intros n k' Hs. rewrite <- Hmap in Hs. destruct (timer_ticks_run _ m k' Hi Hb Hs) as (m' & E' & Hk & Htk & _).
    exists m'. by rewrite length_map, length_seq in Htk. }
  destruct (Hok) as [_ _ _ (Hc & _)]. unfold NR_TASKS in Hc. split.
  - destruct (switch_task_step (rs 0%nat) k t Hok Ht) as (k1 & E1 & Hok1 & Hup & _ & _ & Hsv & _ & Hwait & Hrun1 & Hcpu).
    destruct (Z.eq_dec (current k1) (current k)) as [Hback|Hnot].
    { destruct (Hlift 1%nat k1) as (m' & Em & <- & Htk); [by cbn [seq map switches]; rewrite (bind_step _ _ _ _ _ E1)|].
      exists 1%nat, m'. split; [lia|]. split; [done|]. split; [done|]. split; [|done]. rewrite Hback, Hsv in Hcpu. by injection Hcpu as <-. }
    destruct (Hwait Hrun) as [|Hw]; [congruence|]. destruct (Hok1) as [_ _ _ (Hc1 & _)]. unfold NR_TASKS in Hc1.
    destruct (switches_reach (current k) (resumed (rs 0%nat) t) rs 63 1 k1) as (n & k' & Hn & E' & _ & Hcur & Hx & _);
      [unfold distance, NR_TASKS; destruct (current k1 <? current k) eqn:Ecj; lia|done|done|unfold NR_TASKS; lia|done|exact Hsv|].
    destruct (Hlift (S n) k') as (m' & Em & <- & Htk); [by cbn [seq map switches]; rewrite (bind_step _ _ _ _ _ E1)|].
    exists (S n), m'. split_and!; (done || lia).
  - intros j x Hj Hw Hx. unfold NR_TASKS in Hj.
    destruct (switches_reach j x rs 64 0 k) as (n & k' & Hn & E' & _ & Hcur & Hx' & (u & Hu & Hru));
      [unfold distance, NR_TASKS; destruct (current k <? j) eqn:Ecj; lia|done|by exists t|unfold NR_TASKS; lia|done|done|].
    destruct n as [|n].
    { injection E' as <-. exfalso. rewrite <- Hcur in Hw. exact (runs_not_waits _ _ _ Ht Hrun Hw). }
    destruct (Hlift (S n) k' E') as (m' & Em & <- & Htk). exists (S n), m'. split_and!; (done || lia).
Qed.
End timer.

(** ** The end of a process *)

(** What the end of a process needs of files and memory: closing and freeing
    succeed, and closing leaves the users alone. *)
Class EnvEnds (E : Type) `{TaskEnv E} : Prop := {
  ends_close : forall i f e, exists x f' e', env_close i f e = Ok ((x, f'), e') /\ t_uid f' = t_uid f /\ t_euid f' = t_euid f;
  ends_directory : forall d e, exists e', env_free_directory d e = Ok (tt, e');
  ends_free : forall p e, exists e', env_free p e = Ok (tt, e') }.

Section ending.
Context {E : Type} `{EnvEnds E}.
Implicit Types k : kstate E.

Definition with_env (e : E) k : kstate E := KState (tasks k) (current k) (interrupts k) (halted k) (the_cpu k) e.
Lemma on_env_run {A} (m : M E A) k a e : m (env k) = Ok (a, e) -> on_env m k = Ok (a, with_env e k).
Proof. intros Hm. unfold on_env. by rewrite Hm. Qed.

Lemma put_task_run i t u k : aget (tasks k) i = Some u ->
  exists l, put_task i t k = Ok (tt, set_tasks l k) /\ length l = length (tasks k) /\
    forall j, aget l j = if j =? i then Some t else aget (tasks k) j.
Proof.
  intros Hu. destruct (put_task_Ok i t u k Hu) as (l & Hl & E1). exists l. split; [done|]. split; [by eapply aset_length|].
  intros j. destruct (Z.eqb_spec j i) as [->|Hne]; [by eapply aget_aset_eq|by eapply aget_aset_ne].
Qed.

Definition same_users (f f' : task_fs) : Prop := t_uid f' = t_uid f /\ t_euid f' = t_euid f.

Lemma close_all_run n : forall k t, aget (tasks k) (current k) = Some t ->
  exists l e f, close_all n k = Ok (tt, with_env e (set_tasks l k)) /\ length l = length (tasks k) /\ same_users (tfs t) f /\
    forall j, aget l j = if j =? current k then Some (set_tfs f t) else aget (tasks k) j.
Proof.
  induction n as [|n IH]; intros k t Ht; cbn [close_all].
  { exists (tasks k), (env k), (tfs t). split; [by destruct k|]. split_and!; [done..|].
    intros j. destruct (Z.eqb_spec j (current k)) as [->|]; [rewrite Ht; by destruct t|done]. }
  erewrite bind_step; [|reflexivity]. rewrite (bind_step _ _ _ _ _ (get_task_Ok _ t k Ht)).
  destruct (ends_close (Z.of_nat n) (tfs t) (env k)) as (x & f & e & Ec & Hu & Heu). rewrite (bind_step _ _ _ _ _ (on_env_run _ k _ _ Ec)).
  destruct (put_task_run (current k) (set_tfs f t) t (with_env e k) Ht) as (l & El & Hl & Hlc). rewrite (bind_step _ _ _ _ _ El).
  destruct (IH (set_tasks l (with_env e k)) (set_tfs f t)) as (l' & e' & f' & E' & Hl' & Hf' & Hc'); [cbn; by rewrite Hlc, Z.eqb_refl|].
  exists l', e', f'. split; [exact E'|]. cbn [tasks set_tasks with_env current tfs] in *. split; [congruence|]. split.
  { destruct Hf' as [H1 H2]. cbn [tfs set_tfs] in *. split; congruence. }
  intros j. rewrite Hc', Hlc. destruct (Z.eqb_spec j (current k)); done.
Qed.

(** The signal of a child that ends: its sender is the child. *)
Lemma sys_kill_one p sign k t me : 0 < p < NR_TASKS -> 1 <= sign <= 32 ->
  aget (tasks k) (current k) = Some me -> aget (tasks k) p = Some t -> pid t <> NO_TASK ->
  exists x l, sys_kill p sign k = Ok (x, set_tasks l k) /\ length l = length (tasks k) /\
    forall j, aget l j = if j =? p then Some (match send_signal me t sign with Some s => set_signals s t | None => t end) else aget (tasks k) j.
Proof.
  unfold NR_TASKS. intros Hp Hs Hme Ht Halive. unfold sys_kill. replace ((sign <? 1) || (32 <? sign)) with false by lia.
  unfold get_current. erewrite bind_step; [|erewrite bind_step; [|reflexivity]; by apply get_task_Ok].
  replace (p =? 0) with false by lia. replace (p =? -1) with false by lia. replace (p <? -1) with false by lia.
  replace (NR_TASKS <? p) with false by (unfold NR_TASKS; lia). rewrite (bind_step _ _ _ _ _ (get_task_Ok _ t k Ht)).
  replace (pid t =? NO_TASK) with false by lia. destruct (send_signal me t sign) as [s|].
  - destruct (put_task_run p (set_signals s t) t k Ht) as (l & El & Hl & Hc). rewrite (bind_step _ _ _ _ _ El). by exists 0, l.
  - exists (- EPERM), (tasks k). split; [by destruct k|]. split; [done|]. intros j. destruct (Z.eqb_spec j p) as [->|]; [by rewrite Ht|done].
Qed.

(** Only the numbers decide whether the table is in order. *)
Lemma sched_ok_pids k k' : sched_ok k -> current k' = current k -> length (tasks k') = length (tasks k) ->
  (forall i, pid <$> aget (tasks k') i = pid <$> aget (tasks k) i) -> sched_ok k'.
Proof.
  intros [Hl Hp (t0 & Hz & Hp0) (Hc & tc & Htc & Hpc)] Hcur Hlen Hpids.
  assert (Hback : forall i t', aget (tasks k') i = Some t' -> exists t, aget (tasks k) i = Some t /\ pid t' = pid t).
  { intros i t' Ht'. specialize (Hpids i). rewrite Ht' in Hpids. destruct (aget (tasks k) i) as [t|]; [|done]. injection Hpids as Hpids. by exists t. }
  assert (Hforth : forall i t, aget (tasks k) i = Some t -> exists t', aget (tasks k') i = Some t' /\ pid t' = pid t).
  { intros i t Ht. specialize (Hpids i). rewrite Ht in Hpids. destruct (aget (tasks k') i) as [t'|]; [|done]. injection Hpids as Hpids. by exists t'. }
  split; [congruence| | |].
  - intros i t' Hi Ht'. destruct (Hback i t' Ht') as (t & Ht & ->). by eapply Hp.
  - destruct (Hforth 0 t0 Hz) as (t' & Ht' & Hpt'). exists t'. split; [done|congruence].
  - rewrite Hcur. split; [done|]. destruct (Hforth _ tc Htc) as (t' & Ht' & Hpt'). exists t'. split; [done|congruence].
Qed.

Lemma orphans_cells me l i : length l = 65%nat -> 0 <= i < NR_TASKS ->
  aget (map (orphan me) (take (Z.to_nat NR_TASKS) l) ++ drop (Z.to_nat NR_TASKS) l) i = orphan me <$> aget l i.
Proof.
  unfold NR_TASKS. intros Hl Hi. unfold aget. replace (i <? 0) with false by lia.
  rewrite lookup_app_l by (rewrite length_map, length_take; lia). etrans; [apply list_lookup_fmap|]. by rewrite lookup_take_lt by lia.
Qed.
Lemma orphans_behind me l : length l = 65%nat ->
  aget (map (orphan me) (take (Z.to_nat NR_TASKS) l) ++ drop (Z.to_nat NR_TASKS) l) NR_TASKS = aget l NR_TASKS.
Proof.
  intros Hl. unfold aget. cbn [Z.ltb]. replace (NR_TASKS <? 0) with false by done.
  rewrite lookup_app_r by (rewrite length_map, length_take; unfold NR_TASKS; lia). rewrite length_map, length_take, lookup_drop. f_equal. unfold NR_TASKS. lia.
Qed.
Lemma orphan_pid me t : pid (orphan me t) = pid t.
Proof. unfold orphan. by case_match. Qed.

(** The cells of the table just before the switch. *)
Definition ended (status : Z) (f : task_fs) (t : task) : task := set_exit_code status (set_state TASK_ZOMBIE (set_tfs f t)).
Definition told (me : task) (sign : Z) (t : task) : task := match send_signal me t sign with Some s => set_signals s t | None => t end.
Definition exit_cell (status : Z) (f : task_fs) (t : task) (c p : Z) (l : list task) (i : Z) : option task :=
  if i =? c then Some (ended status f t)
  else if i =? p then told t SIGCHLD <$> (orphan t <$> aget l i)
  else if i =? NR_TASKS then aget l i else orphan t <$> aget l i.

Lemma send_signal_same me me' t sign : same_users (tfs me) (tfs me') -> send_signal me' t sign = send_signal me t sign.
Proof. intros [Hu He]. unfold send_signal. by rewrite Hu, He. Qed.

Lemma told_pid me sign t : pid (told me sign t) = pid t.
Proof. unfold told. by case_match. Qed.

Lemma exit_until_switch status r k t p pt :
  sched_ok k -> 0 < current k -> aget (tasks k) (current k) = Some t ->
  parent t = p -> 0 < p < NR_TASKS -> p <> current k -> aget (tasks k) p = Some pt -> pid pt <> NO_TASK ->
  exists l e f, sys_exit status r k = (do! switch_task r; ret (- EGENERIC)) (with_env e (set_tasks l (set_interrupts false k))) /\
    length l = 65%nat /\ same_users (tfs t) f /\ forall i, 0 <= i <= NR_TASKS -> aget l i = exit_cell status f t (current k) p (tasks k) i.
Proof.
  intros [Hl _ _ (Hc & tc & Htc & Hpid)] Hpos Ht Hpar Hp Hne Hpt Halive. rewrite Ht in Htc. injection Htc as <-. set (c := current k) in *.
  unfold sys_exit. erewrite bind_step; [|reflexivity].
  unfold get_current at 1. erewrite bind_step; [|erewrite bind_step; [|reflexivity]; apply get_task_Ok; exact Ht].
  erewrite bind_step; [|reflexivity]. erewrite bind_step; [|reflexivity]. cbn [tasks set_interrupts].
  set (l1 := map (orphan t) (take (Z.to_nat NR_TASKS) (tasks k)) ++ drop (Z.to_nat NR_TASKS) (tasks k)).
  assert (Hself : orphan t t = t) by (unfold orphan; by replace (parent t =? pid t) with false by lia; rewrite andb_false_r).
  assert (Hl1 : length l1 = 65%nat) by (unfold l1; rewrite length_app, length_map, length_take, length_drop; unfold NR_TASKS; lia).
  assert (H1 : forall i, 0 <= i < NR_TASKS -> aget l1 i = orphan t <$> aget (tasks k) i) by (intros; by apply orphans_cells).
  assert (H1c : aget l1 c = Some t) by (rewrite H1 by done; rewrite Ht; cbn; by rewrite Hself).
  destruct (close_all_run (Z.to_nat NR_OPEN) (set_tasks l1 (set_interrupts false k)) t H1c) as (l2 & e2 & f & E2 & Hl2 & Hf & H2).
  erewrite bind_step; [|exact E2]. cbn [tasks set_tasks set_interrupts current] in H2, Hl2. fold c in H2.
  erewrite bind_step; [|reflexivity]. cbn [current with_env set_tasks set_interrupts]. fold c.
  assert (H2c : aget l2 c = Some (set_tfs f t)) by by rewrite H2, Z.eqb_refl.
  erewrite bind_step; [|apply get_task_Ok; exact H2c]. cbn [pid set_tfs]. replace (pid t =? 0) with false by lia.
  match goal with |- context [put_task c ?x] => change x with (ended status f t) end.
  match goal with |- context [bind (put_task _ _) _ ?k2] => destruct (put_task_run c (ended status f t) _ k2 H2c) as (l3 & E3 & Hl3 & H3) end.
  erewrite bind_step; [|exact E3]. cbn [tasks set_tasks with_env] in H3, Hl3. cbn [parent set_tfs]. rewrite Hpar.
  assert (H3c : aget l3 c = Some (ended status f t)) by by rewrite H3, Z.eqb_refl.
  assert (H3p : aget l3 p = Some (orphan t pt)).
  { rewrite H3, H2, H1 by lia. replace (p =? c) with false by lia. by rewrite Hpt. }
  match goal with |- context [bind (sys_kill _ _) _ ?k3] =>
    destruct (sys_kill_one p SIGCHLD k3 (orphan t pt) (ended status f t)) as (x & l4 & E4 & Hl4 & H4); [done|unfold SIGCHLD; lia|exact H3c|exact H3p|by rewrite orphan_pid|] end.
  erewrite bind_step; [|exact E4]. cbn [tasks set_tasks with_env] in H4, Hl4.
  destruct (ends_directory (directory t) e2) as (e5 & E5). erewrite bind_step; [|apply on_env_run; exact E5].
  destruct (ends_free (kernel_stack t) e5) as (e6 & E6). erewrite bind_step; [|apply on_env_run; exact E6].
  exists l4, e6, f. split; [reflexivity|]. split; [congruence|]. split; [done|].
  intros i Hi. rewrite H4, H3, H2. unfold exit_cell. fold c. destruct (Z.eqb_spec i p) as [->|Hip].
  - replace (p =? c) with false by lia. rewrite Hpt. cbn [fmap option_fmap option_map]. f_equal. unfold told.
    by rewrite (send_signal_same t (ended status f t) (orphan t pt) SIGCHLD Hf).
  - destruct (Z.eqb_spec i c) as [->|Hic]; [done|]. destruct (Z.eqb_spec i NR_TASKS) as [->|]; [by apply orphans_behind|]. apply H1. lia.
Qed.

Lemma exit_cell_pid status f t c p l i : aget l c = Some t -> pid <$> exit_cell status f t c p l i = pid <$> aget l i.
Proof.
  intros Ht. unfold exit_cell. destruct (Z.eqb_spec i c) as [->|]; [by rewrite Ht|]. destruct (aget l i) as [v|]; [|by repeat case_match].
  repeat case_match; cbn; by rewrite ?told_pid, ?orphan_pid.
Qed.

Lemma aget_none {A} (l : list A) i : ~ 0 <= i < Z.of_nat (length l) -> aget l i = None.
Proof. intros Hi. destruct (aget l i) eqn:Ha; [|done]. apply aget_inv in Ha as [Hb _]. lia. Qed.

Lemma ended_stays status r f t : let u := woken (put_away r (ended status f t)) in state u = TASK_ZOMBIE /\ exit_code u = status.
Proof. unfold woken, wakes, put_away. cbn. by rewrite andb_false_r. Qed.

Lemma told_woken me sign t s : send_signal me t sign = Some s -> 1 <= sign <= 32 -> pid t <> NO_TASK ->
  signals (woken (told me sign t)) = s /\ state (woken (told me sign t)) <> TASK_BLOCKED.
Proof.
  intros Hs Hsign Hp. unfold told. rewrite Hs. assert (Hnz : s <> 0).
  { unfold send_signal in Hs. case_match; [|done]. injection Hs as <-. intros [_ Hz]%Z.lor_eq_0_iff. revert Hz.
    rewrite Z.shiftl_mul_pow2, Z.mul_1_l by lia. rewrite u32_id; [|split; [lia|apply (Z.pow_lt_mono_r 2 _ 32); lia]]. intros Hz.
    pose proof (Z.pow_pos_nonneg 2 (sign - 1)). lia. }
  unfold woken, wakes. cbn [pid signals state set_signals]. replace (pid t =? NO_TASK) with false by lia. replace (s =? 0) with false by lia.
  cbn [negb andb]. destruct (Z.eqb_spec (state t) TASK_BLOCKED); cbn; split; done.
Qed.

End ending.

(** ** A concrete machine: task 0 runs, tasks 2 and 5 wait *)

#[local] Existing Instance Task.unit_env.
#[local] Instance unit_env_ends : EnvEnds unit.
Proof. split; [intros i f []; by exists 0, f, tt|intros d []; by exists tt|intros p []; by exists tt]. Qed.

Definition no_driver : Z -> registers -> cpu -> M (machine unit) bool := fun _ _ _ => ret true.
Definition sample_handlers : list (option isr_t) := <[14%nat := Some PageFaultHandler]> (<[32%nat := Some TimerHandler]> (no_handlers isr_t)).
Definition sample_machine (k : kstate unit) : machine unit := Machine 0 sample_handlers k [] [] None.
Definition sample_regs (n err : Z) : registers := Registers 0 0 0 0 0 0 0 0 0 n err 0x1000 0 0 0 0.

Lemma sched_ok_sample : sched_ok sample_kernel.
Proof.
  split; [reflexivity| |by eexists|split; [done|by eexists]].
  intros i t Hi Ht. destruct (sample_table_cells i t Ht) as [[-> ->]|[[-> ->]|[[-> ->]| ->]]]; (by left) || by right.
Qed.

Lemma timer_preempts_and_resumes_witness :
  let arrive n := (sample_regs 0 0, Cpu (0x100 + Z.of_nat n) 0x200 0x300 0 0) in
  (exists n m', timer_ticks no_driver (map arrive (seq 0 n)) (sample_machine sample_kernel) = Ok (tt, m') /\
     current (m_tasks m') = 0 /\ the_cpu (m_tasks m') = Cpu 0x100 0x200 0x300 100 (8000 + KERNEL_STACK_SIZE)) /\
  (exists n m', timer_ticks no_driver (map arrive (seq 0 n)) (sample_machine sample_kernel) = Ok (tt, m') /\ current (m_tasks m') = 5).
Proof.
  intros arrive.
  destruct (timer_preempts_and_resumes no_driver (sample_machine sample_kernel) (first_task 100 8000) arrive) as [(n & m' & _ & E1 & Hc & Hx & _) Hw];
    [reflexivity|exact sched_ok_sample|done|reflexivity|reflexivity|].
  split; [exists n, m'; split; [exact E1|split; [exact Hc|exact Hx]]|].
  destruct (Hw 5 (context (ready 5))) as (n5 & m5 & _ & E5 & Hc5 & _ & _); [done|by eexists|reflexivity|].
  exists n5, m5. split; [exact E5|exact Hc5].
Defined.

(** Task 5, a child of task 2, which waits for a signal, runs. *)
Definition child_kernel : kstate unit :=
  KState (<[5%nat := set_parent 2 (set_state TASK_RUNNING (ready 5))]> (<[2%nat := set_state TASK_BLOCKED (ready 2)]>
    (<[0%nat := set_state TASK_WAITING (first_task 100 8000)]> sample_table))) 5 true false (Cpu 0 0 0 0 0) tt.

Lemma sched_ok_child : sched_ok child_kernel.
Proof.
  apply (sched_ok_pids (KState sample_table 5 true false (Cpu 0 0 0 0 0) tt)); [|done|done|].
  - split; [reflexivity| |by eexists|split; [done|by eexists]].
    intros i t Hi Ht. destruct (sample_table_cells i t Ht) as [[-> ->]|[[-> ->]|[[-> ->]| ->]]]; (by left) || by right.
  - intros i. destruct (Z_le_gt_dec 0 i) as [Hi|Hi]; [|by rewrite !aget_none by (cbn; lia)].
    destruct (Z_lt_ge_dec i 65) as [Hi'|Hi']; [|by rewrite !aget_none by (cbn; lia)].
    rewrite <- (Z2Nat.id i) by lia. assert (Hb : (Z.to_nat i < 65)%nat) by lia. revert Hb. clear. generalize (Z.to_nat i). intros n Hb.
    do 65 (destruct n as [|n]; [reflexivity|]). lia.
Qed.


(** A page fault ends the process with status 0, as a normal end would; the
    message calls the page present when it is not, and read-only when it was
    written to. *)
Definition fault_words (e : Z) : list Z :=
  chars (if Z.testbit e 0 then "" else "present ") ++ chars (if Z.testbit e 1 then "read-only " else "") ++
  chars (if Z.testbit e 2 then "user-mode " else "") ++ chars (if Z.testbit e 3 then "reserved " else "").
Theorem page_fault_ends_process :
  map (fun e => match isr no_driver 0xB0001234 (sample_regs 14 e) (Cpu 1 2 3 0 0) (sample_machine child_kernel) with
                | Ok (Switched, m) => Some (m_text m, (fun t => (state t, exit_code t)) <$> aget (tasks (m_tasks m)) 5, current (m_tasks m))
                | _ => None
                end) (seqZ 0 16) =
  map (fun e => Some ([10] ++ chars "Pagefault at 0xB0001234: " ++ fault_words e ++ [10], Some (TASK_ZOMBIE, 0), 0)) (seqZ 0 16).
Proof. vm_compute. reflexivity. Qed.
