(* ===== verification/Urandom.v ===== *)
(** * Random numbers: [src/src/drivers/urandom.c]

    The floating-point numbers are those of [SpecFloat]: a [double] has a mantissa
    of 53 bits, a [long double] of the x87 one of 64; an operation on [long
    double] rounds once, an assignment to a [double] rounds again.  [now] is what
    [time(0)] answers. *)
From S2P Require Import Prelude CString.
From Stdlib Require Import SpecFloat.
Open Scope nup_scope.

Definition RAND_MAX : Z := 2147483647.

(** ** Numbers *)

Definition ld_prec : Z := 64.
Definition ld_emax : Z := 16384.
Definition d_prec : Z := 53.
Definition d_emax : Z := 1024.

(** The value rounded to another format. *)
Definition convert (prec emax : Z) (x : spec_float) : spec_float :=
  match x with
  | S754_finite s m e => binary_normalize prec emax (if s then Z.neg m else Z.pos m) e s
  | _ => x
  end.
Definition to_double : spec_float -> spec_float := convert d_prec d_emax.
Definition to_ld : spec_float -> spec_float := convert ld_prec ld_emax.
Definition ld_of_int (n : Z) : spec_float := binary_normalize ld_prec ld_emax n 0 false.
Definition d_of_int (n : Z) : spec_float := binary_normalize d_prec d_emax n 0 false.
(** Conversion to an integer cuts the fraction. *)
Definition cut (x : spec_float) : Z :=
  match x with
  | S754_finite s m e => (if s then -1 else 1) * (if 0 <=? e then Z.pos m * 2 ^ e else Z.pos m / 2 ^ (- e))
  | _ => 0
  end.
Definition ld_add := SFadd ld_prec ld_emax.
Definition ld_sub := SFsub ld_prec ld_emax.
Definition ld_mul := SFmul ld_prec ld_emax.
Definition ld_div := SFdiv ld_prec ld_emax.
Definition half : spec_float := S754_finite false 4503599627370496 (-53).

(** [while (x != x_)]; a number that is none is unequal to itself. *)
Fixpoint heron (fuel : nat) (a x x_ : spec_float) : res spec_float :=
  match fuel with
  | O => Fuel
  | S fuel =>
      if SFeqb x x_ then Ok x
      else
        let x_ := x in
        let x := to_double (ld_mul (ld_add (to_ld x_) (ld_div a (to_ld x_))) (to_ld half)) in
        heron fuel a x x_
  end.
Definition sqrt (fuel : nat) (a : spec_float) : res spec_float := heron fuel a (d_of_int 1) (d_of_int 0).

(** ** The generator *)

Record urandom := Urandom { urandom_state : Z; urandom_seed : Z }.

Definition srand (seed : Z) (u : urandom) : urandom :=
  if (seed =? 1) && negb (urandom_seed u =? 0) then Urandom (urandom_seed u) (urandom_seed u)
  else Urandom seed seed.

Section generator.
Context (fuel : nat) (now : Z).

Definition rand : M urandom Z := fun u =>
  let u := if urandom_state u =? 0 then srand (u32 now) u else u in
  match sqrt fuel (ld_of_int (urandom_state u)) with
  | Ok tmp =>
      let tmp := ld_mul (to_ld tmp) (ld_of_int 10) in
      let tmp := ld_sub tmp (ld_of_int (cut tmp)) in
      let n := cut (ld_mul (ld_of_int RAND_MAX) tmp) in
      Ok (s32 n, Urandom (u32 n) (urandom_seed u))
  | Fault => Fault
  | Fuel => Fuel
  end.

Definition drv_urandom_open : M urandom Z := do! modify (srand (u32 now)); ret 0.

(** The characters are stored from the last on. *)
Fixpoint fill_random (i : nat) (acc : list Z) : M urandom (list Z) :=
  match i with
  | O => ret acc
  | S i => let! r := rand in fill_random i (s8 (Z.rem r 0x100) :: acc)
  end.
Definition drv_urandom_read (size : Z) : M urandom (Z * list Z) :=
  let! buffer := fill_random (Z.to_nat size) [] in ret (s32 size, buffer).
End generator.

(** ** The root *)

Definition heron_next (a x_ : spec_float) : spec_float := to_double (ld_mul (ld_add (to_ld x_) (ld_div a (to_ld x_))) (to_ld half)).

(** [x] and [x_] after [n] rounds without an end. *)
Fixpoint heron_rounds (n : nat) (a x x_ : spec_float) : option (spec_float * spec_float) :=
  match n with
  | O => Some (x, x_)
  | S n => if SFeqb x x_ then None else heron_rounds n a (heron_next a x) x
  end.

Lemma heron_past n f a : forall x x_ y y_, heron_rounds n a x x_ = Some (y, y_) -> heron (n + f) a x x_ = heron f a y y_.
Proof.
  induction n as [|n IH]; intros x x_ y y_; cbn [heron_rounds Nat.add heron]; [by intros [= -> ->]|].
  case_match; [done|]. apply IH.
Qed.
Lemma heron_before n a : forall x x_ y f, heron_rounds n a x x_ = Some y -> (f <= n)%nat -> heron f a x x_ = Fuel.
Proof.
  induction n as [|n IH]; intros x x_ y f; cbn [heron_rounds]; [intros _ Hf; by replace f with O by lia|].
  case_match eqn:Ee; [done|]. intros Hr Hf. destruct f as [|f]; [done|]. cbn [heron]. rewrite Ee. eapply IH; [exact Hr|lia].
Qed.
(** What is no number stays none, and is never equal to itself. *)
Lemma heron_nan f a : forall x_, heron f a S754_nan x_ = Fuel.
Proof. induction f as [|f IH]; intros x_; [done|]. cbn [heron]. change (SFeqb S754_nan x_) with false. apply IH. Qed.

(** The root of zero is never found: the approximation falls to zero, 0 / 0 is
    not a number, and the loop compares it with itself for ever.  [rand] takes
    the root of zero when the clock says zero. *)
Theorem sqrt_zero_never_returns fuel : sqrt fuel (ld_of_int 0) = Fuel.
Proof.
  assert (Hr : heron_rounds 1077 (ld_of_int 0) (d_of_int 1) (d_of_int 0) = Some (S754_nan, S754_nan)) by (vm_compute; reflexivity).
  unfold sqrt. destruct (Nat.le_gt_cases fuel 1077) as [Hf|Hf]; [by eapply heron_before|].
  replace fuel with (1077 + (fuel - 1077))%nat by lia. rewrite (heron_past _ _ _ _ _ _ _ Hr). apply heron_nan.
Qed.

Theorem rand_at_epoch_never_returns fuel seed : rand fuel 0 (Urandom 0 seed) = Fuel.
Proof. unfold rand. cbn [urandom_state]. change (0 =? 0) with true. change (srand (u32 0) _) with (Urandom 0 0). cbn [urandom_state]. by rewrite sqrt_zero_never_returns. Qed.

(** Small states in 25 rounds: a number from 0 to [RAND_MAX], the same as the
    new state; it is 0, and the next call starts from the clock, exactly when the state is
    a perfect square. *)
Definition rand_ok (now n : Z) : bool :=
  match rand 25 now (Urandom n 3) with
  | Ok (r, u) => (0 <=? r) && (r <=? RAND_MAX) && (urandom_state u =? r) && (urandom_seed u =? 3) && eqb (r =? 0) (Z.sqrt n * Z.sqrt n =? n)
  | _ => false
  end.
Theorem rand_of_small_states now n : 0 < n <= 100 -> rand_ok now n = true.
Proof.
  intros Hn. transitivity (rand_ok 0 n).
  - unfold rand_ok, rand. cbn [urandom_state]. by replace (n =? 0) with false by lia.
  - assert (H : Forall (fun n => rand_ok 0 n = true) (seqZ 1 100)) by (apply List.Forall_forall, List.forallb_forall; vm_compute; reflexivity).
    apply (proj1 (Forall_forall _ _) H). apply elem_of_seqZ. lia.
Qed.

(** ** Reading and seeding *)

Section reading.
Context (fuel : nat) (now : Z).

Lemma rand_range u r u' : rand fuel now u = Ok (r, u') -> -2147483648 <= r < 2147483648.
Proof. unfold rand. destruct (sqrt _ _); [|done..]. intros [= <- _]. apply s32_range. Qed.

Lemma fill_random_length n : forall acc u l u', Forall (fun c => -128 <= c < 128) acc -> fill_random fuel now n acc u = Ok (l, u') ->
  length l = (n + length acc)%nat /\ Forall (fun c => -128 <= c < 128) l.
Proof.
  induction n as [|n IH]; intros acc u l u' Ha; cbn [fill_random]; [by intros [= <- <-]|].
  intros (r & u1 & _ & Hl)%bind_Ok. apply IH in Hl as [Hl Hf]; [|constructor; [apply s8_range|done]].
  cbn [length] in Hl. split; [lia|done].
Qed.

(** The whole buffer is filled with characters. *)
Theorem urandom_read_fills size u n l u' : 0 <= size < 2147483648 -> drv_urandom_read fuel now size u = Ok ((n, l), u') ->
  n = size /\ Z.of_nat (length l) = size /\ Forall (fun c => -128 <= c < 128) l.
Proof.
  unfold drv_urandom_read. intros Hs (b & u1 & Hb & Hr)%bind_Ok. injection Hr as <- <- <-.
  apply fill_random_length in Hb as [Hl Hf]; [|by constructor]. cbn [length] in Hl. rewrite s32_id by lia. split_and!; [done|lia|done].
Qed.

Fixpoint draws (n : nat) : M urandom (list Z) :=
  match n with
  | O => ret []
  | S n => let! r := rand fuel now in let! l := draws n in ret (r :: l)
  end.

(** [srand(1)] takes the last seed again: what was drawn since then is drawn
    once more, unless the state became 0 and the seed was taken from the clock. *)
Theorem srand_one_repeats s n u l u' : s <> 0 -> s <> 1 -> draws n (srand s u) = Ok (l, u') -> urandom_seed u' = s ->
  draws n (srand 1 u') = Ok (l, u').
Proof.
  intros H0 H1 Hd Hs. assert (E : srand 1 u' = srand s u).
  { unfold srand. rewrite Hs. replace (s =? 0) with false by lia. by replace (s =? 1) with false by lia. }
  by rewrite E.
Qed.
End reading.

Lemma srand_one_repeats_witness : exists l u', draws 25 7 5 (srand 2 (Urandom 0 0)) = Ok (l, u') /\ draws 25 7 5 (srand 1 u') = Ok (l, u').
Proof.
  destruct (draws 25 7 5 (srand 2 (Urandom 0 0))) as [[l u']| |] eqn:Hd; [|vm_compute in Hd; discriminate Hd..].
  exists l, u'. split; [done|]. apply (srand_one_repeats 25 7 2 5 (Urandom 0 0)); [done|done|exact Hd|].
  vm_compute in Hd. injection Hd as _ <-. reflexivity.
Defined.
Lemma urandom_read_fills_witness : exists n l u', drv_urandom_read 25 7 9 (Urandom 2 2) = Ok ((n, l), u') /\ length l = 9%nat.
Proof.
  destruct (drv_urandom_read 25 7 9 (Urandom 2 2)) as [[[n l] u']| |] eqn:Hd; [|vm_compute in Hd; discriminate Hd..].
  exists n, l, u'. split; [done|]. destruct (urandom_read_fills 25 7 9 (Urandom 2 2) n l u' ltac:(lia) Hd) as (_ & Hl & _). lia.
Defined.
