(* ===== verification/Frames.v ===== *)
(** * What file operations leave alone

    A computation is [Quiet] when it changes neither the open files nor the
    process's own fields, and gives no address out again.  Path lookup, the
    vnode cache and the operations of a file system are: [FsQuiet] is what the
    counting of open files ([Refs]) needs of a file system, and the initial ram
    disk's operations meet it. *)
From S2P Require Import Prelude CString Abi Vfs Namei Initrdfs.
Open Scope nup_scope.

Section quiet.
Context {F : Type}.
Implicit Types s : vstate F.
Local Abbreviation VM := (M (vstate F)).

Definition quiet_step s s' : Prop := files s' = files s /\ current_task s' = current_task s /\ next_ptr s <= next_ptr s'.
Definition Quiet {A} (m : VM A) : Prop := forall s a s', m s = Ok (a, s') -> quiet_step s s'.

#[export] Instance quiet_step_preorder : PreOrder quiet_step.
Proof.
  split; [intros s; by split_and!|]. intros s1 s2 s3 (F1 & T1 & N1) (F2 & T2 & N2). split_and!; [congruence|congruence|lia].
Qed.

Lemma quiet_bind {A B} (m : VM A) (f : A -> VM B) : Quiet m -> (forall a, Quiet (f a)) -> Quiet (bind m f).
Proof. intros Hm Hf s b s' (a & s1 & H1 & H2)%bind_Ok. etrans; [by eapply Hm|by eapply Hf]. Qed.
Lemma quiet_ret {A} (a : A) : Quiet (ret a).
Proof. by intros s b s' [= _ <-]. Qed.
Lemma quiet_gets {A} (f : vstate F -> A) : Quiet (gets f).
Proof. by intros s b s' [= _ <-]. Qed.
Lemma quiet_get_or_fault {A} (f : vstate F -> option A) : Quiet (get_or_fault f).
Proof. intros s b s'. unfold get_or_fault. destruct (f s); [|done]. by intros [= _ <-]. Qed.
Lemma quiet_nofuel {A} : Quiet (@nofuel _ A).
Proof. done. Qed.
Lemma quiet_fault {A} : Quiet (@fault _ A).
Proof. done. Qed.
Lemma quiet_modify f : (forall s, quiet_step s (f s)) -> Quiet (modify f).
Proof. intros Hf s b s' [= _ <-]. apply Hf. Qed.
End quiet.

Create HintDb frame.
#[export] Hint Resolve quiet_ret quiet_gets quiet_get_or_fault quiet_nofuel quiet_fault : frame.

(** Follows the definition of a computation down to calls in the hint base. *)
Ltac quiet :=
  lazymatch goal with
  | |- forall _, _ => intro; cbv beta; quiet
  | |- Quiet (bind _ _) => apply quiet_bind; quiet
  | |- Quiet (modify _) => apply quiet_modify; intros; split_and!; cbn; first [reflexivity | lia | idtac]
  | |- Quiet (match ?x with _ => _ end) => destruct x; quiet
  | |- Quiet _ => eauto with frame
  | |- _ => idtac
  end.

Section vfs_quiet.
Context {F : Type} `{FsOps F}.
Implicit Types s : vstate F.
Local Abbreviation VM := (M (vstate F)).

Lemma quiet_new_ptr : Quiet (new_ptr (F := F)).
Proof. intros s p s' [= <- <-]. split_and!; [done..|cbn; lia]. Qed.
Lemma quiet_get_vnode p : Quiet (get_vnode (F := F) p).
Proof. unfold get_vnode. quiet. Qed.
Lemma quiet_get_sb p : Quiet (get_sb (F := F) p).
Proof. unfold get_sb. quiet. Qed.
Lemma quiet_put_vnode p v : Quiet (put_vnode (F := F) p v).
Proof. unfold put_vnode. quiet. Qed.
Lemma quiet_put_sb p v : Quiet (put_sb (F := F) p v).
Proof. unfold put_sb. quiet. Qed.
Lemma quiet_free_vnode p : Quiet (free_vnode (F := F) p).
Proof. unfold free_vnode. quiet. Qed.
End vfs_quiet.
#[export] Hint Resolve quiet_new_ptr quiet_get_vnode quiet_get_sb quiet_put_vnode quiet_put_sb quiet_free_vnode : frame.

Section vfs_quiet_2.
Context {F : Type} `{FsOps F}.
Lemma quiet_upd_vnode p f : Quiet (upd_vnode (F := F) p f).
Proof. unfold upd_vnode. quiet. Qed.
Lemma quiet_inc_count p : Quiet (inc_count (F := F) p).
Proof. unfold inc_count. apply quiet_upd_vnode. Qed.
Lemma quiet_free_inode p : Quiet (free_inode (F := F) p).
Proof. unfold free_inode. quiet. Qed.
Lemma quiet_cache_find l i : Quiet (cache_find (F := F) l i).
Proof. induction l; cbn [cache_find]; quiet. Qed.
End vfs_quiet_2.
#[export] Hint Resolve quiet_upd_vnode quiet_inc_count quiet_free_inode quiet_cache_find : frame.

(** ** File systems *)

Definition quiet_op {A} (o : option A) (P : A -> Prop) : Prop := forall f, o = Some f -> P f.

Record fops_quiet {F} (o : file_operations F) : Prop := {
  fq_open : quiet_op (fo_open o) (fun f => forall n x, Quiet (f n x));
  fq_read : quiet_op (fo_read o) (fun f => forall n x y, Quiet (f n x y));
  fq_write : quiet_op (fo_write o) (fun f => forall n x y l, Quiet (f n x y l));
  fq_close : quiet_op (fo_close o) (fun f => forall n, Quiet (f n));
  fq_ioctl : quiet_op (fo_ioctl o) (fun f => forall n x y, Quiet (f n x y));
  fq_request : quiet_op (fo_request o) (fun f => forall n c x y l, Quiet (f n c x y l)) }.

Class FsQuiet (F : Type) `{FsOps F} : Prop := {
  quiet_lookup a o : iop_at a = Some o -> quiet_op (lookup o) (fun f => forall n name, Quiet (f n name));
  quiet_f_op a o : iop_at a = Some o -> quiet_op (f_op o) fops_quiet;
  quiet_read_inode a o : sop_at a = Some o -> quiet_op (read_inode o) (fun f => forall n, Quiet (f n));
  quiet_put_inode a o : sop_at a = Some o -> quiet_op (put_inode o) (fun f => forall n, Quiet (f n));
  quiet_read_super type b data : Quiet (read_super type b data) }.

Section fs_quiet.
Context {F : Type} `{FsQuiet F}.
Implicit Types s : vstate F.

Lemma sop_of_at sblk o : sop_of (F := F) sblk = Some o -> exists a, sop_at a = Some o.
Proof. unfold sop_of. case_match; [done|]. by exists (s_op sblk). Qed.
Lemma iop_of_at v o : iop_of (F := F) v = Some o -> exists a, iop_at a = Some o.
Proof. unfold iop_of. case_match; [done|]. by exists (i_op v). Qed.
Lemma fop_of_quiet v o : fop_of (F := F) v = Some o -> fops_quiet o.
Proof. unfold fop_of. case_match eqn:E; [|done]. apply iop_of_at in E as (a & Ha). by apply (quiet_f_op a). Qed.

Lemma quiet_call_put_inode sblk p : Quiet (call_put_inode (F := F) sblk p).
Proof.
  unfold call_put_inode. intros s x s' (o & s1 & Ho & Hr)%bind_Ok. unfold get_or_fault in Ho. destruct (sop_of sblk) as [o'|] eqn:E; [|done].
  injection Ho as -> <-. apply sop_of_at in E as (a & Ha). destruct (put_inode o) as [f|] eqn:Ef; [|by apply quiet_ret in Hr].
  by eapply (quiet_put_inode a o Ha f Ef).
Qed.

Lemma quiet_create_empty_inode b i : Quiet (create_empty_inode (F := F) b i).
Proof.
  unfold create_empty_inode. apply quiet_bind; [apply quiet_new_ptr|intros res]. apply quiet_bind; [apply quiet_get_sb|intros sblk].
  apply quiet_bind; [apply quiet_put_vnode|intros _]. intros s x s' (o & s1 & Ho & Hr)%bind_Ok. unfold get_or_fault in Ho.
  destruct (sop_of sblk) as [o'|] eqn:E; [|done]. injection Ho as -> <-. apply sop_of_at in E as (a & Ha).
  apply bind_Ok in Hr as (f & s1 & Hf & Hr). destruct (read_inode o) as [f'|] eqn:Ef; [|done]. injection Hf as -> <-.
  revert s x s' Hr. apply quiet_bind; [by apply (quiet_read_inode a o Ha f Ef)|]. quiet.
Qed.
End fs_quiet.
#[export] Hint Resolve quiet_call_put_inode quiet_create_empty_inode : frame.

Section fs_quiet_2.
Context {F : Type} `{FsQuiet F}.

Lemma quiet_iget b i : Quiet (iget (F := F) b i).
Proof. unfold iget. quiet. Qed.
Lemma quiet_iput p : Quiet (iput (F := F) p).
Proof. unfold iput. quiet. Qed.

(** A call through the table of a node. *)
Lemma quiet_open_fs node f : Quiet (open_fs (F := F) node f).
Proof.
  unfold open_fs. apply quiet_bind; [apply quiet_get_vnode|intros v]. destruct (fop_of v) as [o|] eqn:E; [|quiet].
  destruct (fo_open o) eqn:Eo; [|quiet]. apply (fq_open _ (fop_of_quiet _ _ E) _ Eo).
Qed.
Lemma quiet_read_fs node off sz : Quiet (read_fs (F := F) node off sz).
Proof.
  unfold read_fs. apply quiet_bind; [apply quiet_get_vnode|intros v]. destruct (IS_DIR v); [quiet|]. destruct (fop_of v) as [o|] eqn:E; [|quiet].
  destruct (fo_read o) eqn:Eo; [|quiet]. apply (fq_read _ (fop_of_quiet _ _ E) _ Eo).
Qed.
Lemma quiet_write_fs node off sz buffer : Quiet (write_fs (F := F) node off sz buffer).
Proof.
  unfold write_fs. apply quiet_bind; [apply quiet_get_vnode|intros v]. destruct (IS_DIR v); [quiet|]. destruct (fop_of v) as [o|] eqn:E; [|quiet].
  destruct (fo_write o) eqn:Eo; [|quiet]. apply (fq_write _ (fop_of_quiet _ _ E) _ Eo).
Qed.
Lemma quiet_close_fs node : Quiet (close_fs (F := F) node).
Proof.
  unfold close_fs. apply quiet_bind; [apply quiet_get_vnode|intros v]. destruct (fop_of v) as [o|] eqn:E; [|quiet].
  destruct (fo_close o) eqn:Eo; [|quiet]. apply (fq_close _ (fop_of_quiet _ _ E) _ Eo).
Qed.
Lemma quiet_ioctl_fs node cmd arg : Quiet (ioctl_fs (F := F) node cmd arg).
Proof.
  unfold ioctl_fs. apply quiet_bind; [apply quiet_get_vnode|intros v]. destruct (fop_of v) as [o|] eqn:E; [|quiet].
  destruct (fo_ioctl o) eqn:Eo; [|quiet]. apply (fq_ioctl _ (fop_of_quiet _ _ E) _ Eo).
Qed.
Lemma quiet_request_fs node cmd sector n buffer : Quiet (request_fs (F := F) node cmd sector n buffer).
Proof.
  unfold request_fs. apply quiet_bind; [apply quiet_get_vnode|intros v]. destruct (IS_DIR v); [quiet|]. destruct (fop_of v) as [o|] eqn:E; [|quiet].
  destruct (fo_request o) eqn:Eo; [|quiet]. apply (fq_request _ (fop_of_quiet _ _ E) _ Eo).
Qed.
End fs_quiet_2.
#[export] Hint Resolve quiet_request_fs quiet_iget quiet_iput quiet_open_fs quiet_read_fs quiet_write_fs quiet_close_fs quiet_ioctl_fs : frame.

(** ** Paths *)

Section namei_quiet.
Context {F : Type} `{FsQuiet F}.

Lemma quiet_resolve_mount fuel : forall node status steps, Quiet (resolve_mount (F := F) fuel node status steps).
Proof. induction fuel as [|fuel IH]; intros node status steps; cbn [resolve_mount]; quiet. Qed.
Lemma quiet_resolve_mounts node status : Quiet (resolve_mounts (F := F) node status).
Proof. unfold resolve_mounts. apply quiet_bind; [quiet|]. intros; apply quiet_resolve_mount. Qed.
Lemma quiet_match_name l name : Quiet (match_name (F := F) l name).
Proof. unfold match_name. quiet. Qed.
#[local] Hint Resolve quiet_resolve_mounts quiet_match_name : frame.

Lemma quiet_lookup_dentry node name status : Quiet (lookup_dentry (F := F) node name status).
Proof.
  unfold lookup_dentry. apply quiet_bind; [quiet|intros v]. apply quiet_bind; [quiet|intros task]. destruct (negb _); [quiet|].
  destruct (_ =? 0); [quiet|]. destruct (iop_of v) as [o|] eqn:E; [|quiet]. destruct (lookup o) as [f|] eqn:Ef; [|quiet].
  apply iop_of_at in E as (a & Ha). apply quiet_bind; [by apply (quiet_lookup a o Ha f Ef)|]. quiet.
Qed.
#[local] Hint Resolve quiet_lookup_dentry : frame.
Lemma quiet_getdentry fuel : forall node name status b, Quiet (getdentry (F := F) fuel node name status b).
Proof. induction fuel as [|fuel IH]; intros node name status b; cbn [getdentry]; quiet. Qed.
Lemma quiet_get_dentry node name status : Quiet (get_dentry (F := F) node name status).
Proof. unfold get_dentry. apply quiet_bind; [quiet|]. intros; apply quiet_getdentry. Qed.
#[local] Hint Resolve quiet_get_dentry : frame.
Lemma quiet_igetdir_loop fuel : forall node name status, Quiet (igetdir_loop (F := F) fuel node name status).
Proof. induction fuel as [|fuel IH]; intros node name status; cbn [igetdir_loop]; quiet. Qed.
#[local] Hint Resolve quiet_igetdir_loop : frame.
Lemma quiet_igetdir node name status : Quiet (igetdir (F := F) node name status).
Proof. unfold igetdir. quiet. Qed.
#[local] Hint Resolve quiet_igetdir : frame.
Lemma quiet_namei name status : Quiet (namei (F := F) name status).
Proof. unfold namei. quiet. Qed.
End namei_quiet.
#[export] Hint Resolve quiet_namei : frame.

(** ** The initial ram disk *)

Section initrd_quiet.
Context {F : Type} `{FsOps F} `{Sub initrd_state F} (INITRD_I_OPS : Z).
Local Abbreviation VM := (M (vstate F)).

Lemma quiet_discr_of b : Quiet (discr_of (F := F) b).
Proof. unfold discr_of. quiet. Qed.
Lemma quiet_image_at l : Quiet (image_at (F := F) l).
Proof. unfold image_at. quiet. Qed.
#[local] Hint Resolve quiet_discr_of quiet_image_at : frame.
Lemma quiet_initrd_of node : Quiet (initrd_of (F := F) node).
Proof. unfold initrd_of. quiet. Qed.
#[local] Hint Resolve quiet_initrd_of : frame.
Lemma quiet_initrd_read node offset sz : Quiet (initrd_read (F := F) node offset sz).
Proof. unfold initrd_read. quiet. Qed.
Lemma quiet_initrd_write node offset sz buffer : Quiet (initrd_write (F := F) node offset sz buffer).
Proof. unfold initrd_write. quiet. Qed.
Lemma quiet_initrd_read_inode node : Quiet (initrd_read_inode (F := F) INITRD_I_OPS node).
Proof. unfold initrd_read_inode. quiet. Qed.
Lemma initrd_f_ops_quiet : fops_quiet (initrd_f_ops (F := F)).
Proof. split; intros f; cbn; [done|intros [= <-]|intros [= <-]|done..]; intros; eauto using quiet_initrd_read, quiet_initrd_write. Qed.
Lemma quiet_initrd_lookup `{!FsQuiet F} dir name : Quiet (initrd_lookup (F := F) dir name).
Proof. unfold initrd_lookup. quiet. Qed.
Lemma quiet_read_initrd_sb `{!FsQuiet F} INITRD_S_OPS b data : Quiet (read_initrd_sb (F := F) INITRD_S_OPS b data).
Proof. unfold read_initrd_sb. quiet. Qed.
End initrd_quiet.
