(* ===== verification/Refs.v ===== *)
(** * Counting the descriptors of a file

    [f_count] of an open file is the number of descriptors that name it, in all
    processes.  Here is one process's side: [o p] descriptors of the others name
    the file at [p], and the operations of [Files] keep the count right and every
    descriptor valid. *)
From S2P Require Import Prelude CString Abi Vfs Namei Mount Files Frames.
Open Scope nup_scope.

(** The descriptors of a table that name [p]. *)
Fixpoint fds (p : Z) (l : list Z) : Z :=
  match l with [] => 0 | x :: l => (if x =? p then 1 else 0) + fds p l end.

Lemma fds_bound p l : 0 <= fds p l <= Z.of_nat (length l).
Proof. induction l as [|x l IH]; cbn [fds length]; [lia|]. case_match; lia. Qed.
Lemma fds_insert p l i x y : l !! i = Some x ->
  fds p (<[i := y]> l) = fds p l - (if x =? p then 1 else 0) + (if y =? p then 1 else 0).
Proof.
  revert i. induction l as [|z l IH]; intros [|i]; cbn; try done; [intros [= ->]; lia|]. intros Hi. rewrite IH by done. lia.
Qed.
Lemma fds_elem p l : p ∈ l -> 0 < fds p l.
Proof.
  induction l as [|x l IH]; [by intros ?%not_elem_of_nil|]. cbn [fds]. pose proof (fds_bound p l).
  intros [->|Hp]%elem_of_cons; [rewrite Z.eqb_refl; lia|]. specialize (IH Hp). case_match; lia.
Qed.
Lemma fds_none p l : Forall (fun x => x = 0) l -> p <> 0 -> fds p l = 0.
Proof. induction 1 as [|x l -> _ IH]; intros Hp; cbn [fds]; [done|]. replace (0 =? p) with false by lia. rewrite IH by done. lia. Qed.

Section refs.
Context {F : Type}.
Implicit Types s : vstate F.

(** The file at [p] is open while [D p] descriptors name it, and its count says
    so. *)
Record counted_files (D : Z -> Z) s : Prop := {
  cf_count p f : files s !! p = Some f -> f_count f = D p /\ 0 < D p;
  cf_open p : p <> 0 -> 0 < D p -> is_Some (files s !! p);
  cf_null : files s !! 0 = None;
  cf_ptr p : is_Some (files s !! p) -> p < next_ptr s;
  cf_next : 0 < next_ptr s }.

Lemma counted_files_ext D D' s s' : counted_files D s -> files s' = files s -> next_ptr s <= next_ptr s' -> (forall p, p <> 0 -> D' p = D p) ->
  counted_files D' s'.
Proof.
  intros [C O N P X] Hf Hn HD. assert (Hnz : forall p, is_Some (files s !! p) -> p <> 0) by (intros p [f Hp] ->; congruence).
  split; rewrite ?Hf.
  - intros p f Hp. rewrite HD by (apply Hnz; by eexists). by apply C.
  - intros p Hp. rewrite HD by done. by apply O.
  - done.
  - intros p Hp. specialize (P p Hp). lia.
  - lia.
Qed.

(** One file's count changes with the number of its descriptors. *)
Lemma counted_files_insert D D' s s' p f : counted_files D s -> p <> 0 -> p < next_ptr s' -> next_ptr s <= next_ptr s' ->
  files s' = <[p := f]> (files s) -> f_count f = D' p -> 0 < D' p -> (forall q, q <> 0 -> q <> p -> D' q = D q) -> counted_files D' s'.
Proof.
  intros [C O N P X] Hp Hlt Hn Hf Hc Hpos HD. assert (Hnz : forall p, is_Some (files s !! p) -> p <> 0) by (intros q [g Hq] ->; congruence).
  split; rewrite ?Hf.
  - intros q g Hq. destruct (decide (q = p)) as [->|Hne]; [rewrite lookup_insert_eq in Hq; by injection Hq as <-|].
    rewrite lookup_insert_ne in Hq by done. rewrite HD by (done || apply Hnz; by eexists). by apply C.
  - intros q Hq. destruct (decide (q = p)) as [->|Hne]; [rewrite lookup_insert_eq; by eexists|]. rewrite lookup_insert_ne, HD by done. by apply O.
  - by rewrite lookup_insert_ne.
  - intros q. destruct (decide (q = p)) as [->|Hne]; [done|]. rewrite lookup_insert_ne by done. intros Hq. specialize (P q Hq). lia.
  - lia.
Qed.
Lemma counted_files_delete D D' s s' p : counted_files D s -> p <> 0 -> next_ptr s <= next_ptr s' ->
  files s' = delete p (files s) -> D' p = 0 -> (forall q, q <> 0 -> q <> p -> D' q = D q) -> counted_files D' s'.
Proof.
  intros [C O N P X] Hp Hn Hf Hz HD. assert (Hnz : forall p, is_Some (files s !! p) -> p <> 0) by (intros q [g Hq] ->; congruence).
  split; rewrite ?Hf.
  - intros q g [Hne Hq]%lookup_delete_Some. rewrite HD by (done || apply Hnz; by eexists). by apply C.
  - intros q Hq Hpos. destruct (decide (q = p)) as [->|Hne]; [lia|]. rewrite lookup_delete_ne by done. apply O; [done|]. by rewrite <- HD.
  - destruct (decide (p = 0)); [done|]. by rewrite lookup_delete_ne.
  - intros q [g [_ Hq]%lookup_delete_Some]. specialize (P q ltac:(by eexists)). lia.
  - lia.
Qed.

(** The running process's side. *)
Definition table s : list Z := t_files (current_task s).
Record counted_by (o : Z -> Z) s : Prop := {
  cb_files : counted_files (fun p => o p + fds p (table s)) s;
  cb_len : length (table s) = 32%nat;
  cb_others p : 0 <= o p <= 4096 }.

Lemma counted_by_same o s s' : counted_by o s -> files s' = files s -> next_ptr s <= next_ptr s' -> table s' = table s -> counted_by o s'.
Proof.
  intros [C L O] Hf Hn Ht. split; [|by rewrite Ht|done]. eapply counted_files_ext; [exact C|done|done|]. intros p _. by rewrite Ht.
Qed.
Lemma counted_by_quiet {A} o (m : M (vstate F) A) s a s' : Quiet m -> counted_by o s -> m s = Ok (a, s') -> counted_by o s'.
Proof. intros Hq Hc Hm. apply Hq in Hm as (Hf & Ht & Hn). eapply counted_by_same; [done|done|done|]. unfold table. by rewrite Ht. Qed.

Lemma counted_file o s p f : counted_by o s -> files s !! p = Some f -> p <> 0 /\ f_count f = o p + fds p (table s) /\ 1 <= f_count f <= 4128.
Proof.
  intros [C L O] Hf. destruct (cf_count _ _ C p f Hf) as [Hc Hpos]. split; [intros ->; rewrite (cf_null _ _ C) in Hf; done|].
  split; [done|]. pose proof (fds_bound p (table s)). specialize (O p). lia.
Qed.
Lemma counted_table o s fd p : counted_by o s -> table s !! fd = Some p -> p <> 0 -> is_Some (files s !! p).
Proof.
  intros [C L O] Hp Hnz. apply (cf_open _ _ C p Hnz). pose proof (fds_elem p (table s) ltac:(by eapply list_elem_of_lookup_2)). specialize (O p). lia.
Qed.
End refs.

(** ** The system calls *)

Section calls.
Context {F : Type} `{FsQuiet F}.
Implicit Types s : vstate F.

Lemma counted_fds_ok o s : counted_by o s -> fds_ok s.
Proof. by intros [_ L _]. Qed.

Lemma get_fd_inv s fd p s' : get_fd fd s = Ok (p, s') -> s' = s /\ 0 <= fd /\ table s !! Z.to_nat fd = Some p.
Proof.
  unfold get_fd, get_or_fault, table. destruct (aget _ fd) as [q|] eqn:E; [|done]. intros [= -> <-]. apply aget_inv in E as [Hb E]. split_and!; [done|lia|done].
Qed.
Lemma get_file_inv s p f s' : get_file p s = Ok (f, s') -> s' = s /\ files s !! p = Some f.
Proof. unfold get_file, get_or_fault. destruct (files s !! p); [|done]. by intros [= -> <-]. Qed.

(** [sys_close] empties the descriptor, whatever it answers. *)
Lemma sys_close_counts o s fd x s' : counted_by o s -> sys_close fd s = Ok (x, s') ->
  counted_by o s' /\ (0 <= fd < 32 -> table s' = <[Z.to_nat fd := 0]> (table s)) /\ t_uid (current_task s') = t_uid (current_task s) /\
  t_euid (current_task s') = t_euid (current_task s).
Proof.
  intros Hc. pose proof (counted_fds_ok _ _ Hc) as Hl. unfold sys_close, NR_OPEN. destruct (_ || _) eqn:Eb; [intros [= <- <-]; split_and!; [done|lia|done..]|].
  intros (p & s1 & (-> & _ & Hp)%get_fd_inv & Hr)%bind_Ok. destruct (Z.eqb_spec p 0) as [->|Hnz].
  { injection Hr as <- <-. split_and!; [done| |done..]. intros _. by rewrite list_insert_id. }
  destruct (counted_table _ _ _ _ Hc Hp Hnz) as [f Hf]. destruct (counted_file _ _ _ _ Hc Hf) as (_ & Hcount & Hrange).
  rewrite (bind_run _ _ _ _ _ (get_file_Ok s p f Hf)), (bind_run _ _ _ _ _ (clear_cloexec_Ok s fd)) in Hr.
  rewrite (bind_run _ _ _ _ _ (put_fd_Ok (set_task (close_cloexec fd (current_task s)) s) fd 0 Hl ltac:(lia))) in Hr.
  replace (f_count f =? 0) with false in Hr by lia. cbn [negb] in Hr. rewrite u32_id in Hr by lia.
  set (s2 := set_task _ _) in Hr.
  assert (Ht2 : table s2 = <[Z.to_nat fd := 0]> (table s)) by done.
  assert (Hfds : forall q, fds q (<[Z.to_nat fd := 0]> (table s)) = fds q (table s) - (if p =? q then 1 else 0) + (if 0 =? q then 1 else 0))
    by (intros q; by apply fds_insert).
  destruct Hc as [C L O]. assert (Hlt : p < next_ptr s) by (apply (cf_ptr _ _ C); by eexists).
  unfold bind at 1, put_file, modify in Hr. destruct (Z.eqb_spec (f_count f - 1) 0) as [Hz|Hz].
  - set (s3 := set_files _ _) in Hr. apply bind_Ok in Hr as (y & s4 & Hclose & Hr). apply bind_Ok in Hr as ([] & s5 & Hput & Hr).
    unfold bind, ret in Hr. injection Hr as <- <-. apply quiet_close_fs in Hclose as (F4 & T4 & N4). apply quiet_iput in Hput as (F5 & T5 & N5).
    cbn [next_ptr s3 s2 set_files set_task] in N4. 
    assert (Ht : table (set_files (delete p (files s5)) s5) = <[Z.to_nat fd := 0]> (table s)) by (unfold table; cbn [current_task set_files]; by rewrite T5, T4).
    split; [|cbn [current_task set_files]; rewrite T5, T4; split_and!; [intros _; exact Ht|done|done]].
    split; [|by rewrite Ht, length_insert|done]. apply (counted_files_delete (fun q => o q + fds q (table s)) _ s _ p); [done|done|cbn; lia| | |].
    + cbn [files set_files]. rewrite F5, F4. cbn [files s3 set_files s2 set_task]. apply delete_insert_eq.
    + rewrite Ht, Hfds, Z.eqb_refl. replace (0 =? p) with false by lia. lia.
    + intros q Hq Hqp. rewrite Ht, Hfds. replace (p =? q) with false by lia. replace (0 =? q) with false by lia. lia.
  - injection Hr as <- <-. split; [|done]. split; [|by (unfold table; cbn; rewrite length_insert)|done].
    apply (counted_files_insert (fun q => o q + fds q (table s)) _ s _ p (File (f_fd f) (f_flags f) (f_node f) (f_offset f) (f_count f - 1)));
      [done|done|done|cbn; lia|done| | |]; change (table (set_files _ _)) with (<[Z.to_nat fd := 0]> (table s)); cbn [f_count].
    + rewrite Hfds, Z.eqb_refl. replace (0 =? p) with false by lia. lia.
    + rewrite Hfds, Z.eqb_refl. replace (0 =? p) with false by lia. lia.
    + intros q Hq Hqp. rewrite Hfds. replace (p =? q) with false by lia. replace (0 =? q) with false by lia. lia.
Qed.

(** The state without a close-on-exec mark, with another descriptor, with
    another offset of a file. *)
Lemma counted_clear o s fd : counted_by o s -> counted_by o (set_task (close_cloexec fd (current_task s)) s).
Proof. intros Hc. by apply (counted_by_same o s). Qed.
Lemma counted_offset o s p f off : counted_by o s -> files s !! p = Some f ->
  counted_by o (set_files (<[p := File (f_fd f) (f_flags f) (f_node f) off (f_count f)]> (files s)) s).
Proof.
  intros Hc Hf. destruct (counted_file _ _ _ _ Hc Hf) as (Hnz & Hcount & Hr). destruct Hc as [C L O]. split; [|done|done].
  apply (counted_files_insert (fun q => o q + fds q (table s)) _ s _ p (File (f_fd f) (f_flags f) (f_node f) off (f_count f)));
    [done|done|cbn; apply (cf_ptr _ _ C); by eexists|cbn; lia|done|exact Hcount|change (table (set_files _ _)) with (table s); lia|done].
Qed.
(** A new descriptor, at an empty place, and the file it names. *)
Lemma counted_add_fd o s fd p f coe : counted_by o s -> table s !! fd = Some 0 -> p <> 0 -> p < next_ptr s ->
  f_count f = o p + fds p (table s) + 1 ->
  counted_by o (set_files (<[p := f]> (files s)) (set_task (set_fds coe (<[fd := p]> (table s)) (current_task s)) s)).
Proof.
  intros [C L O] Hz Hp Hlt Hcount. pose proof (fds_bound p (table s)). pose proof (O p).
  assert (Hfds : forall q, q <> 0 -> fds q (<[fd := p]> (table s)) = fds q (table s) + (if p =? q then 1 else 0)).
  { intros q Hq. rewrite (fds_insert q _ _ 0) by done. replace (0 =? q) with false by lia. lia. }
  split; [|by (unfold table; cbn; rewrite length_insert)|done].
  apply (counted_files_insert (fun q => o q + fds q (table s)) _ s _ p f); [done|done|done|cbn; lia|done| | |];
    change (table (set_files _ _)) with (<[fd := p]> (table s)).
  - rewrite Hfds, Z.eqb_refl by done. lia.
  - rewrite Hfds, Z.eqb_refl by done. lia.
  - intros q Hq Hqp. rewrite Hfds by done. replace (p =? q) with false by lia. lia.
Qed.

Lemma counted_dup2 o s fd fd2 x s' : counted_by o s -> sys_dup2 fd fd2 s = Ok (x, s') -> counted_by o s'.
Proof.
  intros Hc. unfold sys_dup2, NR_OPEN. destruct (_ || _) eqn:Eb; [by intros [= <- <-]|].
  intros (p & s1 & (-> & _ & Hp)%get_fd_inv & Hr)%bind_Ok. destruct (p =? 0); [by injection Hr as <- <-|].
  apply bind_Ok in Hr as (r & s1 & Hclose & Hr). destruct (sys_close_counts _ _ _ _ _ Hc Hclose) as (Hc1 & Ht1 & _). specialize (Ht1 ltac:(lia)).
  rewrite (bind_run _ _ _ _ _ (clear_cloexec_Ok s1 fd2)) in Hr. set (s2 := set_task _ s1) in Hr.
  assert (Hc2 : counted_by o s2) by by apply counted_clear. assert (Ht2 : table s2 = table s1) by done.
  apply bind_Ok in Hr as (q & s3 & (-> & _ & Hq)%get_fd_inv & Hr).
  rewrite (bind_run _ _ _ _ _ (put_fd_Ok s2 fd2 q (counted_fds_ok _ _ Hc2) ltac:(lia))) in Hr.
  apply bind_Ok in Hr as (f & s3 & (-> & Hf)%get_file_inv & Hr). cbn [files set_task] in Hf.
  destruct (counted_file _ _ _ _ Hc2 Hf) as (Hnz & Hcount & Hrange). unfold bind, put_file, modify, ret in Hr. injection Hr as <- <-.
  rewrite u32_id by lia. apply (counted_add_fd o s2 (Z.to_nat fd2) q _ (t_close_on_exec (current_task s2))); [done| |done| |cbn [f_count]; lia].
  - rewrite Ht2, Ht1. apply list_lookup_insert_eq. destruct Hc as [_ L _]. lia.
  - apply (cf_ptr _ _ (cb_files _ _ Hc2)). by eexists.
Qed.
Lemma counted_dup o s fd x s' : counted_by o s -> sys_dup fd s = Ok (x, s') -> counted_by o s'.
Proof.
  intros Hc. unfold sys_dup. intros (t & s1 & Ht & Hr)%bind_Ok. injection Ht as <- <-. cbv zeta in Hr.
  destruct (NR_OPEN <=? _); [by injection Hr as <- <-|]. by eapply counted_dup2.
Qed.

Lemma counted_open o s filename flag mode status x s' : counted_by o s -> sys_open filename flag mode status s = Ok (x, s') -> counted_by o s'.
Proof.
  intros Hc. unfold sys_open. intros (t & s1 & Ht & Hr)%bind_Ok. injection Ht as <- <-. cbv zeta in Hr.
  destruct (NR_OPEN <=? _) eqn:Ef; [by injection Hr as <- <-|].
  assert (Hfd : exists i, table s !! i = Some 0 /\ free_fd (take (Z.to_nat NR_OPEN) (t_files (current_task s))) 0 = Z.of_nat i /\ (i < 32)%nat).
  { destruct (free_fd_spec (take (Z.to_nat NR_OPEN) (t_files (current_task s))) 0) as [(i & H1 & H2 & _)|[H1 _]].
    - exists i. apply lookup_take_Some in H1 as [H1 Hi]. unfold NR_OPEN in Hi. split_and!; [done|by rewrite H2|lia].
    - exfalso. rewrite H1 in Ef. rewrite length_take in Ef. destruct Hc as [_ L _]. unfold table in L. rewrite L in Ef. unfold NR_OPEN in Ef. lia. }
  destruct Hfd as (i & Hz & Hi & Hb). rewrite Hi in Hr. clear Hi Ef. unfold open_at in Hr.
  apply bind_Ok in Hr as (p & s1 & Hnew & Hr). injection Hnew as <- <-.
  apply bind_Ok in Hr as ([node st] & s2 & Hn & Hr). apply quiet_namei in Hn as (F2 & T2 & N2). cbn [files set_next_ptr current_task next_ptr] in F2, T2, N2.
  assert (Hc2 : counted_by o s2) by (apply (counted_by_same o s); [done|done|lia|by (unfold table; rewrite T2)]).
  destruct (node =? 0); [by injection Hr as <- <-|]. apply bind_Ok in Hr as (v & s3 & Hv & Hr).
  unfold get_vnode, get_or_fault in Hv. destruct (vnodes s2 !! node); [|done]. injection Hv as -> <-. cbv zeta in Hr.
  unfold bind at 1, put_file, modify in Hr. set (f := File _ _ _ _ _) in Hr.
  apply bind_Ok in Hr as (y & s4 & Ho & Hr). apply quiet_open_fs in Ho as (F4 & T4 & N4). cbn [files set_files current_task next_ptr] in F4, T4, N4.
  rewrite (bind_run _ _ _ _ _ (clear_cloexec_Ok s4 _)) in Hr.
  assert (Hl4 : fds_ok (set_task (close_cloexec (Z.of_nat i) (current_task s4)) s4)) by (unfold fds_ok; cbn; rewrite T4, T2; by destruct Hc as [_ L _]).
  rewrite (bind_run _ _ _ _ _ (put_fd_Ok _ (Z.of_nat i) (next_ptr s) Hl4 ltac:(lia))) in Hr. injection Hr as <- <-.
  assert (Hfresh : fds (next_ptr s) (table s) = 0 /\ o (next_ptr s) = 0).
  { destruct Hc as [C L O]. pose proof (fds_bound (next_ptr s) (table s)). pose proof (O (next_ptr s)). pose proof (cf_next _ _ C).
    destruct (Z_lt_ge_dec 0 (o (next_ptr s) + fds (next_ptr s) (table s))) as [Hd|]; [|lia].
    apply (cf_open _ _ C) in Hd; [|lia]. apply (cf_ptr _ _ C) in Hd. lia. }
  assert (Ht2 : table s2 = table s) by (unfold table; by rewrite T2).
  assert (Hadd := counted_add_fd o s2 i (next_ptr s) f (t_close_on_exec (current_task s2)) Hc2). rewrite Ht2 in Hadd.
  specialize (Hadd Hz ltac:(pose proof (cf_next _ _ (cb_files _ _ Hc)); lia) ltac:(lia) ltac:(cbn [f_count f]; lia)).
  eapply counted_by_same; [exact Hadd| | |].
  - by cbn [files set_task set_files].
  - cbn. lia.
  - unfold table. cbn. rewrite Nat2Z.id, T4, T2. done.
Qed.

Lemma counted_advance o s p sz x s' : counted_by o s -> advance p sz s = Ok (x, s') -> counted_by o s'.
Proof.
  intros Hc. unfold advance. intros (f & s1 & (-> & Hf)%get_file_inv & Hr)%bind_Ok. apply bind_Ok in Hr as (v & s1 & Hv & Hr).
  unfold get_vnode, get_or_fault in Hv. destruct (vnodes s !! f_node f); [|done]. injection Hv as -> <-.
  destruct (negb _); [|by injection Hr as _ <-]. unfold put_file, modify in Hr. injection Hr as _ <-. by apply counted_offset.
Qed.
Lemma counted_read o s fd sz x s' : counted_by o s -> sys_read fd sz s = Ok (x, s') -> counted_by o s'.
Proof.
  intros Hc. unfold sys_read. destruct (_ || _); [by intros [= <- <-]|]. intros (p & s1 & (-> & _ & Hp)%get_fd_inv & Hr)%bind_Ok.
  destruct (p =? 0); [by injection Hr as _ <-|]. apply bind_Ok in Hr as (f & s1 & (-> & Hf)%get_file_inv & Hr).
  destruct (test _ _); [by injection Hr as _ <-|]. apply bind_Ok in Hr as ([r buffer] & s1 & Hread & Hr).
  apply (counted_by_quiet o _ _ _ _ (quiet_read_fs _ _ _) Hc) in Hread. cbv zeta in Hr. apply bind_Ok in Hr as (y & s2 & Ha & Hr).
  injection Hr as _ <-. by eapply counted_advance.
Qed.
Lemma counted_write o s fd buffer sz x s' : counted_by o s -> sys_write fd buffer sz s = Ok (x, s') -> counted_by o s'.
Proof.
  intros Hc. unfold sys_write. destruct (_ || _); [by intros [= <- <-]|]. intros (p & s1 & (-> & _ & Hp)%get_fd_inv & Hr)%bind_Ok.
  destruct (p =? 0); [by injection Hr as _ <-|]. apply bind_Ok in Hr as (f & s1 & (-> & Hf)%get_file_inv & Hr).
  destruct (negb _); [by injection Hr as _ <-|]. apply bind_Ok in Hr as (r & s1 & Hwrite & Hr).
  apply (counted_by_quiet o _ _ _ _ (quiet_write_fs _ _ _ _) Hc) in Hwrite. cbv zeta in Hr. apply bind_Ok in Hr as (y & s2 & Ha & Hr).
  injection Hr as _ <-. by eapply counted_advance.
Qed.
Lemma counted_ioctl o s fd cmd arg x s' : counted_by o s -> sys_ioctl fd cmd arg s = Ok (x, s') -> counted_by o s'.
Proof.
  intros Hc. unfold sys_ioctl. destruct (_ || _); [by intros [= <- <-]|]. intros (p & s1 & (-> & _ & Hp)%get_fd_inv & Hr)%bind_Ok.
  destruct (p =? 0); [by injection Hr as _ <-|]. apply bind_Ok in Hr as (f & s1 & (-> & Hf)%get_file_inv & Hr).
  by apply (counted_by_quiet o _ _ _ _ (quiet_ioctl_fs _ _ _) Hc) in Hr.
Qed.

(** The directories of a process are no descriptors. *)
Lemma counted_directory o s name status (g : Z -> task_fs -> task_fs) x s' : (forall n t, t_files (g n t) = t_files t) -> counted_by o s ->
  (let! ' (node, status) := namei name status in
   if negb (node =? 0) then
     let! v := get_vnode node in
     if IS_DIR v then do! upd_task (g node); ret 0 else ret (- ENOTDIR)
   else ret status) s = Ok (x, s') -> counted_by o s'.
Proof.
  intros Hg Hc ([node st] & s1 & Hn & Hr)%bind_Ok. apply (counted_by_quiet o _ _ _ _ (quiet_namei _ _) Hc) in Hn. destruct (negb _); [|by injection Hr as _ <-].
  apply bind_Ok in Hr as (v & s2 & Hv & Hr). apply (counted_by_quiet o _ _ _ _ (quiet_get_vnode _) Hn) in Hv. destruct (IS_DIR v); [|by injection Hr as _ <-].
  unfold bind, upd_task, modify, ret in Hr. injection Hr as _ <-. apply (counted_by_same o s2); [done|done|cbn; lia|]. unfold table. cbn. by rewrite Hg.
Qed.
Lemma counted_chdir o s name status x s' : counted_by o s -> sys_chdir name status s = Ok (x, s') -> counted_by o s'.
Proof. intros Hc. apply (counted_directory o s name status (fun node t => set_pwd_root node (t_root t) t)); done. Qed.
Lemma counted_chroot o s name status x s' : counted_by o s -> sys_chroot name status s = Ok (x, s') -> counted_by o s'.
Proof.
  intros Hc. unfold sys_chroot. intros (t & s1 & Ht & Hr)%bind_Ok. injection Ht as <- <-. destruct (negb _); [by injection Hr as _ <-|].
  revert Hr. by apply (counted_directory o s name status (fun node t => set_pwd_root (t_pwd t) node t)).
Qed.
End calls.
