(* ===== verification/Kernel.v ===== *)
(** * Processes with their files and memory

    [Task] is proved against the interface [TaskEnv]; here is the kernel that
    provides it: closing and sharing of files is [Files] on the one file system
    state, memory is [Paging] on [Heap].  The invariant over all processes is
    that the count of every open file is the number of descriptors, in all
    processes, that name it: [files_counted]. *)
From S2P Require Import Prelude CString Abi Vfs Namei Mount Files Task Paging Heap Frames Refs.
Open Scope nup_scope.

(** ** Memory *)

(** What processes use of memory management. *)
Class MemEnv (P : Type) := {
  mem_clone_directory : Z -> M P Z;
  mem_free_directory : Z -> M P unit;
  mem_kmalloc_a : Z -> M P Z;
  mem_free : Z -> M P unit }.

(** [clone_directory] and [free_directory] of paging.c with the allocator of
    mm.c; [_kmalloc_a] is [_kmalloc_base(sz, NULL, 1)]. *)
Definition kernel_memory (fuel : nat) : MemEnv (pstate heap_state) :=
  let K := kalloc_heap fuel in
  {| mem_clone_directory := clone_directory;
     mem_free_directory := free_directory;
     mem_kmalloc_a sz := let! ' (r, _) := _kmalloc_base (@map_heap_page K) fuel kernel_page sz true false in ret r;
     mem_free := Paging.free |}.

Record kenv (F P : Type) := KEnv { kfs : vstate F; kmem : P }.
Arguments KEnv {F P}.
Arguments kfs {F P}.
Arguments kmem {F P}.

Section kernel.
Context {F P : Type} `{FsOps F} `{MemEnv P}.
Local Abbreviation KE := (M (kenv F P)).

Definition on_fs {A} (m : M (vstate F) A) : KE A := fun e =>
  match m (kfs e) with Ok (a, s) => Ok (a, KEnv s (kmem e)) | Fault => Fault | Fuel => Fuel end.
Definition on_mem {A} (m : M P A) : KE A := fun e =>
  match m (kmem e) with Ok (a, p) => Ok (a, KEnv (kfs e) p) | Fault => Fault | Fuel => Fuel end.

(** A file operation of the process whose fields are [t]. *)
Definition as_process {A} (t : task_fs) (m : M (vstate F) A) : M (vstate F) (A * task_fs) :=
  do! modify (set_task t); let! a := m in let! t := gets current_task in ret (a, t).

(** [file->count++] *)
Definition ref_file (p : Z) : M (vstate F) unit :=
  let! f := get_file p in put_file p (File (f_fd f) (f_flags f) (f_node f) (f_offset f) (u32 (f_count f + 1))).

#[export] Instance kernel_env : TaskEnv (kenv F P) := {
  env_clone_directory d := on_mem (mem_clone_directory d);
  env_free_directory d := on_mem (mem_free_directory d);
  env_kmalloc_a sz := on_mem (mem_kmalloc_a sz);
  env_free p := on_mem (mem_free p);
  env_ref_file p := on_fs (ref_file p);
  env_ref_vnode p := on_fs (inc_count p);
  env_close fd t := on_fs (as_process t (sys_close fd)) }.

Local Abbreviation K := (M (kstate (kenv F P))).

(** A file system call of the running process. *)
Definition file_call {A} (m : M (vstate F) A) : K A :=
  let! c := gets current in
  let! t := get_task c in
  let! ' (a, f) := on_env (on_fs (as_process (tfs t) m)) in
  do! put_task c (set_tfs f t);
  ret a.
End kernel.

(** ** All descriptors *)

Fixpoint sum_fds (p : Z) (l : list task) : Z :=
  match l with [] => 0 | t :: l => fds p (t_files (tfs t)) + sum_fds p l end.

Lemma sum_fds_insert p l i t u : l !! i = Some t ->
  sum_fds p (<[i := u]> l) = sum_fds p l - fds p (t_files (tfs t)) + fds p (t_files (tfs u)).
Proof.
  revert i. induction l as [|v l IH]; intros [|i]; cbn; try done; [intros [= ->]; lia|]. intros Hi. rewrite IH by done. lia.
Qed.
Lemma sum_fds_bound p l : Forall (fun t => length (t_files (tfs t)) = 32%nat) l -> 0 <= sum_fds p l <= 32 * Z.of_nat (length l).
Proof. induction 1 as [|t l Ht _ IH]; cbn [sum_fds length]; [lia|]. pose proof (fds_bound p (t_files (tfs t))). lia. Qed.
Lemma sum_fds_part p l i t : Forall (fun t => length (t_files (tfs t)) = 32%nat) l -> l !! i = Some t ->
  fds p (t_files (tfs t)) <= sum_fds p l.
Proof.
  intros Hall. revert i. induction Hall as [|v l Hv Hl IH]; intros [|i]; cbn; try done.
  - intros [= ->]. pose proof (sum_fds_bound p l Hl). lia.
  - intros Hi. specialize (IH i Hi). pose proof (fds_bound p (t_files (tfs v))). lia.
Qed.

Definition dead (t : task) : Prop := pid t = NO_TASK \/ state t = TASK_ZOMBIE.

(** A change of a table entry that files do not notice. *)
Definition tame (t u : task) : Prop := t_files (tfs u) = t_files (tfs t) /\ (dead u -> dead t) /\ (pid u = pid t \/ pid u = NO_TASK).
#[export] Instance tame_preorder : PreOrder tame.
Proof.
  split; [intros t; by split_and!; [..|left]|]. intros t u v (F1 & D1 & P1) (F2 & D2 & P2). split_and!; [congruence|tauto|].
  destruct P2 as [->|]; [done|by right].
Qed.
Lemma tame_state t x : x <> TASK_ZOMBIE -> tame t (set_state x t).
Proof. intros Hx. split_and!; [done|intros [Hp|Hs]; [by left|done]|by left]. Qed.
Lemma tame_same t u : pid u = pid t -> state u = state t -> tfs u = tfs t -> tame t u.
Proof. intros Hp Hs Hf. split_and!; [by rewrite Hf|unfold dead; by rewrite Hp, Hs|by left]. Qed.

Lemma tame_sum p l l' : Forall2 tame l l' -> sum_fds p l' = sum_fds p l.
Proof. induction 1 as [|t u l l' (Ht & _) _ IH]; cbn [sum_fds]; [done|]. by rewrite Ht, IH. Qed.
Lemma tame_map l (f : task -> task) : (forall t, tame t (f t)) -> Forall2 tame l (map f l).
Proof. intros Hf. induction l as [|t l IH]; constructor; [apply Hf|done]. Qed.
Lemma tame_aset l i t u l' : aget l i = Some t -> tame t u -> aset l i u = Some l' -> Forall2 tame l l'.
Proof.
  intros [_ Ht]%aget_inv Htu [_ ->]%aset_inv. rewrite <- (list_insert_id l (Z.to_nat i) t Ht) at 1.
  apply Forall2_insert; [by apply reflexivity|done].
Qed.
Lemma alive_tame l l' i t : Forall2 tame l l' -> aget l i = Some t -> ~ dead t -> exists u, aget l' i = Some u /\ ~ dead u /\ pid u = pid t.
Proof.
  intros Hl [Hi Ht]%aget_inv Halive. destruct (Forall2_lookup_l _ _ _ _ _ Hl Ht) as (u & Hu & _ & Hd & Hp). exists u. split.
  - unfold aget. by replace (i <? 0) with false by lia.
  - split; [tauto|]. destruct Hp as [|Hp]; [done|]. exfalso. apply Halive, Hd. by left.
Qed.

(** ** The invariant *)

Section counting.
Context {F P : Type} `{FsQuiet F} `{MemEnv P}.
Implicit Types k : kstate (kenv F P).
Implicit Types s : vstate F.
Local Abbreviation K := (M (kstate (kenv F P))).

(** The table without the cell behind it. *)
Definition own k : list task := take (Z.to_nat NR_TASKS) (tasks k).

Record files_counted k : Prop := {
  fc_files : counted_files (fun p => sum_fds p (own k)) (kfs (env k));
  fc_len : length (tasks k) = 65%nat;
  fc_table : Forall (fun t => length (t_files (tfs t)) = 32%nat) (own k);
  fc_dead : Forall (fun t => dead t -> Forall (fun p => p = 0) (t_files (tfs t))) (own k) }.

(** Task 0 is there, and the running process is neither free nor ended. *)
Record runs_alive k : Prop := {
  ra_zero : exists t, aget (tasks k) 0 = Some t /\ ~ dead t /\ pid t = 0;
  ra_cur : 0 <= current k < NR_TASKS;
  ra_alive : exists t, aget (tasks k) (current k) = Some t /\ ~ dead t }.

(** What changes tasks but not files. *)
Definition same_fs k k' : Prop := files (kfs (env k')) = files (kfs (env k)) /\ next_ptr (kfs (env k)) <= next_ptr (kfs (env k')).
Definition tame_step k k' : Prop := Forall2 tame (tasks k) (tasks k') /\ same_fs k k'.
#[export] Instance tame_step_preorder : PreOrder tame_step.
Proof.
  split; [intros k; split; [by apply reflexivity|split; [done|lia]]|].
  intros k1 k2 k3 [T1 [F1 N1]] [T2 [F2 N2]]. split; [by etrans|]. split; [congruence|lia].
Qed.

Lemma tame_counted k k' : files_counted k -> tame_step k k' -> files_counted k'.
Proof.
  intros [C L T D] [Ht [Hf Hn]]. assert (Ho : Forall2 tame (own k) (own k')) by (unfold own; by apply Forall2_take). split.
  - eapply counted_files_ext; [exact C|done|done|]. intros p _. by rewrite (tame_sum p _ _ Ho).
  - by rewrite <- (Forall2_length _ _ _ Ht).
  - clear -T Ho. induction Ho as [|t u l l' (Htu & _) _ IH]; constructor; apply Forall_cons in T as [Hd T]; [congruence|auto].
  - clear -D Ho. induction Ho as [|t u l l' (Htu & Hdu & _) _ IH]; constructor; apply Forall_cons in D as [Hd D]; [|auto].
    intros Hdead. rewrite Htu. by apply Hd, Hdu.
Qed.

Lemma put_task_tame i t u k x k' : aget (tasks k) i = Some t -> tame t u -> put_task i u k = Ok (x, k') ->
  tame_step k k' /\ current k' = current k /\ forall j, aget (tasks k') j = if j =? i then Some u else aget (tasks k) j.
Proof.
  intros Ht Htu (l & Hl & ->)%put_task_inv. split; [split; [by eapply tame_aset|split; [done|cbn; lia]]|]. split; [done|]. cbn [tasks set_tasks].
  intros j. destruct (Z.eqb_spec j i) as [->|Hne]; [by eapply aget_aset_eq|by eapply aget_aset_ne].
Qed.

(** *** Memory *)

Lemma on_mem_tame {A} (m : M P A) k x k' : on_env (on_mem m) k = Ok (x, k') -> tame_step k k' /\ current k' = current k /\ tasks k' = tasks k.
Proof.
  unfold on_env, on_mem. destruct (m (kmem (env k))) as [[a p]| |]; [|done..]. intros [= _ <-]. cbn.
  split; [split; [by apply reflexivity|split; [done|cbn; lia]]|done].
Qed.

(** *** Switching *)

Lemma woken_tame t : tame t (if wakes t then set_state TASK_WAITING t else t).
Proof. case_match; [by apply tame_state|done]. Qed.

Lemma schedule_cells l c l' n : schedule l c = Some (l', n) -> l' = wake_blocked l /\ (n = 0 \/ 0 <= n < NR_TASKS /\ exists t, aget l' n = Some t /\ runnable t = true).
Proof.
  unfold schedule. destruct (aget (wake_blocked l) c) as [t|]; [|done]. cbn [mbind option_bind].
  destruct (next_runnable 64 (wake_blocked l) (pid t + 1)) as [i|] eqn:Hi; [|done]. cbn [mbind option_bind]. intros [= <- <-]. split; [done|].
  assert (Hgen : forall fuel i j, next_runnable fuel (wake_blocked l) i = Some j -> j = NR_TASKS \/ exists t, aget (wake_blocked l) j = Some t /\ runnable t = true /\ j < NR_TASKS).
  { clear. induction fuel as [|fuel IH]; intros i j; cbn [next_runnable]; [intros [= <-]; by left|]. destruct (NR_TASKS <=? i) eqn:E; [intros [= <-]; by left|].
    destruct (aget (wake_blocked l) i) as [t|] eqn:Ht; [|done]. cbn [mbind option_bind]. destruct (runnable t) eqn:Hr; [intros [= <-]|apply IH].
    right. exists t. split_and!; [done|done|lia]. }
  destruct (Hgen _ _ _ Hi) as [->|(u & Hu & Hr & Hb)]; [by left|]. destruct (i =? NR_TASKS) eqn:E; [by left|right].
  split; [apply aget_inv in Hu as [Hb' _]; lia|by exists u].
Qed.

Lemma switch_task_keeps r k x k' : files_counted k -> (exists t, aget (tasks k) 0 = Some t /\ ~ dead t /\ pid t = 0) ->
  switch_task r k = Ok (x, k') -> files_counted k' /\ runs_alive k'.
Proof.
  intros Hfc (t0 & Hz & Hd0 & Hp0) Hr. unfold switch_task in Hr. apply bind_Ok in Hr as (y & k1 & Hx & Hr). injection Hx as _ <-.
  apply bind_Ok in Hr as (c & k1 & Hx & Hr). injection Hx as <- <-. apply bind_Ok in Hr as (t & k1 & (-> & Ht)%get_task_inv & Hr). cbv zeta in Hr.
  cbn [tasks current set_interrupts] in Ht, Hr. apply bind_Ok in Hr as (y2 & k1 & Hx & Hr).
  apply (put_task_tame _ t) in Hx as (T1 & C1 & _); [|done|]; cycle 1.
  { transitivity (set_regs (c_eip r) (c_esp r) (c_ebp r) t); [by apply tame_same|]. case_match; [by apply tame_state|done]. }
  apply bind_Ok in Hr as (l & k2 & Hx & Hr). injection Hx as <- <-. apply bind_Ok in Hr as ([l n] & k2 & Hs & Hr). unfold get_or_fault in Hs.
  destruct (schedule (tasks k1) (current k)) as [[l' n']|] eqn:Hsch; [|done]. injection Hs as -> -> <-. apply schedule_cells in Hsch as (-> & Hn).
  apply bind_Ok in Hr as (y3 & k2 & Hx & Hr). injection Hx as _ <-. apply bind_Ok in Hr as (y4 & k2 & Hx & Hr). injection Hx as _ <-.
  apply bind_Ok in Hr as (u & k2 & (-> & Hu)%get_task_inv & Hr). cbn [tasks set_tasks set_current] in Hu. apply bind_Ok in Hr as (y5 & k2 & Hx & Hr).
  injection Hr as _ <-. set (k3 := set_current n (set_tasks (wake_blocked (tasks k1)) k1)) in *.
  assert (T3 : tame_step k k3).
  { transitivity k1; [destruct T1 as [T1 S1]; by split|]. split; [apply tame_map; apply woken_tame|split; [done|cbn; lia]]. }
  apply (put_task_tame n u) in Hx as (T4 & C4 & Hc4); [|exact Hu|by apply tame_state].
  assert (T : tame_step k k2) by (transitivity k3; [done|exact T4]).
  destruct (alive_tame _ _ 0 t0 (proj1 T3) Hz Hd0) as (v0 & Hv0 & Hdv0 & Hpv0). destruct (alive_tame _ _ 0 t0 (proj1 T) Hz Hd0) as (w0 & Hw0 & Hdw0 & Hpw0).
  split; [apply (tame_counted k _ Hfc); exact T|]. split; cbn [tasks current set_cpu]; rewrite ?C4.
  - exists w0. split_and!; [done|done|congruence].
  - destruct Hn as [->|[Hb _]]; [done|exact Hb].
  - eexists. split; [change (current k3) with n; rewrite Hc4; by rewrite Z.eqb_refl|]. intros [Hp|Hs]; [|discriminate Hs]. cbn in Hp.
    destruct Hn as [->|(_ & v & Hv & Hrv)].
    + change (aget (tasks k3) 0 = Some u) in Hu. rewrite Hv0 in Hu. injection Hu as <-. apply Hdv0. by left.
    + rewrite Hv in Hu. injection Hu as <-. unfold runnable in Hrv. lia.
Qed.

(** *** Signals *)

Lemma signals_tame x t : tame t (set_signals x t).
Proof. by apply tame_same. Qed.
Lemma signal_all_tame me sel sign l : Forall2 tame l (fst (fst (signal_all me sel sign l))).
Proof.
  induction l as [|t l IH]; cbn [signal_all]; [constructor|]. destruct (signal_all me sel sign l) as [[l' found] perm]. cbn in IH.
  case_match; [case_match|]; constructor; try done; apply signals_tame.
Qed.
Lemma kill_where_tame sel sign k x k' : kill_where sel sign k = Ok (x, k') -> tame_step k k' /\ current k' = current k /\ Forall2 tame (tasks k) (tasks k').
Proof.
  unfold kill_where. intros (me & k1 & (-> & _)%get_current_inv & Hr)%bind_Ok. apply bind_Ok in Hr as (l & k1 & Hx & Hr). injection Hx as <- <-.
  pose proof (signal_all_tame me sel sign (take (Z.to_nat NR_TASKS) (tasks k))) as Ht. destruct (signal_all _ _ _ _) as [[l' found] perm]. cbn in Ht.
  apply bind_Ok in Hr as (y & k1 & Hx & Hr). injection Hx as _ <-. set (k1 := set_tasks _ k) in *.
  assert (Ht1 : Forall2 tame (tasks k) (tasks k1)).
  { cbn [tasks k1 set_tasks]. rewrite <- (take_drop (Z.to_nat NR_TASKS) (tasks k)) at 1. apply Forall2_app; [done|by apply reflexivity]. }
  assert (Hk1 : tame_step k k1) by (split; [done|split; [done|cbn; lia]]).
  destruct (negb found); [injection Hr as _ <-; done|]. destruct (negb perm); injection Hr as _ <-; done.
Qed.
Lemma sys_kill_tame p sign k x k' : sys_kill p sign k = Ok (x, k') -> tame_step k k' /\ current k' = current k.
Proof.
  unfold sys_kill. destruct (_ || _); [intros [= _ <-]; split; [by apply reflexivity|done]|].
  intros (me & k1 & (-> & _)%get_current_inv & Hr)%bind_Ok.
  destruct (p =? 0); [by apply kill_where_tame in Hr as (? & ? & _)|]. destruct (p =? -1); [by apply kill_where_tame in Hr as (? & ? & _)|].
  destruct (p <? -1); [by apply kill_where_tame in Hr as (? & ? & _)|].
  destruct (NR_TASKS <? p); [injection Hr as _ <-; split; [by apply reflexivity|done]|].
  apply bind_Ok in Hr as (t & k1 & (-> & Ht)%get_task_inv & Hr). destruct (pid t =? NO_TASK); [injection Hr as _ <-; split; [by apply reflexivity|done]|].
  destruct (send_signal me t sign); [|injection Hr as _ <-; split; [by apply reflexivity|done]].
  apply bind_Ok in Hr as (y & k1 & Hx & Hr). injection Hr as _ <-. apply (put_task_tame _ t) in Hx as (? & ? & _); [done|done|apply signals_tame].
Qed.

Lemma orphan_tame me t : tame t (orphan me t).
Proof. unfold orphan. case_match; by apply tame_same. Qed.

(** *** System calls on files *)

Lemma own_lookup k i t : aget (tasks k) i = Some t -> 0 <= i < NR_TASKS -> own k !! Z.to_nat i = Some t.
Proof. unfold own, NR_TASKS. intros [_ Ht]%aget_inv Hi. rewrite lookup_take_lt by lia. done. Qed.

Definition others k (i : Z) (t : task) (p : Z) : Z := sum_fds p (own k) - fds p (t_files (tfs t)).
Lemma counted_process k i t s : files_counted k -> aget (tasks k) i = Some t -> 0 <= i < NR_TASKS ->
  files s = files (kfs (env k)) -> next_ptr (kfs (env k)) <= next_ptr s -> current_task s = tfs t -> counted_by (others k i t) s.
Proof.
  intros [C L T D] Ht Hi Hf Hn Hs. pose proof (own_lookup _ _ _ Ht Hi) as Ho. split.
  - eapply counted_files_ext; [exact C|done|done|]. intros p _. unfold others, table. rewrite Hs. lia.
  - unfold table. rewrite Hs. by apply (Forall_lookup_1 _ _ _ _ T Ho).
  - intros p. unfold others. pose proof (sum_fds_bound p _ T). pose proof (sum_fds_part p _ _ _ T Ho).
    assert (length (own k) <= 64)%nat by (unfold own; rewrite length_take; unfold NR_TASKS; lia). pose proof (fds_bound p (t_files (tfs t))). lia.
Qed.

(** Back from the running process to all of them; an ended entry has no
    descriptors. *)
Lemma counted_back k k' i t u : files_counted k -> aget (tasks k) i = Some t -> 0 <= i < NR_TASKS ->
  aset (tasks k) i u = Some (tasks k') -> counted_by (others k i t) (kfs (env k')) -> table (kfs (env k')) = t_files (tfs u) ->
  (dead u -> Forall (fun p => p = 0) (t_files (tfs u))) -> files_counted k'.
Proof.
  intros [C L T D] Ht Hi [Hb Hset]%aset_inv Hc Htab Hdead. pose proof (own_lookup _ _ _ Ht Hi) as Ho.
  assert (Hown : own k' = <[Z.to_nat i := u]> (own k)) by (unfold own; rewrite Hset; unfold NR_TASKS in *; by rewrite take_insert_lt by lia).
  destruct Hc as [C' L' _]. split.
  - eapply counted_files_ext; [exact C'|done|lia|]. intros p _. rewrite Hown, (sum_fds_insert p _ _ t) by done. unfold others. rewrite Htab. lia.
  - rewrite Hset. by rewrite length_insert.
  - rewrite Hown. apply Forall_insert; [done|]. by rewrite <- Htab.
  - rewrite Hown. apply Forall_insert; [done|exact Hdead].
Qed.

Lemma as_process_inv {A} t (m : M (vstate F) A) s a f s' : as_process t m s = Ok ((a, f), s') -> m (set_task t s) = Ok (a, s') /\ f = current_task s'.
Proof.
  unfold as_process. intros (y & s1 & Hx & Hr)%bind_Ok. injection Hx as _ <-. apply bind_Ok in Hr as (b & s2 & Hm & Hr).
  apply bind_Ok in Hr as (g & s3 & Hg & Hr). injection Hg as <- <-. by injection Hr as <- <- <-.
Qed.
Lemma on_fs_inv {A} (m : M (vstate F) A) k a k' : on_env (on_fs m) k = Ok (a, k') ->
  exists s, m (kfs (env k)) = Ok (a, s) /\ k' = KState (tasks k) (current k) (interrupts k) (halted k) (the_cpu k) (KEnv s (kmem (env k))).
Proof. unfold on_env, on_fs. destruct (m (kfs (env k))) as [[b s]| |]; [|done..]. intros [= <- <-]. by exists s. Qed.

(** A call that keeps the counts of its process keeps them all. *)
Lemma file_call_counted {A} (m : M (vstate F) A) k a k' :
  (forall o s x s', counted_by o s -> m s = Ok (x, s') -> counted_by o s') ->
  files_counted k -> runs_alive k -> file_call m k = Ok (a, k') -> files_counted k' /\ runs_alive k'.
Proof.
  intros Hm Hfc [Hz Hcur (t & Ht & Halive)] Hr. unfold file_call in Hr. apply bind_Ok in Hr as (c & k1 & Hx & Hr). injection Hx as <- <-.
  apply bind_Ok in Hr as (t' & k1 & (-> & Ht')%get_task_inv & Hr). rewrite Ht in Ht'. injection Ht' as <-.
  apply bind_Ok in Hr as ([b f] & k1 & Hx & Hr). apply on_fs_inv in Hx as (s & Hs & ->). apply as_process_inv in Hs as (Hs & ->).
  apply bind_Ok in Hr as (y & k2 & Hx & Hr). injection Hr as _ <-. apply put_task_inv in Hx as (l & Hl & ->). cbn [tasks] in Hl.
  assert (Hc : counted_by (others k (current k) t) s).
  { eapply Hm; [|exact Hs]. by eapply counted_process. }
  split.
  - eapply (counted_back k _ (current k) t (set_tfs (current_task s) t)); [done|done|done|exact Hl|exact Hc|done|]. intros Hd. by destruct Halive.
  - split; cbn [tasks set_tasks current].
    + destruct (Z.eq_dec 0 (current k)) as [E|Hne].
      * rewrite <- E in Hl, Ht. destruct Hz as (t0 & Hz & Hp0). rewrite Ht in Hz. injection Hz as <-. eexists. split; [by eapply aget_aset_eq|done].
      * destruct Hz as (t0 & Hz & Hd0 & Hp0). exists t0. split; [|done]. by rewrite (aget_aset_ne _ _ _ _ _ (not_eq_sym Hne) Hl).
    + done.
    + eexists. split; [by eapply aget_aset_eq|]. intros Hd. by destruct Halive.
Qed.

(** *** The end of a process *)

Lemma counted_cell k k' i t u : files_counted k -> aget (tasks k) i = Some t -> 0 <= i < NR_TASKS -> aset (tasks k) i u = Some (tasks k') ->
  kfs (env k') = kfs (env k) -> t_files (tfs u) = t_files (tfs t) -> (dead u -> Forall (fun p => p = 0) (t_files (tfs u))) -> files_counted k'.
Proof.
  intros [C L T D] Ht Hi [Hb Hset]%aset_inv Hfs Hfu Hdead. pose proof (own_lookup _ _ _ Ht Hi) as Ho.
  assert (Hown : own k' = <[Z.to_nat i := u]> (own k)) by (unfold own; rewrite Hset; unfold NR_TASKS in *; by rewrite take_insert_lt by lia).
  split.
  - rewrite Hfs. eapply counted_files_ext; [exact C|done|lia|]. intros p _. rewrite Hown, (sum_fds_insert p _ _ t) by done. rewrite Hfu. lia.
  - rewrite Hset. by rewrite length_insert.
  - rewrite Hown. apply Forall_insert; [done|]. rewrite Hfu. by apply (Forall_lookup_1 _ _ _ _ T Ho).
  - rewrite Hown. by apply Forall_insert.
Qed.

Lemma close_all_counts n : forall k t x k', files_counted k -> 0 <= current k < NR_TASKS -> aget (tasks k) (current k) = Some t -> ~ dead t ->
  (n <= 32)%nat -> close_all n k = Ok (x, k') ->
  files_counted k' /\ current k' = current k /\ (forall j, j <> current k -> aget (tasks k') j = aget (tasks k) j) /\
  exists f, aget (tasks k') (current k) = Some (set_tfs f t) /\ length (t_files f) = 32%nat /\
    (forall j, (j < n)%nat -> t_files f !! j = Some 0) /\ forall j, (n <= j)%nat -> t_files f !! j = t_files (tfs t) !! j.
Proof.
  induction n as [|n IH]; intros k t x k' Hfc Hc Ht Halive Hn; cbn [close_all].
  { intros [= _ <-]. split_and!; try done. exists (tfs t). split_and!; [rewrite Ht; by destruct t| |intros; lia|done].
    apply (Forall_lookup_1 _ _ _ _ (fc_table _ Hfc) (own_lookup _ _ _ Ht Hc)). }
  intros (c & k1 & Hx & Hr)%bind_Ok. injection Hx as <- <-. apply bind_Ok in Hr as (t' & k1 & (-> & Ht')%get_task_inv & Hr). rewrite Ht in Ht'. injection Ht' as <-.
  apply bind_Ok in Hr as ([y f] & k1 & Hx & Hr). cbn [env_close kernel_env] in Hx. apply on_fs_inv in Hx as (s & Hs & ->). apply as_process_inv in Hs as (Hs & ->).
  apply bind_Ok in Hr as (z & k2 & Hx & Hr). apply put_task_inv in Hx as (l & Hl & ->). cbn [tasks] in Hl.
  assert (Hb : counted_by (others k (current k) t) (set_task (tfs t) (kfs (env k)))) by by eapply counted_process.
  destruct (sys_close_counts _ _ _ _ _ Hb Hs) as (Hb' & Htab & _). specialize (Htab ltac:(lia)). rewrite Nat2Z.id in Htab.
  set (k2 := set_tasks l _) in *. assert (Hcell : aget (tasks k2) (current k) = Some (set_tfs (current_task s) t)) by by eapply aget_aset_eq.
  assert (Hfc2 : files_counted k2).
  { eapply (counted_back k _ (current k) t (set_tfs (current_task s) t)); [done|done|done|exact Hl|exact Hb'|done|]. intros Hd. by destruct Halive. }
  destruct (IH k2 (set_tfs (current_task s) t) x k') as (H5 & H6 & H7 & f & H8 & H9 & H10 & H11); [done|done|done|done|lia|done|].
  split; [done|]. split; [done|]. split.
  - intros j Hj. rewrite H7 by done. by apply (aget_aset_ne _ _ _ _ _ (not_eq_sym Hj) Hl).
  - assert (Hlen : length (table (set_task (tfs t) (kfs (env k)))) = 32%nat) by by destruct Hb as [_ L _].
    exists f. split_and!; [done|done| |].
    + intros j Hj. destruct (decide (j = n)) as [->|]; [|apply H10; lia]. rewrite H11 by done. cbn [tfs set_tfs]. fold (table s). rewrite Htab.
      apply list_lookup_insert_eq. lia.
    + intros j Hj. rewrite H11 by lia. cbn [tfs set_tfs]. fold (table s). rewrite Htab. by rewrite list_lookup_insert_ne by lia.
Qed.

Lemma sys_exit_counted status r k x k' : files_counted k -> runs_alive k -> sys_exit status r k = Ok (x, k') ->
  files_counted k' /\ runs_alive k'.
Proof.
  intros Hfc [(t0 & Hz & Hd0 & Hp0) Hc (t & Ht & Halive)] Hr. unfold sys_exit in Hr. apply bind_Ok in Hr as (y1 & k1 & Hx & Hr). injection Hx as _ <-.
  apply bind_Ok in Hr as (me & k1 & (-> & Hme)%get_current_inv & Hr). apply bind_Ok in Hr as (l & k1 & Hx & Hr). injection Hx as <- <-.
  apply bind_Ok in Hr as (y2 & k1 & Hx & Hr). injection Hx as _ <-. set (k1 := set_tasks _ _) in *.
  assert (T1 : Forall2 tame (tasks k) (tasks k1)).
  { change (Forall2 tame (tasks k) (map (orphan me) (take (Z.to_nat NR_TASKS) (tasks k)) ++ drop (Z.to_nat NR_TASKS) (tasks k))).
    rewrite <- (take_drop (Z.to_nat NR_TASKS) (tasks k)) at 1. apply Forall2_app; [apply tame_map, orphan_tame|by apply reflexivity]. }
  assert (Hfc1 : files_counted k1) by (apply (tame_counted k); [done|]; split; [done|split; [done|cbn; lia]]).
  destruct (alive_tame _ _ 0 t0 T1 Hz Hd0) as (t1 & Hz1 & Hd1 & Hp1). destruct (alive_tame _ _ _ t T1 Ht Halive) as (u & Hu & Hdu & Hpu).
  apply bind_Ok in Hr as ([] & k2 & Hx & Hr).
  destruct (close_all_counts (Z.to_nat NR_OPEN) k1 u tt k2) as (Hfc2 & Hc2 & Hoth & f & Hcell & Hlen & Hzero & _);
    [done|done|done|done|unfold NR_OPEN; lia|done|]. change (current k1) with (current k) in *.
  assert (Hempty : Forall (fun p => p = 0) (t_files f)).
  { apply Forall_lookup_2. intros j p Hj. pose proof (lookup_lt_Some _ _ _ Hj). rewrite Hzero in Hj by (unfold NR_OPEN; lia). by injection Hj as <-. }
  apply bind_Ok in Hr as (c & k3 & Hx2 & Hr). injection Hx2 as <- <-. apply bind_Ok in Hr as (v & k3 & (-> & Hv)%get_task_inv & Hr).
  rewrite Hc2, Hcell in Hv. injection Hv as <-. cbn [pid set_tfs] in Hr.
  assert (Hz2 : exists t, aget (tasks k2) 0 = Some t /\ ~ dead t /\ pid t = 0).
  { destruct (Z.eq_dec 0 (current k)) as [E|Hne].
    - rewrite <- E in Hcell, Hu. rewrite Hz1 in Hu. injection Hu as <-. eexists. split; [exact Hcell|]. split; [done|cbn; congruence].
    - exists t1. rewrite (Hoth 0 Hne). split_and!; [done|done|congruence]. }
  destruct (Z.eqb_spec (pid u) 0) as [Hp|Hp].
  { apply bind_Ok in Hr as (y3 & k3 & Hx3 & Hr). injection Hx3 as _ <-. injection Hr as _ <-. split; [by apply (tame_counted k2)|].
    split; cbn [tasks current set_halted]; [done|by rewrite Hc2|]. eexists. rewrite Hc2. split; [exact Hcell|done]. }
  apply bind_Ok in Hr as (y3 & k3 & Hx3 & Hr). apply put_task_inv in Hx3 as (l & Hl & ->). rewrite Hc2 in Hl. set (k3 := set_tasks l k2) in *.
  assert (Hne : current k <> 0) by (intros E; rewrite E in Hu, Hcell; rewrite Hz1 in Hu; injection Hu as <-; congruence).
  assert (Hfc3 : files_counted k3).
  { eapply (counted_cell k2 _ (current k)); [done|exact Hcell|done|exact Hl|done|done|]. intros _. exact Hempty. }
  assert (Hz3 : exists t, aget (tasks k3) 0 = Some t /\ ~ dead t /\ pid t = 0).
  { destruct Hz2 as (w & Hw & Hrest). exists w. split; [|done]. change (aget l 0 = Some w). by rewrite (aget_aset_ne _ _ _ _ _ Hne Hl). }
  apply bind_Ok in Hr as (y4 & k4 & (T4 & _)%sys_kill_tame & Hr). apply bind_Ok in Hr as (y5 & k5 & Hx5 & Hr).
  cbn [env_free_directory kernel_env] in Hx5. apply on_mem_tame in Hx5 as (T5 & _). apply bind_Ok in Hr as (y6 & k6 & Hx6 & Hr).
  cbn [env_free kernel_env] in Hx6. apply on_mem_tame in Hx6 as (T6 & _). apply bind_Ok in Hr as (y7 & k7 & Hsw & Hr). injection Hr as _ <-.
  assert (T : tame_step k3 k6) by (do 2 (etrans; [eassumption|]); exact T6).
  apply switch_task_keeps in Hsw; [done|exact (tame_counted k3 _ Hfc3 T)|]. destruct Hz3 as (w & Hw & Hdw & Hpw).
  destruct (alive_tame _ _ 0 w (proj1 T) Hw Hdw) as (w' & ? & ? & ?). exists w'. split_and!; [done|done|congruence].
Qed.

(** *** The other calls on processes *)

Lemma tame_alive k k' : runs_alive k -> tame_step k k' -> current k' = current k -> runs_alive k'.
Proof.
  intros [(t0 & Hz & Hd0 & Hp0) Hc (t & Ht & Halive)] [T _] Hcur. split; rewrite ?Hcur; [|done|].
  - destruct (alive_tame _ _ 0 t0 T Hz Hd0) as (w & ? & ? & ?). exists w. split_and!; [done|done|congruence].
  - destruct (alive_tame _ _ _ t T Ht Halive) as (w & ? & ? & _). by exists w.
Qed.

Lemma sys_pause_counted r k x k' : files_counted k -> runs_alive k -> sys_pause r k = Ok (x, k') -> files_counted k' /\ runs_alive k'.
Proof.
  intros Hfc [(t0 & Hz & Hd0 & Hp0) Hc _] Hr. unfold sys_pause in Hr. apply bind_Ok in Hr as (c & k1 & Hx & Hr). injection Hx as <- <-.
  apply bind_Ok in Hr as (t & k1 & (-> & Ht)%get_task_inv & Hr). apply bind_Ok in Hr as (y & k1 & Hx & Hr).
  apply (put_task_tame _ t) in Hx as (T1 & _); [|done|by apply tame_state]. apply bind_Ok in Hr as (y2 & k2 & Hsw & Hr). injection Hr as _ <-.
  apply switch_task_keeps in Hsw; [done|exact (tame_counted k _ Hfc T1)|].
  destruct (alive_tame _ _ 0 t0 (proj1 T1) Hz Hd0) as (w & ? & ? & ?). exists w. split_and!; [done|done|congruence].
Qed.

(** A zombie is freed: it stays dead. *)
Lemma sys_waitpid_counted p statloc k x k' : files_counted k -> runs_alive k -> sys_waitpid p statloc k = Ok (x, k') ->
  files_counted k' /\ runs_alive k'.
Proof.
  intros Hfc Hra. unfold sys_waitpid. destruct (_ || _) eqn:Eb; [by intros [= _ <-]|]. intros (t & k1 & (-> & Ht)%get_task_inv & Hr)%bind_Ok.
  destruct (negb _) eqn:Es; [by injection Hr as _ <-|]. apply bind_Ok in Hr as (y & k1 & Hx & Hr). injection Hr as _ <-.
  assert (Hdead : dead t) by (right; lia).
  apply (put_task_tame _ t) in Hx as (T1 & C1 & _); [|done|split_and!; [done|done|by right]].
  split; [exact (tame_counted k _ Hfc T1)|exact (tame_alive _ _ Hra T1 C1)].
Qed.

(** *** Forking *)

Lemma fds_app p l l' : fds p (l ++ l') = fds p l + fds p l'.
Proof. induction l as [|x l IH]; cbn [app fds]; lia. Qed.
Lemma fds_rev p l : fds p (rev l) = fds p l.
Proof. induction l as [|x l IH]; cbn [rev fds]; [done|]. rewrite fds_app, IH. cbn [fds]. lia. Qed.

Lemma on_fs_tame {A} (m : M (vstate F) A) k x k' : Quiet m -> on_env (on_fs m) k = Ok (x, k') ->
  tame_step k k' /\ current k' = current k /\ tasks k' = tasks k.
Proof.
  intros Hq Hx. apply on_fs_inv in Hx as (s & Hm & ->). apply Hq in Hm as (Hf & _ & Hn). split; [|done]. split; [by apply reflexivity|]. by split.
Qed.

Lemma ref_file_counts D s p x s' : counted_files D s -> (forall q, D q < 4294967295) -> ref_file p s = Ok (x, s') ->
  counted_files (fun q => D q + (if p =? q then 1 else 0)) s'.
Proof.
  intros Hc Hb. unfold ref_file. intros (f & s1 & (-> & Hf)%get_file_inv & Hr)%bind_Ok. unfold put_file, modify in Hr. injection Hr as _ <-.
  destruct (cf_count _ _ Hc p f Hf) as [Hcount Hpos]. specialize (Hb p).
  apply (counted_files_insert D _ s _ p (File (f_fd f) (f_flags f) (f_node f) (f_offset f) (u32 (f_count f + 1)))); [done| | |cbn; lia|done| | |].
  - intros ->. rewrite (cf_null _ _ Hc) in Hf. done.
  - cbn. apply (cf_ptr _ _ Hc). by eexists.
  - cbn [f_count]. rewrite Z.eqb_refl, u32_id; lia.
  - rewrite Z.eqb_refl. lia.
  - intros q Hq Hqp. replace (p =? q) with false by lia. lia.
Qed.

Lemma ref_files_counted l : forall D k x k', counted_files D (kfs (env k)) -> (forall q, 0 <= D q /\ D q + Z.of_nat (length l) < 4294967295) ->
  ref_files l k = Ok (x, k') ->
  counted_files (fun q => D q + fds q l) (kfs (env k')) /\ tasks k' = tasks k /\ current k' = current k.
Proof.
  induction l as [|p l IH]; intros D k x k' Hc Hb; cbn [ref_files].
  { intros [= _ <-]. split; [|done]. eapply counted_files_ext; [exact Hc|done|lia|]. intros p _. cbn [fds]. lia. }
  cbn [length] in Hb. intros (y & k1 & Hx & Hr)%bind_Ok. destruct (Z.eqb_spec p 0) as [->|Hp]; cbn [negb] in Hx.
  - injection Hx as _ <-. apply (IH D) in Hr as (Hc' & Hrest); [|done|intros q; specialize (Hb q); lia]. split; [|done].
    eapply counted_files_ext; [exact Hc'|done|lia|]. intros q Hq. cbn [fds]. replace (0 =? q) with false by lia. lia.
  - cbn [env_ref_file kernel_env] in Hx. apply on_fs_inv in Hx as (s & Hs & ->).
    apply (ref_file_counts D) in Hs; [|done|intros q; specialize (Hb q); lia].
    apply (IH (fun q => D q + (if p =? q then 1 else 0))) in Hr as (Hc' & Ht & Hcur); [|exact Hs|intros q; specialize (Hb q); case_match; lia].
    split; [|done]. eapply counted_files_ext; [exact Hc'|done|lia|]. intros q _. cbn [fds]. lia.
Qed.

Lemma sys_fork_counted r k x k' : files_counted k -> runs_alive k -> sys_fork r k = Ok (x, k') -> files_counted k' /\ runs_alive k'.
Proof.
  intros Hfc Hra Hr. assert (Hra' := Hra). destruct Hra' as [_ Hc (t & Ht & Halive)]. unfold sys_fork in Hr.
  apply bind_Ok in Hr as (y1 & k1 & Hx & Hr). injection Hx as _ <-. apply bind_Ok in Hr as (c & k1 & Hx & Hr). injection Hx as <- <-.
  apply bind_Ok in Hr as (l & k1 & Hx & Hr). injection Hx as <- <-. cbn [tasks current set_interrupts] in Hr.
  apply bind_Ok in Hr as (i & k1 & Hx & Hr). unfold get_or_fault in Hx. destruct (free_slot _ (tasks k) 0) as [i'|] eqn:Ef; [|done].
  injection Hx as -> <-. apply free_slot_spec in Ef as (Hib & _ & Hfree); [|lia].
  assert (T0 : tame_step k (set_interrupts false k)) by (split; [by apply reflexivity|split; [done|cbn; lia]]).
  destruct (Z.eqb_spec i NR_TASKS) as [->|Hin]; [injection Hr as _ <-; split; [exact (tame_counted k _ Hfc T0)|exact (tame_alive _ _ Hra T0 eq_refl)]|].
  destruct Hfree as (d & Hd & Hdp); [unfold NR_TASKS in *; lia|].
  apply bind_Ok in Hr as (p & k1 & (-> & Hp)%get_task_inv & Hr). change (tasks (set_interrupts false k)) with (tasks k) in Hp. rewrite Ht in Hp. injection Hp as <-.
  apply bind_Ok in Hr as (dir & k1 & Hx & Hr). cbn [env_clone_directory kernel_env] in Hx. apply on_mem_tame in Hx as (T1 & C1 & E1).
  change (tasks (set_interrupts false k)) with (tasks k) in E1.
  apply bind_Ok in Hr as (y2 & k2 & Hx & Hr). apply put_task_inv in Hx as (l & Hl & ->). rewrite E1 in Hl. set (k2 := set_tasks l k1) in *.
  assert (Hib' : 0 <= i < NR_TASKS) by (unfold NR_TASKS in *; lia).
  assert (Hic : i <> current k) by (intros ->; rewrite Ht in Hd; injection Hd as <-; by apply Halive; left).
  apply bind_Ok in Hr as (y3 & k3 & Hx & Hr).
  assert (Hown : own k2 = <[Z.to_nat i := forked i dir t]> (own k)).
  { unfold own. change (tasks k2) with l. apply aset_inv in Hl as [_ ->]. unfold NR_TASKS in *. by rewrite take_insert_lt by lia. }
  assert (Hempty : forall q, q <> 0 -> fds q (t_files (tfs d)) = 0).
  { intros q Hq. apply fds_none; [|done]. apply (Forall_lookup_1 _ _ _ _ (fc_dead _ Hfc) (own_lookup _ _ _ Hd Hib')). by left. }
  assert (Hsum : forall q, q <> 0 -> sum_fds q (own k2) = sum_fds q (own k) + fds q (rev (t_files (tfs t)))).
  { intros q Hq. rewrite Hown, (sum_fds_insert q _ _ d) by (by apply own_lookup). rewrite Hempty by done. cbn [tfs forked]. rewrite fds_rev. lia. }
  assert (Hlen : length (t_files (tfs t)) = 32%nat) by apply (Forall_lookup_1 _ _ _ _ (fc_table _ Hfc) (own_lookup _ _ _ Ht Hc)).
  apply (ref_files_counted _ (fun q => sum_fds q (own k))) in Hx as (Hcf3 & E3 & C3); cycle 1.
  { destruct T1 as [_ [Hf1 Hn1]]. eapply counted_files_ext; [exact (fc_files _ Hfc)|exact Hf1|exact Hn1|done]. }
  { intros q. rewrite length_rev, Hlen. pose proof (sum_fds_bound q _ (fc_table _ Hfc)).
    assert (length (own k) <= 64)%nat by (unfold own; rewrite length_take; unfold NR_TASKS; lia). lia. }
  assert (Hfc3 : files_counted k3).
  { assert (Hown3 : own k3 = own k2) by (unfold own; by rewrite E3). split.
    - eapply counted_files_ext; [exact Hcf3|done|lia|]. intros q Hq. rewrite Hown3. by apply Hsum.
    - rewrite E3. change (tasks k2) with l. apply aset_inv in Hl as [_ ->]. rewrite length_insert. apply (fc_len _ Hfc).
    - rewrite Hown3, Hown. apply Forall_insert; [apply (fc_table _ Hfc)|exact Hlen].
    - rewrite Hown3, Hown. apply Forall_insert; [apply (fc_dead _ Hfc)|]. intros [Hp|Hs]; [cbn in Hp; unfold NO_TASK in Hp; lia|discriminate Hs]. }
  assert (Hra3 : runs_alive k3).
  { destruct Hra as [(t0 & Hz & Hd0 & Hp0) _ _]. assert (Hcur3 : current k3 = current k) by (rewrite C3; exact C1).
    split; rewrite ?Hcur3, ?E3; change (tasks k2) with l; [|done|].
    - exists t0. split; [|done]. destruct (Z.eq_dec i 0) as [->|Hi0]; [|by rewrite (aget_aset_ne _ _ _ _ _ Hi0 Hl)].
      exfalso. rewrite Hz in Hd. injection Hd as <-. apply Hd0. by left.
    - exists t. split; [|done]. by rewrite (aget_aset_ne _ _ _ _ _ Hic Hl). }
  clear -Hfc3 Hra3 Hr H0. apply bind_Ok in Hr as (y4 & k4 & Hx & Hr).
  assert (T4 : tame_step k3 k4 /\ current k4 = current k3).
  { destruct (negb _); [cbn [env_ref_vnode kernel_env] in Hx; apply on_fs_tame in Hx as (? & ? & _); [done|apply quiet_inc_count]|injection Hx as _ <-; done]. }
  clear Hx. apply bind_Ok in Hr as (y5 & k5 & Hx & Hr).
  assert (T5 : tame_step k4 k5 /\ current k5 = current k4).
  { destruct (negb _); [cbn [env_ref_vnode kernel_env] in Hx; apply on_fs_tame in Hx as (? & ? & _); [done|apply quiet_inc_count]|injection Hx as _ <-; done]. }
  clear Hx. apply bind_Ok in Hr as (ks & k6 & Hx & Hr). cbn [env_kmalloc_a kernel_env] in Hx. apply on_mem_tame in Hx as (T6 & C6 & _).
  apply bind_Ok in Hr as (u & k7 & (-> & Hu)%get_task_inv & Hr). apply bind_Ok in Hr as (y7 & k7 & Hx & Hr).
  apply (put_task_tame _ u) in Hx as (T7 & C7 & _); [|done|by apply tame_same]. apply bind_Ok in Hr as (v & k8 & (-> & Hv)%get_task_inv & Hr).
  apply bind_Ok in Hr as (y8 & k8 & Hx & Hr). apply (put_task_tame _ v) in Hx as (T8 & C8 & _); [|done|by apply tame_same].
  apply bind_Ok in Hr as (y9 & k9 & Hx & Hr). injection Hx as _ <-. injection Hr as _ <-.
  destruct T4 as [T4 C4], T5 as [T5 C5]. assert (T : tame_step k3 k8) by (do 4 (etrans; [eassumption|]); exact T8).
  assert (Hfin : tame_step k3 (set_interrupts true k8)) by (destruct T as [T' S']; by split).
  split; [exact (tame_counted k3 _ Hfc3 Hfin)|]. apply (tame_alive k3); [done|done|]. cbn. congruence.
Qed.
End counting.
