(* ===== verification/Setup.v ===== *)
(** * Making the devices: [setup_drivers] and what it calls

    The set-up functions of [drivers/tty/tty.c], [serial.c], [fdc/fdc_lib.c],
    [drivers.c] and [kernel/nish.c]: each registers its devices in the root of
    the device file system; [Drivers] has those of pseudo.c and ramdisk.c.  What
    they change besides that tree is in the record [kernel]. *)
From S2P Require Import Prelude CString Vsprintf Dts Tty Abi Vfs Initrdfs Devfs Drivers Ports Floppy Ktext.
Open Scope nup_scope.

(** The handlers the set-up functions install, and where [ktexto] points. *)
Inductive handler := Irq_tty_keyboard | Floppy_irq.
#[export] Instance handler_eq_dec : EqDecision handler.
Proof. solve_decision. Defined.
Inductive output := Kout | Do_tty_write.

(** [k_ttys] are the consoles with the devices that belong to them ([dev]);
    [k_tty] is [current_tty], a device.  [k_video] are the cells of the video
    memory, [k_cursor] is the cursor of the boot console. *)
Record kernel (F : Type) := Kernel {
  k_fs : vstate F;
  k_ttys : list (option (tty * Z)); k_tty : Z; k_output : output;
  k_video : list Z; k_cursor : tty_cursor;
  k_handlers : list (option handler) }.
Arguments Kernel {F}.
Arguments k_fs {F}.
Arguments k_ttys {F}.
Arguments k_tty {F}.
Arguments k_output {F}.
Arguments k_video {F}.
Arguments k_cursor {F}.
Arguments k_handlers {F}.

Section setup.
Context {F : Type} `{FsOps F} `{Sub devfs_state F} `{Sub drv_state F} `{Sub fdc F}.
Local Abbreviation KM := (M (kernel F)).

Definition on_fs {A} (m : M (vstate F) A) : KM A := fun k =>
  match m (k_fs k) with
  | Ok (a, s) => Ok (a, Kernel s (k_ttys k) (k_tty k) (k_output k) (k_video k) (k_cursor k) (k_handlers k))
  | Fault => Fault
  | Fuel => Fuel
  end.
Definition set_ttys (l : list (option (tty * Z))) (k : kernel F) : kernel F :=
  Kernel (k_fs k) l (k_tty k) (k_output k) (k_video k) (k_cursor k) (k_handlers k).
Definition set_tty (dev : Z) (k : kernel F) : kernel F :=
  Kernel (k_fs k) (k_ttys k) dev (k_output k) (k_video k) (k_cursor k) (k_handlers k).
Definition set_output (o : output) (k : kernel F) : kernel F :=
  Kernel (k_fs k) (k_ttys k) (k_tty k) o (k_video k) (k_cursor k) (k_handlers k).
Definition set_handlers (l : list (option handler)) (k : kernel F) : kernel F :=
  Kernel (k_fs k) (k_ttys k) (k_tty k) (k_output k) (k_video k) (k_cursor k) l.

Definition install (n : Z) (h : handler) : KM unit :=
  let! l := get_or_fault (fun k => register_interrupt_handler (k_handlers k) n (Some h)) in modify (set_handlers l).

(** The operation tables and the unset bytes of a new directory entry, as in
    [Drivers]; what [malloc] leaves in a new console. *)
Context (IOPS : Z -> Z) (filename0 : list Z).
Context (STDIN_OPS STDOUT_OPS STDERR_OPS NULL_OPS ZERO_OPS URANDOM_OPS RAMDISK_OPS TTY_OPS SERIAL_OPS FLOPPY_OPS NISH_OPS : Z).
Context (inbuf esc : list Z) (current_pid : Z).

Definition register_named (name : list Z) (mode type f_op : Z) : KM Z :=
  on_fs (devfs_register_device IOPS filename0 0 name mode FS_UID_ROOT FS_GID_ROOT type f_op).

(** ** Consoles: tty.c *)

(** The part of a round that both kinds of console share: [ttys[i]] and its
    device. *)
Definition make_console (i : Z) (name : list Z) : KM Z :=
  let! p := on_fs new_ptr in
  let! dev := register_named name 432 FS_CHARDEVICE TTY_OPS in
  do! on_fs (set_device_pdata dev p);
  let! l := get_or_fault (fun k => aset (k_ttys k) i (Some (create_tty i inbuf esc, dev))) in
  do! modify (set_ttys l);
  ret dev.

(** [sprintf(name, "tty%d", i)] in an array of 16 characters. *)
Definition tty_name (i : Z) : option (list Z) :=
  match Ktext.sprintf (lit "tty%d") [VWord i] with
  | Ok (str, _) => if Z.of_nat (length str) <=? 16 then Some str else None
  | _ => None
  end.

(** [n] rounds from console [i] on. *)
Fixpoint make_consoles (n : nat) (i : Z) : KM unit :=
  match n with
  | O => ret tt
  | S n =>
      let! name := get_or_fault (fun _ => tty_name i) in
      do! make_console i name;
      make_consoles n (i + 1)
  end.

(** The first console takes over the screen of the boot console. *)
Definition take_screen (video : list Z) (c : tty_cursor) (t : tty) : option tty :=
  let n := Z.to_nat (width t * height t) in
  if (n <=? length video)%nat && (n <=? length (Tty.mem t))%nat then
    Some (set_xy (cx c) (cy c) (Tty.set_mem (take n video ++ drop n (Tty.mem t)) t))
  else None.

Definition setup_tty : KM Z :=
  let! dev := make_console 0 (lit "tty0") in
  do! modify (set_tty dev);
  do! make_consoles (Z.to_nat (NR_TTYS - 1)) 1;
  let! l := get_or_fault (fun k =>
    c ← aget (k_ttys k) 0; '(t, d) ← c; t ← take_screen (k_video k) (k_cursor k) t; aset (k_ttys k) 0 (Some (t, d))) in
  do! modify (set_ttys l);
  do! modify (set_output Do_tty_write);
  do! install IRQ1 Irq_tty_keyboard;
  ret 0.

(** ** Serial ports: serial.c *)

Definition on_io {A} (m : IO A) : KM A := on_fs (on_fdc (on_bus m)).

Definition setup_port (port : Z) (name : string) : KM unit :=
  let! found := on_io (detect_serial_port port) in
  if found =? 0 then ret tt
  else
    let! dev := register_named (lit name) 432 FS_CHARDEVICE SERIAL_OPS in
    on_fs (set_device_pdata dev port).

Definition setup_serial : KM unit :=
  do! setup_port COM1 "ttyS0";
  do! setup_port COM2 "ttyS1";
  do! setup_port COM3 "ttyS2";
  setup_port COM4 "ttyS3".

(** ** The floppy: fdc_lib.c *)

Definition setup_floppy : KM unit :=
  do! on_io (outportb 0x70 0x10);
  let! v := on_io (inportb 0x71) in
  if v =? 0 then ret tt
  else
    do! install IRQ6 Floppy_irq;
    do! on_fs (on_fdc (reset current_pid));
    let! dev := register_named (lit "fd0") 432 FS_BLOCKDEVICE FLOPPY_OPS in
    on_fs (upd_handle dev (set_blocks FLOPPY_SECTOR_SIZE FLOPPY_SECTOR_COUNT)).

(** ** drivers.c, nish.c *)

Definition setup_drivers : KM Z :=
  do! on_fs (setup_pseudo_devices IOPS filename0 STDIN_OPS STDOUT_OPS STDERR_OPS NULL_OPS ZERO_OPS URANDOM_OPS);
  do! setup_tty;
  do! setup_serial;
  do! setup_floppy;
  do! on_fs (setup_ramdisk IOPS filename0 RAMDISK_OPS);
  ret 0.

(** [nish] without [DIRECT_NISH]. *)
Definition nish : KM Z := do! register_named (lit "nish") 432 FS_CHARDEVICE NISH_OPS; ret 0.
End setup.

(** ** The tree of devices *)

Section facts.
Context {F : Type} `{FsOps F} `{SubLaws devfs_state F} `{SubLaws drv_state F} `{SubLaws fdc F}
  `{!SubDisj devfs_state drv_state F} `{!SubDisj devfs_state fdc F} `{!SubDisj drv_state fdc F}.
Context (IOPS : Z -> Z) (filename0 : list Z).
Context (Hfilename0 : length filename0 = 17%nat).
Implicit Types (s : vstate F) (k : kernel F).

(** The names in a directory behind "." and "..". *)
Definition entry_names (d : devfs_handle) : list (option (list Z)) := (fun e => cstr (de_filename e)) <$> drop 2 (h_entries d).

(** The root directory has entries for [names], in this order, and the tree is
    well formed and can take more. *)
Record dev_tree s (names : list (list Z)) : Prop := {
  dt_dir : exists d, dir_ready s (devfs_root (dstate s)) d /\ entry_names d = Some <$> names /\ length (h_entries d) = (2 + length names)%nat;
  dt_ok : devfs_ok (dstate s);
  dt_root : devfs_root (dstate s) ∈ dcache (dstate s);
  dt_ino : 0 <= next_inode (dstate s) <= 1 + Z.of_nat (length names);
  dt_room : (length names < 1000)%nat;
  dt_ptr : 0 < next_ptr s;
  dt_fresh : forall p, next_ptr s <= p -> handles (dstate s) !! p = None }.

(** A name that fits is kept. *)
Lemma new_filename_fits name text : cstr name = Some text -> (length text <= 16)%nat ->
  exists f, new_filename filename0 name = Some f /\ cstr f = Some text.
Proof.
  intros Hc Hl. unfold new_filename, DEVFS_FILENAME_LEN. change 16 with (Z.of_nat 16). rewrite (strncpy_fits filename0 name text 16) by (done || lia).
  cbn [mbind option_bind].
  assert (Hlen : length (text ++ replicate (16 - length text) 0 ++ drop 16 filename0) = 17%nat)
    by (rewrite !length_app, length_replicate, length_drop; lia).
  rewrite aset_Some by lia. eexists. split; [done|]. destruct (cstr_split _ _ Hc) as (r & _ & Hn).
  rewrite Nat2Z.id, app_assoc, insert_app_r_alt by (rewrite length_app, length_replicate; lia).
  replace (16 - length (text ++ replicate (16 - length text) 0%Z))%nat with O by (rewrite length_app, length_replicate; lia).
  destruct (drop 16 filename0) as [|x l] eqn:Ed; [apply (f_equal length) in Ed; rewrite length_drop in Ed; cbn in Ed; lia|].
  cbn [insert list_insert]. rewrite <- app_assoc.
  destruct (16 - length text)%nat; cbn [replicate app]; by apply cstr_app.
Qed.

(** The state of the hardware drivers, and what they will read. *)
Definition fdc_of s : fdc := proj (fsd s).
Definition to_read s : list Z := script (io (fdc_of s)).
Lemma fdc_of_with_dev D s : fdc_of (with_dev D s) = fdc_of s.
Proof. unfold fdc_of, with_dev. cbn. apply (proj_inj_ne' (P := devfs_state)). Qed.

(** Registering a device adds its name. *)
Lemma register_step s names name text mode uid gid type f_op : dev_tree s names -> cstr name = Some text -> (length text <= 16)%nat ->
  (length names < 999)%nat ->
  exists h s', devfs_register_device IOPS filename0 0 name mode uid gid type f_op s = Ok (h, s') /\ dev_tree s' (names ++ [text]) /\
    fdc_of s' = fdc_of s /\
    h <> 0 /\ h <> devfs_root (dstate s') /\ handles (dstate s') !! h = Some (new_handle (next_inode (dstate s)) uid gid mode type f_op (devfs_root (dstate s))).
Proof.
  intros [(d & Hr & Hn & Hl) Hok Hroot Hi Hm Hp Hfr] Hc Ht Hm'. destruct (new_filename_fits name text Hc Ht) as (f & Hf & Hcf).
  pose proof (devfs_register_run IOPS (fun _ => None) s filename0 _ d name mode uid gid type f_op f Hr Hf) as Hreg. cbn zeta in Hreg.
  assert (E : devfs_register_device IOPS filename0 0 name mode uid gid type f_op s =
    devfs_register_device IOPS filename0 (devfs_root (dstate s)) name mode uid gid type f_op s).
  { unfold devfs_register_device, bind, gets. change (0 =? 0) with true. pose proof (dr_ptr _ _ _ Hr) as Hz.
    by replace (devfs_root (dstate s) =? 0) with false by lia. }
  pose proof (devfs_register_invariant IOPS (fun _ => None) _ _ _ _ _ _ _ _ _ _ _ _ _ Hr Hf Hok Hroot ltac:(lia) Hreg) as Hok'.
  rewrite E. eexists _, _. split; [exact Hreg|]. destruct Hr as [Hz Hd Hdir [Hs1 Hs2] Hnode [Hnp Hfresh]].
  assert (Hlt : devfs_root (dstate s) < next_ptr s).
  { destruct (Z_lt_ge_dec (devfs_root (dstate s)) (next_ptr s)) as [|Hge]; [done|]. rewrite Hfr in Hd by lia. discriminate Hd. }
  split; [|split; [by rewrite fdc_of_with_dev|split; [lia|split; [rewrite dstate_with; cbn; lia|]]]].
  - split; rewrite ?dstate_with; cbn [devfs_root dcache next_inode handles].
    + eexists. split; [|split].
      * split; rewrite ?dstate_with; cbn [devfs_root handles]; [done|apply lookup_insert_eq|done| | |].
        -- unfold dir_ok, with_entry. cbn [set_size set_entries h_size h_entries]. rewrite length_app. cbn [length]. unfold sizeof_devfs_d_entry in *. lia.
        -- cbn. intros Hh. unfold sync_vnodes. cbn [with_entry set_size set_entries h_node]. replace (h_node d =? 0) with false by lia.
           destruct (Hnode Hh) as [v ->]. rewrite lookup_insert_eq. by eexists.
        -- cbn. split; [lia|]. rewrite !lookup_insert_ne by lia. apply Hfr. lia.
      * unfold entry_names, with_entry. cbn [set_size set_entries h_entries]. rewrite drop_app_le by lia. rewrite !fmap_app. unfold entry_names in Hn.
        rewrite Hn. cbn. by rewrite Hcf.
      * cbn [with_entry set_size set_entries h_entries]. rewrite !length_app. cbn [length]. lia.
    + by rewrite dstate_with in Hok'.
    + by right.
    + rewrite u32_id by lia. rewrite length_app. cbn [length]. lia.
    + rewrite length_app. cbn [length]. lia.
    + cbn. lia.
    + cbn. intros p Hge. rewrite !lookup_insert_ne by lia. apply Hfr. lia.
  - rewrite dstate_with. cbn [handles]. rewrite lookup_insert_ne by lia. apply lookup_insert_eq.
Qed.

(** Steps that leave the tree alone. *)
Lemma tree_same s s' names : dstate s' = dstate s -> vnodes s' = vnodes s -> next_ptr s <= next_ptr s' -> dev_tree s names -> dev_tree s' names.
Proof.
  intros Ed Ev Ep [(d & Hr & Hn & Hl) Hok Hroot Hi Hm Hp Hfr]. split; rewrite ?Ed; try done; [|lia|intros p Hge; apply Hfr; lia].
  exists d. split; [|done]. destruct Hr as [Hz Hd Hdir Hs Hnode [Hnp Hfresh]]. split; rewrite ?Ed, ?Ev; try done. split; [lia|]. apply Hfr. lia.
Qed.

Lemma new_ptr_step s names : dev_tree s names ->
  exists s', new_ptr s = Ok (next_ptr s, s') /\ dev_tree s' names /\ fdc_of s' = fdc_of s /\ dstate s' = dstate s.
Proof. intros Ht. eexists. split; [reflexivity|]. split; [|done]. eapply tree_same; [..|exact Ht]; [done|done|cbn; lia]. Qed.

Lemma put_mem_step s names p l : dev_tree s names ->
  exists s', put_mem p l s = Ok (tt, s') /\ dev_tree s' names /\ fdc_of s' = fdc_of s /\ dstate s' = dstate s.
Proof.
  intros Ht. exists (with_mem p l s). split; [apply put_mem_run|]. split; [|split; [|apply dstate_mem]].
  - eapply tree_same; [apply dstate_mem|done| |exact Ht]. cbn. lia.
  - unfold fdc_of, with_mem. cbn. apply (proj_inj_ne' (P := drv_state)).
Qed.

Lemma fdc_step s names {A} (m : M fdc A) a f : dev_tree s names -> m (fdc_of s) = Ok (a, f) ->
  exists s', on_fdc m s = Ok (a, s') /\ dev_tree s' names /\ fdc_of s' = f /\ dstate s' = dstate s.
Proof.
  intros Ht Hm. unfold on_fdc. unfold fdc_of in Hm. rewrite Hm. eexists. split; [reflexivity|].
  assert (Ed : dstate (set_fsd (inj f (fsd s)) s) = dstate s) by (unfold dstate; cbn; apply proj_inj_ne).
  split; [|split; [|exact Ed]].
  - eapply tree_same; [exact Ed|done| |exact Ht]. cbn. lia.
  - unfold fdc_of. cbn. apply proj_inj.
Qed.

(** Changing the driver's part of a device. *)
Lemma upd_handle_step s names h hd f : dev_tree s names -> handles (dstate s) !! h = Some hd -> h <> devfs_root (dstate s) ->
  h_ino (f hd) = h_ino hd -> h_flags (f hd) = h_flags hd -> h_entries (f hd) = h_entries hd ->
  exists s', upd_handle h f s = Ok (tt, s') /\ dev_tree s' names /\ fdc_of s' = fdc_of s /\
    dstate s' = set_handles (<[h := f hd]> (handles (dstate s))) (dstate s).
Proof.
  intros [(d & Hr & Hn & Hl) [Ok1 Ok2 Ok3] Hroot Hi Hm Hp Hfr] Hh Hne Eino Eflags Eent.
  exists (with_handle h (f hd) s). split; [by apply upd_handle_run|].
  assert (Hdir : is_dir (f hd) = is_dir hd) by (unfold is_dir; by rewrite Eflags).
  assert (Hlt : h < next_ptr s). { destruct (Z_lt_ge_dec h (next_ptr s)) as [|Hge]; [done|]. rewrite Hfr in Hh by lia. discriminate Hh. }
  assert (Hold : forall q h', <[h := f hd]> (handles (dstate s)) !! q = Some h' ->
    exists h0, handles (dstate s) !! q = Some h0 /\ h_ino h' = h_ino h0 /\ is_dir h' = is_dir h0 /\ h_entries h' = h_entries h0).
  { intros q h' Hq. destruct (decide (q = h)) as [->|Hqh].
    - rewrite lookup_insert_eq in Hq. injection Hq as <-. by exists hd.
    - rewrite lookup_insert_ne in Hq by done. by exists h'. }
  assert (Hnew : forall q h0, handles (dstate s) !! q = Some h0 -> exists h', <[h := f hd]> (handles (dstate s)) !! q = Some h' /\ h_ino h' = h_ino h0).
  { intros q h0 Hq. destruct (decide (q = h)) as [->|Hqh]; [rewrite lookup_insert_eq|rewrite lookup_insert_ne by done; by exists h0].
    exists (f hd). split; [done|]. congruence. }
  split; [|split; [apply fdc_of_with_dev|apply dstate_with]]. unfold with_handle.
  split; rewrite ?dstate_with; cbn [set_handles devfs_root dcache next_inode handles]; try done.
  - exists d. split; [|done]. destruct Hr as [Hz Hd Hisd Hs Hnode [Hnp Hfresh]]. split; rewrite ?dstate_with; cbn [set_handles devfs_root handles]; try done.
    + by rewrite lookup_insert_ne by done.
    + split; [done|]. cbn. rewrite lookup_insert_ne by lia. done.
  - split; cbn [set_handles dcache next_inode handles].
    + intros p Hp'. destruct (Ok1 p Hp') as (h0 & Hh0 & Hb). destruct (Hnew _ _ Hh0) as (h' & Hh' & E). exists h'. split; [done|]. lia.
    + intros p q a b Hp' Hq' Ha Hb Eab. destruct (Hold _ _ Ha) as (a0 & Ha0 & Ea & _). destruct (Hold _ _ Hb) as (b0 & Hb0 & Eb & _).
      apply (Ok2 p q a0 b0); try done. congruence.
    + intros p a e Hp' Ha Hda He. destruct (Hold _ _ Ha) as (a0 & Ha0 & _ & Eda & Eea). destruct (Ok3 p a0 e) as (q & b0 & Hq & Hb0 & Eb); [done|done|congruence|congruence|].
      destruct (Hnew _ _ Hb0) as (b & Hb & E). exists q, b. split; [done|]. split; [done|]. congruence.
  - intros p Hge. rewrite lookup_insert_ne by (cbn in Hge; lia). apply Hfr. exact Hge.
Qed.

(** ** The set-up functions *)

Definition with_fs s k : kernel F := Kernel s (k_ttys k) (k_tty k) (k_output k) (k_video k) (k_cursor k) (k_handlers k).
Lemma on_fs_run {A} (m : M (vstate F) A) k a s' : m (k_fs k) = Ok (a, s') -> on_fs m k = Ok (a, with_fs s' k).
Proof. unfold on_fs. by intros ->. Qed.

(** [set_device_pdata] on a device just registered. *)
Lemma set_pdata_step s names h hd p : dev_tree s names -> handles (dstate s) !! h = Some hd -> h <> devfs_root (dstate s) -> h <> 0 ->
  exists s', set_device_pdata h p s = Ok (tt, s') /\ dev_tree s' names /\ fdc_of s' = fdc_of s.
Proof.
  intros Ht Hh Hr Hz. unfold set_device_pdata. replace (h =? 0) with false by lia.
  destruct (upd_handle_step s names h hd (set_pdata p) Ht Hh Hr eq_refl eq_refl eq_refl) as (s' & E & Ht' & Ef & _). by exists s'.
Qed.

Context (STDIN_OPS STDOUT_OPS STDERR_OPS NULL_OPS ZERO_OPS URANDOM_OPS RAMDISK_OPS TTY_OPS SERIAL_OPS FLOPPY_OPS NISH_OPS : Z).
Context (inbuf esc : list Z) (current_pid : Z).

Lemma make_console_step k names i name text : dev_tree (k_fs k) names -> cstr name = Some text -> (length text <= 16)%nat ->
  (length names < 999)%nat -> 0 <= i < Z.of_nat (length (k_ttys k)) ->
  exists dev s', make_console IOPS filename0 TTY_OPS inbuf esc i name k =
      Ok (dev, set_ttys (<[Z.to_nat i := Some (create_tty i inbuf esc, dev)]> (k_ttys k)) (with_fs s' k)) /\
    dev_tree s' (names ++ [text]) /\ fdc_of s' = fdc_of (k_fs k).
Proof.
  intros Ht Hc Hl Hm Hi. unfold make_console. destruct (new_ptr_step _ _ Ht) as (s1 & E1 & Ht1 & F1 & _).
  rewrite (bind_step _ _ _ _ _ (on_fs_run _ _ _ _ E1)).
  destruct (register_step s1 names name text 432 FS_UID_ROOT FS_GID_ROOT FS_CHARDEVICE TTY_OPS Ht1 Hc Hl Hm) as (h & s2 & E2 & Ht2 & F2 & Hz & Hr & Hh).
  unfold register_named. rewrite (bind_step _ _ _ h (with_fs s2 k)) by exact (on_fs_run _ (with_fs s1 k) _ _ E2).
  destruct (set_pdata_step s2 _ h _ (next_ptr (k_fs k)) Ht2 Hh Hr Hz) as (s3 & E3 & Ht3 & F3).
  rewrite (bind_step _ _ _ tt (with_fs s3 k)) by exact (on_fs_run _ (with_fs s2 k) _ _ E3).
  unfold bind at 1, get_or_fault. cbn [with_fs k_ttys]. rewrite aset_Some by lia. exists h, s3. split; [reflexivity|]. split; [done|]. congruence.
Qed.

(** The names of the devices, as the drivers make them. *)
Definition pseudo_names : list (list Z) := [chars "stdin"; chars "stdout"; chars "stderr"; chars "null"; chars "zero"; chars "urandom"].
Definition tty_names : list (list Z) := [chars "tty0"; chars "tty1"; chars "tty2"; chars "tty3"].

Lemma register_drop s names name mode type f_op : dev_tree s names -> cstr (lit name) = Some (chars name) -> (length (chars name) <= 16)%nat ->
  (length names < 999)%nat ->
  exists h s', register IOPS filename0 name mode type f_op s = Ok (h, s') /\ dev_tree s' (names ++ [chars name]) /\ fdc_of s' = fdc_of s.
Proof.
  intros Ht Hc Hl Hm. destruct (register_step s names (lit name) (chars name) mode FS_UID_ROOT FS_GID_ROOT type f_op Ht Hc Hl Hm) as (h & s' & E & Ht' & Ef & _).
  by exists h, s'.
Qed.

Lemma setup_pseudo_step s names : dev_tree s names -> (length names < 900)%nat ->
  exists s', setup_pseudo_devices IOPS filename0 STDIN_OPS STDOUT_OPS STDERR_OPS NULL_OPS ZERO_OPS URANDOM_OPS s = Ok (tt, s') /\
    dev_tree s' (names ++ pseudo_names) /\ fdc_of s' = fdc_of s.
Proof.
  intros Ht Hm. unfold setup_pseudo_devices, setup_urandom_file.
  do 6 (match goal with |- exists _, bind (register _ _ ?n ?m ?t ?o) _ ?s = _ /\ _ =>
    match goal with T : dev_tree s ?l |- _ =>
    let h := fresh "h" in let s1 := fresh "s" in let E := fresh "E" in let T1 := fresh "T" in let F1 := fresh "F" in
    destruct (register_drop s l n m t o T) as (h & s1 & E & T1 & F1); [reflexivity|cbn; lia|rewrite ?length_app; cbn; lia|];
    rewrite (bind_step _ _ _ _ _ E) end end).
  eexists. split; [reflexivity|]. unfold pseudo_names. rewrite <- !app_assoc in T4. split; [exact T4|]. congruence.
Qed.

Lemma make_consoles_round n i k name dev k' : tty_name i = Some name ->
  make_console IOPS filename0 TTY_OPS inbuf esc i name k = Ok (dev, k') ->
  make_consoles IOPS filename0 TTY_OPS inbuf esc (S n) i k = make_consoles IOPS filename0 TTY_OPS inbuf esc n (i + 1) k'.
Proof. intros Hn Hk. cbn [make_consoles]. unfold bind at 1, get_or_fault. rewrite Hn. by rewrite (bind_step _ _ _ _ _ Hk). Qed.

(** The consoles after [setup_tty]: the first shows the old screen. *)
Lemma setup_tty_step k names t0 : dev_tree (k_fs k) names -> (length names < 900)%nat -> length (k_ttys k) = 4%nat -> length (k_handlers k) = 256%nat ->
  take_screen (k_video k) (k_cursor k) (create_tty 0 inbuf esc) = Some t0 ->
  exists d0 d1 d2 d3 s' hs, setup_tty IOPS filename0 TTY_OPS inbuf esc k =
      Ok (0, Kernel s' [Some (t0, d0); Some (create_tty 1 inbuf esc, d1); Some (create_tty 2 inbuf esc, d2); Some (create_tty 3 inbuf esc, d3)]
               d0 Do_tty_write (k_video k) (k_cursor k) hs) /\
    dev_tree s' (names ++ tty_names) /\ fdc_of s' = fdc_of (k_fs k) /\
    hs = <[33%nat := Some Irq_tty_keyboard]> (k_handlers k).
Proof.
  intros Ht Hm Hl Hh Hv. destruct k as [s ts tt_ o v c hs]. cbn in *. destruct ts as [|c0 [|c1 [|c2 [|c3 [|]]]]]; try discriminate Hl. unfold setup_tty.
  destruct (make_console_step (Kernel s [c0; c1; c2; c3] tt_ o v c hs) names 0 (lit "tty0") (chars "tty0") Ht) as (d0 & s0 & E0 & T0 & F0);
    [reflexivity|cbn; lia|lia|cbn; lia|].
  destruct (make_console_step (Kernel s0 [Some (create_tty 0 inbuf esc, d0); c1; c2; c3] d0 o v c hs) _ 1 (lit "tty1") (chars "tty1") T0) as (d1 & s1 & E1 & T1 & F1);
    [reflexivity|cbn; lia|rewrite length_app; cbn; lia|cbn; lia|].
  destruct (make_console_step (Kernel s1 [Some (create_tty 0 inbuf esc, d0); Some (create_tty 1 inbuf esc, d1); c2; c3] d0 o v c hs) _ 2 (lit "tty2") (chars "tty2") T1)
    as (d2 & s2 & E2 & T2 & F2); [reflexivity|cbn; lia|rewrite !length_app; cbn; lia|cbn; lia|].
  destruct (make_console_step (Kernel s2 [Some (create_tty 0 inbuf esc, d0); Some (create_tty 1 inbuf esc, d1); Some (create_tty 2 inbuf esc, d2); c3] d0 o v c hs)
    _ 3 (lit "tty3") (chars "tty3") T2) as (d3 & s3 & E3 & T3 & F3); [reflexivity|cbn; lia|rewrite !length_app; cbn; lia|cbn; lia|].
  exists d0, d1, d2, d3, s3. eexists. split; [|split; [|split]].
  - assert (E : make_consoles IOPS filename0 TTY_OPS inbuf esc 3 1 (Kernel s0 [Some (create_tty 0 inbuf esc, d0); c1; c2; c3] d0 o v c hs) =
      Ok (tt, Kernel s3 [Some (create_tty 0 inbuf esc, d0); Some (create_tty 1 inbuf esc, d1); Some (create_tty 2 inbuf esc, d2);
        Some (create_tty 3 inbuf esc, d3)] d0 o v c hs)).
    { etransitivity; [exact (make_consoles_round 2 1 _ _ _ _ eq_refl E1)|].
      etransitivity; [exact (make_consoles_round 1 2 _ _ _ _ eq_refl E2)|].
      etransitivity; [exact (make_consoles_round 0 3 _ _ _ _ eq_refl E3)|]. reflexivity. }
    rewrite (bind_step _ _ _ _ _ E0). unfold bind at 1, modify at 1. change (Z.to_nat (NR_TTYS - 1)) with 3%nat.
    etransitivity; [exact (bind_step _ _ _ _ _ E)|]. unfold bind at 1, get_or_fault at 1. cbn [k_ttys k_video k_cursor].
    change (aget [Some (create_tty 0 inbuf esc, d0); Some (create_tty 1 inbuf esc, d1); Some (create_tty 2 inbuf esc, d2);
        Some (create_tty 3 inbuf esc, d3)] 0) with (Some (Some (create_tty 0 inbuf esc, d0))). cbn [mbind option_bind]. rewrite Hv. cbn [mbind option_bind].
    rewrite aset_Some by (cbn; lia). unfold bind, modify, install, get_or_fault, register_interrupt_handler. cbn [k_handlers set_output set_ttys].
    unfold bind. cbn [k_handlers set_output set_ttys]. change (u8 IRQ1) with 33. rewrite aset_Some by lia. reflexivity.
  - unfold tty_names. rewrite <- !app_assoc in T3. exact T3.
  - cbn in *. congruence.
  - reflexivity.
Qed.

(** What a serial port answers when it is looked for. *)
Definition port_answers (present : bool) (vs : list Z) : Prop :=
  if present then exists v1 v2, vs = [v1; v2] /\ test (u8 v1) 0xF0 = false /\ Z.land (u8 v2) 0xF0 = 0xF0
  else exists v, vs = [v] /\ test (u8 v) 0xF0 = true.

Lemma detect_run port present vs rest ls : port_answers present vs ->
  exists ls', detect_serial_port port (Bus ls (vs ++ rest)) = Ok (b2z present, Bus ls' rest).
Proof.
  intros Hv. unfold detect_serial_port. rewrite (bind_step _ _ _ _ _ (outportb_run _ _ _)). unfold logged. cbn [log script].
  destruct present.
  - destruct Hv as (v1 & v2 & -> & A1 & A2). cbn [app]. rewrite (bind_step _ _ _ _ _ (inportb_run _ _ _ _)), A1.
    rewrite (bind_step _ _ _ _ _ (outportb_run _ _ _)). unfold logged. cbn [log script].
    rewrite (bind_step _ _ _ _ _ (inportb_run _ _ _ _)), A2. by eexists.
  - destruct Hv as (v & -> & A1). cbn [app]. rewrite (bind_step _ _ _ _ _ (inportb_run _ _ _ _)), A1. by eexists.
Qed.

Lemma on_io_step k names {A} (m : IO A) a ls vs ls' vs' : dev_tree (k_fs k) names -> io (fdc_of (k_fs k)) = Bus ls vs -> m (Bus ls vs) = Ok (a, Bus ls' vs') ->
  exists s', on_io m k = Ok (a, with_fs s' k) /\ dev_tree s' names /\ fdc_of s' = set_io (Bus ls' vs') (fdc_of (k_fs k)).
Proof.
  intros Ht Hb Hm. destruct (fdc_step (k_fs k) names (on_bus m) a (set_io (Bus ls' vs') (fdc_of (k_fs k))) Ht) as (s' & E & Ht' & Ef & _).
  { unfold on_bus. by rewrite Hb, Hm. }
  exists s'. split; [exact (on_fs_run _ _ _ _ E)|done].
Qed.

(** Only the bus has changed, and [rest] is still to be read. *)
Definition only_read s s' (rest : list Z) : Prop := exists ls, fdc_of s' = set_io (Bus ls rest) (fdc_of s).
Lemma only_read_script s s' rest : only_read s s' rest -> to_read s' = rest.
Proof. intros [ls E]. unfold to_read. by rewrite E. Qed.
Lemma only_read_trans s1 s2 s3 r1 r2 : only_read s1 s2 r1 -> only_read s2 s3 r2 -> only_read s1 s3 r2.
Proof. intros [l1 E1] [l2 E2]. exists l2. by rewrite E2, E1. Qed.

(** One port: its device is made when it answers. *)
Lemma setup_port_step k names port name present vs rest : dev_tree (k_fs k) names -> port_answers present vs ->
  to_read (k_fs k) = vs ++ rest -> (length names < 900)%nat -> cstr (lit name) = Some (chars name) -> (length (chars name) <= 16)%nat ->
  exists s', setup_port IOPS filename0 SERIAL_OPS port name k = Ok (tt, with_fs s' k) /\
    dev_tree s' (names ++ if present then [chars name] else []) /\ only_read (k_fs k) s' rest.
Proof.
  intros Ht Hv Hr Hm Hc Hl. unfold setup_port. unfold to_read in Hr. destruct (io (fdc_of (k_fs k))) as [ls vs0] eqn:Eb. cbn in Hr. subst vs0.
  destruct (detect_run port present vs rest ls Hv) as (ls' & Ed).
  destruct (on_io_step k names (detect_serial_port port) _ _ _ _ _ Ht Eb Ed) as (s1 & E1 & T1 & F1). rewrite (bind_step _ _ _ _ _ E1).
  destruct present; cbn [b2z].
  - change (1 =? 0) with false. cbv iota.
    destruct (register_step s1 names (lit name) (chars name) 432 FS_UID_ROOT FS_GID_ROOT FS_CHARDEVICE SERIAL_OPS T1 Hc Hl ltac:(lia))
      as (h & s2 & E2 & T2 & F2 & Hz & Hne & Hh).
    unfold register_named. rewrite (bind_step _ _ _ _ _ (on_fs_run _ (with_fs s1 k) _ _ E2)).
    destruct (set_pdata_step s2 _ h _ port T2 Hh Hne Hz) as (s3 & E3 & T3 & F3). exists s3.
    split; [exact (on_fs_run _ (with_fs s2 k) _ _ E3)|]. split; [done|]. exists ls'. by rewrite F3, F2, F1.
  - exists s1. rewrite app_nil_r. split; [done|]. split; [done|]. by exists ls'.
Qed.

Definition serial_names (p1 p2 p3 p4 : bool) : list (list Z) :=
  (if p1 then [chars "ttyS0"] else []) ++ (if p2 then [chars "ttyS1"] else []) ++
  (if p3 then [chars "ttyS2"] else []) ++ (if p4 then [chars "ttyS3"] else []).

Lemma setup_serial_step k names p1 p2 p3 p4 v1 v2 v3 v4 rest : dev_tree (k_fs k) names -> (length names < 800)%nat ->
  port_answers p1 v1 -> port_answers p2 v2 -> port_answers p3 v3 -> port_answers p4 v4 ->
  to_read (k_fs k) = v1 ++ v2 ++ v3 ++ v4 ++ rest ->
  exists s', setup_serial IOPS filename0 SERIAL_OPS k = Ok (tt, with_fs s' k) /\
    dev_tree s' (names ++ serial_names p1 p2 p3 p4) /\ only_read (k_fs k) s' rest.
Proof.
  intros Ht Hm A1 A2 A3 A4 Hr. unfold setup_serial.
  destruct (setup_port_step k names COM1 "ttyS0" p1 v1 _ Ht A1 Hr) as (s1 & E1 & T1 & R1); [lia|reflexivity|cbn; lia|].
  rewrite (bind_step _ _ _ _ _ E1).
  destruct (setup_port_step (with_fs s1 k) _ COM2 "ttyS1" p2 v2 _ T1 A2 (only_read_script _ _ _ R1)) as (s2 & E2 & T2 & R2);
    [rewrite length_app; destruct p1; cbn; lia|reflexivity|cbn; lia|].
  rewrite (bind_step _ _ _ _ _ E2).
  destruct (setup_port_step (with_fs s2 k) _ COM3 "ttyS2" p3 v3 _ T2 A3 (only_read_script _ _ _ R2)) as (s3 & E3 & T3 & R3);
    [rewrite !length_app; destruct p1, p2; cbn; lia|reflexivity|cbn; lia|].
  rewrite (bind_step _ _ _ _ _ E3).
  destruct (setup_port_step (with_fs s3 k) _ COM4 "ttyS3" p4 v4 _ T3 A4 (only_read_script _ _ _ R3)) as (s4 & E4 & T4 & R4);
    [rewrite !length_app; destruct p1, p2, p3; cbn; lia|reflexivity|cbn; lia|].
  exists s4. split; [exact E4|]. unfold serial_names. rewrite <- !app_assoc in T4. split; [done|].
  exact (only_read_trans _ _ _ _ _ (only_read_trans _ _ _ _ _ (only_read_trans _ _ _ _ _ R1 R2) R3) R4).
Qed.

(** The floppy is looked for in the clock's memory. *)
Lemma setup_floppy_step k names v rest : dev_tree (k_fs k) names -> (length names < 900)%nat -> to_read (k_fs k) = v :: rest ->
  length (k_handlers k) = 256%nat ->
  (u8 v <> 0 -> forall ls, exists f', Floppy.reset current_pid (set_io (Bus ls rest) (fdc_of (k_fs k))) = Ok (tt, f')) ->
  exists s', setup_floppy IOPS filename0 FLOPPY_OPS current_pid k =
      Ok (tt, with_fs s' (if u8 v =? 0 then k else set_handlers (<[38%nat := Some Floppy_irq]> (k_handlers k)) k)) /\
    dev_tree s' (names ++ if u8 v =? 0 then [] else [chars "fd0"]).
Proof.
  intros Ht Hm Hr Hl Hreset. unfold setup_floppy. unfold to_read in Hr. destruct (io (fdc_of (k_fs k))) as [ls vs0] eqn:Eb. cbn in Hr. subst vs0.
  destruct (on_io_step k names (outportb 0x70 0x10) tt _ _ _ _ Ht Eb eq_refl) as (s1 & E1 & T1 & F1). rewrite (bind_step _ _ _ _ _ E1).
  destruct (on_io_step (with_fs s1 k) names (inportb 0x71) (u8 v) (ls ++ [Out8 0x70 0x10]) (v :: rest) _ _ T1 ltac:(by cbn; rewrite F1) eq_refl) as (s2 & E2 & T2 & F2).
  rewrite (bind_step _ _ _ _ _ E2). cbn [with_fs k_fs] in F2. rewrite F1 in F2. destruct (u8 v =? 0) eqn:Ev.
  - exists s2. rewrite app_nil_r. done.
  - destruct (Hreset ltac:(lia) (ls ++ [Out8 0x70 0x10; In8 0x71])) as (f' & Hre).
    unfold install, register_interrupt_handler. unfold bind at 1. unfold bind at 1, get_or_fault at 1. cbn [with_fs k_handlers].
    change (u8 IRQ6) with 38. rewrite aset_Some by lia. unfold modify at 1. cbn [set_handlers with_fs].
    destruct (fdc_step s2 names (Floppy.reset current_pid) tt f' T2) as (s3 & E3 & T3 & F3 & _).
    { rewrite F2, <- Hre. f_equal. cbn [log script]. change [Out8 112 16; In8 113] with ([Out8 112 16] ++ [In8 113]). by rewrite app_assoc. }
    destruct (register_step s3 names (lit "fd0") (chars "fd0") 432 FS_UID_ROOT FS_GID_ROOT FS_BLOCKDEVICE FLOPPY_OPS T3 eq_refl ltac:(cbn; lia) ltac:(lia))
      as (h & s4 & E4 & T4 & F4 & Hz & Hne & Hh).
    destruct (upd_handle_step s4 _ h _ (set_blocks FLOPPY_SECTOR_SIZE FLOPPY_SECTOR_COUNT) T4 Hh Hne eq_refl eq_refl eq_refl) as (s5 & E5 & T5 & F5 & _).
    set (k' := set_handlers (<[38%nat := Some Floppy_irq]> (k_handlers k)) k). exists s5. split; [|done].
    etransitivity; [exact (bind_step _ _ _ _ _ (on_fs_run _ (with_fs s2 k') _ _ E3))|].
    etransitivity; [exact (bind_step _ _ _ _ _ (on_fs_run _ (with_fs s3 k') _ _ E4))|].
    exact (on_fs_run _ (with_fs s4 k') _ _ E5).
Qed.

(** C12: Booting fills the device tree: it gets the pseudo devices, the consoles,
    the serial ports that answer, the floppy if the clock's memory has one, and
    the ram disk, in this order and nothing else, and stays well formed; output
    then goes to the first console, which shows the old screen. *)
Theorem setup_drivers_devices k names p1 p2 p3 p4 v1 v2 v3 v4 v rest t0 : dev_tree (k_fs k) names -> (length names < 500)%nat ->
  length (k_ttys k) = 4%nat -> length (k_handlers k) = 256%nat ->
  take_screen (k_video k) (k_cursor k) (create_tty 0 inbuf esc) = Some t0 ->
  port_answers p1 v1 -> port_answers p2 v2 -> port_answers p3 v3 -> port_answers p4 v4 ->
  to_read (k_fs k) = v1 ++ v2 ++ v3 ++ v4 ++ v :: rest ->
  (u8 v <> 0 -> forall ls, exists f', Floppy.reset current_pid (set_io (Bus ls rest) (fdc_of (k_fs k))) = Ok (tt, f')) ->
  exists k', setup_drivers IOPS filename0 STDIN_OPS STDOUT_OPS STDERR_OPS NULL_OPS ZERO_OPS URANDOM_OPS RAMDISK_OPS TTY_OPS SERIAL_OPS FLOPPY_OPS
      inbuf esc current_pid k = Ok (0, k') /\
    dev_tree (k_fs k') (names ++ pseudo_names ++ tty_names ++ serial_names p1 p2 p3 p4 ++ (if u8 v =? 0 then [] else [chars "fd0"]) ++ [chars "ram0"]) /\
    k_output k' = Do_tty_write /\ head (k_ttys k') = Some (Some (t0, k_tty k')) /\ k_handlers k' !! 33%nat = Some (Some Irq_tty_keyboard).
Proof.
  intros Ht Hm Hl Hh Hv A1 A2 A3 A4 Hr Hreset. unfold setup_drivers.
  destruct (setup_pseudo_step _ _ Ht ltac:(lia)) as (s1 & E1 & T1 & F1). rewrite (bind_step _ _ _ _ _ (on_fs_run _ k _ _ E1)).
  destruct (setup_tty_step (with_fs s1 k) _ t0 T1) as (d0 & d1 & d2 & d3 & s2 & hs & E2 & T2 & F2 & Ehs); [rewrite length_app; cbn; lia|done..|].
  rewrite (bind_step _ _ _ _ _ E2). set (k2 := Kernel s2 _ _ _ _ _ _) in *. cbn [with_fs k_fs] in F2.
  destruct (setup_serial_step k2 _ p1 p2 p3 p4 v1 v2 v3 v4 (v :: rest) T2) as (s3 & E3 & T3 & R3); [rewrite !length_app; cbn; lia|done..| |].
  { change (k_fs k2) with s2. unfold to_read. by rewrite F2, F1. }
  rewrite (bind_step _ _ _ _ _ E3). assert (Hs : (length (serial_names p1 p2 p3 p4) <= 4)%nat) by (destruct p1, p2, p3, p4; cbn; lia).
  destruct (setup_floppy_step (with_fs s3 k2) _ v rest T3) as (s4 & E4 & T4).
  { rewrite !length_app. cbn. lia. }
  { exact (only_read_script _ _ _ R3). }
  { cbn. rewrite Ehs. by rewrite length_insert. }
  { intros Hz ls. destruct (Hreset Hz ls) as (f' & Hf). exists f'. rewrite <- Hf. f_equal. destruct R3 as [l3 R3]. cbn [with_fs k_fs].
    rewrite R3. change (k_fs k2) with s2. rewrite F2, F1. reflexivity. }
  rewrite (bind_step _ _ _ _ _ E4). set (k4 := with_fs s4 _).
  destruct (register_step s4 _ (lit "ram0") (chars "ram0") 432 FS_UID_ROOT FS_GID_ROOT FS_BLOCKDEVICE RAMDISK_OPS T4 eq_refl ltac:(cbn; lia))
    as (h & s5 & E5 & T5 & F5 & Hz & Hne & Hhd).
  { rewrite !length_app. destruct (u8 v =? 0); cbn; lia. }
  destruct (new_ptr_step s5 _ T5) as (s6 & E6 & T6 & F6 & D6).
  destruct (put_mem_step s6 _ (next_ptr s5) (replicate (Z.to_nat (RAMDISK_SECTOR_COUNT * RAMDISK_SECTOR_SIZE)) 0) T6) as (s7 & E7 & T7 & F7 & D7).
  destruct (upd_handle_step s7 _ h _ (fun h => set_blocks RAMDISK_SECTOR_SIZE RAMDISK_SECTOR_COUNT (set_pdata (next_ptr s5) h)) T7
    ltac:(rewrite D7, D6; exact Hhd) ltac:(rewrite D7, D6; exact Hne) eq_refl eq_refl eq_refl) as (s8 & E8 & T8 & F8 & _).
  exists (with_fs s8 k4). split; [|split; [|split; [|split]]].
  - rewrite (bind_step _ _ _ tt (with_fs s8 k4)); [done|]. refine (on_fs_run _ k4 _ _ _). unfold setup_ramdisk, register.
    rewrite (bind_step _ _ _ _ _ E5), (bind_step _ _ _ _ _ E6), (bind_step _ _ _ _ _ E7). exact E8.
  - rewrite <- !app_assoc in T8. exact T8.
  - unfold k4. by destruct (u8 v =? 0).
  - unfold k4. by destruct (u8 v =? 0).
  - assert (E33 : hs !! 33%nat = Some (Some Irq_tty_keyboard)) by (rewrite Ehs; apply list_lookup_insert_eq; cbn [with_fs k_handlers]; lia).
    unfold k4. destruct (u8 v =? 0); cbn [with_fs k_handlers set_handlers k2]; [done|]. by rewrite list_lookup_insert_ne.
Qed.

(** The shell's device, the last one. *)
Lemma nish_step k names : dev_tree (k_fs k) names -> (length names < 900)%nat ->
  exists s', nish IOPS filename0 NISH_OPS k = Ok (0, with_fs s' k) /\ dev_tree s' (names ++ [chars "nish"]).
Proof.
  intros Ht Hm. destruct (register_step (k_fs k) names (lit "nish") (chars "nish") 432 FS_UID_ROOT FS_GID_ROOT FS_CHARDEVICE NISH_OPS Ht eq_refl ltac:(cbn; lia) ltac:(lia))
    as (h & s' & E & T & _). exists s'. split; [|done]. unfold nish, register_named. by rewrite (bind_step _ _ _ _ _ (on_fs_run _ k _ _ E)).
Qed.
End facts.

(** ** A machine *)

Definition hardware : Type := devfs_state * (drv_state * fdc).
#[export] Instance hardware_devfs : Sub devfs_state hardware := { proj f := fst f; inj d f := (d, snd f) }.
#[export] Instance hardware_drv : Sub drv_state hardware := { proj f := fst (snd f); inj d f := (fst f, (d, snd (snd f))) }.
#[export] Instance hardware_fdc : Sub fdc hardware := { proj f := snd (snd f); inj d f := (fst f, (fst (snd f), d)) }.
#[export] Instance hardware_devfs_laws : SubLaws devfs_state hardware.
Proof. split; by intros; destruct_and?; repeat match goal with x : hardware |- _ => destruct x as [? [? ?]] end. Qed.
#[export] Instance hardware_drv_laws : SubLaws drv_state hardware.
Proof. split; by intros; repeat match goal with x : hardware |- _ => destruct x as [? [? ?]] end. Qed.
#[export] Instance hardware_fdc_laws : SubLaws fdc hardware.
Proof. split; by intros; repeat match goal with x : hardware |- _ => destruct x as [? [? ?]] end. Qed.
#[export] Instance hardware_devfs_drv : SubDisj devfs_state drv_state hardware.
Proof. done. Qed.
#[export] Instance hardware_devfs_fdc : SubDisj devfs_state fdc hardware.
Proof. done. Qed.
#[export] Instance hardware_drv_fdc : SubDisj drv_state fdc hardware.
Proof. done. Qed.
#[local] Instance hardware_ops : FsOps hardware := { iop_at _ := None; sop_at _ := None; read_super _ b _ := ret b }.

(** After the mount of the device file system; the first serial port answers. *)
Definition mounted_machine : kernel hardware :=
  Kernel (VState {[ 501 := Vnode 0 1 1 0 0 755 FS_DIRECTORY 48 0 0 0 7 100 1003 500 0 0 ]}
    {[ 100 := SuperBlock 7 0 0 2 1 0 0 501 0 0 [501] ]} ∅ ∅ [] ∅ [] 0 502 task_zero
    (DevfsState {[ 500 := root_handle 3 501 ]} [500] 1 100 500,
     (DrvState ∅, Fdc (Bus [] [0; 0xF0; 0xF0; 0xF0; 0xF0; 0]) [] [] [] 0 0 0 0 0 0 [] 0 0 0)))
    [None; None; None; None] 0 Kout (replicate 2000 0x720) (Cursor 0 3) (replicate 256 None).

Lemma mounted_machine_tree : dev_tree (k_fs mounted_machine) [].
Proof.
  split.
  - exists (root_handle 3 501). split; [by split|done].
  - refine (one_dir_ok (F := hardware) 3 (fun f => f) (fun _ => None) 500 501 1 100 ltac:(lia)).
  - apply list_elem_of_here.
  - cbn. lia.
  - cbn. lia.
  - done.
  - intros p Hp. cbn in Hp. apply lookup_singleton_ne. lia.
Qed.

Lemma setup_drivers_devices_witness : exists k',
  setup_drivers (fun f => 1000 + f) (replicate 17 0) 1 2 3 4 5 6 7 8 9 10 (replicate 16 0) (replicate 128 0) 1 mounted_machine = Ok (0, k') /\
  dev_tree (k_fs k') (pseudo_names ++ tty_names ++ [chars "ttyS0"; chars "ram0"]).
Proof.
  destruct (take_screen (replicate 2000 0x720) (Cursor 0 3) (create_tty 0 (replicate 16 0) (replicate 128 0))) as [t0|] eqn:Ev;
    [|vm_compute in Ev; discriminate Ev].
  destruct (setup_drivers_devices (fun f => 1000 + f) (replicate 17 0) eq_refl 1 2 3 4 5 6 7 8 9 10 (replicate 16 0) (replicate 128 0) 1
    mounted_machine [] true false false false [0; 0xF0] [0xF0] [0xF0] [0xF0] 0 [] t0) as (k' & E & T & _).
  - exact mounted_machine_tree.
  - cbn. lia.
  - reflexivity.
  - reflexivity.
  - exact Ev.
  - exists 0, 0xF0. repeat split.
  - exists 0xF0. repeat split.
  - exists 0xF0. repeat split.
  - exists 0xF0. repeat split.
  - reflexivity.
  - intros []. reflexivity.
  - exists k'. split; [exact E|exact T].
Defined.
