(* ===== verification/Boot.v ===== *)
(** * Starting and stopping: [src/src/kernel/main.c], [multiboot.h] and
    [kernel/sys.c]

    [read_multiboot_info] reads what the boot loader left in physical memory,
    the list of its bytes.  [sys_reboot] works on the files, the text it prints
    and the ports. *)
From S2P Require Import Prelude CString Vsprintf Abi Paging Vfs Namei Mount Initrdfs Ports Acpi Ktext Nish.
Open Scope nup_scope.

(** ** What the boot loader tells: multiboot.h, main.c *)

Definition ASSUMED_WORKING_MEMEND : Z := 0x1000000.
Definition BOOT_MODULE_STRLEN : Z := 256.
Definition NR_BOOT_MODULES : Z := 4.

Record multiboot_info := MultibootInfo {
  mb_flags : Z; mem_lower : Z; mem_upper : Z; boot_device : Z; mb_cmdline : Z; mods_count : Z; mods_addr : Z }.
Record multiboot_module_info := MultibootModuleInfo { mod_start : Z; mod_end : Z; mod_string : Z; mod_reserved : Z }.

(** [string] has 255 characters and, before the next module, one byte of
    padding that the code uses as the last character. *)
Record boot_module := BootModule { bm_addr : Z; bm_size : Z; bm_string : list Z }.

(** The static variables of main.c, and [kmalloc_pos]. *)
Record boot := Boot {
  memory_end : Z; kernel_cmdline : list Z; boot_modules : list boot_module; boot_modules_count : Z;
  __working_memstart : Z; initrd_location : Z; boot_kmalloc_pos : Z }.
Definition no_module : boot_module := BootModule 0 0 (replicate 256 0).
Definition boot_init : boot := Boot 0 (replicate 256 0) (replicate 4 no_module) 0 0 0 0.

Section boot.
Context (phys : list Z).

Definition read_mbd (mbd : Z) : option multiboot_info :=
  f ← le32 phys mbd; l ← le32 phys (mbd + 4); u ← le32 phys (mbd + 8); d ← le32 phys (mbd + 12);
  c ← le32 phys (mbd + 16); n ← le32 phys (mbd + 20); a ← le32 phys (mbd + 24);
  Some (MultibootInfo f l u d c n a).

Definition read_module_info (p : Z) : option multiboot_module_info :=
  s ← le32 phys p; e ← le32 phys (p + 4); t ← le32 phys (p + 8); r ← le32 phys (p + 12);
  Some (MultibootModuleInfo s e t r).

(** [strncpy] into an array of 256 characters and the end of the string. *)
Definition bounded_copy (dest : list Z) (p : Z) : option (list Z) :=
  text ← chars_at phys p; dest ← strncpy dest text 256; aset dest 255 0.

(** The loop over the modules: [n] rounds from [i] on. *)
Fixpoint read_modules (n : nat) (i mod_infos : Z) (b : boot) : option boot :=
  match n with
  | O => Some b
  | S n =>
      info ← read_module_info (mod_infos + 16 * i);
      s ← bounded_copy (replicate (Z.to_nat BOOT_MODULE_STRLEN) 0) (mod_string info);
      let m := BootModule (mod_start info) (u32 (mod_end info - mod_start info)) s in
      ms ← aset (boot_modules b) i m;
      magic ← le32 phys (bm_addr m);
      read_modules n (i + 1) mod_infos
        (Boot (memory_end b) (kernel_cmdline b) ms (boot_modules_count b) (__working_memstart b)
           (if magic =? INITRD_MAGIC then bm_addr m else initrd_location b) (boot_kmalloc_pos b))
  end.

Definition read_memory_end (i : multiboot_info) : Z :=
  if test (mb_flags i) 0x01 then u32 (mem_upper i * 1024) else ASSUMED_WORKING_MEMEND.

Definition read_multiboot_info (kernel_end mbd : Z) (b : boot) : option boot :=
  i ← read_mbd mbd;
  cmdline ← (if test (mb_flags i) 0x04 then bounded_copy (kernel_cmdline b) (mb_cmdline i) else Some (kernel_cmdline b));
  let b := Boot (read_memory_end i) cmdline (boot_modules b) (boot_modules_count b) (__working_memstart b) (initrd_location b)
             (boot_kmalloc_pos b) in
  b ← (if test (mb_flags i) 0x08 then
         let count := if NR_BOOT_MODULES <? mods_count i then NR_BOOT_MODULES else mods_count i in
         read_modules (Z.to_nat count) 0 (mods_addr i)
           (Boot (memory_end b) cmdline (replicate (Z.to_nat NR_BOOT_MODULES) (BootModule 0 0 (replicate 256 0))) count
              (__working_memstart b) (initrd_location b) (boot_kmalloc_pos b))
       else Some b);
  start ← (if boot_modules_count b =? 0 then Some kernel_end
           else m ← aget (boot_modules b) (boot_modules_count b - 1); Some (u32 (bm_addr m + bm_size m)));
  let start := ASSERT_ALIGN start in
  Some (Boot (memory_end b) (kernel_cmdline b) (boot_modules b) (boot_modules_count b) start (initrd_location b)
          (u32 (start + IPC_MEMSIZE))).

(** ** Lemmas *)

(** A module as the loader describes it at [p]. *)
Record module := Module_ { m_start : Z; m_end : Z; m_text : list Z; m_magic : Z }.
Definition module_at (p : Z) (m : module) : Prop :=
  exists sp r t, read_module_info p = Some (MultibootModuleInfo (m_start m) (m_end m) sp r) /\
    chars_at phys sp = Some t /\ cstr t = Some (m_text m) /\ (length (m_text m) <= 256)%nat /\
    le32 phys (m_start m) = Some (m_magic m).

(** A string as an array of 256 characters keeps it. *)
Definition cut_string (text : list Z) : list Z := take 255 (text ++ replicate (256 - length text) 0) ++ [0].
Definition loaded (m : module) : boot_module := BootModule (m_start m) (u32 (m_end m - m_start m)) (cut_string (m_text m)).

(** The initial ram disk is the last module that looks like one. *)
Definition initrd_among (ms : list module) (old : Z) : Z :=
  fold_left (fun a m => if m_magic m =? INITRD_MAGIC then m_start m else a) ms old.

Lemma bounded_copy_ok dest p t text : chars_at phys p = Some t -> cstr t = Some text -> (length text <= 256)%nat -> length dest = 256%nat ->
  bounded_copy dest p = Some (cut_string text).
Proof.
  intros Hp Ht Hl Hd. unfold bounded_copy. rewrite Hp. cbn [mbind option_bind]. change 256 with (Z.of_nat 256) at 1.
  rewrite (strncpy_fits dest t text 256) by (done || lia). cbn [mbind option_bind]. rewrite (drop_ge dest) by lia. rewrite app_nil_r.
  assert (Hlen : length (text ++ replicate (256 - length text) 0) = 256%nat) by (rewrite length_app, length_replicate; lia).
  rewrite aset_Some by lia. f_equal. change (Z.to_nat 255) with 255%nat. rewrite insert_take_drop by lia.
  unfold cut_string. f_equal. by rewrite drop_ge by lia.
Qed.

Lemma bounded_copy_overruns dest p t text : chars_at phys p = Some t -> cstr t = Some text -> (256 < length text)%nat -> length dest = 256%nat ->
  bounded_copy dest p = None.
Proof.
  intros Hp Ht Hl Hd. unfold bounded_copy. rewrite Hp. cbn [mbind option_bind].
  by rewrite (strncpy_overruns dest t text 256) by (done || (unfold UINT_MAX; lia)).
Qed.

Lemma read_modules_ok ms : forall i mod_infos b, (forall k m, ms !! k = Some m -> module_at (mod_infos + 16 * (Z.of_nat (i + k))) m) ->
  (i + length ms <= length (boot_modules b))%nat ->
  read_modules (length ms) (Z.of_nat i) mod_infos b =
  Some (Boot (memory_end b) (kernel_cmdline b)
          (take i (boot_modules b) ++ map loaded ms ++ drop (i + length ms) (boot_modules b))
          (boot_modules_count b) (__working_memstart b) (initrd_among ms (initrd_location b)) (boot_kmalloc_pos b)).
Proof.
  induction ms as [|m ms IH]; intros i mod_infos b Hm Hl; cbn [length read_modules map].
  - rewrite Nat.add_0_r. cbn [app]. rewrite take_drop. by destruct b.
  - cbn [length] in Hl. pose proof (Hm 0%nat m eq_refl) as H0. rewrite Nat.add_0_r in H0. destruct H0 as (sp & r & t & -> & Ht & Hc & Hn & Hg). cbn [mbind option_bind mod_string mod_start mod_end].
    rewrite (bounded_copy_ok _ _ t (m_text m)) by (done || by rewrite length_replicate). cbn [mbind option_bind].
    rewrite aset_Some, Nat2Z.id by lia. cbn [mbind option_bind bm_addr]. rewrite Hg. cbn [mbind option_bind].
    replace (Z.of_nat i + 1) with (Z.of_nat (S i)) by lia. rewrite IH.
    + cbn [memory_end kernel_cmdline boot_modules boot_modules_count __working_memstart initrd_location boot_kmalloc_pos]. f_equal. f_equal.
      rewrite (take_S_r _ i (loaded m)) by (apply list_lookup_insert_eq; lia). rewrite take_insert_ge by lia.
      rewrite <- app_assoc. cbn [app]. do 3 f_equal. rewrite drop_insert_lt by lia. f_equal. lia.
    + intros k m' Hk. replace (S i + k)%nat with (i + S k)%nat by lia. by apply Hm.
    + cbn [boot_modules]. rewrite length_insert. lia.
Qed.

(** ** Properties *)

(** What [read_multiboot_info] leaves for a loader that describes [ms]: the
    size of the memory, the command line cut at 255 characters, the first four
    modules, and free memory from the page behind the last of these on. *)
Definition boot_result (kernel_end : Z) (i : multiboot_info) (cmdline : list Z) (ms : list module) (b : boot) : boot :=
  let kept := take 4 ms in
  let start := ASSERT_ALIGN (match last kept with Some m => u32 (m_start m + u32 (m_end m - m_start m)) | None => kernel_end end) in
  Boot (read_memory_end i) (cut_string cmdline) (map loaded kept ++ replicate (4 - length kept) no_module)
    (Z.of_nat (length kept)) start (initrd_among kept (initrd_location b)) (u32 (start + IPC_MEMSIZE)).

(** C28: A loader that passes a command line and modules, none with a text of more
    than 256 characters: the kernel keeps the first four modules and puts its
    own memory behind the last of these, wherever the others are. *)
Theorem read_multiboot_info_spec kernel_end mbd b i sp text ms :
  read_mbd mbd = Some i -> test (mb_flags i) 0x04 = true -> test (mb_flags i) 0x08 = true ->
  chars_at phys (mb_cmdline i) = Some sp -> cstr sp = Some text -> (length text <= 256)%nat -> length (kernel_cmdline b) = 256%nat ->
  mods_count i = Z.of_nat (length ms) -> (forall k m, ms !! k = Some m -> module_at (mods_addr i + 16 * Z.of_nat k) m) ->
  read_multiboot_info kernel_end mbd b = Some (boot_result kernel_end i text ms b).
Proof.
  intros Hi H4 H8 Hsp Htext Hlen Hb Hn Hms. unfold read_multiboot_info. rewrite Hi. cbn [mbind option_bind]. rewrite H4, H8.
  rewrite (bounded_copy_ok _ _ sp text) by done. cbn [mbind option_bind memory_end __working_memstart initrd_location boot_kmalloc_pos].
  set (count := if NR_BOOT_MODULES <? mods_count i then NR_BOOT_MODULES else mods_count i).
  assert (Hc : count = Z.of_nat (length (take 4 ms))) by (unfold count; rewrite Hn, length_take; unfold NR_BOOT_MODULES; destruct (4 <? _) eqn:?; lia).
  rewrite Hc, Nat2Z.id. change 0 with (Z.of_nat 0) at 2. rewrite (read_modules_ok (take 4 ms) 0).
  - cbn [mbind option_bind memory_end kernel_cmdline boot_modules boot_modules_count initrd_location take app Nat.add].
    change (Z.to_nat NR_BOOT_MODULES) with 4%nat. rewrite drop_replicate. fold no_module. unfold boot_result.
    destruct (last (take 4 ms)) as [m|] eqn:El.
    + apply last_Some in El as [ks El]. rewrite El, length_app. cbn [length]. replace (Z.of_nat (length ks + 1) =? 0) with false by lia.
      rewrite map_app, <- app_assoc. rewrite ?take_0. cbn [map app]. rewrite aget_app by (rewrite length_map; lia). cbn [mbind option_bind].
      reflexivity.
    + apply last_None in El. rewrite El. done.
  - intros k m Hk. apply lookup_take_Some in Hk as [Hk _]. by apply Hms.
  - cbn [boot_modules]. rewrite length_replicate, length_take. change (Z.to_nat NR_BOOT_MODULES) with 4%nat. lia.
Qed.

(** A command line longer than its array: [strncpy] does not stop at 256
    characters but pads the whole address space. *)
Theorem long_cmdline_overruns kernel_end mbd b i sp text :
  read_mbd mbd = Some i -> test (mb_flags i) 0x04 = true -> chars_at phys (mb_cmdline i) = Some sp -> cstr sp = Some text ->
  (256 < length text)%nat -> length (kernel_cmdline b) = 256%nat ->
  read_multiboot_info kernel_end mbd b = None.
Proof.
  intros Hi H4 Hsp Htext Hlen Hb. unfold read_multiboot_info. rewrite Hi. cbn [mbind option_bind]. rewrite H4.
  by rewrite (bounded_copy_overruns _ _ sp text).
Qed.

(** Kernel memory starts on a page behind the last module kept, by less than a
    page, and not necessarily behind the others. *)
Lemma boot_result_memory kernel_end i cmdline ms b m : last (take 4 ms) = Some m -> 0 <= m_start m <= m_end m -> m_end m < 4294963200 ->
  let start := __working_memstart (boot_result kernel_end i cmdline ms b) in
  m_end m <= start < m_end m + FRAME_SIZE /\ start mod FRAME_SIZE = 0.
Proof.
  intros El Hm He. cbn [boot_result __working_memstart]. rewrite El. rewrite (u32_id (m_end m - m_start m)) by lia.
  replace (m_start m + (m_end m - m_start m)) with (m_end m) by lia. rewrite u32_id by lia. apply ASSERT_ALIGN_spec. lia.
Qed.
End boot.

(** ** Stopping: sys.c *)

Definition RB_HALT_SYSTEM : Z := 0x01.
Definition RB_AUTOBOOT : Z := 0x02.
Definition RB_POWEROFF : Z := 0x04.

(** Files, what was printed, the ports. *)
Record machine (F : Type) := Machine { m_files : vstate F; m_said : list Z; m_bus : bus }.
Arguments Machine {F}.
Arguments m_files {F}.
Arguments m_said {F}.
Arguments m_bus {F}.

(** After [cli] and [hlt] the processor does not go on. *)
Inductive ending := Returned (r : Z) | Stopped.

Section reboot.
Context {F : Type} `{FsOps F}.
Local Abbreviation RM := (M (machine F)).

Definition on_vfs {A} (m : M (vstate F) A) : RM A := fun s =>
  match m (m_files s) with Ok (a, v) => Ok (a, Machine v (m_said s) (m_bus s)) | Fault => Fault | Fuel => Fuel end.
Definition on_ports {A} (m : IO A) : RM A := fun s =>
  match m (m_bus s) with Ok (a, b) => Ok (a, Machine (m_files s) (m_said s) b) | Fault => Fault | Fuel => Fuel end.
Definition tell (fmt : string) : RM Z :=
  Ktext.printf (fun size output s => Ok (0, Machine (m_files s) (m_said s ++ take (Z.to_nat size) output) (m_bus s))) (clit fmt) [].

Definition stop : RM ending := do! on_ports (record Ports.Cli); ret Stopped.

Definition do_halt : RM ending := do! tell "System halted."; stop.

(** [sleep] only lets time pass. *)
Definition do_poweroff (a : acpi) : RM ending :=
  do! tell "Power down.";
  do! on_ports (acpiPowerOff a);
  do! tell "\nACPI Power off failed!\nTurn off the computer manually!";
  stop.

Definition do_reboot : RM ending :=
  do! tell "Restarting system.";
  do! on_ports (poll 0x64 (fun v => test v 0x02));
  do! on_ports (outportb 0x64 0xFE);
  ret (Returned 0).

Definition sys_reboot (a : acpi) (rootfs_type initrd_fs_type devfs_fs_type ext2_fs_type status howto : Z) : RM ending :=
  let! root := gets (fun s => I_AM_ROOT (current_task (m_files s))) in
  if negb root then ret (Returned (- EPERM))
  else
    do! tell "Unmount devfs (/dev) ... \n";
    do! on_vfs (sys_umount (Some (lit "/dev")) status);
    do! tell "Unmount initrd (/) ... \n";
    do! on_vfs (sys_umount (Some (lit "/")) status);
    do! tell "Close VFS ... \n";
    do! on_vfs (close_vfs rootfs_type initrd_fs_type devfs_fs_type ext2_fs_type);
    if howto =? RB_HALT_SYSTEM then do_halt
    else if howto =? RB_POWEROFF then do_poweroff a
    else if howto =? RB_AUTOBOOT then do_reboot
    else ret (Returned 0).
End reboot.

(** ** Properties of stopping *)

Section stopping.
Context {F : Type} `{FsOps F} (a : acpi) (rootfs_type initrd_fs_type devfs_fs_type ext2_fs_type status : Z).
Implicit Types s : machine F.

Lemma tell_run fmt text s : clit fmt = text ++ [0] -> Forall (fun c => c <> 0 /\ c <> 37) text -> Z.of_nat (length text) < STRLEN ->
  tell fmt s = Ok (Z.of_nat (length text), Machine (m_files s) (m_said s ++ text) (m_bus s)).
Proof.
  intros E Ht Hl. unfold tell. rewrite E, printf_plain by done. replace (_ <? STRLEN) with true by lia.
  by rewrite Nat2Z.id, take_app_length.
Qed.

(** Both unmountings and the end of the file systems, which take [v] to [v']. *)
Definition close_files : M (vstate F) Z :=
  do! sys_umount (Some (lit "/dev")) status;
  do! sys_umount (Some (lit "/")) status;
  close_vfs rootfs_type initrd_fs_type devfs_fs_type ext2_fs_type.
Definition closed_down (v v' : vstate F) : Prop := exists r, close_files v = Ok (r, v').

Definition unmount_text : list Z :=
  chars "Unmount devfs (/dev) ... " ++ [10] ++ chars "Unmount initrd (/) ... " ++ [10] ++ chars "Close VFS ... " ++ [10].

Lemma on_vfs_run {A} (m : M (vstate F) A) x v' s : m (m_files s) = Ok (x, v') -> on_vfs m s = Ok (x, Machine v' (m_said s) (m_bus s)).
Proof. unfold on_vfs. by intros ->. Qed.
Lemma on_ports_run {A} (m : IO A) x b' s : m (m_bus s) = Ok (x, b') -> on_ports (F := F) m s = Ok (x, Machine (m_files s) (m_said s) b').
Proof. unfold on_ports. by intros ->. Qed.

(** The common part. *)
Lemma sys_reboot_down howto s v' : I_AM_ROOT (current_task (m_files s)) = true -> closed_down (m_files s) v' ->
  sys_reboot a rootfs_type initrd_fs_type devfs_fs_type ext2_fs_type status howto s =
  (if howto =? RB_HALT_SYSTEM then do_halt
   else if howto =? RB_POWEROFF then do_poweroff a
   else if howto =? RB_AUTOBOOT then do_reboot
   else ret (Returned 0)) (Machine v' (m_said s ++ unmount_text) (m_bus s)).
Proof.
  intros Hr [r3 E]. apply bind_inv in E as (r1 & v1 & E1 & E). apply bind_inv in E as (r2 & v2 & E2 & E3). unfold sys_reboot, unmount_text. unfold bind at 1, gets. rewrite Hr. cbn [negb].
  rewrite (bind_step _ _ _ _ _ (tell_run "Unmount devfs (/dev) ... \n" (chars "Unmount devfs (/dev) ... " ++ [10]) s
    eq_refl ltac:(by repeat constructor) ltac:(by vm_compute))).
  rewrite (bind_step _ _ _ r1 (Machine v1 _ _)) by (by apply on_vfs_run). cbn [m_files m_said m_bus].
  rewrite (bind_step _ _ _ _ _ (tell_run "Unmount initrd (/) ... \n" (chars "Unmount initrd (/) ... " ++ [10]) _
    eq_refl ltac:(by repeat constructor) ltac:(by vm_compute))). cbn [m_files m_said m_bus].
  rewrite (bind_step _ _ _ r2 (Machine v2 _ _)) by (by apply on_vfs_run). cbn [m_files m_said m_bus].
  rewrite (bind_step _ _ _ _ _ (tell_run "Close VFS ... \n" (chars "Close VFS ... " ++ [10]) _
    eq_refl ltac:(by repeat constructor) ltac:(by vm_compute))). cbn [m_files m_said m_bus].
  rewrite (bind_step _ _ _ r3 (Machine v' _ _)) by (by apply on_vfs_run). cbn [m_files m_said m_bus].
  by rewrite <- !app_assoc.
Qed.

(** Only the super user stops the machine. *)
Theorem sys_reboot_refused howto s : I_AM_ROOT (current_task (m_files s)) = false ->
  sys_reboot a rootfs_type initrd_fs_type devfs_fs_type ext2_fs_type status howto s = Ok (Returned (- EPERM), s).
Proof. intros Hr. unfold sys_reboot, bind, gets. by rewrite Hr. Qed.

(** Restarting: after the file systems are closed the keyboard controller is
    polled until it takes a command, and then gets the reset command and
    nothing else; a controller that stays busy is waited for for ever. *)
Theorem sys_reboot_restarts s v' busy ready rest ls : I_AM_ROOT (current_task (m_files s)) = true -> closed_down (m_files s) v' ->
  Forall (fun x => test (u8 x) 2 = true) busy -> m_bus s = Bus ls (busy ++ ready :: rest) -> test (u8 ready) 2 = false ->
  sys_reboot a rootfs_type initrd_fs_type devfs_fs_type ext2_fs_type status RB_AUTOBOOT s =
    Ok (Returned 0, Machine v' (m_said s ++ unmount_text ++ chars "Restarting system.")
      (Bus (ls ++ replicate (S (length busy)) (In8 0x64) ++ [Out8 0x64 0xFE]) rest)) /\
  sys_reboot a rootfs_type initrd_fs_type devfs_fs_type ext2_fs_type status RB_AUTOBOOT (Machine (m_files s) (m_said s) (Bus ls busy)) = Fuel.
Proof.
  intros Hr Hv Hb Hs Hw. rewrite !(sys_reboot_down _ _ v') by done.
  assert (E : forall s, tell "Restarting system." s = Ok (18, Machine (F := F) (m_files s) (m_said s ++ chars "Restarting system.") (m_bus s))).
  { intros s'. by apply (tell_run _ (chars "Restarting system.")); [|repeat constructor|]. }
  change (RB_AUTOBOOT =? RB_HALT_SYSTEM) with false. change (RB_AUTOBOOT =? RB_POWEROFF) with false. change (RB_AUTOBOOT =? RB_AUTOBOOT) with true.
  cbv iota. unfold do_reboot. rewrite !(bind_step _ _ _ _ _ (E _)). cbn [m_files m_said m_bus]. split.
  - rewrite Hs, (bind_step _ _ _ tt (Machine v' _ _)) by (apply on_ports_run, poll_run; done). cbn [m_files m_said m_bus].
    unfold bind, on_ports, outportb, record, modify, ret. cbn [m_files m_said m_bus log script]. by rewrite <- !app_assoc.
  - unfold bind, on_ports. cbn [m_bus]. by rewrite poll_waits.
Qed.

(** Halting: interrupts go off and the processor stops. *)
Theorem sys_reboot_halts s v' : I_AM_ROOT (current_task (m_files s)) = true -> closed_down (m_files s) v' ->
  sys_reboot a rootfs_type initrd_fs_type devfs_fs_type ext2_fs_type status RB_HALT_SYSTEM s =
    Ok (Stopped, Machine v' (m_said s ++ unmount_text ++ chars "System halted.") (Bus (log (m_bus s) ++ [Ports.Cli]) (script (m_bus s)))).
Proof.
  intros Hr Hv. rewrite (sys_reboot_down _ _ v') by done. change (RB_HALT_SYSTEM =? RB_HALT_SYSTEM) with true. cbv iota. unfold do_halt.
  rewrite (bind_step _ _ _ _ _ (tell_run "System halted." (chars "System halted.") _ eq_refl ltac:(by repeat constructor) ltac:(by vm_compute))).
  unfold stop, bind, on_ports, record, modify, ret. cbn [m_files m_said m_bus]. by rewrite <- app_assoc.
Qed.
End stopping.

(** ** Witnesses *)

(** A loader's memory: its table, one module named "i" that is a ram disk, and
    the command line [cmdline]. *)
Definition w4 (x : Z) : list Z := [x mod 256; x / 256 mod 256; x / 65536 mod 256; x / 16777216].
Definition loader_memory (cmdline : list Z) : list Z :=
  concat (map w4 [0xD; 640; 15360; 0; 62; 1; 28; 56; 60; 60; 0; 0; 0; 0; INITRD_MAGIC]) ++ [105; 0] ++ cmdline ++ [0].
Definition loader_info : multiboot_info := MultibootInfo 0xD 640 15360 0 62 1 28.
Definition ram_disk : module := Module_ 56 60 [105] INITRD_MAGIC.

Lemma read_multiboot_info_spec_witness :
  read_multiboot_info (loader_memory (chars "boot")) 0x20000 0 boot_init =
    Some (boot_result 0x20000 loader_info (chars "boot") [ram_disk] boot_init) /\
  (let b := boot_result 0x20000 loader_info (chars "boot") [ram_disk] boot_init in
   memory_end b = 15728640 /\ initrd_location b = 56 /\ __working_memstart b = 4096).
Proof.
  split; [|by vm_compute].
  apply (read_multiboot_info_spec _ 0x20000 0 boot_init loader_info (chars "boot" ++ [0]) (chars "boot") [ram_disk]);
    [vm_compute; reflexivity..|vm_compute; lia|reflexivity|reflexivity|].
  intros [|k] m Hm; [|done]. injection Hm as <-. exists 60, 0, ([105; 0] ++ chars "boot" ++ [0]).
  split; [reflexivity|]. split; [reflexivity|]. split; [reflexivity|]. split; [cbn; lia|reflexivity].
Defined.

Lemma long_cmdline_overruns_witness :
  read_multiboot_info (loader_memory (replicate 257 97)) 0x20000 0 boot_init = None.
Proof.
  apply (long_cmdline_overruns _ 0x20000 0 boot_init loader_info (replicate 257 97 ++ [0]) (replicate 257 97));
    [vm_compute; reflexivity..|vm_compute; lia|reflexivity].
Defined.

(** A machine after [setup_vfs]. *)
Definition fs_types : gmap Z filesystem_t :=
  list_to_map [(1, FilesystemT (Some (lit "rootfs")) 0); (2, FilesystemT (Some (lit "initrdfs")) 0);
               (3, FilesystemT (Some (lit "devfs")) 0); (4, FilesystemT (Some (lit "ext2")) 0)].
Definition started : vstate unit :=
  match setup_vfs 1 1 2 3 4 (VState ∅ ∅ ∅ fs_types [] ∅ [] 0 1000 task_zero tt) with
  | Ok (_, s) => s
  | _ => VState ∅ ∅ ∅ ∅ [] ∅ [] 0 1000 task_zero tt
  end.
Definition ended : vstate unit := match close_files 1 2 3 4 0 started with Ok (_, v) => v | _ => started end.

Lemma closed_down_sample : closed_down 1 2 3 4 0 started ended.
Proof.
  unfold closed_down, ended. destruct (close_files 1 2 3 4 0 started) as [[r v]| |] eqn:E; [by exists r|vm_compute in E; discriminate E..].
Qed.

Lemma sys_reboot_restarts_witness :
  sys_reboot acpi_init 1 2 3 4 0 RB_AUTOBOOT (Machine started [] (Bus [] [2; 3; 0])) =
  Ok (Returned 0, Machine ended (unmount_text ++ chars "Restarting system.") (Bus [In8 0x64; In8 0x64; In8 0x64; Out8 0x64 0xFE] [])).
Proof.
  apply (proj1 (sys_reboot_restarts acpi_init 1 2 3 4 0 (Machine started [] (Bus [] [2; 3; 0])) ended [2; 3] 0 [] []
    eq_refl closed_down_sample ltac:(repeat constructor) eq_refl eq_refl)).
Defined.
