(* ===== verification/Tables.v ===== *)
(** * The kernel's tables of operations

    Every file system and device in one state: what lies at the address of a
    table, and what each type's [read_super] does.  An operation may call another
    through these tables again (/dev/stdin reads the file of descriptor 0, ext2
    reads its device), so the tables are a tower: [kernel_tables n] serves [n]
    calls inside one another and then runs out of fuel.  Their operations are
    quiet ([Frames]).  The addresses are the linker's; any distinct ones would
    do.  The device of the kernel shell keeps its data outside this state: its
    table is an argument. *)
From S2P Require Import Prelude CString Tty Kbd Abi Vfs Namei Mount Initrdfs Devfs Drivers Ext2 Ports Floppy Setup Urandom Frames.
Open Scope nup_scope.

(** ** Addresses *)

Definition rootfs_sb_ops_at : Z := 1.
Definition initrd_i_ops_at : Z := 2.
Definition initrd_s_ops_at : Z := 3.
Definition devfs_s_ops_at : Z := 4.
Definition ext2_i_ops_at : Z := 5.
Definition ext2_s_ops_at : Z := 6.
Definition devfs_dir_fop_at : Z := 10.
Definition stdin_ops_at : Z := 11.
Definition stdout_ops_at : Z := 12.
Definition stderr_ops_at : Z := 13.
Definition null_ops_at : Z := 14.
Definition zero_ops_at : Z := 15.
Definition urandom_ops_at : Z := 16.
Definition ramdisk_ops_at : Z := 17.
Definition serial_ops_at : Z := 18.
Definition floppy_ops_at : Z := 19.
Definition tty_ops_at : Z := 20.
Definition nish_ops_at : Z := 21.
Definition rootfs_type : Z := 31.
Definition initrd_fs_type : Z := 32.
Definition devfs_fs_type : Z := 33.
Definition ext2_fs_type : Z := 34.
Definition kernel_types : gmap Z filesystem_t :=
  list_to_map [(rootfs_type, FilesystemT (Some (lit "rootfs")) 0); (initrd_fs_type, FilesystemT (Some (lit "initrdfs")) 0);
               (devfs_fs_type, FilesystemT (Some (lit "devfs")) 0); (ext2_fs_type, FilesystemT (Some (lit "ext2")) MNT_FLAG_REQDEV)].
(** The private copy of [devfs_i_ops] that a vnode gets. *)
Definition iops_copy (f_op : Z) : Z := 1000 + f_op.

(** The consoles by the address that their devices' [pdata] holds, [current_tty],
    a device, and the text memory of the screen. *)
Record console_state := ConsoleState { tty_at : gmap Z tty; current_dev : Z; screen : list Z }.

Section tables.
Context {F : Type} `{Sub initrd_state F} `{Sub devfs_state F} `{Sub drv_state F} `{Sub ext2_state F} `{Sub fdc F} `{Sub urandom F} `{Sub console_state F}.
Local Abbreviation VM := (M (vstate F)).
(** The process and the scheduler for the device locks, the rounds of the
    waiting loops, the clock, fresh memory and the other tables. *)
Context (current_pid : Z) (pause : VM unit) (kill : Z -> Z -> VM unit) (fuel : nat) (now : Z) (fresh : Z -> list Z).
Context (others : Z -> option (file_operations F)).

(** ** Devices whose operations are on their own state *)

Definition on_urandom {A} (m : M urandom A) : VM A := fun s =>
  match m (proj (fsd s)) with
  | Ok (a, r) => Ok (a, set_fsd (inj r (fsd s)) s)
  | Fault => Fault
  | Fuel => Fuel
  end.
Definition urandom_ops : file_operations F :=
  FileOperations (Some (fun _ _ => on_urandom (drv_urandom_open now))) (Some (fun _ _ size => on_urandom (drv_urandom_read fuel now size)))
    (Some drv_null_write) None None None None.

(** *** Consoles *)

Definition get_tty (p : Z) : VM tty := get_or_fault (fun s => tty_at (proj (fsd s)) !! p).
Definition upd_consoles (f : console_state -> console_state) : VM unit :=
  modify (fun s => set_fsd (inj (f (proj (fsd s))) (fsd s)) s).
Definition put_tty (p : Z) (t : tty) : VM unit :=
  upd_consoles (fun c => ConsoleState (<[p := t]> (tty_at c)) (current_dev c) (screen c)).
(** [if (handle == current_tty) print_tty();] *)
Definition print_if_current (handle : Z) (t : tty) : VM unit :=
  upd_consoles (fun c => if handle =? current_dev c then ConsoleState (tty_at c) (current_dev c) (print_tty t) else c).

Definition tty_write_to (handle size : Z) (buffer : list Z) : VM Z :=
  if handle =? 0 then ret (- EINVAL)
  else
    let! p := device_pdata handle in
    let! t := get_tty p in
    let! ' (t, _) := get_or_fault (fun _ =>
      if (Z.to_nat size <=? length buffer)%nat then do_tty_write t (take (Z.to_nat size) buffer) else None) in
    do! put_tty p t;
    do! print_if_current handle t;
    ret (s32 size).
Definition tty_write (node offset size : Z) (buffer : list Z) : VM Z :=
  let! handle := device_discr node in tty_write_to handle size buffer.

(** The call is answered once the keys are there: it waits for the keyboard. *)
Definition tty_read (node offset size : Z) : VM (Z * list Z) :=
  let! handle := device_discr node in
  let! p := devicen_pdata node in
  let! t := get_tty p in
  let! ' (l, missing, t') := get_or_fault (fun _ => Kbd.tty_read (Z.to_nat size) t) in
  if negb (missing =? 0)%nat then nofuel
  else
    do! put_tty p t';
    do! (if echo t && (0 <? size) then print_if_current handle t' else ret tt);
    ret (s32 size, l).

Definition tty_free_pdata (data : Z) : VM unit :=
  upd_consoles (fun c => ConsoleState (delete data (tty_at c)) (current_dev c) (screen c)).

Definition tty_ops : file_operations F :=
  FileOperations None (Some tty_read) (Some tty_write) None None (Some (fun _ cmd arg => ret (tty_ioctl cmd arg))) None.

(** *** Serial lines *)

(** [devicen_pdata(node)] is the port. *)
Definition on_port {A} (node : Z) (m : Z -> IO A) : VM A := let! port := devicen_pdata node in on_fdc (on_bus (m port)).
Definition serial_ops : file_operations F :=
  FileOperations (Some (fun node _ => on_port node serial_open)) (Some (fun node _ size => on_port node (fun p => serial_read p size)))
    (Some (fun node _ size buffer => on_port node (fun p => serial_write p size buffer))) None
    (Some (fun node => on_port node serial_close)) None None.

Definition free_pdata (f_op : Z) : option (Z -> VM unit) :=
  if f_op =? devfs_dir_fop_at then Some devfs_dir_free_pdata else if f_op =? ramdisk_ops_at then Some ramdisk_free_pdata
  else if f_op =? tty_ops_at then Some tty_free_pdata
  else None.

(** ** One level, above the tables [L] *)

Section level.
Context `{L : FsOps F}.

Definition device_ops (f_op : Z) : option (file_operations F) :=
  if f_op =? devfs_dir_fop_at then Some devfs_dir_fop
  else if f_op =? stdin_ops_at then Some stdin_ops
  else if f_op =? stdout_ops_at then Some stdout_ops
  else if f_op =? stderr_ops_at then Some stderr_ops
  else if f_op =? null_ops_at then Some null_ops
  else if f_op =? zero_ops_at then Some zero_ops
  else if f_op =? urandom_ops_at then Some urandom_ops
  else if f_op =? ramdisk_ops_at then Some (ramdisk_ops current_pid pause kill fuel)
  else if f_op =? serial_ops_at then Some serial_ops
  else if f_op =? floppy_ops_at then Some (floppy_ops current_pid pause kill fuel)
  else if f_op =? tty_ops_at then Some tty_ops
  else others f_op.

Definition inode_ops (a : Z) : option (inode_operations F) :=
  if a =? initrd_i_ops_at then Some initrd_i_ops
  else if a =? ext2_i_ops_at then Some (ext2_i_ops fresh)
  else if 1000 <=? a then Some (devfs_i_ops (device_ops (a - 1000)))
  else None.

Definition super_ops (a : Z) : option (super_operations F) :=
  if a =? rootfs_sb_ops_at then Some rootfs_sb_ops
  else if a =? initrd_s_ops_at then Some (initrd_s_ops initrd_i_ops_at)
  else if a =? devfs_s_ops_at then Some (devfs_s_ops iops_copy free_pdata)
  else if a =? ext2_s_ops_at then Some (ext2_s_ops ext2_i_ops_at fresh)
  else None.

(** The structure of a type names its function; another address is no type. *)
Definition read_super_of (type b data : Z) : VM Z :=
  if type =? rootfs_type then read_rootfs_sb rootfs_sb_ops_at b
  else if type =? initrd_fs_type then read_initrd_sb initrd_s_ops_at b data
  else if type =? devfs_fs_type then read_devfs_sb devfs_dir_fop_at devfs_s_ops_at b data
  else if type =? ext2_fs_type then read_ext2_sb fresh ext2_s_ops_at b data
  else fault.
End level.

(** ** The tower *)

Definition no_tables : FsOps F := {|
  iop_at _ := Some (InodeOperations (Some (FileOperations (Some (fun _ _ => nofuel)) (Some (fun _ _ _ => nofuel)) (Some (fun _ _ _ _ => nofuel))
    (Some (fun _ _ => nofuel)) (Some (fun _ => nofuel)) (Some (fun _ _ _ => nofuel)) (Some (fun _ _ _ _ _ => nofuel)))) (Some (fun _ _ => nofuel)));
  sop_at _ := Some (SuperOperations (Some (fun _ => nofuel)) (Some (fun _ => nofuel)) (Some (fun _ => nofuel)));
  read_super _ _ _ := nofuel |}.

Fixpoint kernel_tables (n : nat) : FsOps F :=
  match n with
  | O => no_tables
  | S n => {| iop_at := @inode_ops (kernel_tables n); sop_at := @super_ops (kernel_tables n); read_super := @read_super_of (kernel_tables n) |}
  end.
End tables.

(** ** The operations are quiet *)

Section quiet_tables.
Context {F : Type} `{Sub initrd_state F} `{Sub devfs_state F} `{Sub drv_state F} `{Sub ext2_state F} `{Sub fdc F} `{Sub urandom F} `{Sub console_state F}.
Context (current_pid : Z) (pause : M (vstate F) unit) (kill : Z -> Z -> M (vstate F) unit) (fuel : nat) (now : Z) (fresh : Z -> list Z).
Context (others : Z -> option (file_operations F)).
Context (pause_quiet : Quiet pause) (kill_quiet : forall p sign, Quiet (kill p sign)).
Context (others_quiet : forall a o, others a = Some o -> fops_quiet o).

Lemma quiet_on_fdc {A} (m : M fdc A) : Quiet (on_fdc (F := F) m).
Proof. intros s a s'. unfold on_fdc. destruct (m _) as [[b f]| |]; [|done..]. intros [= _ <-]. by split_and!. Qed.
Lemma quiet_on_urandom {A} (m : M urandom A) : Quiet (on_urandom (F := F) m).
Proof. intros s a s'. unfold on_urandom. destruct (m _) as [[b f]| |]; [|done..]. intros [= _ <-]. by split_and!. Qed.
Lemma quiet_upd_dev f : Quiet (upd_dev (F := F) f).
Proof. unfold upd_dev. quiet. Qed.
Lemma quiet_get_handle p : Quiet (get_handle (F := F) p).
Proof. unfold get_handle. quiet. Qed.
#[local] Hint Resolve quiet_on_fdc quiet_on_urandom quiet_upd_dev quiet_get_handle pause_quiet kill_quiet : frame.
Lemma quiet_put_handle p h : Quiet (put_handle (F := F) p h).
Proof. unfold put_handle. quiet. Qed.
#[local] Hint Resolve quiet_put_handle : frame.
Lemma quiet_upd_handle p f : Quiet (upd_handle (F := F) p f).
Proof. unfold upd_handle. quiet. Qed.
Lemma quiet_find_handle l i : Quiet (find_handle (F := F) l i).
Proof. induction l; cbn [find_handle]; quiet. Qed.
#[local] Hint Resolve quiet_upd_handle quiet_find_handle : frame.
Lemma quiet_devfs_iget i : Quiet (devfs_iget (F := F) i).
Proof. unfold devfs_iget. quiet. Qed.
Lemma quiet_device_discr node : Quiet (device_discr (F := F) node).
Proof. unfold device_discr. quiet. Qed.
#[local] Hint Resolve quiet_devfs_iget quiet_device_discr : frame.
Lemma quiet_devicen_pdata node : Quiet (devicen_pdata (F := F) node).
Proof. unfold devicen_pdata. quiet. Qed.
#[local] Hint Resolve quiet_devicen_pdata : frame.
Lemma quiet_on_port {A} node (m : Z -> IO A) : Quiet (on_port (F := F) node m).
Proof. unfold on_port. quiet. Qed.
Lemma quiet_upd_consoles f : Quiet (upd_consoles (F := F) f).
Proof. unfold upd_consoles. quiet. Qed.
Lemma quiet_device_pdata h : Quiet (device_pdata (F := F) h).
Proof. unfold device_pdata. quiet. Qed.
#[local] Hint Resolve quiet_upd_consoles quiet_device_pdata : frame.
Lemma quiet_tty_write node offset size buffer : Quiet (tty_write (F := F) node offset size buffer).
Proof. unfold tty_write, tty_write_to, get_tty, put_tty, print_if_current. quiet. Qed.
Lemma quiet_tty_read node offset size : Quiet (tty_read (F := F) node offset size).
Proof. unfold tty_read, get_tty, put_tty, print_if_current. quiet. Qed.
Lemma quiet_lift {A} (x : option A) : Quiet (lift (F := F) x).
Proof. unfold lift. quiet. Qed.
Lemma quiet_std_node fd node : Quiet (std_node (F := F) fd node).
Proof. unfold std_node. quiet. Qed.
#[local] Hint Resolve quiet_on_port quiet_lift quiet_std_node : frame.

Section level.
Context `{L : FsOps F} `{!FsQuiet F}.

Lemma quiet_devfs_lookup dir name : Quiet (devfs_lookup (F := F) dir name).
Proof. unfold devfs_lookup. quiet. Qed.
Lemma quiet_devfs_read_inode node : Quiet (devfs_read_inode (F := F) iops_copy node).
Proof. unfold devfs_read_inode, devfs_handle2vnode. quiet. Qed.
Lemma quiet_devfs_put_inode node : Quiet (devfs_put_inode (F := F) node).
Proof. unfold devfs_put_inode. quiet. Qed.
Lemma quiet_read_devfs_sb b data : Quiet (read_devfs_sb (F := F) devfs_dir_fop_at devfs_s_ops_at b data).
Proof. unfold read_devfs_sb, set_devfs_sb, devfs_create_cache, set_dcache, devfs_empty_dir, devfs_add_to_cache, set_dcache, set_devfs_root. quiet. Qed.
Lemma quiet_read_rootfs_sb b : Quiet (read_rootfs_sb (F := F) rootfs_sb_ops_at b).
Proof. unfold read_rootfs_sb. quiet. Qed.

(** *** ext2 *)

Lemma quiet_fs_read_block b block cnt buffer : Quiet (fs_read_block (F := F) b block cnt buffer).
Proof. unfold fs_read_block. quiet. Qed.
#[local] Hint Resolve quiet_fs_read_block : frame.
Lemma quiet_ext2_read_block b block buffer : Quiet (ext2_read_block (F := F) b block buffer).
Proof. unfold ext2_read_block. quiet. Qed.
Lemma quiet_upd_ext f : Quiet (upd_ext (F := F) f).
Proof. unfold upd_ext. quiet. Qed.
#[local] Hint Resolve quiet_ext2_read_block quiet_upd_ext : frame.
Lemma quiet_ext2_read_inode node : Quiet (ext2_read_inode (F := F) ext2_i_ops_at fresh node).
Proof. unfold ext2_read_inode, get_discr, put_ext2_inode. quiet. Qed.
Lemma quiet_ext2_put_inode node : Quiet (ext2_put_inode (F := F) node).
Proof. unfold ext2_put_inode, free_ext2_inode. quiet. Qed.
Lemma quiet_read_group b py bsize i buf : Quiet (read_group (F := F) fresh b py bsize i buf).
Proof. unfold read_group. quiet. Qed.
#[local] Hint Resolve quiet_read_group : frame.
Lemma quiet_read_groups n b py bsize : forall i buf, Quiet (read_groups (F := F) fresh n b py bsize i buf).
Proof. induction n as [|n IH]; intros i buf; cbn [read_groups]; quiet. Qed.
#[local] Hint Resolve quiet_read_groups : frame.
Lemma quiet_read_ext2_sb b data : Quiet (read_ext2_sb (F := F) fresh ext2_s_ops_at b data).
Proof. unfold read_ext2_sb, put_discr. quiet. Qed.
Lemma quiet_read_blocks n b node : forall block buf, Quiet (read_blocks (F := F) n b node block buf).
Proof. induction n as [|n IH]; intros block buf; cbn [read_blocks]; quiet. Qed.
#[local] Hint Resolve quiet_read_blocks : frame.
Lemma quiet_ext2_read node offset sz : Quiet (ext2_read (F := F) fresh node offset sz).
Proof. unfold ext2_read, get_ext2_inode. quiet. Qed.
#[local] Hint Resolve quiet_ext2_read : frame.
Lemma quiet_ext2_lookup dir name : Quiet (ext2_lookup (F := F) fresh dir name).
Proof. unfold ext2_lookup, read_dir. quiet. Qed.

(** *** Devices *)

Lemma quiet_lock_wait n dev : Quiet (lock_wait (F := F) current_pid pause n dev).
Proof. induction n as [|n IH]; cbn [lock_wait]; quiet. Qed.
#[local] Hint Resolve quiet_lock_wait : frame.
Lemma quiet_device_lock n node : Quiet (device_lock (F := F) current_pid pause n node).
Proof. unfold device_lock. quiet. Qed.
Lemma quiet_device_unlock node : Quiet (device_unlock (F := F) current_pid kill node).
Proof. unfold device_unlock. quiet. Qed.
#[local] Hint Resolve quiet_device_lock quiet_device_unlock : frame.
Lemma quiet_ramdisk_request node cmd sector n buffer : Quiet (ramdisk_request (F := F) current_pid pause kill fuel node cmd sector n buffer).
Proof. unfold ramdisk_request, get_mem, put_mem. quiet. Qed.
Lemma quiet_floppy_request node cmd sector n buffer : Quiet (floppy_request (F := F) current_pid pause kill fuel node cmd sector n buffer).
Proof. unfold floppy_request. quiet. Qed.
Lemma quiet_std_read fd node offset sz : Quiet (let! n := std_node fd node in match n with Some n => read_fs (F := F) n offset sz | None => ret (0, []) end).
Proof. quiet. Qed.
Lemma quiet_std_write fd node offset sz buffer :
  Quiet (let! n := std_node fd node in match n with Some n => write_fs (F := F) n offset sz buffer | None => ret 0 end).
Proof. quiet. Qed.

Lemma device_ops_quiet a o : device_ops (F := F) current_pid pause kill fuel now others a = Some o -> fops_quiet o.
Proof.
  unfold device_ops. repeat (case_match; [intros [= <-]; split; intros f; cbn; try done; intros [= <-]; intros|]); [..|by apply others_quiet];
    eauto using quiet_std_read, quiet_std_write, quiet_tty_read, quiet_tty_write, quiet_ramdisk_request, quiet_floppy_request with frame; apply quiet_ret.
Qed.

Lemma inode_ops_quiet a o : inode_ops (F := F) current_pid pause kill fuel now fresh others a = Some o ->
  quiet_op (lookup o) (fun f => forall n name, Quiet (f n name)) /\ quiet_op (f_op o) fops_quiet.
Proof.
  unfold inode_ops. repeat (case_match; [intros [= <-]; split; intros f; cbn|]); [..|done]; try (intros [= <-]; intros).
  - apply quiet_initrd_lookup.
  - apply initrd_f_ops_quiet.
  - apply quiet_ext2_lookup.
  - split; intros g; cbn; try done; intros [= <-]; intros; apply quiet_ext2_read.
  - apply quiet_devfs_lookup.
  - intros Hf. by apply device_ops_quiet in Hf.
Qed.
Lemma super_ops_quiet a o : super_ops (F := F) fresh a = Some o ->
  quiet_op (read_inode o) (fun f => forall n, Quiet (f n)) /\ quiet_op (put_inode o) (fun f => forall n, Quiet (f n)).
Proof.
  unfold super_ops. repeat (case_match; [intros [= <-]; split; intros f; cbn; try done; intros [= <-]; intros|]); [..|done].
  - apply quiet_upd_vnode.
  - apply quiet_initrd_read_inode.
  - apply quiet_devfs_read_inode.
  - apply quiet_devfs_put_inode.
  - apply quiet_ext2_read_inode.
  - apply quiet_ext2_put_inode.
Qed.
Lemma read_super_quiet type b data : Quiet (read_super_of (F := F) fresh type b data).
Proof.
  unfold read_super_of. repeat case_match; auto using quiet_read_rootfs_sb, quiet_read_initrd_sb, quiet_read_devfs_sb, quiet_read_ext2_sb, quiet_fault.
Qed.
End level.

Lemma kernel_tables_quiet n : @FsQuiet F (kernel_tables current_pid pause kill fuel now fresh others n).
Proof.
  induction n as [|n IH]; split; cbn [kernel_tables].
  - intros a o [= <-] f [= <-] x y. apply quiet_nofuel.
  - intros a o [= <-] f [= <-]. split; intros g [= <-]; intros; apply quiet_nofuel.
  - intros a o [= <-] f [= <-] x. apply quiet_nofuel.
  - intros a o [= <-] f [= <-] x. apply quiet_nofuel.
  - intros. apply quiet_nofuel.
  - intros a o Ho. by apply inode_ops_quiet in Ho as [? _].
  - intros a o Ho. by apply inode_ops_quiet in Ho as [_ ?].
  - intros a o Ho. by apply super_ops_quiet in Ho as [? _].
  - intros a o Ho. by apply super_ops_quiet in Ho as [_ ?].
  - intros. apply read_super_quiet.
Qed.
End quiet_tables.

(** ** Standard output and standard error crossed *)

Section crossed.
Context {F : Type} `{Sub initrd_state F} `{Sub devfs_state F} `{Sub drv_state F} `{Sub ext2_state F} `{Sub fdc F} `{Sub urandom F} `{Sub console_state F}.
Context (current_pid : Z) (pause : M (vstate F) unit) (kill : Z -> Z -> M (vstate F) unit) (fuel : nat) (now : Z) (fresh : Z -> list Z).
Context (others : Z -> option (file_operations F)).
Local Abbreviation tables := (kernel_tables current_pid pause kill fuel now fresh others).
Implicit Types s : vstate F.

(** Descriptor [fd] is a file of [node]. *)
Definition descriptor s (fd node : Z) : Prop :=
  exists p f, aget (t_files (current_task s)) fd = Some p /\ p <> 0 /\ files s !! p = Some f /\ f_node f = node.
(** [node] is a device with the table at [f_op]. *)
Definition device_node s (node f_op : Z) : Prop :=
  exists v, node <> 0 /\ vnodes s !! node = Some v /\ IS_DIR v = false /\ i_op v = iops_copy f_op.

Lemma write_device (L : FsOps F) s node offset sz buffer v o w : vnodes s !! node = Some v -> IS_DIR v = false ->
  fop_of v = Some o -> fo_write o = Some w -> write_fs node offset sz buffer s = w node offset sz buffer s.
Proof. intros Hv Hd Ho Hw. unfold write_fs, get_vnode, bind, get_or_fault. by rewrite Hv, Hd, Ho, Hw. Qed.

Lemma std_node_run s fd node other : descriptor s fd other -> other <> 0 -> other <> node -> std_node fd node s = Ok (Some other, s).
Proof.
  intros (p & f & Hp & Hnz & Hf & Hn) Ho Hne. unfold std_node, bind, gets, get_or_fault. rewrite Hp. replace (p =? 0) with false by lia.
  rewrite Hf, Hn. by replace ((other =? 0) || (other =? node)) with false by lia.
Qed.

(** C37: A process whose standard output is /dev/stderr and whose standard error
    is /dev/stdout (as after [>/dev/stderr 2>/dev/stdout]) never gets an answer
    from a write to either: the two devices pass it to each other for ever, so no
    number of nested calls is enough.  Each device only looks whether its
    descriptor is the device itself. *)
Theorem crossed_output_never_returns n s out err offset sz buffer :
  device_node s out stdout_ops_at -> device_node s err stderr_ops_at -> out <> err ->
  descriptor s STDOUT_FILENO err -> descriptor s STDERR_FILENO out ->
  @write_fs F (tables n) out offset sz buffer s = Fuel /\ @write_fs F (tables n) err offset sz buffer s = Fuel.
Proof.
  intros (vo & Ho & Hvo & Hdo & Hio) (ve & He & Hve & Hde & Hie) Hne Hfd1 Hfd2. induction n as [|n [IHo IHe]].
  - split.
    + erewrite (write_device (tables 0)); [|exact Hvo|exact Hdo|unfold fop_of, iop_of; rewrite Hio; reflexivity|reflexivity]. done.
    + erewrite (write_device (tables 0)); [|exact Hve|exact Hde|unfold fop_of, iop_of; rewrite Hie; reflexivity|reflexivity]. done.
  - split.
    + rewrite (write_device (tables (S n)) _ _ _ _ _ vo (@stdout_ops F (tables n)) (@drv_stdout_write F (tables n)) Hvo Hdo); [|unfold fop_of, iop_of; by rewrite Hio|done].
      unfold drv_stdout_write. rewrite (bind_run _ _ _ _ _ (std_node_run s STDOUT_FILENO out err Hfd1 He (not_eq_sym Hne))). exact IHe.
    + rewrite (write_device (tables (S n)) _ _ _ _ _ ve (@stderr_ops F (tables n)) (@drv_stderr_write F (tables n)) Hve Hde); [|unfold fop_of, iop_of; by rewrite Hie|done].
      unfold drv_stderr_write. rewrite (bind_run _ _ _ _ _ (std_node_run s STDERR_FILENO err out Hfd2 Ho Hne)). exact IHo.
Qed.
End crossed.

(** ** All of it in one state *)

Definition storage : Type := hardware * (initrd_state * (ext2_state * (urandom * console_state))).
#[export] Instance storage_hardware {P} `{Sub P hardware} : Sub P storage := { proj f := proj (fst f); inj p f := (inj p (fst f), snd f) }.
#[export] Instance storage_initrd : Sub initrd_state storage := { proj f := fst (snd f); inj d f := (fst f, (d, snd (snd f))) }.
#[export] Instance storage_ext2 : Sub ext2_state storage := { proj f := fst (snd (snd f)); inj d f := (fst f, (fst (snd f), (d, snd (snd (snd f))))) }.
#[export] Instance storage_urandom : Sub urandom storage := {
  proj f := fst (snd (snd (snd f))); inj d f := (fst f, (fst (snd f), (fst (snd (snd f)), (d, snd (snd (snd (snd f))))))) }.
#[export] Instance storage_consoles : Sub console_state storage := {
  proj f := snd (snd (snd (snd f))); inj d f := (fst f, (fst (snd f), (fst (snd (snd f)), (fst (snd (snd (snd f))), d)))) }.

(** Nothing is mounted or found yet; [script] is what the hardware will answer,
    [image] the initial ram disk at [location]. *)
Definition power_on (script : list Z) (location : Z) (image : list Z) : storage :=
  ((devfs_init, (DrvState ∅, Fdc (Bus [] script) [] [] [] 0 0 0 0 0 0 [] 0 0 0)),
   (InitrdState {[ location := image ]} ∅, (Ext2State ∅ ∅, (Urandom 0 0, ConsoleState ∅ 0 [])))).

Definition crossed_sample : vstate storage :=
  VState (<[501 := Vnode 2 2 1 0 0 146 FS_CHARDEVICE 1 0 0 0 7 100 (iops_copy stdout_ops_at) 0 0 0]>
            {[ 502 := Vnode 3 2 1 0 0 146 FS_CHARDEVICE 1 0 0 0 7 100 (iops_copy stderr_ops_at) 0 0 0 ]})
    {[ 100 := SuperBlock 7 0 0 devfs_s_ops_at 1 0 0 0 0 0 [501; 502] ]}
    (<[601 := File 1 FMODE_WRITE 502 0 1]> {[ 602 := File 2 FMODE_WRITE 501 0 1 ]}) ∅ [] ∅ [] 0 700
    (TaskFs 0 0 0 0 0 0 0 ([0; 601; 602] ++ replicate 29 0)) (power_on [] 0 []).

Lemma crossed_output_never_returns_witness :
  @write_fs storage (kernel_tables 0 (ret tt) (fun _ _ => ret tt) 1 0 (fun _ => []) (fun _ => None) 50) 501 0 1 [65] crossed_sample = Fuel.
Proof.
  refine (proj1 (crossed_output_never_returns 0 (ret tt) (fun _ _ => ret tt) 1 0 (fun _ => []) (fun _ => None) 50 crossed_sample 501 502 0 1 [65] _ _ _ _ _)).
  - eexists. split; [discriminate|]. split; [reflexivity|]. split; reflexivity.
  - eexists. split; [discriminate|]. split; [reflexivity|]. split; reflexivity.
  - discriminate.
  - exists 601, (File 1 FMODE_WRITE 502 0 1). split; [reflexivity|]. split; [discriminate|]. split; reflexivity.
  - exists 602, (File 2 FMODE_WRITE 501 0 1). split; [reflexivity|]. split; [discriminate|]. split; reflexivity.
Defined.
