(* ===== verification/User.v ===== *)
(** * The user programs: [src/usr/]

    A program is an interaction tree over the system calls it makes, so that a
    shell that never ends is a program like any other.  The library ([libc/]) is
    the part between a program and [int 0x80]; string.c and vsprintf.c there are
    the kernel's files, modelled in [CString] and [Vsprintf].  An access behind
    one of the program's own arrays is the event [Crash]. *)
From ITree Require Import ITree ITreeFacts Events.State Events.StateFacts.
From S2P Require Import Prelude CString Vsprintf Abi Nish.
Open Scope nup_scope.

Declare Scope prog_scope.
Delimit Scope prog_scope with prog.
Notation "'let*' x ':=' m 'in' k" := (ITree.bind m (fun x => k))
  (at level 10, x name, m at level 200, k at level 200, only parsing) : prog_scope.
Notation "'do*' m ; k" := (ITree.bind m (fun _ => k))
  (at level 10, m at level 200, k at level 200, only parsing) : prog_scope.
Infix "≈" := (eutt eq) (at level 70) : prog_scope.
Open Scope prog_scope.

(** ** The calls of [unistd.h] *)

(** What a system call answers is the value of [eax]; [Read] and [Waitpid] also
    answer what the kernel stored through the pointer.  [SetErrno] is a store to [errno]. *)
Inductive userE : Type -> Type :=
  | Exit (status : Z) : userE Empty_set
  | Fork : userE Z
  | Read (fd size : Z) : userE (Z * list Z)
  | Write (fd : Z) (buffer : list Z) : userE Z
  | Open (filename : list Z) (flag mode : Z) : userE Z
  | Close (fd : Z) : userE Z
  | Execve (file : list Z) (argv : option (list (list Z))) : userE Z
  | Getpid : userE Z
  | Pause : userE Z
  | Dup (fd : Z) : userE Z
  | Dup2 (fd fd2 : Z) : userE Z
  | Putchar (chr : Z) : userE Z
  | Waitpid (pid options : Z) : userE (Z * list Z)
  | Chdir (name : list Z) : userE Z
  | Mknod (name : list Z) (mode addr : Z) : userE Z
  | Kill (pid sign : Z) : userE Z
  | Ioctl (fd cmd arg : Z) : userE Z
  | Chroot (name : list Z) : userE Z
  | Getppid : userE Z
  | Reboot (howto : Z) : userE Z
  | SetErrno (e : Z) : userE unit
  | Crash : userE Empty_set.

Abbreviation prog := (itree userE).

Definition crash {A} : prog A := let* v := ITree.trigger Crash in match v : Empty_set with end.
Definition or_crash {A} (o : option A) : prog A := match o with Some a => Ret a | None => crash end.

(** The end of the [_syscall] macros. *)
Definition result (eax : Z) : prog Z :=
  if 0 <=? s32 eax then Ret (s32 eax) else do* ITree.trigger (SetErrno (s32 (- s32 eax))); Ret (-1).

Definition call (e : userE Z) : prog Z := let* eax := ITree.trigger e in result eax.

Definition call_storing (e : userE (Z * list Z)) : prog (Z * list Z) :=
  let* a := ITree.trigger e in let* r := result (fst a) in Ret (r, snd a).

Definition exit {A} (status : Z) : prog A := let* v := ITree.trigger (Exit status) in match v : Empty_set with end.
Definition fork : prog Z := call Fork.
Definition read (fd size : Z) : prog (Z * list Z) := call_storing (Read fd size).
Definition write (fd : Z) (buffer : list Z) : prog Z := call (Write fd buffer).
Definition open (filename : list Z) (flag mode : Z) : prog Z := call (Open filename flag mode).
Definition close (fd : Z) : prog Z := call (Close fd).
Definition execve (file : list Z) (argv : option (list (list Z))) : prog Z := call (Execve file argv).
Definition getpid : prog Z := call Getpid.
Definition pause : prog Z := call Pause.
Definition dup (fd : Z) : prog Z := call (Dup fd).
Definition dup2 (fd fd2 : Z) : prog Z := call (Dup2 fd fd2).

Definition putchar (chr : Z) : prog Z := call (Putchar chr).
Definition waitpid (pid options : Z) : prog (Z * list Z) := call_storing (Waitpid pid options).
Definition chdir (name : list Z) : prog Z := call (Chdir name).
Definition mknod (name : list Z) (mode addr : Z) : prog Z := call (Mknod name mode addr).
Definition kill (pid sign : Z) : prog Z := call (Kill pid sign).
Definition ioctl (fd cmd arg : Z) : prog Z := call (Ioctl fd cmd arg).
Definition chroot (name : list Z) : prog Z := call (Chroot name).
Definition getppid : prog Z := call Getppid.
Definition reboot (howto : Z) : prog Z := call (Reboot howto).

(** ** stdio.c, stdlib.c *)

Definition BUFSIZE : Z := 1024.

(** [res] is what the stack held, unless the kernel stored a character; the
    result of the call is not looked at. *)
Definition getc (res stream : Z) : prog Z :=
  let* a := read stream 1 in
  Ret (default res (head (snd a))).
Definition getchar (res : Z) : prog Z := getc res STDIN_FILENO.

(** The cells [vsprintf] stores, and its result. *)
Definition sprintf (fmt : list Z) (args : list va) : option (list Z * Z) :=
  match vsprintf fmt args with Ok (str, res, _) => Some (str, res) | _ => None end.

Definition printf (fmt : list Z) (args : list va) : prog Z :=
  match sprintf fmt args with
  | Some (str, res) =>
      if BUFSIZE <? Z.of_nat (length str) then crash
      else do* write STDOUT_FILENO (take (Z.to_nat res) str); Ret res
  | None => crash
  end.

(** [sprintf] into an array. *)
Definition sprintf_into (buf fmt : list Z) (args : list va) : option (list Z) :=
  '(str, _) ← sprintf fmt args;
  if Z.of_nat (length str) <=? Z.of_nat (length buf) then Some (str ++ drop (length str) buf) else None.

Definition is_digit (c : Z) : bool := u32 (c - 48) <? 10.
Fixpoint atoi_loop (str : list Z) (res : Z) : option Z :=
  match str with
  | [] => None
  | c :: str =>
      if negb (c =? 0) then atoi_loop str (if is_digit c then s32 (10 * res + (c - 48)) else res) else Some res
  end.
Definition atoi (str : list Z) : option Z := atoi_loop str 0.

(** [_start] of crt0.S: the result of [main] is the status. *)
Definition start (main : prog Z) : prog unit := let* eax := main in exit eax.

(** ** sh/main.c *)

(** One round of the loop of [sh_gets]: [inl] goes on, [inr] is the line. *)
Definition sh_gets_round (res : Z) (st : list Z * Z) : prog ((list Z * Z) + list Z) :=
  let '(buf, i) := st in
  let* c := getchar res in
  let* buf := or_crash (aset buf i c) in
  if c =? 10 then
    let* buf := or_crash (aset buf i 0) in
    Ret (inr buf)
  else if c =? 8 then
    let i := s32 (i - 2) in
    do* (if -1 <=? i then do* printf [8; 0] []; Ret tt else Ret tt);
    let i := if i <? 0 then -1 else i in
    Ret (inl (buf, s32 (i + 1)))
  else if c =? 9 then Ret (inl (buf, s32 (i + 1)))
  else
    do* printf (lit "%c") [VWord c];
    Ret (inl (buf, s32 (i + 1))).

Definition sh_gets (res : Z) (buf : list Z) : prog (list Z) :=
  do* printf (clit "\e[?25h") [];
  let* buf := ITree.iter (sh_gets_round res) (buf, 0) in
  do* printf (clit "\n\e[?25l") [];
  Ret buf.

Definition print_welcome : prog unit :=
  do* printf (clit "This shell session is connected to the Nupkux intern shell (nish)\n") [];
  do* printf (clit "running in kernel mode, so \e[33mBE CAREFULL\e[m!\n") [];
  Ret tt.

(** The loop of [main]; what follows it is never reached. *)
Definition sh_round (res fd : Z) (input : list Z) : prog (list Z + Empty_set) :=
  do* printf (clit "\e[97msh#\e[m ") [];
  let* input := sh_gets res input in
  let* n := or_crash (strlen input) in
  do* write fd (take (Z.to_nat (n + 1)) input);
  Ret (inl input).
Definition sh_loop (res fd : Z) (input : list Z) : prog Empty_set := ITree.iter (sh_round res fd) input.

Definition sh_main (res : Z) : prog Z :=
  do* print_welcome;
  let* fd := open (lit "/dev/nish") O_RDWR 0 in
  do* (if fd <? 0 then do* printf (clit "\e[31mCannot connect to nish\e[m\n") []; exit 1 else Ret tt);
  let* v := sh_loop res fd (replicate 255 0) in
  match v : Empty_set with end.

(** ** getty/main.c, login/main.c, utest/main.c, hello/main.c *)

(** [argv] is an array of strings that ends with a null pointer; [device] is
    what the stack held. *)
Definition getty_main (device : list Z) (argc : Z) (argv : list (option (list Z))) : prog Z :=
  if argc <? 2 then Ret 1
  else
    let* arg := or_crash (aget argv 1) in
    let* device := or_crash (sprintf_into device (lit "/dev/tty%s") [VStr arg]) in
    do* close STDIN_FILENO;
    do* open device O_RDWR 0;
    do* dup2 STDIN_FILENO STDOUT_FILENO;
    do* dup2 STDIN_FILENO STDERR_FILENO;
    do* printf (clit "\nNupkux tty%s\n\n") [VStr arg];
    do* execve (lit "/bin/login") None;
    Ret 0.

Definition acknowledgement (date time : list Z) : prog unit :=
  do* printf (clit "Welcome to Nupkux build %s %s\n\n") [VStr (Some date); VStr (Some time)];
  do* printf (clit "The Nupkux kernel and userspace programs are free software, but come\n") [];
  do* printf (clit "WITHOUT ANY WARRANTY; see the GNU General Public License for more details.\n\n") [];
  Ret tt.
Definition login_main (date time : list Z) : prog Z :=
  do* acknowledgement date time;
  do* execve (lit "/bin/sh") None;
  Ret 0.

Definition utest_main : prog Z := do* printf (clit "A\n") []; Ret 0.
Definition hello_main : prog Z := do* printf (clit "Hello World!\nHow are you?\n") []; Ret 0.

(** ** init/main.c *)

Definition TTY_SETUPS : Z := 4.

(** The loop over the consoles: [n] rounds from [i] on. *)
Fixpoint setup_gettys (n : nat) (i : Z) (device : list Z) : prog unit :=
  match n with
  | O => Ret tt
  | S n =>
      let* device := or_crash (sprintf_into device (lit "%d") [VWord i]) in
      let* pid := fork in
      do* (if pid =? 0 then let* status := execve (lit "/bin/getty") (Some [lit "getty"; device]) in exit status else Ret tt);
      setup_gettys n (i + 1) device
  end.

Definition init_main : prog Z :=
  do* open (lit "/dev/tty0") O_RDWR 0;
  do* dup STDIN_FILENO;
  do* dup STDIN_FILENO;
  let* pid := getpid in
  do* (if negb (pid =? 1) then do* printf (clit "\e[91mWARNING: \e[mDo not run init manually!!\n") []; exit 1 else Ret tt);
  do* printf (clit "\e[32mStarting Nupkux INIT ...\e[m\n") [];
  do* setup_gettys (Z.to_nat TTY_SETUPS) 0 (replicate 4 0);
  let* v := ITree.iter (fun _ => do* pause; Ret (inl tt)) tt in
  match v : Empty_set with end.

(** ** The keyboard

    The console under a program: a [read] of one character from the standard
    input takes the next key; when there is none, [tty_read] waits for ever.
    The other calls stay what they are. *)
Definition pass_on {S A} (e : userE A) (s : S) : prog (S * A) := let* a := ITree.trigger e in Ret (s, a).
Definition keyboard : userE ~> Monads.stateT (list Z) prog := fun A e =>
  match e in userE A return list Z -> prog (list Z * A) with
  | Read fd size => fun keys =>
      if (fd =? STDIN_FILENO) && (size =? 1) then
        match keys with [] => ITree.spin | c :: keys => Ret (keys, (1, [c])) end
      else pass_on (Read fd size) keys
  | e => pass_on e
  end.

(** What [fork] answers, and the process number of init: one branch of the
    processes it makes. *)
Definition family : userE ~> Monads.stateT (list Z) prog := fun A e =>
  match e in userE A return list Z -> prog (list Z * A) with
  | Fork => fun pids => match pids with [] => pass_on Fork [] | pid :: pids => Ret (pids, pid) end
  | Getpid => fun pids => Ret (pids, 1)
  | e => pass_on e
  end.

(** ** What a session with the shell is *)

(** The line that keys make: a backspace takes the last character back. *)
Definition edit_key (text : list Z) (k : Z) : list Z := if k =? 8 then take (pred (length text)) text else text ++ [k].
Definition edit (keys : list Z) : list Z := fold_left edit_key keys [].

(** What is shown for a key when the line has [n] characters. *)
Definition shown (n : nat) (k : Z) : list (list Z) :=
  if k =? 8 then (match n with O => [] | _ => [[8]] end) else if k =? 9 then [] else [[k]].
Definition next_pos (n : nat) (k : Z) : nat := if k =? 8 then pred n else S n.
Fixpoint echoes (n : nat) (keys : list Z) : list (list Z) :=
  match keys with [] => [] | k :: keys => shown n k ++ echoes (next_pos n k) keys end.

(** What the keys do to the position and to the array; every key finds room in
    an array of [cap] characters. *)
Definition pos (n : nat) (keys : list Z) : nat := fold_left next_pos keys n.
Fixpoint held (buf : list Z) (n : nat) (keys : list Z) : list Z :=
  match keys with [] => buf | k :: keys => held (<[n := k]> buf) (next_pos n k) keys end.
Fixpoint room (cap n : nat) (keys : list Z) : bool :=
  match keys with [] => true | k :: keys => (n <? cap)%nat && room cap (next_pos n k) keys end.
(** With the newline. *)
Definition fits (cap : nat) (keys : list Z) : bool := room cap 0 keys && (pos 0 keys <? cap)%nat.

Fixpoint says (l : list (list Z)) : prog unit :=
  match l with [] => Ret tt | s :: l => do* write STDOUT_FILENO s; says l end.

(** A session in which [lines] are typed and then [pending], the beginning of a
    line that is not finished. *)
Fixpoint session (fd : Z) (lines : list (list Z)) (pending : list Z) : prog (list Z * Empty_set) :=
  do* write STDOUT_FILENO ([27] ++ chars "[97msh#" ++ [27] ++ chars "[m ");
  do* write STDOUT_FILENO ([27] ++ chars "[?25h");
  match lines with
  | [] => do* says (echoes 0 pending); ITree.spin
  | l :: lines =>
      do* says (echoes 0 l);
      do* write STDOUT_FILENO ([10; 27] ++ chars "[?25l");
      do* write fd (edit l ++ [0]);
      session fd lines pending
  end.

(** Keys of one line, the newline apart. *)
Definition line_key (k : Z) : Prop := -128 <= k < 128 /\ k <> 10.
Definition line_keys (l : list Z) : Prop := Forall (fun k => line_key k /\ k <> 0) l /\ fits 255 l = true.

(** ** Lemmas *)

Lemma printf_run fmt args str n : sprintf fmt args = Some (str, n) -> Z.of_nat (length str) <= BUFSIZE ->
  printf fmt args = (do* write STDOUT_FILENO (take (Z.to_nat n) str); Ret n).
Proof. intros E H. unfold printf. rewrite E. by replace (BUFSIZE <? _) with false by lia. Qed.

Lemma printf_char c : -128 <= c < 128 -> printf (lit "%c") [VWord c] = (do* write STDOUT_FILENO [c]; Ret 1).
Proof.
  intros Hc. rewrite (printf_run _ _ [c; 0] 1); [done| |by cbn].
  replace (lit "%c") with [37; 99; 0] by reflexivity. unfold sprintf, vsprintf. cbn [length]. rewrite vsprintf_loop_percent. cbv zeta.
  replace (conversion _ _ _) with (Some (Conv [s8 c] [0] [] None)) by reflexivity. cbn. by rewrite s8_id.
Qed.

(** Handlers that leave the output alone. *)
Class Passes {S} (h : userE ~> Monads.stateT S prog) : Prop := {
  pass_write fd b : h _ (Write fd b) = pass_on (Write fd b);
  pass_errno e : h _ (SetErrno e) = pass_on (SetErrno e);
  pass_exit status : h _ (Exit status) = pass_on (Exit status);
  pass_crash : h _ Crash = pass_on Crash }.
#[export] Instance keyboard_passes : Passes keyboard.
Proof. done. Qed.
#[export] Instance family_passes : Passes family.
Proof. done. Qed.

Section passes.
Context {S : Type} {h : userE ~> Monads.stateT S prog} `{!Passes h}.
Implicit Types s : S.

Lemma interp_pass {A} (e : userE A) s : h A e = pass_on e ->
  interp_state h (ITree.trigger e) s ≈ pass_on e s.
Proof. intros E. rewrite interp_state_trigger, E. reflexivity. Qed.

Lemma interp_result eax s : interp_state h (result eax) s ≈ (let* r := result eax in Ret (s, r)).
Proof.
  unfold result. destruct (0 <=? s32 eax).
  - by rewrite interp_state_ret, Eqit.bind_ret_l.
  - rewrite interp_state_bind, interp_pass by apply pass_errno. unfold pass_on. rewrite !Eqit.bind_bind.
    apply eutt_eq_bind. intros []. rewrite !Eqit.bind_ret_l. cbn. by rewrite interp_state_ret.
Qed.

Lemma interp_call e s : h Z e = pass_on e -> interp_state h (call e) s ≈ (let* r := call e in Ret (s, r)).
Proof.
  intros E. unfold call. rewrite interp_state_bind, interp_pass by done. unfold pass_on. rewrite !Eqit.bind_bind.
  apply eutt_eq_bind. intros r. rewrite Eqit.bind_ret_l. cbn. apply interp_result.
Qed.

(** A write whose result is dropped. *)
Lemma interp_write {A} fd b (k : prog A) s :
  interp_state h (do* write fd b; k) s ≈ (do* write fd b; interp_state h k s).
Proof.
  rewrite interp_state_bind. unfold write. rewrite interp_call by apply pass_write. rewrite Eqit.bind_bind.
  apply eutt_eq_bind. intros r. by rewrite Eqit.bind_ret_l.
Qed.

Lemma interp_print {A} fmt args str n (k : prog A) s : sprintf fmt args = Some (str, n) -> Z.of_nat (length str) <= BUFSIZE ->
  interp_state h (do* printf fmt args; k) s ≈
  (do* write STDOUT_FILENO (take (Z.to_nat n) str); interp_state h k s).
Proof.
  intros E H. rewrite (printf_run _ _ _ _ E H). rewrite Eqit.bind_bind, interp_write.
  apply eutt_eq_bind. intros _. by rewrite Eqit.bind_ret_l.
Qed.

Lemma interp_crash {A} s : interp_state h (crash : prog A) s ≈ crash.
Proof.
  unfold crash. rewrite interp_state_bind, interp_pass by apply pass_crash. unfold pass_on. rewrite Eqit.bind_bind.
  apply eutt_eq_bind. intros [].
Qed.

Lemma interp_exit {A} status s : interp_state h (exit status : prog A) s ≈ exit status.
Proof.
  unfold exit. rewrite interp_state_bind, interp_pass by apply pass_exit. unfold pass_on. rewrite Eqit.bind_bind.
  apply eutt_eq_bind. intros [].
Qed.

End passes.

(** Waiting for ever does not go on. *)
Lemma spin_bind {E A B} (k : A -> itree E B) : ITree.bind ITree.spin k ≈ ITree.spin.
Proof.
  einit. ecofix CIH. rewrite (itree_eta (ITree.spin (R := B))), (itree_eta (ITree.spin (R := A))). cbn. rewrite bind_tau. etau.
Qed.

Lemma interp_key {A} res c keys (k : Z -> prog A) :
  interp_state keyboard (ITree.bind (getchar res) k) (c :: keys) ≈ interp_state keyboard (k c) keys.
Proof.
  unfold getchar, getc, read, call_storing. rewrite !Eqit.bind_bind, interp_state_bind, interp_state_trigger. cbn. rewrite Eqit.bind_ret_l. cbn.
  change (result 1) with (Ret 1 : prog Z). by rewrite !Eqit.bind_ret_l.
Qed.

Lemma interp_no_key {A} res (k : Z -> prog A) :
  interp_state keyboard (ITree.bind (getchar res) k) [] ≈ ITree.spin.
Proof.
  unfold getchar, getc, read, call_storing. rewrite !Eqit.bind_bind, interp_state_bind, interp_state_trigger. cbn.
  apply spin_bind.
Qed.

(** One round of [sh_gets] for a key that is not the newline. *)
Lemma round_key {A} res buf n k keys (f : (list Z * Z) + list Z -> prog A) :
  -128 <= k < 128 -> k <> 10 -> (n < length buf)%nat -> Z.of_nat (length buf) < 2147483647 ->
  interp_state keyboard (ITree.bind (sh_gets_round res (buf, Z.of_nat n)) f) (k :: keys) ≈
  (do* says (shown n k); interp_state keyboard (f (inl (<[n := k]> buf, Z.of_nat (next_pos n k)))) keys).
Proof.
  intros Hk H10 Hn Hl. unfold sh_gets_round. rewrite Eqit.bind_bind, interp_key.
  rewrite aset_Some, Nat2Z.id by lia. cbn [or_crash]. rewrite Eqit.bind_bind, Eqit.bind_ret_l. unfold shown, next_pos.
  replace (k =? 10) with false by lia. destruct (k =? 8) eqn:E8.
  - rewrite (s32_id (Z.of_nat n - 2)) by lia. rewrite !Eqit.bind_bind. destruct n as [|n].
    + replace (-1 <=? _) with false by lia. replace (_ <? 0) with true by lia. rewrite !Eqit.bind_ret_l. cbn [says]. by rewrite Eqit.bind_ret_l.
    + replace (-1 <=? _) with true by lia. rewrite !Eqit.bind_bind, (interp_print _ _ [8; 0] 1) by done. cbn [says]. rewrite Eqit.bind_bind.
      apply eutt_eq_bind. intros _. rewrite !Eqit.bind_ret_l. cbn [pred].
      replace (s32 _) with (Z.of_nat n); [done|]. rewrite s32_id by (destruct (_ <? 0) eqn:?; lia). destruct (_ <? 0) eqn:?; lia.
  - rewrite s32_id by lia. replace (Z.of_nat n + 1) with (Z.of_nat (S n)) by lia. destruct (k =? 9).
    + cbn [says]. by rewrite !Eqit.bind_ret_l.
    + rewrite (printf_char k Hk), !Eqit.bind_bind, interp_write. cbn [says]. rewrite Eqit.bind_bind. apply eutt_eq_bind. intros _.
      by rewrite !Eqit.bind_ret_l.
Qed.

Lemma says_app l1 l2 : says (l1 ++ l2) ≈ (do* says l1; says l2).
Proof.
  induction l1 as [|s l1 IH]; cbn [says app]; [by rewrite Eqit.bind_ret_l|].
  rewrite Eqit.bind_bind. apply eutt_eq_bind. intros _. apply IH.
Qed.

(** The rounds for keys that find room. *)
Lemma gets_keys res keys : forall buf n rest, Forall line_key keys ->
  room (length buf) n keys = true -> Z.of_nat (length buf) < 2147483647 ->
  interp_state keyboard (ITree.iter (sh_gets_round res) (buf, Z.of_nat n)) (keys ++ rest) ≈
  (do* says (echoes n keys); interp_state keyboard (ITree.iter (sh_gets_round res) (held buf n keys, Z.of_nat (pos n keys))) rest).
Proof.
  induction keys as [|k keys IH]; intros buf n rest Hk Hr Hl; cbn [app echoes held]; [cbn [says]; by rewrite Eqit.bind_ret_l|].
  apply Forall_cons in Hk as [[Hk H10] Hks]. cbn [room] in Hr. apply andb_true_iff in Hr as [Hn Hr].
  rewrite unfold_iter, round_key by (done || lia).
  rewrite says_app, Eqit.bind_bind. apply eutt_eq_bind. intros []. rewrite interp_state_tau, tau_eutt.
  apply IH; rewrite ?length_insert; done.
Qed.

Lemma held_length keys : forall buf n, length (held buf n keys) = length buf.
Proof. induction keys as [|k keys IH]; intros; cbn [held]; [done|]. rewrite IH. apply length_insert. Qed.

(** The newline ends the line. *)
Lemma gets_newline res buf n rest : (n < length buf)%nat ->
  interp_state keyboard (ITree.iter (sh_gets_round res) (buf, Z.of_nat n)) (10 :: rest) ≈ Ret (rest, <[n := 0]> buf).
Proof.
  intros Hn. rewrite unfold_iter. unfold sh_gets_round at 1. rewrite !Eqit.bind_bind, interp_key, Eqit.bind_bind.
  rewrite aset_Some, Nat2Z.id by lia. cbn [or_crash]. rewrite Eqit.bind_ret_l. change (10 =? 10) with true. cbv iota.
  rewrite aset_Some, Nat2Z.id by (rewrite ?length_insert; lia). cbn [or_crash]. rewrite !Eqit.bind_ret_l, list_insert_insert_eq.
  by rewrite interp_state_ret.
Qed.

(** The array holds the line so far. *)
Lemma held_line keys : forall buf n text, room (length buf) n keys = true -> take n buf = text -> (n <= length buf)%nat ->
  take (pos n keys) (held buf n keys) = fold_left edit_key keys text.
Proof.
  induction keys as [|k keys IH]; intros buf n text Hr Ht Hn; [done|]. cbn [held fold_left room pos] in *.
  apply andb_true_iff in Hr as [Hlt Hr]. apply IH; rewrite ?length_insert; [done| |unfold next_pos; destruct (k =? 8); lia].
  unfold next_pos, edit_key. destruct (k =? 8).
  - rewrite take_insert_ge by lia. rewrite <- Ht, length_take, take_take. f_equal. lia.
  - rewrite (take_S_r _ n k) by (apply list_lookup_insert_eq; lia). by rewrite take_insert_ge, Ht by lia.
Qed.

Lemma edit_no_nul keys : forall text, Forall (fun c => c <> 0) text -> Forall (fun k => k <> 0) keys ->
  Forall (fun c => c <> 0) (fold_left edit_key keys text).
Proof.
  induction keys as [|k keys IH]; intros text Ht Hk; [done|]. apply Forall_cons in Hk as [Hk Hks]. cbn [fold_left]. apply IH; [|done].
  unfold edit_key. destruct (k =? 8); [by apply Forall_take|]. apply Forall_app. by repeat constructor.
Qed.

(** [sh_gets] for keys that find room, up to what comes then. *)
Lemma sh_gets_keys {A} res buf keys rest (k : list Z -> prog A) : Forall line_key keys ->
  room (length buf) 0 keys = true -> Z.of_nat (length buf) < 2147483647 ->
  interp_state keyboard (ITree.bind (sh_gets res buf) k) (keys ++ rest) ≈
  (do* write STDOUT_FILENO ([27] ++ chars "[?25h");
   do* says (echoes 0 keys);
   interp_state keyboard (let* buf := ITree.iter (sh_gets_round res) (held buf 0 keys, Z.of_nat (pos 0 keys)) in
     do* printf (clit "\n\e[?25l") []; k buf) rest).
Proof.
  intros Hk Hr Hl. unfold sh_gets. rewrite Eqit.bind_bind, (interp_print _ _ ([27] ++ chars "[?25h" ++ [0]) 6) by (by vm_compute).
  apply eutt_eq_bind. intros _. rewrite Eqit.bind_bind, interp_state_bind, (gets_keys res keys buf 0 rest), Eqit.bind_bind by done.
  apply eutt_eq_bind. intros _. rewrite interp_state_bind. apply eutt_eq_bind. intros r.
  rewrite Eqit.bind_bind, !(interp_state_bind _ (printf _ _)). apply eutt_eq_bind. intros o. by rewrite Eqit.bind_ret_l.
Qed.

Lemma sh_gets_line {A} res buf keys rest (k : list Z -> prog A) : Forall line_key keys ->
  fits (length buf) keys = true -> Z.of_nat (length buf) < 2147483647 ->
  interp_state keyboard (ITree.bind (sh_gets res buf) k) (keys ++ 10 :: rest) ≈
  (do* write STDOUT_FILENO ([27] ++ chars "[?25h");
   do* says (echoes 0 keys);
   do* write STDOUT_FILENO ([10; 27] ++ chars "[?25l");
   interp_state keyboard (k (edit keys ++ 0 :: drop (S (pos 0 keys)) (held buf 0 keys))) rest).
Proof.
  intros Hk Hf Hl. apply andb_true_iff in Hf as [Hr Hp]. rewrite sh_gets_keys by done.
  apply eutt_eq_bind. intros _. apply eutt_eq_bind. intros _. rewrite interp_state_bind, gets_newline by (rewrite held_length; lia).
  rewrite Eqit.bind_ret_l. cbn [fst snd]. rewrite (interp_print _ _ ([10; 27] ++ chars "[?25l" ++ [0]) 7) by (by vm_compute).
  apply eutt_eq_bind. intros _. rewrite insert_take_drop by (rewrite held_length; lia).
  by rewrite (held_line keys buf 0 []) by (done || lia).
Qed.

(** One round of the shell, a whole line typed. *)
Lemma sh_round_line res fd buf l rest (f : list Z + Empty_set -> prog Empty_set) : line_keys l -> length buf = 255%nat ->
  exists buf', length buf' = 255%nat /\
  interp_state keyboard (ITree.bind (sh_round res fd buf) f) (l ++ 10 :: rest) ≈
  (do* write STDOUT_FILENO ([27] ++ chars "[97msh#" ++ [27] ++ chars "[m ");
   do* write STDOUT_FILENO ([27] ++ chars "[?25h");
   do* says (echoes 0 l);
   do* write STDOUT_FILENO ([10; 27] ++ chars "[?25l");
   do* write fd (edit l ++ [0]);
   interp_state keyboard (f (inl buf')) rest).
Proof.
  intros [Hl Hf] Hb. rewrite <- Hb in Hf. eexists (edit l ++ 0 :: drop (S (pos 0 l)) (held buf 0 l)). split.
  - pose proof Hf as [Hr Hp]%andb_true_iff. unfold edit. rewrite <- (held_line l buf 0 []) by (done || lia).
    rewrite length_app, length_take, held_length. cbn [length]. rewrite length_drop, held_length. lia.
  - unfold sh_round. rewrite Eqit.bind_bind, (interp_print _ _ ([27] ++ chars "[97msh#" ++ [27] ++ chars "[m " ++ [0]) 12) by (by vm_compute).
    apply eutt_eq_bind. intros _. rewrite Eqit.bind_bind, sh_gets_line; [|by eapply Forall_impl; [exact Hl|intros ? []]|done|lia].
    do 3 (apply eutt_eq_bind; intros _).
    assert (Hn : Forall (fun c => c <> 0) (edit l)) by (apply edit_no_nul; [done|]; by eapply Forall_impl; [exact Hl|intros ? []]).
    assert (Hlen : (length (edit l) <= 255)%nat).
    { apply andb_true_iff in Hf as [Hr _]. unfold edit. rewrite <- (held_line l buf 0 []) by (done || lia). rewrite length_take, held_length. lia. }
    rewrite (strlen_spec _ (edit l)) by (by apply cstr_app || lia). cbn [or_crash]. rewrite Eqit.bind_bind, Eqit.bind_ret_l.
    rewrite Eqit.bind_bind, interp_write. replace (take _ _) with (edit l ++ [0]).
    + apply eutt_eq_bind. intros _. by rewrite Eqit.bind_ret_l.
    + replace (Z.to_nat _) with (length (edit l ++ [0])) by (rewrite length_app; cbn; lia).
      by rewrite (app_assoc (edit l) [0] (drop _ _) : edit l ++ 0 :: drop _ _ = _), take_app_length.
Qed.

(** Waiting in the middle of a line. *)
Lemma gets_waits res buf n : interp_state keyboard (ITree.iter (sh_gets_round res) (buf, n)) [] ≈ ITree.spin.
Proof. rewrite unfold_iter. unfold sh_gets_round at 1. by rewrite Eqit.bind_bind, interp_no_key. Qed.

Lemma sh_loop_session res fd lines pending : forall buf, Forall line_keys lines -> Forall line_key pending -> room 255 0 pending = true ->
  length buf = 255%nat ->
  interp_state keyboard (sh_loop res fd buf) (concat (map (fun l => l ++ [10]) lines) ++ pending) ≈ session fd lines pending.
Proof.
  induction lines as [|l lines IH]; intros buf Hls Hp Hr Hb; unfold sh_loop; rewrite unfold_iter; cbn [map concat app session].
  - unfold sh_round at 1. rewrite Eqit.bind_bind, (interp_print _ _ ([27] ++ chars "[97msh#" ++ [27] ++ chars "[m " ++ [0]) 12) by (by vm_compute).
    apply eutt_eq_bind. intros _. rewrite <- (app_nil_r pending) at 1. rewrite <- Hb in Hr.
    rewrite Eqit.bind_bind, sh_gets_keys by (done || lia). do 2 (apply eutt_eq_bind; intros _).
    rewrite interp_state_bind, gets_waits. apply spin_bind.
  - apply Forall_cons in Hls as [Hl Hls]. rewrite <- !app_assoc. cbn [app].
    destruct (sh_round_line res fd buf l (concat (map (fun l => l ++ [10]) lines) ++ pending)
      (fun lr => match lr with inl l => Tau (ITree.iter (sh_round res fd) l) | inr r => Ret r end) Hl Hb) as (buf' & Hb' & E).
    rewrite E. do 5 (apply eutt_eq_bind; intros _). rewrite interp_state_tau, tau_eutt. by apply IH.
Qed.

(** Kernel calls that the keyboard does not answer, with their results dropped. *)
Lemma bind_drop {A B} (m : prog A) (k1 k2 : prog B) : k1 ≈ k2 -> (do* m; k1) ≈ (do* m; k2).
Proof. intros E. apply eutt_eq_bind. by intros _. Qed.

Lemma sprintf_s pre post s text :
  Forall (fun c => c <> 0 /\ c <> 37) pre -> Forall (fun c => c <> 0 /\ c <> 37) post ->
  cstr s = Some text -> Z.of_nat (length text) < 2147483648 ->
  sprintf (pre ++ 37 :: 115 :: post ++ [0]) [VStr (Some s)] = Some ((pre ++ text ++ post) ++ [0], Z.of_nat (length (pre ++ text ++ post))).
Proof. intros. unfold sprintf. by rewrite (vsprintf_s pre post s text). Qed.

Lemma printf_s pre post s text :
  Forall (fun c => c <> 0 /\ c <> 37) pre -> Forall (fun c => c <> 0 /\ c <> 37) post ->
  cstr s = Some text -> Z.of_nat (length (pre ++ text ++ post)) < BUFSIZE ->
  printf (pre ++ 37 :: 115 :: post ++ [0]) [VStr (Some s)] ≈
  (do* write STDOUT_FILENO (pre ++ text ++ post); Ret (Z.of_nat (length (pre ++ text ++ post)))).
Proof.
  intros Hpre Hpost Hs Hl. unfold BUFSIZE in *. erewrite printf_run; [|apply sprintf_s; [done..|]|].
  - by rewrite Nat2Z.id, take_app_length.
  - rewrite !length_app in Hl. lia.
  - rewrite length_app. unfold BUFSIZE. cbn [length]. lia.
Qed.

(** The value of a string of digits. *)
Lemma atoi_digits ds : forall acc rest, Forall (fun c => Vsprintf.is_digit c = true) ds -> 0 <= acc ->
  fold_left (fun v d => v * 10 + d) ((fun c => c - 48) <$> ds) acc < 2147483648 ->
  atoi_loop (ds ++ 0 :: rest) acc = Some (fold_left (fun v d => v * 10 + d) ((fun c => c - 48) <$> ds) acc).
Proof.
  assert (Hge : forall ds acc, Forall (fun c => Vsprintf.is_digit c = true) ds -> 0 <= acc ->
    acc <= fold_left (fun v d => v * 10 + d) ((fun c => c - 48) <$> ds) acc).
  { clear ds. induction ds as [|d ds IH]; intros acc Hd Ha; [done|]. apply Forall_cons in Hd as [Hd Hds]. cbn [fmap list_fmap fold_left].
    unfold Vsprintf.is_digit in Hd. specialize (IH (acc * 10 + (d - 48)) Hds). lia. }
  induction ds as [|d ds IH]; intros acc rest Hd Ha Hb; [done|]. apply Forall_cons in Hd as [Hd Hds]. cbn [fmap list_fmap fold_left] in *.
  unfold Vsprintf.is_digit in Hd. cbn [app atoi_loop]. replace (d =? 0) with false by lia. cbn [negb].
  unfold is_digit. replace (u32 (d - 48) <? 10) with true by (unfold u32; lia).
  pose proof (Hge ds (acc * 10 + (d - 48)) Hds ltac:(lia)) as H. rewrite s32_id by lia. rewrite (Z.mul_comm 10). apply IH; [done|lia|done].
Qed.

(** ** Properties *)

(** C11: A session with the shell, whatever is typed: every line that fits is sent
    to the kernel's shell as it was edited, with its NUL, in one write and in
    the order of typing, keys are shown as they come, and in the middle of the
    last line the shell waits for ever. *)
Theorem sh_session res lines pending : Forall line_keys lines -> Forall line_key pending -> room 255 0 pending = true ->
  interp_state keyboard (sh_main res) (concat (map (fun l => l ++ [10]) lines) ++ pending) ≈
  (do* write STDOUT_FILENO (chars "This shell session is connected to the Nupkux intern shell (nish)" ++ [10]);
   do* write STDOUT_FILENO (chars "running in kernel mode, so " ++ [27] ++ chars "[33mBE CAREFULL" ++ [27] ++ chars "[m!" ++ [10]);
   let* fd := open (lit "/dev/nish") O_RDWR 0 in
   if fd <? 0 then do* write STDOUT_FILENO ([27] ++ chars "[31mCannot connect to nish" ++ [27] ++ chars "[m" ++ [10]); exit 1
   else let* v := session fd lines pending in match snd v : Empty_set with end).
Proof.
  intros Hl Hp Hr. unfold sh_main, print_welcome. rewrite Eqit.bind_bind.
  rewrite (interp_print _ _ (chars "This shell session is connected to the Nupkux intern shell (nish)" ++ [10; 0]) 66) by (by vm_compute).
  apply bind_drop. rewrite Eqit.bind_bind.
  rewrite (interp_print _ _ (chars "running in kernel mode, so " ++ [27] ++ chars "[33mBE CAREFULL" ++ [27] ++ chars "[m!" ++ [10; 0]) 48) by (by vm_compute).
  apply bind_drop. rewrite Eqit.bind_ret_l, interp_state_bind. unfold open at 1. rewrite interp_call, Eqit.bind_bind by done.
  apply eutt_eq_bind. intros fd. rewrite Eqit.bind_ret_l. cbn [fst snd]. destruct (fd <? 0).
  - rewrite Eqit.bind_bind, (interp_print _ _ ([27] ++ chars "[31mCannot connect to nish" ++ [27] ++ chars "[m" ++ [10; 0]) 31) by (by vm_compute).
    apply bind_drop. rewrite interp_state_bind, interp_exit. unfold exit. rewrite Eqit.bind_bind. apply eutt_eq_bind. intros [].
  - rewrite Eqit.bind_ret_l, interp_state_bind, sh_loop_session by (done || by rewrite length_replicate).
    apply eutt_eq_bind. intros [? []].
Qed.

(** The array of [sh_gets] is not bounded: the key that comes when it is full
    is stored behind it. *)
Theorem sh_gets_overflow res buf keys k rest : Forall line_key keys -> room (length buf) 0 keys = true -> pos 0 keys = length buf ->
  Z.of_nat (length buf) < 2147483647 ->
  interp_state keyboard (sh_gets res buf) (keys ++ k :: rest) ≈
  (do* write STDOUT_FILENO ([27] ++ chars "[?25h"); do* says (echoes 0 keys); crash).
Proof.
  intros Hk Hr Hp Hl. rewrite <- (bind_ret_r (sh_gets res buf)), sh_gets_keys by done. do 2 apply bind_drop.
  rewrite unfold_iter. unfold sh_gets_round at 1. rewrite !Eqit.bind_bind, interp_key, Hp, (proj2 (aset_None _ _ _)) by (rewrite held_length; lia).
  cbn [or_crash]. unfold crash. rewrite !Eqit.bind_bind, interp_state_bind, interp_pass by done. unfold pass_on. rewrite Eqit.bind_bind.
  apply eutt_eq_bind. intros [].
Qed.

(** Getty opens the console that its argument names as its standard input,
    output and error, and goes on as login; a name of more than six characters
    is written behind the array. *)
Theorem getty_opens_console device argc argv arg name : length device = 15%nat -> 2 <= argc -> aget argv 1 = Some (Some arg) ->
  cstr arg = Some name -> Z.of_nat (length name) < 1000 ->
  getty_main device argc argv ≈
  if (length name <=? 6)%nat then
    do* close 0;
    do* open (chars "/dev/tty" ++ name ++ 0 :: drop (9 + length name) device) O_RDWR 0;
    do* dup2 0 1;
    do* dup2 0 2;
    do* write 1 ([10] ++ chars "Nupkux tty" ++ name ++ [10; 10]);
    do* execve (lit "/bin/login") None;
    Ret 0
  else crash.
Proof.
  intros Hd Hargc Ha Hc Hl. unfold getty_main. replace (argc <? 2) with false by lia. rewrite Ha. cbn [or_crash]. rewrite Eqit.bind_ret_l.
  unfold sprintf_into. change (lit "/dev/tty%s") with (chars "/dev/tty" ++ 37 :: 115 :: [] ++ [0]).
  rewrite (sprintf_s (chars "/dev/tty") [] arg name) by (done || lia || by repeat constructor). cbn [mbind option_bind].
  rewrite app_nil_r, !length_app, Hd. change (length (chars "/dev/tty")) with 8%nat. cbn [length].
  destruct (Nat.leb_spec (length name) 6) as [H|H].
  - replace (_ <=? _) with true by lia. cbn [or_crash]. rewrite Eqit.bind_ret_l. apply bind_drop.
    replace (8 + length name + 1)%nat with (9 + length name)%nat by lia. rewrite <- !app_assoc. do 3 apply bind_drop. change (clit "\nNupkux tty%s\n\n") with (([10] ++ chars "Nupkux tty") ++ 37 :: 115 :: [10; 10] ++ [0]).
    rewrite (printf_s _ _ arg name) by (done || by repeat constructor || (rewrite !length_app; unfold BUFSIZE; cbn; lia)).
    rewrite Eqit.bind_bind, <- app_assoc. apply bind_drop. by rewrite Eqit.bind_ret_l.
  - replace (_ <=? _) with false by lia. cbn [or_crash]. unfold crash. rewrite Eqit.bind_bind. apply eutt_eq_bind. intros [].
Qed.

(** [atoi] reads back what [sprintf] prints for a number, but for its sign. *)
Theorem atoi_sprintf n rest : -2147483648 < n < 2147483648 ->
  exists str len, sprintf (lit "%d") [VWord n] = Some (str, len) /\ atoi (str ++ rest) = Some (Z.abs n).
Proof.
  intros Hn. unfold sprintf. rewrite vsprintf_d by lia. do 2 eexists. split; [done|].
  assert (Hds : Forall (fun c => Vsprintf.is_digit c = true) (decimal_string (Z.abs n)) /\ decimal_value (decimal_string (Z.abs n)) = Z.abs n).
  { unfold decimal_string. destruct (Z.eqb_spec (Z.abs n) 0) as [E|E]; [rewrite E; split; [by repeat constructor|done]|].
    destruct (do_digits_decimal (Z.abs n)) as (H1 & H2 & _); [lia|]. done. }
  destruct Hds as [Hd Hv]. assert (E : atoi_loop (decimal_string (Z.abs n) ++ 0 :: rest) 0 = Some (Z.abs n)).
  { unfold decimal_value, value_of in Hv. rewrite <- Hv at 2. apply atoi_digits; [done|lia|]. rewrite Hv. lia. }
  rewrite <- !app_assoc. cbn [app]. unfold atoi. destruct (n <? 0); [|done]. cbn [app atoi_loop]. exact E.
Qed.

(** The consoles that init makes a getty for. *)
Definition console_name (i : Z) : list Z := [48 + i; 0; 0; 0].

Definition console_array (device : list Z) : Prop := length device = 4%nat /\ drop 2 device = [0; 0].

Lemma console_name_made i device : 0 <= i < TTY_SETUPS -> console_array device ->
  sprintf_into device (lit "%d") [VWord i] = Some (console_name i) /\ console_array (console_name i).
Proof.
  unfold TTY_SETUPS. intros Hi [Hl Hd]. split; [|done]. unfold sprintf_into, sprintf. rewrite vsprintf_d by lia.
  replace (i <? 0) with false by lia. cbn [app].
  assert (Hi' : i = 0 \/ i = 1 \/ i = 2 \/ i = 3) by lia.
  destruct Hi' as [->|[->|[->| ->]]]; cbn [mbind option_bind]; rewrite Hl;
    match goal with |- (if ?b then Some (?x ++ drop ?n device) else None) = _ =>
      change b with true; change n with 2%nat; rewrite Hd; reflexivity end.
Qed.

(** A round of the loop, in the parent and in the child. *)
Lemma getty_round n i device pid pids (k : unit -> prog Z) : 0 <= i < TTY_SETUPS -> console_array device -> 0 <= pid < 2147483648 ->
  interp_state family (ITree.bind (setup_gettys (S n) i device) k) (pid :: pids) ≈
  if pid =? 0 then interp_state family (let* status := execve (lit "/bin/getty") (Some [lit "getty"; console_name i]) in exit status) pids
  else interp_state family (ITree.bind (setup_gettys n (i + 1) (console_name i)) k) pids.
Proof.
  intros Hi Hd Hp. cbn [setup_gettys]. destruct (console_name_made i device Hi Hd) as [-> _]. cbn [or_crash].
  rewrite !Eqit.bind_bind, Eqit.bind_ret_l. unfold fork, call. rewrite !Eqit.bind_bind, interp_state_bind, interp_state_trigger. cbn [family].
  rewrite Eqit.bind_ret_l. cbn [fst snd]. unfold result. rewrite s32_id by lia. replace (0 <=? pid) with true by lia.
  rewrite Eqit.bind_ret_l, Eqit.bind_bind. destruct (pid =? 0).
  - rewrite !Eqit.bind_bind. rewrite !(interp_state_bind _ (execve _ _)). apply eutt_eq_bind. intros r.
    unfold exit. rewrite !Eqit.bind_bind, !(interp_state_bind _ (ITree.trigger _)). apply eutt_eq_bind. intros [? []].
  - by rewrite Eqit.bind_ret_l.
Qed.

Lemma gettys_parent pids : forall i device (k : unit -> prog Z), 0 <= i -> i + Z.of_nat (length pids) <= TTY_SETUPS ->
  console_array device -> Forall (fun pid => 0 < pid < 2147483648) pids ->
  interp_state family (ITree.bind (setup_gettys (length pids) i device) k) pids ≈ interp_state family (k tt) [].
Proof.
  induction pids as [|pid pids IH]; intros i device k Hi Hn Hd Hp; cbn [length] in *; [cbn [setup_gettys]; by rewrite Eqit.bind_ret_l|].
  apply Forall_cons in Hp as [Hp Hps]. rewrite getty_round by (done || lia). replace (pid =? 0) with false by lia.
  apply IH; [lia|lia|by eapply console_name_made; [|exact Hd]; lia|done].
Qed.

Lemma gettys_child pids : forall n i device (k : unit -> prog Z), 0 <= i -> i + Z.of_nat (length pids + S n) <= TTY_SETUPS ->
  console_array device -> Forall (fun pid => 0 < pid < 2147483648) pids ->
  interp_state family (ITree.bind (setup_gettys (length pids + S n) i device) k) (pids ++ [0]) ≈
  interp_state family (let* status := execve (lit "/bin/getty") (Some [lit "getty"; console_name (i + Z.of_nat (length pids))]) in exit status) [].
Proof.
  induction pids as [|pid pids IH]; intros n i device k Hi Hn Hd Hp; cbn [length app Nat.add] in *.
  - rewrite getty_round by (done || lia). by rewrite Z.add_0_r.
  - apply Forall_cons in Hp as [Hp Hps]. rewrite getty_round by (done || lia). replace (pid =? 0) with false by lia.
    rewrite IH; [|lia|lia|by eapply console_name_made; [|exact Hd]; lia|done]. do 3 f_equiv. by replace (i + 1 + Z.of_nat (length pids)) with (i + Z.of_nat (S (length pids))) by lia.
Qed.

(** What init does first. *)
Lemma init_prologue pids :
  interp_state family init_main pids ≈
  (do* open (lit "/dev/tty0") O_RDWR 0;
   do* dup 0;
   do* dup 0;
   do* write 1 ([27] ++ chars "[32mStarting Nupkux INIT ..." ++ [27] ++ chars "[m" ++ [10]);
   interp_state family (do* setup_gettys 4 0 [0; 0; 0; 0];
     let* v := ITree.iter (fun _ => do* pause; Ret (inl tt)) tt in match v : Empty_set with end) pids).
Proof.
  unfold init_main, open, dup. do 3 (rewrite interp_state_bind, interp_call, Eqit.bind_bind by done; apply eutt_eq_bind; intros ?;
    rewrite Eqit.bind_ret_l; cbn [fst snd]).
  unfold getpid, call. rewrite Eqit.bind_bind, interp_state_bind, interp_state_trigger. cbn [family]. rewrite Eqit.bind_ret_l. cbn [fst snd].
  change (result 1) with (Ret 1 : prog Z). rewrite Eqit.bind_ret_l. change (negb (1 =? 1)) with false. cbv iota. rewrite Eqit.bind_ret_l.
  rewrite (interp_print _ _ ([27] ++ chars "[32mStarting Nupkux INIT ..." ++ [27] ++ chars "[m" ++ [10; 0]) 33) by (by vm_compute). done.
Qed.

(** Init makes one process per console: the child of the [i]-th fork becomes
    getty with the number of console [i] as its argument, and exits with the
    error if it cannot. *)
Theorem init_child_is_getty pids : (length pids < 4)%nat -> Forall (fun pid => 0 < pid < 2147483648) pids ->
  interp_state family init_main (pids ++ [0]) ≈
  (do* open (lit "/dev/tty0") O_RDWR 0;
   do* dup 0;
   do* dup 0;
   do* write 1 ([27] ++ chars "[32mStarting Nupkux INIT ..." ++ [27] ++ chars "[m" ++ [10]);
   let* status := execve (lit "/bin/getty") (Some [lit "getty"; [48 + Z.of_nat (length pids); 0; 0; 0]]) in
   exit status).
Proof.
  intros Hn Hp. rewrite init_prologue. do 4 apply bind_drop.
  replace 4%nat with (length pids + S (3 - length pids))%nat by lia. rewrite gettys_child; [|done|unfold TTY_SETUPS; lia|done|exact Hp].
  unfold execve. rewrite interp_state_bind, interp_call, Eqit.bind_bind by done. apply eutt_eq_bind. intros status.
  rewrite Eqit.bind_ret_l. apply interp_exit.
Qed.

(** Init itself then only pauses. *)
Theorem init_pauses pids : length pids = 4%nat -> Forall (fun pid => 0 < pid < 2147483648) pids ->
  interp_state family init_main pids ≈
  (do* open (lit "/dev/tty0") O_RDWR 0;
   do* dup 0;
   do* dup 0;
   do* write 1 ([27] ++ chars "[32mStarting Nupkux INIT ..." ++ [27] ++ chars "[m" ++ [10]);
   interp_state family (let* v := ITree.iter (fun _ => do* pause; Ret (inl tt)) tt in match v : Empty_set with end) []).
Proof.
  intros Hn Hp. rewrite init_prologue. do 4 apply bind_drop. rewrite <- Hn at 1.
  apply gettys_parent; [done|unfold TTY_SETUPS; lia|done|done].
Qed.

(** ** Witnesses *)

(** "ls", a typing error taken back, and the beginning of a third line. *)
Lemma sh_session_witness :
  Forall line_keys [chars "ls"; chars "sx" ++ [8] ++ chars "t"] /\
  interp_state keyboard (sh_main 0) (chars "ls" ++ [10] ++ chars "sx" ++ [8] ++ chars "t" ++ [10] ++ chars "c") ≈
  (do* write 1 (chars "This shell session is connected to the Nupkux intern shell (nish)" ++ [10]);
   do* write 1 (chars "running in kernel mode, so " ++ [27] ++ chars "[33mBE CAREFULL" ++ [27] ++ chars "[m!" ++ [10]);
   let* fd := open (lit "/dev/nish") O_RDWR 0 in
   if fd <? 0 then do* write 1 ([27] ++ chars "[31mCannot connect to nish" ++ [27] ++ chars "[m" ++ [10]); exit 1
   else let* v := session fd [chars "ls"; chars "sx" ++ [8] ++ chars "t"] (chars "c") in match snd v : Empty_set with end) /\
  edit (chars "sx" ++ [8] ++ chars "t") = chars "st".
Proof.
  assert (H : Forall line_keys [chars "ls"; chars "sx" ++ [8] ++ chars "t"]).
  { assert (K : forall l, forallb (fun k => (-128 <=? k) && (k <? 128) && negb (k =? 10) && negb (k =? 0)) l && fits 255 l = true -> line_keys l).
    { intros l [Hk Hf]%andb_true_iff. split; [|exact Hf]. apply Forall_forall. intros k Hin. rewrite forallb_forall in Hk.
      specialize (Hk k (proj1 (list_elem_of_In _ _) Hin)). unfold line_key. lia. }
    apply Forall_cons; split; [apply K; reflexivity|]. apply Forall_cons; split; [apply K; reflexivity|done]. }
  split; [exact H|split; [|reflexivity]].
  apply (sh_session 0 [chars "ls"; chars "sx" ++ [8] ++ chars "t"] (chars "c")); [exact H| |reflexivity].
  apply Forall_cons; split; [|done]. change (chr "c") with 99. unfold line_key. lia.
Defined.

Lemma sh_gets_overflow_witness :
  interp_state keyboard (sh_gets 0 (replicate 255 0)) (replicate 255 97 ++ [98]) ≈
  (do* write 1 ([27] ++ chars "[?25h"); do* says (echoes 0 (replicate 255 97)); crash).
Proof.
  apply (sh_gets_overflow 0 (replicate 255 0) (replicate 255 97) 98 []); [|vm_compute; reflexivity..].
  apply Forall_replicate. unfold line_key. lia.
Defined.

Lemma getty_opens_console_witness :
  getty_main (replicate 15 0) 2 [Some (lit "getty"); Some (lit "3"); None] ≈
  (do* close 0; do* open (chars "/dev/tty" ++ chars "3" ++ 0 :: drop 10 (replicate 15 0)) O_RDWR 0;
   do* dup2 0 1; do* dup2 0 2; do* write 1 ([10] ++ chars "Nupkux tty" ++ chars "3" ++ [10; 10]);
   do* execve (lit "/bin/login") None; Ret 0).
Proof. apply (getty_opens_console (replicate 15 0) 2 _ (lit "3") (chars "3")); (reflexivity || lia || (cbn; lia)). Defined.

Lemma atoi_sprintf_witness :
  exists str len, sprintf (lit "%d") [VWord (-42)] = Some (str, len) /\ atoi (str ++ []) = Some 42.
Proof. apply (atoi_sprintf (-42) []). lia. Defined.

Lemma init_child_is_getty_witness :
  interp_state family init_main [2; 3; 0] ≈
  (do* open (lit "/dev/tty0") O_RDWR 0; do* dup 0; do* dup 0;
   do* write 1 ([27] ++ chars "[32mStarting Nupkux INIT ..." ++ [27] ++ chars "[m" ++ [10]);
   let* status := execve (lit "/bin/getty") (Some [lit "getty"; chars "2" ++ [0; 0; 0]]) in exit status).
Proof. apply (init_child_is_getty [2; 3]); [cbn; lia|]. repeat constructor; lia. Defined.
