(* ===== verification/System.v ===== *)
(** * The whole system: programs on the kernel

    The programs of [User] run as the processes of [Kernel]: the process that has
    the processor makes its next system call, the timer or a device interrupts
    it, or an exception ends it.  A process is the rest of its program; [fork] gives the
    child the rest with 0 as the answer, [execve] replaces it by what the file
    holds ([binary], since the files are compiled elsewhere).  A call runs to its
    end: its gate turns interrupts off. *)
From ITree Require Import ITree.
From S2P Require Import Prelude CString Abi Vfs Namei Mount Files Task Initrdfs Elf Exec Frames Refs Kernel User.
Open Scope nup_scope.

Record system (F P : Type) := System { kernel : kstate (kenv F P); progs : gmap Z (prog unit) }.
Arguments System {F P}.
Arguments kernel {F P}.
Arguments progs {F P}.

Section system.
Context {F P : Type} `{FsOps F} `{MemEnv P} (binary : list Z -> option (list (list Z)) -> prog unit).
Local Abbreviation K := (M (kstate (kenv F P))).
Implicit Types y : system F P.

(** The program of the running process goes on with what the kernel answers. *)
Definition reply {A} (m : K A) (kont : A -> prog unit) y : option (system F P) :=
  match m (kernel y) with
  | Ok (a, k) => Some (System k (<[current (kernel y) := kont a]> (progs y)))
  | _ => None
  end.

(** Parent and child. *)
Definition reply_fork (m : K Z) (kont : Z -> prog unit) y : option (system F P) :=
  match m (kernel y) with
  | Ok (i, k) => Some (System k (<[current (kernel y) := kont i]> (if i =? -1 then progs y else <[i := kont 0]> (progs y))))
  | _ => None
  end.

Definition reply_exit (m : K Z) y : option (system F P) :=
  match m (kernel y) with
  | Ok (_, k) => Some (System k (delete (current (kernel y)) (progs y)))
  | _ => None
  end.

(** [sys_waitpid] goes on when the process it waits for has ended. *)
Definition reply_wait (m : K (option (Z * option Z))) (kont : Z * list Z -> prog unit) y : option (system F P) :=
  match m (kernel y) with
  | Ok (Some (r, code), k) => Some (System k (<[current (kernel y) := kont (r, match code with Some c => [c] | None => [] end)]> (progs y)))
  | _ => None
  end.

(** [sys_reboot] of root ends the system. *)
Definition reply_reboot (kont : Z -> prog unit) y : option (system F P) :=
  t ← aget (tasks (kernel y)) (current (kernel y));
  if I_AM_ROOT (tfs t) then None else reply (ret (- EPERM)) kont y.

(** One system call.  [garbage] is what the stack held where a path walk leaves
    its status, [r] what the processor holds when it is given up.  The console
    that [sys_putchar] and [sys_reboot] write to is not in this state. *)
Definition system_call (garbage : Z) (r : cpu) {A} (e : userE A) : (A -> prog unit) -> system F P -> option (system F P) :=
  match e in userE A return (A -> prog unit) -> system F P -> option (system F P) with
  | Exit status => fun _ => reply_exit (sys_exit status r)
  | Fork => reply_fork (sys_fork r)
  | Read fd size => reply (file_call (sys_read fd size))
  | Write fd buffer => reply (file_call (sys_write fd buffer (Z.of_nat (length buffer))))
  | Open filename flag mode => reply (file_call (sys_open (Some filename) flag mode garbage))
  | Close fd => reply (file_call (sys_close fd))
  | Getpid => reply sys_getpid
  | Pause => reply (sys_pause r)
  | Dup fd => reply (file_call (sys_dup fd))
  | Dup2 fd fd2 => reply (file_call (sys_dup2 fd fd2))
  | Waitpid pid options => reply_wait (sys_waitpid pid true)
  | Chdir name => reply (file_call (sys_chdir (Some name) garbage))
  | Kill pid sign => reply (sys_kill pid sign)
  | Ioctl fd cmd arg => reply (file_call (sys_ioctl fd cmd arg))
  | Chroot name => reply (file_call (sys_chroot (Some name) garbage))
  | Getppid => reply sys_getppid
  | SetErrno _ => reply (ret tt)
  | Putchar chr => reply (ret (s8 chr))
  | Mknod _ _ _ => reply (ret (- ENOSYS))
  | Reboot _ => reply_reboot
  | Execve _ _ | Crash => fun _ _ => None
  end.

Definition program_step (garbage : Z) (r : cpu) y : option (system F P) :=
  t ← progs y !! current (kernel y);
  match observe t with
  | RetF _ => None
  | TauF t => Some (System (kernel y) (<[current (kernel y) := t]> (progs y)))
  | VisF e kont => system_call garbage r e kont y
  end.

(** The timer, as [Traps] has it: the running process is put away. *)
Definition timer_step (r : cpu) y : option (system F P) :=
  match switch_task r (kernel y) with Ok (_, k) => Some (System k (progs y)) | _ => None end.

(** An exception, as [Traps] has it: the running process is ended. *)
Definition fault_step (r : cpu) y : option (system F P) := reply_exit (abort_current_process r) y.

(** *** Starting a program *)

(** A call on files of a process whose memory is [p]; [glob_regs] are the
    registers the call saved. *)
Definition with_memory (p : proc) (regs : Z * Z) (m : M (xstate F) Z) : M (vstate F) (Z * proc) := fun s =>
  match m (XState s p (Some regs) true) with Ok (r, x) => Ok ((r, x_proc x), x_vfs x) | Fault => Fault | Fuel => Fuel end.

(** The array at an address, and a vector of arrays ended by a null pointer. *)
Definition holds (mem : Z -> Z) (p : proc) (a : Z) (l : list Z) : Prop :=
  forall k c, l !! k = Some c -> byte mem p (a + Z.of_nat k) (u8 c).
Definition holds_vector (mem : Z -> Z) (p : proc) (vec : Z) (o : option (list (list Z))) : Prop :=
  match o with
  | None => vec = 0
  | Some strs => exists ptrs, Forall2 (holds mem p) ptrs strs /\
      forall i w, (ptrs ++ [0]) !! i = Some w -> word mem p (vec + 4 * Z.of_nat i) w
  end.

(** The program that goes on: the new one, or the old one as long as its memory
    is what it was; nothing is known of a program whose stack is overwritten. *)
Definition after_execve (args : option (list (list Z))) (kont : Z -> prog unit) (p p' : proc) (r : Z) : prog unit :=
  if r =? 0 then binary (image p') args
  else if bool_decide (memory p' = memory p) then kont r else crash.

Definition execve_step (garbage : Z) (mem : Z -> Z) (fresh : Z -> list Z) (p : proc) (regs : Z * Z) (file argv : Z)
    (args : option (list (list Z))) (kont : Z -> prog unit) y : option (system F P) :=
  match file_call (with_memory p regs (sys_execve mem fresh file argv 0 garbage)) (kernel y) with
  | Ok ((r, p'), k) => Some (System k (<[current (kernel y) := after_execve args kont p p' r]> (progs y)))
  | _ => None
  end.

(** An interrupt of a device: its handler ([m]) works on the devices' data and
    lets the process go on. *)
Definition device_step (m : M (vstate F) unit) y : option (system F P) :=
  match file_call m (kernel y) with Ok (_, k) => Some (System k (progs y)) | _ => None end.

(** Nothing happens once the processor is halted. *)
Inductive step y y' : Prop :=
  | step_program garbage r : halted (kernel y) = false -> program_step garbage r y = Some y' -> step y y'
  | step_execve garbage mem fresh p regs file argv path args t kont :
      halted (kernel y) = false -> progs y !! current (kernel y) = Some t -> observe t = VisF (Execve path args) kont ->
      holds mem p file path -> holds_vector mem p argv args ->
      execve_step garbage mem fresh p regs file argv args kont y = Some y' -> step y y'
  | step_timer r : halted (kernel y) = false -> timer_step r y = Some y' -> step y y'
  | step_device m : halted (kernel y) = false -> Quiet m -> device_step m y = Some y' -> step y y'
  | step_fault r : halted (kernel y) = false -> fault_step r y = Some y' -> step y y'.
End system.

(** ** No descriptor dangles, no file is forgotten *)

Section execve_counts.
Context {F : Type} `{FsQuiet F} (mem : Z -> Z) (fresh : Z -> list Z).
Local Abbreviation XM := (M (xstate F)).

(** Calls that keep the counts of the file system part. *)
Definition counting {A} (m : XM A) : Prop := forall o x a x', counted_by o (x_vfs x) -> m x = Ok (a, x') -> counted_by o (x_vfs x').

Lemma counting_bind {A B} (m : XM A) (f : A -> XM B) : counting m -> (forall a, counting (f a)) -> counting (bind m f).
Proof. intros Hm Hf o x b x' Hc (a & x1 & H1 & H2)%bind_Ok. by eapply Hf, H2; eapply Hm, H1. Qed.
Lemma counting_ret {A} (a : A) : counting (ret a).
Proof. by intros o x b x' Hc [= _ <-]. Qed.
Lemma counting_proc {A} (m : M proc A) : counting (on_proc (F := F) m).
Proof. intros o x a x' Hc. unfold on_proc. destruct (m (x_proc x)) as [[b p]| |]; [|done..]. by intros [= _ <-]. Qed.
Lemma counting_vfs {A} (m : M (vstate F) A) : (forall o s a s', counted_by o s -> m s = Ok (a, s') -> counted_by o s') -> counting (on_vfs m).
Proof. intros Hm o x a x' Hc. unfold on_vfs. destruct (m (x_vfs x)) as [[b s]| |] eqn:E; [|done..]. intros [= _ <-]. by eapply Hm, E. Qed.
Lemma counting_quiet {A} (m : M (vstate F) A) : Quiet m -> counting (on_vfs m).
Proof. intros Hq. apply counting_vfs. intros o s a s' Hc Hm. by eapply counted_by_quiet. Qed.

Lemma counted_close_marked fd : forall o s a s', counted_by o s -> close_marked fd s = Ok (a, s') -> counted_by o s'.
Proof.
  induction fd as [|fd IH]; intros o s a s' Hc; cbn [close_marked]; [by intros [= _ <-]|].
  intros (p & s1 & (-> & _ & _)%get_fd_inv & Hr)%bind_Ok. apply bind_Ok in Hr as (t & s1 & Hx & Hr). injection Hx as _ <-.
  apply bind_Ok in Hr as (y & s1 & Hx & Hr). eapply IH, Hr. destruct (_ && _); [|by injection Hx as _ <-].
  apply bind_Ok in Hx as (z & s2 & Hx & Hz). injection Hz as _ <-. by apply (sys_close_counts _ _ _ _ _ Hc) in Hx as [? _].
Qed.

Lemma counting_execve file argv envp status : counting (sys_execve mem fresh file argv envp status).
Proof.
  assert (Hprog : forall e st, counting (set_program (F := F) e st)) by (intros e st o x a x' Hc [= _ <-]; done).
  unfold sys_execve, do_exec, read_program, load_program.
  repeat (match goal with
  | |- counting (bind _ _) => apply counting_bind; [|intros]
  | |- counting (ret _) => apply counting_ret
  | |- counting (on_proc _) => apply counting_proc
  | |- counting (on_vfs (close_marked _)) => apply counting_vfs, counted_close_marked
  | |- counting (on_vfs _) => apply counting_quiet; eauto with frame
  | |- counting (set_program _ _) => apply Hprog
  | |- counting (match ?x with _ => _ end) => destruct x
  end).
Qed.
End execve_counts.

Section counting.
Context {F P : Type} `{FsQuiet F} `{MemEnv P} (binary : list Z -> option (list (list Z)) -> prog unit).
Implicit Types y : system F P.

Definition system_ok y : Prop := files_counted (kernel y) /\ runs_alive (kernel y).

(** A call keeps the system in order when its kernel part does. *)
Definition keeps {A} (m : M (kstate (kenv F P)) A) : Prop :=
  forall k a k', files_counted k -> runs_alive k -> m k = Ok (a, k') -> files_counted k' /\ runs_alive k'.

Lemma reply_ok {A} (m : M (kstate (kenv F P)) A) kont y y' : keeps m -> system_ok y -> reply m kont y = Some y' -> system_ok y'.
Proof. intros Hm [Hf Ha]. unfold reply. destruct (m (kernel y)) as [[a k]| |] eqn:E; [|done..]. intros [= <-]. by apply (Hm (kernel y) a). Qed.

Lemma keeps_file {A} (m : M (vstate F) A) : (forall o s x s', counted_by o s -> m s = Ok (x, s') -> counted_by o s') -> keeps (file_call m).
Proof. intros Hm k a k' Hf Ha Hr. by eapply file_call_counted. Qed.
Lemma keeps_get_task {A} (f : task -> A) : keeps (let! t := get_current in ret (f t)).
Proof. intros k a k' Hf Ha (t & k1 & (-> & _)%get_current_inv & Hr)%bind_Ok. by injection Hr as _ <-. Qed.

Lemma keeps_close fd : keeps (file_call (sys_close fd)).
Proof. apply keeps_file. intros o s x s' Hc Hm. by apply (sys_close_counts _ _ _ _ _ Hc) in Hm as [? _]. Qed.
Lemma keeps_kill p sign : keeps (sys_kill p sign).
Proof. intros k a k' Hf Ha (T & C)%sys_kill_tame. split; [by apply (tame_counted k)|by apply (tame_alive k)]. Qed.
Lemma keeps_pause r : keeps (sys_pause r).
Proof. intros k a k' Hf Ha Hr. by eapply sys_pause_counted. Qed.
Lemma keeps_answer {A} (a : A) : keeps (ret a).
Proof. intros k b k' Hf Ha [= _ <-]. done. Qed.
Create HintDb keeps.
#[local] Hint Resolve counted_read counted_write counted_open counted_dup counted_dup2 counted_chdir counted_chroot counted_ioctl : keeps.
#[local] Hint Resolve keeps_close keeps_kill keeps_pause keeps_answer : keeps.
#[local] Hint Extern 1 (keeps (file_call _)) => apply keeps_file; intros; eauto with keeps : keeps.
#[local] Hint Extern 1 (keeps sys_getpid) => apply keeps_get_task : keeps.
#[local] Hint Extern 1 (keeps sys_getppid) => apply keeps_get_task : keeps.

Lemma exit_ok status r y y' : system_ok y -> reply_exit (sys_exit status r) y = Some y' -> system_ok y'.
Proof. intros [Hf Ha]. unfold reply_exit. destruct (sys_exit status r (kernel y)) as [[a k]| |] eqn:E; [|done..]. intros [= <-]. by eapply sys_exit_counted. Qed.

Lemma system_call_ok garbage r {A} (e : userE A) kont y y' : system_ok y -> system_call garbage r e kont y = Some y' -> system_ok y'.
Proof.
  intros Hok. assert (Hok' := Hok). destruct Hok' as [Hf Ha].
  destruct e as [| | | | | | | | | | | | p| | | | | | | | |]; cbn [system_call]; try done; try (apply reply_ok; [auto with keeps|done]).
  - by apply exit_ok.
  - unfold reply_fork. destruct (sys_fork r (kernel y)) as [[i k]| |] eqn:E; [|done..]. intros [= <-]. by eapply sys_fork_counted.
  - unfold reply_wait. destruct (sys_waitpid p true (kernel y)) as [[[[a code]|] k]| |] eqn:E; [|done..]. intros [= <-]. by eapply sys_waitpid_counted.
  - unfold reply_reboot. destruct (aget _ _) as [t|]; [|done]. cbn [mbind option_bind]. destruct (I_AM_ROOT _); [done|]. apply reply_ok; [auto with keeps|done].
Qed.

Lemma execve_ok garbage mem fresh p regs file argv args kont y y' :
  system_ok y -> execve_step binary garbage mem fresh p regs file argv args kont y = Some y' -> system_ok y'.
Proof.
  intros [Hf Ha]. unfold execve_step. destruct (file_call _ (kernel y)) as [[[r p'] k]| |] eqn:E; [|done..]. intros [= <-].
  revert E. apply (keeps_file (with_memory p regs (sys_execve mem fresh file argv 0 garbage))); [|done..]. intros o s x s' Hc. unfold with_memory.
  destruct (sys_execve _ _ _ _ _ _ _) as [[q x1]| |] eqn:E; [|done..]. intros [= _ <-]. by apply (counting_execve _ _ _ _ _ _ o) in E.
Qed.

Lemma step_ok y y' : system_ok y -> step binary y y' -> system_ok y'.
Proof.
  intros Hok [garbage r _ Hs|garbage mem fresh p regs file argv path args t kont _ _ _ _ _ Hs|r _ Hs|m _ Hq Hs|r _ Hs]; [|by eapply execve_ok| | |].
  - unfold program_step in Hs. destruct (progs y !! current (kernel y)) as [t|]; [|done]. cbn [mbind option_bind] in Hs.
    destruct (observe t) as [|t'|A e kont]; [done|injection Hs as <-; exact Hok|]. by eapply system_call_ok.
  - unfold timer_step in Hs. destruct Hok as [Hf Ha]. destruct (switch_task r (kernel y)) as [[a k]| |] eqn:E; [|done..]. injection Hs as <-.
    by apply (switch_task_keeps r (kernel y) a k Hf (ra_zero _ Ha)).
  - unfold device_step in Hs. destruct Hok as [Hf Ha]. destruct (file_call m (kernel y)) as [[a k]| |] eqn:E; [|done..]. injection Hs as <-.
    revert E. apply (keeps_file m); [|done..]. intros o s x s' Hc. by apply counted_by_quiet.
  - by apply exit_ok in Hs.
Qed.
Lemma steps_ok y y' : system_ok y -> rtc (step binary) y y' -> system_ok y'.
Proof. intros Hok Hs. induction Hs as [|y y1 y' Hs _ IH]; [done|]. by apply IH, (step_ok y). Qed.

(** What [setup_tasking] finds: a table that is still clear, and no open file. *)
Record clear (k : kstate (kenv F P)) : Prop := {
  clear_len : length (tasks k) = 65%nat;
  clear_tasks : Forall (fun t => t_files (tfs t) = replicate 32 0) (tasks k);
  clear_files : files (kfs (env k)) = ∅;
  clear_ptr : 0 < next_ptr (kfs (env k)) }.

Lemma sum_fds_empty p l : Forall (fun t => t_files (tfs t) = replicate 32 0) l -> p <> 0 -> sum_fds p l = 0.
Proof.
  induction 1 as [|t l Ht _ IH]; intros Hp; cbn [sum_fds]; [done|]. rewrite Ht, IH by done.
  rewrite fds_none; [done| |done]. by apply Forall_replicate.
Qed.

Lemma setup_tasking_ok dir k x k' m : clear k -> setup_tasking dir k = Ok (x, k') -> system_ok (System k' m).
Proof.
  intros [L T Hf Hp] Hr. unfold setup_tasking in Hr. apply bind_Ok in Hr as (y1 & k1 & Hx & Hr). injection Hx as _ <-.
  apply bind_Ok in Hr as (l & k1 & Hx & Hr). injection Hx as <- <-. cbn [tasks set_interrupts] in Hr.
  apply bind_Ok in Hr as (y2 & k1 & Hx & Hr). injection Hx as _ <-. apply bind_Ok in Hr as (y3 & k1 & Hx & Hr). injection Hx as _ <-.
  apply bind_Ok in Hr as (ks & k1 & Hx & Hr). apply on_mem_tame in Hx as ([_ [F1 N1]] & C1 & T1).
  apply bind_Ok in Hr as (y4 & k2 & Hx & Hr). apply put_task_inv in Hx as (l & Hl & ->). injection Hr as _ <-.
  set (base := _ ++ _ ++ _) in *. cbn [tasks current env set_tasks set_current set_interrupts] in *. rewrite T1 in Hl.
  assert (Hbase : length base = 65%nat /\ Forall (fun t => t_files (tfs t) = replicate 32 0) base).
  { unfold base. split; [unfold NR_TASKS; rewrite !length_app, length_map, !length_drop, !length_take; lia|].
    apply Forall_app. split; [by apply Forall_take|]. apply Forall_app. split; [|by apply Forall_drop]. apply Forall_map.
    eapply Forall_impl; [apply Forall_drop, Forall_take, T|]. done. }
  destruct Hbase as [Hbl Hbf]. apply aset_inv in Hl as [_ ->].
  assert (Hall : Forall (fun t => t_files (tfs t) = replicate 32 0) (<[Z.to_nat 0 := first_task dir ks]> base)) by by apply Forall_insert.
  split; cbn [kernel].
  - split; cbn [own tasks env set_interrupts set_tasks].
    + assert (Hnone : forall p, files (kfs (env k1)) !! p = None) by (intros p; by rewrite F1, Hf).
      split; [intros p f; by rewrite Hnone| |done|intros p; rewrite Hnone; by intros [? ?]|lia].
      intros p Hnz. rewrite sum_fds_empty; [lia| |done]. by apply Forall_take.
    + by rewrite length_insert.
    + apply Forall_take. eapply Forall_impl; [exact Hall|]. intros t ->. done.
    + apply Forall_take. eapply Forall_impl; [exact Hall|]. intros t -> _. by apply Forall_replicate.
  - assert (Hc0 : exists t, aget (<[Z.to_nat 0 := first_task dir ks]> base) 0 = Some t /\ t = first_task dir ks).
    { eexists. split; [|done]. apply list_lookup_insert_eq. lia. }
    destruct Hc0 as (t & Hc0 & ->). assert (Hal : ~ dead (first_task dir ks)) by by intros [?|?].
    split; cbn [tasks current set_interrupts set_tasks]; rewrite ?C1; cbn [current set_current]; [by eauto|done|by eauto].
Qed.

(** What the order says of files and descriptors. *)
Lemma system_ok_descriptors y : system_ok y ->
  (forall p f, files (kfs (env (kernel y))) !! p = Some f -> f_count f = sum_fds p (own (kernel y)) /\ 0 < f_count f) /\
  (forall i t fd p, own (kernel y) !! i = Some t -> t_files (tfs t) !! fd = Some p -> p <> 0 ->
     is_Some (files (kfs (env (kernel y))) !! p) /\ ~ dead t).
Proof.
  intros [[C L T D] _]. split.
  - intros p f Hf. destruct (cf_count _ _ C p f Hf) as [-> ?]. done.
  - intros i t fd p Ht Hp Hnz. split.
    + apply (cf_open _ _ C p Hnz). pose proof (fds_elem p (t_files (tfs t)) ltac:(by eapply list_elem_of_lookup_2)).
      pose proof (sum_fds_part p _ _ _ T Ht). lia.
    + intros Hd. apply Hnz. by apply (Forall_lookup_1 _ _ _ _ (Forall_lookup_1 _ _ _ _ D Ht Hd) Hp).
Qed.
End counting.
