(* ===== verification/Kmain.v ===== *)
(** * From power on to the programs: [kernel/main.c]

    [_kmain] from [setup_tasking] on, with the real file systems and drivers:
    the tasks, the root file system, the initial ram disk on /, the device file
    system on /dev, the drivers and the shell's device, then [init].  What
    [_kmain] sets up before (descriptor tables, clock, ACPI, paging) is in the
    components' own states.  From there the system runs as [System] says, with
    process 0 pausing and its child starting /bin/init. *)
From ITree Require Import ITree.
From S2P Require Import Prelude CString Tty Abi Vfs Namei Mount Files Task Initrdfs Devfs Drivers Ext2 Ports Floppy Setup Urandom Frames Refs Kernel Tables Elf Exec User System.
Open Scope nup_scope.
Open Scope prog_scope.

(** The tasks with their files and memory, and what the drivers keep besides
    their files; the file system state in the second component is not used. *)
Record booting (F P : Type) := Booting { b_tasks : kstate (kenv F P); b_drivers : Setup.kernel F }.
Arguments Booting {F P}.
Arguments b_tasks {F P}.
Arguments b_drivers {F P}.

Section kmain.
Context {F P : Type} `{FsOps F} `{Sub devfs_state F} `{Sub drv_state F} `{Sub fdc F} `{Sub console_state F} `{MemEnv P}.
Local Abbreviation B := (M (booting F P)).

Definition on_tasks {A} (m : M (kstate (kenv F P)) A) : B A := fun b =>
  match m (b_tasks b) with Ok (a, k) => Ok (a, Booting k (b_drivers b)) | Fault => Fault | Fuel => Fuel end.

(** The drivers' set-up on the file system state of the kernel. *)
Definition with_drivers {A} (m : M (Setup.kernel F) A) (d : Setup.kernel F) : M (vstate F) (A * Setup.kernel F) := fun s =>
  match m (with_fs s d) with Ok (a, d) => Ok ((a, d), k_fs d) | Fault => Fault | Fuel => Fuel end.
Definition on_drivers {A} (m : M (Setup.kernel F) A) : B A := fun b =>
  match file_call (with_drivers m (b_drivers b)) (b_tasks b) with
  | Ok ((a, d), k) => Ok (a, Booting k d)
  | Fault => Fault
  | Fuel => Fuel
  end.

(** [ttys], [current_tty] and the screen are the drivers' from now on: the devices
    reach them through [pdata]. *)
Fixpoint share_ttys (l : list (option (tty * Z))) : M (vstate F) unit :=
  match l with
  | [] => ret tt
  | Some (t, dev) :: l => do! (let! p := device_pdata dev in put_tty p t); share_ttys l
  | None :: l => share_ttys l
  end.
Definition share_consoles : M (Setup.kernel F) unit :=
  let! d := gets (fun d => d) in
  do! Setup.on_fs (share_ttys (k_ttys d));
  Setup.on_fs (upd_consoles (fun c => ConsoleState (tty_at c) (k_tty d) (k_video d))).

(** [current_task->pwd = namei("/.", 0)] *)
Definition enter_root : M (vstate F) Z :=
  let! ' (node, _) := namei (Some (lit "/.")) 0 in
  do! upd_task (fun t => set_pwd_root node (t_root t) t); ret node.

(** [init] forks with the processor at [r]; the number of the new process. *)
Definition init (r : cpu) : B Z := on_tasks (sys_fork r).

(** [dir] is the kernel's page directory, [location] where the initial ram disk
    was loaded, [status] what the stack held at each mount; the unset memory as
    in [Setup]. *)
Definition set_up (dir location status : Z) (filename0 inbuf esc : list Z) : B Z :=
  do! on_tasks (setup_tasking dir);
  do! on_tasks (file_call (setup_vfs rootfs_type rootfs_sb_ops_at initrd_fs_type devfs_fs_type ext2_fs_type));
  do! on_tasks (file_call (sys_mount None (Some (lit "/")) (Some (lit "initrdfs")) 0 location status));
  do! on_tasks (file_call enter_root);
  do! on_tasks (file_call (sys_mount None (Some (lit "/dev")) (Some (lit "devfs")) 0 0 status));
  do! on_drivers (setup_drivers iops_copy filename0 stdin_ops_at stdout_ops_at stderr_ops_at null_ops_at zero_ops_at urandom_ops_at
        ramdisk_ops_at tty_ops_at serial_ops_at floppy_ops_at inbuf esc 0);
  do! on_drivers share_consoles;
  on_drivers (nish iops_copy filename0 nish_ops_at).

(** [nish] without [DIRECT_NISH] answers 0: the system goes on with [init]. *)
Definition _kmain (dir location status : Z) (filename0 inbuf esc : list Z) (r : cpu) : B Z :=
  do! set_up dir location status filename0 inbuf esc;
  init r.
End kmain.

(** What process 0 and its child run: [for (;;) sys_pause();], and the two
    system calls of [init]. *)
Definition idle : prog unit := ITree.iter (fun _ => let* _ := ITree.trigger Pause in Ret (inl tt)) tt.
Definition init_child : prog unit := let* eax := ITree.trigger (Execve (lit "/bin/init") None) in exit eax.
Definition first_programs (pid : Z) : gmap Z (prog unit) :=
  if pid =? -1 then {[ 0 := idle ]} else <[0 := idle]> {[ pid := init_child ]}.

(** ** The counts hold from the start *)

Section setup_counts.
Context {F : Type} `{FsQuiet F} `{Sub devfs_state F} `{Sub drv_state F} `{Sub fdc F} `{Sub console_state F}.
Local Abbreviation VM := (M (vstate F)).
Local Abbreviation KM := (M (Setup.kernel F)).

(** Setting the file systems up. *)
Definition counts {A} (m : VM A) : Prop := forall o s a s', counted_by o s -> m s = Ok (a, s') -> counted_by o s'.
Lemma counts_bind {A B} (m : VM A) (f : A -> VM B) : counts m -> (forall a, counts (f a)) -> counts (bind m f).
Proof. intros Hm Hf o s b s' Hc (a & s1 & Ha & Hb)%bind_Ok. by eapply Hf, Hb; eapply Hm, Ha. Qed.
Lemma counts_quiet {A} (m : VM A) : Quiet m -> counts m.
Proof. intros Hq o s a s' Hc Hm. by eapply counted_by_quiet. Qed.
Lemma counts_task (g : vstate F -> task_fs -> task_fs) : (forall s t, t_files (g s t) = t_files t) -> counts (modify (fun s => set_task (g s (current_task s)) s)).
Proof. intros Hg o s a s' Hc [= _ <-]. apply (counted_by_same o s); [done|done|cbn; lia|]. unfold table. cbn. by rewrite Hg. Qed.

Lemma quiet_get_fstype p : Quiet (get_fstype (F := F) p).
Proof. unfold get_fstype. quiet. Qed.
#[local] Hint Resolve quiet_get_fstype : frame.
Lemma quiet_find_fs l name : Quiet (find_fs (F := F) l name).
Proof. induction l; cbn [find_fs]; unfold same_name; quiet. Qed.
#[local] Hint Resolve quiet_find_fs : frame.
Lemma quiet_vfs_get_fs name : Quiet (vfs_get_fs (F := F) name).
Proof. unfold vfs_get_fs. quiet. Qed.
#[local] Hint Resolve quiet_vfs_get_fs : frame.
Lemma quiet_register_filesystem fs : Quiet (register_filesystem (F := F) fs).
Proof. unfold register_filesystem. quiet. Qed.
Lemma quiet_d_mount mnt : Quiet (d_mount (F := F) mnt).
Proof. unfold d_mount. quiet. Qed.
#[local] Hint Resolve quiet_register_filesystem quiet_d_mount quiet_read_super quiet_read_rootfs_sb : frame.
Lemma quiet_mount_on mountpoint type dev_ source target flags data : Quiet (mount_on (F := F) mountpoint type dev_ source target flags data).
Proof. unfold mount_on, free_sb. quiet. Qed.
#[local] Hint Resolve quiet_mount_on : frame.
Lemma quiet_sys_mount source target type flags data status : Quiet (sys_mount (F := F) source target type flags data status).
Proof. unfold sys_mount. quiet. Qed.

Lemma counts_setup_vfs t1 t2 t3 t4 : counts (setup_vfs (F := F) t1 rootfs_sb_ops_at t2 t3 t4).
Proof.
  unfold setup_vfs. repeat first [solve [apply counts_quiet; quiet] | apply counts_bind; [|intros]].
  match goal with root : Z |- _ => by apply (counts_task (fun _ => set_pwd_root root root)) end.
Qed.
Lemma counts_enter_root : counts (enter_root (F := F)).
Proof.
  unfold enter_root, upd_task. apply counts_bind; [apply counts_quiet; quiet|intros [node st]]. apply counts_bind; [|intros; apply counts_quiet; quiet].
  by apply (counts_task (fun _ t => set_pwd_root node (t_root t) t)).
Qed.

(** *** Drivers *)

Definition kquiet {A} (m : KM A) : Prop := forall d a d', m d = Ok (a, d') -> quiet_step (k_fs d) (k_fs d').
Lemma kquiet_bind {A B} (m : KM A) (f : A -> KM B) : kquiet m -> (forall a, kquiet (f a)) -> kquiet (bind m f).
Proof. intros Hm Hf d b d' (a & d1 & Ha & Hb)%bind_Ok. etrans; [by eapply Hm|by eapply Hf]. Qed.
Lemma kquiet_ret {A} (a : A) : kquiet (ret a).
Proof. by intros d b d' [= _ <-]. Qed.
Lemma kquiet_get {A} (f : Setup.kernel F -> option A) : kquiet (get_or_fault f).
Proof. intros d b d'. unfold get_or_fault. destruct (f d); [|done]. by intros [= _ <-]. Qed.
Lemma kquiet_fs {A} (m : VM A) : Quiet m -> kquiet (Setup.on_fs m).
Proof. intros Hm d a d'. unfold Setup.on_fs. destruct (m (k_fs d)) as [[b s]| |] eqn:E; [|done..]. intros [= _ <-]. by apply Hm in E. Qed.
Lemma kquiet_modify f : (forall d, k_fs (f d) = k_fs d) -> kquiet (modify f).
Proof. intros Hf d a d' [= _ <-]. by rewrite Hf. Qed.
Ltac kquiet :=
  lazymatch goal with
  | |- forall _, _ => intro; kquiet
  | |- kquiet (bind _ _) => apply kquiet_bind; kquiet
  | |- kquiet (ret _) => apply kquiet_ret
  | |- kquiet (get_or_fault _) => apply kquiet_get
  | |- kquiet (modify _) => by apply kquiet_modify
  | |- kquiet (Setup.on_fs _) => apply kquiet_fs; quiet
  | |- kquiet (match ?x with _ => _ end) => destruct x; kquiet
  | |- _ => eauto with frame
  end.

#[local] Hint Resolve quiet_on_fdc quiet_upd_dev quiet_get_handle quiet_put_handle quiet_upd_handle quiet_upd_consoles : frame.
Lemma quiet_set_device_pdata h p : Quiet (set_device_pdata (F := F) h p).
Proof. unfold set_device_pdata. quiet. Qed.
Lemma quiet_register_device iops filename0 dir name mode uid gid type f_op :
  Quiet (devfs_register_device (F := F) iops filename0 dir name mode uid gid type f_op).
Proof. unfold devfs_register_device, set_next_inode, devfs_add_d_entry, sync_node, devfs_handle2vnode, devfs_add_to_cache, set_dcache. quiet. Qed.
#[local] Hint Resolve quiet_set_device_pdata quiet_register_device : frame.

Lemma kquiet_make_console iops filename0 ops inbuf esc i name : kquiet (make_console (F := F) iops filename0 ops inbuf esc i name).
Proof. unfold make_console, register_named. kquiet. Qed.
#[local] Hint Resolve kquiet_make_console : frame.
Lemma kquiet_make_consoles iops filename0 ops inbuf esc n : forall i, kquiet (make_consoles (F := F) iops filename0 ops inbuf esc n i).
Proof. induction n as [|n IH]; intros i; cbn [make_consoles]; kquiet. Qed.
#[local] Hint Resolve kquiet_make_consoles : frame.
Lemma kquiet_setup_port iops filename0 ops port name : kquiet (setup_port (F := F) iops filename0 ops port name).
Proof. unfold setup_port, on_io, register_named. kquiet. Qed.
#[local] Hint Resolve kquiet_setup_port : frame.
Lemma quiet_pseudo iops filename0 o1 o2 o3 o4 o5 o6 : Quiet (setup_pseudo_devices (F := F) iops filename0 o1 o2 o3 o4 o5 o6).
Proof. unfold setup_pseudo_devices, setup_urandom_file, register. quiet. Qed.
Lemma quiet_setup_ramdisk iops filename0 ops : Quiet (setup_ramdisk (F := F) iops filename0 ops).
Proof. unfold setup_ramdisk, register, put_mem. quiet. Qed.
#[local] Hint Resolve quiet_pseudo quiet_setup_ramdisk : frame.
Lemma kquiet_setup_drivers iops filename0 o1 o2 o3 o4 o5 o6 o7 o8 o9 o10 inbuf esc pid :
  kquiet (setup_drivers (F := F) iops filename0 o1 o2 o3 o4 o5 o6 o7 o8 o9 o10 inbuf esc pid).
Proof. unfold setup_drivers, setup_tty, setup_serial, setup_floppy, install, on_io, register_named. kquiet. Qed.
Lemma quiet_share_ttys l : Quiet (share_ttys (F := F) l).
Proof. induction l as [|[[t dev]|] l IH]; cbn [share_ttys]; unfold device_pdata, put_tty; quiet. Qed.
#[local] Hint Resolve quiet_share_ttys : frame.
Lemma kquiet_share_consoles : kquiet (share_consoles (F := F)).
Proof. unfold share_consoles. apply kquiet_bind; [by intros d a d' [= _ <-]|]. kquiet. Qed.
Lemma kquiet_nish iops filename0 ops : kquiet (nish (F := F) iops filename0 ops).
Proof. unfold nish, register_named. kquiet. Qed.
Lemma counts_with_drivers {A} (m : KM A) d : kquiet m -> counts (with_drivers m d).
Proof.
  intros Hm. apply counts_quiet. intros s a s'. unfold with_drivers. destruct (m (with_fs s d)) as [[b d']| |] eqn:E; [|done..].
  intros [= _ <-]. by apply Hm in E.
Qed.
End setup_counts.

Section boot_counts.
Context {F P : Type} `{FsQuiet F} `{Sub devfs_state F} `{Sub drv_state F} `{Sub fdc F} `{Sub console_state F} `{MemEnv P}.
Implicit Types b : booting F P.

Lemma on_tasks_inv {A} (m : M (kstate (kenv F P)) A) b a b' : on_tasks m b = Ok (a, b') -> m (b_tasks b) = Ok (a, b_tasks b').
Proof. unfold on_tasks. destruct (m (b_tasks b)) as [[c k]| |]; [|done..]. by intros [= <- <-]. Qed.
Lemma on_drivers_inv {A} (m : M (Setup.kernel F) A) b a b' : on_drivers m b = Ok (a, b') ->
  file_call (with_drivers m (b_drivers b)) (b_tasks b) = Ok ((a, b_drivers b'), b_tasks b').
Proof. unfold on_drivers. destruct (file_call _ _) as [[[c d] k]| |]; [|done..]. by intros [= <- <-]. Qed.

(** The order [_kmain] leaves the kernel in. *)
Lemma set_up_ok dir location status filename0 inbuf esc b x b' :
  clear (b_tasks b) -> set_up dir location status filename0 inbuf esc b = Ok (x, b') -> files_counted (b_tasks b') /\ runs_alive (b_tasks b').
Proof.
  intros Hc Hr. unfold set_up in Hr.
  apply bind_Ok in Hr as (x1 & b1 & Hx%on_tasks_inv & Hr). apply (setup_tasking_ok _ _ _ _ ∅ Hc) in Hx.
  apply bind_Ok in Hr as (x2 & b2 & Hx2%on_tasks_inv & Hr). apply (keeps_file _ (counts_setup_vfs _ _ _ _)) in Hx2 as [? ?]; [|apply Hx..].
  apply bind_Ok in Hr as (x3 & b3 & Hx3%on_tasks_inv & Hr). apply (keeps_file _ (counts_quiet _ (quiet_sys_mount _ _ _ _ _ _))) in Hx3 as [? ?]; [|done..].
  apply bind_Ok in Hr as (x4 & b4 & Hx4%on_tasks_inv & Hr). apply (keeps_file _ counts_enter_root) in Hx4 as [? ?]; [|done..].
  apply bind_Ok in Hr as (x5 & b5 & Hx5%on_tasks_inv & Hr). apply (keeps_file _ (counts_quiet _ (quiet_sys_mount _ _ _ _ _ _))) in Hx5 as [? ?]; [|done..].
  apply bind_Ok in Hr as (x6 & b6 & Hx6%on_drivers_inv & Hr).
  apply (keeps_file _ (counts_with_drivers _ _ (kquiet_setup_drivers _ _ _ _ _ _ _ _ _ _ _ _ _ _ _))) in Hx6 as [? ?]; [|done..].
  apply bind_Ok in Hr as (x8 & b8 & Hx8%on_drivers_inv & Hr).
  apply (keeps_file _ (counts_with_drivers _ _ kquiet_share_consoles)) in Hx8 as [? ?]; [|done..].
  apply on_drivers_inv in Hr. apply (keeps_file _ (counts_with_drivers _ _ (kquiet_nish _ _ _))) in Hr; done.
Qed.
Lemma kmain_ok dir location status filename0 inbuf esc r b pid b' m :
  clear (b_tasks b) -> _kmain dir location status filename0 inbuf esc r b = Ok (pid, b') -> system_ok (System (b_tasks b') m).
Proof.
  intros Hc (x & b1 & Hx & Hr)%bind_Ok. apply set_up_ok in Hx as [? ?]; [|done]. by apply on_tasks_inv, sys_fork_counted in Hr.
Qed.

(** C1: From the start of the kernel on, over all programs and all interleavings
    of their system calls, the timer and exceptions: after [_kmain] every open
    file has been opened by a process that is still there, its [count] is the
    number of descriptors that name it in all processes, and every descriptor
    that is not 0 belongs to a live process and names an open file; so a file is
    closed when, and only when, its last descriptor goes. *)
Theorem descriptors_never_dangle binary dir location status filename0 inbuf esc r b pid b' y :
  clear (b_tasks b) -> _kmain dir location status filename0 inbuf esc r b = Ok (pid, b') ->
  rtc (step binary) (System (b_tasks b') (first_programs pid)) y ->
  (forall p f, files (kfs (env (System.kernel y))) !! p = Some f -> f_count f = sum_fds p (own (System.kernel y)) /\ 0 < f_count f) /\
  (forall i t fd p, own (System.kernel y) !! i = Some t -> t_files (tfs t) !! fd = Some p -> p <> 0 ->
     is_Some (files (kfs (env (System.kernel y))) !! p) /\ ~ dead t).
Proof. intros Hc Hr Hs. by apply system_ok_descriptors, (steps_ok binary _ _ (kmain_ok _ _ _ _ _ _ _ _ _ _ (first_programs pid) Hc Hr)). Qed.
End boot_counts.

(** ** One machine, from power on to a shared descriptor *)

(** An initial ram disk: / with bin and dev, /bin with init. *)
Definition boot_image : list Z :=
  le4 INITRD_MAGIC ++ le4 4 ++ le4 1 ++
  inode_bytes (InitrdInode 0 124 493 0 0 FS_DIRECTORY 136) ++ inode_bytes (InitrdInode 1 260 493 0 0 FS_DIRECTORY 68) ++
  inode_bytes (InitrdInode 2 328 493 0 0 FS_FILE 88) ++ inode_bytes (InitrdInode 3 416 493 0 0 FS_DIRECTORY 0) ++
  entry_bytes 1 "bin" ++ entry_bytes 3 "dev" ++ entry_bytes 2 "init" ++ exec_image.

#[local] Instance boot_tables : FsOps storage := kernel_tables 0 (ret tt) (fun _ _ => ret tt) 1 0 exec_fresh (fun _ => None) 3.
#[local] Instance boot_memory : MemEnv unit := {|
  mem_clone_directory d := ret (d + 1); mem_free_directory _ := ret tt; mem_kmalloc_a _ := ret 9000; mem_free _ := ret tt |}.

Definition boot_files : vstate storage :=
  VState ∅ ∅ ∅ kernel_types [] ∅ [] 0 10000 task_zero (power_on [0; 0xF0; 0xF0; 0xF0; 0xF0; 0] 0x100000 boot_image).
Definition boot_start : booting storage unit :=
  Booting (KState (replicate 65 (Task 0 0 0 0 0 0 0 0 0 0 0 task_zero)) 0 false false (Cpu 0 0 0 0 0) (KEnv boot_files tt))
    (Setup.Kernel boot_files [None; None; None; None] 0 Kout (replicate 2000 0x720) (Cursor 0 3) (replicate 256 None)).

(** /bin/init here: it opens a console, writes to it and forks. *)
Definition boot_binary (image : list Z) (args : option (list (list Z))) : prog unit :=
  let* fd := open (lit "/dev/tty0") O_RDWR 0 in do* write fd (chars "Hi"); let* pid := fork in exit 0.

(** The memory of the process that calls [execve]: the name at 0x2000. *)
Definition boot_memory_of_init : proc :=
  Proc (list_to_map (zip (seqZ 0 4) [0; 0; 0; 0] ++ zip (seqZ 0x2000 10) (lit "/bin/init"))) [0x2000; 0] [].

Definition boot_cpu : cpu := Cpu 1 2 3 0 0.
Definition execve_next (y : system storage unit) : option (system storage unit) :=
  t ← progs y !! current (System.kernel y);
  match observe t with
  | VisF e kont =>
      (match e in userE A return (A -> prog unit) -> option (system storage unit) with
       | Execve path args => fun kont =>
           if bool_decide (path = lit "/bin/init" /\ args = None)
           then execve_step boot_binary 7 no_garbage exec_fresh boot_memory_of_init (1, 2) 0x2000 0 args kont y else None
       | _ => fun _ => None
       end) kont
  | _ => None
  end.

Fixpoint programs_run (n : nat) (y : system storage unit) : option (system storage unit) :=
  match n with O => Some y | S n => if halted (System.kernel y) then None else y ← program_step 7 boot_cpu y; programs_run n y end.
Definition boot_trace : option (system storage unit) :=
  match _kmain 4096 0x100000 7 (replicate 17 0) (replicate 16 0) (replicate 128 0) boot_cpu boot_start with
  | Ok (pid, b) =>
      let y := System (b_tasks b) (first_programs pid) in
      if halted (System.kernel y) then None
      else
        y ← timer_step boot_cpu y;
        if halted (System.kernel y) then None else y ← execve_next y; programs_run 3 y
  | _ => None
  end.

Lemma boot_name_held : holds no_garbage boot_memory_of_init 0x2000 (lit "/bin/init").
Proof.
  intros k c Hk. do 10 (destruct k as [|k]; [injection Hk as <-; split; vm_compute; reflexivity|]). discriminate Hk.
Qed.
Lemma execve_next_step y y' : halted (System.kernel y) = false -> execve_next y = Some y' -> step boot_binary y y'.
Proof.
  intros Hh. unfold execve_next. destruct (progs y !! current (System.kernel y)) as [t|] eqn:Et; [|done]. cbn [mbind option_bind].
  destruct (observe t) as [|t'|A e kont] eqn:Eo; [done|done|]. destruct e; try done. case_bool_decide as Hp; [|done]. destruct Hp as [-> ->].
  intros Hs. eapply step_execve; [done|exact Et|exact Eo|exact boot_name_held|reflexivity|exact Hs].
Qed.
Lemma programs_run_steps n : forall y y', programs_run n y = Some y' -> rtc (step boot_binary) y y'.
Proof.
  induction n as [|n IH]; intros y y'; cbn [programs_run]; [by intros [= <-]|]. destruct (halted (System.kernel y)) eqn:Eh; [done|].
  destruct (program_step 7 boot_cpu y) as [y1|] eqn:Ep; [|done]. cbn [mbind option_bind]. intros Hr. eapply rtc_l; [|by apply IH].
  by eapply step_program.
Qed.
Lemma boot_trace_steps y : boot_trace = Some y -> exists pid b,
  _kmain 4096 0x100000 7 (replicate 17 0) (replicate 16 0) (replicate 128 0) boot_cpu boot_start = Ok (pid, b) /\
  rtc (step boot_binary) (System (b_tasks b) (first_programs pid)) y.
Proof.
  unfold boot_trace. destruct (_kmain _ _ _ _ _ _ _ _) as [[pid b]| |]; [|done..]. cbv zeta. set (y0 := System _ _).
  destruct (halted (System.kernel y0)) eqn:E0; [done|]. destruct (timer_step boot_cpu y0) as [y1|] eqn:E1; [|done]. cbn [mbind option_bind].
  destruct (halted (System.kernel y1)) eqn:E2; [done|]. destruct (execve_next y1) as [y2|] eqn:E3; [|done]. cbn [mbind option_bind].
  intros Hr. exists pid, b. split; [done|]. eapply rtc_l; [by eapply step_timer|]. eapply rtc_l; [by eapply execve_next_step|].
  by eapply programs_run_steps.
Qed.

(** What the program says is on the screen, under the three lines of the boot. *)
Example boot_says_hi : (y ← boot_trace; Some (take 2 (drop 240 (screen (proj (fsd (kfs (env (System.kernel y))))))))) = Some [0x748; 0x769].
Proof. vm_compute. reflexivity. Qed.

Lemma descriptors_never_dangle_witness : exists y p f, boot_trace = Some y /\
  files (kfs (env (System.kernel y))) !! p = Some f /\ f_count f = 2 /\ sum_fds p (own (System.kernel y)) = 2.
Proof.
  assert (Hq : exists f p, (y ← boot_trace; files (kfs (env (System.kernel y))) !! p) = Some f /\ f_count f = 2).
  { eexists _, 10032. split; vm_compute; reflexivity. }
  destruct Hq as (f & p & Hq & Hc). destruct boot_trace as [y|] eqn:Ey; [|discriminate Hq]. cbn [mbind option_bind] in Hq.
  exists y, p, f. split; [reflexivity|]. split; [exact Hq|]. split; [exact Hc|]. destruct (boot_trace_steps y Ey) as (pid & b & Hb & Hs).
  pose proof (kernel_tables_quiet 0 (ret tt) (fun _ _ => ret tt) 1 0 exec_fresh (fun _ => None) (quiet_ret tt) (fun _ _ => quiet_ret tt)
    (fun _ _ E => ltac:(discriminate E)) 3) as Hquiet.
  destruct (descriptors_never_dangle boot_binary 4096 0x100000 7 (replicate 17 0) (replicate 16 0) (replicate 128 0) boot_cpu boot_start pid b y)
    as [Hcount _].
  - split; [reflexivity|repeat constructor|reflexivity|reflexivity].
  - exact Hb.
  - exact Hs.
  - destruct (Hcount p f Hq) as [Hsum _]. rewrite Hc in Hsum. symmetry. exact Hsum.
Defined.
