(* ===== verification/Fair.v ===== *)
(** * No process starves

    [Traps] shows that the timer is fair while nothing but the timer happens.
    Here the conditions it needs ([sched_ok], a running process) are kept by
    every step of [System]: from the boot on, whatever the programs have done,
    a process that waits is next within 64 timer interrupts. *)
From ITree Require Import ITree.
From S2P Require Import Prelude CString Abi Vfs Namei Mount Files Task Initrdfs Devfs Drivers Floppy Setup Traps Elf Exec Frames Refs Kernel Tables User System Kmain.
Open Scope nup_scope.

(** ** The numbers of the table *)

(** Entries keep their number, lose it, or get the one of their place. *)
Definition renumber (l l' : list task) : Prop :=
  length l' = length l /\
  forall i t', aget l' i = Some t' -> exists t, aget l i = Some t /\ (pid t' = pid t \/ pid t' = NO_TASK \/ pid t' = i).
#[export] Instance renumber_preorder : PreOrder renumber.
Proof.
  split; [intros l; split; [done|]; intros i t Ht; exists t; auto|]. intros l1 l2 l3 [L1 H1] [L2 H2]. split; [congruence|].
  intros i v Hv. destruct (H2 i v Hv) as (u & Hu & Hp). destruct (H1 i u Hu) as (t & Ht & Hq). exists t. split; [done|].
  destruct Hp as [-> | [-> | ->]]; auto.
Qed.

Lemma renumber_map l (f : task -> task) : (forall t, pid (f t) = pid t) -> renumber l (map f l).
Proof.
  intros Hf. split; [by rewrite length_map|]. intros i t'. unfold aget. case_match; [done|]. rewrite list_lookup_fmap.
  destruct (l !! Z.to_nat i) as [t|]; [|done]. intros [= <-]. exists t. split; [done|left; apply Hf].
Qed.
Lemma renumber_aset l i t u l' : aget l i = Some t -> (pid u = pid t \/ pid u = NO_TASK \/ pid u = i) -> aset l i u = Some l' -> renumber l l'.
Proof.
  intros Ht Hp Hs. split; [apply aset_inv in Hs as [_ ->]; by rewrite length_insert|]. intros j t' Hj.
  destruct (Z.eq_dec i j) as [<-|Hne]; [rewrite (aget_aset_eq _ _ _ _ Hs) in Hj; injection Hj as <-; by exists t|].
  rewrite (aget_aset_ne _ _ _ _ _ Hne Hs) in Hj. exists t'. auto.
Qed.
Lemma renumber_tame l l' : Forall2 tame l l' -> renumber l l'.
Proof.
  intros Hl. split; [symmetry; by eapply Forall2_length|]. intros i t'. unfold aget. case_match; [done|]. intros Ht'.
  destruct (Forall2_lookup_r _ _ _ _ _ Hl Ht') as (t & Ht & _ & _ & Hp). exists t. split; [done|]. destruct Hp; auto.
Qed.

(** A process runs, and what keeps that. *)
Section running.
Context {E : Type} `{TaskEnv E}.
Local Abbreviation K := (M (kstate E)).
Implicit Types k : kstate E.

Definition running k : Prop := exists t, aget (tasks k) (current k) = Some t /\ state t = TASK_RUNNING.
Record orderly k k' : Prop := {
  od_numbers : renumber (tasks k) (tasks k');
  od_runs : running k -> running k' }.
#[export] Instance orderly_preorder : PreOrder orderly.
Proof. split; [intros k; by split|]. intros k1 k2 k3 [N1 R1] [N2 R2]. split; [by etrans|auto]. Qed.

Lemma orderly_same k k' : tasks k' = tasks k -> current k' = current k -> orderly k k'.
Proof. intros Ht Hc. split; [by rewrite Ht|]. unfold running. by rewrite Ht, Hc. Qed.
Lemma orderly_on_env {A} (m : M E A) k a k' : on_env m k = Ok (a, k') -> orderly k k'.
Proof. unfold on_env. destruct (m (env k)) as [[b e]| |]; [|done..]. intros [= _ <-]. by apply orderly_same. Qed.
Lemma orderly_map k (f : task -> task) n : (forall t, pid (f t) = pid t /\ state (f t) = state t) ->
  orderly k (set_tasks (map f (take n (tasks k)) ++ drop n (tasks k)) k).
Proof.
  intros Hf. set (g := fun i t => if (i <? n)%nat then f t else t).
  assert (Hcell : forall i, aget (map f (take n (tasks k)) ++ drop n (tasks k)) i = (if i <? Z.of_nat n then fmap f else id) (aget (tasks k) i)).
  { intros i. unfold aget. destruct (i <? 0) eqn:Ei; [by case_match|]. destruct (decide (Z.to_nat i < length (tasks k))%nat) as [Hl|Hl]; cycle 1.
    - rewrite lookup_ge_None_2, (lookup_ge_None_2 (tasks k)) by (rewrite ?length_app, ?length_map, ?length_take, ?length_drop; lia). by case_match.
    - destruct (i <? Z.of_nat n) eqn:En.
      + rewrite lookup_app_l by (rewrite length_map, length_take; lia). rewrite list_lookup_fmap, lookup_take_lt by lia. done.
      + rewrite lookup_app_r by (rewrite length_map, length_take; lia). rewrite length_map, length_take, lookup_drop. cbn. f_equal. lia. }
  split.
  - split; [cbn; rewrite length_app, length_map, length_take, length_drop; lia|]. cbn [tasks set_tasks]. intros i t'. rewrite Hcell.
    case_match; destruct (aget (tasks k) i) as [t|]; intros [= <-]; exists t; (split; [done|left; apply Hf || done]).
  - intros (t & Ht & Hr). unfold running. cbn [tasks current set_tasks]. rewrite Hcell. destruct (_ <? _).
    + exists (f t). rewrite Ht. split; [done|]. by rewrite (proj2 (Hf t)).
    + by exists t.
Qed.
Lemma orderly_put i t u k x k' : aget (tasks k) i = Some t -> (pid u = pid t \/ pid u = NO_TASK \/ pid u = i) ->
  (i <> current k \/ state u = state t \/ state t <> TASK_RUNNING) -> put_task i u k = Ok (x, k') -> orderly k k' /\ current k' = current k /\
    forall j, aget (tasks k') j = if j =? i then Some u else aget (tasks k) j.
Proof.
  intros Ht Hp Hs (l & Hl & ->)%put_task_inv.
  assert (Hcell : forall j, aget l j = if j =? i then Some u else aget (tasks k) j).
  { intros j. destruct (Z.eqb_spec j i) as [->|Hne]; [by eapply aget_aset_eq|by eapply aget_aset_ne]. }
  split; [split; [by eapply renumber_aset|]|done]. intros (v & Hv & Hr). unfold running. cbn [tasks current set_tasks]. rewrite Hcell.
  destruct (Z.eqb_spec (current k) i) as [E'|]; [|by exists v]. exists u. split; [done|]. rewrite E', Ht in Hv. injection Hv as <-.
  destruct Hs as [|[|]]; congruence.
Qed.
End running.

(** ** The calls on processes *)

Section calls.
Context {E : Type} `{TaskEnv E}.
Implicit Types k : kstate E.

Lemma signal_all_same me sel sign l :
  Forall2 (fun t u => pid u = pid t /\ state u = state t) l (fst (fst (signal_all me sel sign l))).
Proof.
  induction l as [|t l IH]; cbn [signal_all]; [constructor|]. destruct (signal_all me sel sign l) as [[l' found] perm]. cbn in IH.
  case_match; [case_match|]; by constructor.
Qed.
Lemma orderly_cells k l' n : Forall2 (fun t u => pid u = pid t /\ state u = state t) (take n (tasks k)) l' ->
  orderly k (set_tasks (l' ++ drop n (tasks k)) k).
Proof.
  intros Hl. assert (Hall : Forall2 (fun t u => pid u = pid t /\ state u = state t) (tasks k) (l' ++ drop n (tasks k))).
  { rewrite <- (take_drop n (tasks k)) at 1. apply Forall2_app; [done|]. by apply Forall_Forall2_diag, Forall_forall. }
  split; cbn [tasks current set_tasks].
  - split; [symmetry; by eapply Forall2_length|]. intros i t'. unfold aget. case_match; [done|]. intros Ht'.
    destruct (Forall2_lookup_r _ _ _ _ _ Hall Ht') as (t & Ht & Hp & _). exists t. auto.
  - intros (t & [Hb Ht]%aget_inv & Hr). destruct (Forall2_lookup_l _ _ _ _ _ Hall Ht) as (u & Hu & _ & Hs). exists u. cbn [tasks current set_tasks].
    split; [|congruence]. unfold aget. by replace (current k <? 0) with false by lia.
Qed.
Lemma orderly_kill_where sel sign k x k' : kill_where sel sign k = Ok (x, k') -> orderly k k'.
Proof.
  unfold kill_where. intros (me & k1 & (-> & _)%get_current_inv & Hr)%bind_Ok. apply bind_Ok in Hr as (l & k1 & Hx & Hr). injection Hx as <- <-.
  pose proof (signal_all_same me sel sign (take (Z.to_nat NR_TASKS) (tasks k))) as Ht. destruct (signal_all _ _ _ _) as [[l' found] perm]. cbn in Ht.
  apply bind_Ok in Hr as (y & k1 & Hx & Hr). injection Hx as _ <-. apply (orderly_cells k) in Ht.
  destruct (negb found); [injection Hr as _ <-; done|]. destruct (negb perm); injection Hr as _ <-; done.
Qed.
Lemma orderly_kill p sign k x k' : sys_kill p sign k = Ok (x, k') -> orderly k k'.
Proof.
  unfold sys_kill. destruct (_ || _); [by intros [= _ <-]|]. intros (me & k1 & (-> & _)%get_current_inv & Hr)%bind_Ok.
  destruct (p =? 0); [by apply orderly_kill_where in Hr|]. destruct (p =? -1); [by apply orderly_kill_where in Hr|].
  destruct (p <? -1); [by apply orderly_kill_where in Hr|]. destruct (NR_TASKS <? p); [by injection Hr as _ <-|].
  apply bind_Ok in Hr as (t & k1 & (-> & Ht)%get_task_inv & Hr). destruct (pid t =? NO_TASK); [by injection Hr as _ <-|].
  destruct (send_signal me t sign); [|by injection Hr as _ <-]. apply bind_Ok in Hr as (y & k1 & Hx & Hr). injection Hr as _ <-.
  eapply orderly_put in Hx as [? _]; [done|done|by left|by right; left].
Qed.

(** Whatever ran before, a process runs after a switch. *)
Lemma switch_task_orderly r k x k' : switch_task r k = Ok (x, k') -> renumber (tasks k) (tasks k') /\ running k' /\ halted k' = halted k.
Proof.
  intros Hr. unfold switch_task in Hr. apply bind_Ok in Hr as (y & k1 & Hx & Hr). injection Hx as _ <-.
  apply bind_Ok in Hr as (c & k1 & Hx & Hr). injection Hx as <- <-. apply bind_Ok in Hr as (t & k1 & (-> & Ht)%get_task_inv & Hr). cbv zeta in Hr.
  apply bind_Ok in Hr as (y2 & k1 & Hx & Hr). apply put_task_inv in Hx as (l1 & Hl1 & ->).
  apply bind_Ok in Hr as (l & k2 & Hx & Hr). injection Hx as <- <-. apply bind_Ok in Hr as ([l n] & k2 & Hs & Hr). unfold get_or_fault in Hs.
  cbn [tasks current set_tasks set_interrupts] in *. destruct (schedule l1 (current k)) as [[l2 n2]|] eqn:Hsch; [|done]. injection Hs as -> -> <-.
  assert (Hl : l = wake_blocked l1).
  { unfold schedule in Hsch. destruct (aget (wake_blocked l1) (current k)) as [w|]; [|done]. cbn [mbind option_bind] in Hsch.
    destruct (next_runnable 64 (wake_blocked l1) (pid w + 1)); [|done]. by injection Hsch as <- _. }
  subst l. apply bind_Ok in Hr as (y3 & k2 & Hx & Hr). injection Hx as _ <-. apply bind_Ok in Hr as (y4 & k2 & Hx & Hr). injection Hx as _ <-.
  apply bind_Ok in Hr as (u & k2 & (-> & Hu)%get_task_inv & Hr). apply bind_Ok in Hr as (y5 & k2 & Hx & Hr). injection Hr as _ <-.
  apply put_task_inv in Hx as (l & Hl & ->). cbn [tasks current set_tasks set_interrupts set_current set_cpu] in *. split; [|split; [|done]].
  - etrans; [eapply renumber_aset; [exact Ht| |exact Hl1]; left; by case_match|]. etrans; [|eapply renumber_aset; [exact Hu| |exact Hl]; by left].
    apply renumber_map. intros v. by destruct (wakes v).
  - eexists. split; [cbn; by eapply aget_aset_eq|done].
Qed.

Lemma orderly_close_all n : forall k x k', close_all n k = Ok (x, k') -> orderly k k'.
Proof.
  induction n as [|n IH]; intros k x k'; cbn [close_all]; [by intros [= _ <-]|].
  intros (c & k1 & Hx & Hr)%bind_Ok. injection Hx as <- <-. apply bind_Ok in Hr as (t & k1 & (-> & Ht)%get_task_inv & Hr).
  apply bind_Ok in Hr as ([y f] & k1 & Hx & Hr). assert (O1 := orderly_on_env _ _ _ _ Hx). apply on_env_inv in Hx as (T1 & C1 & _).
  apply bind_Ok in Hr as (z & k2 & Hx & Hr). eapply orderly_put in Hx as [O2 _]; [|by rewrite T1|by left|by right; left].
  etrans; [exact O1|]. etrans; [exact O2|]. by eapply IH.
Qed.

(** What a call may do: it keeps the numbers, and a process runs again. *)
Definition served k k' : Prop := renumber (tasks k) (tasks k') /\ (running k -> running k').
Lemma orderly_served k k' : orderly k k' -> served k k'.
Proof. by intros [? ?]. Qed.

Lemma sys_exit_served status r k x k' : sys_exit status r k = Ok (x, k') -> served k k'.
Proof.
  intros Hr. unfold sys_exit in Hr. apply bind_Ok in Hr as (y1 & k1 & Hx & Hr). injection Hx as _ <-.
  apply bind_Ok in Hr as (me & k1 & (-> & _)%get_current_inv & Hr). apply bind_Ok in Hr as (l & k1 & Hx & Hr). injection Hx as <- <-.
  apply bind_Ok in Hr as (y2 & k1 & Hx & Hr). injection Hx as _ <-. cbn [tasks set_interrupts] in Hr.
  assert (O1 : orderly k (set_tasks (map (orphan me) (take (Z.to_nat NR_TASKS) (tasks k)) ++ drop (Z.to_nat NR_TASKS) (tasks k)) (set_interrupts false k))).
  { etrans; [|apply (orderly_map (set_interrupts false k))]; [by apply orderly_same|]. intros t. unfold orphan. by case_match. }
  set (k1 := set_tasks _ _) in *. apply bind_Ok in Hr as (y3 & k2 & Hx & Hr). apply orderly_close_all in Hx as O2.
  apply bind_Ok in Hr as (c & k3 & Hx3 & Hr). injection Hx3 as <- <-. apply bind_Ok in Hr as (t & k3 & (-> & Ht)%get_task_inv & Hr).
  assert (O : orderly k k2) by by etrans. destruct (pid t =? 0).
  { apply bind_Ok in Hr as (y4 & k3 & Hx4 & Hr). injection Hx4 as _ <-. injection Hr as _ <-. apply orderly_served. etrans; [exact O|]. by apply orderly_same. }
  apply bind_Ok in Hr as (y4 & k3 & Hx4 & Hr). apply put_task_inv in Hx4 as (l & Hl & ->).
  apply bind_Ok in Hr as (y5 & k4 & O4%orderly_kill & Hr). apply bind_Ok in Hr as (y6 & k5 & O5%orderly_on_env & Hr).
  apply bind_Ok in Hr as (y7 & k6 & O6%orderly_on_env & Hr). apply bind_Ok in Hr as (y8 & k7 & (N7 & R7 & _)%switch_task_orderly & Hr). injection Hr as _ <-.
  split; [|done]. etrans; [apply O|]. etrans; [eapply renumber_aset; [exact Ht| |exact Hl]; by left|]. cbn [tasks set_tasks] in O4.
  etrans; [apply O4|]. etrans; [apply O5|]. etrans; [apply O6|exact N7].
Qed.

Lemma sys_pause_served r k x k' : sys_pause r k = Ok (x, k') -> served k k'.
Proof.
  intros Hr. unfold sys_pause in Hr. apply bind_Ok in Hr as (c & k1 & Hx & Hr). injection Hx as <- <-.
  apply bind_Ok in Hr as (t & k1 & (-> & Ht)%get_task_inv & Hr). apply bind_Ok in Hr as (y & k1 & Hx & Hr). apply put_task_inv in Hx as (l & Hl & ->).
  apply bind_Ok in Hr as (y2 & k2 & (N & R & _)%switch_task_orderly & Hr). injection Hr as _ <-. split; [|done].
  etrans; [eapply renumber_aset; [exact Ht| |exact Hl]; by left|exact N].
Qed.

Lemma sys_waitpid_served p statloc k x k' : sys_waitpid p statloc k = Ok (x, k') -> served k k'.
Proof.
  unfold sys_waitpid. destruct (_ || _); [by intros [= _ <-]|]. intros (t & k1 & (-> & Ht)%get_task_inv & Hr)%bind_Ok.
  destruct (negb _) eqn:Es; [by injection Hr as _ <-|]. apply bind_Ok in Hr as (y & k1 & Hx & Hr). injection Hr as _ <-.
  apply orderly_served. eapply orderly_put in Hx as [O _]; [exact O|exact Ht|by right; left|]. right. by left.
Qed.

Lemma orderly_ref_files l : forall k x k', ref_files l k = Ok (x, k') -> orderly k k'.
Proof.
  induction l as [|p l IH]; intros k x k'; cbn [ref_files]; [by intros [= _ <-]|]. intros (y & k1 & Hx & Hr)%bind_Ok.
  etrans; [|by eapply IH]. destruct (negb _); [by eapply orderly_on_env|by injection Hx as _ <-].
Qed.
Lemma sys_fork_served r k x k' : 0 <= current k < NR_TASKS -> (exists t, aget (tasks k) (current k) = Some t /\ pid t <> NO_TASK) ->
  sys_fork r k = Ok (x, k') -> served k k'.
Proof.
  intros Hc (t & Ht & Hpt) Hr. unfold sys_fork in Hr. apply bind_Ok in Hr as (y1 & k1 & Hx & Hr). injection Hx as _ <-.
  apply bind_Ok in Hr as (c & k1 & Hx & Hr). injection Hx as <- <-. apply bind_Ok in Hr as (l & k1 & Hx & Hr). injection Hx as <- <-.
  cbn [tasks current set_interrupts] in Hr. apply bind_Ok in Hr as (i & k1 & Hx & Hr). unfold get_or_fault in Hx.
  destruct (free_slot _ (tasks k) 0) as [i'|] eqn:Ef; [|done]. injection Hx as -> <-. apply free_slot_spec in Ef as (Hib & _ & Hfree); [|lia].
  assert (O0 : orderly k (set_interrupts false k)) by by apply orderly_same.
  destruct (Z.eqb_spec i NR_TASKS) as [->|Hin]; [injection Hr as _ <-; by apply orderly_served|].
  destruct Hfree as (d & Hd & Hdp); [unfold NR_TASKS in *; lia|]. assert (Hic : i <> current k) by (intros ->; rewrite Ht in Hd; by injection Hd as <-).
  apply bind_Ok in Hr as (p & k1 & (-> & _) %get_task_inv & Hr). apply bind_Ok in Hr as (dir & k1 & Hx & Hr).
  assert (O1 := orderly_on_env _ _ _ _ Hx). apply on_env_inv in Hx as (T1 & C1 & _). cbn [tasks current set_interrupts] in T1, C1.
  apply bind_Ok in Hr as (y2 & k2 & Hx & Hr). eapply orderly_put in Hx as (O2 & _); [|rewrite T1; exact Hd|right; by right|left; by rewrite C1].
  apply bind_Ok in Hr as (y3 & k3 & O3%orderly_ref_files & Hr). apply bind_Ok in Hr as (y4 & k4 & Hx4 & Hr).
  assert (O4 : orderly k3 k4) by (revert Hx4; destruct (negb (t_pwd (tfs p) =? 0)); [apply orderly_on_env|by intros [= _ <-]]).
  apply bind_Ok in Hr as (y5 & k5 & Hx5 & Hr). assert (O5 : orderly k4 k5) by (revert Hx5; destruct (negb (t_root (tfs p) =? 0)); [apply orderly_on_env|by intros [= _ <-]]).
  apply bind_Ok in Hr as (ks & k6 & O6%orderly_on_env & Hr). apply bind_Ok in Hr as (q & k7 & (-> & Hq)%get_task_inv & Hr).
  apply bind_Ok in Hr as (y7 & k7 & Hx7 & Hr). eapply orderly_put in Hx7 as (O7 & _); [|exact Hq|by left|by right; left].
  apply bind_Ok in Hr as (n & k8 & (-> & Hn)%get_task_inv & Hr). apply bind_Ok in Hr as (y8 & k8 & Hx8 & Hr).
  eapply orderly_put in Hx8 as (O8 & _); [|exact Hn|by left|by right; left]. apply bind_Ok in Hr as (y9 & k9 & Hx9 & Hr). injection Hx9 as _ <-. injection Hr as _ <-.
  apply orderly_served. do 9 (etrans; [eassumption|]). by apply orderly_same.
Qed.
End calls.

(** ** Every step serves *)

Section serving.
Context {F P : Type} `{FsQuiet F} `{MemEnv P} (binary : list Z -> option (list (list Z)) -> prog unit).
Implicit Types y : system F P.
Implicit Types k : kstate (kenv F P).

Definition numbered k : Prop := forall i t, 0 <= i < NR_TASKS -> aget (tasks k) i = Some t -> pid t = i \/ pid t = NO_TASK.
Definition fair k : Prop := numbered k /\ running k.
Lemma served_fair k k' : served k k' -> fair k -> fair k'.
Proof.
  intros [[_ N] R] [Hn Hr]. split; [|auto]. intros i t' Hi Ht'. destruct (N i t' Ht') as (t & Ht & Hp). destruct (Hn i t Hi Ht) as [E|E]; rewrite E in Hp; tauto.
Qed.

Lemma file_call_served {A} (m : M (vstate F) A) k a k' : file_call m k = Ok (a, k') -> served k k'.
Proof.
  unfold file_call. intros (c & k1 & Hx & Hr)%bind_Ok. injection Hx as <- <-. apply bind_Ok in Hr as (t & k1 & (-> & Ht)%get_task_inv & Hr).
  apply bind_Ok in Hr as ([b f] & k1 & Hx & Hr). assert (O1 := orderly_on_env _ _ _ _ Hx). apply on_env_inv in Hx as (T1 & C1 & _).
  apply bind_Ok in Hr as (y & k2 & Hx & Hr). injection Hr as _ <-. eapply orderly_put in Hx as [O2 _]; [|by rewrite T1|by left|by right; left].
  apply orderly_served. by etrans.
Qed.

Definition serves {A} (m : M (kstate (kenv F P)) A) : Prop := forall k a k', m k = Ok (a, k') -> served k k'.
Lemma serves_get {A} (f : task -> A) : serves (let! t := get_current in ret (f t)).
Proof. intros k a k' (t & k1 & (-> & _)%get_current_inv & Hr)%bind_Ok. injection Hr as _ <-. by apply orderly_served. Qed.
Lemma serves_answer {A} (a : A) : serves (ret a).
Proof. intros k b k' [= _ <-]. by apply orderly_served. Qed.
Lemma serves_kill p sign : serves (sys_kill p sign).
Proof. intros k a k' Hr. by eapply orderly_served, orderly_kill. Qed.
Lemma serves_file {A} (m : M (vstate F) A) : serves (file_call m).
Proof. intros k a k'. apply file_call_served. Qed.
Lemma serves_pause r : serves (sys_pause r).
Proof. intros k a k'. apply sys_pause_served. Qed.
Create HintDb serves.
#[local] Hint Resolve serves_answer serves_kill serves_file serves_pause : serves.
#[local] Hint Extern 1 (serves sys_getpid) => apply serves_get : serves.
#[local] Hint Extern 1 (serves sys_getppid) => apply serves_get : serves.

Lemma reply_served {A} (m : M (kstate (kenv F P)) A) kont y y' : serves m -> reply m kont y = Some y' -> served (kernel y) (kernel y').
Proof. intros Hm. unfold reply. destruct (m (kernel y)) as [[a k]| |] eqn:E; [|done..]. intros [= <-]. by eapply Hm. Qed.
Lemma exit_served status r y y' : reply_exit (sys_exit status r) y = Some y' -> served (kernel y) (kernel y').
Proof. unfold reply_exit. destruct (sys_exit status r (kernel y)) as [[a k]| |] eqn:E; [|done..]. intros [= <-]. by eapply sys_exit_served. Qed.
Lemma alive_number k : runs_alive k -> 0 <= current k < NR_TASKS /\ exists t, aget (tasks k) (current k) = Some t /\ pid t <> NO_TASK.
Proof. intros [_ Hc (t & Ht & Hd)]. split; [done|]. exists t. split; [done|]. intros Hp. apply Hd. by left. Qed.

Lemma system_call_served garbage r {A} (e : userE A) kont y y' : system_ok y -> system_call garbage r e kont y = Some y' ->
  served (kernel y) (kernel y').
Proof.
  intros [Hf Ha]. destruct e as [| | | | | | | | | | | | p| | | | | | | | |]; cbn [system_call]; try done; try (apply reply_served; auto with serves; fail).
  - apply exit_served.
  - unfold reply_fork. destruct (sys_fork r (kernel y)) as [[i k]| |] eqn:E; [|done..]. intros [= <-].
    destruct (alive_number _ Ha). by eapply sys_fork_served.
  - unfold reply_wait. destruct (sys_waitpid p true (kernel y)) as [[[[a code]|] k]| |] eqn:E; [|done..]. intros [= <-]. by eapply sys_waitpid_served.
  - unfold reply_reboot. destruct (aget _ _) as [t|]; [|done]. cbn [mbind option_bind]. destruct (I_AM_ROOT _); [done|]. apply reply_served; auto with serves.
Qed.

Lemma step_served y y' : system_ok y -> step binary y y' -> served (kernel y) (kernel y').
Proof.
  intros Hok [garbage r _ Hs|garbage mem fresh p regs file argv path args t kont _ _ _ _ _ Hs|r _ Hs|m _ _ Hs|r _ Hs].
  - unfold program_step in Hs. destruct (progs y !! current (kernel y)) as [t|]; [|done]. cbn [mbind option_bind] in Hs.
    destruct (observe t) as [|t'|A e kont]; [done|injection Hs as <-; by apply orderly_served|]. by eapply system_call_served.
  - unfold execve_step in Hs. destruct (file_call _ (kernel y)) as [[[r p'] k]| |] eqn:E; [|done..]. injection Hs as <-. by eapply file_call_served.
  - unfold timer_step in Hs. destruct (switch_task r (kernel y)) as [[a k]| |] eqn:E; [|done..]. injection Hs as <-.
    apply switch_task_orderly in E as (N & R & _). by split.
  - unfold device_step in Hs. destruct (file_call m (kernel y)) as [[a k]| |] eqn:E; [|done..]. injection Hs as <-. by eapply file_call_served.
  - by apply exit_served in Hs.
Qed.
Lemma steps_fair y y' : system_ok y -> fair (kernel y) -> rtc (step binary) y y' -> system_ok y' /\ fair (kernel y').
Proof.
  intros Hok Hfair Hs. induction Hs as [|y y1 y' Hs _ IH]; [done|]. apply IH; [by apply (step_ok binary y)|]. by eapply served_fair, Hfair; apply step_served.
Qed.

(** What [Traps] asks of the table. *)
Lemma fair_sched_ok y : system_ok y -> fair (kernel y) -> sched_ok (kernel y).
Proof.
  intros [Hf Ha] [Hn _]. destruct (alive_number _ Ha) as (Hc & t & Ht & Hp). destruct (ra_zero _ Ha) as (t0 & Hz & _ & Hp0). split.
  - apply (fc_len _ Hf).
  - exact Hn.
  - by exists t0.
  - split; [done|]. exists t. split; [done|]. by destruct (Hn _ t Hc Ht).
Qed.
End serving.

(** ** From the boot on *)

Section starvation.
Context {F P : Type} `{FsQuiet F} `{Sub devfs_state F} `{Sub drv_state F} `{Sub fdc F} `{Sub console_state F} `{MemEnv P}.
Context (binary : list Z -> option (list (list Z)) -> prog unit).
Implicit Types y : system F P.

Lemma setup_tasking_fair dir (k : kstate (kenv F P)) x k' : length (tasks k) = 65%nat -> setup_tasking dir k = Ok (x, k') -> fair k'.
Proof.
  intros L Hr. unfold setup_tasking in Hr. apply bind_Ok in Hr as (y1 & k1 & Hx & Hr). injection Hx as _ <-.
  apply bind_Ok in Hr as (l & k1 & Hx & Hr). injection Hx as <- <-. cbn [tasks set_interrupts] in Hr.
  apply bind_Ok in Hr as (y2 & k1 & Hx & Hr). injection Hx as _ <-. apply bind_Ok in Hr as (y3 & k1 & Hx & Hr). injection Hx as _ <-.
  apply bind_Ok in Hr as (ks & k1 & Hx & Hr). apply on_env_inv in Hx as (T1 & C1 & _).
  apply bind_Ok in Hr as (y4 & k2 & Hx & Hr). apply put_task_inv in Hx as (l & Hl & ->). injection Hr as _ <-.
  set (base := _ ++ _ ++ _) in *. cbn [tasks current env set_tasks set_current set_interrupts] in *. rewrite T1 in Hl. split.
  - intros i t Hi Ht. cbn [tasks set_interrupts set_tasks] in Ht. destruct (Z.eq_dec 0 i) as [<-|Hne].
    { rewrite (aget_aset_eq _ _ _ _ Hl) in Ht. injection Ht as <-. by left. }
    rewrite (aget_aset_ne _ _ _ _ _ Hne Hl) in Ht. apply aget_inv in Ht as [_ Ht]. right. unfold base, NR_TASKS in *.
    rewrite lookup_app_r in Ht by (rewrite length_take; lia). rewrite length_take in Ht.
    rewrite lookup_app_l in Ht by (rewrite length_map, length_drop, length_take; lia). rewrite list_lookup_fmap in Ht.
    destruct (drop 1 (take (Z.to_nat 64) (tasks k)) !! (Z.to_nat i - (1 `min` length (tasks k)))%nat); [|done]. by injection Ht as <-.
  - exists (first_task dir ks). cbn [tasks current set_interrupts set_tasks]. rewrite C1. split; [by eapply aget_aset_eq|done].
Qed.

Lemma set_up_fair dir location status filename0 inbuf esc (b : booting F P) x b' :
  length (tasks (b_tasks b)) = 65%nat -> set_up dir location status filename0 inbuf esc b = Ok (x, b') -> fair (b_tasks b').
Proof.
  intros Hl Hr. unfold set_up in Hr.
  apply bind_Ok in Hr as (x1 & b1 & Hx%on_tasks_inv & Hr). apply setup_tasking_fair in Hx; [|done].
  apply bind_Ok in Hr as (x2 & b2 & H2'%on_tasks_inv%file_call_served & Hr). apply bind_Ok in Hr as (x3 & b3 & H3'%on_tasks_inv%file_call_served & Hr).
  apply bind_Ok in Hr as (x4 & b4 & H4'%on_tasks_inv%file_call_served & Hr). apply bind_Ok in Hr as (x5 & b5 & H5'%on_tasks_inv%file_call_served & Hr).
  apply bind_Ok in Hr as (x6 & b6 & H6'%on_drivers_inv%file_call_served & Hr). apply bind_Ok in Hr as (x7 & b7 & H7'%on_drivers_inv%file_call_served & Hr).
  apply on_drivers_inv, file_call_served in Hr. eauto 10 using served_fair.
Qed.
Lemma kmain_fair dir location status filename0 inbuf esc r (b : booting F P) pid b' :
  clear (b_tasks b) -> _kmain dir location status filename0 inbuf esc r b = Ok (pid, b') -> fair (b_tasks b').
Proof.
  intros Hc (x & b1 & Hx & Hr)%bind_Ok. destruct (set_up_ok _ _ _ _ _ _ _ _ _ Hc Hx) as [_ Ha]. apply set_up_fair in Hx; [|apply Hc].
  apply on_tasks_inv in Hr. destruct (alive_number _ Ha). eapply served_fair, Hx. by eapply sys_fork_served.
Qed.

(** The timer alone, [rs] being what each process holds when it is interrupted. *)
Fixpoint timer_steps (rs : list cpu) y : option (system F P) :=
  match rs with [] => Some y | r :: rs => y ← timer_step r y; timer_steps rs y end.
Lemma switches_steps rs : forall y k, halted (kernel y) = false -> switches rs (kernel y) = Ok (tt, k) ->
  timer_steps rs y = Some (System k (progs y)) /\ rtc (step binary) y (System k (progs y)).
Proof.
  induction rs as [|r rs IH]; intros y k Hh; cbn [switches timer_steps].
  { intros [= <-]. by destruct y. }
  intros (x & k1 & Hs & Hr)%bind_Ok. pose proof (switch_task_orderly _ _ _ _ Hs) as (_ & _ & Hh1). set (y1 := System k1 (progs y)).
  assert (Ht : timer_step r y = Some y1) by (unfold timer_step; by rewrite Hs). rewrite Ht. cbn [mbind option_bind].
  destruct (IH y1 k) as [E R]; [cbn; congruence|exact Hr|]. split; [exact E|]. eapply rtc_l; [by apply (step_timer binary y y1 r)|exact R].
Qed.

End starvation.

(** The child that /bin/init forked in [Kmain] gets its turn. *)
#[local] Existing Instance boot_tables.
#[local] Existing Instance boot_memory.

